(* ===== verification/_CoqProject ===== *)
-Q . S2P
Prelude.v
ListHead.v
Machine.v
Utilities.v
Kernel.v
View.v
Pcb.v
Asl.v
Scheduler.v
Invariant.v
Process.v
Dispatch.v
Semaphores.v
Contract.v
Syscall.v
Exception.v
Trap.v
Lifecycle.v
Init.v
Run.v
Typed.v
Properties.v
Behaviour.v
Rounds.v
Requests.v
Locks.v
Clock.v
Printf.v
Render.v
Targets.v
Printing.v
P1test.v
P1run.v
SupportLevel.v
Pager.v
Paging.v
Virtual.v
Coherence.v
Support.v
Uprocs.v
Instantiator.v
Reading.v
Ending.v
