(* ===== verification/Prelude.v ===== *)
(** * PandOS+ : a verification development

    PandOS+ is a small operating system for the uMPS3 machine, a MIPS
    simulator: a nucleus (phases 1 and 2) and a support level with virtual
    memory for eight user processes (phase 3).  This library models the C
    sources of all three phases as executable functions and proves what they
    are meant to do.

    ** The program and the files that model it

    A C function is a function from the state it runs in to a result
    ([res] below): [Ok] is a return, [Exit] a call that never comes back
    (the BIOS services HALT, PANIC, WAIT, LDST, LDCXT, or an address exception
    in the nucleus), [Fault] is undefined behaviour (a NULL or wild pointer, a
    write outside an array), [NoFuel] a loop that outlives its fuel.

    - [ListHead]: [os/include/os/list.h] and the list helpers of
      [os/include/os/util.h], pointer write by pointer write on a map of
      [list_head] cells; [dll] and [repr] say which cells form which circular
      lists.  [Utilities]: the rest of the two files, [pandos_memcpy], the
      traversals of entries and [list_print].
    - [Machine]: 32-bit integers, [os/include/os/const.h], the status and
      cause bits of [phase2/src/processor.c].  What the sources take from the
      uMPS3 headers, which are not in the repository, is the class [Umps], and
      [UmpsLaws] states the documented values; [umps3] is an instance.
    - [Kernel]: the structures of [os/include/os/types.h] and
      [arch/processor.h] and the whole state of the nucleus as one record.
    - [View], [Pcb], [Asl]: the abstract state (queues, process tree, a map from
      semaphores to waiting processes) and [os/src/pcb.c], [os/src/asl.c]
      against it.
    - [Scheduler], [Invariant], [Process], [Dispatch]: [os/src/scheduler.c];
      [Inv] relates the concrete tables to the abstract view.
    - [Semaphores]: [os/src/semaphores.c], [phase2/src/semaphores.c] and
      [phase2/src/devices.c].
    - [Contract]: the interface ([Service], [Interrupt]) between the handlers
      and the scheduler, with the relations that say what running, waiting
      and resting states are.
    - [Syscall]: [os/src/syscall.c] and [os/src/puod.c]; [Exception]:
      [phase2/src/exception.c]; [Trap]: system calls from the trap to the
      return, through both; [Lifecycle]: the births and deaths of processes
      there, and [os/src/puod.c]; [Init]: [os/src/init.c], [phase2/src/main.c];
      [Run]: runs of the machine, the boot and then any exceptions; [Typed]:
      the types of the state, and the judgement [keeps] that every function of
      the nucleus preserves them.
    - [Rounds], [Requests], [Clock], [Locks]: what takes several exceptions: the
      rounds of time slices, a request to a device from the call to the answer,
      a wait for the clock, and a semaphore that is used as a lock, against the
      abstract lock (a list of processes, the holder first).
    - [Printf]: [os/src/util.c], the format interpreter and its writers;
      [Render]: the text a format stands for and the interface of a writer
      ([Prints], [Guarded]); [Targets]: the three writers meet it.
    - [P1test]: [phase1/src/p1test.c], the program that exercises the tables,
      with its own terminal driver; [P1run]: it runs on every machine as on the
      reference machine (a simulation over the addresses and the terminal).
    - [SupportLevel]: the state of phase 3 and the classes [Nucleus] (what
      SYSCALL does), [Tlb] (the TLB instructions) and [Layout] (addresses of
      the linker); [Pager]: [phase3/src/pager.c], [phase3/src/storage.c];
      [Paging]: the invariant of the Swap Pool and every step of the pager;
      [Coherence]: the page table and the TLB, whose laws are [TlbLaws];
      [Support]: [phase3/src/support.c], [phase3/src/test.c].

    The claims are in [Properties], [Behaviour], [Rounds], [Requests], [Clock],
    [Locks], [Typed], [Printing], [P1run], [Virtual], [Coherence], [Uprocs],
    [Instantiator], [Reading] and [Ending], each with an instance at a concrete
    state.

    ** What the theorems show

    - [Properties], the tables and the scheduler: kill_progeny kills exactly
      the descendants; schedule runs the first ready process by priority, and
      with none ready waits or halts but never reports a deadlock; P and V and the semaphore
      list refine the abstract queues; spawn_process and find_process; the
      device semaphores are distinct; the boot establishes the invariant.
    - [Behaviour], the nucleus as a whole: every run is free of faults and
      endless loops and keeps the invariant, as long as devices only interrupt
      when someone waits for them; each system call from
      the trap to the process that runs next (CREATEPROCESS, TERMPROCESS, the
      semaphores, the queries, YIELD, and every call that the nucleus refuses);
      the other exceptions, passed up or deadly; the time slice; an interrupt
      that nobody waits for faults (a bug of the code).
    - [Rounds]: whatever happens between the time slices, the processes of one
      priority run in turn, each within one round.  [Requests]: DOIO writes the
      command and waits, and the interrupt of that device lets the caller go on
      with its status, for every device and sub-device and whatever runs
      meanwhile.  [Clock]: CLOCKWAIT waits, and the tick makes all that wait
      ready; the first call after a tick does not wait.  [Locks]: PASSEREN and
      VERHOGEN on a semaphore that starts at 1 refine a lock that serves its
      processes in the order in which they ask.
    - [Typed]: in every run all words of memory and of saved states are 32-bit
      words, times are [int]s and priorities 0 or 1: whatever the nucleus does
      in a typed state leaves one, and it serves every exception there but an
      interrupt that nobody waits for.
    - [P1run]: the phase 1 test succeeds on every machine and terminal.
    - [Printing]: the power function; printed numbers read back; a print into
      a string leaves the text, never leaves the buffer, and is unterminated
      when a text that does not end in a number just fits, or is empty; the log in memory is the last 101 lines; a terminal
      that answers receives the text.
    - [Virtual]: frames are victims in turn, addresses and page table entries
      correspond, a dead process gives back the pool and its frames; evicting a
      page of another process leaves it mapped there, so that two processes
      share the frame (a bug of the code).
      [Coherence]: a page fault is served and the access that faulted finds its
      page; the TLB has no entry for the running process that its page table
      does not have.
    - [Uprocs]: the Support Structures are a stack; the writing services give
      the device the string, up to the first status that is an error.
      [Instantiator]: the eight processes are created, each with a Support
      Structure of its own, that no process had before, filled in as it
      should be; or an unreadable program ends the instantiator, or the machine
      stops.  [Reading]: READTERMINAL stores the line that
      is typed, or stops at the first error.
    - [Ending], both levels together: a U-proc that asks for its end gives
      everything back, but its TERMPROCESS is handed up to its own handler,
      which stops the machine (a bug of the code).

    ** Fuel

    [list_fuel] and [support_fuel] exceed the length of every list ([MAX_PROC]
    or [UPROCMAX] elements and the sentinel); [kill_fuel] exceeds the number
    of PCBs, hence the depth of the process tree; [timer_fuel] is two more
    than the number of PCBs, since each turn but the last two wakes a process;
    [itoa_fuel] exceeds the bits of an [int].  The theorems prove a result
    with that fuel.  [term_putchar] and the test of phase 1 take the fuel of their
    busy loops as an argument, and [Responsive] and [Accepting] tie it to the
    device; [sys_read_terminal] takes two more than the length of the line as
    fuel; the traversals of [ListHead] and [Utilities] need more than the
    length of the list.

    ** Assumptions

    [TlbLaws] says what the TLB instructions do, as the manual of the machine
    has it; the TLB of [Virtual], of sixteen entries, satisfies it.
    Memory is typed: the words, the saved states and the Support Structures
    that the nucleus reads through addresses are disjoint from its own tables;
    every aligned word can be read, 0 by default.  [int] arithmetic wraps.
    [tod n] is the n-th reading of the clock.  WAIT ends a run of the nucleus
    and the next interrupt starts another one.  Messages are recorded in
    [klog] and [slog] unrendered; [Printf] models the rendering.  Device
    interrupts are raised for devices whose semaphore is not 1 ([device_due],
    [well_interrupted]); an interrupt of another device faults.
    In phase 3, [NucleusLaws] says what a system call may do.  Other processes
    run inside GETSUPPORTPTR, PASSEREN, VERHOGEN and DOIO.  They leave the
    caller's own Support Structure alone and keep the pool consistent; of
    theirs they may change everything but the page tables that the pool points
    into, and those too unless the caller holds the pool.  While it does, the
    frames stay as they are or are vacated by a process that ends; after
    VERHOGEN the pool may be in other hands.  DOIO is only called on the flash
    devices of the U-procs, by who holds the pool, or by the instantiator for a
    process that does not exist yet.  A blocked call returns.  TERMINATE and
    TERMPROCESS with pid 0 are handed up with the caller's registers, as
    [Behaviour.calls_are_handed_up] proves of the nucleus.
    [ServiceLaws] says that a service may take and release the semaphores of
    its own devices; [PrintingLaws] and [TypingLaws] add a device that answers
    with given statuses.  [EndLaws] is for a process that ends while the others
    and the instantiator wait or go on.  [InstantiatorLaws] is for the
    instantiator while it creates: the others run, and the machine may stop, as
    it does when one of them ends.
    Accesses of the support level to the memory of its process do not fault.

    ** Not modelled

    [phase2/test], [phase3/test] and [test] are tests and user programs;
    [machines] holds configurations.  [store_state] has no caller and only
    wraps a BIOS service.  The BIOS, the devices and the TLB are the machine.
    That the nucleus of [Syscall] meets [NucleusLaws] is not proved: the two
    models have separate states.  What each law takes from the nucleus is
    proved there: GETSUPPORTPTR answers ([Behaviour.trap_answers]), PASSEREN and
    VERHOGEN hand the pool over in order ([Locks.fifo_lock]), DOIO returns the
    status of the device ([Requests.io_request_served]), and TERMINATE is handed
    up with the registers of the caller ([Behaviour.calls_are_handed_up]); that
    the other processes leave the caller's data alone in between is the
    assumption. *)

From Stdlib Require Import ZArith Lia String.
From stdpp Require Import base tactics option list gmap.

#[global] Set Default Goal Selector "!".

(** ** The effect of a C function

    A C function of the kernel is a function from the state it runs in to one
    of four results.  [Ok] is a [return]; [Exit] is a call that never comes
    back to its caller (the BIOS services [HALT], [PANIC], [WAIT], [LDST],
    [LDCXT], or an address exception); [Fault] is undefined behaviour (a NULL
    or wild pointer is dereferenced); [NoFuel] says that a loop used up its
    fuel, and every theorem below excludes it. *)

Inductive res (S E A : Type) : Type :=
| Ok (a : A) (s : S)
| Exit (e : E) (s : S)
| Fault (why : string)
| NoFuel.

Arguments Ok {S E A} _ _.
Arguments Exit {S E A} _ _.
Arguments Fault {S E A} _.
Arguments NoFuel {S E A}.

Definition M (S E A : Type) : Type := S -> res S E A.

Definition ret {S E A} (a : A) : M S E A := fun s => Ok a s.

Definition bind {S E A B} (m : M S E A) (k : A -> M S E B) : M S E B :=
  fun s =>
    match m s with
    | Ok a s' => k a s'
    | Exit e s' => Exit e s'
    | Fault w => Fault w
    | NoFuel => NoFuel
    end.

Definition get {S E} : M S E S := fun s => Ok s s.
Definition gets {S E A} (f : S -> A) : M S E A := fun s => Ok (f s) s.
Definition modify {S E} (f : S -> S) : M S E unit := fun s => Ok tt (f s).
Definition exit {S E A} (e : E) : M S E A := fun s => Exit e s.
Definition fault {S E A} (why : string) : M S E A := fun _ => Fault why.
Definition no_fuel {S E A} : M S E A := fun _ => NoFuel.

(** A NULL or wild pointer is a [None]: using it is a fault. *)
Definition ok_or {S E A} (why : string) (o : option A) : M S E A :=
  match o with
  | Some a => ret a
  | None => fault why
  end.

Arguments bind : simpl never.

Declare Scope kernel_scope.
Delimit Scope kernel_scope with K.
Notation "x <- m ;; k" := (bind m (fun x => k))
  (at level 100, m at next level, k at level 200, right associativity)
  : kernel_scope.
Notation "m1 ;; m2" := (bind m1 (fun _ => m2))
  (at level 100, m2 at level 200, right associativity) : kernel_scope.
Notation "'when' b 'do' m" := (if b then m else ret tt)
  (at level 60, m at level 60) : kernel_scope.

Open Scope kernel_scope.

(** A computation that works on a part of the state and never exits, run in
    the whole state. *)
Definition zoom {S T E A} (rd : T -> S) (wr : S -> T -> T)
    (m : M S Empty_set A) : M T E A :=
  fun t =>
    match m (rd t) with
    | Ok a s => Ok a (wr s t)
    | Exit e _ => match e with end
    | Fault w => Fault w
    | NoFuel => NoFuel
    end.

(** [for (i = a; i < a + n; ++i) body]. *)
Fixpoint for_ {S E} (n a : nat) (body : nat -> M S E unit) : M S E unit :=
  match n with
  | O => ret tt
  | Datatypes.S n' => body a ;; for_ n' (Datatypes.S a) body
  end.

Arguments zoom : simpl never.

(** ** Equations of the monad *)

Section monad_laws.
Context {S E : Type}.

Lemma bind_ok {A B} (m : M S E A) (k : A -> M S E B) s a s' :
  m s = Ok a s' -> bind m k s = k a s'.
Proof. unfold bind. by intros ->. Qed.

Lemma bind_exit {A B} (m : M S E A) (k : A -> M S E B) s e s' :
  m s = Exit e s' -> bind m k s = Exit e s'.
Proof. unfold bind. by intros ->. Qed.

Lemma bind_ext {A B} (m : M S E A) (k k' : A -> M S E B) s :
  (forall a s', k a s' = k' a s') -> bind m k s = bind m k' s.
Proof. unfold bind. intros Hk. destruct (m s); auto. Qed.

Lemma bind_ret_l {A B} (a : A) (k : A -> M S E B) s : bind (ret a) k s = k a s.
Proof. done. Qed.

Lemma bind_assoc {A B C} (m : M S E A) (k : A -> M S E B) (k' : B -> M S E C) s :
  bind (bind m k) k' s = bind m (fun a => bind (k a) k') s.
Proof. unfold bind. by destruct (m s). Qed.

Lemma bind_gets {A B} (f : S -> A) (k : A -> M S E B) s :
  bind (gets f) k s = k (f s) s.
Proof. done. Qed.

Lemma bind_modify {B} (f : S -> S) (k : unit -> M S E B) s :
  bind (modify f) k s = k tt (f s).
Proof. done. Qed.

Lemma bind_ok_or {A B} w (o : option A) (k : A -> M S E B) s a :
  o = Some a -> bind (ok_or w o) k s = k a s.
Proof. by intros ->. Qed.
End monad_laws.

Lemma zoom_ok {S T E A} (rd : T -> S) wr (m : M S Empty_set A) t a s :
  m (rd t) = Ok a s -> zoom (E := E) rd wr m t = Ok a (wr s t).
Proof. unfold zoom. by intros ->. Qed.

(** ** Total postconditions

    [wp m Q X s]: run in [s], [m] neither faults nor runs out of fuel; if it
    returns, [Q] holds of the value and the state, and if control leaves it
    for good, [X] holds of the exit and the state. *)

Definition wp {S E A} (m : M S E A) (Q : A -> S -> Prop) (X : E -> S -> Prop)
    (s : S) : Prop :=
  match m s with
  | Ok a s' => Q a s'
  | Exit e s' => X e s'
  | Fault _ => False
  | NoFuel => False
  end.

Section wp_rules.
Context {S E : Type}.
Implicit Types (X : E -> S -> Prop) (s : S).

Lemma wp_ok {A} (m : M S E A) Q X s a s' : m s = Ok a s' -> Q a s' -> wp m Q X s.
Proof. unfold wp. by intros ->. Qed.

Lemma wp_inv_ok {A} (m : M S E A) Q X s a s' :
  wp m Q X s -> m s = Ok a s' -> Q a s'.
Proof. unfold wp. by intros H Hm; rewrite Hm in H. Qed.

Lemma wp_bind {A B} (m : M S E A) (k : A -> M S E B) Q X s :
  wp m (fun a s' => wp (k a) Q X s') X s -> wp (bind m k) Q X s.
Proof. unfold wp, bind. by destruct (m s). Qed.

Lemma wp_mono {A} (m : M S E A) (Q Q' : A -> S -> Prop) (X X' : E -> S -> Prop) s :
  wp m Q X s ->
  (forall a s', Q a s' -> Q' a s') ->
  (forall e s', X e s' -> X' e s') ->
  wp m Q' X' s.
Proof. unfold wp. destruct (m s); naive_solver. Qed.

(** What is shown of a run is also shown of its result. *)
Lemma wp_eq {A} (m : M S E A) (Q : A -> S -> Prop) (X : E -> S -> Prop) s :
  wp m Q X s -> wp m (fun a s' => Q a s' /\ m s = Ok a s') (fun e s' => X e s' /\ m s = Exit e s') s.
Proof. unfold wp. destruct (m s); naive_solver. Qed.

Lemma wp_ret {A} (a : A) (Q : A -> S -> Prop) X s : Q a s -> wp (ret a) Q X s.
Proof. done. Qed.

Lemma wp_exit {A} e (Q : A -> S -> Prop) X s : X e s -> wp (exit e) Q X s.
Proof. done. Qed.

(** A deterministic step in front of the rest of the computation. *)
Lemma wp_step {A B} (m : M S E A) (k : A -> M S E B) Q X s a s' :
  m s = Ok a s' -> wp (k a) Q X s' -> wp (bind m k) Q X s.
Proof. intros Hm Hk. apply wp_bind. by eapply wp_ok. Qed.
End wp_rules.

(** Run the leading deterministic step of a bind, given its equation. *)
Ltac step_with H :=
  first [ rewrite (bind_ok _ _ _ _ _ H) | rewrite (bind_exit _ _ _ _ _ H)
        | eapply (wp_step _ _ _ _ _ _ _ H) ]; cbn beta.

(** Decide the closed condition of a C [if]. *)
Ltac run_if := cbn [negb andb orb Z.eqb Z.ltb Z.compare Pos.eqb Pos.compare Pos.compare_cont]; cbv iota.

(** ** Lists *)

Section lists.
Context {A : Type}.
Implicit Types (x y : A) (l : list A).

Lemma elem_of_not_in_app x l1 l2 : x ∉ (l1 ++ l2) ↔ (x ∉ l1) ∧ (x ∉ l2).
Proof. rewrite elem_of_app. tauto. Qed.

Lemma NoDup_middle l1 x l2 : NoDup (l1 ++ x :: l2) -> x ∉ l1 ++ l2.
Proof.
  intros H. rewrite NoDup_app in H. destruct H as (H1 & H2 & H3).
  rewrite NoDup_cons in H3. destruct H3 as [H3 H4].
  rewrite elem_of_app. intros [H5|H5]; [|done].
  apply (H2 x H5). constructor.
Qed.

Lemma NoDup_remove_middle l1 x l2 : NoDup (l1 ++ x :: l2) -> NoDup (l1 ++ l2).
Proof.
  intros H. eapply sublist_NoDup; [exact H|].
  apply sublist_app; [reflexivity|]. by apply sublist_cons.
Qed.

Lemma NoDup_second_ne x y l : NoDup (x :: y :: l) -> y ≠ x.
Proof. rewrite NoDup_cons. intros [Hx _] ->. apply Hx. left. Qed.

Lemma NoDup_drop_second x y l : NoDup (x :: y :: l) -> NoDup (x :: l).
Proof. intros Hnd. by apply (NoDup_remove_middle [x] y l). Qed.

Lemma last_cons_default x l d : List.last (x :: l) d = List.last l x.
Proof.
  revert x d. induction l as [|y l IH]; intros x d; [done|].
  change (List.last (y :: l) d = List.last (y :: l) x).
  by rewrite (IH y d), (IH y x).
Qed.

Lemma list_last_dec l : l = [] \/ exists l' x, l = l' ++ [x].
Proof. destruct l using rev_ind; [by left | right; eauto]. Qed.
End lists.

(** Removing every occurrence of an element. *)
Section rem.
Context {A : Type} `{EqDecision A}.
Implicit Types (x y : A) (l : list A).

Definition rem x l : list A := filter (fun y => y ≠ x) l.

Lemma elem_of_rem x y l : y ∈ rem x l ↔ (y ≠ x) ∧ (y ∈ l).
Proof. unfold rem. by rewrite list_elem_of_filter. Qed.

Lemma rem_id x l : x ∉ l -> rem x l = l.
Proof.
  intros Hx. unfold rem. induction l as [|y l IH]; [done|].
  rewrite filter_cons_True, IH; [done | set_solver | set_solver].
Qed.

Lemma rem_app x l1 l2 : rem x (l1 ++ l2) = rem x l1 ++ rem x l2.
Proof. apply filter_app. Qed.

Lemma rem_middle x l1 l2 : NoDup (l1 ++ x :: l2) -> rem x (l1 ++ x :: l2) = l1 ++ l2.
Proof.
  intros Hnd. apply NoDup_middle in Hnd.
  apply elem_of_not_in_app in Hnd as [H1 H2].
  rewrite rem_app. unfold rem at 2. rewrite filter_cons_False by (by intros []).
  fold (rem x l2). by rewrite (rem_id x l1), (rem_id x l2).
Qed.

Lemma rem_head x l : NoDup (x :: l) -> rem x (x :: l) = l.
Proof. apply (rem_middle x []). Qed.

Lemma rem_snoc x l : x ∉ l -> rem x (l ++ [x]) = l.
Proof.
  intros Hx. rewrite rem_app, (rem_id x l) by done. unfold rem.
  rewrite filter_cons_False by (by intros []). by rewrite app_nil_r.
Qed.

Lemma rem_NoDup x l : NoDup l -> NoDup (rem x l).
Proof. apply NoDup_filter. Qed.

Lemma length_rem x l : NoDup l -> x ∈ l -> length l = Datatypes.S (length (rem x l)).
Proof.
  intros Hnd Hx. apply list_elem_of_split in Hx as (l1 & l2 & ->).
  rewrite rem_middle by done. rewrite !length_app. simpl. lia.
Qed.

Lemma rem_comm x y l : rem x (rem y l) = rem y (rem x l).
Proof. unfold rem. rewrite !list_filter_filter. apply list_filter_iff. tauto. Qed.
End rem.
