(* ===== verification/ListHead.v ===== *)
(** * Intrusive circular lists: [os/include/os/list.h] and the list helpers
      of [os/include/os/util.h]

    The heap maps the address of every [list_head] object to its two
    pointers; NULL is [None].  The operations are the C functions, write by
    write.  The second half gives them a meaning: [repr hole h Q] says that
    the heap [h] holds, for every sentinel [hd] with [Q hd = Some l], a
    circular doubly linked list through [hd] and [l], that these lists share
    no node, and that every node outside them (but [hole]) is NULL/NULL. *)

From Stdlib Require Import ZArith Lia String.
From stdpp Require Import base tactics option list gmap.
From S2P Require Import Prelude.

Open Scope kernel_scope.
Open Scope string_scope.
Open Scope list_scope.

(** [struct list_head] *)
Record list_head (A : Type) : Type := Node { next : option A; prev : option A }.
Arguments Node {A} _ _.
Arguments next {A} _.
Arguments prev {A} _.

Section operations.
Context {A : Type} `{Countable A}.

Abbreviation heap := (gmap A (list_head A)).
Abbreviation LM := (M heap Empty_set).

(** [*p] for a [list_head *p]. *)
Definition load (p : option A) : LM (list_head A) :=
  a <- ok_or "NULL list_head" p ;;
  h <- get ;;
  ok_or "wild list_head" (h !! a).

(** [p->next = v] and [p->prev = v]. *)
Definition set_next (p v : option A) : LM unit :=
  n <- load p ;;
  a <- ok_or "NULL list_head" p ;;
  modify (insert a (Node v (prev n))).

Definition set_prev (p v : option A) : LM unit :=
  n <- load p ;;
  a <- ok_or "NULL list_head" p ;;
  modify (insert a (Node (next n) v)).

Definition INIT_LIST_HEAD (list : A) : LM unit :=
  set_next (Some list) (Some list) ;;
  set_prev (Some list) (Some list).

Definition __list_add (new : A) (prev next : option A) : LM unit :=
  set_prev next (Some new) ;;
  set_next (Some new) next ;;
  set_prev (Some new) prev ;;
  set_next prev (Some new).

Definition list_add (new head : A) : LM unit :=
  n <- load (Some head) ;;
  __list_add new (Some head) (next n).

Definition list_add_tail (new head : A) : LM unit :=
  n <- load (Some head) ;;
  __list_add new (prev n) (Some head).

Definition __list_del (prev next : option A) : LM unit :=
  set_prev next prev ;;
  set_next prev next.

Definition list_del (entry : A) : LM unit :=
  n <- load (Some entry) ;;
  __list_del (prev n) (next n).

Definition list_is_last (list head : A) : LM bool :=
  n <- load (Some list) ;;
  ret (bool_decide (next n = Some head)).

Definition list_empty (head : A) : LM bool :=
  n <- load (Some head) ;;
  ret (bool_decide (next n = Some head)).

Definition list_next (current : A) : LM (option A) :=
  e <- list_empty current ;;
  if e then ret None else n <- load (Some current) ;; ret (next n).

Definition list_prev (current : A) : LM (option A) :=
  e <- list_empty current ;;
  if e then ret None else n <- load (Some current) ;; ret (prev n).

(** The traversals of [list_for_each] and [list_for_each_prev] from [pos]:
    the addresses that the loop variable takes, in order. *)
Fixpoint for_each (dir : list_head A -> option A) (fuel : nat)
    (pos : option A) (head : A) : LM (list A) :=
  match fuel with
  | O => no_fuel
  | Datatypes.S f =>
      if decide (pos = Some head) then ret []
      else
        n <- load pos ;;
        a <- ok_or "NULL list_head" pos ;;
        l <- for_each dir f (dir n) head ;;
        ret (a :: l)
  end.

Definition list_for_each (fuel : nat) (head : A) : LM (list A) :=
  n <- load (Some head) ;; for_each next fuel (next n) head.

Definition list_for_each_prev (fuel : nat) (head : A) : LM (list A) :=
  n <- load (Some head) ;; for_each prev fuel (prev n) head.

(** util.h *)
Definition LIST_HEAD_NULL (l : A) : LM unit :=
  set_next (Some l) None ;;
  set_prev (Some l) None.

Definition list_null (head : A) : LM bool :=
  n <- load (Some head) ;;
  ret (bool_decide (prev n = None) && bool_decide (next n = None)).

Definition list_sdel (entry : A) : LM unit :=
  b <- list_null entry ;;
  if negb b then list_del entry ;; LIST_HEAD_NULL entry else ret tt.

Fixpoint list_size_loop (fuel : nat) (iter : option A) (head : A) (res : Z) : LM Z :=
  match fuel with
  | O => no_fuel
  | Datatypes.S f =>
      if decide (iter = Some head) then ret res
      else n <- load iter ;; list_size_loop f (next n) head (res + 1)%Z
  end.

Definition list_size (fuel : nat) (head : A) : LM Z :=
  n <- load (Some head) ;; list_size_loop fuel (next n) head 0%Z.

(** [cmp] is a C comparison: [None] is a fault inside it, and the loop stops
    at the first element that compares as 0. *)
Fixpoint list_search_loop (fuel : nat) (element : A) (iter : option A) (head : A)
    (cmp : A -> A -> option Z) : LM (option A) :=
  match fuel with
  | O => no_fuel
  | Datatypes.S f =>
      if decide (iter = Some head) then ret None
      else
        a <- ok_or "NULL list_head" iter ;;
        c <- ok_or "comparison of a wild list_head" (cmp element a) ;;
        if (c =? 0)%Z then ret iter
        else n <- load iter ;; list_search_loop f element (next n) head cmp
  end.

Definition list_search (fuel : nat) (element head : A)
    (cmp : A -> A -> option Z) : LM (option A) :=
  n <- load (Some head) ;; list_search_loop fuel element (next n) head cmp.

Definition exact_cmp (first second : A) : option Z :=
  Some (if decide (first = second) then 0%Z else 1%Z).

Definition list_contains (fuel : nat) (element head : A) : LM bool :=
  r <- list_search fuel element head exact_cmp ;;
  ret (bool_decide (r <> None)).
End operations.

Arguments INIT_LIST_HEAD : simpl never.
Arguments list_add : simpl never.
Arguments list_add_tail : simpl never.
Arguments list_del : simpl never.
Arguments list_sdel : simpl never.
Arguments list_empty : simpl never.
Arguments list_null : simpl never.
Arguments list_next : simpl never.
Arguments list_contains : simpl never.
Arguments list_search : simpl never.

(** ** Pointers as functions *)

Section pointers.
Context {A : Type} `{Countable A}.
Implicit Types (h : gmap A (list_head A)) (a b c x hd new : A) (l : list A).

Definition nx h a : option A := h !! a ≫= next.
Definition pv h a : option A := h !! a ≫= prev.
Definition same_dom h h' : Prop := ∀ b, is_Some (h !! b) ↔ is_Some (h' !! b).

Lemma nx_dom h a b : nx h a = Some b -> is_Some (h !! a).
Proof. unfold nx. destruct (h !! a); [eauto | done]. Qed.

Lemma pv_dom h a b : pv h a = Some b -> is_Some (h !! a).
Proof. unfold pv. destruct (h !! a); [eauto | done]. Qed.

#[global] Instance same_dom_preorder : PreOrder same_dom.
Proof. split; [by intros ?? | intros ??? H1 H2 b; by rewrite (H1 b)]. Qed.

Lemma same_dom_is_Some h h' a : same_dom h h' -> is_Some (h !! a) -> is_Some (h' !! a).
Proof. intros Hd. apply (Hd a). Qed.

Lemma load_ok h a n : h !! a = Some n -> load (Some a) h = Ok n h.
Proof. intros Ha. unfold load, bind, ok_or, get; simpl. by rewrite Ha. Qed.

Lemma set_next_ok h a v :
  is_Some (h !! a) ->
  ∃ h', set_next (Some a) v h = Ok tt h' ∧ same_dom h h' ∧
    (∀ b, nx h' b = if decide (b = a) then v else nx h b) ∧
    (∀ b, pv h' b = pv h b).
Proof.
  intros [n Ha]. exists (<[a:=Node v (prev n)]> h). split_and!.
  - unfold set_next. step_with (load_ok _ _ _ Ha). done.
  - intros b. rewrite lookup_insert_is_Some'.
    split; [by right | intros [<-|?]; eauto].
  - intros b. unfold nx. destruct (decide (b = a)) as [->|];
      [by rewrite lookup_insert_eq | by rewrite lookup_insert_ne].
  - intros b. unfold pv. destruct (decide (b = a)) as [->|];
      [by rewrite lookup_insert_eq, Ha | by rewrite lookup_insert_ne].
Qed.

Lemma set_prev_ok h a v :
  is_Some (h !! a) ->
  ∃ h', set_prev (Some a) v h = Ok tt h' ∧ same_dom h h' ∧
    (∀ b, nx h' b = nx h b) ∧
    (∀ b, pv h' b = if decide (b = a) then v else pv h b).
Proof.
  intros [n Ha]. exists (<[a:=Node (next n) v]> h). split_and!.
  - unfold set_prev. step_with (load_ok _ _ _ Ha). done.
  - intros b. rewrite lookup_insert_is_Some'.
    split; [by right | intros [<-|?]; eauto].
  - intros b. unfold nx. destruct (decide (b = a)) as [->|];
      [by rewrite lookup_insert_eq, Ha | by rewrite lookup_insert_ne].
  - intros b. unfold pv. destruct (decide (b = a)) as [->|];
      [by rewrite lookup_insert_eq | by rewrite lookup_insert_ne].
Qed.

(** Run one pointer write of the goal [∃ h', (set_.. ;; k) h = Ok .. h' ∧ _]. *)
Ltac write L h1 Hd Hn Hp :=
  match goal with
  | |- context [bind (set_next (Some ?a) ?v) _ ?h] =>
      destruct (set_next_ok h a v) as (h1 & L & Hd & Hn & Hp);
      [eauto using same_dom_is_Some | step_with L]
  | |- context [bind (set_prev (Some ?a) ?v) _ ?h] =>
      destruct (set_prev_ok h a v) as (h1 & L & Hd & Hn & Hp);
      [eauto using same_dom_is_Some | step_with L]
  | |- context [set_next (Some ?a) ?v ?h] =>
      destruct (set_next_ok h a v) as (h1 & L & Hd & Hn & Hp);
      [eauto using same_dom_is_Some |]
  | |- context [set_prev (Some ?a) ?v ?h] =>
      destruct (set_prev_ok h a v) as (h1 & L & Hd & Hn & Hp);
      [eauto using same_dom_is_Some |]
  end.

Ltac pointer_eqs :=
  let b := fresh "b" in
  intros b;
  repeat match goal with
         | E : ∀ b, nx ?h b = _ |- context [nx ?h _] => rewrite E
         | E : ∀ b, pv ?h b = _ |- context [pv ?h _] => rewrite E
         end;
  repeat case_decide; congruence.

Lemma INIT_LIST_HEAD_ok h a :
  is_Some (h !! a) ->
  ∃ h', INIT_LIST_HEAD a h = Ok tt h' ∧ same_dom h h' ∧
    (∀ b, nx h' b = if decide (b = a) then Some a else nx h b) ∧
    (∀ b, pv h' b = if decide (b = a) then Some a else pv h b).
Proof.
  intros Ha. unfold INIT_LIST_HEAD.
  write L1 h1 Hd1 Hn1 Hp1. write L2 h2 Hd2 Hn2 Hp2.
  exists h2. split_and!; [done | by etrans | pointer_eqs | pointer_eqs].
Qed.

Lemma LIST_HEAD_NULL_ok h a :
  is_Some (h !! a) ->
  ∃ h', LIST_HEAD_NULL a h = Ok tt h' ∧ same_dom h h' ∧
    (∀ b, nx h' b = if decide (b = a) then None else nx h b) ∧
    (∀ b, pv h' b = if decide (b = a) then None else pv h b).
Proof.
  intros Ha. unfold LIST_HEAD_NULL.
  write L1 h1 Hd1 Hn1 Hp1. write L2 h2 Hd2 Hn2 Hp2.
  exists h2. split_and!; [done | by etrans | pointer_eqs | pointer_eqs].
Qed.

Lemma __list_add_ok h new p n :
  is_Some (h !! new) -> is_Some (h !! p) -> is_Some (h !! n) ->
  ∃ h', __list_add new (Some p) (Some n) h = Ok tt h' ∧ same_dom h h' ∧
    (∀ b, nx h' b = if decide (b = p) then Some new
                    else if decide (b = new) then Some n else nx h b) ∧
    (∀ b, pv h' b = if decide (b = new) then Some p
                    else if decide (b = n) then Some new else pv h b).
Proof.
  intros Hnew Hp Hn. unfold __list_add.
  write L1 h1 Hd1 Hn1 Hp1. write L2 h2 Hd2 Hn2 Hp2.
  write L3 h3 Hd3 Hn3 Hp3. write L4 h4 Hd4 Hn4 Hp4.
  exists h4. split_and!; [done | | pointer_eqs | pointer_eqs].
  repeat (etrans; [eassumption|]). done.
Qed.

Lemma __list_del_ok h p n :
  is_Some (h !! p) -> is_Some (h !! n) ->
  ∃ h', __list_del (Some p) (Some n) h = Ok tt h' ∧ same_dom h h' ∧
    (∀ b, nx h' b = if decide (b = p) then Some n else nx h b) ∧
    (∀ b, pv h' b = if decide (b = n) then Some p else pv h b).
Proof.
  intros Hp Hn. unfold __list_del.
  write L1 h1 Hd1 Hn1 Hp1. write L2 h2 Hd2 Hn2 Hp2.
  exists h2. split_and!; [done | by etrans | pointer_eqs | pointer_eqs].
Qed.

(** ** Segments of a doubly linked list

    [seg h a l b]: following [next] from [a] goes through [l] and reaches
    [b], and [prev] goes the same way back. *)

Definition link h a b : Prop := nx h a = Some b ∧ pv h b = Some a.

Fixpoint seg h a l b : Prop :=
  match l with
  | [] => link h a b
  | x :: l' => link h a x ∧ seg h x l' b
  end.

Lemma seg_app h a l1 x l2 b : seg h a (l1 ++ x :: l2) b ↔ seg h a l1 x ∧ seg h x l2 b.
Proof. revert a. induction l1 as [|y l1 IH]; intros a; simpl; [tauto|]. rewrite IH. tauto. Qed.

Lemma seg_frame h h' a l b :
  (∀ c, c ∈ a :: l -> nx h' c = nx h c) ->
  (∀ c, c ∈ l ++ [b] -> pv h' c = pv h c) ->
  seg h a l b -> seg h' a l b.
Proof.
  revert a. induction l as [|x l IH]; simpl; intros a Hn Hp.
  - intros [H1 H2]. split; [rewrite Hn | rewrite Hp]; auto; set_solver.
  - intros [[H1 H2] H3]. split.
    + split; [rewrite Hn | rewrite Hp]; auto; set_solver.
    + apply IH; [intros; apply Hn | intros; apply Hp |]; set_solver.
Qed.

Lemma seg_first h a l b : seg h a l b -> nx h a = Some (List.hd b l).
Proof. destruct l; simpl; unfold link; [by intros [] | by intros [[] _]]. Qed.

Lemma seg_last h a l b : seg h a l b -> pv h b = Some (List.last l a).
Proof.
  revert a. induction l as [|x l IH]; intros a.
  - by intros [].
  - intros [_ Hs]. by rewrite (IH _ Hs), last_cons_default.
Qed.

Lemma seg_member h a l b x : seg h a l b -> x ∈ l -> is_Some (nx h x) ∧ is_Some (pv h x).
Proof.
  intros Hs Hx. apply list_elem_of_split in Hx as (l1 & l2 & ->).
  apply seg_app in Hs as [Hs1 Hs2].
  rewrite (seg_last _ _ _ _ Hs1), (seg_first _ _ _ _ Hs2). eauto.
Qed.
End pointers.

Arguments nx : simpl never.
Arguments pv : simpl never.

(** ** One circular list *)

Section circular.
Context {A : Type} `{Countable A}.
Implicit Types (h : gmap A (list_head A)) (a b c x hd new : A) (l : list A).

(** [dll h hd l]: the sentinel [hd] heads the circular list [l]. *)
Definition dll h hd l : Prop := NoDup (hd :: l) ∧ seg h hd l hd.

Lemma dll_nx h hd l : dll h hd l -> nx h hd = Some (List.hd hd l).
Proof. intros [_ Hs]. by apply seg_first in Hs. Qed.

Lemma dll_pv h hd l : dll h hd l -> pv h hd = Some (List.last l hd).
Proof. intros [_ Hs]. by apply seg_last in Hs. Qed.

Lemma dll_dom h hd l x : dll h hd l -> x ∈ hd :: l -> is_Some (nx h x) ∧ is_Some (pv h x).
Proof.
  intros Hd Hx. apply elem_of_cons in Hx as [->|Hx].
  - rewrite (dll_nx _ _ _ Hd), (dll_pv _ _ _ Hd). eauto.
  - destruct Hd as [_ Hs]. by eapply seg_member.
Qed.

Lemma dll_frame h h' hd l :
  (∀ c, c ∈ hd :: l -> nx h' c = nx h c) ->
  (∀ c, c ∈ hd :: l -> pv h' c = pv h c) ->
  dll h hd l -> dll h' hd l.
Proof.
  intros Hn Hp [Hnd Hs]. split; [done|]. eapply seg_frame; [exact Hn | | exact Hs].
  intros c Hc. apply Hp. set_solver.
Qed.

Lemma dll_add h h' hd new l :
  dll h hd l -> new ∉ hd :: l ->
  (∀ b, nx h' b = if decide (b = hd) then Some new
                  else if decide (b = new) then Some (List.hd hd l) else nx h b) ->
  (∀ b, pv h' b = if decide (b = new) then Some hd
                  else if decide (b = List.hd hd l) then Some new else pv h b) ->
  dll h' hd (new :: l).
Proof.
  intros [Hnd Hs] Hnew Hn Hp.
  assert (hd ≠ new) by (intros ->; apply Hnew; left).
  split; [apply NoDup_cons in Hnd as [? ?]; apply NoDup_cons; split;
          [|apply NoDup_cons; split; [|done]]; set_solver |].
  simpl. split; [split; [rewrite Hn | rewrite Hp]; by rewrite decide_True|].
  destruct l as [|x l]; simpl in *.
  - split; [rewrite Hn | rewrite Hp]; repeat case_decide; congruence.
  - destruct Hs as [_ Hs]. apply NoDup_cons in Hnd as [Hh Hnd].
    apply NoDup_cons in Hnd as [Hx Hnd]. split.
    + split; [rewrite Hn | rewrite Hp]; repeat case_decide; set_solver.
    + eapply seg_frame; [| | exact Hs]; intros c Hc; rewrite ?Hn, ?Hp;
        repeat case_decide; set_solver.
Qed.

Lemma dll_add_tail h h' hd new l :
  dll h hd l -> new ∉ hd :: l ->
  (∀ b, nx h' b = if decide (b = List.last l hd) then Some new
                  else if decide (b = new) then Some hd else nx h b) ->
  (∀ b, pv h' b = if decide (b = new) then Some (List.last l hd)
                  else if decide (b = hd) then Some new else pv h b) ->
  dll h' hd (l ++ [new]).
Proof.
  intros [Hnd Hs] Hnew Hn Hp.
  assert (hd ≠ new) by (intros ->; apply Hnew; left).
  split.
  { rewrite app_comm_cons. apply NoDup_app. split_and!; [done | set_solver | apply NoDup_singleton]. }
  destruct (list_last_dec l) as [->|(l' & x & ->)]; simpl in *.
  - split; split; rewrite ?Hn, ?Hp; repeat case_decide; congruence.
  - rewrite last_last in Hn, Hp.
    assert (x ≠ new) by set_solver.
    apply NoDup_cons in Hnd as [Hh Hnd]. apply NoDup_app in Hnd as (Hl & Hx & _).
    assert (x ∉ l') by (intros Hin; apply (Hx x Hin); left).
    apply seg_app in Hs as [Hs _].
    rewrite <- app_assoc. apply seg_app. split.
    + eapply seg_frame; [| | exact Hs]; intros c Hc; rewrite ?Hn, ?Hp;
        repeat case_decide; set_solver.
    + simpl. split; split; rewrite ?Hn, ?Hp; repeat case_decide; set_solver.
Qed.

(** The neighbours of a member, and the list without it. *)
Lemma dll_neighbours h hd l1 x l2 :
  dll h hd (l1 ++ x :: l2) ->
  pv h x = Some (List.last l1 hd) ∧ nx h x = Some (List.hd hd l2).
Proof.
  intros [_ Hs]. apply seg_app in Hs as [Hs1 Hs2].
  split; [by apply seg_last in Hs1 | by apply seg_first in Hs2].
Qed.

Lemma dll_del h h' hd l1 x l2 :
  dll h hd (l1 ++ x :: l2) ->
  (∀ b, nx h' b = if decide (b = List.last l1 hd) then Some (List.hd hd l2) else nx h b) ->
  (∀ b, pv h' b = if decide (b = List.hd hd l2) then Some (List.last l1 hd) else pv h b) ->
  dll h' hd (l1 ++ l2).
Proof.
  intros [Hnd Hs] Hn Hp. split; [by eapply (NoDup_remove_middle (hd :: l1))|].
  assert (HN : NoDup (hd :: l1 ++ l2)) by (by eapply (NoDup_remove_middle (hd :: l1))).
  apply seg_app in Hs as [Hs1 Hs2].
  assert (H2 : match l2 with
               | [] => True
               | y :: l2' => seg h' y l2' hd
               end).
  { destruct l2 as [|y l2']; [done|]. destruct Hs2 as [_ Hs2]. simpl in *.
    rewrite NoDup_cons, NoDup_app, NoDup_cons in HN. destruct HN as (N1 & N2 & N3 & N4 & N5).
    assert (List.last l1 hd ∉ y :: l2').
    { destruct (list_last_dec l1) as [->|(l0 & z & ->)]; simpl; [set_solver|].
      rewrite last_last. apply N3. set_solver. }
    eapply seg_frame; [| | exact Hs2]; intros c Hc; rewrite ?Hn, ?Hp;
      repeat case_decide; set_solver. }
  assert (H1 : seg h' hd l1 (List.hd hd l2)).
  { destruct (list_last_dec l1) as [->|(l0 & z & ->)]; simpl.
    - simpl in *. split; rewrite ?Hn, ?Hp; by rewrite decide_True.
    - rewrite last_last in Hn, Hp. apply seg_app in Hs1 as [Hs1 _].
      apply seg_app. split.
      + rewrite NoDup_cons, !NoDup_app in HN. destruct HN as (N1 & (N2 & N3 & _) & N4 & N5).
        assert (z ∉ l0) by (intros Hz; apply (N3 z Hz); left).
        eapply seg_frame; [| | exact Hs1]; intros c Hc; rewrite ?Hn, ?Hp;
          repeat case_decide; subst; try done; destruct l2; simpl in *; set_solver.
      + split; rewrite ?Hn, ?Hp; by rewrite decide_True. }
  destruct l2 as [|y l2']; simpl in *; [by rewrite app_nil_r|].
  apply seg_app. done.
Qed.
End circular.

(** ** All the lists of a heap *)

Section representation.
Context {A : Type} `{Countable A}.
Implicit Types (h : gmap A (list_head A)) (a b c x hd new : A) (l : list A)
  (Q : A → option (list A)) (hole : option A).

(** [x] is on no list and is no sentinel. *)
Definition detached Q x : Prop := ∀ hd l, Q hd = Some l → x ∉ hd :: l.

Record repr hole h Q : Prop := {
  repr_dll : ∀ hd l, Q hd = Some l → dll h hd l;
  repr_disjoint : ∀ hd1 l1 hd2 l2 x, Q hd1 = Some l1 → Q hd2 = Some l2 →
    x ∈ hd1 :: l1 → x ∈ hd2 :: l2 → hd1 = hd2;
  repr_null : ∀ x, detached Q x → hole ≠ Some x → nx h x = None ∧ pv h x = None;
}.

Definition upd Q hd l : A → option (list A) :=
  fun x => if decide (x = hd) then Some l else Q x.

Lemma upd_eq Q hd l : upd Q hd l hd = Some l.
Proof. unfold upd. by rewrite decide_True. Qed.

Lemma upd_ne Q hd l x : x ≠ hd -> upd Q hd l x = Q x.
Proof. intros. unfold upd. by rewrite decide_False. Qed.

(** Two ways to name the same lists. *)
#[global] Instance repr_proper hole h :
  Proper (pointwise_relation A eq ==> iff) (repr hole h).
Proof.
  assert (∀ Q Q', (∀ x, Q x = Q' x) → repr hole h Q → repr hole h Q') as Hw.
  { intros Q Q' HQ [H1 H2 H3]. split.
    - intros hd l. rewrite <- HQ. apply H1.
    - intros hd1 l1 hd2 l2 x. rewrite <- !HQ. apply H2.
    - intros x Hx. apply H3. intros hd l. rewrite HQ. apply Hx. }
  intros Q Q' HQ. split; apply Hw; intros x; [|symmetry]; apply HQ.
Qed.

Lemma repr_ext hole h Q Q' : (∀ x, Q x = Q' x) → repr hole h Q → repr hole h Q'.
Proof. intros HQ. by rewrite (HQ : pointwise_relation A eq Q Q'). Qed.

Lemma repr_NoDup hole h Q hd l : repr hole h Q -> Q hd = Some l -> NoDup (hd :: l).
Proof. intros [H1 _ _] HQ. by destruct (H1 _ _ HQ). Qed.

Lemma repr_is_Some hole h Q hd l x :
  repr hole h Q -> Q hd = Some l -> x ∈ hd :: l -> is_Some (h !! x).
Proof.
  intros [H1 _ _] HQ Hx. destruct (dll_dom _ _ _ _ (H1 _ _ HQ) Hx) as [[b Hb] _].
  by eapply nx_dom.
Qed.

Lemma repr_hole_ok hole h Q x :
  repr (Some x) h Q -> nx h x = None -> pv h x = None -> repr hole h Q.
Proof.
  intros [H1 H2 H3] Hn Hp. split; [done | done |].
  intros y Hy _. destruct (decide (x = y)) as [->|]; [done|]. apply H3; [done|congruence].
Qed.

Lemma repr_weaken hole h Q : repr None h Q -> repr hole h Q.
Proof. intros [H1 H2 H3]. split; [done | done |]. intros y Hy _. by apply H3. Qed.

Lemma detached_upd Q hd l x :
  detached Q x -> x ≠ hd -> x ∉ l -> detached (upd Q hd l) x.
Proof.
  intros Hx Hh Hl hd' l' HQ. unfold upd in HQ. case_decide; simplify_eq; [set_solver|].
  by apply (Hx hd').
Qed.

(** Replace the list of one sentinel: what an operation has to show. *)
Lemma repr_upd hole h h' Q hd l :
  repr hole h Q ->
  (∀ hd' l', Q hd' = Some l' → hd' ≠ hd → dll h' hd' l') ->
  dll h' hd l ->
  (∀ hd' l' x, Q hd' = Some l' → hd' ≠ hd → x ∈ hd :: l → x ∉ hd' :: l') ->
  (∀ x, detached (upd Q hd l) x → hole ≠ Some x → nx h' x = None ∧ pv h' x = None) ->
  repr hole h' (upd Q hd l).
Proof.
  intros [H1 H2 H3] HQ Hdll Hdis Hnull. split; [| |done].
  - intros hd' l' HQ'. unfold upd in HQ'. case_decide; simplify_eq; eauto.
  - intros hd1 l1 hd2 l2 x HQ1 HQ2 Hx1 Hx2. unfold upd in HQ1, HQ2.
    destruct (decide (hd1 = hd)) as [E1|N1], (decide (hd2 = hd)) as [E2|N2].
    + congruence.
    + simplify_eq. by destruct (Hdis hd2 l2 x).
    + simplify_eq. by destruct (Hdis hd1 l1 x).
    + by eapply H2.
Qed.

Lemma repr_other hole h Q hd l hd' l' x :
  repr hole h Q -> Q hd = Some l -> Q hd' = Some l' -> hd' ≠ hd ->
  x ∈ hd :: l -> x ∉ hd' :: l'.
Proof. intros HR HQ HQ' Hne Hx Hx'. apply Hne. by eapply repr_disjoint. Qed.
End representation.

(** ** The operations on a represented heap *)

Section specs.
Context {A : Type} `{Countable A}.
Implicit Types (h : gmap A (list_head A)) (a b c x hd new : A) (l : list A)
  (Q : A → option (list A)) (hole : option A).

Ltac frame_tac Hn Hp :=
  eapply dll_frame; [intros c Hc; rewrite Hn | intros c Hc; rewrite Hp |];
  repeat case_decide; subst; try done.

Lemma INIT_LIST_HEAD_spec hole h Q hd :
  repr hole h Q -> is_Some (h !! hd) ->
  (∀ hd' l', Q hd' = Some l' → hd ∈ hd' :: l' → hd' = hd) ->
  (∀ l, Q hd = Some l → l = []) ->
  ∃ h', INIT_LIST_HEAD hd h = Ok tt h' ∧ same_dom h h' ∧ repr hole h' (upd Q hd []).
Proof.
  intros HR Hdom Hown Hemp.
  destruct (INIT_LIST_HEAD_ok h hd Hdom) as (h' & Hrun & Hd & Hn & Hp).
  exists h'. split_and!; [done|done|]. apply (repr_upd _ h); [done | | | |].
  - intros hd' l' HQ Hne. pose proof (repr_dll _ _ _ HR _ _ HQ) as Hdll.
    frame_tac Hn Hp; destruct Hne; by eapply Hown.
  - split; [apply NoDup_singleton|]. simpl. split; [rewrite Hn|rewrite Hp]; by case_decide.
  - intros hd' l' x HQ Hne Hx. apply elem_of_cons in Hx as [->|Hx]; [|set_solver].
    intros Hin. apply Hne. by eapply Hown.
  - intros x Hx Hh. rewrite Hn, Hp.
    assert (x ≠ hd) by (intros ->; apply (Hx hd []); [apply upd_eq | left]).
    rewrite !decide_False by done. apply (repr_null _ _ _ HR); [|done].
    intros hd' l' HQ Hin. destruct (decide (hd' = hd)) as [->|Hne].
    + rewrite (Hemp _ HQ) in Hin. set_solver.
    + apply (Hx hd' l'); [by rewrite upd_ne | done].
Qed.

(** Linking a node that was on no list into the list of [hd]: the part that
    head and tail insertion share. *)
Lemma repr_insert h h' Q hd l l' new p n :
  repr (Some new) h Q -> Q hd = Some l -> detached Q new ->
  p ∈ hd :: l -> n ∈ hd :: l ->
  (∀ y, y ∈ l' ↔ y = new ∨ y ∈ l) ->
  (∀ b, nx h' b = if decide (b = p) then Some new
                  else if decide (b = new) then Some n else nx h b) ->
  (∀ b, pv h' b = if decide (b = new) then Some p
                  else if decide (b = n) then Some new else pv h b) ->
  dll h' hd l' ->
  repr None h' (upd Q hd l').
Proof.
  intros HR HQ Hnew Hpin Hnin Hl' Hn Hp Hdll.
  assert (HR' : repr (Some new) h' (upd Q hd l')).
  { apply (repr_upd _ h); [done | | done | |].
    - intros hd' l1 HQ' Hne. pose proof (repr_dll _ _ _ HR _ _ HQ') as Hd'.
      pose proof (repr_other _ _ _ _ _ _ _ p HR HQ HQ' Hne Hpin).
      pose proof (repr_other _ _ _ _ _ _ _ n HR HQ HQ' Hne Hnin).
      pose proof (Hnew _ _ HQ').
      frame_tac Hn Hp.
    - intros hd' l1 x HQ' Hne Hx.
      destruct (decide (x = new)) as [->|]; [by apply Hnew|].
      apply (repr_other _ _ _ _ _ _ _ x HR HQ HQ' Hne).
      rewrite elem_of_cons, Hl' in Hx. set_solver.
    - intros x Hx Hh.
      assert (x ∉ hd :: l') as Hx' by (apply Hx, upd_eq).
      assert (x ∉ hd :: l) by (rewrite !elem_of_cons in *; naive_solver).
      rewrite Hn, Hp. repeat case_decide; subst; try done; try congruence.
      apply (repr_null _ _ _ HR); [|done].
      intros hd' l1 HQ'. destruct (decide (hd' = hd)) as [->|Hne]; [congruence|].
      apply Hx. by rewrite upd_ne. }
  destruct HR' as [H1 H2 H3]. split; [done|done|].
  intros x Hx _. apply H3; [done|]. intros [= ->].
  apply (Hx hd l'); [apply upd_eq|]. right. apply Hl'. by left.
Qed.

Lemma hd_in hd l : List.hd hd l ∈ hd :: l.
Proof. destruct l; set_solver. Qed.

Lemma last_in hd l : List.last l hd ∈ hd :: l.
Proof.
  destruct (list_last_dec l) as [->|(l' & x & ->)]; [left|]. rewrite last_last. set_solver.
Qed.

Lemma nx_load h a b : nx h a = Some b -> ∃ n, h !! a = Some n ∧ next n = Some b.
Proof. unfold nx. destruct (h !! a) as [n|]; [eauto|done]. Qed.

Lemma pv_load h a b : pv h a = Some b -> ∃ n, h !! a = Some n ∧ prev n = Some b.
Proof. unfold pv. destruct (h !! a) as [n|]; [eauto|done]. Qed.

Lemma list_add_spec hole h Q hd l new :
  repr hole h Q -> Q hd = Some l -> detached Q new ->
  hole = None ∨ hole = Some new -> is_Some (h !! new) ->
  ∃ h', list_add new hd h = Ok tt h' ∧ same_dom h h' ∧ repr None h' (upd Q hd (new :: l)).
Proof.
  intros HR HQ Hnew Hhole Hdom.
  assert (repr (Some new) h Q) as HR' by (destruct Hhole as [->| ->]; [by apply repr_weaken|done]).
  clear HR Hhole. pose proof (repr_dll _ _ _ HR' _ _ HQ) as Hdll.
  destruct (nx_load _ _ _ (dll_nx _ _ _ Hdll)) as (n & Hhd & Hnx).
  destruct (__list_add_ok h new hd (List.hd hd l)) as (h' & Hrun & Hd & Hn & Hp);
    [done | eauto | eapply repr_is_Some; eauto using hd_in |].
  exists h'. split_and!; [|done|].
  - unfold list_add. step_with (load_ok _ _ _ Hhd). by rewrite Hnx.
  - eapply (repr_insert h h' Q hd l);
      [done | done | done | left | apply hd_in | set_solver | done | done |].
    eapply dll_add; [done | by apply Hnew | done | done].
Qed.

Lemma list_add_tail_spec hole h Q hd l new :
  repr hole h Q -> Q hd = Some l -> detached Q new ->
  hole = None ∨ hole = Some new -> is_Some (h !! new) ->
  ∃ h', list_add_tail new hd h = Ok tt h' ∧ same_dom h h' ∧
    repr None h' (upd Q hd (l ++ [new])).
Proof.
  intros HR HQ Hnew Hhole Hdom.
  assert (repr (Some new) h Q) as HR' by (destruct Hhole as [->| ->]; [by apply repr_weaken|done]).
  clear HR Hhole. pose proof (repr_dll _ _ _ HR' _ _ HQ) as Hdll.
  destruct (pv_load _ _ _ (dll_pv _ _ _ Hdll)) as (n & Hhd & Hpv).
  destruct (__list_add_ok h new (List.last l hd) hd) as (h' & Hrun & Hd & Hn & Hp);
    [done | eapply repr_is_Some; eauto using last_in | eauto |].
  exists h'. split_and!; [|done|].
  - unfold list_add_tail. step_with (load_ok _ _ _ Hhd). by rewrite Hpv.
  - eapply (repr_insert h h' Q hd l);
      [done | done | done | apply last_in | left | set_solver | done | done |].
    eapply dll_add_tail; [done | by apply Hnew | done | done].
Qed.

Lemma list_del_spec h Q hd l1 x l2 :
  repr None h Q -> Q hd = Some (l1 ++ x :: l2) ->
  ∃ h', list_del x h = Ok tt h' ∧ same_dom h h' ∧ repr (Some x) h' (upd Q hd (l1 ++ l2)).
Proof.
  intros HR HQ. pose proof (repr_dll _ _ _ HR _ _ HQ) as Hdll.
  destruct (dll_neighbours _ _ _ _ _ Hdll) as [Hpv Hnx].
  destruct (nx_load _ _ _ Hnx) as (nd & Hx & Hnx'). unfold pv in Hpv. rewrite Hx in Hpv. simpl in Hpv.
  assert (List.last l1 hd ∈ hd :: l1 ++ x :: l2) as Hpin
    by (pose proof (last_in hd l1); set_solver).
  assert (List.hd hd l2 ∈ hd :: l1 ++ x :: l2) as Hnin
    by (pose proof (hd_in hd l2); set_solver).
  destruct (__list_del_ok h (List.last l1 hd) (List.hd hd l2)) as (h' & Hrun & Hd & Hn & Hp);
    [eapply repr_is_Some; eauto | eapply repr_is_Some; eauto |].
  exists h'. split_and!; [|done|].
  { unfold list_del. step_with (load_ok _ _ _ Hx). by rewrite Hpv, Hnx'. }
  apply (repr_upd _ h); [by apply repr_weaken | | | |].
  - intros hd' l' HQ' Hne. pose proof (repr_dll _ _ _ HR _ _ HQ') as Hd'.
    pose proof (repr_other _ _ _ _ _ _ _ _ HR HQ HQ' Hne Hpin).
    pose proof (repr_other _ _ _ _ _ _ _ _ HR HQ HQ' Hne Hnin).
    frame_tac Hn Hp.
  - eapply dll_del; eauto.
  - intros hd' l' y HQ' Hne Hy. eapply (repr_other _ _ _ _ _ _ _ _ HR HQ HQ' Hne). set_solver.
  - intros y Hy Hh. assert (y ≠ x) by congruence.
    assert (y ∉ hd :: l1 ++ l2) as Hy' by (apply Hy, upd_eq).
    rewrite Hn, Hp. rewrite !decide_False; [| |];
      [| intros ->; apply Hy'; pose proof (hd_in hd l2); set_solver
       | intros ->; apply Hy'; pose proof (last_in hd l1); set_solver].
    apply (repr_null _ _ _ HR); [|done].
    intros hd' l' HQ'. destruct (decide (hd' = hd)) as [->|Hne]; [set_solver|].
    apply Hy. by rewrite upd_ne.
Qed.
End specs.

Section queries.
Context {A : Type} `{Countable A}.
Implicit Types (h : gmap A (list_head A)) (a b c x hd new : A) (l : list A)
  (Q : A → option (list A)) (hole : option A).

Lemma load_repr hole h Q hd l x :
  repr hole h Q -> Q hd = Some l -> x ∈ hd :: l ->
  ∃ n, load (Some x) h = Ok n h ∧ is_Some (next n) ∧ is_Some (prev n) ∧
    nx h x = next n ∧ pv h x = prev n.
Proof.
  intros HR HQ Hx. destruct (dll_dom _ _ _ _ (repr_dll _ _ _ HR _ _ HQ) Hx) as [[a Hn] [b Hp]].
  destruct (nx_load _ _ _ Hn) as (n & Hl & Hnx). exists n.
  unfold nx, pv in *. rewrite Hl in Hp |- *. simpl in *. split_and!; eauto using load_ok.
Qed.

Lemma LIST_HEAD_NULL_spec h Q x :
  repr (Some x) h Q -> detached Q x -> is_Some (h !! x) ->
  ∃ h', LIST_HEAD_NULL x h = Ok tt h' ∧ same_dom h h' ∧ repr None h' Q.
Proof.
  intros HR Hx Hdom. destruct (LIST_HEAD_NULL_ok h x Hdom) as (h' & Hrun & Hd & Hn & Hp).
  exists h'. split_and!; [done|done|]. destruct HR as [H1 H2 H3].
  split; [|done|].
  - intros hd l HQ. pose proof (Hx _ _ HQ).
    eapply dll_frame; [| |by apply H1]; intros c Hc; rewrite ?Hn, ?Hp; case_decide; by subst.
  - intros y Hy _. rewrite Hn, Hp. destruct (decide (y = x)) as [|Hne]; [done|].
    apply H3; [done|congruence].
Qed.

Lemma list_null_detached h Q x :
  repr None h Q -> detached Q x -> is_Some (h !! x) -> list_null x h = Ok true h.
Proof.
  intros HR Hx [n Hn]. unfold list_null. step_with (load_ok _ _ _ Hn).
  destruct (repr_null _ _ _ HR x Hx ltac:(done)) as [H1 H2].
  unfold nx, pv in *. rewrite Hn in H1, H2. simpl in *. unfold ret.
  by rewrite !bool_decide_true by done.
Qed.

Lemma list_null_member hole h Q hd l x :
  repr hole h Q -> Q hd = Some l -> x ∈ hd :: l -> list_null x h = Ok false h.
Proof.
  intros HR HQ Hx. destruct (load_repr _ _ _ _ _ _ HR HQ Hx) as (n & Hl & [? Hn] & [? Hp] & _).
  unfold list_null. step_with Hl. unfold ret.
  rewrite Hp. by rewrite bool_decide_false by done.
Qed.

Lemma list_sdel_detached h Q x :
  repr None h Q -> detached Q x -> is_Some (h !! x) -> list_sdel x h = Ok tt h.
Proof.
  intros HR Hx Hd. unfold list_sdel. by step_with (list_null_detached _ _ _ HR Hx Hd).
Qed.

Lemma detached_removed h Q hd l1 x l2 :
  repr None h Q -> Q hd = Some (l1 ++ x :: l2) -> detached (upd Q hd (l1 ++ l2)) x.
Proof.
  intros HR HQ. pose proof (repr_NoDup _ _ _ _ _ HR HQ) as Hnd.
  assert (x ∉ hd :: l1 ++ l2) as Hx by (by apply (NoDup_middle (hd :: l1))).
  intros hd' l' HQ' Hin. unfold upd in HQ'. case_decide; [by simplify_eq|].
  apply (repr_other _ _ _ _ _ _ _ x HR HQ HQ'); [done | set_solver | done].
Qed.

Lemma list_sdel_spec h Q hd l1 x l2 :
  repr None h Q -> Q hd = Some (l1 ++ x :: l2) ->
  ∃ h', list_sdel x h = Ok tt h' ∧ same_dom h h' ∧ repr None h' (upd Q hd (l1 ++ l2)).
Proof.
  intros HR HQ. assert (x ∈ hd :: l1 ++ x :: l2) as Hin by set_solver.
  destruct (list_del_spec _ _ _ _ _ _ HR HQ) as (h1 & Hrun1 & Hd1 & HR1).
  destruct (LIST_HEAD_NULL_spec _ _ _ HR1) as (h2 & Hrun2 & Hd2 & HR2);
    [by eapply detached_removed | eapply same_dom_is_Some; eauto using repr_is_Some |].
  exists h2. split_and!; [| by etrans | done].
  unfold list_sdel. step_with (list_null_member _ _ _ _ _ _ HR HQ Hin).
  simpl. by step_with Hrun1.
Qed.

Lemma list_empty_spec hole h Q hd l :
  repr hole h Q -> Q hd = Some l -> list_empty hd h = Ok (bool_decide (l = [])) h.
Proof.
  intros HR HQ. destruct (load_repr _ _ _ _ _ hd HR HQ ltac:(left)) as (n & Hl & _ & _ & Hn & _).
  unfold list_empty. step_with Hl. unfold ret. f_equal. apply bool_decide_ext.
  rewrite <- Hn, (dll_nx _ _ _ (repr_dll _ _ _ HR _ _ HQ)).
  pose proof (repr_NoDup _ _ _ _ _ HR HQ) as Hnd.
  destruct l as [|y l]; simpl; [naive_solver|].
  apply NoDup_second_ne in Hnd. split; [congruence | done].
Qed.

Lemma list_next_spec hole h Q hd l :
  repr hole h Q -> Q hd = Some l -> list_next hd h = Ok (head l) h.
Proof.
  intros HR HQ. destruct (load_repr _ _ _ _ _ hd HR HQ ltac:(left)) as (n & Hl & _ & _ & Hn & _).
  unfold list_next. step_with (list_empty_spec _ _ _ _ _ HR HQ).
  case_bool_decide; subst; [done|]. step_with Hl. unfold ret. f_equal.
  rewrite <- Hn, (dll_nx _ _ _ (repr_dll _ _ _ HR _ _ HQ)). by destruct l.
Qed.

Lemma list_prev_spec hole h Q hd l :
  repr hole h Q -> Q hd = Some l -> list_prev hd h = Ok (last l) h.
Proof.
  intros HR HQ. destruct (load_repr _ _ _ _ _ hd HR HQ ltac:(left)) as (n & Hl & _ & _ & _ & Hp).
  unfold list_prev. step_with (list_empty_spec _ _ _ _ _ HR HQ).
  case_bool_decide as Hnil; subst; [done|]. step_with Hl. unfold ret. f_equal.
  rewrite <- Hp, (dll_pv _ _ _ (repr_dll _ _ _ HR _ _ HQ)).
  destruct (list_last_dec l) as [->|(l' & y & ->)]; [done|]. by rewrite last_last, last_snoc.
Qed.

(** What [list_search] looks for, as a function on the list. *)
Fixpoint search_list (cmp : A -> A -> option Z) (e : A) (l : list A) : option A :=
  match l with
  | [] => None
  | x :: l' => if decide (cmp e x = Some 0%Z) then Some x else search_list cmp e l'
  end.

Lemma list_search_loop_spec fuel h e a l hd cmp :
  seg h a l hd -> NoDup (hd :: l) -> length l < fuel ->
  (∀ x, x ∈ l → is_Some (cmp e x)) ->
  list_search_loop fuel e (nx h a) hd cmp h = Ok (search_list cmp e l) h.
Proof.
  revert fuel a. induction l as [|x l IH]; intros fuel a Hs Hnd Hf Hc;
    (destruct fuel as [|fuel]; [simpl in *; lia|]); rewrite (seg_first _ _ _ _ Hs); simpl.
  - by rewrite decide_True.
  - destruct Hs as [_ Hs]. rewrite decide_False by (apply NoDup_second_ne in Hnd; congruence).
    destruct (Hc x) as [z Hz]; [left|]. rewrite bind_ret_l, (bind_ok_or _ _ _ _ _ Hz), Hz.
    destruct (Z.eqb_spec z 0) as [->|Hz0]; [by rewrite decide_True|].
    rewrite decide_False by congruence.
    destruct (nx_load _ _ _ (seg_first _ _ _ _ Hs)) as (n & Hx & Hn).
    step_with (load_ok _ _ _ Hx). rewrite Hn, <- (seg_first _ _ _ _ Hs).
    apply IH; [done | by eapply NoDup_drop_second | simpl in *; lia
              | intros; apply Hc; by right].
Qed.

Lemma list_search_spec hole fuel h Q e hd l cmp :
  repr hole h Q -> Q hd = Some l -> length l < fuel ->
  (∀ x, x ∈ l → is_Some (cmp e x)) ->
  list_search fuel e hd cmp h = Ok (search_list cmp e l) h.
Proof.
  intros HR HQ Hf Hc. destruct (repr_dll _ _ _ HR _ _ HQ) as [Hnd Hs].
  destruct (load_repr _ _ _ _ _ hd HR HQ ltac:(left)) as (n & Hl & _ & _ & Hn & _).
  unfold list_search. step_with Hl. rewrite <- Hn. by apply list_search_loop_spec.
Qed.

Lemma search_list_exact e l :
  search_list exact_cmp e l = if decide (e ∈ l) then Some e else None.
Proof.
  induction l as [|x l IH]; cbn [search_list].
  { rewrite decide_False by set_solver. done. }
  rewrite IH. unfold exact_cmp. repeat case_decide; set_solver.
Qed.

Lemma list_contains_spec hole fuel h Q e hd l :
  repr hole h Q -> Q hd = Some l -> length l < fuel ->
  list_contains fuel e hd h = Ok (bool_decide (e ∈ l)) h.
Proof.
  intros HR HQ Hf. unfold list_contains.
  step_with (list_search_spec _ fuel _ _ e _ _ exact_cmp HR HQ Hf ltac:(by eexists)).
  rewrite search_list_exact. unfold ret. f_equal. apply bool_decide_ext.
  by case_decide.
Qed.

Lemma list_size_loop_spec fuel h a l hd res :
  seg h a l hd -> NoDup (hd :: l) -> length l < fuel ->
  list_size_loop fuel (nx h a) hd res h = Ok (res + Z.of_nat (length l))%Z h.
Proof.
  revert fuel a res. induction l as [|x l IH]; intros fuel a res Hs Hnd Hf;
    (destruct fuel as [|fuel]; [simpl in *; lia|]); rewrite (seg_first _ _ _ _ Hs); simpl.
  - rewrite decide_True by done. unfold ret. f_equal. lia.
  - destruct Hs as [_ Hs]. rewrite decide_False by (apply NoDup_second_ne in Hnd; congruence).
    destruct (nx_load _ _ _ (seg_first _ _ _ _ Hs)) as (n & Hx & Hn).
    step_with (load_ok _ _ _ Hx). rewrite Hn, <- (seg_first _ _ _ _ Hs).
    rewrite IH; [f_equal; lia | done | by eapply NoDup_drop_second | simpl in *; lia].
Qed.

Lemma list_size_spec hole fuel h Q hd l :
  repr hole h Q -> Q hd = Some l -> length l < fuel ->
  list_size fuel hd h = Ok (Z.of_nat (length l)) h.
Proof.
  intros HR HQ Hf. destruct (repr_dll _ _ _ HR _ _ HQ) as [Hnd Hs].
  destruct (load_repr _ _ _ _ _ hd HR HQ ltac:(left)) as (n & Hl & _ & _ & Hn & _).
  unfold list_size. step_with Hl. rewrite <- Hn. by rewrite (list_size_loop_spec _ _ _ l).
Qed.

Lemma for_each_spec fuel h a l hd :
  seg h a l hd -> NoDup (hd :: l) -> length l < fuel ->
  for_each next fuel (nx h a) hd h = Ok l h.
Proof.
  revert fuel a. induction l as [|x l IH]; intros fuel a Hs Hnd Hf;
    (destruct fuel as [|fuel]; [simpl in *; lia|]); rewrite (seg_first _ _ _ _ Hs); simpl.
  - by rewrite decide_True.
  - destruct Hs as [_ Hs]. rewrite decide_False by (apply NoDup_second_ne in Hnd; congruence).
    destruct (nx_load _ _ _ (seg_first _ _ _ _ Hs)) as (n & Hx & Hn).
    step_with (load_ok _ _ _ Hx). rewrite bind_ret_l, Hn, <- (seg_first _ _ _ _ Hs).
    assert (for_each next fuel (nx h x) hd h = Ok l h) as E.
    { apply IH; [done | by eapply NoDup_drop_second | simpl in *; lia]. }
    by step_with E.
Qed.

Lemma for_each_prev_spec fuel h b l hd :
  seg h hd l b -> NoDup (hd :: l) -> length l < fuel ->
  for_each prev fuel (pv h b) hd h = Ok (reverse l) h.
Proof.
  revert fuel b. induction l as [|x l IH] using rev_ind; intros fuel b Hs Hnd Hf;
    (destruct fuel as [|fuel]; [rewrite ?length_app in *; simpl in *; lia|]);
    rewrite (seg_last _ _ _ _ Hs); simpl.
  - by rewrite decide_True.
  - assert (NoDup (hd :: l) ∧ x ≠ hd) as [Hnd' Hne].
    { rewrite NoDup_cons, NoDup_app in Hnd. rewrite NoDup_cons. set_solver. }
    rewrite last_last, decide_False by congruence.
    apply seg_app in Hs as [Hs _].
    destruct (pv_load _ _ _ (seg_last _ _ _ _ Hs)) as (n & Hx & Hn).
    step_with (load_ok _ _ _ Hx). rewrite bind_ret_l, Hn, <- (seg_last _ _ _ _ Hs).
    rewrite length_app in Hf; simpl in Hf.
    assert (for_each prev fuel (pv h x) hd h = Ok (reverse l) h) as E.
    { apply IH; [done | done | lia]. }
    step_with E. unfold ret. f_equal. by rewrite reverse_app.
Qed.
End queries.
