(* ===== verification/Machine.v ===== *)
(** * Words, processor status and machine interface

    The 32-bit arithmetic of the target ([memaddr], [size_t] and [int] of
    [os/include/os/ctypes.h]); the status and cause register helpers of
    [phase2/src/processor.c] and [phase2/src/devices.c]; and, as the class
    [Umps], every constant and hardware reading that the sources take from the
    headers of the uMPS3 machine, which are not part of the repository.
    [UmpsLaws] states the documented values that the theorems rely on and
    [umps3] is a concrete machine that has them. *)

From Stdlib Require Import ZArith Lia.
From stdpp Require Import base numbers fin.
From S2P Require Import Prelude.

Open Scope Z_scope.

(** ** 32-bit integers *)

Definition u32 (z : Z) : Z := z mod 2 ^ 32.
Definition s32 (z : Z) : Z :=
  let m := z mod 2 ^ 32 in if m <? 2 ^ 31 then m else m - 2 ^ 32.

Lemma u32_range z : 0 <= u32 z < 2 ^ 32.
Proof. unfold u32. apply Z.mod_pos_bound. lia. Qed.

Lemma u32_small z : 0 <= z < 2 ^ 32 -> u32 z = z.
Proof. intros. unfold u32. by apply Z.mod_small. Qed.

Lemma s32_range z : - 2 ^ 31 <= s32 z < 2 ^ 31.
Proof.
  unfold s32. pose proof (Z.mod_pos_bound z (2 ^ 32) ltac:(lia)). destruct (Z.ltb_spec (z mod 2 ^ 32) (2 ^ 31)); lia.
Qed.

Lemma s32_small z : - 2 ^ 31 <= z < 2 ^ 31 -> s32 z = z.
Proof.
  intros Hz. unfold s32. destruct (Z.ltb_spec (z mod 2 ^ 32) (2 ^ 31)); Z.div_mod_to_equations; lia.
Qed.

Lemma s32_zero z : s32 z = 0 <-> z mod 2 ^ 32 = 0.
Proof.
  unfold s32. pose proof (Z.mod_pos_bound z (2 ^ 32) ltac:(lia)). destruct (Z.ltb_spec (z mod 2 ^ 32) (2 ^ 31)); lia.
Qed.

Lemma u32_testbit z i : 0 <= i < 32 -> Z.testbit (u32 z) i = Z.testbit z i.
Proof. intros. unfold u32. apply Z.mod_pow2_bits_low. lia. Qed.

Lemma u32_testbit_high z i : 32 <= i -> Z.testbit (u32 z) i = false.
Proof. intros. unfold u32. apply Z.mod_pow2_bits_high. lia. Qed.

Create HintDb words.
#[export] Hint Resolve u32_range s32_range : words.

(** ** os/include/os/const.h *)

Definition PAGESIZE : Z := 4096.
Definition MAX_PROC : nat := 20.
Definition MAX_PROC_BITS : Z := 5.
Definition NULL_PID : Z := 0.
Definition CREATEPROCESS : Z := -1.
Definition TERMPROCESS : Z := -2.
Definition PASSEREN : Z := -3.
Definition VERHOGEN : Z := -4.
Definition DOIO : Z := -5.
Definition GETTIME : Z := -6.
Definition CLOCKWAIT : Z := -7.
Definition GETSUPPORTPTR : Z := -8.
Definition GETPROCESSID : Z := -9.
Definition YIELD : Z := -10.
Definition PROCESS_PRIO_LOW : Z := 0.
Definition PROCESS_PRIO_HIGH : Z := 1.
Definition PGFAULTEXCEPT : fin 2 := 0%fin.
Definition GENERALEXCEPT : fin 2 := 1%fin.
Definition PLT_INTERVAL : Z := 5000.
Definition IT_INTERVAL : Z := 100000.
Definition RAMBASEADDR : Z := 0x10000000.
Definition RAMBASESIZE : Z := 0x10000004.
Definition TIMESCALEADDR : Z := 0x10000024.
Definition BIOSDATAPAGE : Z := 0x0FFFF000.
Definition PASSUPVECTOR : Z := 0x0FFFF900.
Definition KERNELSTACK : Z := 0x20001000.
Definition CLEAREXECCODE : Z := 0xFFFFFF00.
Definition CAUSESHIFT : Z := 2.
Definition DEV_C_ACK : Z := 1.
Definition TERMSTATMASK : Z := 0xFF.
Definition DEV_STATUS_NOTINSTALLED : Z := 0.
Definition DEV_STATUS_READY : Z := 1.
Definition DEV_STATUS_TERMINAL_OK : Z := 5.
Definition RECV_STATUS : Z := 0x0.
Definition RECV_COMMAND : Z := 0x4.
Definition TRANSM_STATUS : Z := 0x8.
Definition TRANSM_COMMAND : Z := 0xC.

(** os/include/arch/devices.h *)
Definition DEVINTNUM : Z := 5.
Definition DEVPERINT : Z := 8.

(** ** The machine

    Constants of the uMPS3 headers ([umps/arch.h], [umps/cp0.h],
    [umps/const.h]), the addresses the linker gives to the nucleus' own data,
    and the readings of the time-of-day clock ([STCK]): the [n]-th reading of
    a run is [tod n]. *)

Class Umps := {
  IL_IPI : Z; IL_CPUTIMER : Z; IL_TIMER : Z; IL_DISK : Z; IL_FLASH : Z;
  IL_ETHERNET : Z; IL_PRINTER : Z; IL_TERMINAL : Z;
  N_DEV_PER_IL : Z;
  DEV_REG_START : Z; DEV_REG_SIZE : Z;
  CDEV_BITMAP_ADDR : Z -> Z;
  STATUS_IEc : Z; STATUS_KUc : Z; STATUS_IEp : Z; STATUS_KUp : Z;
  STATUS_TE : Z; STATUS_IM_MASK : Z; STATUS_IM : Z -> Z;
  CAUSE_IP : Z -> Z; CAUSE_GET_EXCCODE : Z -> Z;
  EXC_RI : Z; UNINSTALLED : Z; WORD_SIZE : Z;
  semaphores_addr : Z;
  tod : nat -> Z;
}.

(** [DEV_REG_ADDR(line, dev)], also the address of
    [devregarea_t.devreg[line - DEV_IL_START][dev]]. *)
Definition DEV_REG_ADDR `{Umps} (line dev : Z) : Z :=
  DEV_REG_START + ((line - IL_DISK) * DEVPERINT + dev) * DEV_REG_SIZE.

Class UmpsLaws `{Umps} : Prop := {
  il_disk : IL_DISK = 3;
  il_flash : IL_FLASH = 4;
  il_ethernet : IL_ETHERNET = 5;
  il_printer : IL_PRINTER = 6;
  il_terminal : IL_TERMINAL = 7;
  n_dev_per_il : N_DEV_PER_IL = 8;
  dev_reg_start : DEV_REG_START = 0x10000054;
  dev_reg_size : DEV_REG_SIZE = 0x10;
  cdev_bitmap line : CDEV_BITMAP_ADDR line = 0x10000040 + (line - 3) * 4;
  status_iec : STATUS_IEc = 2 ^ 0;
  status_kuc : STATUS_KUc = 2 ^ 1;
  status_iep : STATUS_IEp = 2 ^ 2;
  status_kup : STATUS_KUp = 2 ^ 3;
  word_size : WORD_SIZE = 4;
  uninstalled : UNINSTALLED = 0;
  (** the nucleus' data is in RAM, word aligned, and does not wrap *)
  semaphores_in_ram : 0x20000000 <= semaphores_addr <= 0x80000000;
  semaphores_aligned : semaphores_addr mod 4 = 0;
}.

Definition umps3 : Umps := {|
  IL_IPI := 0; IL_CPUTIMER := 1; IL_TIMER := 2; IL_DISK := 3; IL_FLASH := 4;
  IL_ETHERNET := 5; IL_PRINTER := 6; IL_TERMINAL := 7;
  N_DEV_PER_IL := 8;
  DEV_REG_START := 0x10000054; DEV_REG_SIZE := 0x10;
  CDEV_BITMAP_ADDR line := 0x10000040 + (line - 3) * 4;
  STATUS_IEc := 1; STATUS_KUc := 2; STATUS_IEp := 4; STATUS_KUp := 8;
  STATUS_TE := 0x08000000; STATUS_IM_MASK := 0xFF00;
  STATUS_IM line := Z.shiftl 1 (line + 8);
  CAUSE_IP line := Z.shiftl 1 (line + 8);
  CAUSE_GET_EXCCODE c := Z.shiftr (Z.land c 0x7C) 2;
  EXC_RI := 10; UNINSTALLED := 0; WORD_SIZE := 4;
  semaphores_addr := 0x20010000;
  tod n := Z.of_nat n;
|}.

Lemma umps3_laws : @UmpsLaws umps3.
Proof. split; try done; vm_compute; intuition discriminate. Qed.

(** ** Status and cause registers: processor.c and devices.c *)

Section registers.
Context `{Umps}.

(** [is_user_mode] on the status of the active process. *)
Definition user_mode (status : Z) : Z := Z.shiftr (u32 (Z.shiftl status 28)) 31.

Definition status_interrupts_on_nucleus (prev : Z) : Z := Z.lor prev STATUS_IEc.
Definition status_interrupts_off_nucleus (prev : Z) : Z :=
  Z.lxor (Z.lor prev STATUS_IEc) STATUS_IEc.
Definition status_interrupts_on_process (prev : Z) : Z := Z.lor prev STATUS_IEp.
Definition status_local_timer_toggle (prev : Z) : Z := Z.lxor prev STATUS_TE.
Definition status_local_timer_on (prev : Z) : Z :=
  Z.lor prev (Z.lor STATUS_TE (STATUS_IM IL_TIMER)).
Definition status_local_timer_off (prev : Z) : Z :=
  Z.lxor (Z.lor prev (Z.lor STATUS_TE (STATUS_IM IL_TIMER)))
         (Z.lor STATUS_TE (STATUS_IM IL_TIMER)).
Definition status_kernel_mode_on_nucleus (prev : Z) : Z :=
  Z.lxor (Z.lor prev STATUS_KUc) STATUS_KUc.
Definition status_kernel_mode_off_nucleus (prev : Z) : Z := Z.lor prev STATUS_KUc.
Definition status_kernel_mode_on_process (prev : Z) : Z :=
  Z.lxor (Z.lor prev STATUS_KUp) STATUS_KUp.
Definition status_kernel_mode_off_process (prev : Z) : Z := Z.lor prev STATUS_KUc.
Definition cause_clean (prev : Z) : Z := Z.land prev CLEAREXECCODE.
Definition cause_reserved_instruction (prev : Z) : Z :=
  Z.lor prev (Z.shiftl EXC_RI CAUSESHIFT).
Definition status_il_on_all (prev : Z) : Z := Z.lor prev STATUS_IM_MASK.
Definition status_il_on (prev line : Z) : Z := Z.lor prev (STATUS_IM line).
End registers.

(** Setting the bits of a mask and flipping them back clears them. *)
Lemma lor_lxor_clear p m : Z.lxor (Z.lor p m) m = Z.ldiff p m.
Proof.
  apply Z.bits_inj'. intros i Hi. rewrite Z.lxor_spec, Z.lor_spec, Z.ldiff_spec.
  by destruct (Z.testbit p i), (Z.testbit m i).
Qed.

Lemma lor_pow2_testbit p n i : 0 <= n -> 0 <= i ->
  Z.testbit (Z.lor p (2 ^ n)) i = (Z.testbit p i || (n =? i)).
Proof. intros. by rewrite Z.lor_spec, Z.pow2_bits_eqb. Qed.

Lemma ldiff_pow2_testbit p n i : 0 <= n -> 0 <= i ->
  Z.testbit (Z.ldiff p (2 ^ n)) i = (Z.testbit p i && negb (n =? i)).
Proof. intros. by rewrite Z.ldiff_spec, Z.pow2_bits_eqb. Qed.

Lemma user_mode_bit status :
  user_mode status = Z.b2z (Z.testbit status 3).
Proof.
  unfold user_mode. apply Z.bits_inj'. intros i Hi.
  rewrite Z.shiftr_spec by lia.
  destruct (decide (i = 0)) as [->|Hne].
  - rewrite u32_testbit by lia. rewrite Z.shiftl_spec by lia. simpl Z.add. simpl Z.sub.
    replace (0 + 31 - 28) with 3 by lia. by rewrite Z.b2z_bit0.
  - rewrite u32_testbit_high by lia.
    destruct (Z.testbit status 3); simpl; [|by rewrite Z.bits_0].
    symmetry. apply Z.bits_above_log2; [lia|]. simpl. lia.
Qed.
