(* ===== verification/Utilities.v ===== *)
(** * The rest of [os/include/os/util.h] and [os/include/os/list.h]

    Copying memory byte by byte, the traversals that give the structures which
    contain the elements of a list, and the listing of a list. *)

From Stdlib Require Import ZArith Lia String.
From stdpp Require Import base tactics option list gmap.
From S2P Require Import Prelude ListHead Machine.

Open Scope string_scope.
Open Scope list_scope.
Open Scope Z_scope.

(** ** Copying memory *)

Section memcpy.

(** The bytes of memory, 0 by default. *)
Definition byte_at (m : gmap Z Z) (a : Z) : Z := default 0 (m !! a).

(** [d[i] = s[i];] for [i] from 0 to [len - 1] *)
Definition pandos_memcpy (dest src : Z) (len : nat) : M (gmap Z Z) Empty_set unit :=
  for_ len 0 (fun i => modify (fun m =>
    <[u32 (dest + Z.of_nat i) := byte_at m (u32 (src + Z.of_nat i))]> m)).

(** What the byte [i] of the destination holds after the copy: the copy runs
    upwards, so a source that lies before the destination and overlaps it is
    repeated. *)
Definition copied (dest src : Z) (i : Z) (m : gmap Z Z) : Z :=
  byte_at m (src + (if (src <? dest) then i mod (dest - src) else i)).

Lemma byte_insert m a b x : byte_at (<[a := x]> m) b = if b =? a then x else byte_at m b.
Proof.
  unfold byte_at. destruct (Z.eqb_spec b a) as [->|Hne].
  - by rewrite lookup_insert_eq.
  - by rewrite lookup_insert_ne.
Qed.

Lemma for_end {S E} n a (body : nat -> M S E unit) s :
  for_ (Datatypes.S n) a body s = bind (for_ n a body) (fun _ => body (a + n)%nat) s.
Proof.
  revert a s. induction n as [|n IH]; intros a s.
  - cbn. unfold bind, ret. rewrite Nat.add_0_r. by destruct (body a s) as [[] | | |].
  - change (for_ (Datatypes.S (Datatypes.S n)) a body) with (bind (body a) (fun _ => for_ (Datatypes.S n) (Datatypes.S a) body)).
    change (for_ (Datatypes.S n) a body) with (bind (body a) (fun _ => for_ n (Datatypes.S a) body)).
    rewrite bind_assoc. apply bind_ext. intros [] s'. rewrite IH.
    by replace (Datatypes.S a + n)%nat with (a + Datatypes.S n)%nat by lia.
Qed.

Lemma pandos_memcpy_spec dest src len m :
  0 <= dest -> 0 <= src -> dest + Z.of_nat len <= 2 ^ 32 -> src + Z.of_nat len <= 2 ^ 32 ->
  ∃ m', pandos_memcpy dest src len m = Ok tt m' ∧
    ∀ a, byte_at m' a = if (dest <=? a) && (a <? dest + Z.of_nat len)
                        then copied dest src (a - dest) m else byte_at m a.
Proof.
  intros Hd Hs. induction len as [|n IH]; intros Hdl Hsl.
  { exists m. split; [done|]. intros a. by destruct (Z.leb_spec dest a), (Z.ltb_spec a (dest + Z.of_nat 0)); try lia. }
  destruct IH as (m1 & Hrun & Hm1); [lia..|].
  exists (<[dest + Z.of_nat n := byte_at m1 (src + Z.of_nat n)]> m1). split.
  { unfold pandos_memcpy. rewrite for_end. unfold pandos_memcpy in Hrun. step_with Hrun. unfold modify.
    by rewrite !u32_small by lia. }
  intros a. rewrite byte_insert, !Hm1. destruct (Z.eqb_spec a (dest + Z.of_nat n)) as [->|Hne].
  - rewrite (proj2 (Z.leb_le dest (dest + Z.of_nat n))), (proj2 (Z.ltb_lt (dest + Z.of_nat n) _)) by lia. cbn [andb].
    unfold copied. replace (dest + Z.of_nat n - dest) with (Z.of_nat n) by lia.
    destruct (Z.ltb_spec src dest) as [Hlt|Hge].
    + destruct (Z.leb_spec dest (src + Z.of_nat n)), (Z.ltb_spec (src + Z.of_nat n) (dest + Z.of_nat n)); cbn [andb]; try lia.
      * f_equal. f_equal. replace (Z.of_nat n) with ((src + Z.of_nat n - dest) + 1 * (dest - src)) at 2 by lia.
        by rewrite Z.mod_add by lia.
      * f_equal. f_equal. rewrite Z.mod_small by lia. lia.
    + destruct (Z.leb_spec dest (src + Z.of_nat n)), (Z.ltb_spec (src + Z.of_nat n) (dest + Z.of_nat n)); cbn [andb]; try done; lia.
  - destruct (Z.leb_spec dest a), (Z.ltb_spec a (dest + Z.of_nat n)), (Z.ltb_spec a (dest + Z.of_nat (S n))); cbn [andb]; try done; lia.
Qed.

(** An object is copied to another that does not share a byte with it. *)
Lemma pandos_memcpy_disjoint dest src len m :
  0 <= dest -> 0 <= src -> dest + Z.of_nat len <= 2 ^ 32 -> src + Z.of_nat len <= 2 ^ 32 ->
  dest + Z.of_nat len <= src \/ src + Z.of_nat len <= dest ->
  ∃ m', pandos_memcpy dest src len m = Ok tt m' ∧
    (∀ i, 0 <= i < Z.of_nat len -> byte_at m' (dest + i) = byte_at m (src + i)) ∧
    (∀ i, 0 <= i < Z.of_nat len -> byte_at m' (src + i) = byte_at m (src + i)) ∧
    (∀ a, ¬ dest <= a < dest + Z.of_nat len -> byte_at m' a = byte_at m a).
Proof.
  intros Hd Hs Hdl Hsl Hdis. destruct (pandos_memcpy_spec dest src len m Hd Hs Hdl Hsl) as (m' & Hrun & Hm).
  exists m'. split; [done|]. split_and!.
  - intros i Hi. rewrite Hm, (proj2 (Z.leb_le _ _)), (proj2 (Z.ltb_lt _ _)) by lia. cbn [andb]. unfold copied.
    replace (dest + i - dest) with i by lia. destruct (Z.ltb_spec src dest); [|done]. by rewrite Z.mod_small by lia.
  - intros i Hi. rewrite Hm.
    destruct (Z.leb_spec dest (src + i)), (Z.ltb_spec (src + i) (dest + Z.of_nat len)); cbn [andb]; try done; lia.
  - intros a Ha. rewrite Hm.
    destruct (Z.leb_spec dest a), (Z.ltb_spec a (dest + Z.of_nat len)); cbn [andb]; try done; lia.
Qed.
End memcpy.

(** ** The structures that contain the elements *)

Section entries.
(** [offsetof(type, member)] *)
Context (offset : Z).

(** [&pos->member] and [container_of(ptr, type, member)] *)
Definition member_of (pos : Z) : Z := u32 (pos + offset).
Definition container_of (ptr : Z) : Z := u32 (ptr - offset).

(** The traversals from the structure [pos]: the structures that the loop
    variable takes, in order. *)
Fixpoint for_each_entry (dir : list_head Z -> option Z) (fuel : nat) (pos head : Z)
    : M (gmap Z (list_head Z)) Empty_set (list Z) :=
  match fuel with
  | O => no_fuel
  | S f =>
      if member_of pos =? head then ret []
      else
        n <- load (Some (member_of pos)) ;;
        l <- for_each_entry dir f (container_of (default 0 (dir n))) head ;;
        ret (pos :: l)
  end.

Definition list_for_each_entry (fuel : nat) (head : Z) :=
  n <- load (Some head) ;; for_each_entry next fuel (container_of (default 0 (next n))) head.

Definition list_for_each_entry_reverse (fuel : nat) (head : Z) :=
  n <- load (Some head) ;; for_each_entry prev fuel (container_of (default 0 (prev n))) head.

(** [container_of] is the inverse of taking the member's address. *)
Lemma member_container ptr : 0 <= ptr < 2 ^ 32 -> member_of (container_of ptr) = ptr.
Proof.
  intros Hp. unfold member_of, container_of, u32. rewrite Z.add_mod_idemp_l by lia.
  replace (ptr - offset + offset) with ptr by lia. by apply Z.mod_small.
Qed.

(** On a traversal of addresses the structures are those that contain them. *)
Lemma for_each_entry_spec dir fuel h hd l : ∀ a,
  for_each dir fuel (Some a) hd h = Ok l h -> 0 <= a < 2 ^ 32 ->
  (∀ x n, h !! x = Some n -> ∃ y, dir n = Some y ∧ 0 <= y < 2 ^ 32) ->
  for_each_entry dir fuel (container_of a) hd h = Ok (container_of <$> l) h.
Proof.
  revert l. induction fuel as [|fuel IH]; intros l a Hrun Ha Hh; [done|].
  cbn [for_each for_each_entry] in *. rewrite member_container by done.
  destruct (Z.eqb_spec a hd) as [->|Hne].
  { rewrite decide_True in Hrun by done. by injection Hrun as <-. }
  rewrite decide_False in Hrun by congruence.
  assert (∃ n, h !! a = Some n) as [n Hn].
  { unfold load, bind, ok_or, ret, get in Hrun. destruct (h !! a) as [n|]; [by exists n | done]. }
  rewrite (bind_ok _ _ _ _ _ (load_ok _ _ _ Hn)) in Hrun. cbn [ok_or] in Hrun. rewrite bind_ret_l in Hrun.
  destruct (Hh a n Hn) as (y & Hy & Hrange). rewrite Hy in Hrun.
  unfold bind at 1 in Hrun. destruct (for_each dir fuel (Some y) hd h) as [l' h'| | |] eqn:Hrest; try done.
  injection Hrun as <- ->. step_with (load_ok _ _ _ Hn). rewrite Hy. cbn [default].
  by step_with (IH l' y Hrest Hrange Hh).
Qed.

(** Both traversals of a list. *)
Lemma list_for_each_entry_spec fuel h hd l :
  dll h hd l -> (length l < fuel)%nat ->
  (∀ x n, h !! x = Some n -> ∃ y z, n = Node (Some y) (Some z) ∧ 0 <= y < 2 ^ 32 ∧ 0 <= z < 2 ^ 32) ->
  list_for_each_entry fuel hd h = Ok (container_of <$> l) h ∧
  list_for_each_entry_reverse fuel hd h = Ok (container_of <$> reverse l) h.
Proof.
  intros [Hnd Hs] Hf Hh. pose proof (seg_first _ _ _ _ Hs) as Hnx. pose proof (seg_last _ _ _ _ Hs) as Hpv.
  destruct (nx_load _ _ _ Hnx) as (n & Hn & Hnn). destruct (Hh hd n Hn) as (y & z & -> & Hy & Hz).
  cbn in Hnn. pose proof (for_each_spec fuel h hd l hd Hs Hnd Hf) as H1.
  pose proof (for_each_prev_spec fuel h hd l hd Hs Hnd Hf) as H2.
  assert (nx h hd = Some y) as Ey by (unfold nx; by rewrite Hn). assert (pv h hd = Some z) as Ez by (unfold pv; by rewrite Hn).
  rewrite Ey in H1. rewrite Ez in H2.
  unfold list_for_each_entry, list_for_each_entry_reverse. split; step_with (load_ok _ _ _ Hn); cbn [next prev default];
    (apply for_each_entry_spec; [done..|]); intros x m Hx; destruct (Hh x m Hx) as (y' & z' & -> & ? & ?); by eexists.
Qed.
End entries.

(** ** The listing of a list *)

Section print.
Context {A : Type} `{Countable A} (addr : A -> Z).

Definition listing : Type := list (string * list Z).

(** [p(...)], a message of [pandos_kprintf] *)
Definition say (fmt : string) (args : list Z) : M (gmap A (list_head A) * listing) Empty_set unit :=
  modify (fun s => (s.1, (fmt, args) :: s.2)).

Definition on_heap {B} (m : M (gmap A (list_head A)) Empty_set B) : M (gmap A (list_head A) * listing) Empty_set B :=
  zoom (S := gmap A (list_head A)) (T := gmap A (list_head A) * listing) fst (fun h s => (h, s.2)) m.

Definition pointer (x : option A) : Z := match x with Some a => addr a | None => 0 end.

Fixpoint print_loop (fuel : nat) (iter : option A) (head : A) : M (gmap A (list_head A) * listing) Empty_set unit :=
  match fuel with
  | O => no_fuel
  | S f =>
      if decide (iter = Some head) then ret tt
      else
        n <- on_heap (load iter) ;;
        say "%p = {%p, %p}\n" [pointer iter; pointer (prev n); pointer (next n)] ;;
        print_loop f (next n) head
  end.

Definition list_print (fuel : nat) (head : option A) : M (gmap A (list_head A) * listing) Empty_set unit :=
  match head with
  | None => say "NULL list\n" []
  | Some hd =>
      e <- on_heap (list_empty hd) ;;
      if e then say "empty list\n" []
      else
        u <- on_heap (list_null hd) ;;
        if u then say "null list\n" []
        else n <- on_heap (load (Some hd)) ;; print_loop fuel (next n) hd
  end.

(** A line for each of the elements [l] between [a] and [hd]. *)
Fixpoint element_lines (a : A) (l : list A) (hd : A) : listing :=
  match l with
  | [] => []
  | x :: l' => ("%p = {%p, %p}\n", [addr x; addr a; addr (List.hd hd l')]) :: element_lines x l' hd
  end.

Lemma on_heap_query {B} (m : M (gmap A (list_head A)) Empty_set B) h log b :
  m h = Ok b h -> on_heap m (h, log) = Ok b (h, log).
Proof. intros Hm. unfold on_heap, zoom. cbn [fst snd]. by rewrite Hm. Qed.

Lemma on_heap_load h log a n : h !! a = Some n -> on_heap (load (Some a)) (h, log) = Ok n (h, log).
Proof. intros Hn. by apply on_heap_query, load_ok. Qed.

Lemma print_loop_spec fuel h a l hd log :
  seg h a l hd -> NoDup (hd :: l) -> (length l < fuel)%nat ->
  print_loop fuel (nx h a) hd (h, log) = Ok tt (h, rev (element_lines a l hd) ++ log).
Proof.
  revert fuel a log. induction l as [|x l IH]; intros fuel a log Hs Hnd Hf;
    (destruct fuel as [|fuel]; [simpl in *; lia|]); rewrite (seg_first _ _ _ _ Hs); cbn [print_loop List.hd].
  - by rewrite decide_True.
  - destruct Hs as [[Hnx Hpv] Hs]. rewrite decide_False by (apply NoDup_second_ne in Hnd; congruence).
    destruct (nx_load _ _ _ (seg_first _ _ _ _ Hs)) as (n & Hx & Hn).
    unfold pv in Hpv. rewrite Hx in Hpv. cbn in Hpv.
    step_with (on_heap_load h log x n Hx). unfold say. rewrite bind_modify, Hpv, Hn, <-(seg_first _ _ _ _ Hs). cbn [fst snd].
    rewrite IH; [| done | by eapply NoDup_drop_second | cbn [length] in Hf; lia].
    cbn [element_lines rev pointer]. by rewrite <-app_assoc, (seg_first _ _ _ _ Hs).
Qed.

(** [list_print] says what its argument is, or shows the pointers of every
    element in order, and leaves the list as it is. *)
Lemma list_print_spec fuel h log :
  list_print fuel None (h, log) = Ok tt (h, ("NULL list\n", []) :: log) ∧
  (∀ a, h !! a = Some (Node None None) ->
    list_print fuel (Some a) (h, log) = Ok tt (h, ("null list\n", []) :: log)) ∧
  (∀ hd l, dll h hd l -> (length l < fuel)%nat ->
    list_print fuel (Some hd) (h, log) = Ok tt (h,
      match l with [] => [("empty list\n", [])] | _ => rev (element_lines hd l hd) end ++ log)).
Proof.
  split; [done|]. split.
  - intros a Ha. unfold list_print.
    assert (list_empty a h = Ok false h) as He by (unfold list_empty; by step_with (load_ok _ _ _ Ha)).
    assert (list_null a h = Ok true h) as Hu by (unfold list_null; by step_with (load_ok _ _ _ Ha)).
    step_with (on_heap_query _ h log _ He). by step_with (on_heap_query _ h log _ Hu).
  - intros hd l [Hnd Hs] Hf. pose proof (seg_first _ _ _ _ Hs) as Hnx.
    destruct (nx_load _ _ _ Hnx) as (n & Hn & Hnn). unfold list_print.
    assert (on_heap (list_empty hd) (h, log) = Ok (bool_decide (l = [])) (h, log)) as He.
    { apply on_heap_query. unfold list_empty. step_with (load_ok _ _ _ Hn). unfold ret. f_equal.
      rewrite Hnn. apply bool_decide_ext. destruct l as [|x l]; [done|]. cbn [List.hd].
      apply NoDup_second_ne in Hnd. split; congruence. }
    step_with He. destruct l as [|x l]; [done|]. rewrite bool_decide_eq_false_2 by done.
    assert (on_heap (list_null hd) (h, log) = Ok false (h, log)) as Hu.
    { apply on_heap_query. unfold list_null. step_with (load_ok _ _ _ Hn). rewrite Hnn.
      unfold ret. f_equal. by rewrite andb_false_r. }
    step_with Hu. step_with (on_heap_load h log hd n Hn). rewrite Hnn, <-Hnx. by apply print_loop_spec.
Qed.
End print.

(** ** The status bits of a process' local timer *)

Definition status_local_timer_on_process `{Umps} (prev : Z) : Z :=
  Z.lor prev (Z.lor STATUS_TE (STATUS_IM IL_TIMER)).
