(* ===== verification/Kernel.v ===== *)
(** * The nucleus' data

    The structures of [os/include/os/types.h] and
    [os/include/arch/processor.h], the addresses of the [list_head] objects
    embedded in them, and the whole mutable state of the kernel: the static
    variables of [pcb.c], [asl.c] and [scheduler.c], the memory the system
    calls read and write, and the processor's registers.

    A [pcb_t *] is an index in [pcb_table] ([None] is NULL) and so is a
    [semd_t *] in [semd_table]: the sources never make such a pointer from
    anything else.  [int *], [state_t *] and [support_t *] come from the
    registers of processes and are addresses, 0 being NULL. *)

From Stdlib Require Import ZArith Lia String.
From stdpp Require Import base tactics option numbers strings gmap list vector.
From S2P Require Import Prelude ListHead Machine.

Open Scope Z_scope.

(** The [list_head] objects of the system, by their address. *)
Inductive lh : Type :=
| L_p_list (i : nat)      (* &pcb_table[i].p_list *)
| L_p_child (i : nat)     (* &pcb_table[i].p_child *)
| L_p_sib (i : nat)       (* &pcb_table[i].p_sib *)
| L_s_procq (j : nat)     (* &semd_table[j].s_procq *)
| L_s_link (j : nat)      (* &semd_table[j].s_link *)
| L_pcb_free              (* &pcb_free *)
| L_semd_free             (* &semd_free *)
| L_semd_h                (* &semd_h *)
| L_ready_lo              (* &ready_queue_lo *)
| L_ready_hi              (* &ready_queue_hi *)
| L_dummy                 (* &dummy.s_link in find_semd *)
| L_qa.                   (* &qa in main of p1test.c *)

#[export] Instance lh_eq_dec : EqDecision lh.
Proof. solve_decision. Defined.

Definition lh_encode (x : lh) : Z * Z :=
  match x with
  | L_p_list i => (0, Z.of_nat i) | L_p_child i => (1, Z.of_nat i)
  | L_p_sib i => (2, Z.of_nat i) | L_s_procq j => (3, Z.of_nat j)
  | L_s_link j => (4, Z.of_nat j) | L_pcb_free => (5, 0) | L_semd_free => (6, 0)
  | L_semd_h => (7, 0) | L_ready_lo => (8, 0) | L_ready_hi => (9, 0)
  | L_dummy => (10, 0) | L_qa => (11, 0)
  end.

Definition lh_decode (p : Z * Z) : lh :=
  match p with
  | (0, i) => L_p_list (Z.to_nat i) | (1, i) => L_p_child (Z.to_nat i)
  | (2, i) => L_p_sib (Z.to_nat i) | (3, j) => L_s_procq (Z.to_nat j)
  | (4, j) => L_s_link (Z.to_nat j) | (5, _) => L_pcb_free | (6, _) => L_semd_free
  | (7, _) => L_semd_h | (8, _) => L_ready_lo | (9, _) => L_ready_hi
  | (11, _) => L_qa | (_, _) => L_dummy
  end.

#[export] Instance lh_countable : Countable lh.
Proof.
  refine (inj_countable' lh_encode lh_decode _).
  by intros []; simpl; rewrite ?Nat2Z.id.
Defined.

(** [container_of]: the structure around an embedded [list_head]. *)
Definition pcb_of_p_list (x : lh) : option nat :=
  match x with L_p_list i => Some i | _ => None end.
Definition pcb_of_p_sib (x : lh) : option nat :=
  match x with L_p_sib i => Some i | _ => None end.
Definition semd_of_s_link (x : lh) : option nat :=
  match x with L_s_link j => Some j | _ => None end.

(** [state_t]: the registers that the sources name, and the other general ones *)
Record state_t : Type := State {
  entry_hi : Z;
  cause : Z;
  status : Z;
  pc_epc : Z;
  hi : Z;
  lo : Z;
  reg_v0 : Z;
  reg_a0 : Z;
  reg_a1 : Z;
  reg_a2 : Z;
  reg_a3 : Z;
  reg_t9 : Z;
  reg_sp : Z;
  other_gpr : list Z;
}.

Definition set_entry_hi (v : Z) (r : state_t) : state_t :=
  State v (cause r) (status r) (pc_epc r) (hi r) (lo r) (reg_v0 r) (reg_a0 r) (reg_a1 r)
    (reg_a2 r) (reg_a3 r) (reg_t9 r) (reg_sp r) (other_gpr r).
Definition set_cause (v : Z) (r : state_t) : state_t :=
  State (entry_hi r) v (status r) (pc_epc r) (hi r) (lo r) (reg_v0 r) (reg_a0 r)
    (reg_a1 r) (reg_a2 r) (reg_a3 r) (reg_t9 r) (reg_sp r) (other_gpr r).
Definition set_status (v : Z) (r : state_t) : state_t :=
  State (entry_hi r) (cause r) v (pc_epc r) (hi r) (lo r) (reg_v0 r) (reg_a0 r)
    (reg_a1 r) (reg_a2 r) (reg_a3 r) (reg_t9 r) (reg_sp r) (other_gpr r).
Definition set_pc_epc (v : Z) (r : state_t) : state_t :=
  State (entry_hi r) (cause r) (status r) v (hi r) (lo r) (reg_v0 r) (reg_a0 r)
    (reg_a1 r) (reg_a2 r) (reg_a3 r) (reg_t9 r) (reg_sp r) (other_gpr r).
Definition set_hi (v : Z) (r : state_t) : state_t :=
  State (entry_hi r) (cause r) (status r) (pc_epc r) v (lo r) (reg_v0 r) (reg_a0 r)
    (reg_a1 r) (reg_a2 r) (reg_a3 r) (reg_t9 r) (reg_sp r) (other_gpr r).
Definition set_lo (v : Z) (r : state_t) : state_t :=
  State (entry_hi r) (cause r) (status r) (pc_epc r) (hi r) v (reg_v0 r) (reg_a0 r)
    (reg_a1 r) (reg_a2 r) (reg_a3 r) (reg_t9 r) (reg_sp r) (other_gpr r).
Definition set_reg_v0 (v : Z) (r : state_t) : state_t :=
  State (entry_hi r) (cause r) (status r) (pc_epc r) (hi r) (lo r) v (reg_a0 r)
    (reg_a1 r) (reg_a2 r) (reg_a3 r) (reg_t9 r) (reg_sp r) (other_gpr r).
Definition set_reg_a0 (v : Z) (r : state_t) : state_t :=
  State (entry_hi r) (cause r) (status r) (pc_epc r) (hi r) (lo r) (reg_v0 r) v
    (reg_a1 r) (reg_a2 r) (reg_a3 r) (reg_t9 r) (reg_sp r) (other_gpr r).
Definition set_reg_a1 (v : Z) (r : state_t) : state_t :=
  State (entry_hi r) (cause r) (status r) (pc_epc r) (hi r) (lo r) (reg_v0 r) (reg_a0 r)
    v (reg_a2 r) (reg_a3 r) (reg_t9 r) (reg_sp r) (other_gpr r).
Definition set_reg_a2 (v : Z) (r : state_t) : state_t :=
  State (entry_hi r) (cause r) (status r) (pc_epc r) (hi r) (lo r) (reg_v0 r) (reg_a0 r)
    (reg_a1 r) v (reg_a3 r) (reg_t9 r) (reg_sp r) (other_gpr r).
Definition set_reg_a3 (v : Z) (r : state_t) : state_t :=
  State (entry_hi r) (cause r) (status r) (pc_epc r) (hi r) (lo r) (reg_v0 r) (reg_a0 r)
    (reg_a1 r) (reg_a2 r) v (reg_t9 r) (reg_sp r) (other_gpr r).
Definition set_reg_t9 (v : Z) (r : state_t) : state_t :=
  State (entry_hi r) (cause r) (status r) (pc_epc r) (hi r) (lo r) (reg_v0 r) (reg_a0 r)
    (reg_a1 r) (reg_a2 r) (reg_a3 r) v (reg_sp r) (other_gpr r).
Definition set_reg_sp (v : Z) (r : state_t) : state_t :=
  State (entry_hi r) (cause r) (status r) (pc_epc r) (hi r) (lo r) (reg_v0 r) (reg_a0 r)
    (reg_a1 r) (reg_a2 r) (reg_a3 r) (reg_t9 r) v (other_gpr r).
Definition set_other_gpr (v : list Z) (r : state_t) : state_t :=
  State (entry_hi r) (cause r) (status r) (pc_epc r) (hi r) (lo r) (reg_v0 r) (reg_a0 r)
    (reg_a1 r) (reg_a2 r) (reg_a3 r) (reg_t9 r) (reg_sp r) v.

(** [context_t] *)
Record context_t : Type := Context {
  stack_ptr : Z;
  c_status : Z;
  pc : Z;
}.

Definition set_stack_ptr (v : Z) (r : context_t) : context_t :=
  Context v (c_status r) (pc r).
Definition set_c_status (v : Z) (r : context_t) : context_t :=
  Context (stack_ptr r) v (pc r).
Definition set_pc (v : Z) (r : context_t) : context_t :=
  Context (stack_ptr r) (c_status r) v.

(** [pte_entry_t] *)
Record pte_entry_t : Type := Pte {
  pte_entry_hi : Z;
  pte_entry_lo : Z;
}.

Definition set_pte_entry_hi (v : Z) (r : pte_entry_t) : pte_entry_t :=
  Pte v (pte_entry_lo r).
Definition set_pte_entry_lo (v : Z) (r : pte_entry_t) : pte_entry_t :=
  Pte (pte_entry_hi r) v.

(** [support_t], without its free-list link *)
Record support_t : Type := Support {
  sup_asid : Z;
  sup_except_state : vec state_t 2;
  sup_except_context : vec context_t 2;
  sup_private_page_table : list pte_entry_t;  (* USERPGTBLSIZE *)
}.

Definition set_sup_asid (v : Z) (r : support_t) : support_t :=
  Support v (sup_except_state r) (sup_except_context r) (sup_private_page_table r).
Definition set_sup_except_state (v : vec state_t 2) (r : support_t) : support_t :=
  Support (sup_asid r) v (sup_except_context r) (sup_private_page_table r).
Definition set_sup_except_context (v : vec context_t 2) (r : support_t) : support_t :=
  Support (sup_asid r) (sup_except_state r) v (sup_private_page_table r).
Definition set_sup_private_page_table (v : list pte_entry_t) (r : support_t) : support_t :=
  Support (sup_asid r) (sup_except_state r) (sup_except_context r) v.

(** [pcb_t]; its three [list_head] fields are cells of [links] *)
Record pcb_t : Type := Pcb {
  p_parent : option nat;
  p_s : state_t;
  p_time : Z;  (* cpu_t *)
  p_sem_add : Z;  (* int * *)
  p_support : Z;  (* support_t * *)
  p_prio : Z;  (* bool *)
  p_pid : Z;  (* pandos_pid_t *)
}.

Definition set_p_parent (v : option nat) (r : pcb_t) : pcb_t :=
  Pcb v (p_s r) (p_time r) (p_sem_add r) (p_support r) (p_prio r) (p_pid r).
Definition set_p_s (v : state_t) (r : pcb_t) : pcb_t :=
  Pcb (p_parent r) v (p_time r) (p_sem_add r) (p_support r) (p_prio r) (p_pid r).
Definition set_p_time (v : Z) (r : pcb_t) : pcb_t :=
  Pcb (p_parent r) (p_s r) v (p_sem_add r) (p_support r) (p_prio r) (p_pid r).
Definition set_p_sem_add (v : Z) (r : pcb_t) : pcb_t :=
  Pcb (p_parent r) (p_s r) (p_time r) v (p_support r) (p_prio r) (p_pid r).
Definition set_p_support (v : Z) (r : pcb_t) : pcb_t :=
  Pcb (p_parent r) (p_s r) (p_time r) (p_sem_add r) v (p_prio r) (p_pid r).
Definition set_p_prio (v : Z) (r : pcb_t) : pcb_t :=
  Pcb (p_parent r) (p_s r) (p_time r) (p_sem_add r) (p_support r) v (p_pid r).
Definition set_p_pid (v : Z) (r : pcb_t) : pcb_t :=
  Pcb (p_parent r) (p_s r) (p_time r) (p_sem_add r) (p_support r) (p_prio r) v.

(** [semd_t]; its two [list_head] fields are cells of [links] *)
Record semd_t : Type := Semd { s_key : Z }.

#[export] Instance semd_eq_dec : EqDecision semd_t.
Proof. solve_decision. Defined.

(** [scheduler_control_t] *)
Record scheduler_control_t : Type := Control { sc_pcb : option nat; sc_enqueue : bool }.
Definition CONTROL_BLOCK : scheduler_control_t := Control None false.
Definition CONTROL_PRESERVE (p : option nat) : scheduler_control_t := Control p false.
Definition CONTROL_RESCHEDULE (active : option nat) : scheduler_control_t :=
  Control active true.

(** The whole state *)
Record kernel : Type := Kernel {
  links : gmap lh (list_head lh);  (* every list_head object *)
  pcb_table : list pcb_t;  (* pcb.c *)
  semd_table : list semd_t;  (* asl.c *)
  process_count : Z;  (* scheduler.c *)
  softblock_count : Z;
  active_process : option nat;
  yield_process : option nat;
  start_tod : Z;
  recycle_count : Z;
  mem : gmap Z Z;  (* words of memory and device registers *)
  saved_states : gmap Z state_t;  (* state_t objects in memory *)
  supports : gmap Z support_t;  (* support_t objects in memory *)
  cpu_status : Z;  (* CP0 STATUS *)
  cpu_cause : Z;  (* CP0 CAUSE *)
  interval_timer : Z;
  local_timer : Z;
  tod_reads : nat;  (* time-of-day readings so far *)
  pass_up_vector : list Z;  (* tlb pc, tlb sp, exception pc, exception sp *)
  klog : list (string * list Z);  (* kernel messages, latest first *)
}.

Definition set_links (v : gmap lh (list_head lh)) (r : kernel) : kernel :=
  Kernel v (pcb_table r) (semd_table r) (process_count r) (softblock_count r)
    (active_process r) (yield_process r) (start_tod r) (recycle_count r) (mem r)
    (saved_states r) (supports r) (cpu_status r) (cpu_cause r) (interval_timer r)
    (local_timer r) (tod_reads r) (pass_up_vector r) (klog r).
Definition set_pcb_table (v : list pcb_t) (r : kernel) : kernel :=
  Kernel (links r) v (semd_table r) (process_count r) (softblock_count r)
    (active_process r) (yield_process r) (start_tod r) (recycle_count r) (mem r)
    (saved_states r) (supports r) (cpu_status r) (cpu_cause r) (interval_timer r)
    (local_timer r) (tod_reads r) (pass_up_vector r) (klog r).
Definition set_semd_table (v : list semd_t) (r : kernel) : kernel :=
  Kernel (links r) (pcb_table r) v (process_count r) (softblock_count r)
    (active_process r) (yield_process r) (start_tod r) (recycle_count r) (mem r)
    (saved_states r) (supports r) (cpu_status r) (cpu_cause r) (interval_timer r)
    (local_timer r) (tod_reads r) (pass_up_vector r) (klog r).
Definition set_process_count (v : Z) (r : kernel) : kernel :=
  Kernel (links r) (pcb_table r) (semd_table r) v (softblock_count r) (active_process r)
    (yield_process r) (start_tod r) (recycle_count r) (mem r) (saved_states r)
    (supports r) (cpu_status r) (cpu_cause r) (interval_timer r) (local_timer r)
    (tod_reads r) (pass_up_vector r) (klog r).
Definition set_softblock_count (v : Z) (r : kernel) : kernel :=
  Kernel (links r) (pcb_table r) (semd_table r) (process_count r) v (active_process r)
    (yield_process r) (start_tod r) (recycle_count r) (mem r) (saved_states r)
    (supports r) (cpu_status r) (cpu_cause r) (interval_timer r) (local_timer r)
    (tod_reads r) (pass_up_vector r) (klog r).
Definition set_active_process (v : option nat) (r : kernel) : kernel :=
  Kernel (links r) (pcb_table r) (semd_table r) (process_count r) (softblock_count r) v
    (yield_process r) (start_tod r) (recycle_count r) (mem r) (saved_states r)
    (supports r) (cpu_status r) (cpu_cause r) (interval_timer r) (local_timer r)
    (tod_reads r) (pass_up_vector r) (klog r).
Definition set_yield_process (v : option nat) (r : kernel) : kernel :=
  Kernel (links r) (pcb_table r) (semd_table r) (process_count r) (softblock_count r)
    (active_process r) v (start_tod r) (recycle_count r) (mem r) (saved_states r)
    (supports r) (cpu_status r) (cpu_cause r) (interval_timer r) (local_timer r)
    (tod_reads r) (pass_up_vector r) (klog r).
Definition set_start_tod (v : Z) (r : kernel) : kernel :=
  Kernel (links r) (pcb_table r) (semd_table r) (process_count r) (softblock_count r)
    (active_process r) (yield_process r) v (recycle_count r) (mem r) (saved_states r)
    (supports r) (cpu_status r) (cpu_cause r) (interval_timer r) (local_timer r)
    (tod_reads r) (pass_up_vector r) (klog r).
Definition set_recycle_count (v : Z) (r : kernel) : kernel :=
  Kernel (links r) (pcb_table r) (semd_table r) (process_count r) (softblock_count r)
    (active_process r) (yield_process r) (start_tod r) v (mem r) (saved_states r)
    (supports r) (cpu_status r) (cpu_cause r) (interval_timer r) (local_timer r)
    (tod_reads r) (pass_up_vector r) (klog r).
Definition set_mem (v : gmap Z Z) (r : kernel) : kernel :=
  Kernel (links r) (pcb_table r) (semd_table r) (process_count r) (softblock_count r)
    (active_process r) (yield_process r) (start_tod r) (recycle_count r) v
    (saved_states r) (supports r) (cpu_status r) (cpu_cause r) (interval_timer r)
    (local_timer r) (tod_reads r) (pass_up_vector r) (klog r).
Definition set_saved_states (v : gmap Z state_t) (r : kernel) : kernel :=
  Kernel (links r) (pcb_table r) (semd_table r) (process_count r) (softblock_count r)
    (active_process r) (yield_process r) (start_tod r) (recycle_count r) (mem r) v
    (supports r) (cpu_status r) (cpu_cause r) (interval_timer r) (local_timer r)
    (tod_reads r) (pass_up_vector r) (klog r).
Definition set_supports (v : gmap Z support_t) (r : kernel) : kernel :=
  Kernel (links r) (pcb_table r) (semd_table r) (process_count r) (softblock_count r)
    (active_process r) (yield_process r) (start_tod r) (recycle_count r) (mem r)
    (saved_states r) v (cpu_status r) (cpu_cause r) (interval_timer r) (local_timer r)
    (tod_reads r) (pass_up_vector r) (klog r).
Definition set_cpu_status (v : Z) (r : kernel) : kernel :=
  Kernel (links r) (pcb_table r) (semd_table r) (process_count r) (softblock_count r)
    (active_process r) (yield_process r) (start_tod r) (recycle_count r) (mem r)
    (saved_states r) (supports r) v (cpu_cause r) (interval_timer r) (local_timer r)
    (tod_reads r) (pass_up_vector r) (klog r).
Definition set_cpu_cause (v : Z) (r : kernel) : kernel :=
  Kernel (links r) (pcb_table r) (semd_table r) (process_count r) (softblock_count r)
    (active_process r) (yield_process r) (start_tod r) (recycle_count r) (mem r)
    (saved_states r) (supports r) (cpu_status r) v (interval_timer r) (local_timer r)
    (tod_reads r) (pass_up_vector r) (klog r).
Definition set_interval_timer (v : Z) (r : kernel) : kernel :=
  Kernel (links r) (pcb_table r) (semd_table r) (process_count r) (softblock_count r)
    (active_process r) (yield_process r) (start_tod r) (recycle_count r) (mem r)
    (saved_states r) (supports r) (cpu_status r) (cpu_cause r) v (local_timer r)
    (tod_reads r) (pass_up_vector r) (klog r).
Definition set_local_timer (v : Z) (r : kernel) : kernel :=
  Kernel (links r) (pcb_table r) (semd_table r) (process_count r) (softblock_count r)
    (active_process r) (yield_process r) (start_tod r) (recycle_count r) (mem r)
    (saved_states r) (supports r) (cpu_status r) (cpu_cause r) (interval_timer r) v
    (tod_reads r) (pass_up_vector r) (klog r).
Definition set_tod_reads (v : nat) (r : kernel) : kernel :=
  Kernel (links r) (pcb_table r) (semd_table r) (process_count r) (softblock_count r)
    (active_process r) (yield_process r) (start_tod r) (recycle_count r) (mem r)
    (saved_states r) (supports r) (cpu_status r) (cpu_cause r) (interval_timer r)
    (local_timer r) v (pass_up_vector r) (klog r).
Definition set_pass_up_vector (v : list Z) (r : kernel) : kernel :=
  Kernel (links r) (pcb_table r) (semd_table r) (process_count r) (softblock_count r)
    (active_process r) (yield_process r) (start_tod r) (recycle_count r) (mem r)
    (saved_states r) (supports r) (cpu_status r) (cpu_cause r) (interval_timer r)
    (local_timer r) (tod_reads r) v (klog r).
Definition set_klog (v : list (string * list Z)) (r : kernel) : kernel :=
  Kernel (links r) (pcb_table r) (semd_table r) (process_count r) (softblock_count r)
    (active_process r) (yield_process r) (start_tod r) (recycle_count r) (mem r)
    (saved_states r) (supports r) (cpu_status r) (cpu_cause r) (interval_timer r)
    (local_timer r) (tod_reads r) (pass_up_vector r) v.

(** How control leaves the nucleus for good. *)
Inductive exit_t : Type :=
| Halted                            (* HALT *)
| Panicked                          (* PANIC *)
| Waiting                           (* WAIT *)
| Running (s : state_t)             (* LDST *)
| InSupport (c : context_t)         (* LDCXT *)
| BadAddress (a : Z).               (* an address exception inside the nucleus *)

Abbreviation KM := (M kernel exit_t).

(** The list operations act on [links] alone. *)
Definition on_links {A} (m : M (gmap lh (list_head lh)) Empty_set A) : KM A :=
  zoom links set_links m.

(** [p->field] for a [pcb_t *p], and [p->field = v]. *)
Definition deref (p : option nat) : KM nat := ok_or "NULL pcb_t" p.
Definition pcb_at (i : nat) : KM pcb_t :=
  s <- get ;; ok_or "wild pcb_t" (pcb_table s !! i).
Definition upd_pcb (i : nat) (f : pcb_t -> pcb_t) : KM unit :=
  c <- pcb_at i ;;
  modify (fun s => set_pcb_table (<[i := f c]> (pcb_table s)) s).

Definition semd_at (j : nat) : KM semd_t :=
  s <- get ;; ok_or "wild semd_t" (semd_table s !! j).
Definition set_s_key (j : nat) (k : Z) : KM unit :=
  _ <- semd_at j ;;
  modify (fun s => set_semd_table (<[j := Semd k]> (semd_table s)) s).

(** Word accesses trap when the address is not a word of the address space. *)
Definition word_addr (a : Z) : bool := (0 <=? a) && (a <? 2 ^ 32) && (a mod 4 =? 0).
Definition read_word (a : Z) : KM Z :=
  if word_addr a then gets (fun s => default 0 (mem s !! a)) else exit (BadAddress a).
Definition write_word (a v : Z) : KM unit :=
  if word_addr a then modify (fun s => set_mem (<[a := u32 v]> (mem s)) s)
  else exit (BadAddress a).
Definition read_int (a : Z) : KM Z := v <- read_word a ;; ret (s32 v).

(** Objects of the program's own types in memory, at an address that came
    from a register. *)
Definition read_state (a : Z) : KM state_t :=
  s <- get ;;
  match saved_states s !! a with Some st => ret st | None => exit (BadAddress a) end.
Definition read_support (a : Z) : KM support_t :=
  s <- get ;;
  match supports s !! a with Some su => ret su | None => exit (BadAddress a) end.
Definition write_support (a : Z) (su : support_t) : KM unit :=
  _ <- read_support a ;;
  modify (fun s => set_supports (<[a := su]> (supports s)) s).

(** [pandos_kprintf] and [pandos_kfprintf]: the message, not its rendering. *)
Definition kprintf (fmt : string) (args : list Z) : KM unit :=
  modify (fun s => set_klog ((fmt, args) :: klog s) s).

(** [bool] is an unsigned int. *)
Definition is_true (b : Z) : bool := negb (b =? 0).

Arguments on_links : simpl never.

(** ** The processor: processor.c and devices.c *)

Section processor.
Context `{Umps}.

Definition null_state (s : state_t) : state_t :=
  {| entry_hi := 0; cause := 0; status := UNINSTALLED; pc_epc := 0; hi := 0; lo := 0;
     reg_v0 := 0; reg_a0 := 0; reg_a1 := 0; reg_a2 := 0; reg_a3 := 0;
     reg_t9 := 0; reg_sp := 0; other_gpr := map (fun _ => 0) (other_gpr s) |}.

Definition init_puv (tlb_refill_handler exception_handler : Z) : KM unit :=
  modify (set_pass_up_vector
            [tlb_refill_handler; KERNELSTACK; exception_handler; KERNELSTACK]).

Definition is_user_mode : KM Z :=
  a <- gets active_process ;;
  i <- deref a ;;
  c <- pcb_at i ;;
  ret (user_mode (status (p_s c))).

Definition load_state (s : state_t) : KM unit := exit (Running s).
Definition load_context (c : context_t) : KM unit := exit (InSupport c).
Definition halt : KM unit := exit Halted.
Definition panic : KM unit := exit Panicked.
Definition wait : KM unit := exit Waiting.

Definition set_status_register (st : Z) : KM unit := modify (set_cpu_status st).
Definition get_status : KM Z := gets cpu_status.
Definition get_cause : KM Z := gets cpu_cause.

(** [STCK]: the next reading of the clock. *)
Definition store_tod : KM Z :=
  n <- gets tod_reads ;;
  modify (set_tod_reads (S n)) ;;
  ret (s32 (tod n)).

Definition load_interval_timer (time : Z) : KM unit :=
  modify (set_interval_timer (u32 time)).

Definition TRANSLATE_TIME (t : Z) : KM Z :=
  scale <- read_int TIMESCALEADDR ;; ret (s32 (t * scale)).

Definition load_local_timer (time : Z) : KM unit :=
  v <- TRANSLATE_TIME time ;; modify (set_local_timer (u32 v)).
End processor.

(** ** Equations *)

Lemma on_links_ok {A} (m : M (gmap lh (list_head lh)) Empty_set A) s a h :
  m (links s) = Ok a h -> on_links m s = Ok a (set_links h s).
Proof. apply zoom_ok. Qed.

Lemma on_links_query {A} (m : M (gmap lh (list_head lh)) Empty_set A) s a :
  m (links s) = Ok a (links s) -> on_links m s = Ok a s.
Proof. intros Hm. rewrite (on_links_ok _ _ _ _ Hm). by destruct s. Qed.

Lemma pcb_at_ok s i c : pcb_table s !! i = Some c -> pcb_at i s = Ok c s.
Proof. intros Hc. unfold pcb_at, bind, get. by rewrite Hc. Qed.

Lemma upd_pcb_ok s i c f :
  pcb_table s !! i = Some c ->
  upd_pcb i f s = Ok tt (set_pcb_table (<[i := f c]> (pcb_table s)) s).
Proof. intros Hc. unfold upd_pcb. by step_with (pcb_at_ok _ _ _ Hc). Qed.

Lemma semd_at_ok s j d : semd_table s !! j = Some d -> semd_at j s = Ok d s.
Proof. intros Hd. unfold semd_at, bind, get. by rewrite Hd. Qed.

Lemma set_s_key_ok s j d k :
  semd_table s !! j = Some d ->
  set_s_key j k s = Ok tt (set_semd_table (<[j := Semd k]> (semd_table s)) s).
Proof. intros Hd. unfold set_s_key. by step_with (semd_at_ok _ _ _ Hd). Qed.
