(* ===== verification/View.v ===== *)
(** * The abstract view of the nucleus' lists

    [view] names the contents of every list of the nucleus as a plain list of
    indices: it is the abstract state that the operations of [Pcb], [Asl] and
    [Scheduler] are specified on.  [flat v] says where these lists live, and
    [Rep s v] that the heap of the kernel state [s] really holds them. *)

From Stdlib Require Import ZArith Lia String.
From stdpp Require Import base tactics option numbers gmap list.
From S2P Require Import Prelude ListHead Machine Kernel.

Open Scope list_scope.
Open Scope nat_scope.

Record view : Type := View {
  v_free : list nat;              (* pcb_free *)
  v_hi : list nat;                (* ready_queue_hi *)
  v_lo : list nat;                (* ready_queue_lo *)
  v_child : gmap nat (list nat);  (* p_child of every PCB ever allocated *)
  v_sfree : list nat;             (* semd_free *)
  v_semd : list nat;              (* semd_h *)
  v_procq : gmap nat (list nat);  (* s_procq of every semaphore ever allocated *)
}.

Definition set_v_free l v :=
  View l (v_hi v) (v_lo v) (v_child v) (v_sfree v) (v_semd v) (v_procq v).
Definition set_v_hi l v :=
  View (v_free v) l (v_lo v) (v_child v) (v_sfree v) (v_semd v) (v_procq v).
Definition set_v_lo l v :=
  View (v_free v) (v_hi v) l (v_child v) (v_sfree v) (v_semd v) (v_procq v).
Definition set_v_child c v :=
  View (v_free v) (v_hi v) (v_lo v) c (v_sfree v) (v_semd v) (v_procq v).
Definition set_v_sfree l v :=
  View (v_free v) (v_hi v) (v_lo v) (v_child v) l (v_semd v) (v_procq v).
Definition set_v_semd l v :=
  View (v_free v) (v_hi v) (v_lo v) (v_child v) (v_sfree v) l (v_procq v).
Definition set_v_procq m v :=
  View (v_free v) (v_hi v) (v_lo v) (v_child v) (v_sfree v) (v_semd v) m.

Abbreviation p_lists := (fmap (M := list) L_p_list).
Abbreviation p_sibs := (fmap (M := list) L_p_sib).
Abbreviation s_links := (fmap (M := list) L_s_link).

Definition flat (v : view) (hd : lh) : option (list lh) :=
  match hd with
  | L_pcb_free => Some (p_lists (v_free v))
  | L_ready_hi => Some (p_lists (v_hi v))
  | L_ready_lo => Some (p_lists (v_lo v))
  | L_p_child i => option_map p_sibs (v_child v !! i)
  | L_semd_free => Some (s_links (v_sfree v))
  | L_semd_h => Some (s_links (v_semd v))
  | L_s_procq j => option_map p_lists (v_procq v !! j)
  | _ => None
  end.

(** The [list_head] objects that exist. *)
Definition lh_valid (x : lh) : Prop :=
  match x with
  | L_p_list i | L_p_child i | L_p_sib i => i < MAX_PROC
  | L_s_procq j | L_s_link j => j < MAX_PROC
  | L_dummy | L_qa => False
  | _ => True
  end.

Record Lists (s : kernel) (Q : lh -> option (list lh)) : Prop := {
  lists_repr : repr None (links s) Q;
  lists_dom : ∀ x, lh_valid x ↔ is_Some (links s !! x);
  lists_pcbs : length (pcb_table s) = MAX_PROC;
  lists_semds : length (semd_table s) = MAX_PROC;
}.

Abbreviation Rep s v := (Lists s (flat v)).

Create HintDb view.

(** ** Updates of the view are updates of the lists *)

Section flat_updates.
Implicit Types (v : view) (l : list nat) (x : lh).

Ltac flat_tac :=
  intros; unfold upd; case_decide; subst; try done;
  match goal with |- flat _ ?x = _ => destruct x; simpl in *; try done end;
  rewrite lookup_insert_ne; congruence.

Lemma flat_set_free v l x :
  flat (set_v_free l v) x = upd (flat v) L_pcb_free (p_lists l) x.
Proof. unfold upd. case_decide; subst; [done|]. by destruct x. Qed.
Lemma flat_set_hi v l x :
  flat (set_v_hi l v) x = upd (flat v) L_ready_hi (p_lists l) x.
Proof. unfold upd. case_decide; subst; [done|]. by destruct x. Qed.
Lemma flat_set_lo v l x :
  flat (set_v_lo l v) x = upd (flat v) L_ready_lo (p_lists l) x.
Proof. unfold upd. case_decide; subst; [done|]. by destruct x. Qed.
Lemma flat_set_sfree v l x :
  flat (set_v_sfree l v) x = upd (flat v) L_semd_free (s_links l) x.
Proof. unfold upd. case_decide; subst; [done|]. by destruct x. Qed.
Lemma flat_set_semd v l x :
  flat (set_v_semd l v) x = upd (flat v) L_semd_h (s_links l) x.
Proof. unfold upd. case_decide; subst; [done|]. by destruct x. Qed.
Lemma flat_set_child v i l x :
  flat (set_v_child (<[i := l]> (v_child v)) v) x =
  upd (flat v) (L_p_child i) (p_sibs l) x.
Proof.
  unfold upd. case_decide; subst; simpl; [by rewrite lookup_insert_eq|].
  destruct x; simpl; try done. rewrite lookup_insert_ne; congruence.
Qed.
Lemma flat_set_procq v j l x :
  flat (set_v_procq (<[j := l]> (v_procq v)) v) x =
  upd (flat v) (L_s_procq j) (p_lists l) x.
Proof.
  unfold upd. case_decide; subst; simpl; [by rewrite lookup_insert_eq|].
  destruct x; simpl; try done. rewrite lookup_insert_ne; congruence.
Qed.
End flat_updates.

(** ** Who is where *)

(** The queues that link PCBs through [p_list]. *)
Inductive in_queue (v : view) (i : nat) : Prop :=
| in_free : i ∈ v_free v -> in_queue v i
| in_hi : i ∈ v_hi v -> in_queue v i
| in_lo : i ∈ v_lo v -> in_queue v i
| in_procq j l : v_procq v !! j = Some l -> i ∈ l -> in_queue v i.

Definition in_children (v : view) (i : nat) : Prop :=
  ∃ j l, v_child v !! j = Some l ∧ i ∈ l.

Definition in_semds (v : view) (j : nat) : Prop := j ∈ v_sfree v ∨ j ∈ v_semd v.

#[export] Instance in_queue_dec v i : Decision (in_queue v i).
Proof.
  destruct (decide (i ∈ v_free v)); [left; by apply in_free|].
  destruct (decide (i ∈ v_hi v)); [left; by apply in_hi|].
  destruct (decide (i ∈ v_lo v)); [left; by apply in_lo|].
  destruct (decide (map_Exists (fun _ l => i ∈ l) (v_procq v))) as [Hj|Hj].
  - left. destruct Hj as (j & l & Hl & Hi). by eapply in_procq.
  - right. intros [| | |j l Hl Hi]; [done..|]. apply Hj. by exists j, l.
Defined.

#[export] Instance in_children_dec v i : Decision (in_children v i).
Proof.
  destruct (decide (map_Exists (fun _ l => i ∈ l) (v_child v))) as [Hj|Hj].
  - left. destruct Hj as (j & l & Hl & Hi). by exists j, l.
  - right. intros (j & l & Hl & Hi). apply Hj. by exists j, l.
Defined.

Lemma elem_of_wrap {B} `{!Inj eq eq (f : nat -> B)} (i : nat) (l : list nat) :
  f i ∈ fmap (M := list) f l ↔ i ∈ l.
Proof. apply list_elem_of_fmap_inj; apply _. Qed.

#[export] Instance L_p_list_inj : Inj eq eq L_p_list.
Proof. by intros ?? [=]. Qed.
#[export] Instance L_p_sib_inj : Inj eq eq L_p_sib.
Proof. by intros ?? [=]. Qed.
#[export] Instance L_s_link_inj : Inj eq eq L_s_link.
Proof. by intros ?? [=]. Qed.

(** What a list of [flat v] can contain. *)
Lemma flat_p_list v hd l i :
  flat v hd = Some l -> L_p_list i ∈ hd :: l ->
  (hd = L_pcb_free ∧ i ∈ v_free v) ∨ (hd = L_ready_hi ∧ i ∈ v_hi v) ∨
  (hd = L_ready_lo ∧ i ∈ v_lo v) ∨
  (∃ j l', hd = L_s_procq j ∧ v_procq v !! j = Some l' ∧ i ∈ l').
Proof.
  intros Hf Hin. apply elem_of_cons in Hin as [Hin|Hin]; [by subst|].
  destruct hd; simpl in Hf; simplify_eq/=;
    try (apply list_elem_of_fmap in Hin as (y & Hy & Hin); simplify_eq/=; naive_solver).
  - destruct (v_child v !! i0); simplify_eq/=.
    apply list_elem_of_fmap in Hin as (y & Hy & _). done.
  - destruct (v_procq v !! j) as [l'|] eqn:Hj; simplify_eq/=.
    apply list_elem_of_fmap in Hin as (y & Hy & Hin). simplify_eq/=. naive_solver.
Qed.

Lemma flat_p_sib v hd l i :
  flat v hd = Some l -> L_p_sib i ∈ hd :: l ->
  ∃ j l', hd = L_p_child j ∧ v_child v !! j = Some l' ∧ i ∈ l'.
Proof.
  intros Hf Hin. apply elem_of_cons in Hin as [Hin|Hin]; [by subst|].
  destruct hd; simpl in Hf; simplify_eq/=;
    try (by apply list_elem_of_fmap in Hin as (y & Hy & Hin)).
  - destruct (v_child v !! i0) eqn:Hc; simplify_eq/=.
    apply list_elem_of_fmap in Hin as (y & Hy & Hin). simplify_eq/=. naive_solver.
  - destruct (v_procq v !! j); simplify_eq/=.
    by apply list_elem_of_fmap in Hin as (y & Hy & Hin).
Qed.

Lemma flat_s_link v hd l j :
  flat v hd = Some l -> L_s_link j ∈ hd :: l ->
  (hd = L_semd_free ∧ j ∈ v_sfree v) ∨ (hd = L_semd_h ∧ j ∈ v_semd v).
Proof.
  intros Hf Hin. apply elem_of_cons in Hin as [Hin|Hin]; [by subst|].
  destruct hd; simpl in Hf; simplify_eq/=;
    try (apply list_elem_of_fmap in Hin as (y & Hy & Hin); simplify_eq/=; naive_solver).
  - destruct (v_child v !! i); simplify_eq/=.
    apply list_elem_of_fmap in Hin as (y & Hy & _). done.
  - destruct (v_procq v !! j0); simplify_eq/=.
    apply list_elem_of_fmap in Hin as (y & Hy & _). done.
Qed.

Lemma detached_p_list v i : detached (flat v) (L_p_list i) ↔ ¬ in_queue v i.
Proof.
  split.
  - intros Hd [Hi|Hi|Hi|j l Hj Hi].
    + apply (Hd L_pcb_free _ eq_refl). right. by apply elem_of_wrap.
    + apply (Hd L_ready_hi _ eq_refl). right. by apply elem_of_wrap.
    + apply (Hd L_ready_lo _ eq_refl). right. by apply elem_of_wrap.
    + apply (Hd (L_s_procq j) (p_lists l)); [simpl; by rewrite Hj|].
      right. by apply elem_of_wrap.
  - intros Hn hd l Hl Hin. apply Hn.
    destruct (flat_p_list _ _ _ _ Hl Hin) as [[_ ?]|[[_ ?]|[[_ ?]|(j & l' & _ & ? & ?)]]];
      eauto using in_queue.
Qed.

Lemma detached_p_sib v i : detached (flat v) (L_p_sib i) ↔ ¬ in_children v i.
Proof.
  split.
  - intros Hd (j & l & Hj & Hi).
    apply (Hd (L_p_child j) (p_sibs l)); [simpl; by rewrite Hj|].
    right. by apply elem_of_wrap.
  - intros Hn hd l Hl Hin. apply Hn.
    destruct (flat_p_sib _ _ _ _ Hl Hin) as (j & l' & _ & ? & ?). by exists j, l'.
Qed.

Lemma detached_s_link v j : detached (flat v) (L_s_link j) ↔ ¬ in_semds v j.
Proof.
  split.
  - intros Hd [Hi|Hi].
    + apply (Hd L_semd_free _ eq_refl). right. by apply elem_of_wrap.
    + apply (Hd L_semd_h _ eq_refl). right. by apply elem_of_wrap.
  - intros Hn hd l Hl Hin. apply Hn.
    destruct (flat_s_link _ _ _ _ Hl Hin) as [[_ ?]|[_ ?]]; [by left|by right].
Qed.

(** ** Consequences of the representation *)

Section rep_facts.
Context (s : kernel) (v : view) (HRep : Rep s v).
Implicit Types (i j : nat) (l : list nat).

Let HR : repr None (links s) (flat v) := lists_repr _ _ HRep.

Lemma rep_NoDup hd (l : list lh) : flat v hd = Some l -> NoDup l.
Proof. intros Hl. pose proof (repr_NoDup _ _ _ _ _ HR Hl) as Hnd. by apply NoDup_cons in Hnd as [_ ?]. Qed.

Lemma rep_NoDup_wrap (f : nat -> lh) `{!Inj eq eq f} hd l :
  flat v hd = Some (fmap (M := list) f l) -> NoDup l.
Proof. intros Hl%rep_NoDup. by apply NoDup_fmap_1 in Hl. Qed.

Lemma rep_NoDup_free : NoDup (v_free v).
Proof. by apply (rep_NoDup_wrap L_p_list L_pcb_free). Qed.
Lemma rep_NoDup_hi : NoDup (v_hi v).
Proof. by apply (rep_NoDup_wrap L_p_list L_ready_hi). Qed.
Lemma rep_NoDup_lo : NoDup (v_lo v).
Proof. by apply (rep_NoDup_wrap L_p_list L_ready_lo). Qed.
Lemma rep_NoDup_sfree : NoDup (v_sfree v).
Proof. by apply (rep_NoDup_wrap L_s_link L_semd_free). Qed.
Lemma rep_NoDup_semd : NoDup (v_semd v).
Proof. by apply (rep_NoDup_wrap L_s_link L_semd_h). Qed.
Lemma rep_NoDup_procq j l : v_procq v !! j = Some l -> NoDup l.
Proof. intros Hj. apply (rep_NoDup_wrap L_p_list (L_s_procq j)). simpl. by rewrite Hj. Qed.
Lemma rep_NoDup_child j l : v_child v !! j = Some l -> NoDup l.
Proof. intros Hj. apply (rep_NoDup_wrap L_p_sib (L_p_child j)). simpl. by rewrite Hj. Qed.

(** A node is on one list only. *)
Lemma rep_one_list hd1 hd2 (l1 l2 : list lh) x :
  flat v hd1 = Some l1 -> flat v hd2 = Some l2 -> x ∈ l1 -> x ∈ l2 -> hd1 = hd2.
Proof.
  intros H1 H2 Hx1 Hx2. eapply (repr_disjoint _ _ _ HR); [exact H1 | exact H2 | by right | by right].
Qed.

Lemma rep_one_queue (f : nat -> lh) `{!Inj eq eq f} hd1 hd2 l1 l2 i :
  flat v hd1 = Some (fmap (M := list) f l1) -> flat v hd2 = Some (fmap (M := list) f l2) ->
  i ∈ l1 -> i ∈ l2 -> hd1 = hd2.
Proof.
  intros H1 H2 Hi1 Hi2. eapply rep_one_list; [exact H1 | exact H2 | |]; by apply elem_of_wrap.
Qed.

Lemma procq_flat j l : v_procq v !! j = Some l -> flat v (L_s_procq j) = Some (p_lists l).
Proof. intros Hj. simpl. by rewrite Hj. Qed.
Lemma child_flat j l : v_child v !! j = Some l -> flat v (L_p_child j) = Some (p_sibs l).
Proof. intros Hj. simpl. by rewrite Hj. Qed.

Lemma free_not_hi i : i ∈ v_free v -> i ∉ v_hi v.
Proof. intros H1 H2. by pose proof (rep_one_queue L_p_list L_pcb_free L_ready_hi _ _ i eq_refl eq_refl H1 H2). Qed.
Lemma free_not_lo i : i ∈ v_free v -> i ∉ v_lo v.
Proof. intros H1 H2. by pose proof (rep_one_queue L_p_list L_pcb_free L_ready_lo _ _ i eq_refl eq_refl H1 H2). Qed.
Lemma hi_not_lo i : i ∈ v_hi v -> i ∉ v_lo v.
Proof. intros H1 H2. by pose proof (rep_one_queue L_p_list L_ready_hi L_ready_lo _ _ i eq_refl eq_refl H1 H2). Qed.
Lemma free_not_procq i j l : v_procq v !! j = Some l -> i ∈ v_free v -> i ∉ l.
Proof. intros Hj H1 H2. by pose proof (rep_one_queue L_p_list L_pcb_free _ _ _ i eq_refl (procq_flat _ _ Hj) H1 H2). Qed.
Lemma hi_not_procq i j l : v_procq v !! j = Some l -> i ∈ v_hi v -> i ∉ l.
Proof. intros Hj H1 H2. by pose proof (rep_one_queue L_p_list L_ready_hi _ _ _ i eq_refl (procq_flat _ _ Hj) H1 H2). Qed.
Lemma lo_not_procq i j l : v_procq v !! j = Some l -> i ∈ v_lo v -> i ∉ l.
Proof. intros Hj H1 H2. by pose proof (rep_one_queue L_p_list L_ready_lo _ _ _ i eq_refl (procq_flat _ _ Hj) H1 H2). Qed.
Lemma procq_unique i j l j' l' :
  v_procq v !! j = Some l -> v_procq v !! j' = Some l' -> i ∈ l -> i ∈ l' -> j = j'.
Proof.
  intros Hj Hj' H1 H2.
  by pose proof (rep_one_queue L_p_list _ _ _ _ i (procq_flat _ _ Hj) (procq_flat _ _ Hj') H1 H2) as [=].
Qed.
Lemma parent_unique i j l j' l' :
  v_child v !! j = Some l -> v_child v !! j' = Some l' -> i ∈ l -> i ∈ l' -> j = j'.
Proof.
  intros Hj Hj' H1 H2.
  by pose proof (rep_one_queue L_p_sib _ _ _ _ i (child_flat _ _ Hj) (child_flat _ _ Hj') H1 H2) as [=].
Qed.
Lemma sfree_not_semd j : j ∈ v_sfree v -> j ∉ v_semd v.
Proof. intros H1 H2. by pose proof (rep_one_queue L_s_link L_semd_free L_semd_h _ _ j eq_refl eq_refl H1 H2). Qed.

Lemma rep_valid hd (l : list lh) x : flat v hd = Some l -> x ∈ hd :: l -> lh_valid x.
Proof. intros Hl Hx. apply (lists_dom _ _ HRep). by eapply repr_is_Some. Qed.

Lemma in_queue_valid i : in_queue v i -> i < MAX_PROC.
Proof.
  intros Hi. apply (lists_dom _ _ HRep (L_p_list i)).
  destruct Hi as [Hi|Hi|Hi|j l Hj Hi].
  - apply (repr_is_Some _ _ _ L_pcb_free _ _ HR eq_refl). right. by apply elem_of_wrap.
  - apply (repr_is_Some _ _ _ L_ready_hi _ _ HR eq_refl). right. by apply elem_of_wrap.
  - apply (repr_is_Some _ _ _ L_ready_lo _ _ HR eq_refl). right. by apply elem_of_wrap.
  - apply (repr_is_Some _ _ _ _ _ _ HR (procq_flat _ _ Hj)). right. by apply elem_of_wrap.
Qed.

Lemma child_valid i j l : v_child v !! j = Some l -> i ∈ l -> i < MAX_PROC.
Proof.
  intros Hj Hi. apply (rep_valid _ _ (L_p_sib i) (child_flat _ _ Hj)).
  right. by apply elem_of_wrap.
Qed.

Lemma parent_valid j l : v_child v !! j = Some l -> j < MAX_PROC.
Proof. intros Hj. apply (rep_valid _ _ (L_p_child j) (child_flat _ _ Hj)). left. Qed.

Lemma procq_valid j l : v_procq v !! j = Some l -> j < MAX_PROC.
Proof. intros Hj. apply (rep_valid _ _ (L_s_procq j) (procq_flat _ _ Hj)). left. Qed.

Lemma in_semds_valid j : in_semds v j -> j < MAX_PROC.
Proof.
  intros [Hj|Hj].
  - apply (rep_valid L_semd_free _ (L_s_link j) eq_refl). right. by apply elem_of_wrap.
  - apply (rep_valid L_semd_h _ (L_s_link j) eq_refl). right. by apply elem_of_wrap.
Qed.

(** A list of distinct valid indices is short. *)
Lemma valid_length l : NoDup l -> (∀ i, i ∈ l → i < MAX_PROC) -> length l ≤ MAX_PROC.
Proof.
  intros Hnd Hl. replace MAX_PROC with (length (seq 0 MAX_PROC)) by apply length_seq.
  apply submseteq_length, NoDup_submseteq; [done|].
  intros i Hi. apply elem_of_seq. specialize (Hl i Hi). lia.
Qed.

Lemma procq_short j l : v_procq v !! j = Some l -> length l ≤ MAX_PROC.
Proof.
  intros Hj. apply valid_length; [by eapply rep_NoDup_procq|].
  intros i Hi. apply in_queue_valid. by eapply in_procq.
Qed.
Lemma child_short j l : v_child v !! j = Some l -> length l ≤ MAX_PROC.
Proof. intros Hj. apply valid_length; [by eapply rep_NoDup_child|]. intros. by eapply child_valid. Qed.
Lemma free_short : length (v_free v) ≤ MAX_PROC.
Proof. apply valid_length; [apply rep_NoDup_free|]. intros i Hi. by apply in_queue_valid, in_free. Qed.
Lemma hi_short : length (v_hi v) ≤ MAX_PROC.
Proof. apply valid_length; [apply rep_NoDup_hi|]. intros i Hi. by apply in_queue_valid, in_hi. Qed.
Lemma lo_short : length (v_lo v) ≤ MAX_PROC.
Proof. apply valid_length; [apply rep_NoDup_lo|]. intros i Hi. by apply in_queue_valid, in_lo. Qed.
Lemma semd_short : length (v_semd v) ≤ MAX_PROC.
Proof. apply valid_length; [apply rep_NoDup_semd|]. intros j Hj. apply in_semds_valid. by right. Qed.

Lemma rep_pcb i : i < MAX_PROC -> is_Some (pcb_table s !! i).
Proof. intros Hi. apply lookup_lt_is_Some. by rewrite (lists_pcbs _ _ HRep). Qed.
Lemma rep_semd j : j < MAX_PROC -> is_Some (semd_table s !! j).
Proof. intros Hi. apply lookup_lt_is_Some. by rewrite (lists_semds _ _ HRep). Qed.
End rep_facts.

(** Changing the heap, or anything that is not a list. *)
Lemma Lists_links s Q h' Q' :
  Lists s Q -> same_dom (links s) h' -> repr None h' Q' -> Lists (set_links h' s) Q'.
Proof.
  intros [H1 H2 H3 H4] Hd HR. split; simpl; [done | | done | done].
  intros x. by rewrite (H2 x), (Hd x).
Qed.

Lemma Lists_ext s Q Q' : (∀ x, Q x = Q' x) -> Lists s Q -> Lists s Q'.
Proof. intros HQ [H1 H2 H3 H4]. split; try done. by eapply repr_ext. Qed.

Lemma Lists_same s s' Q :
  Lists s Q -> links s' = links s -> length (pcb_table s') = length (pcb_table s) ->
  length (semd_table s') = length (semd_table s) -> Lists s' Q.
Proof. intros [H1 H2 H3 H4] E1 E2 E3. split; rewrite ?E1, ?E2, ?E3; done. Qed.

(** ** Unlinking a PCB from whatever queue it is on *)

Definition v_unlink (i : nat) (v : view) : view :=
  View (rem i (v_free v)) (rem i (v_hi v)) (rem i (v_lo v)) (v_child v)
       (v_sfree v) (v_semd v) (rem i <$> v_procq v).

Lemma view_eq v v' :
  v_free v = v_free v' -> v_hi v = v_hi v' -> v_lo v = v_lo v' ->
  v_child v = v_child v' -> v_sfree v = v_sfree v' -> v_semd v = v_semd v' ->
  v_procq v = v_procq v' -> v = v'.
Proof. destruct v, v'; simpl; intros; by subst. Qed.

Lemma rem_procq_id i (m : gmap nat (list nat)) :
  (∀ j l, m !! j = Some l -> i ∉ l) -> rem i <$> m = m.
Proof.
  intros Hi. apply map_eq. intros j. rewrite lookup_fmap.
  destruct (m !! j) as [l|] eqn:Hj; simpl; [|done]. by rewrite rem_id by eauto.
Qed.

Lemma v_unlink_detached i v : ¬ in_queue v i -> v_unlink i v = v.
Proof.
  intros Hi. apply view_eq; simpl; try done; try apply rem_id;
    try (intros Hin; apply Hi; eauto using in_queue).
  apply rem_procq_id. intros j l Hj Hin. apply Hi. by eapply in_procq.
Qed.

Lemma not_in_queue_unlink i v : ¬ in_queue (v_unlink i v) i.
Proof.
  intros [Hi|Hi|Hi|j l Hj Hi]; simpl in *; [by apply elem_of_rem in Hi as [? _]..|].
  rewrite lookup_fmap in Hj. destruct (v_procq v !! j); simplify_eq/=.
  by apply elem_of_rem in Hi as [? _].
Qed.

Lemma in_queue_unlink i k v : in_queue (v_unlink i v) k ↔ (k ≠ i) ∧ in_queue v k.
Proof.
  split.
  - intros Hk. split; [intros ->; by apply not_in_queue_unlink in Hk|].
    destruct Hk as [Hi|Hi|Hi|j l Hj Hi]; simpl in *;
      [apply elem_of_rem in Hi as [_ ?]; eauto using in_queue..|].
    rewrite lookup_fmap in Hj. destruct (v_procq v !! j) eqn:E; simplify_eq/=.
    apply elem_of_rem in Hi as [_ ?]. eauto using in_queue.
  - intros [Hne Hk]. destruct Hk as [Hi|Hi|Hi|j l Hj Hi].
    + apply in_free. simpl. by apply elem_of_rem.
    + apply in_hi. simpl. by apply elem_of_rem.
    + apply in_lo. simpl. by apply elem_of_rem.
    + apply (in_procq _ _ j (rem i l)); simpl; [by rewrite lookup_fmap, Hj|].
      by apply elem_of_rem.
Qed.

Lemma p_lists_middle i l1 l2 : p_lists (l1 ++ i :: l2) = p_lists l1 ++ L_p_list i :: p_lists l2.
Proof. by rewrite fmap_app. Qed.

Lemma rem_procq_one s v i j l :
  Rep s v -> v_procq v !! j = Some l -> i ∈ l ->
  rem i <$> v_procq v = <[j := rem i l]> (v_procq v).
Proof.
  intros HRep Hj Hi. apply map_eq. intros j'. rewrite lookup_fmap.
  destruct (decide (j' = j)) as [->|Hne].
  - by rewrite lookup_insert_eq, Hj.
  - rewrite lookup_insert_ne by done. destruct (v_procq v !! j') as [l'|] eqn:E; simpl; [|done].
    rewrite rem_id; [done|]. intros Hi'. apply Hne. by eapply procq_unique.
Qed.

(** [v_unlink] replaces one list: the one that holds the PCB. *)
Lemma flat_unlink s v hd l1 l2 i :
  Rep s v -> flat v hd = Some (p_lists (l1 ++ i :: l2)) ->
  ∀ x, upd (flat v) hd (p_lists (l1 ++ l2)) x = flat (v_unlink i v) x.
Proof.
  intros HRep Hhd.
  assert (Hnd : NoDup (l1 ++ i :: l2)) by (eapply (rep_NoDup_wrap _ _ HRep L_p_list); eauto).
  assert (Hi : L_p_list i ∈ p_lists (l1 ++ i :: l2)) by (apply elem_of_wrap; set_solver).
  destruct (flat_p_list _ _ _ _ Hhd ltac:(by right)) as [[-> Hin]|[[-> Hin]|[[-> Hin]|(j & l & -> & Hj & Hin)]]];
    simpl in Hhd; intros x.
  - simplify_eq. rewrite <- flat_set_free. f_equal. apply view_eq; simpl; try done.
    + rewrite Hhd. by rewrite rem_middle.
    + symmetry. apply rem_id. by eapply free_not_hi.
    + symmetry. apply rem_id. by eapply free_not_lo.
    + symmetry. apply rem_procq_id. intros. by eapply free_not_procq.
  - simplify_eq. rewrite <- flat_set_hi. f_equal. apply view_eq; simpl; try done.
    + symmetry. apply rem_id. intros ?. by eapply free_not_hi.
    + rewrite Hhd. by rewrite rem_middle.
    + symmetry. apply rem_id. by eapply hi_not_lo.
    + symmetry. apply rem_procq_id. intros. by eapply hi_not_procq.
  - simplify_eq. rewrite <- flat_set_lo. f_equal. apply view_eq; simpl; try done.
    + symmetry. apply rem_id. intros ?. by eapply free_not_lo.
    + symmetry. apply rem_id. intros ?. by eapply hi_not_lo.
    + rewrite Hhd. by rewrite rem_middle.
    + symmetry. apply rem_procq_id. intros. by eapply lo_not_procq.
  - rewrite Hj in Hhd. simpl in Hhd. simplify_eq.
    rewrite <- flat_set_procq. f_equal. apply view_eq; simpl; try done.
    + symmetry. apply rem_id. intros ?. by eapply free_not_procq.
    + symmetry. apply rem_id. intros ?. by eapply hi_not_procq.
    + symmetry. apply rem_id. intros ?. by eapply lo_not_procq.
    + rewrite (rem_procq_one _ _ _ _ _ HRep Hj Hin). by rewrite rem_middle.
Qed.

Lemma in_queue_located v i :
  in_queue v i -> ∃ hd l, flat v hd = Some (p_lists l) ∧ i ∈ l.
Proof.
  intros [Hi|Hi|Hi|j l Hj Hi].
  - by exists L_pcb_free, (v_free v).
  - by exists L_ready_hi, (v_hi v).
  - by exists L_ready_lo, (v_lo v).
  - exists (L_s_procq j), l. split; [by apply procq_flat|done].
Qed.

(** [list_sdel] on a [p_list] unlinks the PCB, wherever it is. *)
Lemma rep_sdel s v i :
  Rep s v -> i < MAX_PROC ->
  ∃ h', on_links (list_sdel (L_p_list i)) s = Ok tt (set_links h' s) ∧
    Rep (set_links h' s) (v_unlink i v).
Proof.
  intros HRep Hi. pose proof (lists_repr _ _ HRep) as HR.
  destruct (decide (in_queue v i)) as [Hq|Hq].
  - destruct (in_queue_located _ _ Hq) as (hd & l & Hl & Hin).
    apply list_elem_of_split in Hin as (l1 & l2 & ->).
    destruct (list_sdel_spec (links s) (flat v) hd (p_lists l1) (L_p_list i) (p_lists l2))
      as (h' & Hrun & Hd & HR'); [done | by rewrite <- p_lists_middle|].
    exists h'. split; [by apply on_links_ok|]. eapply Lists_links; [done|done|].
    eapply repr_ext; [|exact HR']. intros x. rewrite <- fmap_app. by eapply flat_unlink.
  - assert (is_Some (links s !! L_p_list i)) as Hdom by (by apply (lists_dom _ _ HRep (L_p_list i))).
    exists (links s). rewrite v_unlink_detached by done. split.
    + apply on_links_ok. apply (list_sdel_detached _ (flat v)); [done | by apply detached_p_list | done].
    + by destruct s.
Qed.

(** ** The list operations on a represented state *)

Section rep_ops.
Context (s : kernel) (v : view) (HRep : Rep s v).
Implicit Types (i j : nat) (l : list lh) (x hd : lh).

Let HR : repr None (links s) (flat v) := lists_repr _ _ HRep.

Lemma rep_dom x : lh_valid x -> is_Some (links s !! x).
Proof. by apply (lists_dom _ _ HRep). Qed.

Lemma rep_add v' hd l x :
  flat v hd = Some l -> detached (flat v) x -> lh_valid x ->
  (∀ y, upd (flat v) hd (x :: l) y = flat v' y) ->
  ∃ h', on_links (list_add x hd) s = Ok tt (set_links h' s) ∧ Rep (set_links h' s) v'.
Proof.
  intros Hl Hx Hval Hv'.
  destruct (list_add_spec None (links s) (flat v) hd l x) as (h' & Hrun & Hd & HR'); auto using rep_dom.
  exists h'. split; [by apply on_links_ok|].
  eapply Lists_links; [done|done|]. by eapply repr_ext.
Qed.

Lemma rep_add_tail v' hd l x :
  flat v hd = Some l -> detached (flat v) x -> lh_valid x ->
  (∀ y, upd (flat v) hd (l ++ [x]) y = flat v' y) ->
  ∃ h', on_links (list_add_tail x hd) s = Ok tt (set_links h' s) ∧ Rep (set_links h' s) v'.
Proof.
  intros Hl Hx Hval Hv'.
  destruct (list_add_tail_spec None (links s) (flat v) hd l x) as (h' & Hrun & Hd & HR'); auto using rep_dom.
  exists h'. split; [by apply on_links_ok|].
  eapply Lists_links; [done|done|]. by eapply repr_ext.
Qed.

Lemma rep_empty hd l :
  flat v hd = Some l -> on_links (list_empty hd) s = Ok (bool_decide (l = [])) s.
Proof. intros Hl. apply on_links_query. by eapply list_empty_spec. Qed.

Lemma rep_next hd l :
  flat v hd = Some l -> on_links (list_next hd) s = Ok (head l) s.
Proof. intros Hl. apply on_links_query. by eapply list_next_spec. Qed.

Lemma rep_load hd x l :
  flat v hd = Some (x :: l) ->
  ∃ n, on_links (load (Some hd)) s = Ok n s ∧ next n = Some x.
Proof.
  intros Hl. destruct (load_repr _ _ _ _ _ hd HR Hl ltac:(left)) as (n & Hn & _ & _ & Hnx & _).
  exists n. split; [by apply on_links_query|].
  by rewrite <- Hnx, (dll_nx _ _ _ (repr_dll _ _ _ HR _ _ Hl)).
Qed.

Lemma rep_contains fuel hd l x :
  flat v hd = Some l -> (length l < fuel)%nat ->
  on_links (list_contains fuel x hd) s = Ok (bool_decide (x ∈ l)) s.
Proof. intros Hl Hf. apply on_links_query. by eapply list_contains_spec. Qed.

Lemma rep_null_detached x :
  detached (flat v) x -> lh_valid x -> on_links (list_null x) s = Ok true s.
Proof. intros Hx Hval. apply on_links_query. apply (list_null_detached _ (flat v)); auto using rep_dom. Qed.

Lemma rep_null_member hd l x :
  flat v hd = Some l -> x ∈ hd :: l -> on_links (list_null x) s = Ok false s.
Proof. intros Hl Hx. apply on_links_query. by apply (list_null_member None _ (flat v) hd l). Qed.
End rep_ops.

(** A sentinel is on no list. *)
Lemma flat_p_child v hd l i : flat v hd = Some l -> L_p_child i ∈ hd :: l -> hd = L_p_child i.
Proof.
  intros Hf Hin. apply elem_of_cons in Hin as [Hin|Hin]; [done|].
  destruct hd; simpl in Hf; simplify_eq/=;
    try (by apply list_elem_of_fmap in Hin as (y & Hy & _)).
  - destruct (v_child v !! i0); simplify_eq/=. by apply list_elem_of_fmap in Hin as (y & Hy & _).
  - destruct (v_procq v !! j); simplify_eq/=. by apply list_elem_of_fmap in Hin as (y & Hy & _).
Qed.

Lemma flat_s_procq v hd l j : flat v hd = Some l -> L_s_procq j ∈ hd :: l -> hd = L_s_procq j.
Proof.
  intros Hf Hin. apply elem_of_cons in Hin as [Hin|Hin]; [done|].
  destruct hd; simpl in Hf; simplify_eq/=;
    try (by apply list_elem_of_fmap in Hin as (y & Hy & _)).
  - destruct (v_child v !! i); simplify_eq/=. by apply list_elem_of_fmap in Hin as (y & Hy & _).
  - destruct (v_procq v !! j0); simplify_eq/=. by apply list_elem_of_fmap in Hin as (y & Hy & _).
Qed.

(** The ready queue of a priority. *)
Definition ready (high : bool) : lh := if high then L_ready_hi else L_ready_lo.
Definition v_ready (high : bool) (v : view) : list nat := if high then v_hi v else v_lo v.
Definition set_v_ready (high : bool) (l : list nat) (v : view) : view :=
  if high then set_v_hi l v else set_v_lo l v.

Lemma flat_ready b v : flat v (ready b) = Some (p_lists (v_ready b v)).
Proof. by destruct b. Qed.

Lemma flat_set_ready b v l x :
  flat (set_v_ready b l v) x = upd (flat v) (ready b) (p_lists l) x.
Proof. destruct b; [apply flat_set_hi | apply flat_set_lo]. Qed.

Lemma ready_short s v b : Rep s v -> length (v_ready b v) ≤ MAX_PROC.
Proof. intros. destruct b; [by eapply hi_short | by eapply lo_short]. Qed.

Lemma rep_NoDup_ready s v b : Rep s v -> NoDup (v_ready b v).
Proof. intros. destruct b; [by eapply rep_NoDup_hi | by eapply rep_NoDup_lo]. Qed.

Lemma in_ready b v i : i ∈ v_ready b v -> in_queue v i.
Proof. destruct b; [apply in_hi | apply in_lo]. Qed.

#[export] Hint Resolve flat_ready in_ready in_free in_hi in_lo : view.

(** ** Building the lists at boot *)

Section boot.
Implicit Types (s : kernel) (Q : lh → option (list lh)).

Lemma lists_init s Q hd :
  Lists s Q -> lh_valid hd ->
  (∀ hd' l', Q hd' = Some l' → hd ∈ hd' :: l' → hd' = hd) -> (∀ l, Q hd = Some l → l = []) ->
  ∃ h', on_links (INIT_LIST_HEAD hd) s = Ok tt (set_links h' s) ∧
    Lists (set_links h' s) (upd Q hd []).
Proof.
  intros HL Hval H1 H2.
  destruct (INIT_LIST_HEAD_spec None (links s) Q hd) as (h' & Hrun & Hd & HR'); try done.
  { apply (lists_repr _ _ HL). }
  { by apply (lists_dom _ _ HL). }
  exists h'. split; [by apply on_links_ok|]. by eapply Lists_links.
Qed.

Lemma lists_add s Q hd l x :
  Lists s Q -> lh_valid x -> Q hd = Some l -> detached Q x ->
  ∃ h', on_links (list_add x hd) s = Ok tt (set_links h' s) ∧
    Lists (set_links h' s) (upd Q hd (x :: l)).
Proof.
  intros HL Hval HQ Hx.
  destruct (list_add_spec None (links s) Q hd l x) as (h' & Hrun & Hd & HR'); auto.
  { apply (lists_repr _ _ HL). }
  { by apply (lists_dom _ _ HL). }
  exists h'. split; [by apply on_links_ok|]. by eapply Lists_links.
Qed.

(** All the [list_head] objects, and their zeroed memory at boot. *)
Definition all_lh : list lh :=
  [L_pcb_free; L_semd_free; L_semd_h; L_ready_lo; L_ready_hi] ++
  flat_map (fun i => [L_p_list i; L_p_child i; L_p_sib i; L_s_procq i; L_s_link i])
    (seq 0 MAX_PROC).
Definition boot_links : gmap lh (list_head lh) :=
  list_to_map ((fun x => (x, Node None None)) <$> all_lh).

Lemma all_lh_valid x : x ∈ all_lh ↔ lh_valid x.
Proof.
  unfold all_lh. rewrite elem_of_app, (list_elem_of_In (flat_map _ _)), in_flat_map. split.
  - intros [Hx|(i & Hi & Hx)].
    + repeat (apply elem_of_cons in Hx as [->|Hx]; [done|]). by apply elem_of_nil in Hx.
    + apply in_seq in Hi. simpl in Hx. intuition (subst; simpl; lia).
  - destruct x as [i|i|i|j|j| | | | | | |]; intros Hx; try done;
      first [left; apply list_elem_of_In; simpl; tauto
            | right; eexists; split; [apply in_seq; split; [|exact Hx]; lia|]; simpl; tauto].
Qed.

Lemma boot_links_lookup x n : boot_links !! x = Some n -> n = Node None None.
Proof.
  intros Hx%elem_of_list_to_map_2. by apply list_elem_of_fmap in Hx as (y & [= _ ->] & _).
Qed.

(** Zeroed memory holds no list. *)
Lemma boot_lists s :
  links s = boot_links -> length (pcb_table s) = MAX_PROC -> length (semd_table s) = MAX_PROC ->
  Lists s (fun _ => None).
Proof.
  intros El Ep Es. split; [|intros x|done|done]; rewrite El.
  - split; [done|done|]. intros x _ _. unfold nx, pv.
    destruct (boot_links !! x) as [n|] eqn:E; [|done]. by apply boot_links_lookup in E as ->.
  - rewrite <- all_lh_valid. unfold boot_links. split.
    + intros Hx. destruct (list_to_map _ !! x) as [n|] eqn:E; [by eexists|].
      apply not_elem_of_list_to_map_2 in E. destruct E.
      rewrite <- list_fmap_compose. by apply list_elem_of_fmap; exists x.
    + intros [n Hn%elem_of_list_to_map_2]. by apply list_elem_of_fmap in Hn as (y & [= <- _] & ?).
Qed.
End boot.
