(* ===== verification/Pcb.v ===== *)
(** * Process control blocks: [os/src/pcb.c]

    The pool of free PCBs, process queues and the process tree.  The
    operations follow the C functions; the specifications are stated on
    [Lists s Q], which says that the lists of the kernel state [s] are [Q]. *)

From Stdlib Require Import ZArith Lia String.
From stdpp Require Import base tactics option numbers gmap list.
From S2P Require Import Prelude ListHead Machine Kernel View.

Open Scope Z_scope.
Open Scope string_scope.
Open Scope list_scope.

(** Every list of PCBs or semaphores has at most [MAX_PROC] elements, so this
    many iterations are enough for every traversal. *)
Definition list_fuel : nat := S MAX_PROC.

Section operations.
Context `{Umps}.

Definition init_pcbs : KM unit :=
  on_links (INIT_LIST_HEAD L_pcb_free) ;;
  for_ MAX_PROC 0 (fun i =>
    on_links (list_add (L_p_list i) L_pcb_free) ;;
    upd_pcb i (set_p_pid NULL_PID)).

Definition free_pcb (p : option nat) : KM unit :=
  match p with
  | None => ret tt
  | Some i =>
      c <- on_links (list_contains list_fuel (L_p_list i) L_pcb_free) ;;
      if (c : bool) then ret tt
      else
        upd_pcb i (set_p_pid NULL_PID) ;;
        on_links (list_sdel (L_p_list i)) ;;
        on_links (list_add (L_p_list i) L_pcb_free)
  end.

(** The assignments of [null_pcb] to the fields that are not links. *)
Definition null_pcb_fields (t : pcb_t) : pcb_t :=
  {| p_parent := None; p_s := null_state (p_s t); p_time := 0; p_sem_add := 0;
     p_support := 0; p_prio := 0; p_pid := NULL_PID |}.

Definition null_pcb (t : option nat) : KM (option nat) :=
  match t with
  | None => ret None
  | Some i =>
      on_links (LIST_HEAD_NULL (L_p_list i)) ;;
      on_links (INIT_LIST_HEAD (L_p_child i)) ;;
      on_links (LIST_HEAD_NULL (L_p_sib i)) ;;
      upd_pcb i null_pcb_fields ;;
      ret (Some i)
  end.

Definition alloc_pcb : KM (option nat) :=
  e <- on_links (list_empty L_pcb_free) ;;
  if (e : bool) then ret None
  else
    n <- on_links (load (Some L_pcb_free)) ;;
    x <- ok_or "NULL list_head" (next n) ;;
    first <- ok_or "not a p_list" (pcb_of_p_list x) ;;
    on_links (list_del x) ;;
    null_pcb (Some first).

Definition mk_empty_proc_q (head : option lh) : KM unit :=
  match head with
  | None => ret tt
  | Some hd => on_links (INIT_LIST_HEAD hd)
  end.

Definition empty_proc_q (head : option lh) : KM bool :=
  match head with
  | None => ret true
  | Some hd => on_links (list_empty hd)
  end.

Definition insert_proc_q (head : option lh) (p : option nat) : KM unit :=
  match p, head with
  | Some i, Some hd =>
      on_links (list_sdel (L_p_list i)) ;;
      on_links (list_add_tail (L_p_list i) hd)
  | _, _ => ret tt
  end.

Definition head_proc_q (head : option lh) : KM (option nat) :=
  match head with
  | None => ret None
  | Some hd =>
      e <- on_links (list_empty hd) ;;
      if (e : bool) then ret None
      else
        n <- on_links (list_next hd) ;;
        x <- ok_or "NULL list_head" n ;;
        i <- ok_or "not a p_list" (pcb_of_p_list x) ;;
        ret (Some i)
  end.

Definition out_proc_q (head : option lh) (p : option nat) : KM (option nat) :=
  match head, p with
  | Some hd, Some i =>
      e <- on_links (list_empty hd) ;;
      if (e : bool) then ret None
      else
        c <- on_links (list_contains list_fuel (L_p_list i) hd) ;;
        if negb c then ret None
        else on_links (list_sdel (L_p_list i)) ;; ret (Some i)
  | _, _ => ret None
  end.

Definition remove_proc_q (head : option lh) : KM (option nat) :=
  match head with
  | None => ret None
  | Some hd =>
      e <- on_links (list_empty hd) ;;
      if (e : bool) then ret None
      else
        n <- on_links (list_next hd) ;;
        to_remove <- ok_or "NULL list_head" n ;;
        p <- ok_or "not a p_list" (pcb_of_p_list to_remove) ;;
        out_proc_q (Some hd) (Some p)
  end.

Definition empty_child (p : option nat) : KM bool :=
  match p with
  | None => ret true
  | Some i => on_links (list_empty (L_p_child i))
  end.

Definition insert_child (prnt p : option nat) : KM unit :=
  match prnt, p with
  | Some j, Some i =>
      c <- pcb_at i ;;
      match p_parent c with
      | Some _ => ret tt
      | None =>
          b <- on_links (list_contains list_fuel (L_p_sib i) (L_p_child j)) ;;
          if (b : bool) then ret tt
          else
            upd_pcb i (set_p_parent (Some j)) ;;
            on_links (list_add_tail (L_p_sib i) (L_p_child j))
      end
  | _, _ => ret tt
  end.

Definition out_child (p : option nat) : KM (option nat) :=
  match p with
  | None => ret None
  | Some i =>
      c <- pcb_at i ;;
      match p_parent c with
      | None => ret None
      | Some j =>
          e <- on_links (list_empty (L_p_child j)) ;;
          if (e : bool) then ret None
          else
            b <- on_links (list_contains list_fuel (L_p_sib i) (L_p_child j)) ;;
            if negb b then ret None
            else
              on_links (list_sdel (L_p_sib i)) ;;
              upd_pcb i (set_p_parent None) ;;
              ret (Some i)
      end
  end.

Definition remove_child (p : option nat) : KM (option nat) :=
  match p with
  | None => ret None
  | Some i =>
      e <- on_links (list_empty (L_p_child i)) ;;
      if (e : bool) then ret None
      else
        n <- on_links (list_next (L_p_child i)) ;;
        x <- ok_or "NULL list_head" n ;;
        c <- ok_or "not a p_sib" (pcb_of_p_sib x) ;;
        out_child (Some c)
  end.
End operations.

(** ** Specifications on the abstract view *)

Open Scope nat_scope.

Section pool_specs.
Context `{Umps}.
Implicit Types (s : kernel) (v : view) (i j : nat).

Lemma rep_in_free s v i :
  Rep s v ->
  on_links (list_contains list_fuel (L_p_list i) L_pcb_free) s =
  Ok (bool_decide (i ∈ v_free v)) s.
Proof.
  intros HRep. rewrite (rep_contains _ _ HRep _ _ (p_lists (v_free v))); [| done |].
  - f_equal. apply bool_decide_ext. apply elem_of_wrap.
  - rewrite length_fmap. pose proof (free_short _ _ HRep). unfold list_fuel. lia.
Qed.

Lemma upd_pcb_rep s v i c f :
  Rep s v -> pcb_table s !! i = Some c ->
  upd_pcb i f s = Ok tt (set_pcb_table (<[i := f c]> (pcb_table s)) s) ∧
  Rep (set_pcb_table (<[i := f c]> (pcb_table s)) s) v.
Proof.
  intros HRep Hc. split; [by apply upd_pcb_ok|].
  eapply Lists_same; [exact HRep | done | simpl; by rewrite length_insert | done].
Qed.

Lemma free_pcb_already_free s v i :
  Rep s v -> i ∈ v_free v -> free_pcb (Some i) s = Ok tt s.
Proof.
  intros HRep Hi. unfold free_pcb. step_with (rep_in_free _ _ i HRep).
  by rewrite bool_decide_true by done.
Qed.

Lemma free_pcb_spec s v i c :
  Rep s v -> i ∉ v_free v -> pcb_table s !! i = Some c ->
  ∃ h', free_pcb (Some i) s =
      Ok tt (set_links h' (set_pcb_table (<[i := set_p_pid NULL_PID c]> (pcb_table s)) s)) ∧
    Rep (set_links h' (set_pcb_table (<[i := set_p_pid NULL_PID c]> (pcb_table s)) s))
        (set_v_free (i :: v_free v) (v_unlink i v)).
Proof.
  intros HRep Hi Hc.
  assert (i < MAX_PROC) as Hlt by (rewrite <- (lists_pcbs _ _ HRep); by eapply lookup_lt_Some).
  destruct (upd_pcb_rep _ _ _ _ (set_p_pid NULL_PID) HRep Hc) as [Hrun1 HRep1].
  destruct (rep_sdel _ _ _ HRep1 Hlt) as (h2 & Hrun2 & HRep2).
  destruct (rep_add _ _ HRep2 (set_v_free (i :: v_free v) (v_unlink i v)) L_pcb_free
              (p_lists (v_free (v_unlink i v))) (L_p_list i)) as (h3 & Hrun3 & HRep3).
  { done. }
  { apply detached_p_list, not_in_queue_unlink. }
  { done. }
  { intros y. rewrite flat_set_free. simpl. by rewrite (rem_id i (v_free v)). }
  exists h3. split; [|exact HRep3]. unfold free_pcb.
  step_with (rep_in_free _ _ i HRep). rewrite bool_decide_false by done.
  step_with Hrun1. step_with Hrun2. exact Hrun3.
Qed.

Lemma alloc_pcb_none s v : Rep s v -> v_free v = [] -> alloc_pcb s = Ok None s.
Proof.
  intros HRep Hf. unfold alloc_pcb.
  step_with (rep_empty _ _ HRep L_pcb_free _ eq_refl). by rewrite Hf.
Qed.

(** The pool gives its first PCB, blank, with an empty list of children. *)
Definition v_alloc (i : nat) (l : list nat) (v : view) : view :=
  set_v_child (<[i := []]> (v_child v)) (set_v_free l v).

Lemma null_pcb_spec h s v i c :
  repr (Some (L_p_list i)) (links s) (flat v) ->
  (∀ x, lh_valid x ↔ is_Some (links s !! x)) ->
  length (pcb_table s) = MAX_PROC -> length (semd_table s) = MAX_PROC ->
  h = links s ->
  ¬ in_queue v i -> ¬ in_children v i -> default [] (v_child v !! i) = [] ->
  pcb_table s !! i = Some c ->
  ∃ h', null_pcb (Some i) s =
      Ok (Some i) (set_links h' (set_pcb_table (<[i := null_pcb_fields c]> (pcb_table s)) s)) ∧
    Rep (set_links h' (set_pcb_table (<[i := null_pcb_fields c]> (pcb_table s)) s))
        (set_v_child (<[i := []]> (v_child v)) v).
Proof.
  intros HR Hdom Hlen1 Hlen2 -> Hq Hch Hown Hc.
  assert (i < MAX_PROC) as Hlt by (rewrite <- Hlen1; by eapply lookup_lt_Some).
  destruct (LIST_HEAD_NULL_spec (links s) (flat v) (L_p_list i)) as (h1 & Hrun1 & Hd1 & HR1);
    [done | by apply detached_p_list | by apply (Hdom (L_p_list i)) |].
  destruct (INIT_LIST_HEAD_spec None h1 (flat v) (L_p_child i)) as (h2 & Hrun2 & Hd2 & HR2).
  { done. }
  { eapply same_dom_is_Some; [done|]. by apply (Hdom (L_p_child i)). }
  { intros hd' l' Hl' Hin. by eapply flat_p_child. }
  { simpl. intros l Hl. destruct (v_child v !! i); simplify_eq/=; by subst. }
  assert (HR2' : repr None h2 (flat (set_v_child (<[i := []]> (v_child v)) v))).
  { eapply repr_ext; [|exact HR2]. intros x. by rewrite flat_set_child. }
  destruct (LIST_HEAD_NULL_spec h2 (flat (set_v_child (<[i := []]> (v_child v)) v)) (L_p_sib i))
    as (h3 & Hrun3 & Hd3 & HR3).
  { by apply repr_weaken. }
  { apply detached_p_sib. intros (j & l & Hj & Hin). simpl in Hj.
    destruct (decide (j = i)) as [->|Hne].
    - rewrite lookup_insert_eq in Hj. simplify_eq. by apply elem_of_nil in Hin.
    - rewrite lookup_insert_ne in Hj by done. apply Hch. by exists j, l. }
  { eapply same_dom_is_Some; [done|]. eapply same_dom_is_Some; [done|]. by apply (Hdom (L_p_sib i)). }
  exists h3. split.
  - unfold null_pcb. step_with (on_links_ok _ _ _ _ Hrun1).
    step_with (on_links_ok _ (set_links h1 s) _ _ Hrun2).
    step_with (on_links_ok _ (set_links h2 s) _ _ Hrun3).
    by step_with (upd_pcb_ok (set_links h3 s) i c null_pcb_fields Hc).
  - split; simpl; [exact HR3 | | by rewrite length_insert | done].
    intros x. rewrite (Hdom x), (Hd1 x), (Hd2 x). apply Hd3.
Qed.

Lemma alloc_pcb_spec s v i l c :
  Rep s v -> v_free v = i :: l ->
  ¬ in_children v i -> default [] (v_child v !! i) = [] ->
  pcb_table s !! i = Some c ->
  ∃ h', alloc_pcb s =
      Ok (Some i) (set_links h' (set_pcb_table (<[i := null_pcb_fields c]> (pcb_table s)) s)) ∧
    Rep (set_links h' (set_pcb_table (<[i := null_pcb_fields c]> (pcb_table s)) s))
        (v_alloc i l v).
Proof.
  intros HRep Hf Hch Hown Hc. pose proof HRep as [HR Hdom Hlen1 Hlen2].
  destruct (list_del_spec (links s) (flat v) L_pcb_free [] (L_p_list i) (p_lists l))
    as (h1 & Hrun1 & Hd1 & HR1); [done | simpl; by rewrite Hf |].
  assert (HR1' : repr (Some (L_p_list i)) h1 (flat (set_v_free l v))).
  { eapply repr_ext; [|exact HR1]. intros x. by rewrite flat_set_free. }
  destruct (null_pcb_spec h1 (set_links h1 s) (set_v_free l v) i c) as (h2 & Hrun2 & HRep2); try done.
  { intros x. simpl. by rewrite (Hdom x), (Hd1 x). }
  { assert (i ∈ v_free v) as Hin by (rewrite Hf; left).
    pose proof (rep_NoDup_free _ _ HRep) as Hnd. rewrite Hf in Hnd. apply NoDup_cons in Hnd as [Hnd _].
    intros [Hi|Hi|Hi|j l' Hj Hi]; simpl in *; [done | by eapply free_not_hi
      | by eapply free_not_lo | by eapply free_not_procq]. }
  exists h2. split; [|exact HRep2]. unfold alloc_pcb.
  step_with (rep_empty _ _ HRep L_pcb_free _ eq_refl). rewrite Hf, bool_decide_false by done.
  destruct (rep_load _ _ HRep L_pcb_free (L_p_list i) (p_lists l)) as (n & Hn & Hx); [simpl; by rewrite Hf|].
  step_with Hn. rewrite Hx, (bind_ok_or _ _ _ _ _ eq_refl).
  simpl pcb_of_p_list. rewrite (bind_ok_or _ _ _ _ _ eq_refl).
  step_with (on_links_ok _ _ _ _ Hrun1). exact Hrun2.
Qed.
End pool_specs.

Section queue_specs.
Implicit Types (s : kernel) (v : view) (i j : nat) (b : bool).

(** Enqueueing: leave any other queue, go to the end of this one. *)
Definition v_enqueue (b : bool) (i : nat) (v : view) : view :=
  set_v_ready b (v_ready b (v_unlink i v) ++ [i]) (v_unlink i v).

Lemma v_enqueue_detached b i v :
  ¬ in_queue v i -> v_enqueue b i v = set_v_ready b (v_ready b v ++ [i]) v.
Proof. intros Hi. unfold v_enqueue. by rewrite v_unlink_detached. Qed.

Lemma insert_proc_q_spec s v i b :
  Rep s v -> i < MAX_PROC ->
  ∃ h', insert_proc_q (Some (ready b)) (Some i) s = Ok tt (set_links h' s) ∧
    Rep (set_links h' s) (v_enqueue b i v).
Proof.
  intros HRep Hi. destruct (rep_sdel _ _ _ HRep Hi) as (h1 & Hrun1 & HRep1).
  destruct (rep_add_tail _ _ HRep1 (v_enqueue b i v) (ready b)
              (p_lists (v_ready b (v_unlink i v))) (L_p_list i)) as (h2 & Hrun2 & HRep2).
  { apply flat_ready. }
  { apply detached_p_list, not_in_queue_unlink. }
  { done. }
  { intros y. unfold v_enqueue. by rewrite flat_set_ready, fmap_app. }
  exists h2. split; [|exact HRep2]. simpl. by step_with Hrun1.
Qed.

Lemma rep_in_ready s v b i :
  Rep s v ->
  on_links (list_contains list_fuel (L_p_list i) (ready b)) s =
  Ok (bool_decide (i ∈ v_ready b v)) s.
Proof.
  intros HRep. rewrite (rep_contains _ _ HRep _ _ (p_lists (v_ready b v))); [| apply flat_ready |].
  - f_equal. apply bool_decide_ext. apply elem_of_wrap.
  - rewrite length_fmap. pose proof (ready_short _ _ b HRep). unfold list_fuel. lia.
Qed.

Lemma rep_ready_empty s v b :
  Rep s v -> on_links (list_empty (ready b)) s = Ok (bool_decide (v_ready b v = [])) s.
Proof.
  intros HRep. rewrite (rep_empty _ _ HRep _ _ (flat_ready b v)). f_equal.
  apply bool_decide_ext. by destruct (v_ready b v).
Qed.

Lemma empty_proc_q_spec s v b :
  Rep s v -> empty_proc_q (Some (ready b)) s = Ok (bool_decide (v_ready b v = [])) s.
Proof. apply rep_ready_empty. Qed.

Lemma head_proc_q_spec s v b :
  Rep s v -> head_proc_q (Some (ready b)) s = Ok (head (v_ready b v)) s.
Proof.
  intros HRep. unfold head_proc_q. step_with (rep_ready_empty _ _ b HRep).
  destruct (v_ready b v) as [|i l] eqn:E; [done|]. rewrite bool_decide_false by done.
  step_with (rep_next _ _ HRep _ _ (flat_ready b v)). by rewrite E.
Qed.

Lemma out_proc_q_none s v b i :
  Rep s v -> i ∉ v_ready b v -> out_proc_q (Some (ready b)) (Some i) s = Ok None s.
Proof.
  intros HRep Hi. unfold out_proc_q. step_with (rep_ready_empty _ _ b HRep).
  case_bool_decide; [done|]. step_with (rep_in_ready _ _ b i HRep).
  by rewrite bool_decide_false by done.
Qed.

(** Unlinking a ready process touches its ready queue only. *)
Lemma v_unlink_ready s v b i :
  Rep s v -> i ∈ v_ready b v -> v_unlink i v = set_v_ready b (rem i (v_ready b v)) v.
Proof.
  intros HRep Hi. destruct b; simpl in *; apply view_eq; simpl; try done; try apply rem_id.
  - intros ?. by eapply free_not_hi.
  - by eapply hi_not_lo.
  - apply rem_procq_id. intros. by eapply hi_not_procq.
  - intros ?. by eapply free_not_lo.
  - intros ?. by eapply hi_not_lo.
  - apply rem_procq_id. intros. by eapply lo_not_procq.
Qed.

Lemma out_proc_q_spec s v b i :
  Rep s v -> i ∈ v_ready b v ->
  ∃ h', out_proc_q (Some (ready b)) (Some i) s = Ok (Some i) (set_links h' s) ∧
    Rep (set_links h' s) (set_v_ready b (rem i (v_ready b v)) v).
Proof.
  intros HRep Hi. assert (i < MAX_PROC) as Hlt by (eapply in_queue_valid; eauto with view).
  destruct (rep_sdel _ _ _ HRep Hlt) as (h1 & Hrun1 & HRep1).
  exists h1. split; [|by rewrite <- (v_unlink_ready s)].
  unfold out_proc_q. step_with (rep_ready_empty _ _ b HRep).
  rewrite bool_decide_false by (intros E; rewrite E in Hi; by apply elem_of_nil in Hi).
  step_with (rep_in_ready _ _ b i HRep). rewrite bool_decide_true by done. simpl.
  by step_with Hrun1.
Qed.

Lemma remove_proc_q_none s v b :
  Rep s v -> v_ready b v = [] -> remove_proc_q (Some (ready b)) s = Ok None s.
Proof.
  intros HRep E. unfold remove_proc_q. step_with (rep_ready_empty _ _ b HRep). by rewrite E.
Qed.

Lemma remove_proc_q_spec s v b i l :
  Rep s v -> v_ready b v = i :: l ->
  ∃ h', remove_proc_q (Some (ready b)) s = Ok (Some i) (set_links h' s) ∧
    Rep (set_links h' s) (set_v_ready b l v).
Proof.
  intros HRep E. destruct (out_proc_q_spec s v b i HRep) as (h1 & Hrun1 & HRep1).
  { rewrite E. left. }
  exists h1. split.
  - unfold remove_proc_q. step_with (rep_ready_empty _ _ b HRep).
    rewrite E, bool_decide_false by done.
    step_with (rep_next _ _ HRep _ _ (flat_ready b v)). rewrite E. exact Hrun1.
  - rewrite E, rem_head in HRep1; [done|]. rewrite <- E. by eapply rep_NoDup_ready.
Qed.
End queue_specs.

Section tree_specs.
Implicit Types (s : kernel) (v : view) (i j : nat).

Lemma rep_child_empty s v j l :
  Rep s v -> v_child v !! j = Some l ->
  on_links (list_empty (L_p_child j)) s = Ok (bool_decide (l = [])) s.
Proof.
  intros HRep Hj. rewrite (rep_empty _ _ HRep _ _ (child_flat _ _ _ Hj)). f_equal.
  apply bool_decide_ext. by destruct l.
Qed.

Lemma rep_in_child s v j l i :
  Rep s v -> v_child v !! j = Some l ->
  on_links (list_contains list_fuel (L_p_sib i) (L_p_child j)) s = Ok (bool_decide (i ∈ l)) s.
Proof.
  intros HRep Hj. rewrite (rep_contains _ _ HRep _ _ _ _ (child_flat _ _ _ Hj)).
  - f_equal. apply bool_decide_ext. apply elem_of_wrap.
  - rewrite length_fmap. pose proof (child_short _ _ HRep _ _ Hj). unfold list_fuel. lia.
Qed.

Lemma empty_child_spec s v j l :
  Rep s v -> v_child v !! j = Some l -> empty_child (Some j) s = Ok (bool_decide (l = [])) s.
Proof. apply rep_child_empty. Qed.

(** A process without a parent becomes the last child of [j]. *)
Definition v_adopt (j i : nat) (v : view) : view :=
  set_v_child (<[j := default [] (v_child v !! j) ++ [i]]> (v_child v)) v.

Lemma insert_child_spec s v j l i c :
  Rep s v -> v_child v !! j = Some l -> pcb_table s !! i = Some c ->
  p_parent c = None -> ¬ in_children v i ->
  ∃ h', insert_child (Some j) (Some i) s =
      Ok tt (set_links h' (set_pcb_table (<[i := set_p_parent (Some j) c]> (pcb_table s)) s)) ∧
    Rep (set_links h' (set_pcb_table (<[i := set_p_parent (Some j) c]> (pcb_table s)) s))
        (v_adopt j i v).
Proof.
  intros HRep Hj Hc Hpar Hi.
  assert (i < MAX_PROC) as Hlt by (rewrite <- (lists_pcbs _ _ HRep); by eapply lookup_lt_Some).
  destruct (upd_pcb_rep _ _ _ _ (set_p_parent (Some j)) HRep Hc) as [Hrun1 HRep1].
  destruct (rep_add_tail _ _ HRep1 (v_adopt j i v) (L_p_child j) (p_sibs l) (L_p_sib i))
    as (h2 & Hrun2 & HRep2).
  { by apply child_flat. }
  { by apply detached_p_sib. }
  { done. }
  { intros y. unfold v_adopt. by rewrite Hj, flat_set_child, fmap_app. }
  exists h2. split; [|exact HRep2]. unfold insert_child.
  step_with (pcb_at_ok _ _ _ Hc). rewrite Hpar.
  step_with (rep_in_child _ _ _ _ i HRep Hj). rewrite bool_decide_false.
  - step_with Hrun1. exact Hrun2.
  - intros Hin. apply Hi. by exists j, l.
Qed.

(** Whoever has a parent, or is already there, is left alone. *)
Lemma insert_child_refused s v j l i c :
  Rep s v -> v_child v !! j = Some l -> pcb_table s !! i = Some c ->
  is_Some (p_parent c) ∨ i ∈ l ->
  insert_child (Some j) (Some i) s = Ok tt s.
Proof.
  intros HRep Hj Hc Hor. unfold insert_child. step_with (pcb_at_ok _ _ _ Hc).
  destruct (p_parent c) as [|]; [done|]. destruct Hor as [[? [=]]|Hin].
  step_with (rep_in_child _ _ _ _ i HRep Hj). by rewrite bool_decide_true by done.
Qed.

(** [j]'s children without [i]. *)
Definition v_orphan (j i : nat) (v : view) : view :=
  set_v_child (<[j := rem i (default [] (v_child v !! j))]> (v_child v)) v.

Lemma out_child_spec s v j l i c :
  Rep s v -> v_child v !! j = Some l -> i ∈ l ->
  pcb_table s !! i = Some c -> p_parent c = Some j ->
  ∃ h', out_child (Some i) s =
      Ok (Some i) (set_links h' (set_pcb_table (<[i := set_p_parent None c]> (pcb_table s)) s)) ∧
    Rep (set_links h' (set_pcb_table (<[i := set_p_parent None c]> (pcb_table s)) s))
        (v_orphan j i v).
Proof.
  intros HRep Hj Hin Hc Hpar. pose proof (lists_repr _ _ HRep) as HR.
  pose proof (rep_NoDup_child _ _ HRep _ _ Hj) as Hnd.
  pose proof Hin as Hsplit. apply list_elem_of_split in Hsplit as (l1 & l2 & ->).
  destruct (list_sdel_spec (links s) (flat v) (L_p_child j) (p_sibs l1) (L_p_sib i) (p_sibs l2))
    as (h1 & Hrun1 & Hd1 & HR1); [done | simpl; rewrite Hj; simpl; by rewrite fmap_app |].
  assert (HRep1 : Rep (set_links h1 s) (v_orphan j i v)).
  { eapply Lists_links; [done|done|]. eapply repr_ext; [|exact HR1].
    intros x. unfold v_orphan. rewrite flat_set_child, Hj. simpl.
    by rewrite rem_middle, fmap_app. }
  destruct (upd_pcb_rep (set_links h1 s) _ i c (set_p_parent None) HRep1 Hc) as [Hrun2 HRep2].
  exists h1. split; [|exact HRep2]. unfold out_child.
  step_with (pcb_at_ok _ _ _ Hc). rewrite Hpar.
  step_with (rep_child_empty _ _ _ _ HRep Hj). rewrite bool_decide_false by (by destruct l1).
  step_with (rep_in_child _ _ _ _ i HRep Hj). rewrite bool_decide_true by done. simpl.
  step_with (on_links_ok _ _ _ _ Hrun1). by step_with Hrun2.
Qed.

Lemma out_child_no_parent s i c :
  pcb_table s !! i = Some c -> p_parent c = None -> out_child (Some i) s = Ok None s.
Proof. intros Hc Hpar. unfold out_child. step_with (pcb_at_ok _ _ _ Hc). by rewrite Hpar. Qed.

Lemma remove_child_none s v j :
  Rep s v -> v_child v !! j = Some [] -> remove_child (Some j) s = Ok None s.
Proof.
  intros HRep Hj. unfold remove_child. by step_with (rep_child_empty _ _ _ _ HRep Hj).
Qed.

Lemma remove_child_spec s v j i l c :
  Rep s v -> v_child v !! j = Some (i :: l) ->
  pcb_table s !! i = Some c -> p_parent c = Some j ->
  ∃ h', remove_child (Some j) s =
      Ok (Some i) (set_links h' (set_pcb_table (<[i := set_p_parent None c]> (pcb_table s)) s)) ∧
    Rep (set_links h' (set_pcb_table (<[i := set_p_parent None c]> (pcb_table s)) s))
        (set_v_child (<[j := l]> (v_child v)) v).
Proof.
  intros HRep Hj Hc Hpar.
  destruct (out_child_spec s v j (i :: l) i c) as (h1 & Hrun1 & HRep1); try done; [left|].
  exists h1. split.
  - unfold remove_child. step_with (rep_child_empty _ _ _ _ HRep Hj).
    rewrite bool_decide_false by done.
    step_with (rep_next _ _ HRep _ _ (child_flat _ _ _ Hj)). exact Hrun1.
  - unfold v_orphan in HRep1. rewrite Hj in HRep1. simpl in HRep1.
    rewrite rem_head in HRep1; [done|]. exact (rep_NoDup_child _ _ HRep _ _ Hj).
Qed.
End tree_specs.

(** ** The pool at boot *)

Section boot_specs.
Implicit Types (s : kernel) (Q : lh → option (list lh)) (l : list nat).

Lemma init_pcbs_loop n a s Q l :
  Lists s Q -> Q L_pcb_free = Some (p_lists l) -> a + n = MAX_PROC ->
  (∀ i, a ≤ i → detached Q (L_p_list i)) ->
  ∃ h' T',
    let s' := set_links h' (set_pcb_table T' s) in
    for_ n a (fun i => on_links (list_add (L_p_list i) L_pcb_free) ;;
                       upd_pcb i (set_p_pid NULL_PID)) s = Ok tt s' ∧
    Lists s' (upd Q L_pcb_free (p_lists (reverse (seq a n) ++ l))) ∧
    (∀ i c', T' !! i = Some c' → ∃ c, pcb_table s !! i = Some c ∧
      c' = if decide (a ≤ i) then set_p_pid NULL_PID c else c).
Proof.
  cbv zeta. revert a s Q l. induction n as [|n IH]; intros a s Q l HL HQ Ha Hdet.
  - exists (links s), (pcb_table s). split_and!.
    + by destruct s.
    + destruct s. eapply Lists_ext; [|exact HL]. intros x. unfold upd. by case_decide; subst.
    + intros i c' Hc. exists c'. split; [done|]. rewrite decide_False; [done|].
      apply lookup_lt_Some in Hc. rewrite (lists_pcbs _ _ HL) in Hc. lia.
  - assert (a < MAX_PROC) as Hlt by lia.
    destruct (lists_add s Q L_pcb_free (p_lists l) (L_p_list a) HL Hlt HQ (Hdet a ltac:(done)))
      as (h1 & Hrun1 & HL1).
    assert (is_Some (pcb_table s !! a)) as [c Hc].
    { apply lookup_lt_is_Some. by rewrite (lists_pcbs _ _ HL). }
    pose (s2 := set_pcb_table (<[a := set_p_pid NULL_PID c]> (pcb_table s)) (set_links h1 s)).
    assert (Lists s2 (upd Q L_pcb_free (p_lists (a :: l)))) as HL2.
    { eapply Lists_same; [exact HL1 | done | simpl; by rewrite length_insert | done]. }
    destruct (IH (S a) s2 _ (a :: l) HL2) as (h3 & T3 & Hrun3 & HL3 & HT3);
      [by rewrite upd_eq | lia | |].
    { intros i Hi. apply detached_upd; [apply Hdet; lia | done |].
      intros [[= ->]|Hin]%elem_of_cons; [lia|].
      destruct (Hdet i ltac:(lia) _ _ HQ). by right. }
    exists h3, T3. split_and!.
    + simpl for_. rewrite bind_assoc. step_with Hrun1.
      step_with (upd_pcb_ok (set_links h1 s) a c (set_p_pid NULL_PID) Hc). exact Hrun3.
    + eapply Lists_ext; [|exact HL3]. intros x. unfold upd. case_decide; [|done].
      simpl seq. by rewrite reverse_cons, <- app_assoc.
    + intros i c' (c0 & Hc0 & ->)%HT3. simpl in Hc0.
      destruct (decide (i = a)) as [->|Hne].
      * rewrite list_lookup_insert_eq in Hc0 by (by eapply lookup_lt_Some). simplify_eq.
        exists c. split; [done|]. rewrite decide_False, decide_True by lia. done.
      * rewrite list_lookup_insert_ne in Hc0 by done. exists c0. split; [done|].
        by repeat case_decide; try lia.
Qed.

(** Every PCB is free, and its pid is null. *)
Lemma init_pcbs_spec s Q :
  Lists s Q -> Q L_pcb_free = None ->
  (∀ hd (l : list lh), Q hd = Some l → L_pcb_free ∉ hd :: l) -> (∀ i, detached Q (L_p_list i)) ->
  ∃ h' T',
    let s' := set_links h' (set_pcb_table T' s) in
    init_pcbs s = Ok tt s' ∧
    Lists s' (upd Q L_pcb_free (p_lists (reverse (seq 0 MAX_PROC)))) ∧
    (∀ i c', T' !! i = Some c' → ∃ c, pcb_table s !! i = Some c ∧ c' = set_p_pid NULL_PID c).
Proof.
  intros HL HQ Hfr Hdet. cbv zeta.
  destruct (lists_init s Q L_pcb_free HL) as (h1 & Hrun1 & HL1);
    [done | intros hd' l' H1 H2; by destruct (Hfr _ _ H1) | by rewrite HQ |].
  destruct (init_pcbs_loop MAX_PROC 0 (set_links h1 s) _ [] HL1) as (h2 & T2 & Hrun2 & HL2 & HT2);
    [by rewrite upd_eq | done | |].
  { intros i _. apply detached_upd; [done|done|]. by intros ?%elem_of_nil. }
  exists h2, T2. split_and!.
  - unfold init_pcbs. step_with Hrun1. exact Hrun2.
  - eapply Lists_ext; [|exact HL2]. intros x. unfold upd. case_decide; [|done].
    by rewrite app_nil_r.
  - intros i c' (c & Hc & ->)%HT2. exists c. split; [done|]. by rewrite decide_True by lia.
Qed.
End boot_specs.
