(* ===== verification/Asl.v ===== *)
(** * Active semaphores: [os/src/asl.c]

    The pool of semaphore descriptors, the list of the active ones and the
    queues of the processes blocked on them.  The operations follow the C
    functions; [Asl s v] is the invariant of the list, and [blocked s v] the
    abstract state it implements: a finite map from the address of a semaphore
    to the processes that wait on it, first come first. *)

From Stdlib Require Import ZArith Lia String.
From stdpp Require Import base tactics option numbers gmap list.
From S2P Require Import Prelude ListHead Machine Kernel View Pcb.

Open Scope string_scope.
Open Scope list_scope.
Open Scope Z_scope.

Section operations.
Definition alloc_semd (sem_addr : Z) : KM (option nat) :=
  if sem_addr =? 0 then ret None
  else
    e <- on_links (list_empty L_semd_free) ;;
    if (e : bool) then ret None
    else
      n <- on_links (load (Some L_semd_free)) ;;
      x <- ok_or "NULL list_head" (next n) ;;
      sem <- ok_or "not an s_link" (semd_of_s_link x) ;;
      on_links (list_del (L_s_link sem)) ;;
      on_links (list_add (L_s_link sem) L_semd_h) ;;
      set_s_key sem sem_addr ;;
      on_links (INIT_LIST_HEAD (L_s_procq sem)) ;;
      ret (Some sem).

Definition free_semd (sem : option nat) : KM bool :=
  match sem with
  | None => ret true
  | Some j =>
      e <- on_links (list_empty (L_s_procq j)) ;;
      if negb e then ret true
      else
        on_links (list_del (L_s_link j)) ;;
        on_links (list_add (L_s_link j) L_semd_free) ;;
        ret false
  end.

(** [container_of(x, semd_t, s_link)->s_key]; [dummy] is the local of [find_semd] *)
Definition key_of (tbl : list semd_t) (dummy : semd_t) (x : lh) : option Z :=
  match x with
  | L_s_link j => s_key <$> tbl !! j
  | L_dummy => Some (s_key dummy)
  | _ => None
  end.

(** The difference of two [int *]: of the addresses, divided by 4, as an [int]. *)
Definition key_cmp (tbl : list semd_t) (dummy : semd_t) (first second : lh) : option Z :=
  k1 ← key_of tbl dummy first; k2 ← key_of tbl dummy second; Some (Z.shiftr (s32 (k1 - k2)) 2).

Definition find_semd (list : option lh) (sem_addr : Z) : KM (option nat) :=
  match list with
  | None => ret None
  | Some l =>
      if sem_addr =? 0 then ret None
      else
        tbl <- gets semd_table ;;
        item <- on_links (list_search list_fuel L_dummy l (key_cmp tbl (Semd sem_addr))) ;;
        match item with
        | None => ret None
        | Some x => j <- ok_or "not an s_link" (semd_of_s_link x) ;; ret (Some j)
        end
  end.

Definition init_asl : KM unit :=
  on_links (INIT_LIST_HEAD L_semd_free) ;;
  on_links (INIT_LIST_HEAD L_semd_h) ;;
  for_ MAX_PROC 0 (fun i => on_links (list_add (L_s_link i) L_semd_free)).

Definition insert_blocked (sem_addr : Z) (p : option nat) : KM Z :=
  if sem_addr =? 0 then ret 1
  else
    match p with
    | None => ret 2
    | Some i =>
        c <- pcb_at i ;;
        if negb (p_sem_add c =? 0) then ret 3
        else
          found <- find_semd (Some L_semd_h) sem_addr ;;
          sem <- match found with
                 | Some j => ret (Some j)
                 | None => alloc_semd sem_addr
                 end ;;
          match sem with
          | None => ret 4
          | Some j =>
              on_links (list_add_tail (L_p_list i) (L_s_procq j)) ;;
              upd_pcb i (set_p_sem_add sem_addr) ;;
              ret 0
          end
    end.

Definition out_blocked (pcb : option nat) : KM (option nat) :=
  match pcb with
  | None => ret None
  | Some i =>
      c <- pcb_at i ;;
      sem <- find_semd (Some L_semd_h) (p_sem_add c) ;;
      match sem with
      | None => ret None
      | Some j =>
          b <- on_links (list_contains list_fuel (L_p_list i) (L_s_procq j)) ;;
          if negb b then ret None
          else
            on_links (list_sdel (L_p_list i)) ;;
            upd_pcb i (set_p_sem_add 0) ;;
            e <- on_links (list_empty (L_s_procq j)) ;;
            err <- (if (e : bool) then free_semd (Some j) else ret false) ;;
            if (err : bool) then ret None else ret (Some i)
      end
  end.

Definition head_blocked (sem_addr : Z) : KM (option nat) :=
  if sem_addr =? 0 then ret None
  else
    sem <- find_semd (Some L_semd_h) sem_addr ;;
    match sem with
    | None => ret None
    | Some j =>
        n <- on_links (load (Some (L_s_procq j))) ;;
        x <- ok_or "NULL list_head" (next n) ;;
        i <- ok_or "not a p_list" (pcb_of_p_list x) ;;
        ret (Some i)
    end.

Definition remove_blocked (sem_addr : Z) : KM (option nat) :=
  p <- head_blocked sem_addr ;; out_blocked p.
End operations.

(** ** Keys *)

(** The address of an [int] that a load does not trap on. *)
Definition addr_ok (k : Z) : Prop := 0 < k < 2 ^ 32 ∧ k mod 4 = 0.

Lemma addr_ok_nonzero k : addr_ok k -> (k =? 0) = false.
Proof. intros [? _]. by apply Z.eqb_neq; lia. Qed.

Lemma addr_ok_nonzero_ne k : addr_ok k -> k ≠ 0.
Proof. intros [? _]. lia. Qed.

(** Two aligned addresses compare as equal exactly if they are. *)
Lemma word_cmp_zero a b :
  0 <= a < 2 ^ 32 ∧ a mod 4 = 0 -> 0 <= b < 2 ^ 32 ∧ b mod 4 = 0 ->
  Z.shiftr (s32 (a - b)) 2 = 0 <-> a = b.
Proof.
  intros [Ha Ha4] [Hb Hb4]. rewrite Z.shiftr_div_pow2 by lia. unfold s32.
  split; [|intros ->; by rewrite Z.sub_diag].
  destruct (Z.ltb_spec ((a - b) mod 2 ^ 32) (2 ^ 31)); intros E;
    Z.div_mod_to_equations; lia.
Qed.

Lemma key_cmp_zero a b :
  addr_ok a -> addr_ok b -> Z.shiftr (s32 (a - b)) 2 = 0 <-> a = b.
Proof. intros [Ha Ha4] [Hb Hb4]. apply word_cmp_zero; lia. Qed.

(** ** The representation under the operations of [asl.c] *)

Section rep_semds.
Implicit Types (s : kernel) (v : view) (i j : nat).

(** [list_del] from one list followed by [list_add] to another. *)
Lemma rep_move s v v' hd1 l1 x l2 hd2 l' :
  Rep s v -> flat v hd1 = Some (l1 ++ x :: l2) -> flat v hd2 = Some l' -> hd1 ≠ hd2 ->
  (∀ y, upd (upd (flat v) hd1 (l1 ++ l2)) hd2 (x :: l') y = flat v' y) ->
  ∃ h1 h2, on_links (list_del x) s = Ok tt (set_links h1 s) ∧
    on_links (list_add x hd2) (set_links h1 s) = Ok tt (set_links h2 s) ∧
    Rep (set_links h2 s) v'.
Proof.
  intros HRep H1 H2 Hne Hv'. pose proof (lists_repr _ _ HRep) as HR.
  assert (x ∈ hd1 :: l1 ++ x :: l2) as Hx by set_solver.
  destruct (list_del_spec _ _ _ _ _ _ HR H1) as (h1 & Hrun1 & Hd1 & HR1).
  destruct (list_add_spec (Some x) h1 (upd (flat v) hd1 (l1 ++ l2)) hd2 l' x)
    as (h2 & Hrun2 & Hd2 & HR2).
  { done. }
  { by rewrite upd_ne by done. }
  { eapply detached_removed; eauto. }
  { by right. }
  { exact (same_dom_is_Some _ _ _ Hd1 (repr_is_Some _ _ _ _ _ _ HR H1 Hx)). }
  exists h1, h2. split_and!; [by apply on_links_ok | by apply (on_links_ok _ (set_links h1 s)) |].
  eapply Lists_links; [done | by etrans |]. by eapply repr_ext.
Qed.

(** The first free descriptor becomes the first active one. *)
Definition v_activate (j : nat) (l : list nat) (v : view) : view :=
  set_v_procq (<[j := []]> (v_procq v)) (set_v_semd (j :: v_semd v) (set_v_sfree l v)).

Lemma alloc_semd_none s v k : Rep s v -> v_sfree v = [] -> alloc_semd k s = Ok None s.
Proof.
  intros HRep Hf. unfold alloc_semd. destruct (k =? 0); [done|].
  step_with (rep_empty _ _ HRep L_semd_free _ eq_refl). by rewrite Hf.
Qed.

Lemma alloc_semd_spec s v j l k :
  Rep s v -> v_sfree v = j :: l -> default [] (v_procq v !! j) = [] -> addr_ok k ->
  ∃ h', alloc_semd k s =
      Ok (Some j) (set_links h' (set_semd_table (<[j := Semd k]> (semd_table s)) s)) ∧
    Rep (set_links h' (set_semd_table (<[j := Semd k]> (semd_table s)) s)) (v_activate j l v).
Proof.
  intros HRep Hf Hown Hk.
  assert (j < MAX_PROC)%nat as Hlt.
  { eapply in_semds_valid; [done|]. left. rewrite Hf. left. }
  destruct (rep_semd _ _ HRep _ Hlt) as [d Hd].
  destruct (rep_move s v (set_v_semd (j :: v_semd v) (set_v_sfree l v)) L_semd_free []
              (L_s_link j) (s_links l) L_semd_h (s_links (v_semd v)))
    as (h1 & h2 & Hrun1 & Hrun2 & HRep2); [done | simpl; by rewrite Hf | done | done | |].
  { intros y. rewrite flat_set_semd. simpl. unfold upd at 1 3. case_decide; [done|].
    by rewrite flat_set_sfree. }
  destruct (INIT_LIST_HEAD_spec None h2 (flat (set_v_semd (j :: v_semd v) (set_v_sfree l v)))
              (L_s_procq j)) as (h3 & Hrun3 & Hd3 & HR3).
  { apply (lists_repr _ _ HRep2). }
  { by apply (lists_dom _ _ HRep2 (L_s_procq j)). }
  { intros. by eapply flat_s_procq. }
  { simpl. intros l'. destruct (v_procq v !! j); simpl in *; intros; by simplify_eq. }
  exists h3. split.
  - unfold alloc_semd. rewrite (addr_ok_nonzero _ Hk).
    step_with (rep_empty _ _ HRep L_semd_free _ eq_refl). rewrite Hf, bool_decide_false by done.
    destruct (rep_load _ _ HRep L_semd_free (L_s_link j) (s_links l)) as (n & Hn & Hx);
      [simpl; by rewrite Hf|].
    step_with Hn. rewrite Hx, (bind_ok_or _ _ _ _ _ eq_refl). simpl semd_of_s_link.
    rewrite (bind_ok_or _ _ _ _ _ eq_refl). step_with Hrun1. step_with Hrun2.
    step_with (set_s_key_ok (set_links h2 s) j d k Hd).
    by step_with (on_links_ok _ (set_semd_table (<[j := Semd k]> (semd_table s)) (set_links h2 s))
                    _ _ Hrun3).
  - assert (Rep (set_links h3 (set_links h2 s)) (v_activate j l v)) as HRep3.
    { eapply Lists_links; [done | done |]. eapply repr_ext; [|exact HR3].
      intros x. unfold v_activate. rewrite <- (flat_set_procq _ j []). done. }
    eapply Lists_same; [exact HRep3 | done | done |]. simpl. by rewrite length_insert.
Qed.

(** A descriptor nobody waits on goes back to the pool. *)
Definition v_retire (j : nat) (v : view) : view :=
  set_v_sfree (j :: v_sfree v) (set_v_semd (rem j (v_semd v)) v).

Lemma free_semd_busy s v j l :
  Rep s v -> v_procq v !! j = Some l -> l ≠ [] -> free_semd (Some j) s = Ok true s.
Proof.
  intros HRep Hj Hl. unfold free_semd. step_with (rep_empty _ _ HRep _ _ (procq_flat _ _ _ Hj)).
  by rewrite bool_decide_false by (by destruct l).
Qed.

Lemma free_semd_spec s v j :
  Rep s v -> v_procq v !! j = Some [] -> j ∈ v_semd v ->
  ∃ h', free_semd (Some j) s = Ok false (set_links h' s) ∧ Rep (set_links h' s) (v_retire j v).
Proof.
  intros HRep Hj Hin. pose proof (rep_NoDup_semd _ _ HRep) as Hnd.
  pose proof Hin as (l1 & l2 & Hl)%list_elem_of_split.
  destruct (rep_move s v (v_retire j v) L_semd_h (s_links l1) (L_s_link j) (s_links l2)
              L_semd_free (s_links (v_sfree v)))
    as (h1 & h2 & Hrun1 & Hrun2 & HRep2); [done | simpl; by rewrite Hl, fmap_app | done | done | |].
  { intros y. unfold v_retire. rewrite flat_set_sfree. unfold upd at 1 3. case_decide; [done|].
    rewrite flat_set_semd. unfold upd. case_decide; [|done].
    rewrite Hl in *. by rewrite rem_middle, fmap_app. }
  exists h2. split; [|done]. unfold free_semd.
  step_with (rep_empty _ _ HRep _ _ (procq_flat _ _ _ Hj)). simpl.
  step_with Hrun1. by step_with Hrun2.
Qed.
End rep_semds.

(** ** The invariant of the active semaphores *)

(** [hole] is a descriptor that is allowed to have an empty queue: the one an
    operation is working on. *)
Record Asl_but (hole : option nat) (s : kernel) (v : view) : Prop := {
  (** an active semaphore has an address and somebody waits on it *)
  asl_entry : ∀ j, j ∈ v_semd v → ∃ k l,
    semd_table s !! j = Some (Semd k) ∧ addr_ok k ∧ v_procq v !! j = Some l ∧
    (l = [] → hole = Some j);
  (** one descriptor per address *)
  asl_inj : ∀ j1 j2 k, j1 ∈ v_semd v → j2 ∈ v_semd v →
    semd_table s !! j1 = Some (Semd k) → semd_table s !! j2 = Some (Semd k) → j1 = j2;
  (** nobody waits on a free descriptor *)
  asl_free : ∀ j, j ∈ v_sfree v → default [] (v_procq v !! j) = [];
  asl_all : ∀ j, (j < MAX_PROC)%nat → in_semds v j;
  (** [p_sem_add] is the address of the semaphore a PCB waits on, or NULL *)
  asl_in : ∀ j l i c, v_procq v !! j = Some l → i ∈ l → pcb_table s !! i = Some c →
    semd_table s !! j = Some (Semd (p_sem_add c));
  asl_out : ∀ i c, pcb_table s !! i = Some c → p_sem_add c ≠ 0 →
    ∃ j l, v_procq v !! j = Some l ∧ i ∈ l;
}.

Abbreviation Asl := (Asl_but None).

(** The waiting processes by semaphore address. *)
Definition sem_entry (s : kernel) (v : view) (j : nat) : option (Z * list nat) :=
  d ← semd_table s !! j; l ← v_procq v !! j; Some (s_key d, l).
Definition blocked (s : kernel) (v : view) : gmap Z (list nat) :=
  list_to_map (omap (sem_entry s v) (v_semd v)).

(** The first descriptor with a given key. *)
Fixpoint find_key (tbl : list semd_t) (k : Z) (l : list nat) : option nat :=
  match l with
  | [] => None
  | j :: l' => if decide (tbl !! j = Some (Semd k)) then Some j else find_key tbl k l'
  end.

Lemma find_key_Some tbl k l j :
  find_key tbl k l = Some j -> j ∈ l ∧ tbl !! j = Some (Semd k).
Proof.
  induction l as [|x l IH]; simpl; [done|]. case_decide; [intros [= ->]; split; [left|done]|].
  intros [? ?]%IH. split; [by right|done].
Qed.

Lemma find_key_None tbl k l j :
  find_key tbl k l = None -> j ∈ l -> tbl !! j ≠ Some (Semd k).
Proof.
  induction l as [|x l IH]; simpl; [by intros _ ?%elem_of_nil|].
  case_decide; [done|]. intros E [->|Hj]%elem_of_cons; [done|]. by apply IH.
Qed.

Section asl_facts.
Context (hole : option nat) (s : kernel) (v : view) (HRep : Rep s v) (HA : Asl_but hole s v).
Implicit Types (i j : nat) (k : Z) (l : list nat).

Lemma asl_procq_active j l i : v_procq v !! j = Some l -> i ∈ l -> j ∈ v_semd v.
Proof.
  intros Hj Hi. destruct (asl_all _ _ _ HA j) as [Hf|]; [by eapply procq_valid | | done].
  apply (asl_free _ _ _ HA) in Hf. rewrite Hj in Hf. simpl in Hf. subst.
  by apply elem_of_nil in Hi.
Qed.

Lemma find_key_spec k j :
  find_key (semd_table s) k (v_semd v) = Some j ↔
  j ∈ v_semd v ∧ semd_table s !! j = Some (Semd k).
Proof.
  split; [apply find_key_Some|]. intros [Hj Hk].
  destruct (find_key _ _ _) as [j'|] eqn:E.
  - apply find_key_Some in E as [Hj' Hk']. f_equal. by eapply asl_inj.
  - by destruct (find_key_None _ _ _ _ E Hj).
Qed.

Lemma blocked_keys_NoDup : NoDup (omap (sem_entry s v) (v_semd v)).*1.
Proof.
  assert (∀ l, NoDup l → (∀ j, j ∈ l → j ∈ v_semd v) → NoDup (omap (sem_entry s v) l).*1) as Hgen.
  { induction l as [|j l IH]; intros Hnd Hin; [apply NoDup_nil_2|].
    apply NoDup_cons in Hnd as [Hj Hnd].
    destruct (asl_entry _ _ _ HA j) as (k & q & Hk & _ & Hq & _); [apply Hin; left|].
    assert (sem_entry s v j = Some (k, q)) as E by (unfold sem_entry; by rewrite Hk, Hq).
    cbn. rewrite E. apply NoDup_cons. split.
    - intros ((k' & q') & E' & Hx)%list_elem_of_fmap.
      apply list_elem_of_omap in Hx as (j' & Hj' & He). simpl in E'. subst k'.
      unfold sem_entry in He. destruct (semd_table s !! j') as [[k']|] eqn:Hk'; [|done].
      destruct (v_procq v !! j'); simplify_eq/=. apply Hj.
      rewrite (asl_inj _ _ _ HA j j' k); [done | apply Hin; left | apply Hin; by right | done | done].
    - apply IH; [done|]. intros. apply Hin. by right. }
  apply Hgen; [by eapply rep_NoDup_semd | done].
Qed.

Lemma blocked_lookup k l :
  blocked s v !! k = Some l ↔
  ∃ j, j ∈ v_semd v ∧ semd_table s !! j = Some (Semd k) ∧ v_procq v !! j = Some l.
Proof.
  unfold blocked. rewrite <- elem_of_list_to_map by apply blocked_keys_NoDup.
  rewrite list_elem_of_omap. split.
  - intros (j & Hj & He). unfold sem_entry in He.
    destruct (semd_table s !! j) as [[k']|] eqn:Hk; [|done].
    destruct (v_procq v !! j) eqn:Hq; simplify_eq/=. by exists j.
  - intros (j & Hj & Hk & Hq). exists j. split; [done|]. unfold sem_entry. by rewrite Hk, Hq.
Qed.

Lemma blocked_lookup_None k :
  blocked s v !! k = None ↔ find_key (semd_table s) k (v_semd v) = None.
Proof.
  split; intros E.
  - destruct (find_key _ _ _) as [j|] eqn:Ek; [|done]. apply find_key_Some in Ek as [Hj Hk].
    destruct (asl_entry _ _ _ HA _ Hj) as (k' & l & Hk' & _ & Hq & _).
    assert (blocked s v !! k = Some l) by (apply blocked_lookup; eauto). congruence.
  - destruct (blocked s v !! k) as [l|] eqn:El; [|done].
    apply blocked_lookup in El as (j & Hj & Hk & _).
    by destruct (find_key_None _ _ _ _ E Hj).
Qed.

Lemma blocked_nonempty k l : hole = None -> blocked s v !! k = Some l -> l ≠ [] ∧ addr_ok k.
Proof.
  intros Hh (j & Hj & Hk & Hq)%blocked_lookup.
  destruct (asl_entry _ _ _ HA _ Hj) as (k' & l' & Hk' & ? & Hq' & Hl'). simplify_eq.
  split; [|done]. intros ->. specialize (Hl' eq_refl). congruence.
Qed.

(** The PCBs on the queues are the ones with a semaphore address. *)
Lemma blocked_pcb i c :
  pcb_table s !! i = Some c ->
  p_sem_add c ≠ 0 ↔ ∃ j l, v_procq v !! j = Some l ∧ i ∈ l.
Proof.
  intros Hc. split; [by apply (asl_out _ _ _ HA)|]. intros (j & l & Hq & Hi).
  pose proof (asl_in _ _ _ HA _ _ _ _ Hq Hi Hc) as Hk.
  destruct (asl_entry _ _ _ HA j) as (k & q & Hk' & [? _] & _); [by eapply asl_procq_active|].
  simplify_eq/=. lia.
Qed.

Lemma blocked_where i c :
  pcb_table s !! i = Some c -> p_sem_add c ≠ 0 ->
  ∃ l, blocked s v !! p_sem_add c = Some l ∧ i ∈ l.
Proof.
  intros Hc Hk. destruct (asl_out _ _ _ HA _ _ Hc Hk) as (j & l & Hq & Hi).
  exists l. split; [|done]. apply blocked_lookup. exists j.
  split_and!; [by eapply asl_procq_active | by eapply asl_in | done].
Qed.

Lemma blocked_sem_add k l i c :
  blocked s v !! k = Some l -> i ∈ l -> pcb_table s !! i = Some c -> p_sem_add c = k.
Proof.
  intros (j & Hj & Hk & Hq)%blocked_lookup Hi Hc.
  pose proof (asl_in _ _ _ HA _ _ _ _ Hq Hi Hc). congruence.
Qed.

(** [find_semd] finds the descriptor of the address. *)
Lemma find_semd_spec k :
  addr_ok k ->
  find_semd (Some L_semd_h) k s = Ok (find_key (semd_table s) k (v_semd v)) s.
Proof.
  intros Hk. unfold find_semd. rewrite (addr_ok_nonzero _ Hk), bind_gets.
  pose proof (semd_short _ _ HRep) as Hlen.
  assert (∀ j, j ∈ v_semd v → ∃ k', key_of (semd_table s) (Semd k) (L_s_link j) = Some k' ∧ addr_ok k' ∧
            semd_table s !! j = Some (Semd k')) as Hkeys.
  { intros j (k' & l & Hk' & ? & _)%(asl_entry _ _ _ HA). exists k'. simpl. by rewrite Hk'. }
  step_with (on_links_query _ _ _ (list_search_spec None list_fuel (links s) (flat v)
    L_dummy L_semd_h (s_links (v_semd v)) (key_cmp (semd_table s) (Semd k))
    (lists_repr _ _ HRep) eq_refl ltac:(rewrite length_fmap; unfold list_fuel; lia)
    ltac:(intros x (j & -> & (k' & E & _)%Hkeys)%list_elem_of_fmap; unfold key_cmp; rewrite E;
          simpl; eauto))).
  enough (search_list (key_cmp (semd_table s) (Semd k)) L_dummy (s_links (v_semd v)) =
          L_s_link <$> find_key (semd_table s) k (v_semd v)) as ->.
  { by destruct (find_key _ _ _). }
  clear Hlen. revert Hkeys. generalize (v_semd v). intros l Hkeys.
  induction l as [|j l IH]; [done|]. cbn [find_key search_list fmap list_fmap].
  destruct (Hkeys j) as (k' & E & Hk' & Ht); [left|].
  rewrite IH by (intros; apply Hkeys; by right).
  assert (key_cmp (semd_table s) (Semd k) L_dummy (L_s_link j) = Some 0 ↔
          semd_table s !! j = Some (Semd k)) as Hiff.
  { unfold key_cmp. rewrite E, Ht. simpl. pose proof (key_cmp_zero k k' Hk Hk') as Hz. split.
    - intros [= Hs]. apply Hz in Hs. by subst.
    - intros [= ->]. f_equal. by apply Hz. }
  repeat case_decide; naive_solver.
Qed.
End asl_facts.

(** ** Steps on the invariant *)

Section asl_steps.
Implicit Types (s : kernel) (v : view) (i j : nat) (k : Z) (l : list nat).

Lemma Asl_ext hole s s' v v' :
  Asl_but hole s v -> semd_table s' = semd_table s ->
  (∀ i c', pcb_table s' !! i = Some c' → ∃ c, pcb_table s !! i = Some c ∧ p_sem_add c' = p_sem_add c) ->
  v_semd v' = v_semd v -> v_sfree v' = v_sfree v -> v_procq v' = v_procq v ->
  Asl_but hole s' v'.
Proof.
  intros [H1 H2 H3 H4 H5 H6] Et Hp E1 E2 E3.
  split; unfold in_semds in *; rewrite ?Et, ?E1, ?E2, ?E3; try done.
  - intros j l i c' Hj Hi (c & Hc & ->)%Hp. eauto.
  - intros i c' (c & Hc & ->)%Hp. eauto.
Qed.

Lemma blocked_ext s s' v v' :
  semd_table s' = semd_table s -> v_semd v' = v_semd v -> v_procq v' = v_procq v ->
  blocked s' v' = blocked s v.
Proof. intros Et E1 E2. unfold blocked, sem_entry. by rewrite Et, E1, E2. Qed.

(** Two abstract states with the same entries are equal. *)
Lemma blocked_eq hole s v m :
  Rep s v -> Asl_but hole s v ->
  (∀ k l, m !! k = Some l ↔
    ∃ j, j ∈ v_semd v ∧ semd_table s !! j = Some (Semd k) ∧ v_procq v !! j = Some l) ->
  blocked s v = m.
Proof.
  intros HRep HA Hm. apply map_eq. intros k. apply option_eq. intros l.
  by rewrite (blocked_lookup _ _ _ HRep HA), Hm.
Qed.

(** The free descriptor [j], the first of them, is given the address [k],
    which no active descriptor has. *)
Record activating s s' v j l k : Prop := {
  ac_free : v_sfree v = j :: l;
  ac_inactive : j ∉ v_semd v;
  ac_new : semd_table s' !! j = Some (Semd k);
  ac_others : ∀ j', j' ≠ j → semd_table s' !! j' = semd_table s !! j';
  ac_fresh : ∀ j', j' ∈ v_semd v → semd_table s !! j' ≠ Some (Semd k);
  ac_idle : ∀ j' q, v_procq v !! j' = Some q → q ≠ [] → j' ≠ j
}.

Lemma activating_intro s s' v j l k : Rep s v -> Asl s v -> v_sfree v = j :: l -> blocked s v !! k = None ->
  semd_table s' = <[j := Semd k]> (semd_table s) -> activating s s' v j l k.
Proof.
  intros HRep HA Hf Hno Et. assert (j ∈ v_sfree v) as Hj by (rewrite Hf; left).
  assert (is_Some (semd_table s !! j)) as [d Hd].
  { apply (rep_semd _ _ HRep), (in_semds_valid _ _ HRep). by left. }
  split; [done | by apply (sfree_not_semd _ _ HRep) | | | |].
  - rewrite Et. apply list_lookup_insert_eq. by eapply lookup_lt_Some.
  - intros. by rewrite Et, list_lookup_insert_ne.
  - intros j' Hj' Hk'. apply (blocked_lookup_None _ _ _ HRep HA) in Hno.
    by eapply find_key_None in Hno.
  - intros j' q Hq Hne' ->. apply (asl_free _ _ _ HA) in Hj. rewrite Hq in Hj. done.
Qed.

Lemma activating_asl s s' v j l k : Asl s v -> activating s s' v j l k -> addr_ok k ->
  pcb_table s' = pcb_table s -> Asl_but (Some j) s' (v_activate j l v).
Proof.
  intros HA [Hf Hjs Heq Hne Hnk Hq] Hk Ep. split; simpl.
  - intros j' [->|Hj']%elem_of_cons.
    + exists k, []. by rewrite lookup_insert_eq.
    + assert (j' ≠ j) by congruence. rewrite Hne, lookup_insert_ne by done.
      destruct (asl_entry _ _ _ HA _ Hj') as (k' & q & ? & ? & ? & Hq'). exists k', q.
      split_and!; try done. intros E. by specialize (Hq' E).
  - intros j1 j2 k' H1 H2 Hk1 Hk2. apply elem_of_cons in H1, H2.
    destruct (decide (j1 = j)), (decide (j2 = j)); subst; [done| | |].
    + rewrite Heq in Hk1. simplify_eq. rewrite Hne in Hk2 by done.
      destruct H2 as [|H2]; [done|]. by destruct (Hnk _ H2).
    + rewrite Heq in Hk2. simplify_eq. rewrite Hne in Hk1 by done.
      destruct H1 as [|H1]; [done|]. by destruct (Hnk _ H1).
    + rewrite Hne in Hk1, Hk2 by done.
      destruct H1 as [|H1], H2 as [|H2]; try done. by apply (asl_inj _ _ _ HA _ _ k').
  - intros j' Hj'. destruct (decide (j' = j)) as [->|]; [by rewrite lookup_insert_eq|].
    rewrite lookup_insert_ne by done. apply (asl_free _ _ _ HA). rewrite Hf. by right.
  - intros j' Hj'. destruct (asl_all _ _ _ HA _ Hj') as [Hin|Hin]; [|right; by right].
    rewrite Hf in Hin. apply elem_of_cons in Hin as [->|]; [right; left | by left].
  - intros j' q i c Hq' Hi Hc. rewrite Ep in Hc.
    destruct (decide (j' = j)) as [->|];
      [rewrite lookup_insert_eq in Hq'; simplify_eq; by apply elem_of_nil in Hi|].
    rewrite lookup_insert_ne in Hq' by done. rewrite Hne by done. by eapply (asl_in _ _ _ HA).
  - intros i c Hc Hne'. rewrite Ep in Hc.
    destruct (asl_out _ _ _ HA _ _ Hc Hne') as (j' & q & Hq' & Hi). exists j', q.
    rewrite lookup_insert_ne; [done|]. symmetry. eapply Hq; [done|]. intros ->. by apply elem_of_nil in Hi.
Qed.

Lemma asl_activate s s' v j l k :
  Rep s v -> Asl s v -> Rep s' (v_activate j l v) ->
  v_sfree v = j :: l -> addr_ok k -> blocked s v !! k = None ->
  semd_table s' = <[j := Semd k]> (semd_table s) -> pcb_table s' = pcb_table s ->
  Asl_but (Some j) s' (v_activate j l v) ∧
  blocked s' (v_activate j l v) = <[k := []]> (blocked s v).
Proof.
  intros HRep HA HRep' Hf Hk Hno Et Ep.
  pose proof (activating_intro s s' v j l k HRep HA Hf Hno Et) as Hac.
  pose proof (activating_asl s s' v j l k HA Hac Hk Ep) as HA'. destruct Hac as [_ Hjs Heq Hne Hnk _].
  split; [done|]. eapply blocked_eq; [done..|]. intros k' q.
  destruct (decide (k' = k)) as [->|Hkk].
  - rewrite lookup_insert_eq. simpl. split.
    + intros [= <-]. exists j. rewrite lookup_insert_eq. split_and!; [left|done|done].
    + intros (j' & Hj' & Hk' & Hq'). destruct (decide (j' = j)) as [->|].
      * by rewrite lookup_insert_eq in Hq'.
      * rewrite Hne in Hk' by done. apply elem_of_cons in Hj' as [|Hj']; [done|].
        by destruct (Hnk _ Hj').
  - rewrite lookup_insert_ne, (blocked_lookup _ _ _ HRep HA) by done. simpl.
    split; intros (j' & Hj' & Hk' & Hq').
    + assert (j' ≠ j) by congruence. exists j'. rewrite Hne, lookup_insert_ne by done.
      split_and!; [by right|done|done].
    + destruct (decide (j' = j)) as [->|]; [congruence|].
      rewrite Hne in Hk' by done. rewrite lookup_insert_ne in Hq' by done.
      apply elem_of_cons in Hj' as [|Hj']; [done|]. by exists j'.
Qed.

(** One queue changes by one PCB, whose [p_sem_add] changes accordingly. *)
Lemma asl_set_queue hole hole' s s' v j k l l' i c a :
  Rep s v -> Asl_but hole s v ->
  Rep s' (set_v_procq (<[j := l']> (v_procq v)) v) ->
  j ∈ v_semd v -> semd_table s !! j = Some (Semd k) -> v_procq v !! j = Some l ->
  pcb_table s !! i = Some c ->
  semd_table s' = semd_table s -> pcb_table s' = <[i := set_p_sem_add a c]> (pcb_table s) ->
  (∀ x, x ≠ i → x ∈ l' ↔ x ∈ l) ->
  i ∈ l' ∧ a = k ∨ i ∉ l' ∧ a = 0 ->
  (∀ j' q, v_procq v !! j' = Some q → i ∈ q → j' = j) ->
  (l' = [] → hole' = Some j) -> (∀ j', j' ≠ j → hole = Some j' → hole' = Some j') ->
  Asl_but hole' s' (set_v_procq (<[j := l']> (v_procq v)) v) ∧
  blocked s' (set_v_procq (<[j := l']> (v_procq v)) v) = <[k := l']> (blocked s v).
Proof.
  intros HRep HA HRep' Hj Hk Hq Hc Et Ep Hl' Ha Huniq Hh1 Hh2.
  assert (∀ j', in_semds (set_v_procq (<[j := l']> (v_procq v)) v) j' ↔ in_semds v j') as Hsd by done.
  assert (Asl_but hole' s' (set_v_procq (<[j := l']> (v_procq v)) v)) as HA'.
  { split; rewrite ?Et; simpl; try (by apply HA).
    - intros j' Hj'. destruct (asl_entry _ _ _ HA _ Hj') as (k' & q & ? & ? & ? & Hq').
      destruct (decide (j' = j)) as [->|].
      + exists k', l'. by rewrite lookup_insert_eq.
      + exists k', q. rewrite lookup_insert_ne by done. split_and!; auto.
    - intros j' Hj'. assert (j' ≠ j) by (intros ->; by eapply sfree_not_semd).
      rewrite lookup_insert_ne by done. by apply (asl_free _ _ _ HA).
    - intros j' q x cx Hq' Hx Hcx. rewrite Ep in Hcx.
      destruct (decide (x = i)) as [->|Hne].
      + rewrite list_lookup_insert_eq in Hcx by (by eapply lookup_lt_Some). simplify_eq/=.
        destruct (decide (j' = j)) as [->|].
        * rewrite lookup_insert_eq in Hq'. simplify_eq. by destruct Ha as [[_ ->]|[]].
        * rewrite lookup_insert_ne in Hq' by done. by destruct (Huniq _ _ Hq' Hx).
      + rewrite list_lookup_insert_ne in Hcx by done. destruct (decide (j' = j)) as [->|].
        * rewrite lookup_insert_eq in Hq'. simplify_eq. eapply (asl_in _ _ _ HA); [done| |done].
          by apply Hl'.
        * rewrite lookup_insert_ne in Hq' by done. by eapply (asl_in _ _ _ HA).
    - intros x cx Hcx Hne. rewrite Ep in Hcx. destruct (decide (x = i)) as [->|].
      + rewrite list_lookup_insert_eq in Hcx by (by eapply lookup_lt_Some). simplify_eq/=.
        destruct Ha as [[Hi _]|[_ ->]]; [|done]. exists j, l'. by rewrite lookup_insert_eq.
      + rewrite list_lookup_insert_ne in Hcx by done.
        destruct (asl_out _ _ _ HA _ _ Hcx Hne) as (j' & q & Hq' & Hx).
        destruct (decide (j' = j)) as [->|].
        * exists j, l'. rewrite lookup_insert_eq. split; [done|]. apply Hl'; [done|].
          by simplify_eq.
        * exists j', q. by rewrite lookup_insert_ne. }
  split; [done|]. eapply blocked_eq; [done..|]. intros k' q. rewrite Et. simpl.
  destruct (decide (k' = k)) as [->|Hkk].
  - rewrite lookup_insert_eq. split.
    + intros [= <-]. exists j. by rewrite lookup_insert_eq.
    + intros (j' & Hj' & Hk' & Hq'). rewrite (asl_inj _ _ _ HA _ _ _ Hj' Hj Hk' Hk) in Hq'.
      by rewrite lookup_insert_eq in Hq'.
  - rewrite lookup_insert_ne, (blocked_lookup _ _ _ HRep HA) by done.
    split; intros (j' & Hj' & Hk' & Hq'); exists j'; (destruct (decide (j' = j)) as [->|];
      [congruence|]); by rewrite lookup_insert_ne in *.
Qed.

(** A queue that is not empty is not a hole. *)
Lemma asl_close s v j l :
  Asl_but (Some j) s v -> v_procq v !! j = Some l -> l ≠ [] -> Asl s v.
Proof.
  intros [H1 H2 H3 H4 H5 H6] Hq Hl. split; try done.
  intros j' Hj'. destruct (H1 _ Hj') as (k & q & ? & ? & ? & Hq'). exists k, q.
  split_and!; try done. intros E. specialize (Hq' E). by simplify_eq.
Qed.

Lemma asl_retire s s' v j k :
  Rep s v -> Asl_but (Some j) s v -> Rep s' (v_retire j v) ->
  j ∈ v_semd v -> semd_table s !! j = Some (Semd k) -> v_procq v !! j = Some [] ->
  semd_table s' = semd_table s -> pcb_table s' = pcb_table s ->
  Asl s' (v_retire j v) ∧ blocked s' (v_retire j v) = delete k (blocked s v).
Proof.
  intros HRep HA HRep' Hj Hk Hq Et Ep.
  assert (Asl s' (v_retire j v)) as HA'.
  { destruct HA as [H1 H2 H3 H4 H5 H6].
    split; unfold in_semds; rewrite ?Et, ?Ep; simpl; try done.
    - intros j' [Hne Hj']%elem_of_rem. destruct (H1 _ Hj') as (k' & q & ? & ? & ? & Hq').
      exists k', q. split_and!; try done. intros E. specialize (Hq' E). by simplify_eq.
    - intros j1 j2 k' [_ Hj1]%elem_of_rem [_ Hj2]%elem_of_rem. by apply H2.
    - intros j' [->|Hj']%elem_of_cons; [by rewrite Hq|by apply H3].
    - intros j' Hj'. destruct (decide (j' = j)) as [->|]; [left; left|].
      destruct (H4 _ Hj') as [|]; [left; by right | right; by apply elem_of_rem]. }
  split; [done|]. eapply blocked_eq; [done..|]. intros k' q. rewrite Et. simpl.
  destruct (decide (k' = k)) as [->|Hkk].
  - rewrite lookup_delete_eq. split; [done|].
    intros (j' & [Hne Hj']%elem_of_rem & Hk' & _). destruct Hne. by eapply (asl_inj _ _ _ HA).
  - rewrite lookup_delete_ne, (blocked_lookup _ _ _ HRep HA) by done.
    split; intros (j' & Hj' & Hk' & Hq').
    + exists j'. split_and!; try done. apply elem_of_rem. split; [congruence|done].
    + apply elem_of_rem in Hj' as [_ Hj']. by exists j'.
Qed.
End asl_steps.

(** ** The operations *)

(** The lists of processes that are not semaphore queues. *)
Definition same_procs (v v' : view) : Prop :=
  v_free v' = v_free v ∧ v_hi v' = v_hi v ∧ v_lo v' = v_lo v ∧ v_child v' = v_child v.

(** A process that waits on no semaphore is on no semaphore queue. *)
Lemma in_queue_iff v i :
  in_queue v i ↔ i ∈ v_free v ∨ i ∈ v_hi v ∨ i ∈ v_lo v ∨ (∃ j l, v_procq v !! j = Some l ∧ i ∈ l).
Proof.
  split.
  - intros [| | |j l ? ?]; [tauto..|]. do 3 right. eauto.
  - intros [|[|[|(j & l & ? & ?)]]]; eauto using in_queue.
Qed.

(** Everyone on a semaphore queue fits in the table. *)
Lemma heads_list s v (l : list nat) :
  Rep s v -> Asl s v -> NoDup l -> (∀ j, j ∈ l → j ∈ v_semd v) ->
  ∃ hs, length hs = length l ∧ NoDup hs ∧
    ∀ x, x ∈ hs → ∃ j q, j ∈ l ∧ v_procq v !! j = Some q ∧ x ∈ q.
Proof.
  intros HRep HA. induction l as [|j l IH]; intros Hnd Hin.
  - exists []. split_and!; [done | apply NoDup_nil_2 | by intros x ?%elem_of_nil].
  - apply NoDup_cons in Hnd as [Hj Hnd]. destruct IH as (hs & Hlen & Hnd' & Hhs);
      [done | intros; apply Hin; by right |].
    destruct (asl_entry _ _ _ HA j) as (k & [|x q] & _ & _ & Hq & Hne); [apply Hin; left | by specialize (Hne eq_refl)|].
    exists (x :: hs). split_and!; [simpl; by rewrite Hlen | apply NoDup_cons; split; [|done] |].
    + intros (j' & q' & Hj' & Hq' & Hx)%Hhs. apply Hj.
      by rewrite (procq_unique _ _ HRep x j (x :: q) j' q' Hq Hq' ltac:(left) Hx).
    + intros y [->|Hy]%elem_of_cons; [exists j, (x :: q); split_and!; [left|done|left]|].
      destruct (Hhs _ Hy) as (j' & q' & ? & ? & ?). exists j', q'. split_and!; [by right|done|done].
Qed.

(** As long as some PCB waits on nothing there is a free descriptor. *)
Lemma semd_available s v i :
  Rep s v -> Asl s v -> (i < MAX_PROC)%nat -> (∀ j l, v_procq v !! j = Some l → i ∉ l) ->
  v_sfree v ≠ [].
Proof.
  intros HRep HA Hi Hno Hf.
  destruct (heads_list _ _ (v_semd v) HRep HA) as (hs & Hlen & Hnd & Hhs);
    [by eapply rep_NoDup_semd | done |].
  assert (MAX_PROC ≤ length (v_semd v))%nat as Hge.
  { rewrite <- (length_seq MAX_PROC 0). apply submseteq_length, NoDup_submseteq; [apply NoDup_seq|].
    intros j Hj%elem_of_seq. destruct (asl_all _ _ _ HA j) as [Hj'|]; [lia | | done].
    rewrite Hf in Hj'. by apply elem_of_nil in Hj'. }
  assert (length (i :: hs) ≤ MAX_PROC)%nat; [|simpl in *; lia].
  apply valid_length.
  - apply NoDup_cons. split; [|done]. intros (j & q & _ & Hq & Hx)%Hhs. by eapply Hno.
  - intros x [->|(j & q & _ & Hq & Hx)%Hhs]%elem_of_cons; [done|].
    eapply in_queue_valid; [done|]. by eapply in_procq.
Qed.

Section specs.
Implicit Types (s : kernel) (v : view) (i j : nat) (k : Z) (l : list nat).

Lemma find_semd_active hole s v k l :
  Rep s v -> Asl_but hole s v -> addr_ok k -> blocked s v !! k = Some l ->
  ∃ j, find_semd (Some L_semd_h) k s = Ok (Some j) s ∧ j ∈ v_semd v ∧
    semd_table s !! j = Some (Semd k) ∧ v_procq v !! j = Some l.
Proof.
  intros HRep HA Hk (j & Hj & Ht & Hq)%(blocked_lookup _ _ _ HRep HA).
  exists j. split_and!; [|done..]. rewrite (find_semd_spec _ _ _ HRep HA _ Hk). f_equal.
  by apply (find_key_spec _ _ _ HA).
Qed.

Lemma find_semd_inactive hole s v k :
  Rep s v -> Asl_but hole s v -> addr_ok k -> blocked s v !! k = None ->
  find_semd (Some L_semd_h) k s = Ok None s.
Proof.
  intros HRep HA Hk Hno. rewrite (find_semd_spec _ _ _ HRep HA _ Hk). f_equal.
  by apply (blocked_lookup_None _ _ _ HRep HA).
Qed.

Lemma head_blocked_spec s v k :
  Rep s v -> Asl s v -> addr_ok k ->
  head_blocked k s = Ok (blocked s v !! k ≫= head) s.
Proof.
  intros HRep HA Hk. unfold head_blocked. rewrite (addr_ok_nonzero _ Hk).
  destruct (blocked s v !! k) as [l|] eqn:Hl.
  - destruct (blocked_nonempty _ _ _ HRep HA _ _ eq_refl Hl) as [Hne _].
    destruct (find_semd_active _ _ _ _ _ HRep HA Hk Hl) as (j & Hrun & Hj & Ht & Hq).
    step_with Hrun. destruct l as [|i l]; [done|].
    destruct (rep_load _ _ HRep (L_s_procq j) (L_p_list i) (p_lists l)) as (n & Hn & Hx);
      [simpl; by rewrite Hq|].
    step_with Hn. by rewrite Hx.
  - by step_with (find_semd_inactive _ _ _ _ HRep HA Hk Hl).
Qed.

(** The last part of [insert_blocked], once there is a descriptor. *)
Lemma block_on s v hole j k l i c :
  Rep s v -> Asl_but hole s v -> hole = None ∨ hole = Some j ->
  j ∈ v_semd v -> semd_table s !! j = Some (Semd k) -> v_procq v !! j = Some l ->
  pcb_table s !! i = Some c -> ¬ in_queue v i ->
  ∃ h', (on_links (list_add_tail (L_p_list i) (L_s_procq j)) ;;
         upd_pcb i (set_p_sem_add k) ;; ret 0) s =
      Ok 0 (set_links h' (set_pcb_table (<[i := set_p_sem_add k c]> (pcb_table s)) s)) ∧
    let s' := set_links h' (set_pcb_table (<[i := set_p_sem_add k c]> (pcb_table s)) s) in
    let v' := set_v_procq (<[j := l ++ [i]]> (v_procq v)) v in
    Rep s' v' ∧ Asl s' v' ∧ blocked s' v' = <[k := l ++ [i]]> (blocked s v).
Proof.
  intros HRep HA Hh Hj Hk Hq Hc Hi.
  assert (i < MAX_PROC)%nat as Hlt by (rewrite <- (lists_pcbs _ _ HRep); by eapply lookup_lt_Some).
  destruct (rep_add_tail _ _ HRep (set_v_procq (<[j := l ++ [i]]> (v_procq v)) v) (L_s_procq j)
              (p_lists l) (L_p_list i)) as (h1 & Hrun1 & HRep1);
    [by apply procq_flat | by apply detached_p_list | done
    | intros y; by rewrite flat_set_procq, fmap_app |].
  destruct (upd_pcb_rep _ _ _ _ (set_p_sem_add k) HRep1 Hc) as [Hrun2 HRep2].
  exists h1. split; [step_with Hrun1; by step_with Hrun2|]. cbv zeta. split; [done|].
  assert (∀ x, x ∈ l ++ [i] ↔ x ∈ l ∨ x = i) as Hx by (intros; rewrite elem_of_app; set_solver).
  eapply (asl_set_queue hole None s _ v j k l); try done.
  - intros x Hne. rewrite Hx. naive_solver.
  - left. rewrite Hx. naive_solver.
  - intros j' q Hq' Hin. destruct Hi. by eapply in_procq.
  - by destruct l.
  - intros j' Hne. destruct Hh; congruence.
Qed.

Lemma insert_blocked_spec s v k i c :
  Rep s v -> Asl s v -> addr_ok k ->
  pcb_table s !! i = Some c -> p_sem_add c = 0 -> ¬ in_queue v i ->
  ∃ h' T' v',
    let s' := set_links h' (set_semd_table T'
                (set_pcb_table (<[i := set_p_sem_add k c]> (pcb_table s)) s)) in
    insert_blocked k (Some i) s = Ok 0 s' ∧ Rep s' v' ∧ Asl s' v' ∧ same_procs v v' ∧
    blocked s' v' = <[k := default [] (blocked s v !! k) ++ [i]]> (blocked s v).
Proof.
  intros HRep HA Hk Hc Hsem Hi. cbv zeta. unfold insert_blocked.
  rewrite (addr_ok_nonzero _ Hk). step_with (pcb_at_ok _ _ _ Hc). rewrite Hsem. change (negb (0 =? 0)) with false. cbv iota.
  destruct (blocked s v !! k) as [l|] eqn:Hl.
  - destruct (find_semd_active _ _ _ _ _ HRep HA Hk Hl) as (j & Hrun & Hj & Ht & Hq).
    destruct (block_on s v None j k l i c) as (h' & Hrun' & HRep' & HA' & Hb'); auto.
    eexists h', (semd_table s), _. step_with Hrun. rewrite bind_ret_l.
    split_and!; [exact Hrun' | exact HRep' | exact HA' | done | exact Hb'].
  - assert (v_sfree v ≠ []) as Hfree.
    { eapply (semd_available s v i); [done|done| |].
      - rewrite <- (lists_pcbs _ _ HRep). by eapply lookup_lt_Some.
      - intros j l Hq Hin. apply Hi. by eapply in_procq. }
    destruct (v_sfree v) as [|j l] eqn:Hf; [done|].
    destruct (alloc_semd_spec s v j l k HRep Hf) as (h1 & Hrun1 & HRep1);
      [apply (asl_free _ _ _ HA); rewrite Hf; left | done |].
    destruct (asl_activate _ _ _ j l k HRep HA HRep1 Hf Hk Hl) as [HA1 Hb1]; [done..|].
    assert (is_Some (semd_table s !! j)) as [d Hd].
    { apply (rep_semd _ _ HRep), (in_semds_valid _ _ HRep). left. rewrite Hf. left. }
    match type of HRep1 with Lists ?s1 _ => 
      destruct (block_on s1 (v_activate j l v) (Some j) j k [] i c) as (h2 & Hrun2 & HRep2 & HA2 & Hb2)
    end; try done; simpl; auto.
    { left. }
    { apply list_lookup_insert_eq. by eapply lookup_lt_Some. }
    { by rewrite lookup_insert_eq. }
    { intros Hq. apply Hi. destruct Hq as [| | |j' q Hq' Hin]; eauto using in_queue.
      simpl in Hq'. destruct (decide (j' = j)) as [->|].
      - rewrite lookup_insert_eq in Hq'. simplify_eq. by apply elem_of_nil in Hin.
      - rewrite lookup_insert_ne in Hq' by done. by eapply in_procq. }
    eexists h2, (<[j := Semd k]> (semd_table s)), _.
    step_with (find_semd_inactive _ _ _ _ HRep HA Hk Hl). step_with Hrun1.
    split_and!; [exact Hrun2 | exact HRep2 | exact HA2 | done |].
    etrans; [exact Hb2|]. rewrite Hb1. by rewrite insert_insert_eq.
Qed.
End specs.

(** [i] stops waiting on [k]; a semaphore nobody waits on is not active. *)
Definition leave (k : Z) (i : nat) (m : gmap Z (list nat)) : gmap Z (list nat) :=
  match rem i (default [] (m !! k)) with
  | [] => delete k m
  | l => <[k := l]> m
  end.

Section unblock_specs.
Implicit Types (s : kernel) (v : view) (i j : nat) (k : Z) (l : list nat).

Lemma out_blocked_none s i c :
  pcb_table s !! i = Some c -> p_sem_add c = 0 -> out_blocked (Some i) s = Ok None s.
Proof. intros Hc Hk. unfold out_blocked. step_with (pcb_at_ok _ _ _ Hc). by rewrite Hk. Qed.

(** Unlinking a waiting PCB changes its semaphore's queue only. *)
Lemma v_unlink_procq s v i j l :
  Rep s v -> v_procq v !! j = Some l -> i ∈ l ->
  v_unlink i v = set_v_procq (<[j := rem i l]> (v_procq v)) v.
Proof.
  intros HRep Hq Hi. apply view_eq; simpl; try done; try apply rem_id.
  - intros ?. by eapply free_not_procq.
  - intros ?. by eapply hi_not_procq.
  - intros ?. by eapply lo_not_procq.
  - by eapply rem_procq_one.
Qed.

Lemma out_blocked_spec s v i c :
  Rep s v -> Asl s v -> pcb_table s !! i = Some c -> p_sem_add c ≠ 0 ->
  ∃ h' v',
    let s' := set_links h' (set_pcb_table (<[i := set_p_sem_add 0 c]> (pcb_table s)) s) in
    out_blocked (Some i) s = Ok (Some i) s' ∧ Rep s' v' ∧ Asl s' v' ∧ same_procs v v' ∧
    blocked s' v' = leave (p_sem_add c) i (blocked s v).
Proof.
  intros HRep HA Hc Hne. cbv zeta.
  assert (i < MAX_PROC)%nat as Hlt by (rewrite <- (lists_pcbs _ _ HRep); by eapply lookup_lt_Some).
  destruct (blocked_where _ _ _ HRep HA _ _ Hc Hne) as (l & Hl & Hi).
  destruct (blocked_nonempty _ _ _ HRep HA _ _ eq_refl Hl) as [Hnil Hk].
  destruct (find_semd_active _ _ _ _ _ HRep HA Hk Hl) as (j & Hrun & Hj & Ht & Hq).
  destruct (rep_sdel _ _ _ HRep Hlt) as (h1 & Hrun1 & HRep1).
  rewrite (v_unlink_procq _ _ _ _ _ HRep Hq Hi) in HRep1.
  destruct (upd_pcb_rep _ _ _ _ (set_p_sem_add 0) HRep1 Hc) as [Hrun2 HRep2].
  destruct (asl_set_queue None (Some j) s _ v j (p_sem_add c) l (rem i l) i c 0 HRep HA HRep2)
    as [HA2 Hb2]; try done.
  { intros x Hx. rewrite elem_of_rem. tauto. }
  { right. rewrite elem_of_rem. tauto. }
  { intros j' q Hq' Hi'. by eapply (procq_unique _ _ HRep). }
  assert (on_links (list_contains list_fuel (L_p_list i) (L_s_procq j)) s = Ok true s) as Hin.
  { rewrite (rep_contains _ _ HRep _ _ _ _ (procq_flat _ _ _ Hq)).
    - f_equal. apply bool_decide_true. by apply elem_of_wrap.
    - rewrite length_fmap. pose proof (procq_short _ _ HRep _ _ Hq). unfold list_fuel. lia. }
  unfold out_blocked. step_with (pcb_at_ok _ _ _ Hc). step_with Hrun. step_with Hin.
  change (negb true) with false. cbv iota. step_with Hrun1. step_with Hrun2.
  assert (v_procq (set_v_procq (<[j := rem i l]> (v_procq v)) v) !! j = Some (rem i l)) as Hq'
    by (simpl; by rewrite lookup_insert_eq).
  step_with (rep_empty _ _ HRep2 _ _ (procq_flat _ _ _ Hq')).
  unfold leave. rewrite Hl. simpl default. destruct (rem i l) as [|x l'] eqn:El.
  - destruct (free_semd_spec _ _ _ HRep2 Hq' Hj) as (h3 & Hrun3 & HRep3).
    destruct (asl_retire _ _ _ j (p_sem_add c) HRep2 HA2 HRep3 Hj Ht Hq') as [HA3 Hb3]; [done..|].
    eexists h3, _. step_with Hrun3.
    split_and!; [reflexivity | exact HRep3 | exact HA3 | done |].
    etrans; [exact Hb3|]. rewrite Hb2. by rewrite delete_insert_eq.
  - eexists h1, _. split_and!; [reflexivity | exact HRep2 | | done | exact Hb2].
    by eapply asl_close.
Qed.

Lemma remove_blocked_none s v k :
  Rep s v -> Asl s v -> addr_ok k -> blocked s v !! k = None ->
  remove_blocked k s = Ok None s.
Proof.
  intros HRep HA Hk Hno. unfold remove_blocked.
  step_with (head_blocked_spec _ _ _ HRep HA Hk). by rewrite Hno.
Qed.

Lemma remove_blocked_spec s v k i l :
  Rep s v -> Asl s v -> addr_ok k -> blocked s v !! k = Some (i :: l) ->
  ∃ c h' v', pcb_table s !! i = Some c ∧ p_sem_add c = k ∧
    let s' := set_links h' (set_pcb_table (<[i := set_p_sem_add 0 c]> (pcb_table s)) s) in
    remove_blocked k s = Ok (Some i) s' ∧ Rep s' v' ∧ Asl s' v' ∧ same_procs v v' ∧
    blocked s' v' = match l with [] => delete k (blocked s v) | _ => <[k := l]> (blocked s v) end.
Proof.
  intros HRep HA Hk Hl.
  pose proof Hl as (j & Hj & Ht & Hq)%(blocked_lookup _ _ _ HRep HA).
  assert (i ∈ i :: l) as Hi by left.
  assert (i < MAX_PROC)%nat as Hlt by (eapply in_queue_valid; [done|]; by eapply in_procq).
  destruct (rep_pcb _ _ HRep _ Hlt) as [c Hc].
  pose proof (blocked_sem_add _ _ _ HRep HA _ _ _ _ Hl Hi Hc) as Hsem.
  destruct (out_blocked_spec s v i c HRep HA Hc) as (h' & v' & Hrun & HRep' & HA' & Hsame & Hb).
  { rewrite Hsem. destruct Hk. lia. }
  exists c, h', v'. cbv zeta. split_and!; [done|done| |done|done|done|].
  - unfold remove_blocked. step_with (head_blocked_spec _ _ _ HRep HA Hk). by rewrite Hl.
  - etrans; [exact Hb|]. unfold leave. rewrite Hsem, Hl. simpl default.
    rewrite rem_head by exact (rep_NoDup_procq _ _ HRep _ _ Hq). by destruct l.
Qed.
End unblock_specs.

(** ** The pool at boot *)

Section boot_specs.
Implicit Types (s : kernel) (Q : lh → option (list lh)).

Lemma init_asl_loop n a s Q (l : list nat) :
  Lists s Q -> Q L_semd_free = Some (s_links l) -> (a + n = MAX_PROC)%nat ->
  (∀ i, (a ≤ i)%nat → detached Q (L_s_link i)) ->
  ∃ h', for_ n a (fun i => on_links (list_add (L_s_link i) L_semd_free)) s =
      Ok tt (set_links h' s) ∧
    Lists (set_links h' s) (upd Q L_semd_free (s_links (reverse (seq a n) ++ l))).
Proof.
  revert a s Q l. induction n as [|n IH]; intros a s Q l HL HQ Ha Hdet.
  - exists (links s). split; [by destruct s|].
    destruct s. eapply Lists_ext; [|exact HL]. intros x. unfold upd. by case_decide; subst.
  - assert (a < MAX_PROC)%nat as Hlt by lia.
    destruct (lists_add s Q L_semd_free (s_links l) (L_s_link a) HL Hlt HQ (Hdet a ltac:(done)))
      as (h1 & Hrun1 & HL1).
    destruct (IH (S a) (set_links h1 s) _ (a :: l) HL1) as (h2 & Hrun2 & HL2);
      [by rewrite upd_eq | lia | |].
    { intros i Hi. apply detached_upd; [apply Hdet; lia | done |].
      intros [[= ->]|Hin]%elem_of_cons; [lia|].
      destruct (Hdet i ltac:(lia) _ _ HQ). by right. }
    exists h2. split.
    + simpl for_. step_with Hrun1. exact Hrun2.
    + eapply Lists_ext; [|exact HL2]. intros x. unfold upd. case_decide; [|done].
      simpl seq. by rewrite reverse_cons, <- app_assoc.
Qed.

(** Every descriptor is free and none is active. *)
Lemma init_asl_spec s Q :
  Lists s Q -> Q L_semd_free = None -> Q L_semd_h = None ->
  (∀ hd (l : list lh), Q hd = Some l → L_semd_free ∉ hd :: l ∧ L_semd_h ∉ hd :: l) ->
  (∀ i, detached Q (L_s_link i)) ->
  ∃ h', init_asl s = Ok tt (set_links h' s) ∧
    Lists (set_links h' s)
      (upd (upd Q L_semd_h []) L_semd_free (s_links (reverse (seq 0 MAX_PROC)))).
Proof.
  intros HL HQ1 HQ2 Hfr Hdet.
  destruct (lists_init s Q L_semd_free HL) as (h1 & Hrun1 & HL1);
    [done | intros hd' l' H1 H2; by destruct (Hfr _ _ H1) | by rewrite HQ1 |].
  destruct (lists_init _ _ L_semd_h HL1) as (h2 & Hrun2 & HL2); [done | | by rewrite upd_ne, HQ2 |].
  { intros hd' l'. unfold upd. case_decide; [|intros H1 H2; by destruct (Hfr _ _ H1)].
    subst. intros [= <-]. by intros [?|?%elem_of_nil]%elem_of_cons. }
  destruct (init_asl_loop MAX_PROC 0 _ _ [] HL2) as (h3 & Hrun3 & HL3); [done..| |].
  { intros i _. repeat (apply detached_upd; [|done|by intros ?%elem_of_nil]). done. }
  exists h3. split.
  - unfold init_asl. step_with Hrun1. step_with Hrun2. exact Hrun3.
  - eapply Lists_ext; [|exact HL3]. intros x. rewrite app_nil_r. unfold upd.
    by repeat case_decide.
Qed.
End boot_specs.
