(* ===== verification/Scheduler.v ===== *)
(** * The scheduler: [os/src/scheduler.c]

    Process identifiers, the two ready queues, the birth and death of
    processes and the choice of the next one to run. *)

From Stdlib Require Import ZArith Lia String.
From stdpp Require Import base tactics option numbers gmap list.
From S2P Require Import Prelude ListHead Machine Kernel View Pcb Asl.

Open Scope string_scope.
Open Scope list_scope.
Open Scope Z_scope.

(** ** Process identifiers: scheduler_impl.h *)

Definition PID_ID_MASK : Z := Z.shiftl 1 MAX_PROC_BITS - 1.
Definition make_pid (id recycle_count : Z) : Z :=
  u32 (Z.lor id (u32 (Z.shiftl recycle_count MAX_PROC_BITS)) + 1).
Definition mask_pid_id (p : Z) : Z := Z.land (u32 (p - 1)) PID_ID_MASK.
Definition mask_recycle (p : Z) : Z := Z.shiftr (u32 (p - 1)) MAX_PROC_BITS.

Section operations.
Context `{Umps}.

Definition reset_timer : KM unit := load_interval_timer IT_INTERVAL.
Definition reset_local_timer : KM unit := load_local_timer PLT_INTERVAL.

Definition process_queue (c : pcb_t) : lh :=
  if is_true (p_prio c) then L_ready_hi else L_ready_lo.

Definition enqueue_process (p : option nat) : KM unit :=
  match p with
  | None => ret tt
  | Some i => c <- pcb_at i ;; insert_proc_q (Some (process_queue c)) (Some i)
  end.

Definition dequeue_process (p : option nat) : KM (option nat) :=
  match p with
  | None => ret None
  | Some i => c <- pcb_at i ;; out_proc_q (Some (process_queue c)) (Some i)
  end.

Definition find_process (pid : Z) : KM (option nat) :=
  let i := mask_pid_id pid in
  if (i <? 0) || (Z.of_nat MAX_PROC <=? i) then ret None
  else
    c <- pcb_at (Z.to_nat i) ;;
    if negb (p_pid c =? pid) then ret None else ret (Some (Z.to_nat i)).

Definition spawn_process (priority : Z) : KM (option nat) :=
  if negb (priority =? 1) && negb (priority =? 0) then ret None
  else
    p <- alloc_pcb ;;
    match p with
    | None => ret None
    | Some i =>
        modify (fun s => set_process_count (u32 (process_count s + 1)) s) ;;
        n <- gets recycle_count ;;
        modify (set_recycle_count (u32 (n + 1))) ;;
        upd_pcb i (set_p_pid (make_pid (Z.of_nat i) n)) ;;
        upd_pcb i (set_p_prio priority) ;;
        enqueue_process (Some i) ;;
        ret (Some i)
    end.

Definition kill_process (p : option nat) : KM Z :=
  match p with
  | None => ret 1
  | Some i =>
      c <- pcb_at i ;;
      removed <- match p_parent c with
                 | None => ret (Some i)
                 | Some _ => out_child (Some i)
                 end ;;
      if negb (bool_decide (removed = Some i)) then ret 2
      else
        kprintf "kill proc\n" [] ;;
        modify (fun s => set_process_count (u32 (process_count s - 1)) s) ;;
        alone <- on_links (list_null (L_p_list i)) ;;
        when negb alone do
          (c <- pcb_at i ;;
           out <- (if negb (p_sem_add c =? 0) then out_blocked (Some i) else ret None) ;;
           if bool_decide (out = Some i)
           then modify (fun s => set_softblock_count (u32 (softblock_count s - 1)) s)
           else dequeue_process (Some i) ;; ret tt) ;;
        free_pcb (Some i) ;;
        ret 0
  end.

(** The loop over the children starts again from the top of the function. *)
Fixpoint kill_progeny (fuel : nat) (p : option nat) : KM Z :=
  match fuel with
  | O => no_fuel
  | S f =>
      child <- remove_child p ;;
      match child with
      | None => kill_process p
      | Some c =>
          r <- kill_progeny f (Some c) ;;
          if negb (r =? 0) then ret 3 else kill_progeny f p
      end
  end.

Definition init_scheduler : KM unit :=
  modify (set_process_count 0) ;;
  modify (set_softblock_count 0) ;;
  mk_empty_proc_q (Some L_ready_hi) ;;
  mk_empty_proc_q (Some L_ready_lo) ;;
  modify (set_active_process None) ;;
  modify (set_yield_process None) ;;
  t <- store_tod ;;
  modify (set_start_tod t) ;;
  modify (set_recycle_count 0).

Definition scheduler_panic (fmt : string) (args : list Z) : KM unit :=
  kprintf "!! PANIC: " [] ;; kprintf fmt args ;; kprintf "\n" [] ;; panic.

(** [wait] never comes back here: an interrupt starts the exception handler
    on a fresh kernel stack, and so the [schedule] after it is not reached. *)
Definition scheduler_wait : KM unit :=
  modify (set_active_process None) ;;
  reset_timer ;;
  status <- get_status ;;
  set_status_register (status_il_on_all (status_interrupts_on_nucleus status)) ;;
  wait.

Definition scheduler_takeover : KM unit :=
  a <- gets active_process ;;
  i <- deref a ;;
  upd_pcb i (fun c => set_p_s (set_status (status_interrupts_on_process (status (p_s c)))
                                 (p_s c)) c) ;;
  reset_local_timer ;;
  c <- pcb_at i ;;
  when is_true (p_prio c) do
    upd_pcb i (fun c => set_p_s (set_status (status_local_timer_on (status (p_s c)))
                                   (p_s c)) c) ;;
  t <- store_tod ;;
  modify (set_start_tod t) ;;
  c <- pcb_at i ;;
  load_state (p_s c).

Definition wait_or_die : KM unit :=
  n <- gets process_count ;;
  b <- gets softblock_count ;;
  if n =? 0 then halt
  else if negb (b =? 0) then scheduler_wait
  else scheduler_panic "Deadlock detected\n" [].

Definition schedule (pcb : option nat) (enqueue : bool) : KM unit :=
  when enqueue && bool_decide (pcb <> None) do enqueue_process pcb ;;
  (if bool_decide (pcb <> None) && negb enqueue then modify (set_active_process pcb)
   else
     e <- on_links (list_empty L_ready_hi) ;;
     if negb e then
       p <- remove_proc_q (Some L_ready_hi) ;; modify (set_active_process p)
     else
       e <- on_links (list_empty L_ready_lo) ;;
       if negb e then
         p <- remove_proc_q (Some L_ready_lo) ;; modify (set_active_process p)
       else
         y <- gets yield_process ;;
         if bool_decide (y <> None) then
           modify (set_active_process y) ;; modify (set_yield_process None)
         else wait_or_die) ;;
  y <- gets yield_process ;;
  match y with
  | None => ret tt
  | Some i =>
      c <- pcb_at i ;;
      insert_proc_q (Some (process_queue c)) (Some i) ;;
      modify (set_yield_process None)
  end ;;
  a <- gets active_process ;;
  when bool_decide (a <> None) do scheduler_takeover.
End operations.

(** ** Process identifiers *)

Section pids.
Implicit Types (i : nat) (n : Z).

Lemma make_pid_pred i n :
  (i < MAX_PROC)%nat ->
  u32 (make_pid (Z.of_nat i) n - 1) =
  Z.lor (Z.of_nat i) (u32 (Z.shiftl n MAX_PROC_BITS)).
Proof.
  intros Hi. unfold MAX_PROC in Hi. unfold make_pid, u32.
  assert (0 <= Z.lor (Z.of_nat i) (Z.shiftl n MAX_PROC_BITS mod 2 ^ 32) < 2 ^ 32) as Hr.
  { pose proof (Z.mod_pos_bound (Z.shiftl n MAX_PROC_BITS) (2 ^ 32) ltac:(lia)) as Hm.
    generalize dependent (Z.shiftl n MAX_PROC_BITS mod 2 ^ 32). intros m Hm.
    split; [apply Z.lor_nonneg; lia|].
    destruct (Z.eq_dec (Z.lor (Z.of_nat i) m) 0) as [->|Hz]; [lia|].
    apply Z.log2_lt_pow2; [pose proof (proj2 (Z.lor_nonneg (Z.of_nat i) m)); lia|].
    rewrite Z.log2_lor by lia. apply Z.max_lub_lt.
    - destruct (Z.eq_dec (Z.of_nat i) 0) as [->|]; [done|]. apply Z.log2_lt_pow2; lia.
    - destruct (Z.eq_dec m 0) as [->|]; [done|]. apply Z.log2_lt_pow2; lia. }
  rewrite Zminus_mod_idemp_l, Z.add_simpl_r. by apply Z.mod_small.
Qed.

(** The identifier names the slot of the process, whatever its generation. *)
Lemma mask_make_pid i n :
  (i < MAX_PROC)%nat -> mask_pid_id (make_pid (Z.of_nat i) n) = Z.of_nat i.
Proof.
  intros Hi. unfold mask_pid_id. rewrite make_pid_pred by done. unfold MAX_PROC in Hi.
  change PID_ID_MASK with (Z.ones 5). apply Z.bits_inj'. intros b Hb.
  rewrite Z.land_spec, Z.lor_spec. destruct (Z.ltb_spec b 5).
  - rewrite Z.ones_spec_low, andb_true_r by lia. rewrite u32_testbit by lia.
    unfold MAX_PROC_BITS. by rewrite Z.shiftl_spec_low, orb_false_r by lia.
  - rewrite Z.ones_spec_high, andb_false_r by lia. symmetry.
    destruct (Z.eq_dec (Z.of_nat i) 0) as [->|]; [apply Z.bits_0|].
    apply Z.bits_above_log2; [lia|]. apply Z.log2_lt_pow2; [lia|].
    apply Z.lt_le_trans with (2 ^ 5); [lia|]. apply Z.pow_le_mono_r; lia.
Qed.

Lemma make_pid_not_null i n : (i < MAX_PROC)%nat -> make_pid (Z.of_nat i) n ≠ NULL_PID.
Proof.
  intros Hi E. pose proof (mask_make_pid i n Hi) as Hm. rewrite E in Hm.
  change (mask_pid_id NULL_PID) with 31 in Hm. unfold MAX_PROC in Hi. lia.
Qed.

(** Generations fit in what is left of the word. *)
Lemma mask_recycle_make_pid i n :
  (i < MAX_PROC)%nat -> 0 <= n < 2 ^ 27 -> mask_recycle (make_pid (Z.of_nat i) n) = n.
Proof.
  intros Hi Hn. unfold mask_recycle. rewrite make_pid_pred by done.
  unfold MAX_PROC in Hi. unfold MAX_PROC_BITS.
  rewrite u32_small by (rewrite Z.shiftl_mul_pow2; lia).
  rewrite Z.shiftr_lor, Z.shiftr_shiftl_l by lia. rewrite Z.shiftl_0_r.
  by rewrite Z.shiftr_div_pow2, Z.div_small by lia.
Qed.
End pids.
