(* ===== verification/Invariant.v ===== *)
(** * The invariant of the process tables

    What is true of the nucleus between two exceptions: the lists are well
    formed ([Rep]), the active semaphores are consistent ([Asl]), free PCBs
    have the null pid, ready processes are on the queue of their priority, the
    process tree is a forest, the two counters count, and no process is lost.
    The lemmas say how each kind of step preserves it. *)

From Stdlib Require Import ZArith Lia String.
From stdpp Require Import base tactics option numbers gmap list.
From S2P Require Import Prelude ListHead Machine Kernel View Pcb Asl Scheduler.

Open Scope string_scope.
Open Scope list_scope.
Open Scope Z_scope.

Record Pool (s : kernel) (v : view) : Prop := {
  pool_pid : ∀ i c, pcb_table s !! i = Some c → p_pid c = NULL_PID ↔ i ∈ v_free v;
  pool_find : ∀ i c, pcb_table s !! i = Some c → p_pid c ≠ NULL_PID →
    mask_pid_id (p_pid c) = Z.of_nat i;
  pool_ready : ∀ b i c, pcb_table s !! i = Some c → i ∈ v_ready b v → is_true (p_prio c) = b;
}.

Record Tree (s : kernel) (v : view) : Prop := {
  tree_dom : ∀ i, (i < MAX_PROC)%nat → i ∉ v_free v → is_Some (v_child v !! i);
  tree_free : ∀ i, i ∈ v_free v → default [] (v_child v !! i) = [];
  tree_live : ∀ j l i, v_child v !! j = Some l → i ∈ l → i ∉ v_free v;
  tree_up : ∀ j l i c, v_child v !! j = Some l → i ∈ l → pcb_table s !! i = Some c →
    p_parent c = Some j;
  tree_down : ∀ i c j, pcb_table s !! i = Some c → i ∉ v_free v → p_parent c = Some j →
    ∃ l, v_child v !! j = Some l ∧ i ∈ l;
  (** children are below their parent: there are no cycles *)
  tree_rank : ∃ rank : nat → nat, ∀ j l i, v_child v !! j = Some l → i ∈ l →
    (rank i < rank j)%nat;
}.

Definition blocked_count (T : list pcb_t) : nat := length (filter (fun c => p_sem_add c ≠ 0) T).

Record Counts (s : kernel) (v : view) : Prop := {
  count_procs : process_count s = Z.of_nat MAX_PROC - Z.of_nat (length (v_free v));
  count_blocked : softblock_count s = Z.of_nat (blocked_count (pcb_table s));
}.

(** Every PCB is on a queue, except perhaps those of [a]. *)
Definition Placed (a : list nat) (v : view) : Prop :=
  ∀ i, (i < MAX_PROC)%nat → ¬ in_queue v i → i ∈ a.

Record Inv (a : list nat) (s : kernel) (v : view) : Prop := {
  inv_rep : Rep s v;
  inv_asl : Asl s v;
  inv_pool : Pool s v;
  inv_tree : Tree s v;
  inv_counts : Counts s v;
  inv_placed : Placed a v;
}.

#[export] Hint Resolve inv_rep inv_asl inv_pool inv_tree inv_counts inv_placed : view.

(** ** Steps that do not concern the invariant *)

Definition same_role (c c' : pcb_t) : Prop :=
  p_parent c' = p_parent c ∧ p_sem_add c' = p_sem_add c ∧ p_prio c' = p_prio c ∧
  p_pid c' = p_pid c.

#[export] Instance same_role_refl : Reflexive same_role.
Proof. by intros c. Qed.

#[export] Instance same_role_trans : Transitive same_role.
Proof. intros c1 c2 c3 (?&?&?&?) (?&?&?&?). split_and!; congruence. Qed.

Section lookups.
Implicit Types (T : list pcb_t) (c : pcb_t) (i x : nat).

Lemma table_upd_eq T i c c' : T !! i = Some c -> <[i := c']> T !! i = Some c'.
Proof. intros Hc. apply list_lookup_insert_eq. by eapply lookup_lt_Some. Qed.

(** A lookup in an updated table. *)
Lemma table_upd T i c c' x d :
  T !! i = Some c -> <[i := c']> T !! x = Some d ->
  x = i ∧ d = c' ∨ x ≠ i ∧ T !! x = Some d.
Proof.
  intros Hc Hd. destruct (decide (x = i)) as [->|Hne].
  - rewrite (table_upd_eq _ _ _ _ Hc) in Hd. left. by simplify_eq.
  - rewrite list_lookup_insert_ne in Hd by done. by right.
Qed.

Lemma Forall2_upd (R : pcb_t → pcb_t → Prop) `{!Reflexive R} T i c c' :
  T !! i = Some c -> R c c' -> Forall2 R T (<[i := c']> T).
Proof.
  intros Hc HR. rewrite <- (list_insert_id T i c Hc) at 1.
  apply Forall2_insert; [|done]. by apply Forall_Forall2_diag, Forall_forall.
Qed.

Lemma blocked_count_role T T' :
  Forall2 same_role T T' -> blocked_count T' = blocked_count T.
Proof.
  unfold blocked_count. induction 1 as [|c c' T T' (_ & Hs & _) _ IH]; [done|].
  rewrite !filter_cons. rewrite Hs. case_decide; simpl; by rewrite IH.
Qed.

Lemma blocked_count_zero T : Forall (fun c => p_sem_add c = 0) T -> blocked_count T = 0%nat.
Proof.
  unfold blocked_count. induction 1 as [|c T Hc _ IH]; [done|].
  rewrite filter_cons_False by (by intros []). done.
Qed.

Lemma blocked_count_le T : (blocked_count T ≤ length T)%nat.
Proof. apply length_filter. Qed.

Definition b2n (b : bool) : nat := (if b then 1 else 0)%nat.

(** A blocked PCB counts for one. *)
Lemma blocked_count_upd T i c c' :
  T !! i = Some c ->
  (blocked_count (<[i := c']> T) + b2n (bool_decide (p_sem_add c ≠ 0%Z)) =
   blocked_count T + b2n (bool_decide (p_sem_add c' ≠ 0%Z)))%nat.
Proof.
  intros Hc. unfold blocked_count. apply lookup_lt_Some in Hc as Hlt.
  rewrite (insert_take_drop _ _ _ Hlt). rewrite <- (take_drop_middle _ _ _ Hc) at 3.
  rewrite !filter_app, !length_app, !filter_cons.
  repeat case_decide; repeat case_bool_decide; simpl; tauto || lia.
Qed.
End lookups.

Section neutral.
Implicit Types (s : kernel) (v : view) (a : list nat).

Lemma role_lookup s s' i c' :
  Forall2 same_role (pcb_table s) (pcb_table s') -> pcb_table s' !! i = Some c' ->
  ∃ c, pcb_table s !! i = Some c ∧ same_role c c'.
Proof. intros HF Hc'. destruct (Forall2_lookup_r _ _ _ _ _ HF Hc') as (c & ? & ?). eauto. Qed.

(** The invariant does not look at the rest of the state. *)
Lemma Inv_ext a s s' v :
  Inv a s v -> links s' = links s -> semd_table s' = semd_table s ->
  process_count s' = process_count s -> softblock_count s' = softblock_count s ->
  Forall2 same_role (pcb_table s) (pcb_table s') ->
  Inv a s' v ∧ blocked s' v = blocked s v.
Proof.
  intros [H1 H2 [P1 P2 P3] [T1 T2 T3 T4 T5 T6] [C1 C2] H6] El Es Ep Eb HF.
  split; [|by apply blocked_ext]. split; [| | | | |done].
  - eapply Lists_same; [done|done| |by rewrite Es]. by rewrite (Forall2_length _ _ _ HF).
  - eapply Asl_ext; [done|done| |done..]. intros i c' Hc'.
    destruct (role_lookup _ _ _ _ HF Hc') as (c & ? & _ & ? & _). eauto.
  - split.
    + intros i c' Hc'. destruct (role_lookup _ _ _ _ HF Hc') as (c & ? & _ & _ & _ & ->). eauto.
    + intros i c' Hc'. destruct (role_lookup _ _ _ _ HF Hc') as (c & ? & _ & _ & _ & ->). eauto.
    + intros b i c' Hc'. destruct (role_lookup _ _ _ _ HF Hc') as (c & ? & _ & _ & -> & _). eauto.
  - split; try done.
    + intros j l i c' Hj Hi Hc'. destruct (role_lookup _ _ _ _ HF Hc') as (c & ? & -> & _). eauto.
    + intros i c' j Hc'. destruct (role_lookup _ _ _ _ HF Hc') as (c & ? & -> & _). eauto.
  - split; rewrite ?Ep, ?Eb; [done|]. by rewrite (blocked_count_role _ _ HF).
Qed.

Lemma Inv_placed a a' s v :
  Inv a s v -> (∀ i, i ∈ a → i ∈ a' ∨ in_queue v i) -> Inv a' s v.
Proof.
  intros [H1 H2 H3 H4 H5 H6] Ha. split; try done. intros i Hi Hq.
  by destruct (Ha _ (H6 i Hi Hq)).
Qed.
End neutral.

(** ** Parts that a step leaves alone *)

Section parts.
Implicit Types (s : kernel) (v : view).

Lemma Tree_ext s s' v v' :
  Tree s v -> v_child v' = v_child v -> v_free v' = v_free v ->
  (∀ i c', pcb_table s' !! i = Some c' → ∃ c, pcb_table s !! i = Some c ∧ p_parent c' = p_parent c) ->
  Tree s' v'.
Proof.
  intros [T1 T2 T3 T4 T5 T6] Ec Ef Hp. split; rewrite ?Ec, ?Ef; try done.
  - intros j l i c' Hj Hi Hc'. destruct (Hp _ _ Hc') as (c & ? & ->). eauto.
  - intros i c' j Hc'. destruct (Hp _ _ Hc') as (c & ? & ->). eauto.
Qed.

Lemma Pool_ext s s' v v' :
  Pool s v -> v_free v' = v_free v ->
  (∀ b i, i ∈ v_ready b v' → i ∈ v_ready b v) ->
  (∀ i c', pcb_table s' !! i = Some c' → ∃ c, pcb_table s !! i = Some c ∧
    p_pid c' = p_pid c ∧ p_prio c' = p_prio c) ->
  Pool s' v'.
Proof.
  intros [P1 P2 P3] Ef Hr Hp. split; rewrite ?Ef.
  - intros i c' Hc'. destruct (Hp _ _ Hc') as (c & ? & -> & _). eauto.
  - intros i c' Hc'. destruct (Hp _ _ Hc') as (c & ? & -> & _). eauto.
  - intros b i c' Hc'. destruct (Hp _ _ Hc') as (c & ? & _ & ->). eauto.
Qed.

Lemma table_self s (P : pcb_t → pcb_t → Prop) `{!Reflexive P} i c' :
  pcb_table s !! i = Some c' -> ∃ c, pcb_table s !! i = Some c ∧ P c c'.
Proof. eauto. Qed.

(** A process that does not wait is on no semaphore queue. *)
Lemma not_blocked s v i c j l :
  Rep s v -> Asl s v -> pcb_table s !! i = Some c -> p_sem_add c = 0 ->
  v_procq v !! j = Some l -> i ∉ l.
Proof.
  intros HRep HA Hc Hz Hq Hi. pose proof (blocked_pcb _ _ _ HRep HA _ _ Hc) as Hb.
  apply (proj2 Hb); eauto.
Qed.

Lemma ready_set_ready b b' l v :
  v_ready b' (set_v_ready b l v) = if Bool.eqb b b' then l else v_ready b' v.
Proof. by destruct b, b'. Qed.

Lemma v_ready_unlink b i v : v_ready b (v_unlink i v) = rem i (v_ready b v).
Proof. by destruct b. Qed.

Lemma v_free_set_ready b l v : v_free (set_v_ready b l v) = v_free v.
Proof. by destruct b. Qed.
Lemma v_child_set_ready b l v : v_child (set_v_ready b l v) = v_child v.
Proof. by destruct b. Qed.
Lemma v_procq_set_ready b l v : v_procq (set_v_ready b l v) = v_procq v.
Proof. by destruct b. Qed.
Lemma v_semd_set_ready b l v : v_semd (set_v_ready b l v) = v_semd v.
Proof. by destruct b. Qed.
Lemma v_sfree_set_ready b l v : v_sfree (set_v_ready b l v) = v_sfree v.
Proof. by destruct b. Qed.

Lemma in_queue_ready_iff v i :
  in_queue v i ↔ i ∈ v_free v ∨ (∃ b, i ∈ v_ready b v) ∨
                 (∃ j l, v_procq v !! j = Some l ∧ i ∈ l).
Proof.
  rewrite in_queue_iff. split.
  - intros [|[|[|]]]; [tauto | right; left; by exists true | right; left; by exists false | tauto].
  - intros [|[([|]&?)|]]; tauto.
Qed.

Lemma in_queue_enqueue v b i x : in_queue (v_enqueue b i v) x ↔ x = i ∨ in_queue v x.
Proof.
  unfold v_enqueue. rewrite in_queue_ready_iff, v_free_set_ready, v_procq_set_ready.
  assert ((∃ b0, x ∈ v_ready b0 (set_v_ready b (v_ready b (v_unlink i v) ++ [i]) (v_unlink i v)))
          ↔ x = i ∨ ∃ b0, x ∈ v_ready b0 (v_unlink i v)) as ->.
  { split.
    - intros (b0 & Hx). rewrite ready_set_ready in Hx.
      destruct (Bool.eqb b b0) eqn:E; [|right; eauto].
      apply eqb_prop in E as ->. apply elem_of_app in Hx as [|Hx%list_elem_of_singleton]; [right; eauto|by left].
    - intros [->|(b0 & Hx)].
      + exists b. rewrite ready_set_ready, Bool.eqb_reflx. set_solver.
      + exists b0. rewrite ready_set_ready. destruct (Bool.eqb b b0) eqn:E; [|done].
        apply eqb_prop in E as ->. set_solver. }
  pose proof (in_queue_unlink i x v) as Hu. rewrite in_queue_ready_iff in Hu.
  destruct (decide (x = i)); tauto.
Qed.
End parts.

(** ** Steps on the ready queues *)

Section ready_steps.
Implicit Types (s : kernel) (v : view) (a : list nat) (i : nat).

Lemma process_queue_ready c : process_queue c = ready (is_true (p_prio c)).
Proof. unfold process_queue. by destruct (is_true _). Qed.

Lemma Inv_enqueue a s h' v i c :
  Inv a s v -> pcb_table s !! i = Some c -> i ∉ v_free v -> p_sem_add c = 0 ->
  Rep (set_links h' s) (v_enqueue (is_true (p_prio c)) i v) ->
  Inv a (set_links h' s) (v_enqueue (is_true (p_prio c)) i v) ∧
  blocked (set_links h' s) (v_enqueue (is_true (p_prio c)) i v) = blocked s v.
Proof.
  intros [HRep HA HP HT [C1 C2] HW] Hc Hf Hz HRep'. set (b := is_true (p_prio c)) in *.
  assert (v_procq (v_enqueue b i v) = v_procq v) as Eq.
  { unfold v_enqueue. rewrite v_procq_set_ready. simpl. apply rem_procq_id.
    intros j l Hq. exact (not_blocked _ _ _ _ _ _ HRep HA Hc Hz Hq). }
  assert (v_free (v_enqueue b i v) = v_free v) as Ef.
  { unfold v_enqueue. rewrite v_free_set_ready. simpl. by apply rem_id. }
  assert (v_child (v_enqueue b i v) = v_child v) as Ec by (by unfold v_enqueue; rewrite v_child_set_ready).
  assert (v_semd (v_enqueue b i v) = v_semd v) as E1 by (by unfold v_enqueue; rewrite v_semd_set_ready).
  assert (v_sfree (v_enqueue b i v) = v_sfree v) as E2 by (by unfold v_enqueue; rewrite v_sfree_set_ready).
  split; [|by apply blocked_ext]. split; [done| | | | |].
  - eapply Asl_ext; eauto.
  - destruct HP as [P1 P2 P3]. split; rewrite ?Ef; [done|done|].
    intros b' x d Hd Hx. unfold v_enqueue in Hx. rewrite ready_set_ready, !v_ready_unlink in Hx.
    destruct (Bool.eqb b b') eqn:E.
    + apply eqb_prop in E as <-. apply elem_of_app in Hx as [[_ Hx]%elem_of_rem|Hx%list_elem_of_singleton];
        [by eapply P3|]. subst x. simpl in Hd. by simplify_eq.
    + apply elem_of_rem in Hx as [_ Hx]. by eapply P3.
  - eapply Tree_ext; eauto.
  - split; [by rewrite Ef|done].
  - intros x Hx Hq. apply HW; [done|]. intros Hq'. apply Hq. apply in_queue_enqueue. by right.
Qed.

Lemma enqueue_process_spec a s v i c :
  Inv a s v -> pcb_table s !! i = Some c -> i ∉ v_free v -> p_sem_add c = 0 ->
  ∃ h', enqueue_process (Some i) s = Ok tt (set_links h' s) ∧
    Inv a (set_links h' s) (v_enqueue (is_true (p_prio c)) i v) ∧
    blocked (set_links h' s) (v_enqueue (is_true (p_prio c)) i v) = blocked s v.
Proof.
  intros HI Hc Hf Hz. pose proof (inv_rep _ _ _ HI) as HRep.
  assert (i < MAX_PROC)%nat as Hlt by (rewrite <- (lists_pcbs _ _ HRep); by eapply lookup_lt_Some).
  destruct (insert_proc_q_spec s v i (is_true (p_prio c)) HRep Hlt) as (h' & Hrun & HRep').
  exists h'. split; [|by apply Inv_enqueue].
  unfold enqueue_process. step_with (pcb_at_ok _ _ _ Hc). by rewrite process_queue_ready.
Qed.

(** Taking a process off its ready queue, to run it. *)
Lemma Inv_take a s h' v b i :
  Inv a s v -> i ∈ v_ready b v ->
  Rep (set_links h' s) (set_v_ready b (rem i (v_ready b v)) v) ->
  Inv (i :: a) (set_links h' s) (set_v_ready b (rem i (v_ready b v)) v) ∧
  blocked (set_links h' s) (set_v_ready b (rem i (v_ready b v)) v) = blocked s v.
Proof.
  intros [HRep HA HP HT [C1 C2] HW] Hi HRep'.
  split; [|by apply blocked_ext; destruct b]. split; [done| | | | |].
  - eapply Asl_ext; eauto; by destruct b.
  - eapply Pool_ext; [done | by destruct b | | eauto].
    intros b' x. rewrite ready_set_ready. destruct (Bool.eqb b b') eqn:E; [|done].
    apply eqb_prop in E as <-. by intros [_ ?]%elem_of_rem.
  - eapply Tree_ext; [done | by destruct b | by destruct b | eauto].
  - split; [by rewrite v_free_set_ready|done].
  - intros x Hx Hq. apply elem_of_cons. destruct (decide (x = i)) as [|Hne]; [by left|right].
    apply HW; [done|]. intros Hin.
    apply Hq. rewrite in_queue_ready_iff in Hin |- *.
    rewrite v_free_set_ready, v_procq_set_ready.
    destruct Hin as [|[(b' & Hb)|]]; [tauto| |tauto]. right. left. exists b'.
    rewrite ready_set_ready. destruct (Bool.eqb b b') eqn:E; [|done].
    apply eqb_prop in E as <-. apply elem_of_rem. by split.
Qed.

Lemma take_ready_spec a s v b i l :
  Inv a s v -> v_ready b v = i :: l ->
  ∃ h', remove_proc_q (Some (ready b)) s = Ok (Some i) (set_links h' s) ∧
    Inv (i :: a) (set_links h' s) (set_v_ready b l v) ∧
    blocked (set_links h' s) (set_v_ready b l v) = blocked s v.
Proof.
  intros HI E. pose proof (inv_rep _ _ _ HI) as HRep.
  destruct (remove_proc_q_spec s v b i l HRep E) as (h' & Hrun & HRep').
  exists h'. split; [done|].
  assert (l = rem i (v_ready b v)) as ->.
  { rewrite E, rem_head; [done|]. rewrite <- E. by eapply rep_NoDup_ready. }
  apply Inv_take; [done| |done]. rewrite E. left.
Qed.
End ready_steps.

(** ** Steps on the semaphore queues *)

Section sem_steps.
Implicit Types (s : kernel) (v : view) (a : list nat) (i : nat) (k : Z).

(** Where a PCB is, from its own fields. *)
Lemma in_queue_sem hole s v i c :
  Rep s v -> Asl_but hole s v -> pcb_table s !! i = Some c ->
  in_queue v i ↔ i ∈ v_free v ∨ (∃ b, i ∈ v_ready b v) ∨ p_sem_add c ≠ 0.
Proof.
  intros HRep HA Hc. rewrite in_queue_ready_iff, (blocked_pcb _ _ _ HRep HA _ _ Hc). done.
Qed.

Lemma same_procs_ready v v' b : same_procs v v' -> v_ready b v' = v_ready b v.
Proof. intros (_ & H1 & H2 & _). by destruct b. Qed.

Lemma Inv_sem_step a a' s s' v v' i c k :
  Inv a s v -> Rep s' v' -> Asl s' v' -> same_procs v v' ->
  pcb_table s !! i = Some c -> pcb_table s' = <[i := set_p_sem_add k c]> (pcb_table s) ->
  process_count s' = process_count s ->
  softblock_count s' = Z.of_nat (blocked_count (pcb_table s')) ->
  (∀ x, x ≠ i → x ∈ a → x ∈ a') -> k ≠ 0 ∨ i ∈ a' ->
  Inv a' s' v'.
Proof.
  intros HI HRep' HA' Hsame Hc Ep Epc Esb Ha Hk.
  pose proof Hsame as (E1 & E2 & E3 & E4).
  assert (∀ x d', pcb_table s' !! x = Some d' → ∃ d, pcb_table s !! x = Some d ∧
            p_parent d' = p_parent d ∧ p_pid d' = p_pid d ∧ p_prio d' = p_prio d ∧
            (x ≠ i → d' = d) ∧ (x = i → p_sem_add d' = k)) as Hpcb.
  { intros x d' Hd'. rewrite Ep in Hd'.
    destruct (table_upd _ _ _ _ _ _ Hc Hd') as [[-> ->]|[Hne Hd]]; [exists c | exists d'];
      split_and!; done. }
  split; [done|done| | | |].
  - eapply Pool_ext; [by apply HI | done | |].
    + intros b x. by rewrite (same_procs_ready _ _ b Hsame).
    + intros x d' (d & ? & ? & ? & ? & _)%Hpcb. eauto.
  - eapply Tree_ext; [by apply HI | done | done |]. intros x d' (d & ? & ? & _)%Hpcb. eauto.
  - split; [|done]. rewrite Epc, E1. by apply HI.
  - intros x Hx Hq. destruct (rep_pcb _ _ HRep' _ Hx) as [d' Hd'].
    destruct (Hpcb _ _ Hd') as (d & Hd & _ & _ & _ & Hne & Heq).
    rewrite (in_queue_sem _ _ _ _ _ HRep' HA' Hd'), E1 in Hq.
    destruct (decide (x = i)) as [->|Hxi].
    + rewrite Heq in Hq by done. destruct Hk as [Hk|]; [tauto|done].
    + apply Ha; [done|]. apply (inv_placed _ _ _ HI); [done|].
      rewrite (in_queue_sem None s v x d); [|by apply HI|by apply HI|done].
      rewrite <- (Hne Hxi). intros [?|[(b & Hb)|?]]; apply Hq; [tauto| |tauto].
      right. left. exists b. by rewrite (same_procs_ready _ _ b Hsame).
Qed.

Lemma blocked_count_sleep T i c k :
  T !! i = Some c -> p_sem_add c = 0 -> k ≠ 0 ->
  blocked_count (<[i := set_p_sem_add k c]> T) = S (blocked_count T).
Proof.
  intros Hc Hz Hk. pose proof (blocked_count_upd T i c (set_p_sem_add k c) Hc) as Hu.
  simpl in Hu. rewrite Hz, (bool_decide_true (k ≠ 0)) in Hu by done.
  rewrite bool_decide_false in Hu by (by intros []). simpl in Hu. lia.
Qed.

Lemma blocked_count_wake T i c :
  T !! i = Some c -> p_sem_add c ≠ 0 ->
  S (blocked_count (<[i := set_p_sem_add 0 c]> T)) = blocked_count T.
Proof.
  intros Hc Hk. pose proof (blocked_count_upd T i c (set_p_sem_add 0 c) Hc) as Hu.
  rewrite (bool_decide_true (p_sem_add c ≠ 0)) in Hu by done. simpl in Hu. lia.
Qed.

Lemma blocked_count_bound s v : Rep s v -> (blocked_count (pcb_table s) ≤ 20)%nat.
Proof. intros HRep. rewrite blocked_count_le, (lists_pcbs _ _ HRep). done. Qed.

(** [i] goes to sleep on [k]; the counter may be wrong in the meantime. *)
Lemma insert_blocked_inv_at n a s v k i c :
  Inv a s v -> addr_ok k -> pcb_table s !! i = Some c -> p_sem_add c = 0 -> ¬ in_queue v i ->
  ∃ h' T' v',
    let s' := set_links h' (set_semd_table T'
                (set_pcb_table (<[i := set_p_sem_add k c]> (pcb_table s)) (set_softblock_count n s))) in
    let s'' := set_softblock_count (u32 (softblock_count s + 1)) s' in
    insert_blocked k (Some i) (set_softblock_count n s) = Ok 0 s' ∧
    Inv (rem i a) s'' v' ∧ same_procs v v' ∧
    blocked s'' v' = <[k := default [] (blocked s v !! k) ++ [i]]> (blocked s v).
Proof.
  intros HI Hk Hc Hz Hi. cbv zeta. pose proof (inv_rep _ _ _ HI) as HRep.
  assert (Rep (set_softblock_count n s) v) as HRep0 by (by eapply Lists_same).
  assert (Asl (set_softblock_count n s) v) as HA0 by (eapply Asl_ext; eauto with view).
  destruct (insert_blocked_spec (set_softblock_count n s) v k i c HRep0 HA0 Hk Hc Hz Hi)
    as (h' & T' & v' & Hrun & HRep' & HA' & Hsame & Hb).
  exists h', T', v'. split_and!; [exact Hrun | | done | exact Hb].
  eapply (Inv_sem_step a (rem i a) s _ v v' i c k);
    [done | by eapply Lists_same | by eapply Asl_ext; eauto | done | done | done | done | | |].
  - pose proof (blocked_count_bound _ _ HRep) as Hle.
    assert (k ≠ 0) as Hk0 by (destruct Hk; lia). simpl.
    rewrite (blocked_count_sleep _ _ _ _ Hc Hz Hk0), (count_blocked _ _ (inv_counts _ _ _ HI)).
    rewrite u32_small; lia.
  - intros x Hx Ha. by apply elem_of_rem.
  - left. destruct Hk. lia.
Qed.

Lemma set_softblock_count_id s : set_softblock_count (softblock_count s) s = s.
Proof. by destruct s. Qed.

Lemma insert_blocked_inv a s v k i c :
  Inv a s v -> addr_ok k -> pcb_table s !! i = Some c -> p_sem_add c = 0 -> ¬ in_queue v i ->
  ∃ h' T' v',
    let s' := set_links h' (set_semd_table T'
                (set_pcb_table (<[i := set_p_sem_add k c]> (pcb_table s)) s)) in
    let s'' := set_softblock_count (u32 (softblock_count s + 1)) s' in
    insert_blocked k (Some i) s = Ok 0 s' ∧ Inv (rem i a) s'' v' ∧ same_procs v v' ∧
    blocked s'' v' = <[k := default [] (blocked s v !! k) ++ [i]]> (blocked s v).
Proof.
  intros HI Hk Hc Hz Hi.
  destruct (insert_blocked_inv_at (softblock_count s) a s v k i c HI Hk Hc Hz Hi)
    as (h' & T' & v' & H').
  rewrite set_softblock_count_id in H'. by exists h', T', v'.
Qed.

(** [i] wakes up. *)
Lemma out_blocked_inv a s v i c :
  Inv a s v -> pcb_table s !! i = Some c -> p_sem_add c ≠ 0 ->
  ∃ h' v',
    let s' := set_links h' (set_pcb_table (<[i := set_p_sem_add 0 c]> (pcb_table s)) s) in
    let s'' := set_softblock_count (u32 (softblock_count s - 1)) s' in
    out_blocked (Some i) s = Ok (Some i) s' ∧ Inv (i :: a) s'' v' ∧ same_procs v v' ∧
    blocked s'' v' = leave (p_sem_add c) i (blocked s v).
Proof.
  intros HI Hc Hk. cbv zeta. pose proof (inv_rep _ _ _ HI) as HRep.
  destruct (out_blocked_spec s v i c HRep (inv_asl _ _ _ HI) Hc Hk)
    as (h' & v' & Hrun & HRep' & HA' & Hsame & Hb).
  exists h', v'. split_and!; [exact Hrun | | done | exact Hb].
  eapply (Inv_sem_step a (i :: a) s _ v v' i c 0);
    [done | by eapply Lists_same | by eapply Asl_ext; eauto | done | done | done | done | | intros; by right | right; left].
  pose proof (blocked_count_bound _ _ HRep) as Hle.
  pose proof (blocked_count_wake _ _ _ Hc Hk) as Hw. simpl.
  rewrite (count_blocked _ _ (inv_counts _ _ _ HI)). rewrite u32_small; lia.
Qed.

(** The first one that waits on [k] wakes up. *)
Lemma remove_blocked_inv a s v k i l :
  Inv a s v -> addr_ok k -> blocked s v !! k = Some (i :: l) ->
  ∃ c h' v', pcb_table s !! i = Some c ∧ p_sem_add c = k ∧
    let s' := set_links h' (set_pcb_table (<[i := set_p_sem_add 0 c]> (pcb_table s)) s) in
    let s'' := set_softblock_count (u32 (softblock_count s - 1)) s' in
    remove_blocked k s = Ok (Some i) s' ∧ Inv (i :: a) s'' v' ∧ same_procs v v' ∧
    blocked s'' v' = leave k i (blocked s v).
Proof.
  intros HI Hk Hl. pose proof (inv_rep _ _ _ HI) as HRep. pose proof (inv_asl _ _ _ HI) as HA.
  pose proof Hl as (j & Hj & Ht & Hq)%(blocked_lookup _ _ _ HRep HA).
  assert (i ∈ i :: l) as Hi by left.
  assert (i < MAX_PROC)%nat as Hlt by (eapply in_queue_valid; [exact HRep|]; by eapply in_procq).
  destruct (rep_pcb _ _ HRep _ Hlt) as [c Hc].
  pose proof (blocked_sem_add _ _ _ HRep HA _ _ _ _ Hl Hi Hc) as Hsem.
  destruct (out_blocked_inv a s v i c HI Hc) as (h' & v' & Hrun & HI' & Hsame & Hb).
  { rewrite Hsem. destruct Hk. lia. }
  exists c, h', v'. cbv zeta. split_and!; [done|done| |done|done|by rewrite <- Hsem].
  unfold remove_blocked. step_with (head_blocked_spec _ _ _ HRep HA Hk). by rewrite Hl.
Qed.
End sem_steps.

(** ** Birth *)

Section birth.
Context `{Umps}.
Implicit Types (s : kernel) (v : view) (a : list nat) (i j : nat).

(** The PCB [spawn_process] makes out of the [n]-th generation of a slot. *)
Definition fresh_pcb (i : nat) (n prio : Z) (c : pcb_t) : pcb_t :=
  set_p_prio prio (set_p_pid (make_pid (Z.of_nat i) n) (null_pcb_fields c)).

Definition v_spawn (b : bool) (i : nat) (l : list nat) (v : view) : view :=
  set_v_ready b (v_ready b v ++ [i]) (v_alloc i l v).

Lemma free_not_ready s v b i : Rep s v -> i ∈ v_free v -> i ∉ v_ready b v.
Proof. intros. destruct b; [by eapply free_not_hi | by eapply free_not_lo]. Qed.

(** Free PCBs wait on nothing and are nobody's children. *)
Lemma free_unblocked a s v i c :
  Inv a s v -> i ∈ v_free v -> pcb_table s !! i = Some c -> p_sem_add c = 0.
Proof.
  intros HI Hi Hc. destruct (decide (p_sem_add c = 0)) as [|Hne]; [done|].
  destruct (asl_out _ _ _ (inv_asl _ _ _ HI) _ _ Hc Hne) as (j & l & Hq & Hin).
  by destruct (free_not_procq _ _ (inv_rep _ _ _ HI) _ _ _ Hq Hi).
Qed.

Lemma free_no_child a s v i : Inv a s v -> i ∈ v_free v -> ¬ in_children v i.
Proof.
  intros HI Hi (j & l & Hj & Hin).
  by apply (tree_live _ _ (inv_tree _ _ _ HI) _ _ _ Hj Hin).
Qed.

(** A PCB [i] is taken from the head of the free list for the process [d]. *)
Record newborn s s' v b i l (d : pcb_t) : Prop := {
  nb_free : v_free v = i :: l;
  nb_pcb : ∀ x e, pcb_table s' !! x = Some e → x = i ∧ e = d ∨ x ≠ i ∧ pcb_table s !! x = Some e;
  nb_prio : is_true (p_prio d) = b;
  nb_parent : p_parent d = None;
  nb_pid : p_pid d ≠ NULL_PID;
  nb_mask : mask_pid_id (p_pid d) = Z.of_nat i
}.

Lemma spawn_free b i l v : v_free (v_spawn b i l v) = l.
Proof using. unfold v_spawn. by rewrite v_free_set_ready. Qed.

Lemma newborn_not_free s s' v b i l d : Rep s v -> newborn s s' v b i l d -> i ∉ l.
Proof using.
  intros HRep Hn. pose proof (rep_NoDup_free _ _ HRep) as Hnd. rewrite (nb_free _ _ _ _ _ _ _ Hn) in Hnd.
  by apply NoDup_cons in Hnd as [? _].
Qed.

Lemma Pool_spawn s s' v b i l d : Rep s v -> Pool s v -> newborn s s' v b i l d -> Pool s' (v_spawn b i l v).
Proof using.
  intros HRep [P1 P2 P3] Hn. pose proof (newborn_not_free _ _ _ _ _ _ _ HRep Hn) as Hil.
  destruct Hn as [Hf Hpcb Hp _ Hpid Hmask]. assert (i ∈ v_free v) as Hin by (rewrite Hf; left).
  split; rewrite ?spawn_free.
  - intros x e [[-> ->]|[Hne He]]%Hpcb; [split; done|].
    rewrite (P1 _ _ He), Hf, elem_of_cons. tauto.
  - intros x e [[-> ->]|[Hne He]]%Hpcb; [done|]. by apply P2.
  - intros b' x e [[-> ->]|[Hne He]]%Hpcb; unfold v_spawn; rewrite ready_set_ready;
      destruct (Bool.eqb b b') eqn:E; [by apply eqb_prop in E as <- | | |].
    + intros Hx. destruct (free_not_ready _ _ b' _ HRep Hin). by destruct b'.
    + apply eqb_prop in E as <-. intros [Hx|Hx%list_elem_of_singleton]%elem_of_app; [|done].
      by eapply P3.
    + intros Hx. eapply P3; [done|]. by destruct b'.
Qed.

Lemma Tree_spawn s s' v b i l d : Rep s v -> Tree s v -> ¬ in_children v i -> newborn s s' v b i l d ->
  Tree s' (v_spawn b i l v).
Proof using.
  intros HRep [T1 T2 T3 T4 T5 [rank T6]] Hnc Hn. pose proof (newborn_not_free _ _ _ _ _ _ _ HRep Hn) as Hil.
  destruct Hn as [Hf Hpcb _ Hpar _ _]. assert (i ∈ v_free v) as Hin by (rewrite Hf; left).
  assert (v_child (v_spawn b i l v) = <[i := []]> (v_child v)) as Ec
    by (by unfold v_spawn; rewrite v_child_set_ready).
  assert (∀ j q x, <[i := []]> (v_child v) !! j = Some q -> x ∈ q -> j ≠ i ∧ v_child v !! j = Some q) as Hch.
  { intros j q x Hj Hx. destruct (decide (j = i)) as [->|].
    - rewrite lookup_insert_eq in Hj. simplify_eq. by apply elem_of_nil in Hx.
    - by rewrite lookup_insert_ne in Hj. }
  split; rewrite ?spawn_free, ?Ec.
  - intros x Hx Hxl. destruct (decide (x = i)) as [->|]; [by rewrite lookup_insert_eq|].
    rewrite lookup_insert_ne by done. apply T1; [done|]. rewrite Hf. set_solver.
  - intros x Hx. rewrite lookup_insert_ne by (by intros ->). apply T2. rewrite Hf. by right.
  - intros j q x Hj Hx. destruct (Hch j q x Hj Hx) as [_ Hj']. pose proof (T3 _ _ _ Hj' Hx) as Hx'.
    rewrite Hf in Hx'. set_solver.
  - intros j q x e Hj Hx He. destruct (Hch j q x Hj Hx) as [_ Hj'].
    apply Hpcb in He as [[-> ->]|[_ He]]; [|by eapply T4]. destruct Hnc. by exists j, q.
  - intros x e j [[-> ->]|[Hne He]]%Hpcb Hxl Hpar'; [congruence|].
    destruct (T5 x e j He) as (q & Hq & Hx); [rewrite Hf; set_solver|done|].
    exists q. rewrite lookup_insert_ne; [done|]. intros <-.
    specialize (T2 _ Hin). rewrite Hq in T2. simpl in T2. subst. by apply elem_of_nil in Hx.
  - exists rank. intros j q x Hj Hx. destruct (Hch j q x Hj Hx) as [_ Hj']. by eapply T6.
Qed.

Lemma Placed_spawn a v b i l : v_free v = i :: l -> Placed a v -> Placed a (v_spawn b i l v).
Proof using.
  intros Hf HW x Hx Hq. apply HW; [done|]. intros Hq'. apply Hq.
  rewrite in_queue_ready_iff in Hq' |- *. rewrite spawn_free.
  replace (v_procq (v_spawn b i l v)) with (v_procq v) by (by destruct b).
  rewrite Hf in Hq'.
  assert (∀ b0 y, y ∈ v_ready b0 v ∨ b0 = b ∧ y = i → y ∈ v_ready b0 (v_spawn b i l v)) as Hr.
  { intros b0 y Hy. unfold v_spawn. rewrite ready_set_ready. destruct (Bool.eqb b b0) eqn:E.
    - apply eqb_prop in E as <-. set_solver.
    - destruct Hy as [|[-> _]]; [by destruct b0 | by rewrite Bool.eqb_reflx in E]. }
  destruct Hq' as [[->|Hx']%elem_of_cons|[(b0 & Hb0)|]]; [right; left; exists b; auto | tauto
    | right; left; exists b0; auto | tauto].
Qed.

Lemma Inv_spawn a s s' v b i l c d :
  Inv a s v -> v_free v = i :: l -> pcb_table s !! i = Some c -> is_true (p_prio d) = b ->
  Rep s' (v_spawn b i l v) -> pcb_table s' = <[i := d]> (pcb_table s) ->
  semd_table s' = semd_table s -> process_count s' = u32 (process_count s + 1) ->
  softblock_count s' = softblock_count s ->
  p_parent d = None -> p_sem_add d = 0 -> p_pid d ≠ NULL_PID ->
  mask_pid_id (p_pid d) = Z.of_nat i ->
  Inv a s' (v_spawn b i l v).
Proof.
  intros HI Hf Hc Hb HRep' Ep Es Epc Esb Hd1 Hd2 Hd3 Hd4.
  assert (i ∈ v_free v) as Hin by (rewrite Hf; left).
  pose proof (free_unblocked _ _ _ _ _ HI Hin Hc) as Hz.
  pose proof (free_no_child _ _ _ _ HI Hin) as Hnc.
  assert (newborn s s' v b i l d) as Hn.
  { split; try done. intros x e. rewrite Ep. by apply (table_upd _ _ c). }
  destruct HI as [HRep HA HP HT [C1 C2] HW].
  split; [done| |by eapply Pool_spawn|by eapply Tree_spawn| |by eapply Placed_spawn].
  - eapply Asl_ext; [done|done| | by destruct b..].
    intros x e [[-> ->]|[_ He]]%(nb_pcb _ _ _ _ _ _ _ Hn); [exists c; by rewrite Hz | eauto].
  - split; rewrite ?spawn_free.
    + rewrite Epc, C1, Hf. pose proof (free_short _ _ HRep) as Hs. rewrite Hf in Hs.
      unfold MAX_PROC in *. simpl in *. rewrite u32_small by lia. lia.
    + rewrite Esb, C2, Ep. f_equal. pose proof (blocked_count_upd _ i c d Hc) as Hu.
      rewrite Hz, Hd2 in Hu. lia.
Qed.
End birth.

Section spawn.
Context `{Umps}.
Implicit Types (s : kernel) (v : view) (a : list nat) (i j : nat).

Lemma spawn_process_bad_prio s prio :
  prio ≠ 0 -> prio ≠ 1 -> spawn_process prio s = Ok None s.
Proof.
  intros H0 H1. unfold spawn_process.
  by rewrite (proj2 (Z.eqb_neq _ _) H0), (proj2 (Z.eqb_neq _ _) H1).
Qed.

Lemma spawn_process_none a s v prio :
  Inv a s v -> v_free v = [] -> spawn_process prio s = Ok None s.
Proof.
  intros HI Hf. unfold spawn_process. destruct (_ && _); [done|].
  by step_with (alloc_pcb_none _ _ (inv_rep _ _ _ HI) Hf).
Qed.

Lemma spawn_process_spec a s v prio i l :
  Inv a s v -> prio = 0 ∨ prio = 1 -> v_free v = i :: l ->
  ∃ c h', pcb_table s !! i = Some c ∧
    let s' := set_links h' (set_pcb_table (<[i := fresh_pcb i (recycle_count s) prio c]> (pcb_table s))
                (set_recycle_count (u32 (recycle_count s + 1))
                  (set_process_count (u32 (process_count s + 1)) s))) in
    let v' := v_spawn (is_true prio) i l v in
    spawn_process prio s = Ok (Some i) s' ∧ Inv a s' v' ∧ blocked s' v' = blocked s v.
Proof.
  intros HI Hprio Hf. pose proof (inv_rep _ _ _ HI) as HRep.
  assert (i ∈ v_free v) as Hin by (rewrite Hf; left).
  assert (i < MAX_PROC)%nat as Hlt by (by eapply in_queue_valid, in_free).
  destruct (rep_pcb _ _ HRep _ Hlt) as [c Hc].
  destruct (alloc_pcb_spec s v i l c HRep Hf (free_no_child _ _ _ _ HI Hin)
              (tree_free _ _ (inv_tree _ _ _ HI) _ Hin) Hc) as (h1 & Hrun1 & HRep1).
  set (c' := fresh_pcb i (recycle_count s) prio c).
  set (s2 := set_pcb_table (<[i := c']> (pcb_table s)) (set_links h1
               (set_recycle_count (u32 (recycle_count s + 1))
                 (set_process_count (u32 (process_count s + 1)) s)))).
  assert (Rep s2 (v_alloc i l v)) as HRep2.
  { eapply Lists_same; [exact HRep1 | done | simpl; by rewrite !length_insert | done]. }
  destruct (insert_proc_q_spec s2 (v_alloc i l v) i (is_true prio) HRep2 Hlt) as (h3 & Hrun3 & HRep3).
  assert (¬ in_queue (v_alloc i l v) i) as Hnq.
  { pose proof (rep_NoDup_free _ _ HRep) as Hnd. rewrite Hf in Hnd.
    apply NoDup_cons in Hnd as [Hnd _].
    intros [|?|?|j q ? ?]; [done | by eapply (free_not_hi _ _ HRep)
      | by eapply (free_not_lo _ _ HRep) | by eapply (free_not_procq _ _ HRep)]. }
  rewrite (v_enqueue_detached _ _ _ Hnq) in HRep3.
  exists c, h3. cbv zeta. split_and!; [done| | |].
  - unfold spawn_process.
    assert (negb (prio =? 1) && negb (prio =? 0) = false) as -> by (by destruct Hprio; subst).
    step_with Hrun1. rewrite bind_modify. rewrite bind_gets, bind_modify. simpl recycle_count.
    match goal with |- bind (upd_pcb i ?f) _ ?st = _ =>
      rewrite (bind_ok _ _ _ _ _ (upd_pcb_ok st i (null_pcb_fields c) f (table_upd_eq _ _ _ _ Hc))) end.
    simpl pcb_table. rewrite list_insert_insert_eq.
    match goal with |- bind (upd_pcb i ?f) _ ?st = _ =>
      rewrite (bind_ok _ _ _ _ _ (upd_pcb_ok st i _ f (table_upd_eq _ _ _ _ Hc))) end.
    simpl pcb_table. rewrite list_insert_insert_eq.
    unfold enqueue_process. rewrite bind_assoc.
    step_with (pcb_at_ok s2 i c' (table_upd_eq _ _ _ _ Hc)).
    rewrite process_queue_ready. by step_with Hrun3.
  - eapply (Inv_spawn a s _ v _ i l c c'); try done.
    + by apply make_pid_not_null.
    + by apply mask_make_pid.
  - apply blocked_ext; [done | by destruct (is_true prio)..].
Qed.
End spawn.

(** ** Steps on the process tree *)

Section tree_steps.
Implicit Types (s : kernel) (v : view) (a : list nat) (i j : nat).

(** A step that changes the tree, and nothing else. *)
Lemma Inv_tree_step a s s' v ch i c p :
  Inv a s v -> Rep s' (set_v_child ch v) -> pcb_table s !! i = Some c ->
  pcb_table s' = <[i := set_p_parent p c]> (pcb_table s) ->
  semd_table s' = semd_table s -> process_count s' = process_count s ->
  softblock_count s' = softblock_count s ->
  Tree s' (set_v_child ch v) ->
  Inv a s' (set_v_child ch v) ∧ blocked s' (set_v_child ch v) = blocked s v.
Proof.
  intros [HRep HA HP HT [C1 C2] HW] HRep' Hc Ep Es Epc Esb HT'.
  assert (∀ x d', pcb_table s' !! x = Some d' → ∃ d, pcb_table s !! x = Some d ∧
    p_sem_add d' = p_sem_add d ∧ p_pid d' = p_pid d ∧ p_prio d' = p_prio d) as Hpcb.
  { intros x d' Hd'. rewrite Ep in Hd'.
    destruct (table_upd _ _ _ _ _ _ Hc Hd') as [[-> ->]|[_ ?]]; eauto. }
  split; [|by apply blocked_ext]. split; [done| | |done| |].
  - eapply Asl_ext; [done|done| |done..]. intros x d' (d & ? & ? & _)%Hpcb. eauto.
  - eapply Pool_ext; [done | done | by intros [] | ]. intros x d' (d & ? & ? & ?)%Hpcb. eauto.
  - split; [by rewrite Epc|]. rewrite Esb, C2, Ep. f_equal.
    pose proof (blocked_count_upd _ i c (set_p_parent p c) Hc) as Hu. simpl in Hu. lia.
  - intros x Hx Hq. apply HW; [done|]. intros Hq'. apply Hq.
    by destruct Hq'; eauto using in_queue.
Qed.

(** Becoming the last child of [j]. *)
Lemma Tree_adopt a s s' v j i c l :
  Inv a s v -> pcb_table s !! i = Some c -> v_child v !! j = Some l ->
  v_child v !! i = Some [] -> i ∉ v_free v -> j ∉ v_free v -> i ≠ j ->
  p_parent c = None ->
  pcb_table s' = <[i := set_p_parent (Some j) c]> (pcb_table s) ->
  Tree s' (set_v_child (<[j := l ++ [i]]> (v_child v)) v).
Proof.
  intros HI Hc Hj Hi Hif Hjf Hne Hpar Ep.
  destruct (inv_tree _ _ _ HI) as [T1 T2 T3 T4 T5 [rank T6]].
  assert (¬ in_children v i) as Hnc.
  { intros (y & q & Hq & Hin). specialize (T4 _ _ _ _ Hq Hin Hc). congruence. }
  assert (∀ y q x, <[j := l ++ [i]]> (v_child v) !! y = Some q → x ∈ q →
            x = i ∧ y = j ∨ x ≠ i ∧ ∃ q', v_child v !! y = Some q' ∧ x ∈ q') as Hch.
  { intros y q x Hq Hx. destruct (decide (y = j)) as [->|Hy].
    - rewrite lookup_insert_eq in Hq. simplify_eq.
      apply elem_of_app in Hx as [Hx|Hx%list_elem_of_singleton]; [|by left].
      right. split; [|by exists l]. intros ->. apply Hnc. by exists j, l.
    - rewrite lookup_insert_ne in Hq by done. right. split; [|by exists q].
      intros ->. apply Hnc. by exists y, q. }
  split; simpl.
  - intros x Hx Hxf. destruct (decide (x = j)) as [->|]; [by rewrite lookup_insert_eq|].
    rewrite lookup_insert_ne by done. by apply T1.
  - intros x Hx. rewrite lookup_insert_ne by (by intros ->). by apply T2.
  - intros y q x Hq Hx. destruct (Hch _ _ _ Hq Hx) as [[-> ->]|(_ & q' & ? & ?)]; [done|by eapply T3].
  - intros y q x d Hq Hx Hd. rewrite Ep in Hd.
    destruct (Hch _ _ _ Hq Hx) as [[-> ->]|(Hxi & q' & ? & ?)].
    + rewrite (table_upd_eq _ _ _ _ Hc) in Hd. by simplify_eq.
    + rewrite list_lookup_insert_ne in Hd by done. by eapply T4.
  - intros x d y Hd Hxf Hp. rewrite Ep in Hd.
    destruct (table_upd _ _ _ _ _ _ Hc Hd) as [[-> ->]|[Hxi Hd']].
    + simpl in Hp. simplify_eq. exists (l ++ [i]). rewrite lookup_insert_eq. set_solver.
    + destruct (T5 _ _ _ Hd' Hxf Hp) as (q & Hq & Hx). destruct (decide (y = j)) as [->|].
      * exists (l ++ [i]). rewrite lookup_insert_eq. simplify_eq. set_solver.
      * exists q. by rewrite lookup_insert_ne.
  - exists (fun x => if decide (x = i) then O else S (rank x)). intros y q x Hq Hx.
    destruct (Hch _ _ _ Hq Hx) as [[-> ->]|(Hxi & q' & Hq' & Hx')].
    + rewrite decide_True, decide_False by done. lia.
    + assert (y ≠ i) by (intros ->; rewrite Hi in Hq'; simplify_eq; by apply elem_of_nil in Hx').
      rewrite !decide_False by done. specialize (T6 _ _ _ Hq' Hx'). lia.
Qed.

(** Leaving the parent. *)
Lemma Tree_orphan a s s' v j i c l :
  Inv a s v -> pcb_table s !! i = Some c -> v_child v !! j = Some l -> i ∈ l ->
  pcb_table s' = <[i := set_p_parent None c]> (pcb_table s) ->
  Tree s' (set_v_child (<[j := rem i l]> (v_child v)) v).
Proof.
  intros HI Hc Hj Hi Ep. pose proof (inv_rep _ _ _ HI) as HRep.
  destruct (inv_tree _ _ _ HI) as [T1 T2 T3 T4 T5 [rank T6]].
  assert (∀ y q x, <[j := rem i l]> (v_child v) !! y = Some q → x ∈ q →
            x ≠ i ∧ ∃ q', v_child v !! y = Some q' ∧ x ∈ q') as Hch.
  { intros y q x Hq Hx. destruct (decide (y = j)) as [->|Hy].
    - rewrite lookup_insert_eq in Hq. simplify_eq. apply elem_of_rem in Hx as [? ?]. eauto.
    - rewrite lookup_insert_ne in Hq by done. split; [|by exists q].
      intros ->. destruct Hy. by eapply (parent_unique _ _ HRep). }
  split; simpl.
  - intros x Hx Hxf. destruct (decide (x = j)) as [->|]; [by rewrite lookup_insert_eq|].
    rewrite lookup_insert_ne by done. by apply T1.
  - intros x Hx. destruct (decide (x = j)) as [->|]; [|rewrite lookup_insert_ne by done; by apply T2].
    rewrite lookup_insert_eq. simpl. specialize (T2 _ Hx). rewrite Hj in T2. simpl in T2. by subst.
  - intros y q x Hq Hx. destruct (Hch _ _ _ Hq Hx) as (_ & q' & ? & ?). by eapply T3.
  - intros y q x d Hq Hx Hd. destruct (Hch _ _ _ Hq Hx) as (Hxi & q' & ? & ?).
    rewrite Ep, list_lookup_insert_ne in Hd by done. by eapply T4.
  - intros x d y Hd Hxf Hp. rewrite Ep in Hd.
    destruct (table_upd _ _ _ _ _ _ Hc Hd) as [[-> ->]|[Hxi Hd']]; [done|].
    destruct (T5 _ _ _ Hd' Hxf Hp) as (q & Hq & Hx). destruct (decide (y = j)) as [->|].
    + exists (rem i l). rewrite lookup_insert_eq. simplify_eq. split; [done|]. by apply elem_of_rem.
    + exists q. by rewrite lookup_insert_ne.
  - exists rank. intros y q x Hq Hx. destruct (Hch _ _ _ Hq Hx) as (_ & q' & ? & ?). by eapply T6.
Qed.

Lemma insert_child_inv a s v j i c l :
  Inv a s v -> pcb_table s !! i = Some c -> v_child v !! j = Some l ->
  v_child v !! i = Some [] -> i ∉ v_free v -> j ∉ v_free v -> i ≠ j -> p_parent c = None ->
  ∃ h', let s' := set_links h' (set_pcb_table (<[i := set_p_parent (Some j) c]> (pcb_table s)) s) in
    insert_child (Some j) (Some i) s = Ok tt s' ∧
    Inv a s' (set_v_child (<[j := l ++ [i]]> (v_child v)) v) ∧
    blocked s' (set_v_child (<[j := l ++ [i]]> (v_child v)) v) = blocked s v.
Proof.
  intros HI Hc Hj Hi Hif Hjf Hne Hpar. pose proof (inv_rep _ _ _ HI) as HRep.
  destruct (insert_child_spec s v j l i c HRep Hj Hc Hpar) as (h' & Hrun & HRep').
  { intros (y & q & Hq & Hin). pose proof (tree_up _ _ (inv_tree _ _ _ HI) _ _ _ _ Hq Hin Hc).
    congruence. }
  exists h'. split; [done|]. unfold v_adopt in HRep'. rewrite Hj in HRep'.
  eapply Inv_tree_step; try done. by eapply Tree_adopt.
Qed.

Lemma out_child_inv a s v j i c l :
  Inv a s v -> pcb_table s !! i = Some c -> v_child v !! j = Some l -> i ∈ l ->
  ∃ h', let s' := set_links h' (set_pcb_table (<[i := set_p_parent None c]> (pcb_table s)) s) in
    out_child (Some i) s = Ok (Some i) s' ∧
    Inv a s' (set_v_child (<[j := rem i l]> (v_child v)) v) ∧
    blocked s' (set_v_child (<[j := rem i l]> (v_child v)) v) = blocked s v.
Proof.
  intros HI Hc Hj Hi. pose proof (inv_rep _ _ _ HI) as HRep.
  pose proof (tree_up _ _ (inv_tree _ _ _ HI) _ _ _ _ Hj Hi Hc) as Hpar.
  destruct (out_child_spec s v j l i c HRep Hj Hi Hc Hpar) as (h' & Hrun & HRep').
  exists h'. split; [done|]. unfold v_orphan in HRep'. rewrite Hj in HRep'.
  eapply Inv_tree_step; try done. by eapply Tree_orphan.
Qed.

Lemma remove_child_inv a s v j i c l :
  Inv a s v -> pcb_table s !! i = Some c -> v_child v !! j = Some (i :: l) ->
  ∃ h', let s' := set_links h' (set_pcb_table (<[i := set_p_parent None c]> (pcb_table s)) s) in
    remove_child (Some j) s = Ok (Some i) s' ∧
    Inv a s' (set_v_child (<[j := l]> (v_child v)) v) ∧
    blocked s' (set_v_child (<[j := l]> (v_child v)) v) = blocked s v.
Proof.
  intros HI Hc Hj. pose proof (inv_rep _ _ _ HI) as HRep.
  assert (i ∈ i :: l) as Hi by left.
  pose proof (tree_up _ _ (inv_tree _ _ _ HI) _ _ _ _ Hj Hi Hc) as Hpar.
  destruct (remove_child_spec s v j i l c HRep Hj Hc Hpar) as (h' & Hrun & HRep').
  exists h'. split; [done|]. eapply Inv_tree_step; try done.
  pose proof (rep_NoDup_child _ _ HRep _ _ Hj) as Hnd.
  rewrite <- (rem_head i l Hnd). by eapply Tree_orphan.
Qed.
End tree_steps.

(** ** Finding a process *)

Section find.
Implicit Types (s : kernel) (v : view) (a : list nat) (i : nat).

Lemma find_process_spec a s v pid :
  Inv a s v ->
  ∃ r, find_process pid s = Ok r s ∧
    ∀ i, r = Some i ↔ pid ≠ NULL_PID ∧ ∃ c, pcb_table s !! i = Some c ∧ p_pid c = pid.
Proof.
  intros HI. pose proof (inv_rep _ _ _ HI) as HRep.
  pose proof (pool_find _ _ (inv_pool _ _ _ HI)) as Hfind.
  assert (∀ i c, pcb_table s !! i = Some c → (i < MAX_PROC)%nat) as Hlt.
  { intros i c Hc. rewrite <- (lists_pcbs _ _ HRep). by eapply lookup_lt_Some. }
  assert (0 <= mask_pid_id pid) as Hpos.
  { unfold mask_pid_id. apply Z.land_nonneg. left. apply u32_range. }
  unfold find_process. rewrite (proj2 (Z.ltb_ge _ _)) by done. cbn [orb].
  destruct (Z.leb_spec (Z.of_nat MAX_PROC) (mask_pid_id pid)) as [Hge|Hless].
  - exists None. split; [done|]. intros i. split; [done|]. intros [Hne (c & Hc & Hp)]. exfalso.
    specialize (Hlt _ _ Hc). rewrite <- Hp, (Hfind _ _ Hc) in Hge by congruence. lia.
  - set (x := Z.to_nat (mask_pid_id pid)).
    destruct (rep_pcb _ _ HRep x) as [c Hc]; [unfold x; lia|].
    step_with (pcb_at_ok _ _ _ Hc). destruct (Z.eqb_spec (p_pid c) pid) as [Hp|Hp]; cbn [negb].
    + exists (Some x). split; [done|]. intros i. split.
      * intros [= <-]. split; [|by exists c]. intros E. rewrite E in Hless.
        change (mask_pid_id NULL_PID) with 31 in Hless. unfold MAX_PROC in Hless. lia.
      * intros [Hne (d & Hd & Hpd)]. f_equal. unfold x. rewrite <- Hpd, (Hfind _ _ Hd) by congruence.
        lia.
    + exists None. split; [done|]. intros i. split; [done|]. intros [Hne (d & Hd & Hpd)]. exfalso.
      assert (x = i) as <-.
      { unfold x. rewrite <- Hpd, (Hfind _ _ Hd) by congruence. lia. }
      congruence.
Qed.
End find.
