(* ===== verification/Process.v ===== *)
(** * The death of processes: [kill_process] and [kill_progeny]

    [kill_process] removes one process from its parent, from whatever queue it
    is on and from the counters, and gives its PCB back.  [kill_progeny] does
    so for a whole subtree of the process tree, children first: the theorems
    say that it terminates, that it kills the descendants of its argument and
    nobody else, in post-order, and that it preserves the invariant. *)

From Stdlib Require Import ZArith Lia String.
From stdpp Require Import base tactics option numbers gmap list relations.
From S2P Require Import Prelude ListHead Machine Kernel View Pcb Asl Scheduler Invariant.

Open Scope string_scope.
Open Scope list_scope.
Open Scope Z_scope.

(** ** What the operations on processes leave alone *)

Definition frame (s s' : kernel) : Prop :=
  ∃ h T D n b lg, s' = set_links h (set_pcb_table T (set_semd_table D
    (set_process_count n (set_softblock_count b (set_klog lg s))))).

#[export] Instance frame_preorder : PreOrder frame.
Proof.
  split.
  - intros s. exists (links s), (pcb_table s), (semd_table s), (process_count s),
      (softblock_count s), (klog s). by destruct s.
  - intros s1 s2 s3 (h2 & T2 & D2 & n2 & b2 & l2 & ->) (h3 & T3 & D3 & n3 & b3 & l3 & ->).
    by exists h3, T3, D3, n3, b3, l3.
Qed.

(** ** Removing processes from queues *)

Definition rem_all (ds l : list nat) : list nat := filter (fun x => x ∉ ds) l.

(** The waiting processes without the dead ones. *)
Definition purge (ds : list nat) (m : gmap Z (list nat)) : gmap Z (list nat) :=
  omap (fun l => match rem_all ds l with [] => None | l' => Some l' end) m.

Section rem_all.
Implicit Types (ds l : list nat) (m : gmap Z (list nat)).

Lemma elem_of_rem_all ds l x : x ∈ rem_all ds l ↔ x ∉ ds ∧ x ∈ l.
Proof. unfold rem_all. by rewrite list_elem_of_filter. Qed.

Lemma rem_all_id ds l : (∀ x, x ∈ l → x ∉ ds) -> rem_all ds l = l.
Proof.
  intros Hl. unfold rem_all. induction l as [|x l IH]; [done|].
  rewrite filter_cons_True by (apply Hl; left). f_equal. apply IH. intros. apply Hl. by right.
Qed.

Lemma rem_all_nil l : rem_all [] l = l.
Proof. apply rem_all_id. by intros x _ ?%elem_of_nil. Qed.

Lemma rem_all_app ds1 ds2 l : rem_all (ds1 ++ ds2) l = rem_all ds2 (rem_all ds1 l).
Proof.
  unfold rem_all. rewrite list_filter_filter. apply list_filter_iff. intros x.
  rewrite elem_of_app. tauto.
Qed.

Lemma rem_all_one i l : rem_all [i] l = rem i l.
Proof.
  unfold rem_all, rem. apply list_filter_iff. intros x. by rewrite list_elem_of_singleton.
Qed.

Lemma purge_lookup ds m k :
  purge ds m !! k = m !! k ≫= fun l => match rem_all ds l with [] => None | l' => Some l' end.
Proof. unfold purge. by rewrite lookup_omap. Qed.

Lemma purge_nil m : (∀ k l, m !! k = Some l → l ≠ []) -> purge [] m = m.
Proof.
  intros Hm. apply map_eq. intros k. rewrite purge_lookup.
  destruct (m !! k) as [l|] eqn:E; simpl; [|done]. rewrite rem_all_nil.
  by destruct l; [destruct (Hm _ _ E)|].
Qed.

Lemma purge_app ds1 ds2 m : purge (ds1 ++ ds2) m = purge ds2 (purge ds1 m).
Proof.
  apply map_eq. intros k. rewrite !purge_lookup.
  destruct (m !! k) as [l|]; simpl; [|done]. rewrite rem_all_app.
  by destruct (rem_all ds1 l).
Qed.

(** Leaving one semaphore is leaving all of them. *)
Lemma leave_purge k i m :
  (∀ k' l, m !! k' = Some l → l ≠ [] ∧ (i ∈ l → k' = k)) -> is_Some (m !! k) ->
  leave k i m = purge [i] m.
Proof.
  intros Hm [l Hl]. apply map_eq. intros k'. rewrite purge_lookup. unfold leave. rewrite Hl.
  simpl default. rewrite <- (rem_all_one i l). destruct (decide (k' = k)) as [->|Hne].
  - rewrite Hl. simpl. destruct (rem_all [i] l) eqn:E.
    + by rewrite lookup_delete_eq.
    + by rewrite lookup_insert_eq.
  - assert ((match rem_all [i] l with [] => delete k m | l' => <[k := l']> m end) !! k' = m !! k') as ->.
    { destruct (rem_all [i] l); [by rewrite lookup_delete_ne | by rewrite lookup_insert_ne]. }
    destruct (m !! k') as [l'|] eqn:E; [|done]. simpl. destruct (Hm _ _ E) as [Hnil Hi].
    rewrite rem_all_one, rem_id by (intros ?; by apply Hne, Hi). by destruct l'.
Qed.
End rem_all.

(** ** [kill_process] *)

Section kill_process.
Implicit Types (s : kernel) (v : view) (a : list nat) (i j : nat).

(** The PCB that [kill_process] gives back. *)
Definition dead_pcb (c : pcb_t) : pcb_t :=
  set_p_pid NULL_PID (set_p_sem_add 0 (set_p_parent None c)).

Definition kill_softblock (c : pcb_t) (n : Z) : Z :=
  if p_sem_add c =? 0 then n else u32 (n - 1).

Lemma set_p_sem_add_id c k : p_sem_add c = k -> set_p_sem_add k c = c.
Proof. intros <-. by destruct c. Qed.
Lemma set_p_parent_id c p : p_parent c = p -> set_p_parent p c = c.
Proof. intros <-. by destruct c. Qed.

Lemma kernel_id s :
  set_links (links s) (set_pcb_table (pcb_table s)
    (set_softblock_count (softblock_count s) s)) = s.
Proof. by destruct s. Qed.

Lemma blocked_purge_none s v i c :
  Rep s v -> Asl s v -> pcb_table s !! i = Some c -> p_sem_add c = 0 ->
  purge [i] (blocked s v) = blocked s v.
Proof.
  intros HRep HA Hc Hz. apply map_eq. intros k. rewrite purge_lookup.
  destruct (blocked s v !! k) as [l|] eqn:E; simpl; [|done]. rewrite rem_all_one, rem_id.
  - destruct (blocked_nonempty _ _ _ HRep HA _ _ eq_refl E). by destruct l.
  - intros Hi. pose proof (blocked_sem_add _ _ _ HRep HA _ _ _ _ E Hi Hc) as Hk.
    destruct (blocked_nonempty _ _ _ HRep HA _ _ eq_refl E) as [_ [? _]]. lia.
Qed.

(** What holds after [i] has been taken off its queue. *)
Definition unlinked (i : nat) (c : pcb_t) (s : kernel) (v : view) (h : gmap lh (list_head lh))
    (v' : view) : Prop :=
  let s' := set_links h (set_pcb_table (<[i := set_p_sem_add 0 c]> (pcb_table s))
              (set_softblock_count (kill_softblock c (softblock_count s)) s)) in
  Rep s' v' ∧ Asl s' v' ∧ v_free v' = v_free v ∧ v_child v' = v_child v ∧
  (∀ b, v_ready b v' = rem i (v_ready b v)) ∧ ¬ in_queue v' i ∧
  blocked s' v' = purge [i] (blocked s v).

(** The part of [kill_process] that unlinks the process. *)
Definition kill_unlink (i : nat) : KM unit :=
  alone <- on_links (list_null (L_p_list i)) ;;
  when negb alone do
    (c <- pcb_at i ;;
     out <- (if negb (p_sem_add c =? 0) then out_blocked (Some i) else ret None) ;;
     if bool_decide (out = Some i)
     then modify (fun s => set_softblock_count (u32 (softblock_count s - 1)) s)
     else dequeue_process (Some i) ;; ret tt).

Lemma kill_unlink_blocked s v i c :
  Rep s v -> Asl s v -> pcb_table s !! i = Some c -> p_sem_add c ≠ 0 ->
  ∃ h v', kill_unlink i s =
      Ok tt (set_links h (set_pcb_table (<[i := set_p_sem_add 0 c]> (pcb_table s))
              (set_softblock_count (kill_softblock c (softblock_count s)) s))) ∧
    unlinked i c s v h v'.
Proof.
  intros HRep HA Hc Hne. unfold unlinked, kill_softblock.
  rewrite (proj2 (Z.eqb_neq _ _) Hne).
  destruct (asl_out _ _ _ HA _ _ Hc Hne) as (j & l & Hq & Hi).
  destruct (out_blocked_spec s v i c HRep HA Hc Hne) as (h & v' & Hrun & HRep' & HA' & Hsame & Hb).
  pose proof Hsame as (E1 & E2 & E3 & E4).
  exists h, v'. cbv zeta. split_and!.
  - unfold kill_unlink.
    step_with (rep_null_member _ _ HRep (L_s_procq j) (p_lists l) (L_p_list i)
                 (procq_flat _ _ _ Hq) ltac:(right; by apply elem_of_wrap)).
    change (negb false) with true. cbv iota. step_with (pcb_at_ok _ _ _ Hc).
    rewrite (proj2 (Z.eqb_neq _ _) Hne). change (negb false) with true. cbv iota.
    step_with Hrun. by rewrite bool_decide_true by done.
  - by eapply Lists_same.
  - eapply Asl_ext; eauto.
  - done.
  - done.
  - intros b. rewrite (same_procs_ready _ _ b Hsame), rem_id; [done|]. intros Hr.
    destruct b; [by eapply (hi_not_procq _ _ HRep) | by eapply (lo_not_procq _ _ HRep)].
  - rewrite (in_queue_sem _ _ _ _ _ HRep' HA' (table_upd_eq _ _ _ _ Hc)).
    intros [Hr|[(b & Hr)|Hr]]; [|destruct b; simpl in Hr|done]; rewrite ?E1, ?E2, ?E3 in Hr;
      [by eapply (free_not_procq _ _ HRep)|by eapply (hi_not_procq _ _ HRep)
      |by eapply (lo_not_procq _ _ HRep)].
  - etrans; [exact Hb|]. destruct (blocked_where _ _ _ HRep HA _ _ Hc Hne) as (l' & Hl' & Hi').
    apply leave_purge; [|by exists l']. intros k q Hkq.
    split; [by destruct (blocked_nonempty _ _ _ HRep HA _ _ eq_refl Hkq)|].
    intros Hiq. symmetry. by eapply (blocked_sem_add _ _ _ HRep HA).
Qed.

Lemma kill_unlink_ready s v i c :
  Rep s v -> Asl s v -> pcb_table s !! i = Some c -> p_sem_add c = 0 ->
  i ∈ v_ready (is_true (p_prio c)) v ->
  ∃ h v', kill_unlink i s =
      Ok tt (set_links h (set_pcb_table (<[i := set_p_sem_add 0 c]> (pcb_table s))
              (set_softblock_count (kill_softblock c (softblock_count s)) s))) ∧
    unlinked i c s v h v'.
Proof.
  intros HRep HA Hc Hz Hi. unfold unlinked, kill_softblock. rewrite Hz, (set_p_sem_add_id _ _ Hz).
  rewrite list_insert_id by done. set (b := is_true (p_prio c)) in *.
  destruct (out_proc_q_spec s v b i HRep Hi) as (h & Hrun & HRep').
  assert (set_links h (set_pcb_table (pcb_table s) (set_softblock_count (softblock_count s) s))
          = set_links h s) as Es by (by destruct s).
  exists h, (set_v_ready b (rem i (v_ready b v)) v). cbv zeta. simpl Z.eqb. cbv iota. rewrite Es.
  assert (Asl (set_links h s) (set_v_ready b (rem i (v_ready b v)) v)) as HA'.
  { eapply Asl_ext; eauto; by destruct b. }
  split_and!; try done.
  - unfold kill_unlink.
    step_with (rep_null_member _ _ HRep (ready b) (p_lists (v_ready b v)) (L_p_list i)
                 (flat_ready b v) ltac:(right; by apply elem_of_wrap)).
    change (negb false) with true. cbv iota. step_with (pcb_at_ok _ _ _ Hc).
    rewrite Hz. change (negb (0 =? 0)) with false. cbv iota. rewrite bind_ret_l.
    rewrite bool_decide_false by done. unfold dequeue_process. rewrite bind_assoc.
    step_with (pcb_at_ok _ _ _ Hc). rewrite process_queue_ready. by step_with Hrun.
  - by rewrite v_free_set_ready.
  - by rewrite v_child_set_ready.
  - intros b'. rewrite ready_set_ready. destruct (Bool.eqb b b') eqn:E.
    + by apply eqb_prop in E as <-.
    + symmetry. apply rem_id. intros Hb. destruct b, b'; try done;
        [by eapply (hi_not_lo _ _ HRep) | by eapply (hi_not_lo _ _ HRep)].
  - rewrite (in_queue_sem _ _ _ i c HRep' HA') by done. rewrite v_free_set_ready.
    intros [Hf|[(b' & Hb)|Hn]]; [by apply (free_not_ready _ _ b _ HRep Hf)| |done].
    rewrite ready_set_ready in Hb. destruct (Bool.eqb b b') eqn:E.
    + by apply elem_of_rem in Hb as [? _].
    + destruct b, b'; try done; [by eapply (hi_not_lo _ _ HRep) | by eapply (hi_not_lo _ _ HRep)].
  - rewrite (blocked_purge_none _ _ _ _ HRep HA Hc Hz). by apply blocked_ext; destruct b.
Qed.

Lemma kill_unlink_detached s v i c :
  Rep s v -> Asl s v -> pcb_table s !! i = Some c -> p_sem_add c = 0 -> ¬ in_queue v i ->
  ∃ h v', kill_unlink i s =
      Ok tt (set_links h (set_pcb_table (<[i := set_p_sem_add 0 c]> (pcb_table s))
              (set_softblock_count (kill_softblock c (softblock_count s)) s))) ∧
    unlinked i c s v h v'.
Proof.
  intros HRep HA Hc Hz Hq. unfold unlinked, kill_softblock. rewrite Hz, (set_p_sem_add_id _ _ Hz).
  rewrite list_insert_id by done. simpl Z.eqb. cbv iota.
  exists (links s), v. cbv zeta. rewrite kernel_id. split_and!; try done.
  - unfold kill_unlink. assert (i < MAX_PROC)%nat as Hlt.
    { rewrite <- (lists_pcbs _ _ HRep). by eapply lookup_lt_Some. }
    by step_with (rep_null_detached _ _ HRep (L_p_list i) (proj2 (detached_p_list v i) Hq) Hlt).
  - intros b. symmetry. apply rem_id. intros Hb. apply Hq. by eapply in_ready.
  - by rewrite (blocked_purge_none _ _ _ _ HRep HA Hc Hz).
Qed.

Lemma kill_unlink_spec s v i c :
  Rep s v -> Asl s v -> pcb_table s !! i = Some c -> i ∉ v_free v ->
  (∀ b, i ∈ v_ready b v → is_true (p_prio c) = b) ->
  ∃ h v', kill_unlink i s =
      Ok tt (set_links h (set_pcb_table (<[i := set_p_sem_add 0 c]> (pcb_table s))
              (set_softblock_count (kill_softblock c (softblock_count s)) s))) ∧
    unlinked i c s v h v'.
Proof.
  intros HRep HA Hc Hf Hprio.
  destruct (decide (p_sem_add c = 0)) as [Hz|Hne]; [|by apply kill_unlink_blocked].
  destruct (decide (i ∈ v_ready (is_true (p_prio c)) v)) as [Hr|Hr]; [by apply kill_unlink_ready|].
  apply kill_unlink_detached; try done.
  rewrite (in_queue_sem _ _ _ _ _ HRep HA Hc). intros [|[(b & Hb)|]]; [done| |done].
  pose proof (Hprio _ Hb). by subst b.
Qed.
End kill_process.

Section kill_process_spec.
Implicit Types (s : kernel) (v : view) (a : list nat) (i j : nat).

Lemma live_count s v i : Rep s v -> (i < MAX_PROC)%nat -> i ∉ v_free v ->
  (S (length (v_free v)) ≤ MAX_PROC)%nat.
Proof.
  intros HRep Hi Hf. apply (valid_length (i :: v_free v)).
  - apply NoDup_cons. split; [done|]. by eapply rep_NoDup_free.
  - intros x [->|Hx]%elem_of_cons; [done|]. by eapply in_queue_valid, in_free.
Qed.

(** A dead process's PCB back in the pool. *)
Lemma Inv_kill a s s' v v' i c :
  Inv a s v -> pcb_table s !! i = Some c -> i ∉ v_free v -> v_child v !! i = Some [] ->
  p_parent c = None -> Rep s' v' -> Asl s' v' ->
  v_free v' = i :: v_free v -> v_child v' = v_child v ->
  (∀ b, v_ready b v' = rem i (v_ready b v)) ->
  pcb_table s' = <[i := dead_pcb c]> (pcb_table s) ->
  process_count s' = u32 (process_count s - 1) ->
  softblock_count s' = kill_softblock c (softblock_count s) ->
  Inv a s' v'.
Proof.
  intros HI Hc Hf Hch Hpar HRep' HA' Ef Ec Er Ep Epc Esb.
  destruct HI as [HRep HA [P1 P2 P3] [T1 T2 T3 T4 T5 [rank T6]] [C1 C2] HW].
  assert (i < MAX_PROC)%nat as Hlt by (rewrite <- (lists_pcbs _ _ HRep); by eapply lookup_lt_Some).
  assert (¬ in_children v i) as Hnc.
  { intros (y & q & Hq & Hin). specialize (T4 _ _ _ _ Hq Hin Hc). congruence. }
  assert (∀ x d, pcb_table s' !! x = Some d → x = i ∧ d = dead_pcb c ∨ x ≠ i ∧ pcb_table s !! x = Some d)
    as Hpcb by (intros x d; rewrite Ep; by apply (table_upd _ _ c)).
  split; [done|done| | | |].
  - split; rewrite ?Ef.
    + intros x d [[-> ->]|[Hne Hd]]%Hpcb; [split; [left|done]|].
      rewrite (P1 _ _ Hd), elem_of_cons. tauto.
    + intros x d [[-> ->]|[Hne Hd]]%Hpcb; [done|by apply P2].
    + intros b x d Hd. rewrite Er, elem_of_rem. intros [Hne Hx].
      apply Hpcb in Hd as [[-> _]|[_ Hd]]; [done|by eapply P3].
  - split; rewrite ?Ef, ?Ec.
    + intros x Hx Hxf. apply T1; [done|]. set_solver.
    + intros x [->|Hx]%elem_of_cons; [by rewrite Hch|by apply T2].
    + intros j l x Hj Hx [->|Hxf]%elem_of_cons; [apply Hnc; by exists j, l|by eapply T3].
    + intros j l x d Hj Hx Hd. apply Hpcb in Hd as [[-> _]|[_ Hd]]; [|by eapply T4].
      destruct Hnc. by exists j, l.
    + intros x d j Hd Hxf Hp. apply Hpcb in Hd as [[-> ->]|[_ Hd]]; [done|].
      apply (T5 x d j); [done|set_solver|done].
    + by exists rank.
  - pose proof (live_count _ _ _ HRep Hlt Hf) as Hlive. split; rewrite ?Ef.
    + rewrite Epc, C1. simpl length. unfold MAX_PROC in *. rewrite u32_small by lia. lia.
    + rewrite Esb, C2, Ep. unfold kill_softblock. destruct (Z.eqb_spec (p_sem_add c) 0) as [Hz|Hne].
      * pose proof (blocked_count_upd _ i c (dead_pcb c) Hc) as Hu. rewrite Hz in Hu. simpl in Hu. lia.
      * pose proof (blocked_count_upd _ i c (dead_pcb c) Hc) as Hu.
        rewrite (bool_decide_true (p_sem_add c ≠ 0)) in Hu by done. simpl in Hu.
        pose proof (blocked_count_bound _ _ HRep). rewrite u32_small by lia. lia.
  - intros x Hx Hq. apply HW; [done|]. intros Hq'. apply Hq.
    destruct (rep_pcb _ _ HRep' _ Hx) as [d Hd]. rewrite (in_queue_sem _ _ _ _ _ HRep' HA' Hd), Ef.
    apply Hpcb in Hd as [[-> ->]|[Hne Hd]]; [left; left|].
    rewrite (in_queue_sem _ _ _ _ _ HRep HA Hd) in Hq'.
    destruct Hq' as [|[(b & Hb)|]]; [left; by right| |tauto]. right. left. exists b.
    rewrite Er. by apply elem_of_rem.
Qed.

(** What [kill_process] and [kill_progeny] do: the processes [ds] are dead. *)
Record killed (ds : list nat) (s s' : kernel) (v v' : view) : Prop := {
  kd_frame : frame s s';
  kd_free : v_free v' = reverse ds ++ v_free v;
  kd_ready : ∀ b, v_ready b v' = rem_all ds (v_ready b v);
  kd_blocked : blocked s' v' = purge ds (blocked s v);
  kd_pcb : ∀ x, x ∉ ds → pcb_table s' !! x = pcb_table s !! x;
  kd_child : ∀ x, x ∉ ds → v_child v' !! x = rem_all ds <$> v_child v !! x;
  kd_semd : semd_table s' = semd_table s;
}.

Lemma kill_process_eq i s :
  kill_process (Some i) s =
  (c <- pcb_at i ;;
   removed <- match p_parent c with None => ret (Some i) | Some _ => out_child (Some i) end ;;
   if negb (bool_decide (removed = Some i)) then ret 2
   else
     kprintf "kill proc\n" [] ;;
     modify (fun s => set_process_count (u32 (process_count s - 1)) s) ;;
     kill_unlink i ;; free_pcb (Some i) ;; ret 0) s.
Proof.
  unfold kill_process. apply bind_ext. intros c s1. apply bind_ext. intros r s2.
  destruct (negb _); [done|]. apply bind_ext. intros [] s3. apply bind_ext. intros [] s4.
  unfold kill_unlink. by rewrite bind_assoc.
Qed.

(** The rest of [kill_process], for a process without a parent. *)
Lemma kill_tail_inv a s v i c :
  Inv a s v -> pcb_table s !! i = Some c -> i ∉ v_free v -> v_child v !! i = Some [] ->
  p_parent c = None ->
  ∃ s' v',
    (kprintf "kill proc\n" [] ;;
     modify (fun s => set_process_count (u32 (process_count s - 1)) s) ;;
     kill_unlink i ;; free_pcb (Some i) ;; ret 0) s = Ok 0 s' ∧
    Inv a s' v' ∧ killed [i] s s' v v'.
Proof.
  intros HI Hc Hf Hch Hpar. pose proof HI as [HRep HA HP HT HC HW].
  set (s1 := set_process_count (u32 (process_count s - 1)) (set_klog (("kill proc\n", []) :: klog s) s)).
  assert (Rep s1 v) as HRep1 by (by eapply Lists_same).
  assert (Asl s1 v) as HA1 by (by eapply Asl_ext; eauto).
  destruct (kill_unlink_spec s1 v i c HRep1 HA1 Hc Hf) as (h2 & v2 & Hrun2 & Hu).
  { intros b. by apply (pool_ready _ _ HP). }
  destruct Hu as (HRep2 & HA2 & Ef & Ec & Er & Hq & Hb).
  match type of HRep2 with Lists ?st _ => set (s2 := st) in * end.
  assert (pcb_table s2 !! i = Some (set_p_sem_add 0 c)) as Hc2 by (by eapply table_upd_eq).
  destruct (free_pcb_spec s2 v2 i (set_p_sem_add 0 c) HRep2) as (h3 & Hrun3 & HRep3);
    [by rewrite Ef | done |].
  rewrite (v_unlink_detached _ _ Hq), Ef in HRep3.
  match type of HRep3 with Lists ?st ?q => set (s3 := st) in * end.
  set (v3 := set_v_free (i :: v_free v) v2) in *.
  assert (pcb_table s3 = <[i := dead_pcb c]> (pcb_table s)) as Ep3.
  { unfold s3, s2. simpl. rewrite list_insert_insert_eq. f_equal. unfold dead_pcb.
    by rewrite (set_p_parent_id c None Hpar). }
  assert (Asl s3 v3) as HA3.
  { eapply Asl_ext; [exact HA2 | done | | done..]. intros x d. unfold s3. simpl.
    rewrite list_insert_insert_eq. intros [[-> ->]|[Hne Hd]]%(table_upd _ _ _ _ _ _ Hc).
    - exists (set_p_sem_add 0 c). split; [by eapply table_upd_eq|done].
    - exists d. by rewrite list_lookup_insert_ne. }
  exists s3, v3. split_and!.
  - unfold kprintf. rewrite !bind_modify. step_with Hrun2. by step_with Hrun3.
  - by eapply Inv_kill.
  - split.
    + unfold s3, s2, s1. by eexists _, _, (semd_table s), _, _, _.
    + done.
    + intros b. rewrite rem_all_one, <- Er. by destruct b.
    + etrans; [|exact Hb]. by apply blocked_ext.
    + intros x Hx. rewrite Ep3, list_lookup_insert_ne; [done|]. set_solver.
    + intros x Hx. unfold v3. simpl. rewrite Ec. destruct (v_child v !! x) as [l|] eqn:Hl; [|done].
      simpl. rewrite rem_all_one, rem_id; [done|]. intros Hi.
      pose proof (tree_up _ _ HT _ _ _ _ Hl Hi Hc). congruence.
    + done.
Qed.

Lemma kill_process_inv a s v i c :
  Inv a s v -> pcb_table s !! i = Some c -> i ∉ v_free v -> v_child v !! i = Some [] ->
  ∃ s' v', kill_process (Some i) s = Ok 0 s' ∧ Inv a s' v' ∧ killed [i] s s' v v'.
Proof.
  intros HI Hc Hf Hch. destruct (p_parent c) as [j|] eqn:Hpar.
  - destruct (tree_down _ _ (inv_tree _ _ _ HI) _ _ _ Hc Hf Hpar) as (l & Hj & Hi).
    destruct (out_child_inv a s v j i c l HI Hc Hj Hi) as (h1 & Hrun1 & HI1 & Hb1).
    match type of HI1 with Inv _ ?st ?q => set (s1 := st) in *; set (v1 := q) in * end.
    assert (i ≠ j) as Hij.
    { intros <-. destruct (tree_rank _ _ (inv_tree _ _ _ HI)) as [rank Hr].
      specialize (Hr _ _ _ Hj Hi). lia. }
    destruct (kill_tail_inv a s1 v1 i (set_p_parent None c) HI1) as (s2 & v2 & Hrun2 & HI2 & HK).
    { by eapply table_upd_eq. }
    { done. }
    { unfold v1. simpl. by rewrite lookup_insert_ne by done. }
    { done. }
    exists s2, v2. split_and!; [|done|].
    + rewrite kill_process_eq. step_with (pcb_at_ok _ _ _ Hc). rewrite Hpar. step_with Hrun1.
      by rewrite bool_decide_true by done.
    + destruct HK as [K1 K2 K3 K4 K5 K6 K7]. split.
      * etrans; [|exact K1]. unfold s1.
        by eexists h1, _, (semd_table s), (process_count s), (softblock_count s), (klog s).
      * done.
      * done.
      * by rewrite K4, Hb1.
      * intros x Hx. rewrite K5 by done. unfold s1. simpl. rewrite list_lookup_insert_ne; [done|].
        set_solver.
      * intros x Hx. rewrite K6 by done. unfold v1. simpl.
        destruct (decide (x = j)) as [->|]; [|by rewrite lookup_insert_ne].
        rewrite lookup_insert_eq, Hj. simpl. rewrite !rem_all_one. f_equal. apply rem_id.
        by intros [? _]%elem_of_rem.
      * done.
  - destruct (kill_tail_inv a s v i c HI Hc Hf Hch Hpar) as (s' & v' & Hrun & HI' & HK).
    exists s', v'. split_and!; [|done|done]. rewrite kill_process_eq.
    step_with (pcb_at_ok _ _ _ Hc). rewrite Hpar, bind_ret_l.
    by rewrite bool_decide_true by done.
Qed.
End kill_process_spec.

(** ** Post-order of the process tree *)

(** [postorder ch cs l]: [l] is the post-order traversal of the trees rooted
    at [cs], where [ch] maps a process to its children. *)
Inductive postorder (ch : gmap nat (list nat)) : list nat -> list nat -> Prop :=
| po_nil : postorder ch [] []
| po_cons c cs rest l1 l2 :
    ch !! c = Some cs -> postorder ch cs l1 -> postorder ch rest l2 ->
    postorder ch (c :: rest) (l1 ++ c :: l2).

(** The descendants of a process, itself included. *)
Definition child_of (ch : gmap nat (list nat)) (j i : nat) : Prop := ∃ l, ch !! j = Some l ∧ i ∈ l.
Definition descends (ch : gmap nat (list nat)) : nat -> nat -> Prop := rtc (child_of ch).

Section postorder.
Implicit Types (ch : gmap nat (list nat)) (cs l : list nat) (x y : nat).

Lemma postorder_parent ch cs l x :
  postorder ch cs l -> x ∈ l -> x ∈ cs ∨ ∃ y, y ∈ l ∧ child_of ch y x.
Proof.
  induction 1 as [|c cs rest l1 l2 Hc H1 IH1 H2 IH2]; intros Hx; [by apply elem_of_nil in Hx|].
  apply elem_of_app in Hx as [Hx|Hx].
  - right. destruct (IH1 Hx) as [?|(y & ? & ?)].
    + exists c. split; [set_solver|]. by exists cs.
    + exists y. split; [set_solver|done].
  - apply elem_of_cons in Hx as [->|Hx]; [left; left|].
    destruct (IH2 Hx) as [?|(y & ? & ?)]; [left; by right|]. right. exists y. set_solver.
Qed.

Lemma postorder_rank ch cs l rank n :
  (∀ j q i, ch !! j = Some q → i ∈ q → rank i < rank j)%nat ->
  postorder ch cs l -> (∀ x, x ∈ cs → rank x < n)%nat -> ∀ x, x ∈ l -> (rank x < n)%nat.
Proof.
  intros Hr. induction 1 as [|c cs rest l1 l2 Hc H1 IH1 H2 IH2]; intros Hcs x Hx; [by apply elem_of_nil in Hx|].
  assert (rank c < n)%nat as Hcn by (apply Hcs; left).
  apply elem_of_app in Hx as [Hx|Hx].
  - apply IH1; [|done]. intros y Hy. specialize (Hr _ _ _ Hc Hy). lia.
  - apply elem_of_cons in Hx as [->|Hx]; [done|]. apply IH2; [|done]. intros. apply Hcs. by right.
Qed.

Lemma postorder_ext ch ch' cs l :
  (∀ x, x ∈ l → ch' !! x = ch !! x) -> postorder ch cs l -> postorder ch' cs l.
Proof.
  intros Hx H. induction H as [|c cs rest l1 l2 Hc H1 IH1 H2 IH2]; [constructor|].
  econstructor; [rewrite Hx; [done|set_solver] | apply IH1 | apply IH2]; intros; apply Hx; set_solver.
Qed.

Lemma postorder_descends ch cs l x :
  postorder ch cs l -> x ∈ l ↔ ∃ y, y ∈ cs ∧ descends ch y x.
Proof.
  induction 1 as [|c cs rest l1 l2 Hc H1 IH1 H2 IH2].
  - split; [by intros ?%elem_of_nil|]. by intros (y & ?%elem_of_nil & _).
  - rewrite elem_of_app, elem_of_cons, IH1, IH2. split.
    + intros [(y & Hy & Hd)|[->|(y & Hy & Hd)]].
      * exists c. split; [left|]. eapply rtc_l; [|done]. by exists cs.
      * exists c. split; [left|done].
      * exists y. split; [by right|done].
    + intros (y & [->|Hy]%elem_of_cons & Hd).
      * inversion Hd as [|? z ? (q & Hq & Hz) Hd']; subst; [by right; left|]. simplify_eq.
        left. by exists z.
      * right; right. by exists y.
Qed.
End postorder.

(** ** [kill_progeny] *)

(** How many processes have a parent: what the recursion decreases. *)
Definition child_count (v : view) : nat := length (filter (in_children v) (seq 0 MAX_PROC)).

Section kill_progeny.
Implicit Types (s : kernel) (v : view) (a : list nat) (i j p : nat).

Lemma filter_length_le (P Q : nat → Prop) `{!∀ x, Decision (P x), !∀ x, Decision (Q x)} (l : list nat) :
  (∀ x, P x → Q x) -> (length (filter P l) ≤ length (filter Q l))%nat.
Proof.
  intros HPQ. induction l as [|x l IH]; [done|]. rewrite !filter_cons.
  repeat case_decide; simpl; [lia|naive_solver|lia|lia].
Qed.

Lemma filter_length_lt (P Q : nat → Prop) `{!∀ x, Decision (P x), !∀ x, Decision (Q x)} (l : list nat) y :
  (∀ x, P x → Q x) -> y ∈ l -> Q y -> ¬ P y -> (length (filter P l) < length (filter Q l))%nat.
Proof.
  intros HPQ Hy HQ HP. induction l as [|x l IH]; [by apply elem_of_nil in Hy|].
  rewrite !filter_cons. apply elem_of_cons in Hy as [->|Hy].
  - rewrite (decide_False (P := P x)), (decide_True (P := Q x)) by done. simpl.
    pose proof (filter_length_le P Q l HPQ). lia.
  - specialize (IH Hy). repeat case_decide; simpl; [lia|naive_solver|lia|lia].
Qed.

Lemma child_count_bound v : (child_count v ≤ MAX_PROC)%nat.
Proof. unfold child_count. etrans; [apply length_filter|]. by rewrite length_seq. Qed.

Lemma killed_children a ds s s' v v' x :
  Inv a s' v' -> killed ds s s' v v' -> in_children v' x -> in_children v x.
Proof.
  intros HI HK (j & l & Hj & Hx). destruct (decide (j ∈ ds)) as [Hd|Hd].
  - assert (j ∈ v_free v') as Hf by (rewrite (kd_free _ _ _ _ _ HK); set_solver).
    pose proof (tree_free _ _ (inv_tree _ _ _ HI) _ Hf) as Hnil. rewrite Hj in Hnil. simpl in Hnil.
    subst. by apply elem_of_nil in Hx.
  - rewrite (kd_child _ _ _ _ _ HK _ Hd) in Hj. destruct (v_child v !! j) as [q|] eqn:E; simplify_eq/=.
    apply elem_of_rem_all in Hx as [_ Hx]. by exists j, q.
Qed.

Lemma killed_trans ds1 ds2 s1 s2 s3 v1 v2 v3 :
  killed ds1 s1 s2 v1 v2 -> killed ds2 s2 s3 v2 v3 -> killed (ds1 ++ ds2) s1 s3 v1 v3.
Proof.
  intros [A1 A2 A3 A4 A5 A6 A7] [B1 B2 B3 B4 B5 B6 B7]. split.
  - by etrans.
  - by rewrite B2, A2, reverse_app, app_assoc.
  - intros b. by rewrite B3, A3, rem_all_app.
  - by rewrite B4, A4, purge_app.
  - intros x Hx. rewrite B5, A5; set_solver.
  - intros x Hx. rewrite B6, A6 by set_solver. destruct (v_child v1 !! x); simpl; [|done].
    by rewrite rem_all_app.
  - by rewrite B7.
Qed.

(** [remove_child] is part of the killing of the child. *)
Lemma killed_orphan ds s s1 s2 v v2 p c cc rest h1 :
  v_child v !! p = Some (c :: rest) -> pcb_table s !! c = Some cc ->
  s1 = set_links h1 (set_pcb_table (<[c := set_p_parent None cc]> (pcb_table s)) s) ->
  blocked s1 (set_v_child (<[p := rest]> (v_child v)) v) = blocked s v ->
  killed (ds ++ [c]) s1 s2 (set_v_child (<[p := rest]> (v_child v)) v) v2 ->
  killed (ds ++ [c]) s s2 v v2.
Proof.
  intros Hp Hcc Es1 Hb [K1 K2 K3 K4 K5 K6 K7]. split; try done.
  - etrans; [|exact K1]. subst s1.
    by eexists h1, _, (semd_table s), (process_count s), (softblock_count s), (klog s).
  - by rewrite K4, Hb.
  - intros x Hx. rewrite K5 by done. subst s1. simpl. rewrite list_lookup_insert_ne; [done|].
    intros <-. set_solver.
  - intros x Hx. rewrite K6 by done. simpl. destruct (decide (x = p)) as [->|].
    + rewrite lookup_insert_eq, Hp. simpl. f_equal. unfold rem_all at 2.
      by rewrite filter_cons_False by set_solver.
    + by rewrite lookup_insert_ne.
  - by subst s1.
Qed.

(** A child after [c] has left [p] was one before, and is not [c]. *)
Lemma ch1_child a s v p c rest y x :
  Inv a s v -> v_child v !! p = Some (c :: rest) ->
  child_of (<[p := rest]> (v_child v)) y x -> child_of (v_child v) y x ∧ x ≠ c.
Proof.
  intros HI Hp. pose proof (rep_NoDup_child _ _ (inv_rep _ _ _ HI) _ _ Hp) as Hnd.
  intros (q & Hq & Hx). destruct (decide (y = p)) as [->|Hne].
  - rewrite lookup_insert_eq in Hq. simplify_eq. split; [exists (c :: q); split; [done|by right]|].
    intros ->. by apply NoDup_cons in Hnd as [? _].
  - rewrite lookup_insert_ne in Hq by done. split; [by exists q|]. intros ->. destruct Hne.
    eapply (parent_unique _ _ (inv_rep _ _ _ HI)); [exact Hq|exact Hp|done|left].
Qed.

Lemma child_unique a s v y y' x :
  Inv a s v -> child_of (v_child v) y x -> child_of (v_child v) y' x -> y = y'.
Proof.
  intros HI (q & Hq & Hx) (q' & Hq' & Hx'). by eapply (parent_unique _ _ (inv_rep _ _ _ HI)).
Qed.

(** Everything below [c] is below [p], and apart from [c]'s siblings. *)
Section below.
Context (a : list nat) (s : kernel) (v : view) (p c : nat) (rest cs' d1 : list nat).
Context (HI : Inv a s v) (Hp : v_child v !! p = Some (c :: rest)).
Context (Hc : <[p := rest]> (v_child v) !! c = Some cs')
        (H1 : postorder (<[p := rest]> (v_child v)) cs' d1).

Lemma root_not_below x : x ∈ d1 ++ [c] -> x ≠ p.
Proof.
  destruct (tree_rank _ _ (inv_tree _ _ _ HI)) as [rank Hr].
  assert (∀ y z, child_of (<[p := rest]> (v_child v)) y z → rank z < rank y)%nat as Hr1.
  { intros y z [(q & Hq & Hz) _]%(ch1_child _ _ _ _ _ _ _ _ HI Hp). by eapply Hr. }
  assert (rank c < rank p)%nat as Hcp by (eapply Hr; [done|left]).
  assert (∀ y, y ∈ d1 → rank y < rank p)%nat as Hd1.
  { eapply postorder_rank; [|exact H1|].
    - intros y q z Hq Hz. apply Hr1. by exists q.
    - intros z Hz. assert (rank z < rank c)%nat; [|lia]. apply Hr1. by exists cs'. }
  intros [Hx|Hx%list_elem_of_singleton]%elem_of_app ->; [|subst; lia].
  specialize (Hd1 _ Hx). lia.
Qed.

(** A child of a survivor survives, [c] apart. *)
Lemma below_closed x y : x ∈ d1 ++ [c] -> child_of (v_child v) y x -> y ∈ d1 ++ [c] ∨ (y = p ∧ x = c).
Proof.
  intros [Hx|Hx%list_elem_of_singleton]%elem_of_app Hy.
  - left. destruct (postorder_parent _ _ _ _ H1 Hx) as [Hx'|(z & Hz & Hzx)].
    + assert (child_of (v_child v) c x) as Hcx by (apply (ch1_child _ _ _ _ _ _ _ _ HI Hp); by exists cs').
      rewrite (child_unique _ _ _ _ _ _ HI Hy Hcx). set_solver.
    + apply (ch1_child _ _ _ _ _ _ _ _ HI Hp) in Hzx as [Hzx _]. rewrite (child_unique _ _ _ _ _ _ HI Hy Hzx). set_solver.
  - subst x. right. split; [|done]. apply (child_unique _ _ _ _ _ _ HI Hy). exists (c :: rest).
    split; [done|left].
Qed.

Lemma siblings_not_below : rem_all (d1 ++ [c]) rest = rest.
Proof.
  apply rem_all_id. intros x Hx Hin.
  assert (child_of (v_child v) p x) as Hpx by (exists (c :: rest); split; [done|by right]).
  destruct (below_closed _ _ Hin Hpx) as [Hp'|[_ ->]]; [by apply (root_not_below _ Hp')|].
  pose proof (rep_NoDup_child _ _ (inv_rep _ _ _ HI) _ _ Hp) as Hnd.
  by apply NoDup_cons in Hnd as [? _].
Qed.

Lemma postorder_step s2 v2 d2 :
  Inv a s2 v2 -> (∀ x, x ∈ d1 ++ [c] → x ∈ v_free v2) ->
  (∀ x, x ∉ d1 ++ [c] → v_child v2 !! x = rem_all (d1 ++ [c]) <$> <[p := rest]> (v_child v) !! x) ->
  postorder (v_child v2) rest d2 ->
  postorder (v_child v) (c :: rest) (d1 ++ c :: d2).
Proof.
  intros HI2 Hfree Hch H2.
  assert (c ≠ p) as Hcp by (apply root_not_below; set_solver).
  apply (po_cons _ c cs').
  - by rewrite lookup_insert_ne in Hc by done.
  - eapply postorder_ext; [|exact H1]. intros x Hx.
    rewrite lookup_insert_ne; [done|]. symmetry. apply root_not_below. set_solver.
  - eapply postorder_ext; [|exact H2]. intros x Hx.
    assert (v_child v2 !! p = Some rest) as Hp2.
    { rewrite Hch by (intros Hp'; by apply (root_not_below _ Hp')).
      rewrite lookup_insert_eq. simpl. by rewrite siblings_not_below. }
    assert (∃ y, child_of (v_child v2) y x) as [y (q & Hq & Hxq)].
    { destruct (postorder_parent _ _ _ _ H2 Hx) as [Hr|(y & _ & ?)]; [exists p, rest; done|by exists y]. }
    assert (x ∉ d1 ++ [c]) as Hnx.
    { intros Hin%Hfree. by apply (tree_live _ _ (inv_tree _ _ _ HI2) _ _ _ Hq Hxq). }
    assert (x ≠ p) as Hxp.
    { destruct (tree_rank _ _ (inv_tree _ _ _ HI2)) as [rank Hr].
      intros ->. pose proof (postorder_rank _ _ _ rank (rank p) Hr H2) as Hlt.
      specialize (Hlt ltac:(intros z Hz; by eapply Hr) p Hx). lia. }
    rewrite Hch by done. rewrite lookup_insert_ne by done.
    destruct (v_child v !! x) as [l|] eqn:El; [|done]. simpl. f_equal. symmetry.
    apply rem_all_id. intros z Hz Hin.
    by destruct (below_closed _ _ Hin (ex_intro _ l (conj El Hz))) as [?|[-> _]].
Qed.
End below.

(** As much fuel as there can be children, and one. *)
Definition kill_fuel : nat := S MAX_PROC.

(** [kill_progeny], given enough fuel for the processes that have a parent. *)
Lemma kill_progeny_fuel fuel a s v p cs :
  Inv a s v -> (p < MAX_PROC)%nat -> p ∉ v_free v -> v_child v !! p = Some cs ->
  (child_count v < fuel)%nat ->
  ∃ s' v' ds, kill_progeny fuel (Some p) s = Ok 0 s' ∧ Inv a s' v' ∧
    killed (ds ++ [p]) s s' v v' ∧ postorder (v_child v) cs ds.
Proof.
  revert s v p cs. induction fuel as [|fuel IH]; intros s v p cs HI Hlt Hf Hcs Hfuel; [lia|].
  pose proof (inv_rep _ _ _ HI) as HRep.
  destruct cs as [|c rest].
  { destruct (rep_pcb _ _ HRep _ Hlt) as [pc Hpc].
    destruct (kill_process_inv a s v p pc HI Hpc Hf Hcs) as (s' & v' & Hrun & HI' & HK).
    exists s', v', []. split_and!; [|done|done|constructor].
    simpl. by step_with (remove_child_none _ _ _ HRep Hcs). }
  assert (c < MAX_PROC)%nat as Hclt by (eapply child_valid; [exact HRep|exact Hcs|left]).
  destruct (rep_pcb _ _ HRep _ Hclt) as [cc Hcc].
  assert (c ∉ v_free v) as Hcf by (eapply tree_live; [by apply HI|exact Hcs|left]).
  destruct (remove_child_inv a s v p c cc rest HI Hcc Hcs) as (h1 & Hrun1 & HI1 & Hb1).
  match type of HI1 with Inv _ ?st ?q => set (s1 := st) in *; set (v1 := q) in * end.
  assert (∀ x, in_children v1 x → in_children v x ∧ x ≠ c) as Hch1.
  { intros x (y & Hy). destruct (ch1_child a s v p c rest y x HI Hcs Hy) as [? ?].
    split; [by exists y|done]. }
  assert (child_count v1 < child_count v)%nat as Hcount1.
  { apply (filter_length_lt _ _ _ c); [by intros x [? _]%Hch1 | apply elem_of_seq; lia | | by intros [_ ?]%Hch1].
    exists p, (c :: rest). split; [done|left]. }
  destruct (tree_dom _ _ (inv_tree _ _ _ HI1) c Hclt Hcf) as [cs' Hcs'].
  destruct (IH s1 v1 c cs' HI1 Hclt Hcf Hcs') as (s2 & v2 & d1 & Hrun2 & HI2 & HK2 & Hpo1); [lia|].
  assert (∀ x, x ∈ d1 ++ [c] → x ∈ v_free v2) as Hdead.
  { intros x Hx. rewrite (kd_free _ _ _ _ _ HK2). set_solver. }
  assert (p ∉ d1 ++ [c]) as Hpn.
  { intros Hp. by apply (root_not_below a s v p c rest cs' d1 HI Hcs Hcs' Hpo1 p Hp). }
  assert (v_child v2 !! p = Some rest) as Hp2.
  { rewrite (kd_child _ _ _ _ _ HK2 _ Hpn). unfold v1. simpl. rewrite lookup_insert_eq. simpl.
    f_equal. by apply (siblings_not_below a s v p c rest cs' d1 HI Hcs Hcs' Hpo1). }
  assert (p ∉ v_free v2) as Hf2.
  { rewrite (kd_free _ _ _ _ _ HK2), elem_of_app, elem_of_reverse. by intros [?|?]. }
  assert (child_count v2 ≤ child_count v1)%nat as Hcount2.
  { apply filter_length_le. intros x. by apply (killed_children _ _ _ _ _ _ _ HI2 HK2). }
  destruct (IH s2 v2 p rest HI2 Hlt Hf2 Hp2) as (s3 & v3 & d2 & Hrun3 & HI3 & HK3 & Hpo2); [lia|].
  exists s3, v3, (d1 ++ c :: d2). split_and!; [|done| |].
  - simpl. step_with Hrun1. step_with Hrun2. exact Hrun3.
  - replace ((d1 ++ c :: d2) ++ [p]) with ((d1 ++ [c]) ++ (d2 ++ [p])) by (by rewrite <- !app_assoc).
    eapply killed_trans; [|exact HK3].
    exact (killed_orphan d1 s s1 s2 v v2 p c cc rest h1 Hcs Hcc eq_refl Hb1 HK2).
  - exact (postorder_step a s v p c rest cs' d1 HI Hcs Hcs' Hpo1 s2 v2 d2 HI2 Hdead
             (kd_child _ _ _ _ _ HK2) Hpo2).
Qed.

Lemma kill_progeny_spec a s v p :
  Inv a s v -> (p < MAX_PROC)%nat -> p ∉ v_free v ->
  ∃ s' v' cs ds, kill_progeny kill_fuel (Some p) s = Ok 0 s' ∧ Inv a s' v' ∧
    v_child v !! p = Some cs ∧ killed (ds ++ [p]) s s' v v' ∧ postorder (v_child v) cs ds.
Proof.
  intros HI Hlt Hf. destruct (tree_dom _ _ (inv_tree _ _ _ HI) _ Hlt Hf) as [cs Hcs].
  destruct (kill_progeny_fuel kill_fuel a s v p cs HI Hlt Hf Hcs) as (s' & v' & ds & ? & ? & ? & ?).
  { pose proof (child_count_bound v). unfold kill_fuel. lia. }
  by exists s', v', cs, ds.
Qed.

Lemma killed_set ch p cs ds x :
  ch !! p = Some cs -> postorder ch cs ds -> x ∈ ds ++ [p] ↔ descends ch p x.
Proof.
  intros Hp Hpo. rewrite elem_of_app, (postorder_descends _ _ _ x Hpo), list_elem_of_singleton. split.
  - intros [(y & Hy & Hd)| ->]; [|done]. eapply rtc_l; [|done]. by exists cs.
  - intros Hd. inversion Hd as [|? y ? (q & Hq & Hy) Hd']; subst; [by right|]. simplify_eq.
    left. by exists y.
Qed.
End kill_progeny.
