(* ===== verification/Dispatch.v ===== *)
(** * Dispatching: [schedule]

    Which process runs next, and with which processor state.  Every call of
    [schedule] leaves the nucleus: it runs the process it is told to preserve,
    or the first one of the high priority queue, or of the low priority one, or
    the one that yielded; if there is none it waits for an interrupt, or halts
    when no process is alive. *)

From Stdlib Require Import ZArith Lia String.
From stdpp Require Import base tactics option numbers gmap list.
From S2P Require Import Prelude ListHead Machine Kernel View Pcb Asl Scheduler Invariant.

Open Scope string_scope.
Open Scope list_scope.
Open Scope Z_scope.

Section dispatch.
Context `{Umps}.
Implicit Types (s : kernel) (v : view) (a : list nat) (i : nat) (c : pcb_t).

(** The state a process is given the processor with. *)
Definition running_state (c : pcb_t) : state_t :=
  let st := set_status (status_interrupts_on_process (status (p_s c))) (p_s c) in
  if is_true (p_prio c) then set_status (status_local_timer_on (status st)) st else st.

(** The part of the machine that dispatching changes besides the lists. *)
Definition dispatched (i : nat) (c : pcb_t) (s s' : kernel) : Prop :=
  ∃ h lt, s' = set_start_tod (s32 (tod (tod_reads s))) (set_tod_reads (S (tod_reads s))
    (set_local_timer lt (set_active_process (Some i) (set_yield_process None
      (set_links h (set_pcb_table (<[i := set_p_s (running_state c) c]> (pcb_table s)) s)))))).

Lemma read_word_ok s k : word_addr k = true -> read_word k s = Ok (default 0 (mem s !! k)) s.
Proof. intros Hk. unfold read_word. by rewrite Hk. Qed.

Lemma reset_local_timer_ok s : ∃ lt, reset_local_timer s = Ok tt (set_local_timer lt s).
Proof.
  unfold reset_local_timer, load_local_timer, TRANSLATE_TIME, read_int.
  eexists. rewrite !bind_assoc. step_with (read_word_ok s TIMESCALEADDR eq_refl). reflexivity.
Qed.

Lemma store_tod_ok s : store_tod s = Ok (s32 (tod (tod_reads s))) (set_tod_reads (S (tod_reads s)) s).
Proof. done. Qed.

Lemma scheduler_takeover_spec s i c :
  active_process s = Some i -> yield_process s = None -> pcb_table s !! i = Some c ->
  ∃ s', scheduler_takeover s = Exit (Running (running_state c)) s' ∧
    dispatched i c s s' ∧ links s' = links s.
Proof.
  intros Ha Hy Hc. unfold scheduler_takeover. rewrite bind_gets, Ha. unfold deref.
  rewrite (bind_ok_or _ _ _ _ _ eq_refl).
  match goal with |- context [upd_pcb i ?f] => set (f1 := f) end.
  step_with (upd_pcb_ok s i c f1 Hc).
  destruct (reset_local_timer_ok (set_pcb_table (<[i := f1 c]> (pcb_table s)) s)) as [lt Hlt].
  step_with Hlt.
  assert (∀ T x st, pcb_table st = <[i := x]> T -> T !! i = Some c -> pcb_at i st = Ok x st) as Hat.
  { intros T x st ET HT. apply pcb_at_ok. rewrite ET. by eapply table_upd_eq. }
  erewrite bind_ok; [|eapply Hat; [simpl; reflexivity|exact Hc]].
  change (p_prio (f1 c)) with (p_prio c). unfold running_state, dispatched.
  destruct (is_true (p_prio c)) eqn:Hp.
  - match goal with |- context [upd_pcb i ?f] => set (f2 := f) end.
    erewrite bind_ok; [|apply (upd_pcb_ok _ i (f1 c)); simpl; by eapply table_upd_eq].
    simpl pcb_table. rewrite list_insert_insert_eq.
    step_with (store_tod_ok (set_pcb_table (<[i := f2 (f1 c)]> (pcb_table s))
      (set_local_timer lt (set_pcb_table (<[i := f1 c]> (pcb_table s)) s)))). rewrite bind_modify.
    eexists. split.
    + erewrite bind_ok; [|eapply Hat; [simpl; reflexivity|exact Hc]]. reflexivity.
    + split; [|done]. exists (links s), lt. unfold running_state. rewrite Hp.
      destruct s; simpl in *. by subst.
  - rewrite bind_ret_l. step_with (store_tod_ok (set_local_timer lt
      (set_pcb_table (<[i := f1 c]> (pcb_table s)) s))). rewrite bind_modify.
    eexists. split.
    + erewrite bind_ok; [|eapply Hat; [simpl; reflexivity|exact Hc]]. reflexivity.
    + split; [|done]. exists (links s), lt. unfold running_state. rewrite Hp.
      destruct s; simpl in *. by subst.
Qed.

Lemma running_state_role c st : same_role c (set_p_s st c).
Proof. done. Qed.

Lemma dispatched_inv a i c s s' v :
  Inv a s v -> pcb_table s !! i = Some c -> dispatched i c s s' -> links s' = links s ->
  Inv a s' v ∧ blocked s' v = blocked s v.
Proof.
  intros HI Hc (h & lt & ->) Hl. eapply Inv_ext; [done|done|done|done|done|].
  by apply (Forall2_upd same_role _ _ _ _ Hc).
Qed.

Lemma dispatched_weaken i c s s' h p :
  dispatched i c (set_links h (set_active_process p s)) s' -> dispatched i c s s'.
Proof. intros (h' & lt & ->). by exists h', lt. Qed.

(** The last part of [schedule], once there is an active process and no
    process has yielded. *)
Lemma schedule_finish s i c a v :
  active_process s = Some i -> yield_process s = None -> pcb_table s !! i = Some c -> Inv a s v ->
  ∃ s',
    (y <- gets yield_process ;;
     match y with
     | None => ret tt
     | Some i =>
         c <- pcb_at i ;;
         insert_proc_q (Some (process_queue c)) (Some i) ;;
         modify (set_yield_process None)
     end ;;
     a <- gets active_process ;;
     when bool_decide (a <> None) do scheduler_takeover) s =
    Exit (Running (running_state c)) s' ∧ dispatched i c s s' ∧ Inv a s' v ∧
    blocked s' v = blocked s v.
Proof.
  intros Ha Hy Hc HI. destruct (scheduler_takeover_spec s i c Ha Hy Hc) as (s' & Hrun & Hd & Hl).
  destruct (dispatched_inv _ _ _ _ _ _ HI Hc Hd Hl) as [HI' Hb].
  exists s'. split_and!; [|done..]. rewrite bind_gets, Hy, bind_ret_l, bind_gets, Ha.
  by rewrite bool_decide_true by done.
Qed.

Lemma Inv_active a s v p : Inv a s v -> Inv a (set_active_process p s) v ∧
  blocked (set_active_process p s) v = blocked s v.
Proof. intros HI. by eapply Inv_ext. Qed.

Lemma Inv_yield a s v p : Inv a s v -> Inv a (set_yield_process p s) v ∧
  blocked (set_yield_process p s) v = blocked s v.
Proof. intros HI. by eapply Inv_ext. Qed.

(** Control is preserved: the process runs, wherever the others are. *)
Lemma schedule_preserve_spec a s v i c :
  Inv a s v -> pcb_table s !! i = Some c -> yield_process s = None ->
  ∃ s', schedule (Some i) false s = Exit (Running (running_state c)) s' ∧
    dispatched i c s s' ∧ Inv a s' v ∧ blocked s' v = blocked s v.
Proof.
  intros HI Hc Hy. destruct (Inv_active a s v (Some i) HI) as [HI1 Hb1].
  destruct (schedule_finish (set_active_process (Some i) s) i c a v) as (s' & Hrun & Hd & HI' & Hb); try done.
  exists s'. split_and!; [|by eapply (dispatched_weaken _ _ _ _ (links s) (Some i)); destruct s|done|by rewrite Hb].
  exact Hrun.
Qed.

(** The process that [schedule] takes from the queues. *)
Definition next_ready (v : view) : option (bool * nat * list nat) :=
  match v_hi v with
  | i :: l => Some (true, i, l)
  | [] => match v_lo v with i :: l => Some (false, i, l) | [] => None end
  end.

Lemma next_ready_Some v b i l :
  next_ready v = Some (b, i, l) -> v_ready b v = i :: l ∧ (b = false → v_hi v = []).
Proof. unfold next_ready. destruct (v_hi v) eqn:E; [destruct (v_lo v) eqn:E'|]; naive_solver. Qed.

Lemma next_ready_None v : next_ready v = None -> v_hi v = [] ∧ v_lo v = [].
Proof. unfold next_ready. by destruct (v_hi v), (v_lo v). Qed.

(** The selection part of [schedule None]. *)
Definition select : KM unit :=
  e <- on_links (list_empty L_ready_hi) ;;
  if negb e then p <- remove_proc_q (Some L_ready_hi) ;; modify (set_active_process p)
  else
    e <- on_links (list_empty L_ready_lo) ;;
    if negb e then p <- remove_proc_q (Some L_ready_lo) ;; modify (set_active_process p)
    else
      y <- gets yield_process ;;
      if bool_decide (y <> None) then
        modify (set_active_process y) ;; modify (set_yield_process None)
      else wait_or_die.

Lemma select_ready a s v b i l :
  Inv a s v -> next_ready v = Some (b, i, l) ->
  ∃ h1, let s1 := set_active_process (Some i) (set_links h1 s) in
    select s = Ok tt s1 ∧ Inv (i :: a) s1 (set_v_ready b l v) ∧
    blocked s1 (set_v_ready b l v) = blocked s v.
Proof.
  intros HI [Er Hb]%next_ready_Some. pose proof (inv_rep _ _ _ HI) as HRep.
  destruct (take_ready_spec a s v b i l HI Er) as (h1 & Hrun1 & HI1 & Hb1).
  destruct (Inv_active _ _ _ (Some i) HI1) as [HI2 Hb2].
  exists h1. cbv zeta. split_and!; [|done|by rewrite Hb2].
  unfold select. rewrite (bind_ok _ _ _ _ _ (rep_ready_empty s v true HRep)).
  change (v_ready true v) with (v_hi v).
  destruct b; cbn in Er.
  - rewrite Er, bool_decide_false by done. change (negb false) with true. cbv iota.
    by step_with Hrun1.
  - rewrite Hb, bool_decide_true by done. change (negb true) with false. cbv iota.
    rewrite (bind_ok _ _ _ _ _ (rep_ready_empty s v false HRep)).
    change (v_ready false v) with (v_lo v). rewrite Er, bool_decide_false by done. change (negb false) with true. cbv iota.
    by step_with Hrun1.
Qed.

Lemma select_nothing s v :
  Rep s v -> next_ready v = None ->
  select s = (y <- gets yield_process ;;
              if bool_decide (y <> None) then
                modify (set_active_process y) ;; modify (set_yield_process None)
              else wait_or_die) s.
Proof.
  intros HRep [E1 E2]%next_ready_None. unfold select.
  rewrite (bind_ok _ _ _ _ _ (rep_ready_empty s v true HRep)). change (v_ready true v) with (v_hi v).
  rewrite E1, bool_decide_true by done. change (negb true) with false. cbv iota.
  rewrite (bind_ok _ _ _ _ _ (rep_ready_empty s v false HRep)). change (v_ready false v) with (v_lo v).
  by rewrite E2, bool_decide_true by done.
Qed.

Lemma schedule_none e s :
  schedule None e s =
  (select ;;
   y <- gets yield_process ;;
   match y with
   | None => ret tt
   | Some i =>
       c <- pcb_at i ;;
       insert_proc_q (Some (process_queue c)) (Some i) ;;
       modify (set_yield_process None)
   end ;;
   a <- gets active_process ;;
   when bool_decide (a <> None) do scheduler_takeover) s.
Proof. by destruct e. Qed.

(** The first ready process runs: a low priority one only when no high
    priority one is ready. *)
Lemma schedule_ready_spec a s v b i l e :
  Inv a s v -> yield_process s = None -> next_ready v = Some (b, i, l) ->
  ∃ c s', pcb_table s !! i = Some c ∧
    schedule None e s = Exit (Running (running_state c)) s' ∧ dispatched i c s s' ∧
    Inv (i :: a) s' (set_v_ready b l v) ∧ blocked s' (set_v_ready b l v) = blocked s v.
Proof.
  intros HI Hy Hn. destruct (next_ready_Some _ _ _ _ Hn) as [Er _].
  assert (i < MAX_PROC)%nat as Hlt.
  { eapply in_queue_valid; [by apply HI|]. eapply (in_ready b). rewrite Er. left. }
  destruct (rep_pcb _ _ (inv_rep _ _ _ HI) _ Hlt) as [c Hc].
  destruct (select_ready a s v b i l HI Hn) as (h1 & Hrun1 & HI1 & Hb1).
  match type of HI1 with Inv _ ?st _ => set (s1 := st) in * end.
  destruct (schedule_finish s1 i c (i :: a) (set_v_ready b l v)) as (s' & Hrun & Hd & HI' & Hb');
    try done.
  exists c, s'. split_and!; [done| | |done|by rewrite Hb', Hb1].
  - rewrite schedule_none. step_with Hrun1. exact Hrun.
  - destruct Hd as (h & lt & ->). by exists h, lt.
Qed.

(** Rescheduling puts the process at the end of its queue first. *)
Lemma schedule_enqueue i s :
  schedule (Some i) true s = (enqueue_process (Some i) ;; schedule None true) s.
Proof. apply bind_ext. intros [] s'. by rewrite schedule_none. Qed.

(** When no process is ready all the living ones wait. *)
Lemma all_blocked s v :
  Inv [] s v -> next_ready v = None -> softblock_count s = 0 -> process_count s = 0.
Proof.
  intros HI [E1 E2]%next_ready_None Hsb. pose proof (inv_rep _ _ _ HI) as HRep.
  destruct (inv_counts _ _ _ HI) as [C1 C2]. rewrite C1.
  enough (MAX_PROC ≤ length (v_free v))%nat by (pose proof (free_short _ _ HRep); lia).
  rewrite <- (length_seq MAX_PROC 0) at 1. apply submseteq_length, NoDup_submseteq; [apply NoDup_seq|].
  intros x Hx%elem_of_seq. destruct (decide (x ∈ v_free v)) as [|Hf]; [done|exfalso].
  assert (x < MAX_PROC)%nat as Hlt by lia. destruct (rep_pcb _ _ HRep _ Hlt) as [c Hc].
  assert (in_queue v x) as Hq.
  { destruct (decide (in_queue v x)) as [|Hn]; [done|].
    by pose proof (inv_placed _ _ _ HI x Hlt Hn) as ?%elem_of_nil. }
  apply (in_queue_sem _ _ _ _ _ HRep (inv_asl _ _ _ HI) Hc) in Hq as [|[([|] & Hb)|Hne]]; [done|..].
  - simpl in Hb. rewrite E1 in Hb. by apply elem_of_nil in Hb.
  - simpl in Hb. rewrite E2 in Hb. by apply elem_of_nil in Hb.
  - pose proof (blocked_count_upd _ x c (set_p_sem_add 0 c) Hc) as Hu.
    rewrite (bool_decide_true (p_sem_add c ≠ 0)) in Hu by done. simpl in Hu. lia.
Qed.

(** The state the nucleus waits for an interrupt in. *)
Definition waiting_state (s : kernel) : kernel :=
  set_cpu_status (status_il_on_all (status_interrupts_on_nucleus (cpu_status s)))
    (set_interval_timer (u32 IT_INTERVAL) (set_active_process None s)).

Lemma schedule_idle_spec s v e :
  Inv [] s v -> yield_process s = None -> next_ready v = None ->
  schedule None e s =
  if process_count s =? 0 then Exit Halted s else Exit Waiting (waiting_state s).
Proof.
  intros HI Hy Hn. rewrite schedule_none.
  assert (select s = if process_count s =? 0 then Exit Halted s else Exit Waiting (waiting_state s)) as Hsel.
  { rewrite (select_nothing _ _ (inv_rep _ _ _ HI) Hn), bind_gets, Hy.
    rewrite bool_decide_false by (by intros []). unfold wait_or_die. rewrite !bind_gets.
    destruct (Z.eqb_spec (process_count s) 0) as [Hz|Hz]; [done|].
    destruct (Z.eqb_spec (softblock_count s) 0) as [Hz'|Hz']; [|done].
    destruct Hz. by eapply all_blocked. }
  destruct (process_count s =? 0); by rewrite (bind_exit _ _ _ _ _ Hsel).
Qed.

(** A process that yielded goes behind the process that runs instead. *)
Lemma schedule_yield_spec s v i d b j l e :
  Inv [i] s v -> yield_process s = Some i -> pcb_table s !! i = Some d ->
  ¬ in_queue v i -> p_sem_add d = 0 -> next_ready v = Some (b, j, l) ->
  ∃ c s', pcb_table s !! j = Some c ∧
    schedule None e s = Exit (Running (running_state c)) s' ∧ dispatched j c s s' ∧
    let v' := v_enqueue (is_true (p_prio d)) i (set_v_ready b l v) in
    Inv [j] s' v' ∧ blocked s' v' = blocked s v.
Proof.
  intros HI Hy Hd Hi Hz Hn. destruct (next_ready_Some _ _ _ _ Hn) as [Er _].
  assert (j ∈ v_ready b v) as Hj by (rewrite Er; left).
  assert (j < MAX_PROC)%nat as Hlt by (eapply in_queue_valid; [by apply HI|]; eauto with view).
  assert (i ≠ j) as Hne by (intros ->; apply Hi; eauto with view).
  destruct (rep_pcb _ _ (inv_rep _ _ _ HI) _ Hlt) as [c Hc].
  destruct (select_ready [i] s v b j l HI Hn) as (h1 & Hrun1 & HI1 & Hb1).
  match type of HI1 with Inv _ ?st ?q => set (s1 := st) in *; set (v1 := q) in * end.
  assert (i ∉ v_free v1) as Hf1.
  { unfold v1. rewrite v_free_set_ready. intros ?. apply Hi. by apply in_free. }
  destruct (enqueue_process_spec [j; i] s1 v1 i d HI1 Hd Hf1 Hz) as (h2 & Hrun2 & HI2 & Hb2).
  set (v2 := v_enqueue (is_true (p_prio d)) i v1) in *.
  assert (Inv [j] (set_yield_process None (set_links h2 s1)) v2 ∧
          blocked (set_yield_process None (set_links h2 s1)) v2 = blocked (set_links h2 s1) v2)
    as [HI3 Hb3].
  { apply (Inv_ext [j] (set_links h2 s1)); try done.
    eapply Inv_placed; [exact HI2|]. intros x [->|[->|?%elem_of_nil]%elem_of_cons]%elem_of_cons;
      [left; left| |done]. right. unfold v2. apply in_queue_enqueue. by left. }
  destruct (scheduler_takeover_spec (set_yield_process None (set_links h2 s1)) j c)
    as (s' & Hrun & Hd' & Hl); [done..|].
  destruct (dispatched_inv _ _ _ _ _ _ HI3 Hc Hd' Hl) as [HI' Hb'].
  exists c, s'. cbv zeta. split_and!; [done| | |done|by rewrite Hb', Hb3, Hb2, Hb1].
  - rewrite schedule_none. step_with Hrun1. rewrite bind_gets. change (yield_process s1) with (yield_process s).
    rewrite Hy.
    assert ((c <- pcb_at i ;; insert_proc_q (Some (process_queue c)) (Some i) ;;
             modify (set_yield_process None)) s1 =
            Ok tt (set_yield_process None (set_links h2 s1))) as Hy2.
    { rewrite <- (bind_assoc (pcb_at i) (fun c => insert_proc_q (Some (process_queue c)) (Some i))
                    (fun _ => modify (set_yield_process None))).
      unfold enqueue_process in Hrun2. by step_with Hrun2. }
    step_with Hy2. rewrite bind_gets.
    rewrite bool_decide_true by done. exact Hrun.
  - destruct Hd' as (h & lt & ->). by exists h, lt.
Qed.

(** Alone, a process that yields runs again. *)
Lemma schedule_yield_alone_spec s v i c e :
  Inv [i] s v -> yield_process s = Some i -> pcb_table s !! i = Some c -> next_ready v = None ->
  ∃ s', schedule None e s = Exit (Running (running_state c)) s' ∧ dispatched i c s s' ∧
    Inv [i] s' v ∧ blocked s' v = blocked s v.
Proof.
  intros HI Hy Hc Hn.
  assert (Inv [i] (set_yield_process None (set_active_process (Some i) s)) v ∧
    blocked (set_yield_process None (set_active_process (Some i) s)) v = blocked s v) as [HI1 Hb1].
  { by eapply Inv_ext. }
  destruct (schedule_finish (set_yield_process None (set_active_process (Some i) s)) i c [i] v)
    as (s' & Hrun & Hd & HI' & Hb); try done.
  exists s'. split_and!; [| |done|by rewrite Hb].
  - assert (select s = Ok tt (set_yield_process None (set_active_process (Some i) s))) as Hsel.
    { rewrite (select_nothing _ _ (inv_rep _ _ _ HI) Hn), bind_gets, Hy. by rewrite bool_decide_true by done. }
    rewrite schedule_none. step_with Hsel. exact Hrun.
  - destruct Hd as (h & lt & ->). by exists h, lt.
Qed.
End dispatch.
