(* ===== verification/Semaphores.v ===== *)
(** * Semaphores and devices

    [P] and [V] ([os/src/semaphores.c]), the table of device semaphores
    ([phase2/src/semaphores.c]) and the way from the address of a command
    register to its device ([phase2/src/devices.c]).

    The specifications say what [P] and [V] do to the abstract map of blocked
    processes; for the device tables, that distinct devices have distinct
    semaphores and that [get_iodev] finds the semaphore of the device whose
    command register it is given. *)

From Stdlib Require Import ZArith Lia String.
From stdpp Require Import base tactics option numbers gmap list.
From S2P Require Import Prelude ListHead Machine Kernel View Pcb Asl Scheduler Invariant Dispatch.

Open Scope string_scope.
Open Scope list_scope.
Open Scope Z_scope.

(** ** Device semaphores *)

Definition SEMAPHORES_NUM : Z := (DEVINTNUM + 1) * DEVPERINT + 1.

(** [iodev_t] *)
Record iodev_t : Type := Iodev { semaphore : Z; interrupt_line : Z }.

Section devices.
Context `{Umps}.

(** [&semaphores[i]] *)
Definition semaphores (i : Z) : Z := u32 (semaphores_addr + 4 * i).
Definition get_semaphores : Z := semaphores 0.

(** The index of a device's semaphore. *)
Definition sem_index (int_l dev_n : Z) (is_w : bool) : Z :=
  let sem := (int_l - IL_DISK) * DEVPERINT in
  if int_l =? IL_TERMINAL then sem + (2 * dev_n + (if is_w then 1 else 0)) else sem + dev_n.

Definition get_semaphore (int_l dev_n : Z) (is_w : bool) : KM Z :=
  when (IL_TERMINAL <? int_l) || (int_l <? IL_DISK) do
    scheduler_panic "Semaphore not found\n" [] ;;
  ret (semaphores (sem_index int_l dev_n is_w)).

Definition get_timer_semaphore : Z := semaphores (SEMAPHORES_NUM - 1).

Definition init_semaphores : KM unit :=
  for_ (Z.to_nat SEMAPHORES_NUM) 0 (fun i => write_word (semaphores (Z.of_nat i)) 0).

Definition is_in_line (dev il : Z) : bool :=
  let il := if il =? IL_TERMINAL then il * 2 else il in
  dev <? (il + 1 - IL_DISK) * DEVPERINT.

(** [for (i = first; i < first + n; ++i) if (is_in_line(dev_n, i)) ...] *)
Fixpoint find_line (n : nat) (i dev_n : Z) : Z :=
  match n with
  | O => -1
  | S n' => if is_in_line dev_n i then i else find_line n' (i + 1) dev_n
  end.

Definition get_iodev (cmd_addr : Z) : KM iodev_t :=
  let dev_n := s32 (u32 (cmd_addr - DEV_REG_START) / DEV_REG_SIZE) in
  let int_l := find_line (Z.to_nat (IL_TERMINAL + 1 - IL_DISK)) IL_DISK dev_n in
  let base := u32 (DEV_REG_SIZE * dev_n + DEV_REG_START) in
  let is_w := s32 (base + TRANSM_COMMAND) =? s32 cmd_addr in
  sem <- get_semaphore int_l (Z.rem dev_n DEVPERINT) is_w ;;
  ret {| semaphore := sem; interrupt_line := int_l |}.
End devices.

(** ** P and V *)

Section operations.
Context `{Umps}.

Definition reschedule : KM scheduler_control_t :=
  a <- gets active_process ;; ret (CONTROL_RESCHEDULE a).

Definition P (sem_addr : Z) (p : option nat) : KM scheduler_control_t :=
  match p with
  | None => reschedule
  | Some i =>
      if sem_addr =? 0 then reschedule
      else
        v <- read_int sem_addr ;;
        if v =? 0 then
          alone <- on_links (list_null (L_p_list i)) ;;
          when negb alone do (dequeue_process (Some i) ;; ret tt) ;;
          r <- insert_blocked sem_addr (Some i) ;;
          when 0 <? r do scheduler_panic "PASSEREN failed %d\n" [r] ;;
          modify (fun s => set_softblock_count (u32 (softblock_count s + 1)) s) ;;
          ret CONTROL_BLOCK
        else
          t <- remove_blocked sem_addr ;;
          match t with
          | Some _ =>
              enqueue_process t ;;
              modify (fun s => set_softblock_count (u32 (softblock_count s - 1)) s) ;;
              reschedule
          | None =>
              v <- read_int sem_addr ;;
              write_word sem_addr (v - 1) ;;
              reschedule
          end
  end.

Definition V (sem_addr : Z) : KM (option nat) :=
  if sem_addr =? 0 then ret None
  else
    v <- read_int sem_addr ;;
    if v =? 1 then
      a <- gets active_process ;;
      match a with
      | None => ret tt
      | Some i =>
          c <- pcb_at i ;;
          when p_sem_add c =? 0 do
            (alone <- on_links (list_null (L_p_list i)) ;;
             when negb alone do (dequeue_process (Some i) ;; ret tt) ;;
             modify (fun s => set_softblock_count (u32 (softblock_count s + 1)) s) ;;
             r <- insert_blocked sem_addr (Some i) ;;
             when 0 <? r do scheduler_panic "VERHOGEN failed\n" [])
      end ;;
      ret None
    else
      p <- remove_blocked sem_addr ;;
      match p with
      | Some _ =>
          modify (fun s => set_softblock_count (u32 (softblock_count s - 1)) s) ;;
          enqueue_process p ;;
          ret p
      | None =>
          v <- read_int sem_addr ;;
          write_word sem_addr (v + 1) ;;
          gets active_process
      end.
End operations.

(** ** The device tables *)

Section device_specs.
Context `{UmpsLaws}.
Implicit Types (line dev : Z) (s : kernel).

Ltac laws := rewrite ?il_disk, ?il_terminal, ?dev_reg_start, ?dev_reg_size,
  ?il_flash, ?il_printer, ?il_ethernet, ?n_dev_per_il in *.

(** A device: its interrupt line and its number on the line. *)
Definition is_device (line dev : Z) : Prop := IL_DISK <= line <= IL_TERMINAL /\ 0 <= dev < DEVPERINT.

(** Only terminals have a second sub-device. *)
Definition is_subdevice (line dev : Z) (w : bool) : Prop :=
  is_device line dev /\ (w = true -> line = IL_TERMINAL).

Lemma sem_index_range line dev w :
  is_device line dev -> 0 <= sem_index line dev w < SEMAPHORES_NUM - 1.
Proof.
  unfold is_device, sem_index, SEMAPHORES_NUM, DEVINTNUM, DEVPERINT. laws. intros [? ?].
  destruct (Z.eqb_spec line 7), w; lia.
Qed.

Lemma sem_index_inj line dev w line' dev' w' :
  is_subdevice line dev w -> is_subdevice line' dev' w' ->
  sem_index line dev w = sem_index line' dev' w' -> line = line' /\ dev = dev' /\ w = w'.
Proof.
  unfold is_subdevice, is_device, sem_index, DEVPERINT. laws.
  intros [[? ?] Hw] [[? ?] Hw']. destruct (Z.eqb_spec line 7), (Z.eqb_spec line' 7), w, w';
    try (specialize (Hw eq_refl); lia); try (specialize (Hw' eq_refl); lia); lia.
Qed.

Lemma semaphores_value i :
  0 <= i < SEMAPHORES_NUM -> semaphores i = semaphores_addr + 4 * i.
Proof.
  intros Hi. unfold semaphores. apply u32_small. pose proof semaphores_in_ram.
  unfold SEMAPHORES_NUM, DEVINTNUM, DEVPERINT in Hi. lia.
Qed.

Lemma semaphores_addr_ok i : 0 <= i < SEMAPHORES_NUM -> addr_ok (semaphores i).
Proof.
  intros Hi. rewrite semaphores_value by done. pose proof semaphores_in_ram.
  pose proof semaphores_aligned. unfold SEMAPHORES_NUM, DEVINTNUM, DEVPERINT in Hi.
  split; [lia|]. rewrite Z.mul_comm, Z_mod_plus_full. done.
Qed.

Lemma get_semaphore_spec line dev w s :
  is_device line dev -> get_semaphore line dev w s = Ok (semaphores (sem_index line dev w)) s.
Proof.
  intros [Hl _]. unfold get_semaphore.
  rewrite (proj2 (Z.ltb_ge _ _)), (proj2 (Z.ltb_ge _ _)) by lia. done.
Qed.

Lemma find_line_spec dev_n line dev :
  is_device line dev -> dev_n = (line - IL_DISK) * DEVPERINT + dev ->
  find_line (Z.to_nat (IL_TERMINAL + 1 - IL_DISK)) IL_DISK dev_n = line.
Proof.
  unfold is_device, is_in_line, DEVPERINT. laws. intros [Hl Hd] ->.
  change (Z.to_nat (7 + 1 - 3)) with 5%nat. unfold find_line, is_in_line, DEVPERINT. laws.
  repeat (match goal with |- (if ?b then _ else _) = _ => destruct b eqn:? end;
    [rewrite Z.ltb_lt in *; simpl in *; lia | rewrite Z.ltb_ge in *; simpl in * ]); lia.
Qed.

(** The command register of a device or, for terminals, of one of its two
    sub-devices. *)
Definition command_addr (line dev : Z) (w : bool) : Z :=
  DEV_REG_ADDR line dev + (if w then TRANSM_COMMAND else RECV_COMMAND).

Lemma command_addr_ok line dev w : is_subdevice line dev w -> addr_ok (command_addr line dev w).
Proof.
  intros [[Hl Hd] _]. unfold command_addr, DEV_REG_ADDR, DEVPERINT, TRANSM_COMMAND, RECV_COMMAND in *. laws.
  split; [destruct w; lia|].
  replace (_ + _) with (0 + (67108885 + ((line - 3) * 8 + dev) * 4 + (if w then 3 else 1)) * 4)
    by (destruct w; lia).
  by rewrite Z_mod_plus_full.
Qed.

Lemma get_iodev_spec line dev w s :
  is_subdevice line dev w ->
  get_iodev (command_addr line dev w) s =
  Ok {| semaphore := semaphores (sem_index line dev w); interrupt_line := line |} s.
Proof.
  intros [Hdev Hw]. pose proof Hdev as [Hl Hd].
  set (n := (line - IL_DISK) * DEVPERINT + dev).
  assert (0 <= n < 40) as Hn by (unfold n, DEVPERINT in *; laws; lia).
  assert (s32 (u32 (command_addr line dev w - DEV_REG_START) / DEV_REG_SIZE) = n) as Hdn.
  { unfold command_addr, DEV_REG_ADDR, TRANSM_COMMAND, RECV_COMMAND. fold n. laws.
    replace (u32 _) with (n * 16 + (if w then 12 else 4)) by (rewrite u32_small; destruct w; lia).
    rewrite Z.div_add_l, (Z.div_small (if w then 12 else 4)) by (destruct w; lia).
    rewrite Z.add_0_r. apply s32_small. lia. }
  unfold get_iodev. rewrite Hdn, (find_line_spec n line dev Hdev eq_refl).
  assert (Z.rem n DEVPERINT = dev) as ->.
  { unfold n, DEVPERINT in *. rewrite Z.rem_mod_nonneg by (laws; lia).
    rewrite Z.add_comm, Z_mod_plus_full. apply Z.mod_small. lia. }
  assert ((s32 (u32 (DEV_REG_SIZE * n + DEV_REG_START) + TRANSM_COMMAND) =?
           s32 (command_addr line dev w)) = w) as ->.
  { unfold command_addr, DEV_REG_ADDR, TRANSM_COMMAND, RECV_COMMAND. fold n. laws.
    rewrite u32_small by lia. rewrite !s32_small by (destruct w; lia).
    destruct w; [apply Z.eqb_eq|apply Z.eqb_neq]; lia. }
  by step_with (get_semaphore_spec line dev w s Hdev).
Qed.

(** The line that [get_iodev] finds, if there is one. *)
Lemma find_line_range dev_n :
  0 <= dev_n -> let il := find_line (Z.to_nat (IL_TERMINAL + 1 - IL_DISK)) IL_DISK dev_n in
  if dev_n <? 96 then IL_DISK <= il <= IL_TERMINAL else il = -1.
Proof.
  intros Hn. cbv zeta. laws. change (Z.to_nat (7 + 1 - 3)) with 5%nat.
  unfold find_line, is_in_line, DEVPERINT. laws. simpl.
  destruct (Z.ltb_spec dev_n 96);
    repeat match goal with |- context [dev_n <? ?b] => destruct (Z.ltb_spec dev_n b) end; lia.
Qed.

(** Whatever address it is given, [get_iodev] panics or finds the semaphore
    of a device, and then the address is in the devices' area or just after. *)
Lemma get_iodev_cases cmd_addr s :
  (∃ s', get_iodev cmd_addr s = Exit Panicked s') ∨
  ∃ n il, get_iodev cmd_addr s = Ok {| semaphore := semaphores n; interrupt_line := il |} s ∧
    0 <= n < SEMAPHORES_NUM - 1 ∧ u32 cmd_addr < 0x20000000.
Proof.
  unfold get_iodev. pose proof (u32_range (cmd_addr - DEV_REG_START)) as Hu.
  set (x := u32 (cmd_addr - DEV_REG_START)) in *.
  assert (0 <= x / DEV_REG_SIZE < 2 ^ 28) as Hx.
  { laws. split; [apply Z.div_pos; lia|]. apply Z.div_lt_upper_bound; lia. }
  rewrite (s32_small (x / _)) by lia.
  set (n := x / DEV_REG_SIZE) in *. pose proof (find_line_range n ltac:(lia)) as Hl. cbv zeta in Hl.
  set (il := find_line _ _ _) in *. set (w := _ =? _).
  destruct (Z.ltb_spec n 96) as [Hlt|Hge].
  - right. assert (is_device il (Z.rem n DEVPERINT)) as Hdev.
    { split; [done|]. apply Z.rem_bound_pos; unfold DEVPERINT; lia. }
    exists (sem_index il (Z.rem n DEVPERINT) w), il. split_and!.
    + by step_with (get_semaphore_spec _ _ w s Hdev).
    + by apply sem_index_range.
    + by apply sem_index_range.
    + assert (x < 1536). { unfold n in Hlt. laws. rewrite (Z.div_mod x 16) by lia.
        pose proof (Z.mod_pos_bound x 16 ltac:(lia)). lia. }
      unfold x, u32 in *. laws. pose proof (Z.mod_pos_bound cmd_addr (2 ^ 32) ltac:(lia)).
      rewrite <- (Zminus_mod_idemp_l cmd_addr) in *.
      destruct (Z.ltb_spec (cmd_addr mod 2 ^ 32) 0x20000000); [done|].
      rewrite (Z.mod_small (cmd_addr mod 2 ^ 32 - 268435540)) in * by lia. lia.
  - left. unfold get_semaphore. rewrite Hl. rewrite (proj2 (Z.ltb_ge IL_TERMINAL (-1))) by (laws; lia).
    rewrite (proj2 (Z.ltb_lt (-1) IL_DISK)) by (laws; lia). by eexists.
Qed.
End device_specs.

(** ** What P and V do *)

Section pv_specs.
Context `{Umps}.
Implicit Types (s : kernel) (v : view) (a : list nat) (i t : nat) (k : Z) (c : pcb_t).

(** The [int] at an address. *)
Definition sem_value (s : kernel) (k : Z) : Z := s32 (default 0 (mem s !! k)).

Lemma addr_ok_word k : addr_ok k -> word_addr k = true.
Proof.
  intros [Hk Ha]. unfold word_addr. rewrite Ha.
  by rewrite (proj2 (Z.leb_le 0 k)), (proj2 (Z.ltb_lt _ _)) by lia.
Qed.

Lemma read_int_ok k s : addr_ok k -> read_int k s = Ok (sem_value s k) s.
Proof.
  intros Hk. unfold read_int. by step_with (read_word_ok s k (addr_ok_word _ Hk)).
Qed.

Lemma write_word_ok k x s :
  addr_ok k -> write_word k x s = Ok tt (set_mem (<[k := u32 x]> (mem s)) s).
Proof. intros Hk. unfold write_word. by rewrite (addr_ok_word _ Hk). Qed.

(** Memory is not part of the invariant. *)
Lemma Inv_mem a s v m : Inv a s v -> Inv a (set_mem m s) v ∧ blocked (set_mem m s) v = blocked s v.
Proof. intros HI. by eapply Inv_ext. Qed.

Lemma enqueue_run s v i c :
  Rep s v -> pcb_table s !! i = Some c ->
  ∃ h', enqueue_process (Some i) s = Ok tt (set_links h' s) ∧
    Rep (set_links h' s) (v_enqueue (is_true (p_prio c)) i v).
Proof.
  intros HRep Hc.
  assert (i < MAX_PROC)%nat as Hlt by (rewrite <- (lists_pcbs _ _ HRep); by eapply lookup_lt_Some).
  destruct (insert_proc_q_spec s v i (is_true (p_prio c)) HRep Hlt) as (h' & Hrun & HRep').
  exists h'. split; [|done]. unfold enqueue_process. step_with (pcb_at_ok _ _ _ Hc).
  by rewrite process_queue_ready.
Qed.

Lemma rep_alone s v i c :
  Rep s v -> pcb_table s !! i = Some c -> ¬ in_queue v i ->
  on_links (list_null (L_p_list i)) s = Ok true s.
Proof.
  intros HRep Hc Hq. apply (rep_null_detached _ _ HRep); [by apply detached_p_list|].
  simpl. rewrite <- (lists_pcbs _ _ HRep). by eapply lookup_lt_Some.
Qed.

(** Waking up the first process that waits on [k]: it goes to the end of its
    ready queue.  [P] and [V] update the counter at different points. *)
Definition woken (k : Z) (t : nat) (c : pcb_t) (a : list nat) (s s' : kernel) (v v' : view) : Prop :=
  ∃ h v1, s' = set_softblock_count (u32 (softblock_count s - 1))
            (set_links h (set_pcb_table (<[t := set_p_sem_add 0 c]> (pcb_table s)) s)) ∧
    pcb_table s !! t = Some c ∧ Inv a s' v' ∧ same_procs v v1 ∧
    v' = v_enqueue (is_true (p_prio c)) t v1 ∧ blocked s' v' = leave k t (blocked s v).

Lemma wake_spec a s v k t l :
  Inv a s v -> addr_ok k -> blocked s v !! k = Some (t :: l) ->
  ∃ c s1 s' v', remove_blocked k s = Ok (Some t) s1 ∧
    (enqueue_process (Some t) ;; modify (fun s => set_softblock_count (u32 (softblock_count s - 1)) s))
      s1 = Ok tt s' ∧
    (modify (fun s => set_softblock_count (u32 (softblock_count s - 1)) s) ;; enqueue_process (Some t))
      s1 = Ok tt s' ∧
    woken k t c a s s' v v'.
Proof.
  intros HI Hk Hl.
  destruct (remove_blocked_inv a s v k t l HI Hk Hl)
    as (c & h1 & v1 & Hc & Hsem & Hrun1 & HI1 & Hsame & Hb1).
  match type of Hrun1 with _ = Ok _ ?st => set (s1 := st) in * end.
  assert (Rep s1 v1) as HRep1 by (eapply Lists_same; [by apply HI1|done..]).
  assert (pcb_table s1 !! t = Some (set_p_sem_add 0 c)) as Hc1 by (by eapply table_upd_eq).
  destruct (enqueue_run s1 v1 t _ HRep1 Hc1) as (h2 & Hrun2 & HRep2).
  set (s2 := set_softblock_count (u32 (softblock_count s - 1)) s1) in *.
  assert (t ∉ v_free v1) as Hf.
  { destruct Hsame as (-> & _). pose proof (inv_rep _ _ _ HI) as HRep.
    pose proof Hl as (j & Hj & Ht & Hq)%(blocked_lookup _ _ _ HRep (inv_asl _ _ _ HI)).
    intros ?. eapply (free_not_procq _ _ HRep); [exact Hq|done|left]. }
  destruct (Inv_enqueue (t :: a) s2 h2 v1 t (set_p_sem_add 0 c) HI1 Hc1 Hf eq_refl) as [HI2 Hb2].
  { eapply Lists_same; [exact HRep2|done..]. }
  destruct (enqueue_run s2 v1 t _ (inv_rep _ _ _ HI1) Hc1) as (h3 & Hrun3 & _).
  assert (h3 = h2) as ->.
  { assert (enqueue_process (Some t) s1 = Ok tt (set_links h2 s1)) as E2 by done.
    assert (enqueue_process (Some t) s2 = Ok tt (set_links h3 s2)) as E3 by done.
    unfold enqueue_process in E2, E3. rewrite (bind_ok _ _ _ _ _ (pcb_at_ok s1 t _ Hc1)) in E2.
    rewrite (bind_ok _ _ _ _ _ (pcb_at_ok s2 t _ Hc1)) in E3.
    unfold insert_proc_q, bind, on_links, zoom in E2, E3. change (links s2) with (links s1) in E3.
    destruct (list_sdel _ (links s1)) as [u h|[]| |]; try done.
    change (links (set_links h s1)) with h in E2. change (links (set_links h s2)) with h in E3.
    destruct (list_add_tail _ _ h) as [u' h'|[]| |]; try done. by simplify_eq. }
  exists c, s1, (set_links h2 s2), (v_enqueue (is_true (p_prio c)) t v1). split_and!.
  - done.
  - step_with Hrun2. done.
  - rewrite bind_modify. exact Hrun3.
  - exists h2, v1. split_and!; [done|done| |done|done|etrans; [exact Hb2|exact Hb1]].
    eapply Inv_placed; [exact HI2|]. intros x [->|Hx]%elem_of_cons; [|by left].
    right. apply in_queue_enqueue. by left.
Qed.

(** Where everybody is after a wake-up. *)
Lemma woken_ready k t c a s s' v v' b :
  Inv a s v -> woken k t c a s s' v v' -> p_sem_add c ≠ 0 ->
  v_ready b v' = (if Bool.eqb (is_true (p_prio c)) b then v_ready b v ++ [t] else v_ready b v) ∧
  v_free v' = v_free v ∧ v_child v' = v_child v.
Proof.
  intros HI (h & v1 & -> & Hc & HI' & Hsame & -> & Hb) Hne.
  pose proof (inv_rep _ _ _ HI) as HRep. pose proof (inv_asl _ _ _ HI) as HA.
  destruct (asl_out _ _ _ HA _ _ Hc Hne) as (j & l & Hq & Ht).
  pose proof Hsame as (E1 & E2 & E3 & E4).
  assert (∀ b', rem t (v_ready b' v1) = v_ready b' v) as Hr.
  { intros b'. rewrite (same_procs_ready _ _ b' Hsame). apply rem_id. intros Hin.
    destruct b'; [by eapply (hi_not_procq _ _ HRep) | by eapply (lo_not_procq _ _ HRep)]. }
  unfold v_enqueue. rewrite ready_set_ready, v_free_set_ready, v_child_set_ready, !v_ready_unlink, !Hr.
  split_and!; [| |done].
  - destruct (Bool.eqb _ b) eqn:E; [|done]. by apply eqb_prop in E as ->.
  - simpl. rewrite E1. apply rem_id. intros Hin. by eapply (free_not_procq _ _ HRep).
Qed.

Lemma P_null s i k : k = 0 -> P k (Some i) s = Ok (CONTROL_RESCHEDULE (active_process s)) s.
Proof. by intros ->. Qed.

Lemma P_block a s v k i c :
  Inv a s v -> addr_ok k -> sem_value s k = 0 -> pcb_table s !! i = Some c ->
  p_sem_add c = 0 -> ¬ in_queue v i ->
  ∃ h T v', let s' := set_softblock_count (u32 (softblock_count s + 1)) (set_links h
                (set_semd_table T (set_pcb_table (<[i := set_p_sem_add k c]> (pcb_table s)) s))) in
    P k (Some i) s = Ok CONTROL_BLOCK s' ∧ Inv (rem i a) s' v' ∧ same_procs v v' ∧
    blocked s' v' = <[k := default [] (blocked s v !! k) ++ [i]]> (blocked s v).
Proof.
  intros HI Hk Hv Hc Hz Hi. cbv zeta.
  destruct (insert_blocked_inv a s v k i c HI Hk Hc Hz Hi) as (h & T & v' & Hrun & HI' & Hsame & Hb).
  exists h, T, v'. split_and!; [|done..]. unfold P. rewrite (addr_ok_nonzero _ Hk).
  step_with (read_int_ok k s Hk). rewrite Hv. run_if.
  step_with (rep_alone _ _ _ _ (inv_rep _ _ _ HI) Hc Hi). run_if. rewrite bind_ret_l.
  by step_with Hrun.
Qed.

Lemma P_wake a s v k i t l :
  Inv a s v -> addr_ok k -> sem_value s k ≠ 0 -> blocked s v !! k = Some (t :: l) ->
  ∃ c s' v', P k (Some i) s = Ok (CONTROL_RESCHEDULE (active_process s)) s' ∧ woken k t c a s s' v v'.
Proof.
  intros HI Hk Hv Hl. destruct (wake_spec a s v k t l HI Hk Hl) as (c & s1 & s' & v' & Hrun1 & Hrun2 & _ & Hw).
  exists c, s', v'. split; [|done]. unfold P. rewrite (addr_ok_nonzero _ Hk).
  step_with (read_int_ok k s Hk). rewrite (proj2 (Z.eqb_neq _ _) Hv). step_with Hrun1.
  rewrite <- (bind_assoc (enqueue_process (Some t))
    (fun _ => modify (fun s => set_softblock_count (u32 (softblock_count s - 1)) s)) (fun _ => reschedule)).
  step_with Hrun2. by destruct Hw as (h & v1 & -> & _).
Qed.

Lemma P_dec a s v k i :
  Inv a s v -> addr_ok k -> sem_value s k ≠ 0 -> blocked s v !! k = None ->
  P k (Some i) s = Ok (CONTROL_RESCHEDULE (active_process s))
                     (set_mem (<[k := u32 (sem_value s k - 1)]> (mem s)) s).
Proof.
  intros HI Hk Hv Hl. unfold P. rewrite (addr_ok_nonzero _ Hk).
  step_with (read_int_ok k s Hk). rewrite (proj2 (Z.eqb_neq _ _) Hv).
  step_with (remove_blocked_none _ _ _ (inv_rep _ _ _ HI) (inv_asl _ _ _ HI) Hk Hl).
  step_with (read_int_ok k s Hk). by step_with (write_word_ok k (sem_value s k - 1) s Hk).
Qed.

Lemma V_block a s v k i c :
  Inv a s v -> addr_ok k -> sem_value s k = 1 -> active_process s = Some i ->
  pcb_table s !! i = Some c -> p_sem_add c = 0 -> ¬ in_queue v i ->
  ∃ h T v', let s' := set_softblock_count (u32 (softblock_count s + 1)) (set_links h
                (set_semd_table T (set_pcb_table (<[i := set_p_sem_add k c]> (pcb_table s)) s))) in
    V k s = Ok None s' ∧ Inv (rem i a) s' v' ∧ same_procs v v' ∧
    blocked s' v' = <[k := default [] (blocked s v !! k) ++ [i]]> (blocked s v).
Proof.
  intros HI Hk Hv Ha Hc Hz Hi. cbv zeta.
  destruct (insert_blocked_inv_at (u32 (softblock_count s + 1)) a s v k i c HI Hk Hc Hz Hi)
    as (h & T & v' & Hrun & HI' & Hsame & Hb).
  exists h, T, v'. split_and!; [|done..]. unfold V. rewrite (addr_ok_nonzero _ Hk).
  step_with (read_int_ok k s Hk). rewrite Hv. run_if. rewrite bind_gets, Ha.
  rewrite bind_assoc. step_with (pcb_at_ok _ _ _ Hc). rewrite Hz. run_if.
  rewrite bind_assoc. step_with (rep_alone _ _ _ _ (inv_rep _ _ _ HI) Hc Hi).
  run_if. rewrite !bind_assoc, bind_ret_l, bind_assoc, bind_modify, bind_assoc.
  by step_with Hrun.
Qed.

(** A full semaphore and nobody to stop: nothing happens. *)
Lemma V_full s k :
  addr_ok k -> sem_value s k = 1 -> active_process s = None -> V k s = Ok None s.
Proof.
  intros Hk Hv Ha. unfold V. rewrite (addr_ok_nonzero _ Hk).
  step_with (read_int_ok k s Hk). rewrite Hv. run_if. by rewrite bind_gets, Ha.
Qed.

Lemma V_wake a s v k t l :
  Inv a s v -> addr_ok k -> sem_value s k ≠ 1 -> blocked s v !! k = Some (t :: l) ->
  ∃ c s' v', V k s = Ok (Some t) s' ∧ woken k t c a s s' v v'.
Proof.
  intros HI Hk Hv Hl. destruct (wake_spec a s v k t l HI Hk Hl) as (c & s1 & s' & v' & Hrun1 & _ & Hrun2 & Hw).
  exists c, s', v'. split; [|done]. unfold V. rewrite (addr_ok_nonzero _ Hk).
  step_with (read_int_ok k s Hk). rewrite (proj2 (Z.eqb_neq _ _) Hv). step_with Hrun1.
  rewrite <- (bind_assoc (modify (fun s => set_softblock_count (u32 (softblock_count s - 1)) s))
    (fun _ => enqueue_process (Some t)) (fun _ => ret (Some t))).
  by step_with Hrun2.
Qed.

Lemma V_inc a s v k :
  Inv a s v -> addr_ok k -> sem_value s k ≠ 1 -> blocked s v !! k = None ->
  V k s = Ok (active_process s) (set_mem (<[k := u32 (sem_value s k + 1)]> (mem s)) s).
Proof.
  intros HI Hk Hv Hl. unfold V. rewrite (addr_ok_nonzero _ Hk).
  step_with (read_int_ok k s Hk). rewrite (proj2 (Z.eqb_neq _ _) Hv).
  step_with (remove_blocked_none _ _ _ (inv_rep _ _ _ HI) (inv_asl _ _ _ HI) Hk Hl).
  step_with (read_int_ok k s Hk). by step_with (write_word_ok k (sem_value s k + 1) s Hk).
Qed.
End pv_specs.
