(* ===== verification/Contract.v ===== *)
(** * What the parts of the nucleus promise to each other

    Between two exceptions the nucleus is at rest: [On i c s v] when process
    [i] has the processor, [Idle s v] when nobody has it.  A handler is called
    in such a state and leaves a control that the scheduler can act on
    ([Ready]); the scheduler, or a handler that does not come back, leaves the
    machine at rest again ([Exits]).  The classes [Service] and [Interrupt]
    state the first promise and [schedule_contract] the second. *)

From Stdlib Require Import ZArith Lia String.
From stdpp Require Import base tactics option numbers gmap list vector relations.
From S2P Require Import Prelude ListHead Machine Kernel View Pcb Asl Scheduler Invariant Process Dispatch Semaphores.

Open Scope string_scope.
Open Scope list_scope.
Open Scope Z_scope.

Implicit Types (s : kernel) (v : view) (a : list nat) (i j : nat) (c : pcb_t).

(** The value of the clock's semaphore, which only [P] and [V] change. *)
Definition clock_ok `{Umps} (s : kernel) : Prop :=
  sem_value s get_timer_semaphore = 0 ∨ sem_value s get_timer_semaphore = 1.

(** Process [i], with PCB [c], has the processor. *)
Record On (i : nat) (c : pcb_t) (s : kernel) (v : view) : Prop := {
  on_inv : Inv [i] s v;
  on_active : active_process s = Some i;
  on_yield : yield_process s = None;
  on_pcb : pcb_table s !! i = Some c;
  on_sem : p_sem_add c = 0;
  on_queue : ¬ in_queue v i;
}.

(** Nobody has the processor. *)
Record Idle (s : kernel) (v : view) : Prop := {
  idle_inv : Inv [] s v;
  idle_active : active_process s = None;
  idle_yield : yield_process s = None;
}.

(** What an interrupt may find. *)
Definition Rest (s : kernel) (v : view) : Prop := (∃ i c, On i c s v) ∨ Idle s v.

(** What the scheduler is left with. *)
Inductive Ready (s : kernel) : scheduler_control_t -> Prop :=
| Ready_block v e : Inv [] s v -> yield_process s = None -> Ready s (Control None e)
| Ready_yield v i c e : Inv [i] s v -> yield_process s = Some i -> pcb_table s !! i = Some c ->
    p_sem_add c = 0 -> ¬ in_queue v i -> Ready s (Control None e)
| Ready_run v i c e : On i c s v -> Ready s (Control (Some i) e).

(** What an exit from the nucleus leaves. *)
Definition Exits `{Umps} (e : exit_t) (s : kernel) : Prop :=
  match e with
  | Running st => clock_ok s ∧ ∃ i c v, On i c s v ∧ st = p_s c
  | Waiting => clock_ok s ∧ ∃ v, Idle s v ∧ process_count s ≠ 0
  | InSupport ctx => clock_ok s ∧ ∃ i c v su, On i c s v ∧ p_support c ≠ 0 ∧
      supports s !! p_support c = Some su ∧ ∃ n, ctx = sup_except_context su !!! n
  | Halted => ∃ v, Inv [] s v ∧ process_count s = 0
  | Panicked | BadAddress _ => True
  end.

(** The promise of a system call to the dispatcher, the caller being on: it
    neither faults nor runs for ever. *)
Class Service `{Umps} (m : KM scheduler_control_t) : Prop :=
  service i c s v : On i c s v -> clock_ok s ->
    wp m (fun ctrl s' => Ready s' ctrl ∧ active_process s' = Some i ∧ clock_ok s') Exits s.

(** The same for what may also happen while nobody is on. *)
Class Interrupt `{Umps} (m : KM scheduler_control_t) : Prop :=
  interrupt s v : Rest s v -> clock_ok s ->
    wp m (fun ctrl s' => Ready s' ctrl ∧ clock_ok s') Exits s.

(** ** Steps that leave the tables alone *)

Record same_tables (s s' : kernel) : Prop := {
  st_links : links s' = links s;
  st_semd : semd_table s' = semd_table s;
  st_count : process_count s' = process_count s;
  st_blocked : softblock_count s' = softblock_count s;
  st_active : active_process s' = active_process s;
  st_yield : yield_process s' = yield_process s;
  st_roles : Forall2 same_role (pcb_table s) (pcb_table s');
}.

#[export] Instance same_tables_preorder : PreOrder same_tables.
Proof.
  split.
  - intros s. by split.
  - intros s1 s2 s3 [? ? ? ? ? ? R12] [? ? ? ? ? ? R23]. split; try congruence. by etrans.
Qed.

Lemma same_tables_upd s i c c' :
  pcb_table s !! i = Some c -> same_role c c' ->
  same_tables s (set_pcb_table (<[i := c']> (pcb_table s)) s).
Proof. intros Hc Hr. split; try done. by apply (Forall2_upd same_role _ _ _ _ Hc). Qed.

Section same_tables.
Context {s s' : kernel} (HS : same_tables s s').

Lemma same_tables_Inv a v : Inv a s v -> Inv a s' v ∧ blocked s' v = blocked s v.
Proof using HS. destruct HS. intros HI. by eapply Inv_ext. Qed.

Lemma same_tables_pcb i c :
  pcb_table s !! i = Some c -> ∃ c', pcb_table s' !! i = Some c' ∧ same_role c c'.
Proof using HS.
  intros Hc. destruct (Forall2_lookup_l _ _ _ _ _ (st_roles _ _ HS) Hc) as (c' & ? & ?). eauto.
Qed.

Lemma On_ext i c v : On i c s v -> ∃ c', On i c' s' v ∧ same_role c c'.
Proof using HS.
  intros [HI Ha Hy Hc Hz Hq]. destruct (same_tables_pcb i c Hc) as (c' & Hc' & Hr).
  exists c'. split; [|done]. destruct (same_tables_Inv [i] v HI) as [HI' _], HS, Hr as (_ & Hz' & _).
  split; congruence || done.
Qed.

Lemma Idle_ext v : Idle s v -> Idle s' v.
Proof using HS.
  intros [HI Ha Hy]. destruct (same_tables_Inv [] v HI) as [HI' _], HS. split; congruence || done.
Qed.

Lemma Rest_ext v : Rest s v -> Rest s' v.
Proof using HS.
  intros [(i & c & HO)|HO]; [left|right; by apply Idle_ext].
  destruct (On_ext i c v HO) as (c' & ? & _). by exists i, c'.
Qed.

Lemma Ready_ext ctrl : Ready s ctrl -> Ready s' ctrl.
Proof using HS.
  intros [v e HI Hy|v i c e HI Hy Hc Hz Hq|v i c e HO].
  - destruct (same_tables_Inv [] v HI) as [HI' _], HS. eapply Ready_block; [done|congruence].
  - destruct (same_tables_Inv [i] v HI) as [HI' _].
    destruct (same_tables_pcb i c Hc) as (c' & Hc' & _ & Hz' & _), HS.
    eapply Ready_yield; [done|congruence|done|congruence|done].
  - destruct (On_ext i c v HO) as (c' & HO' & _). by eapply Ready_run.
Qed.
End same_tables.

Lemma Ready_pcb s ctrl i : Ready s ctrl -> (i < MAX_PROC)%nat -> ∃ c, pcb_table s !! i = Some c.
Proof.
  intros HR Hi. assert (∃ v, Rep s v) as [v HRep].
  { destruct HR as [v e HI _|v j c e HI _ _ _ _|v j c e [HI _ _ _ _ _]]; exists v; apply HI. }
  by eapply rep_pcb.
Qed.

Lemma same_tables_mem s m : same_tables s (set_mem m s).
Proof. split; try done. Qed.

Lemma clock_ok_mem `{Umps} s s' : mem s' = mem s -> clock_ok s -> clock_ok s'.
Proof. unfold clock_ok, sem_value. by intros ->. Qed.

(** ** The scheduler *)

(** A process taken off its ready queue is on no other. *)
Lemma taken_detached s v b i l :
  Rep s v -> v_ready b v = i :: l -> ¬ in_queue (set_v_ready b l v) i.
Proof.
  intros HRep E Hq. assert (i ∈ v_ready b v) as Hi by (rewrite E; left).
  apply in_queue_ready_iff in Hq as [Hf|[(b' & Hb)|(j & q & Hj & Hin)]].
  - rewrite v_free_set_ready in Hf. by eapply free_not_ready.
  - rewrite ready_set_ready in Hb. destruct (Bool.eqb b b') eqn:Eb.
    + pose proof (rep_NoDup_ready _ _ b HRep) as Hnd. rewrite E in Hnd. by apply NoDup_cons in Hnd as [? _].
    + destruct b, b'; try done; [by eapply (hi_not_lo _ _ HRep)|by eapply (hi_not_lo _ _ HRep)].
  - rewrite v_procq_set_ready in Hj.
    destruct b; [by eapply (hi_not_procq _ _ HRep)|by eapply (lo_not_procq _ _ HRep)].
Qed.

(** Ready processes wait on nothing. *)
Lemma ready_unblocked a s v b i c :
  Inv a s v -> i ∈ v_ready b v -> pcb_table s !! i = Some c -> p_sem_add c = 0.
Proof.
  intros HI Hi Hc. destruct (decide (p_sem_add c = 0)) as [|Hne]; [done|].
  pose proof (inv_rep _ _ _ HI) as HRep.
  destruct (asl_out _ _ _ (inv_asl _ _ _ HI) _ _ Hc Hne) as (j & l & Hq & Hin).
  destruct b; [by destruct (hi_not_procq _ _ HRep _ _ _ Hq Hi)|by destruct (lo_not_procq _ _ HRep _ _ _ Hq Hi)].
Qed.

Lemma queue_of_free v i : ¬ in_queue v i -> i ∉ v_free v.
Proof. rewrite in_queue_ready_iff. tauto. Qed.

Section scheduler.
Context `{Umps}.

(** Giving the processor to [i]. *)
Lemma dispatched_on i c s s' v :
  dispatched i c s s' -> pcb_table s !! i = Some c -> Inv [i] s' v -> ¬ in_queue v i ->
  p_sem_add c = 0 -> On i (set_p_s (running_state c) c) s' v.
Proof.
  intros (h & lt & ->) Hc HI Hq Hz. split; try done. by eapply table_upd_eq.
Qed.

Lemma dispatched_mem i c s s' : dispatched i c s s' -> mem s' = mem s.
Proof. by intros (h & lt & ->). Qed.

Lemma dispatched_exits i c s s' v m :
  m s = Exit (Running (running_state c)) s' ->
  dispatched i c s s' -> pcb_table s !! i = Some c -> Inv [i] s' v -> ¬ in_queue v i ->
  p_sem_add c = 0 -> clock_ok s -> wp m (fun (_ : unit) _ => False) Exits s.
Proof.
  intros Hrun Hd Hc HI Hq Hz Hk. unfold wp. rewrite Hrun. split.
  - eapply clock_ok_mem; [by eapply dispatched_mem|done].
  - exists i, (set_p_s (running_state c) c), v. split; [by apply (dispatched_on i c s)|done].
Qed.

Lemma schedule_block_exits s v e :
  Inv [] s v -> yield_process s = None -> clock_ok s ->
  wp (schedule None e) (fun _ _ => False) Exits s.
Proof.
  intros HI Hy Hk. pose proof (inv_rep _ _ _ HI) as HRep.
  destruct (next_ready v) as [[[b i] l]|] eqn:Hn.
  - destruct (schedule_ready_spec [] s v b i l e HI Hy Hn) as (c & s' & Hc & Hrun & Hd & HI' & _).
    destruct (next_ready_Some _ _ _ _ Hn) as [E _].
    eapply dispatched_exits; try done; [by eapply taken_detached|].
    eapply ready_unblocked; [exact HI| |exact Hc]. rewrite E. left.
  - unfold wp. rewrite (schedule_idle_spec s v e HI Hy Hn).
    destruct (Z.eqb_spec (process_count s) 0) as [Hz|Hnz]; [by exists v|].
    split; [done|]. exists v. split; [|done]. split; [|done|done].
    by eapply Inv_ext.
Qed.

(** The scheduler accepts whatever a handler may leave, and never returns. *)
Lemma schedule_contract s ctrl :
  Ready s ctrl -> clock_ok s ->
  wp (schedule (sc_pcb ctrl) (sc_enqueue ctrl)) (fun _ _ => False) Exits s.
Proof.
  intros [v e HI Hy|v i c e HI Hy Hc Hz Hq|v i c e HO] Hk; cbn [sc_pcb sc_enqueue].
  - by eapply schedule_block_exits.
  - destruct (next_ready v) as [[[b j] l]|] eqn:Hn.
    + destruct (schedule_yield_spec s v i c b j l e HI Hy Hc Hq Hz Hn)
        as (d & s' & Hd & Hrun & Hdis & HI' & _).
      destruct (next_ready_Some _ _ _ _ Hn) as [E _]. pose proof (inv_rep _ _ _ HI) as HRep.
      assert (j ∈ v_ready b v) as Hj by (rewrite E; left).
      eapply (dispatched_exits j d s s' _ _ Hrun Hdis Hd HI'); [|exact (ready_unblocked [i] s v b j d HI Hj Hd)|done].
      rewrite in_queue_enqueue. intros [->|Hin]; [|by eapply taken_detached].
      apply Hq, in_queue_ready_iff. right. left. by exists b.
    + destruct (schedule_yield_alone_spec s v i c e HI Hy Hc Hn) as (s' & Hrun & Hdis & HI' & _).
      by eapply dispatched_exits.
  - destruct HO as [HI Ha Hy Hc Hz Hq]. destruct e.
    + destruct (enqueue_process_spec [i] s v i c HI Hc (queue_of_free _ _ Hq) Hz) as (h & Hrun & HI' & _).
      unfold wp. rewrite schedule_enqueue. step_with Hrun.
      eapply schedule_block_exits; [|done|done]. eapply Inv_placed; [exact HI'|].
      intros x ->%list_elem_of_singleton. right. apply in_queue_enqueue. by left.
    + destruct (schedule_preserve_spec [i] s v i c HI Hc Hy) as (s' & Hrun & Hdis & HI' & _).
      by eapply dispatched_exits.
Qed.
End scheduler.

(** ** At rest *)

Lemma Rest_inv s v : Rest s v -> ∃ a, Inv a s v ∧
  (∀ i, i ∈ a -> active_process s = Some i) ∧ yield_process s = None.
Proof.
  intros [(i & c & HO)|HO].
  - exists [i]. split_and!; [apply HO| |apply HO]. intros x ->%list_elem_of_singleton. apply HO.
  - exists []. split_and!; [apply HO| |apply HO]. intros x Hx. by apply elem_of_nil in Hx.
Qed.

Lemma Rest_ready s v e : Rest s v -> Ready s (Control (active_process s) e).
Proof.
  intros [(i & c & HO)|HO].
  - rewrite (on_active _ _ _ _ HO). by eapply Ready_run.
  - rewrite (idle_active _ _ HO). by eapply Ready_block; apply HO.
Qed.

(** ** The running process *)

Section running.
Context `{Umps}.

Lemma on_valid i c s v : On i c s v -> (i < MAX_PROC)%nat.
Proof.
  intros HO. rewrite <- (lists_pcbs _ _ (inv_rep _ _ _ (on_inv _ _ _ _ HO))).
  eapply lookup_lt_Some, on_pcb, HO.
Qed.

Lemma on_live i c s v : On i c s v -> i ∉ v_free v.
Proof. intros HO. eapply queue_of_free, on_queue, HO. Qed.
End running.
