(* ===== verification/Syscall.v ===== *)
(** * System calls: [os/src/puod.c] and [os/src/syscall.c]

    [pass_up_or_die] and the handler of each privileged service.  A handler
    returns a [scheduler_control_t]: which process the scheduler is to go on
    with, if any.  The specifications say what each service does to the tables
    and to the caller's registers; [Ready s ctrl] is what they promise to the
    dispatcher. *)

From Stdlib Require Import ZArith Lia String.
From stdpp Require Import base tactics option numbers gmap list fin vector relations.
From S2P Require Import Prelude ListHead Machine Kernel View Pcb Asl Scheduler Invariant Process Dispatch Semaphores Contract.

Open Scope string_scope.
Open Scope list_scope.
Open Scope Z_scope.

Section operations.
Context `{Umps}.

(** [active_process->...] *)
Definition active : KM nat := a <- gets active_process ;; deref a.
Definition active_pcb : KM pcb_t := i <- active ;; pcb_at i.
Definition upd_active (f : pcb_t -> pcb_t) : KM unit := i <- active ;; upd_pcb i f.

(** [p->p_s.reg_v0 = v] *)
Definition set_v0 (v : Z) (c : pcb_t) : pcb_t := set_p_s (set_reg_v0 (u32 v) (p_s c)) c.

Definition preserve : KM scheduler_control_t :=
  a <- gets active_process ;; ret (CONTROL_PRESERVE a).

Definition pass_up_or_die (type : fin 2) : KM scheduler_control_t :=
  a <- gets active_process ;;
  match a with
  | None => ret CONTROL_BLOCK
  | Some i =>
      c <- pcb_at i ;;
      (if negb (p_support c =? 0) then
         su <- read_support (p_support c) ;;
         st <- read_state BIOSDATAPAGE ;;
         write_support (p_support c)
           (set_sup_except_state (vinsert type st (sup_except_state su)) su) ;;
         su <- read_support (p_support c) ;;
         load_context (sup_except_context su !!! type)
       else
         kill_progeny kill_fuel (Some i) ;; ret tt) ;;
      ret CONTROL_BLOCK
  end.

Definition syscall_create_process : KM scheduler_control_t :=
  c <- active_pcb ;;
  let state := reg_a1 (p_s c) in
  let prio := reg_a2 (p_s c) in
  let support := reg_a3 (p_s c) in
  if (negb (prio =? PROCESS_PRIO_LOW) && negb (prio =? PROCESS_PRIO_HIGH)) || (state =? 0) then
    pass_up_or_die GENERALEXCEPT
  else
    child <- spawn_process prio ;;
    match child with
    | None => upd_active (set_v0 NULL_PID)
    | Some j =>
        upd_pcb j (set_p_support support) ;;
        st <- read_state state ;;
        upd_pcb j (set_p_s st) ;;
        a <- gets active_process ;;
        insert_child a (Some j) ;;
        d <- pcb_at j ;;
        upd_active (set_v0 (p_pid d))
    end ;;
    preserve.

Definition syscall_terminate_process : KM scheduler_control_t :=
  c <- active_pcb ;;
  let pid := reg_a1 (p_s c) in
  if pid =? 0 then pass_up_or_die GENERALEXCEPT
  else
    p <- (if pid =? 0 then gets active_process else find_process pid) ;;
    if negb (pid =? 0) && bool_decide (p = None) then pass_up_or_die GENERALEXCEPT
    else
      r <- kill_progeny kill_fuel p ;;
      when negb (r =? 0) do scheduler_panic "Kill progeny failed!" [] ;;
      c <- active_pcb ;;
      if (pid =? 0) || (p_pid c =? NULL_PID) then ret CONTROL_BLOCK else reschedule.

Definition syscall_passeren : KM scheduler_control_t :=
  c <- active_pcb ;;
  if reg_a1 (p_s c) =? 0 then pass_up_or_die GENERALEXCEPT
  else a <- gets active_process ;; P (reg_a1 (p_s c)) a.

Definition syscall_verhogen : KM scheduler_control_t :=
  c <- active_pcb ;;
  if reg_a1 (p_s c) =? 0 then pass_up_or_die GENERALEXCEPT
  else
    p <- V (reg_a1 (p_s c)) ;;
    if bool_decide (p = None) then ret CONTROL_BLOCK else reschedule.

Definition syscall_do_io : KM scheduler_control_t :=
  c <- active_pcb ;;
  let cmd_addr := reg_a1 (p_s c) in
  let cmd_value := reg_a2 (p_s c) in
  if cmd_addr =? 0 then pass_up_or_die GENERALEXCEPT
  else
    dev <- get_iodev cmd_addr ;;
    if semaphore dev =? 0 then pass_up_or_die GENERALEXCEPT
    else
      h <- head_blocked (semaphore dev) ;;
      if bool_decide (h <> None) then pass_up_or_die GENERALEXCEPT
      else
        v <- read_int (semaphore dev) ;;
        when 0 <? v do
          scheduler_panic "A device syncronization semaphore has a value > 0" [] ;;
        a <- gets active_process ;;
        ctrl <- P (semaphore dev) a ;;
        upd_active (fun c =>
          set_p_s (set_status
            (if is_true (p_prio c) then status_il_on (status (p_s c)) (interrupt_line dev)
             else status_il_on_all (status (p_s c))) (p_s c)) c) ;;
        write_word cmd_addr cmd_value ;;
        ret ctrl.

Definition syscall_get_cpu_time : KM scheduler_control_t :=
  upd_active (fun c => set_v0 (p_time c) c) ;; reschedule.

Definition syscall_wait_for_clock : KM scheduler_control_t :=
  a <- gets active_process ;; P get_timer_semaphore a.

Definition syscall_get_support_data : KM scheduler_control_t :=
  upd_active (fun c => set_v0 (p_support c) c) ;; reschedule.

Definition syscall_get_process_id : KM scheduler_control_t :=
  c <- active_pcb ;;
  let parent := reg_a1 (p_s c) in
  if negb (parent =? 0) && negb (parent =? 1) then pass_up_or_die GENERALEXCEPT
  else
    (if parent =? 0 then upd_active (set_v0 (p_pid c))
     else match p_parent c with
          | Some j => d <- pcb_at j ;; upd_active (set_v0 (p_pid d))
          | None => upd_active (set_v0 0)
          end) ;;
    reschedule.

Definition syscall_yield : KM scheduler_control_t :=
  a <- gets active_process ;;
  modify (set_yield_process a) ;;
  ret CONTROL_BLOCK.

Definition syscall_handler : KM scheduler_control_t :=
  a <- gets active_process ;;
  when bool_decide (a = None) do
    scheduler_panic "Syscall recieved while active_process was NULL" [] ;;
  c <- active_pcb ;;
  let id := s32 (reg_a0 (p_s c)) in
  user <- (if id <=? 0 then is_user_mode else ret 0) ;;
  if (id <=? 0) && is_true user then
    upd_active (fun c => set_p_s (set_cause (cause_clean (cause (p_s c))) (p_s c)) c) ;;
    upd_active (fun c => set_p_s (set_cause (cause_reserved_instruction (cause (p_s c))) (p_s c)) c) ;;
    pass_up_or_die GENERALEXCEPT
  else if id =? CREATEPROCESS then syscall_create_process
  else if id =? TERMPROCESS then syscall_terminate_process
  else if id =? PASSEREN then syscall_passeren
  else if id =? VERHOGEN then syscall_verhogen
  else if id =? DOIO then syscall_do_io
  else if id =? GETTIME then syscall_get_cpu_time
  else if id =? CLOCKWAIT then syscall_wait_for_clock
  else if id =? GETSUPPORTPTR then syscall_get_support_data
  else if id =? GETPROCESSID then syscall_get_process_id
  else if id =? YIELD then syscall_yield
  else
    kprintf "-----syscall not handled %d\n" [id] ;;
    pass_up_or_die GENERALEXCEPT.
End operations.

(** ** Equations *)

Section equations.
Context `{Umps}.

Lemma active_ok i s : active_process s = Some i -> active s = Ok i s.
Proof. intros Ha. unfold active. by rewrite bind_gets, Ha. Qed.

Lemma active_pcb_ok i c s v : On i c s v -> active_pcb s = Ok c s.
Proof.
  intros HO. unfold active_pcb. step_with (active_ok _ _ (on_active _ _ _ _ HO)).
  apply pcb_at_ok, HO.
Qed.

Lemma upd_active_ok i c f s :
  active_process s = Some i -> pcb_table s !! i = Some c ->
  upd_active f s = Ok tt (set_pcb_table (<[i := f c]> (pcb_table s)) s).
Proof. intros Ha Hc. unfold upd_active. step_with (active_ok _ _ Ha). by apply upd_pcb_ok. Qed.

Lemma preserve_ok s : preserve s = Ok (CONTROL_PRESERVE (active_process s)) s.
Proof. done. Qed.

Lemma reschedule_ok s : reschedule s = Ok (CONTROL_RESCHEDULE (active_process s)) s.
Proof. done. Qed.

Lemma sem_value_write k k' x s :
  sem_value (set_mem (<[k := u32 x]> (mem s)) s) k' =
  if decide (k = k') then s32 x else sem_value s k'.
Proof.
  unfold sem_value. simpl. destruct (decide (k = k')) as [->|Hne].
  - rewrite lookup_insert_eq. simpl. unfold s32, u32. by rewrite Zmod_mod.
  - by rewrite lookup_insert_ne.
Qed.

Lemma word_addr_ok k : word_addr k = true -> k ≠ 0 -> addr_ok k.
Proof.
  unfold word_addr. intros [[Hlo Hhi]%andb_prop Ha]%andb_prop Hne. split; lia.
Qed.

Lemma read_bad k s : word_addr k = false -> read_int k s = Exit (BadAddress k) s.
Proof. intros Hk. unfold read_int, read_word. by rewrite Hk. Qed.
End equations.

(** ** P and V called by the running process *)

Section semaphores.
Context `{UmpsLaws}.
Implicit Types (s : kernel) (v : view) (a : list nat) (i j : nat) (c : pcb_t) (k : Z).

Definition Served (i : nat) (ctrl : scheduler_control_t) (s : kernel) : Prop :=
  Ready s ctrl ∧ active_process s = Some i ∧ clock_ok s.

(** The counter is a flag while only [P] and [V] change it. *)
Lemma clock_ok_write k x s :
  clock_ok s -> (k = get_timer_semaphore -> x = 0 ∨ x = 1) ->
  clock_ok (set_mem (<[k := u32 x]> (mem s)) s).
Proof.
  unfold clock_ok. intros Hk Hx. rewrite sem_value_write. case_decide as E; [|done].
  destruct (Hx E) as [-> | ->]; [left|right]; done.
Qed.

Lemma woken_on a k t d i c s s' v v' :
  On i c s v -> woken k t d a s s' v v' -> a = [i] -> p_sem_add d ≠ 0 -> On i c s' v'.
Proof.
  intros HO Hw -> Hne. pose proof (on_inv _ _ _ _ HO) as HI.
  assert (∀ b, v_ready b v' = (if Bool.eqb (is_true (p_prio d)) b then v_ready b v ++ [t] else v_ready b v)
     ∧ v_free v' = v_free v ∧ v_child v' = v_child v) as Hr by (intros b; by eapply woken_ready).
  destruct Hw as (h & v1 & -> & Hd & HI' & _).
  assert (t ≠ i) as Hti. { intros ->. destruct HO. simplify_eq. }
  assert (pcb_table (set_softblock_count (u32 (softblock_count s - 1))
            (set_links h (set_pcb_table (<[t := set_p_sem_add 0 d]> (pcb_table s)) s))) !! i = Some c) as Hc.
  { simpl. rewrite list_lookup_insert_ne by done. apply HO. }
  destruct HO as [_ Ha Hy Hc0 Hz Hq]. split; try done.
  rewrite (in_queue_sem _ _ _ _ _ (inv_rep _ _ _ HI') (inv_asl _ _ _ HI') Hc).
  rewrite (in_queue_sem _ _ _ _ _ (inv_rep _ _ _ HI) (inv_asl _ _ _ HI) Hc0) in Hq.
  destruct (Hr true) as (_ & -> & _). intros [Hf|[(b & Hb)|]]; [tauto| |done].
  apply Hq. right. left. exists b. rewrite (proj1 (Hr b)) in Hb.
  destruct (Bool.eqb _ b); [|done]. by apply elem_of_app in Hb as [| ->%list_elem_of_singleton].
Qed.

Lemma woken_state k t d a s s' v v' :
  woken k t d a s s' v v' -> mem s' = mem s ∧ active_process s' = active_process s ∧
    yield_process s' = yield_process s ∧ Inv a s' v'.
Proof. by intros (h & v1 & -> & _ & HI & _). Qed.

(** A wake-up leaves the nucleus at rest. *)
Lemma woken_rest a k t d s s' v v' :
  Rest s v -> (∀ i, i ∈ a -> active_process s = Some i) -> woken k t d a s s' v v' ->
  p_sem_add d ≠ 0 -> Rest s' v'.
Proof.
  intros HR Ha Hw Hne. destruct (woken_state _ _ _ _ _ _ _ _ Hw) as (_ & Ha' & Hy' & HI').
  destruct HR as [(i & c & HO)|[_ Hact Hy]].
  - left. exists i, c. assert (woken k t d [i] s s' v v') as Hw'.
    { destruct Hw as (h & v1 & -> & ? & HI & Hrest). exists h, v1. split_and!; try done; try apply Hrest.
      eapply Inv_placed; [exact HI|]. intros x Hx%Ha. left. rewrite (on_active _ _ _ _ HO) in Hx.
      simplify_eq. left. }
    by eapply (woken_on [i] k t d).
  - right. split; [|congruence|congruence]. eapply Inv_placed; [exact HI'|].
    intros x Hx%Ha. congruence.
Qed.

Lemma waiter_sem s v k t l d :
  Rep s v -> Asl s v -> addr_ok k -> blocked s v !! k = Some (t :: l) -> pcb_table s !! t = Some d ->
  p_sem_add d ≠ 0.
Proof.
  intros HRep HA Hk Hl Hd. rewrite (blocked_sem_add _ _ _ HRep HA _ _ _ _ Hl ltac:(left) Hd).
  destruct Hk. lia.
Qed.

Lemma Inv_rem_self i s v : Inv (rem i [i]) s v -> Inv [] s v.
Proof. intros HI. eapply Inv_placed; [exact HI|]. intros x [Hne Hx]%elem_of_rem. set_solver. Qed.

Lemma blocked_cases s v k :
  Rep s v -> Asl s v -> blocked s v !! k = None ∨ ∃ t l, blocked s v !! k = Some (t :: l).
Proof.
  intros HRep HA. destruct (blocked s v !! k) as [[|t l]|] eqn:Hl; [|by right; eauto|by left].
  by destruct (blocked_nonempty _ _ _ HRep HA _ _ eq_refl Hl).
Qed.

Lemma V_contract i c k s v :
  On i c s v -> clock_ok s -> k ≠ 0 ->
  wp (V k) (fun p s' => active_process s' = Some i ∧ yield_process s' = None ∧ clock_ok s' ∧
    ∃ v', match p with None => Inv [] s' v' | Some _ => On i c s' v' end) Exits s.
Proof.
  intros HO Hclk Hk0. destruct (word_addr k) eqn:Hw.
  2: { unfold wp, V. rewrite (proj2 (Z.eqb_neq _ _) Hk0). by step_with (read_bad k s Hw). }
  pose proof (word_addr_ok _ Hw Hk0) as Hk. pose proof HO as [HI Ha Hy Hc Hz Hq].
  destruct (decide (sem_value s k = 1)) as [Hv|Hv].
  { destruct (V_block [i] s v k i c HI Hk Hv Ha Hc Hz Hq) as (h & T & v' & Hrun & HI' & _).
    eapply wp_ok; [exact Hrun|]. split_and!; [done|done|by eapply clock_ok_mem|].
    exists v'. exact (Inv_rem_self i _ _ HI'). }
  destruct (blocked_cases s v k (inv_rep _ _ _ HI) (inv_asl _ _ _ HI)) as [Hl|(t & l & Hl)].
  - eapply wp_ok; [by eapply V_inc|]. split_and!; [done|done| |].
    + apply clock_ok_write; [done|]. intros ->. destruct Hclk as [Hc0|?]; [|done]. right. lia.
    + exists v. rewrite Ha. split; try done. by apply Inv_mem.
  - destruct (V_wake [i] s v k t l HI Hk Hv Hl) as (d & s' & v' & Hrun & Hwk).
    eapply wp_ok; [exact Hrun|]. destruct (woken_state _ _ _ _ _ _ _ _ Hwk) as (Hm & Ha' & Hy' & _).
    split_and!; [congruence|congruence|by eapply clock_ok_mem|].
    exists v'. apply (woken_on [i] k t d i c s s' v v' HO Hwk eq_refl).
    eapply waiter_sem; [apply HI|apply HI|done|done|]. by destruct Hwk as (? & ? & _ & ? & _).
Qed.

Lemma P_contract i c k s v :
  On i c s v -> clock_ok s -> k ≠ 0 -> wp (P k (Some i)) (Served i) Exits s.
Proof.
  intros HO Hclk Hk0. destruct (word_addr k) eqn:Hw.
  2: { unfold wp, P. rewrite (proj2 (Z.eqb_neq _ _) Hk0). by step_with (read_bad k s Hw). }
  pose proof (word_addr_ok _ Hw Hk0) as Hk. pose proof HO as [HI Ha Hy Hc Hz Hq].
  destruct (decide (sem_value s k = 0)) as [Hv|Hv].
  { destruct (P_block [i] s v k i c HI Hk Hv Hc Hz Hq) as (h & T & v' & Hrun & HI' & _).
    eapply wp_ok; [exact Hrun|]. split_and!; [|done|by eapply clock_ok_mem].
    eapply Ready_block; [exact (Inv_rem_self i _ _ HI')|done]. }
  destruct (blocked_cases s v k (inv_rep _ _ _ HI) (inv_asl _ _ _ HI)) as [Hl|(t & l & Hl)].
  - eapply wp_ok; [by eapply P_dec|]. split_and!.
    + rewrite Ha. eapply (Ready_run _ v i c). split; try done. by apply Inv_mem.
    + done.
    + apply clock_ok_write; [done|]. intros ->. destruct Hclk as [?|Hc1]; [done|]. left. lia.
  - destruct (P_wake [i] s v k i t l HI Hk Hv Hl) as (d & s' & v' & Hrun & Hwk).
    eapply wp_ok; [exact Hrun|]. destruct (woken_state _ _ _ _ _ _ _ _ Hwk) as (Hm & Ha' & Hy' & _).
    split_and!; [|congruence|by eapply clock_ok_mem].
    rewrite Ha. eapply (Ready_run _ v' i c), (woken_on [i] k t d i c s s' v v' HO Hwk eq_refl).
    eapply waiter_sem; [apply HI|apply HI|done|done|]. by destruct Hwk as (? & ? & _ & ? & _).
Qed.
End semaphores.

(** ** Killing, called by the running process *)

Section killing.
Context `{Umps}.
Implicit Types (s : kernel) (v : view) (i p x : nat) (c : pcb_t) (ds : list nat).

Lemma frame_fields s s' : frame s s' ->
  active_process s' = active_process s ∧ yield_process s' = yield_process s ∧ mem s' = mem s ∧
  supports s' = supports s ∧ saved_states s' = saved_states s.
Proof. by intros (h & T & D & n & b & lg & ->). Qed.

(** A survivor is where it was. *)
Lemma killed_survivor a ds s s' v v' i c :
  Inv a s v -> Inv a s' v' -> killed ds s s' v v' -> i ∉ ds -> pcb_table s !! i = Some c ->
  pcb_table s' !! i = Some c ∧ (in_queue v' i ↔ in_queue v i).
Proof.
  intros HI HI' [_ Hf Hr _ Hp _ _] Hi Hc. rewrite (Hp i Hi). split; [done|].
  assert (pcb_table s' !! i = Some c) as Hc' by (by rewrite Hp).
  rewrite (in_queue_sem _ _ _ _ _ (inv_rep _ _ _ HI') (inv_asl _ _ _ HI') Hc').
  rewrite (in_queue_sem _ _ _ _ _ (inv_rep _ _ _ HI) (inv_asl _ _ _ HI) Hc).
  rewrite Hf. setoid_rewrite Hr. setoid_rewrite elem_of_rem_all. set_solver.
Qed.

Lemma kill_contract i c p s v :
  On i c s v -> (p < MAX_PROC)%nat -> p ∉ v_free v ->
  ∃ s' v' ds, kill_progeny kill_fuel (Some p) s = Ok 0 s' ∧ Inv [i] s' v' ∧
    killed ds s s' v v' ∧ (∀ x, x ∈ ds ↔ descends (v_child v) p x) ∧
    if decide (i ∈ ds)
    then Inv [] s' v' ∧ ∃ c', pcb_table s' !! i = Some c' ∧ p_pid c' = NULL_PID
    else On i c s' v'.
Proof.
  intros [HI Ha Hy Hc Hz Hq] Hlt Hf.
  destruct (kill_progeny_spec [i] s v p HI Hlt Hf) as (s' & v' & cs & ds & Hrun & HI' & Hcs & HK & Hpo).
  exists s', v', (ds ++ [p]). split_and!; [done|done|done| |].
  { intros x. by apply (killed_set _ _ cs). }
  destruct (frame_fields _ _ (kd_frame _ _ _ _ _ HK)) as (Ha' & Hy' & _).
  case_decide as Hi.
  - assert (i ∈ v_free v') as Hfi.
    { rewrite (kd_free _ _ _ _ _ HK). apply elem_of_app. left. by rewrite elem_of_reverse. }
    split.
    + eapply Inv_placed; [exact HI'|]. intros x ->%list_elem_of_singleton. right.
      apply in_queue_ready_iff. by left.
    + assert (i < MAX_PROC)%nat as Hi'.
      { rewrite <- (lists_pcbs _ _ (inv_rep _ _ _ HI)). by eapply lookup_lt_Some. }
      destruct (rep_pcb _ _ (inv_rep _ _ _ HI') i Hi') as [c' Hc'].
      exists c'. split; [done|]. by apply (pool_pid _ _ (inv_pool _ _ _ HI') _ _ Hc').
  - destruct (killed_survivor _ _ _ _ _ _ _ _ HI HI' HK Hi Hc) as [Hc' Hq'].
    split; try done; congruence || (by rewrite Hq').
Qed.
End killing.

(** ** Every system call keeps its promise *)

Section services.
Context `{UmpsLaws}.
Implicit Types (s : kernel) (v : view) (i j : nat) (c : pcb_t) (k : Z).

(** Changing the running process' own registers. *)
Lemma On_upd i c c' s v :
  On i c s v -> same_role c c' ->
  On i c' (set_pcb_table (<[i := c']> (pcb_table s)) s) v.
Proof.
  intros HO Hr. pose proof (on_pcb _ _ _ _ HO) as Hc.
  destruct (On_ext (same_tables_upd s i c c' Hc Hr) i c v HO) as (d & HO' & _).
  enough (d = c') as <- by done. pose proof (on_pcb _ _ _ _ HO') as Hd. simpl in Hd.
  rewrite (table_upd_eq _ _ _ _ Hc) in Hd. by simplify_eq.
Qed.

Lemma set_v0_role (x : Z) c : same_role c (set_v0 x c).
Proof. done. Qed.

(** The end of a service that only writes to the caller's registers. *)
Lemma serve_upd i c f s v ctrl (k : KM scheduler_control_t) :
  On i c s v -> clock_ok s -> same_role c (f c) ->
  (∀ s', active_process s' = Some i -> k s' = Ok ctrl s') ->
  ctrl = CONTROL_RESCHEDULE (Some i) ∨ ctrl = CONTROL_PRESERVE (Some i) ->
  wp (upd_active f ;; k) (Served i) Exits s.
Proof.
  intros HO Hclk Hr Hk Hctrl. pose proof (on_active _ _ _ _ HO) as Ha.
  unfold wp. step_with (upd_active_ok i c f s Ha (on_pcb _ _ _ _ HO)).
  rewrite Hk by done. split_and!; [|done|by eapply clock_ok_mem].
  destruct Hctrl as [-> | ->]; eapply (Ready_run _ v i (f c)), On_upd; done.
Qed.

(** [active_process] is dead or at large; the scheduler chooses. *)
Lemma served_block i s v :
  Inv [] s v -> yield_process s = None -> active_process s = Some i -> clock_ok s ->
  Served i CONTROL_BLOCK s.
Proof. intros. split_and!; [by eapply Ready_block|done|done]. Qed.

Lemma read_support_eq k s :
  read_support k s = match supports s !! k with Some su => Ok su s | None => Exit (BadAddress k) s end.
Proof. unfold read_support, bind, get. by destruct (supports s !! k). Qed.

Lemma read_state_eq k s :
  read_state k s = match saved_states s !! k with Some st => Ok st s | None => Exit (BadAddress k) s end.
Proof. unfold read_state, bind, get. by destruct (saved_states s !! k). Qed.

Lemma write_support_ok k su su' s :
  supports s !! k = Some su -> write_support k su' s = Ok tt (set_supports (<[k := su']> (supports s)) s).
Proof. intros Hk. unfold write_support, bind. rewrite read_support_eq, Hk. done. Qed.

(** A process with a support structure is passed up: its state is saved in the
    structure and the support level runs. *)
Definition passed_up (type : fin 2) (st : state_t) (su : support_t) : support_t :=
  set_sup_except_state (vinsert type st (sup_except_state su)) su.

Lemma pass_up_eq type i c s :
  active_process s = Some i -> pcb_table s !! i = Some c -> p_support c ≠ 0 ->
  pass_up_or_die type s =
  match supports s !! p_support c, saved_states s !! BIOSDATAPAGE with
  | Some su, Some st => Exit (InSupport (sup_except_context su !!! type))
      (set_supports (<[p_support c := passed_up type st su]> (supports s)) s)
  | Some _, None => Exit (BadAddress BIOSDATAPAGE) s
  | None, _ => Exit (BadAddress (p_support c)) s
  end.
Proof.
  intros Ha Hc Hnz. unfold pass_up_or_die. rewrite bind_gets, Ha. step_with (pcb_at_ok _ _ _ Hc).
  rewrite (proj2 (Z.eqb_neq _ _) Hnz). cbn [negb]. rewrite bind_assoc.
  pose proof (read_support_eq (p_support c) s) as E1. pose proof (read_state_eq BIOSDATAPAGE s) as E2.
  destruct (supports s !! p_support c) as [su|] eqn:Hsu; [|by step_with E1]. step_with E1.
  rewrite bind_assoc. destruct (saved_states s !! BIOSDATAPAGE) as [st|]; [|by step_with E2].
  step_with E2. rewrite bind_assoc. step_with (write_support_ok _ _ (passed_up type st su) _ Hsu).
  rewrite bind_assoc. erewrite bind_ok by (rewrite read_support_eq; simpl; by rewrite lookup_insert_eq).
  done.
Qed.

Lemma pass_up_dies type i c s v :
  On i c s v -> p_support c = 0 ->
  ∃ s' v' ds, pass_up_or_die type s = Ok CONTROL_BLOCK s' ∧ Inv [] s' v' ∧
    killed ds s s' v v' ∧ ∀ x, x ∈ ds ↔ descends (v_child v) i x.
Proof.
  intros HO Hz. destruct (kill_contract i c i s v HO (on_valid _ _ _ _ HO) (on_live _ _ _ _ HO))
    as (s' & v' & ds & Hrun & _ & HK & Hds & Hdead).
  rewrite decide_True in Hdead by (by apply Hds). destruct Hdead as [HI' _].
  exists s', v', ds. split_and!; try done. unfold pass_up_or_die.
  rewrite bind_gets, (on_active _ _ _ _ HO). step_with (pcb_at_ok _ _ _ (on_pcb _ _ _ _ HO)).
  rewrite Hz. run_if. rewrite bind_assoc. by step_with Hrun.
Qed.

#[export] Instance pass_up_service type : Service (pass_up_or_die type).
Proof.
  intros i c s v HO Hclk. pose proof (on_active _ _ _ _ HO) as Ha.
  destruct (Z.eqb_spec (p_support c) 0) as [Hz|Hnz].
  - destruct (pass_up_dies type i c s v HO Hz) as (s' & v' & ds & Hrun & HI' & HK & _).
    destruct (frame_fields _ _ (kd_frame _ _ _ _ _ HK)) as (Ha' & Hy' & Hm & _).
    eapply wp_ok; [exact Hrun|]. apply (served_block i s' v'); [done| |congruence|by eapply clock_ok_mem].
    rewrite Hy'. apply HO.
  - unfold wp. rewrite (pass_up_eq type i c s Ha (on_pcb _ _ _ _ HO) Hnz).
    destruct (supports s !! p_support c) as [su|] eqn:Hsu; [|done].
    destruct (saved_states s !! BIOSDATAPAGE) as [st|]; [|done].
    split; [by eapply clock_ok_mem|]. exists i, c, v, (passed_up type st su). split_and!.
    + destruct HO. split; try done. by eapply Inv_ext.
    + done.
    + simpl. by rewrite lookup_insert_eq.
    + by exists type.
Qed.

#[export] Instance passeren_service : Service syscall_passeren.
Proof.
  intros i c s v HO Hclk. unfold syscall_passeren. eapply wp_step; [by eapply active_pcb_ok|].
  cbn beta. destruct (Z.eqb_spec (reg_a1 (p_s c)) 0) as [|Hne]; [by eapply pass_up_service|].
  eapply wp_step; [done|]. cbn beta. rewrite (on_active _ _ _ _ HO). by eapply P_contract.
Qed.

#[export] Instance verhogen_service : Service syscall_verhogen.
Proof.
  intros i c s v HO Hclk. unfold syscall_verhogen. eapply wp_step; [by eapply active_pcb_ok|].
  cbn beta. destruct (Z.eqb_spec (reg_a1 (p_s c)) 0) as [|Hne]; [by eapply pass_up_service|].
  apply wp_bind. eapply wp_mono; [by eapply V_contract| |done].
  intros [t|] s' (Ha & Hy & Hclk' & v' & Hv'); cbn.
  - unfold wp. rewrite reschedule_ok, Ha. split_and!; [by eapply Ready_run|done|done].
  - by eapply served_block.
Qed.

#[export] Instance get_cpu_time_service : Service syscall_get_cpu_time.
Proof. intros i c s v HO Hclk. by eapply serve_upd; [..|intros s' Ha; rewrite reschedule_ok, Ha|left]. Qed.

#[export] Instance get_support_data_service : Service syscall_get_support_data.
Proof. intros i c s v HO Hclk. by eapply serve_upd; [..|intros s' Ha; rewrite reschedule_ok, Ha|left]. Qed.

Lemma answer_ok i c f s v :
  On i c s v -> (upd_active f ;; reschedule) s =
  Ok (CONTROL_RESCHEDULE (Some i)) (set_pcb_table (<[i := f c]> (pcb_table s)) s).
Proof.
  intros HO. step_with (upd_active_ok i c f s (on_active _ _ _ _ HO) (on_pcb _ _ _ _ HO)).
  rewrite reschedule_ok. simpl. by rewrite (on_active _ _ _ _ HO).
Qed.

(** The parent of a process that is on is alive. *)
Lemma parent_live i c s v j :
  On i c s v -> p_parent c = Some j -> ∃ d, pcb_table s !! j = Some d ∧ p_pid d ≠ NULL_PID.
Proof.
  intros HO Hp. pose proof (on_inv _ _ _ _ HO) as HI.
  destruct (tree_down _ _ (inv_tree _ _ _ HI) i c j (on_pcb _ _ _ _ HO) (on_live _ _ _ _ HO) Hp) as (l & Hl & Hi).
  assert (j < MAX_PROC)%nat as Hj by (by eapply parent_valid; [apply HI|]).
  destruct (rep_pcb _ _ (inv_rep _ _ _ HI) j Hj) as [d Hd]. exists d. split; [done|].
  rewrite (pool_pid _ _ (inv_pool _ _ _ HI) _ _ Hd). intros Hf.
  pose proof (tree_free _ _ (inv_tree _ _ _ HI) _ Hf) as E. rewrite Hl in E. simpl in E. subst l.
  by apply elem_of_nil in Hi.
Qed.

Lemma queries_spec i c s v :
  On i c s v ->
  let answer x := Ok (CONTROL_RESCHEDULE (Some i))
    (set_pcb_table (<[i := set_v0 x c]> (pcb_table s)) s) in
  syscall_get_cpu_time s = answer (p_time c) ∧
  syscall_get_support_data s = answer (p_support c) ∧
  (reg_a1 (p_s c) = 0 -> syscall_get_process_id s = answer (p_pid c)) ∧
  (reg_a1 (p_s c) = 1 -> ∃ x, syscall_get_process_id s = answer x ∧
    match p_parent c with
    | Some j => ∃ d, pcb_table s !! j = Some d ∧ p_pid d = x ∧ x ≠ NULL_PID
    | None => x = 0
    end) ∧
  syscall_yield s = Ok CONTROL_BLOCK (set_yield_process (Some i) s).
Proof.
  intros HO answer. pose proof (fun f => answer_ok i c f s v HO) as Hans. split_and!.
  - apply (Hans (fun c => set_v0 (p_time c) c)).
  - apply (Hans (fun c => set_v0 (p_support c) c)).
  - intros Ha. unfold syscall_get_process_id. step_with (active_pcb_ok _ _ _ _ HO).
    rewrite Ha. run_if. apply Hans.
  - intros Ha. unfold syscall_get_process_id. rewrite (bind_ok _ _ _ _ _ (active_pcb_ok _ _ _ _ HO)).
    rewrite Ha. run_if. destruct (p_parent c) as [j|] eqn:Hp; [|by eexists; split; [apply Hans|]].
    destruct (parent_live i c s v j HO Hp) as (d & Hd & Hpid). exists (p_pid d). split; [|by exists d].
    rewrite bind_assoc. step_with (pcb_at_ok _ _ _ Hd). apply Hans.
  - unfold syscall_yield. by rewrite bind_gets, bind_modify, (on_active _ _ _ _ HO).
Qed.

#[export] Instance wait_for_clock_service : Service syscall_wait_for_clock.
Proof.
  intros i c s v HO Hclk. unfold syscall_wait_for_clock. eapply wp_step; [done|]. cbn beta.
  rewrite (on_active _ _ _ _ HO). eapply P_contract; [done|done|].
  apply addr_ok_nonzero_ne. apply semaphores_addr_ok. unfold SEMAPHORES_NUM, DEVINTNUM, DEVPERINT. lia.
Qed.

#[export] Instance yield_service : Service syscall_yield.
Proof.
  intros i c s v HO Hclk. destruct HO as [HI Ha Hy Hc Hz Hq]. unfold syscall_yield, wp.
  rewrite bind_gets, bind_modify, Ha. split_and!; [|done|by eapply clock_ok_mem].
  eapply (Ready_yield _ v i c); try done. by apply Inv_yield.
Qed.

#[export] Instance get_process_id_service : Service syscall_get_process_id.
Proof.
  intros i c s v HO Hclk. unfold syscall_get_process_id. eapply wp_step; [by eapply active_pcb_ok|].
  cbn beta. destruct (_ && _); [by eapply pass_up_service|].
  assert (∀ x, wp (upd_active (set_v0 x) ;; reschedule) (Served i) Exits s) as Hupd.
  { intros x. by eapply serve_upd; [..|intros s' Ha; rewrite reschedule_ok, Ha|left]. }
  destruct (_ =? 0); [done|]. destruct (p_parent c) as [j|] eqn:Hp; [|done].
  destruct (parent_live i c s v j HO Hp) as (d & Hd & _).
  unfold wp. rewrite bind_assoc. step_with (pcb_at_ok _ _ _ Hd). by apply Hupd.
Qed.

(** *** CREATEPROCESS *)

Definition spawned (s : kernel) (h : gmap lh (list_head lh)) (j : nat) (d : pcb_t) : kernel :=
  set_links h (set_pcb_table (<[j := d]> (pcb_table s))
    (set_recycle_count (u32 (recycle_count s + 1)) (set_process_count (u32 (process_count s + 1)) s))).

(** The caller is still on after a birth. *)
Lemma spawn_on i c s v j l prio :
  On i c s v -> v_free v = j :: l -> prio = 0 ∨ prio = 1 ->
  ∃ d h, let s1 := spawned s h j (fresh_pcb j (recycle_count s) prio d) in
    let v1 := v_spawn (is_true prio) j l v in
    spawn_process prio s = Ok (Some j) s1 ∧ On i c s1 v1 ∧ blocked s1 v1 = blocked s v ∧
    pcb_table s !! j = Some d ∧ i ≠ j.
Proof.
  intros HO Hf Hp. pose proof (on_inv _ _ _ _ HO) as HI.
  destruct (spawn_process_spec [i] s v prio j l HI Hp Hf) as (d & h & Hd & Hrun & HI' & Hb).
  assert (i ≠ j) as Hne.
  { intros ->. apply (on_live _ _ _ _ HO). rewrite Hf. left. }
  exists d, h. split_and!; try done. destruct HO as [_ Ha Hy Hc Hz Hq].
  assert (pcb_table (spawned s h j (fresh_pcb j (recycle_count s) prio d)) !! i = Some c) as Hc'.
  { simpl. by rewrite list_lookup_insert_ne. }
  split; try done.
  rewrite (in_queue_sem _ _ _ _ _ (inv_rep _ _ _ HI') (inv_asl _ _ _ HI') Hc').
  rewrite (in_queue_sem _ _ _ _ _ (inv_rep _ _ _ HI) (inv_asl _ _ _ HI) Hc) in Hq.
  unfold v_spawn. rewrite v_free_set_ready. simpl. intros [Hi|[(b & Hb')|]]; [|clear Hb|done].
  - apply Hq. left. rewrite Hf. by right.
  - rewrite ready_set_ready in Hb'. apply Hq. right. left. exists b.
    destruct (Bool.eqb _ b) eqn:E; [|by destruct b].
    apply eqb_prop in E as <-. apply elem_of_app in Hb' as [Hb'|Hb'%list_elem_of_singleton]; [|done].
    by destruct (is_true prio).
Qed.

(** Adopting a child leaves the caller on. *)
Lemma adopt_on i c s v j d l :
  On i c s v -> pcb_table s !! j = Some d -> i ≠ j -> v_child v !! i = Some l ->
  v_child v !! j = Some [] -> j ∉ v_free v -> p_parent d = None ->
  ∃ h, let s' := set_links h (set_pcb_table (<[j := set_p_parent (Some i) d]> (pcb_table s)) s) in
    let v' := set_v_child (<[i := l ++ [j]]> (v_child v)) v in
    insert_child (Some i) (Some j) s = Ok tt s' ∧ On i c s' v' ∧ blocked s' v' = blocked s v.
Proof.
  intros HO Hd Hne Hi Hj Hjf Hpar. pose proof (on_live _ _ _ _ HO) as Hif.
  destruct (insert_child_inv [i] s v i j d l (on_inv _ _ _ _ HO) Hd Hi Hj Hjf Hif (not_eq_sym Hne) Hpar)
    as (h & Hrun & HI' & Hb).
  exists h. split_and!; [done| |done]. destruct HO as [_ Ha Hy Hc Hz Hq]. split; try done.
  - simpl. by rewrite list_lookup_insert_ne.
  - rewrite in_queue_ready_iff in Hq |- *. done.
Qed.

(** The child of process [i]. *)
Definition child_pcb (i : nat) (state : state_t) (support prio pid : Z) : pcb_t :=
  {| p_parent := Some i; p_s := state; p_time := 0; p_sem_add := 0; p_support := support;
     p_prio := prio; p_pid := pid |}.

(** The arguments of CREATEPROCESS are in order. *)
Lemma create_process_args prio a1 : prio = 0 ∨ prio = 1 -> a1 ≠ 0 ->
  (negb (prio =? PROCESS_PRIO_LOW) && negb (prio =? PROCESS_PRIO_HIGH)) || (a1 =? 0) = false.
Proof.
  intros Hp Ha. rewrite (proj2 (Z.eqb_neq _ _) Ha). unfold PROCESS_PRIO_LOW, PROCESS_PRIO_HIGH.
  by destruct Hp as [-> | ->].
Qed.

(** Fields of another PCB that concern no queue and no tree are assigned. *)
Lemma On_other i c s v j d d' : On i c s v -> pcb_table s !! j = Some d -> same_role d d' -> j ≠ i ->
  On i c (set_pcb_table (<[j := d']> (pcb_table s)) s) v.
Proof.
  intros HO Hd Hr Hne. destruct (On_ext (same_tables_upd s j d d' Hd Hr) i c v HO) as (c' & HO' & _).
  enough (c' = c) as -> by done. pose proof (on_pcb _ _ _ _ HO') as Hc'. simpl in Hc'.
  rewrite list_lookup_insert_ne, (on_pcb _ _ _ _ HO) in Hc' by done. by simplify_eq.
Qed.

Lemma create_process_none i c s v :
  On i c s v -> reg_a2 (p_s c) = 0 ∨ reg_a2 (p_s c) = 1 -> reg_a1 (p_s c) ≠ 0 -> v_free v = [] ->
  syscall_create_process s =
  Ok (CONTROL_PRESERVE (Some i))
    (set_pcb_table (<[i := set_v0 NULL_PID c]> (pcb_table s)) s).
Proof.
  intros HO Hp Hst Hf. unfold syscall_create_process. step_with (active_pcb_ok _ _ _ _ HO).
  rewrite (create_process_args _ _ Hp Hst).
  step_with (spawn_process_none _ _ _ (reg_a2 (p_s c)) (on_inv _ _ _ _ HO) Hf).
  step_with (upd_active_ok i c (set_v0 NULL_PID) s (on_active _ _ _ _ HO) (on_pcb _ _ _ _ HO)).
  rewrite preserve_ok. simpl. by rewrite (on_active _ _ _ _ HO).
Qed.

Lemma create_process_child i c s v j l :
  On i c s v -> reg_a2 (p_s c) = 0 ∨ reg_a2 (p_s c) = 1 -> reg_a1 (p_s c) ≠ 0 -> v_free v = j :: l ->
  match saved_states s !! reg_a1 (p_s c) with
  | None => ∃ s', syscall_create_process s = Exit (BadAddress (reg_a1 (p_s c))) s'
  | Some st =>
      ∃ s' cs, let pid := make_pid (Z.of_nat j) (recycle_count s) in
        let v' := set_v_child (<[i := cs ++ [j]]> (<[j := []]> (v_child v)))
                    (v_spawn (is_true (reg_a2 (p_s c))) j l v) in
        syscall_create_process s = Ok (CONTROL_PRESERVE (Some i)) s' ∧
        On i (set_v0 pid c) s' v' ∧ v_child v !! i = Some cs ∧ blocked s' v' = blocked s v ∧
        mem s' = mem s ∧
        pcb_table s' = <[i := set_v0 pid c]> (<[j := child_pcb i st (reg_a3 (p_s c))
                          (reg_a2 (p_s c)) pid]> (pcb_table s))
  end.
Proof.
  intros HO Hp Hst Hf. set (prio := reg_a2 (p_s c)) in *. set (a1 := reg_a1 (p_s c)) in *.
  destruct (spawn_on i c s v j l prio HO Hf Hp) as (d & h1 & Hrun1 & HO1 & Hb1 & Hd & Hne).
  set (d1 := fresh_pcb j (recycle_count s) prio d) in *. set (s1 := spawned s h1 j d1) in *.
  set (v1 := v_spawn (is_true prio) j l v) in *.
  assert (pcb_table s1 !! j = Some d1) as Hd1 by (by eapply table_upd_eq).
  pose proof (upd_pcb_ok s1 j d1 (set_p_support (reg_a3 (p_s c))) Hd1) as Hrun2.
  set (s2 := set_pcb_table _ s1) in Hrun2. set (d2 := set_p_support (reg_a3 (p_s c)) d1) in *.
  assert (pcb_table s2 !! j = Some d2) as Hd2 by (by eapply table_upd_eq).
  assert (saved_states s2 = saved_states s) as Es2 by done.
  unfold syscall_create_process. pose proof (create_process_args _ _ Hp Hst) as Hok.
  pose proof (read_state_eq a1 s2) as Hst2. rewrite Es2 in Hst2.
  destruct (saved_states s !! a1) as [st|] eqn:Hsv.
  2: { eexists. step_with (active_pcb_ok _ _ _ _ HO). fold prio a1. rewrite Hok.
       step_with Hrun1. rewrite bind_assoc. step_with Hrun2. rewrite bind_assoc. by step_with Hst2. }
  pose proof (upd_pcb_ok s2 j d2 (set_p_s st) Hd2) as Hrun3.
  set (s3 := set_pcb_table _ s2) in Hrun3. set (d3 := set_p_s st d2) in *.
  assert (pcb_table s3 !! j = Some d3) as Hd3 by (by eapply table_upd_eq).
  assert (On i c s3 v1) as HO3.
  { apply (On_other i c s2 v1 j d2); [by apply (On_other i c s1 v1 j d1)|done..]. }
  destruct (tree_dom _ _ (inv_tree _ _ _ (on_inv _ _ _ _ HO)) i (on_valid _ _ _ _ HO) (on_live _ _ _ _ HO)) as [cs Hcs].
  assert (v_child v1 = <[j := []]> (v_child v)) as Ech by apply v_child_set_ready.
  assert (j ∉ v_free v1) as Hjf.
  { unfold v1. rewrite spawn_free. pose proof (rep_NoDup_free _ _ (inv_rep _ _ _ (on_inv _ _ _ _ HO))) as Hnd.
    rewrite Hf in Hnd. by apply NoDup_cons in Hnd as [? _]. }
  destruct (adopt_on i c s3 v1 j d3 cs HO3 Hd3 Hne) as (h4 & Hrun4 & HO4 & Hb4);
    [rewrite Ech; by simplify_map_eq|rewrite Ech; by simplify_map_eq|done..|].
  set (s4 := set_links h4 _) in *. set (d4 := set_p_parent (Some i) d3) in *.
  assert (pcb_table s4 !! j = Some d4) as Hd4 by (by eapply table_upd_eq).
  set (pid := make_pid (Z.of_nat j) (recycle_count s)).
  eexists (set_pcb_table (<[i := set_v0 pid c]> (pcb_table s4)) s4), cs. cbv zeta.
  rewrite <- Ech. change (v_spawn _ j l v) with v1. split_and!.
  - step_with (active_pcb_ok _ _ _ _ HO). fold prio a1. rewrite Hok. step_with Hrun1.
    rewrite bind_assoc. step_with Hrun2. rewrite bind_assoc. step_with Hst2.
    rewrite bind_assoc. step_with Hrun3. rewrite bind_assoc, bind_gets, (on_active _ _ _ _ HO3), bind_assoc.
    step_with Hrun4. rewrite bind_assoc. step_with (pcb_at_ok _ _ _ Hd4).
    step_with (upd_active_ok i c (set_v0 pid) s4 (on_active _ _ _ _ HO4) (on_pcb _ _ _ _ HO4)).
    rewrite preserve_ok. simpl. by rewrite (on_active _ _ _ _ HO).
  - by apply (On_upd i c).
  - done.
  - etrans; [|etrans; [exact Hb4|exact Hb1]]. by apply blocked_ext.
  - done.
  - simpl. by rewrite !list_insert_insert_eq.
Qed.

#[export] Instance create_process_service : Service syscall_create_process.
Proof.
  intros i c s v HO Hclk.
  destruct ((negb (reg_a2 (p_s c) =? PROCESS_PRIO_LOW) && negb (reg_a2 (p_s c) =? PROCESS_PRIO_HIGH))
            || (reg_a1 (p_s c) =? 0)) eqn:Hbad.
  { unfold syscall_create_process. eapply wp_step; [by eapply active_pcb_ok|]. cbn beta.
    rewrite Hbad. by eapply pass_up_service. }
  apply orb_false_elim in Hbad as [Hprio Hst%Z.eqb_neq].
  assert (reg_a2 (p_s c) = 0 ∨ reg_a2 (p_s c) = 1) as Hp.
  { unfold PROCESS_PRIO_LOW, PROCESS_PRIO_HIGH in Hprio.
    apply andb_false_iff in Hprio as [E%negb_false_iff|E%negb_false_iff]; apply Z.eqb_eq in E; tauto. }
  destruct (v_free v) as [|j l] eqn:Hf.
  - eapply wp_ok; [by eapply create_process_none|].
    split_and!; [|by apply HO|by eapply clock_ok_mem]. by eapply (Ready_run _ v i), (On_upd i c).
  - pose proof (create_process_child i c s v j l HO Hp Hst Hf) as Hrun.
    destruct (saved_states s !! _) as [st|].
    + destruct Hrun as (s' & cs & Hrun & HO' & _ & _ & Hm & _). eapply wp_ok; [exact Hrun|].
      split_and!; [by eapply Ready_run|by apply HO'|by eapply clock_ok_mem].
    + destruct Hrun as (s' & Hrun). unfold wp. by rewrite Hrun.
Qed.

(** *** TERMPROCESS *)

(** The process with the given pid dies with its descendants; the caller goes
    on if it is not one of them. *)
Lemma terminate_process_spec i c s v p d :
  On i c s v -> reg_a1 (p_s c) ≠ 0 -> pcb_table s !! p = Some d -> p_pid d = reg_a1 (p_s c) ->
  ∃ s' v' ds, Inv [i] s' v' ∧ killed ds s s' v v' ∧ (∀ x, x ∈ ds ↔ descends (v_child v) p x) ∧
    if decide (i ∈ ds)
    then syscall_terminate_process s = Ok CONTROL_BLOCK s' ∧ Inv [] s' v'
    else syscall_terminate_process s = Ok (CONTROL_RESCHEDULE (Some i)) s' ∧ On i c s' v'.
Proof.
  intros HO Hne Hd Hpid. pose proof (on_inv _ _ _ _ HO) as HI. set (pid := reg_a1 (p_s c)) in *.
  assert (p < MAX_PROC)%nat as Hlt.
  { rewrite <- (lists_pcbs _ _ (inv_rep _ _ _ HI)). by eapply lookup_lt_Some. }
  assert (p ∉ v_free v) as Hf.
  { intros Hf%(pool_pid _ _ (inv_pool _ _ _ HI) _ _ Hd). by rewrite Hpid in Hf. }
  destruct (find_process_spec [i] s v pid HI) as (r & Hrun1 & Hr).
  assert (r = Some p) as -> by (apply Hr; split; [done|by exists d]).
  destruct (kill_contract i c p s v HO Hlt Hf) as (s' & v' & ds & Hrun2 & HI' & HK & Hds & Hi).
  exists s', v', ds. split_and!; [done..|].
  assert (active_process s' = Some i) as Ha'.
  { destruct (frame_fields _ _ (kd_frame _ _ _ _ _ HK)) as (-> & _). apply HO. }
  assert (∀ c', pcb_table s' !! i = Some c' → syscall_terminate_process s =
    Ok (if p_pid c' =? NULL_PID then CONTROL_BLOCK else CONTROL_RESCHEDULE (Some i)) s') as Hrun.
  { intros c' Hc'. unfold syscall_terminate_process. step_with (active_pcb_ok _ _ _ _ HO). fold pid.
    rewrite (proj2 (Z.eqb_neq _ _) Hne). step_with Hrun1. cbn [negb andb].
    rewrite bool_decide_false by done. step_with Hrun2. run_if. rewrite bind_ret_l.
    unfold active_pcb. rewrite bind_assoc. step_with (active_ok _ _ Ha').
    step_with (pcb_at_ok _ _ _ Hc'). cbn [orb]. destruct (_ =? _); [done|].
    by rewrite reschedule_ok, Ha'. }
  case_decide as Hin.
  - destruct Hi as [HI0 (c' & Hc' & Hp')]. split; [|done]. rewrite (Hrun _ Hc'), Hp'. done.
  - split; [|done]. rewrite (Hrun _ (on_pcb _ _ _ _ Hi)).
    destruct (Z.eqb_spec (p_pid c) NULL_PID) as [E|]; [exfalso|done].
    apply (on_live _ _ _ _ HO). by apply (pool_pid _ _ (inv_pool _ _ _ HI) _ _ (on_pcb _ _ _ _ HO)).
Qed.

(** No process has the pid, or it is 0: the caller is passed up. *)
Lemma terminate_process_none i c s v :
  On i c s v ->
  reg_a1 (p_s c) = 0 ∨ (∀ p d, pcb_table s !! p = Some d → p_pid d ≠ reg_a1 (p_s c)) ->
  syscall_terminate_process s = pass_up_or_die GENERALEXCEPT s.
Proof.
  intros HO Hno. unfold syscall_terminate_process. step_with (active_pcb_ok _ _ _ _ HO).
  destruct (Z.eqb_spec (reg_a1 (p_s c)) 0) as [|Hne]; [done|]. destruct Hno as [|Hno]; [done|].
  destruct (find_process_spec [i] s v (reg_a1 (p_s c)) (on_inv _ _ _ _ HO)) as (r & Hrun1 & Hr).
  step_with Hrun1. destruct r as [p|]; [|done].
  destruct (proj1 (Hr p) eq_refl) as (_ & d & Hd & Hp). by destruct (Hno p d Hd).
Qed.

#[export] Instance terminate_process_service : Service syscall_terminate_process.
Proof.
  intros i c s v HO Hclk. pose proof (on_inv _ _ _ _ HO) as HI.
  destruct (find_process_spec [i] s v (reg_a1 (p_s c)) HI) as (r & _ & Hr).
  destruct r as [p|].
  - destruct (proj1 (Hr p) eq_refl) as (Hne & d & Hd & Hp).
    destruct (terminate_process_spec i c s v p d HO Hne Hd Hp) as (s' & v' & ds & HI' & HK & _ & Hi).
    destruct (frame_fields _ _ (kd_frame _ _ _ _ _ HK)) as (Ha' & Hy' & Hm & _).
    rewrite (on_active _ _ _ _ HO) in Ha'. rewrite (on_yield _ _ _ _ HO) in Hy'.
    case_decide as Hin; destruct Hi as [Hrun Hi]; (eapply wp_ok; [exact Hrun|]).
    + by eapply served_block; [..|eapply clock_ok_mem].
    + split_and!; [by eapply Ready_run|done|by eapply clock_ok_mem].
  - unfold wp. rewrite (terminate_process_none i c s v HO); [by eapply pass_up_service|].
    destruct (decide (reg_a1 (p_s c) = 0)) as [|Hne]; [by left|right].
    intros p d Hd E. enough (None = Some p) by done. apply Hr. eauto.
Qed.

(** *** DOIO *)

Lemma wp_panic {A} fmt args (k : KM A) (Q : A -> kernel -> Prop) s :
  wp (scheduler_panic fmt args ;; k) Q Exits s.
Proof. done. Qed.

(** The devices' registers are not the clock's semaphore. *)
Lemma clock_ok_device k x s :
  clock_ok s -> u32 k < 0x20000000 -> clock_ok (set_mem (<[k := u32 x]> (mem s)) s).
Proof.
  intros Hclk Hk. apply clock_ok_write; [done|]. intros ->. exfalso.
  assert (0 <= SEMAPHORES_NUM - 1 < SEMAPHORES_NUM) as Hn by (unfold SEMAPHORES_NUM, DEVINTNUM, DEVPERINT; lia).
  pose proof semaphores_in_ram. unfold get_timer_semaphore in Hk.
  destruct (semaphores_addr_ok _ Hn) as [Hr _]. rewrite u32_small in Hk by lia.
  rewrite semaphores_value in Hk by done. lia.
Qed.

Lemma served_write i ctrl k x s :
  Served i ctrl s -> u32 k < 0x20000000 ->
  wp (write_word k x ;; ret ctrl) (Served i) Exits s.
Proof.
  intros (HR & Ha & Hclk) Hk. destruct (word_addr k) eqn:Hw.
  - unfold wp, write_word. rewrite Hw, bind_modify. unfold ret. split_and!; [|done|].
    + eapply Ready_ext; [apply same_tables_mem|done].
    + by apply clock_ok_device.
  - unfold wp, write_word. rewrite Hw. done.
Qed.

#[export] Instance do_io_service : Service syscall_do_io.
Proof.
  intros i c s v HO Hclk. pose proof (on_inv _ _ _ _ HO) as HI. unfold syscall_do_io.
  eapply wp_step; [by eapply active_pcb_ok|]. cbn beta.
  destruct (Z.eqb_spec (reg_a1 (p_s c)) 0) as [|Hne]; [by eapply pass_up_service|].
  destruct (get_iodev_cases (reg_a1 (p_s c)) s) as [[s' Hrun]|(n & il & Hrun & Hn & Hk)].
  { unfold wp. by step_with Hrun. }
  eapply wp_step; [exact Hrun|]. cbn [semaphore interrupt_line].
  assert (addr_ok (semaphores n)) as Hok by (apply semaphores_addr_ok; lia).
  rewrite (addr_ok_nonzero _ Hok).
  eapply wp_step; [by apply head_blocked_spec; [apply HI..|]|]. cbn beta.
  case_bool_decide; [by eapply pass_up_service|].
  eapply wp_step; [by apply read_int_ok|]. cbn beta.
  destruct (0 <? sem_value s (semaphores n)); [done|]. eapply wp_step; [done|]. cbn beta.
  eapply wp_step; [done|]. cbn beta. rewrite (on_active _ _ _ _ HO). apply wp_bind.
  eapply wp_mono; [apply (P_contract i c _ s v); [done..|by apply addr_ok_nonzero_ne]| |done].
  intros ctrl s1 (HR & Ha & Hclk1). destruct (Ready_pcb _ _ i HR (on_valid _ _ _ _ HO)) as [c1 Hc1].
  eapply wp_step; [by apply (upd_active_ok i c1)|]. cbn beta. apply served_write; [|done].
  split_and!; [|done|by eapply clock_ok_mem]. eapply Ready_ext; [|exact HR].
  by apply same_tables_upd with c1.
Qed.

(** The normal case: nobody waits for the device yet, the caller does from now
    on, and the command is on its way. *)
(** The interrupts that a process takes while it waits for a device of [line]. *)
Definition io_status (line : Z) (c : pcb_t) : Z :=
  if is_true (p_prio c) then status_il_on (status (p_s c)) line else status_il_on_all (status (p_s c)).

Lemma do_io_blocks i c s v line dev w :
  On i c s v -> is_subdevice line dev w -> reg_a1 (p_s c) = command_addr line dev w ->
  let k := semaphores (sem_index line dev w) in
  blocked s v !! k = None -> sem_value s k = 0 ->
  ∃ s' v', syscall_do_io s = Ok CONTROL_BLOCK s' ∧ Inv [] s' v' ∧ same_procs v v' ∧
    blocked s' v' = <[k := [i]]> (blocked s v) ∧
    mem s' = <[command_addr line dev w := u32 (reg_a2 (p_s c))]> (mem s) ∧
    active_process s' = Some i ∧ yield_process s' = None ∧
    pcb_table s' = <[i := set_p_s (set_status (io_status line c) (p_s c)) (set_p_sem_add k c)]> (pcb_table s).
Proof.
  intros HO Hdev Ha1 k Hbl Hv. pose proof HO as [HI Ha Hy Hc Hz Hq].
  pose proof (sem_index_range line dev w (proj1 Hdev)) as Hn.
  assert (addr_ok k) as Hk by (apply semaphores_addr_ok; lia).
  assert (addr_ok (command_addr line dev w)) as Hcmd by (by apply command_addr_ok).
  destruct (P_block [i] s v k i c HI Hk Hv Hc Hz Hq) as (h & T & v' & Hrun & HI' & Hsame & Hb).
  set (s1 := set_softblock_count _ _) in *.
  assert (pcb_table s1 !! i = Some (set_p_sem_add k c)) as Hc1 by (by eapply table_upd_eq).
  pose proof (upd_active_ok i (set_p_sem_add k c) (fun c => set_p_s (set_status
    (if is_true (p_prio c) then status_il_on (status (p_s c)) line
     else status_il_on_all (status (p_s c))) (p_s c)) c) s1 Ha Hc1) as Hrun2.
  set (s2 := set_pcb_table _ s1) in Hrun2.
  assert (same_tables s1 s2) as HS by (by eapply same_tables_upd).
  pose proof (get_iodev_spec line dev w s Hdev) as Hrun0. fold k in Hrun0.
  pose proof (head_blocked_spec s v k (inv_rep _ _ _ HI) (inv_asl _ _ _ HI) Hk) as Hhead.
  rewrite Hbl in Hhead.
  destruct (same_tables_Inv HS [] v' (Inv_rem_self i _ _ HI')) as [HI2 Hb2].
  eexists (set_mem _ s2), v'. split_and!.
  - unfold syscall_do_io. step_with (active_pcb_ok _ _ _ _ HO). rewrite Ha1.
    rewrite (addr_ok_nonzero _ Hcmd). step_with Hrun0. cbn [semaphore interrupt_line].
    rewrite (addr_ok_nonzero _ Hk). step_with Hhead. cbn [bool_decide].
    rewrite bool_decide_false by (by intros []). step_with (read_int_ok k s Hk). rewrite Hv. run_if.
    rewrite bind_ret_l, bind_gets, Ha. step_with Hrun. step_with Hrun2.
    by step_with (write_word_ok (command_addr line dev w) (reg_a2 (p_s c)) s2 Hcmd).
  - by apply Inv_mem.
  - done.
  - etrans; [by eapply (Inv_mem [])|]. rewrite Hb2, Hb, Hbl. done.
  - done.
  - exact Ha.
  - exact Hy.
  - simpl. by rewrite list_insert_insert_eq.
Qed.

(** *** The dispatch on the number *)

(** [is_user_mode] reads the KUp bit of the active process. *)
Lemma is_user_mode_ok i c s v :
  On i c s v -> is_user_mode s = Ok (user_mode (status (p_s c))) s.
Proof.
  intros HO. unfold is_user_mode. rewrite bind_gets, (on_active _ _ _ _ HO).
  unfold deref. rewrite (bind_ok_or _ _ _ _ _ eq_refl).
  by rewrite (bind_ok _ _ _ _ _ (pcb_at_ok _ _ _ (on_pcb _ _ _ _ HO))).
Qed.

Lemma user_mode_refused i c s v :
  On i c s v -> Z.testbit (status (p_s c)) 3 = true -> s32 (reg_a0 (p_s c)) <= 0 ->
  let cause' := cause_reserved_instruction (cause_clean (cause (p_s c))) in
  let s1 := set_pcb_table (<[i := set_p_s (set_cause cause' (p_s c)) c]> (pcb_table s)) s in
  syscall_handler s = pass_up_or_die GENERALEXCEPT s1.
Proof.
  intros HO Hu Hid cause' s1. unfold syscall_handler. rewrite bind_gets, (on_active _ _ _ _ HO).
  rewrite bool_decide_false by done. rewrite bind_ret_l. step_with (active_pcb_ok _ _ _ _ HO).
  rewrite (proj2 (Z.leb_le _ _) Hid). step_with (is_user_mode_ok _ _ _ _ HO).
  rewrite user_mode_bit, Hu. change (is_true (Z.b2z true)) with true. cbn [andb]. cbv iota.
  step_with (upd_active_ok i c (fun c => set_p_s (set_cause (cause_clean (cause (p_s c))) (p_s c)) c)
    s (on_active _ _ _ _ HO) (on_pcb _ _ _ _ HO)).
  match goal with |- bind (upd_active ?f) _ ?st = _ =>
    rewrite (bind_ok _ _ _ _ _ (upd_active_ok i _ f st (on_active _ _ _ _ HO)
      (table_upd_eq _ _ _ _ (on_pcb _ _ _ _ HO)))) end.
  simpl pcb_table. by rewrite list_insert_insert_eq.
Qed.

#[export] Instance handler_service : Service syscall_handler.
Proof.
  intros i c s v HO Hclk. unfold syscall_handler. eapply wp_step; [done|]. cbn beta.
  rewrite (on_active _ _ _ _ HO), bool_decide_false by done. eapply wp_step; [done|]. cbn beta.
  eapply wp_step; [by eapply active_pcb_ok|]. cbn beta. set (id := s32 _).
  assert (∃ u, (if id <=? 0 then is_user_mode else ret 0) s = Ok u s) as [u Hu].
  { destruct (id <=? 0); [|by eexists]. eexists. by eapply is_user_mode_ok. }
  eapply wp_step; [exact Hu|]. cbn beta.
  destruct ((id <=? 0) && is_true u).
  { match goal with |- wp (upd_active ?f ;; upd_active ?g ;; _) _ _ _ =>
      pose proof (On_upd i c (f c) s v HO ltac:(done)) as HO1;
      pose proof (On_upd i (f c) (g (f c)) _ v HO1 ltac:(done)) as HO2 end.
    eapply wp_step; [apply (upd_active_ok i c); apply HO|]. cbn beta.
    eapply wp_step; [by eapply upd_active_ok; [|apply (on_pcb _ _ _ _ HO1)]; apply HO|]. cbn beta.
    eapply (pass_up_service _ i _ _ v); [exact HO2|by eapply clock_ok_mem]. }
  repeat (destruct (_ =? _); [by eapply service|]).
  eapply wp_step; [done|]. cbn beta. eapply (pass_up_service _ i c _ v); [|by eapply clock_ok_mem].
  destruct HO. split; try done. by eapply Inv_ext.
Qed.
End services.
