(* ===== verification/Exception.v ===== *)
(** * Exceptions and interrupts: [phase2/src/exception.c]

    The handler the processor jumps to on every exception.  It accounts for the
    time the interrupted process has used, saves its state in its PCB, serves
    the interrupt, the system call or the trap and lets the scheduler choose
    who runs next: like [schedule], it never returns. *)

From Stdlib Require Import ZArith Lia String.
From stdpp Require Import base tactics option numbers gmap list fin vector relations.
From S2P Require Import Prelude ListHead Machine Kernel View Pcb Asl Scheduler Invariant Process Dispatch Semaphores Contract Syscall.

Open Scope string_scope.
Open Scope list_scope.
Open Scope Z_scope.

Section operations.
Context `{Umps}.

(** [while (val > 1 && device_n < N_DEV_PER_IL)] *)
Fixpoint find_device_loop (fuel : nat) (device_n val : Z) : KM Z :=
  match fuel with
  | O => no_fuel
  | S f =>
      if (1 <? val) && (device_n <? N_DEV_PER_IL)
      then find_device_loop f (device_n + 1) (Z.shiftr val 1)
      else ret device_n
  end.

Definition find_device_number (bitmap : Z) : KM Z :=
  val <- read_word bitmap ;;
  find_device_loop (S (Z.to_nat N_DEV_PER_IL)) 0 val.

Definition interrupt_ipi : KM scheduler_control_t := preserve.

Definition interrupt_local_timer : KM scheduler_control_t := reset_local_timer ;; reschedule.

(** [while ( *get_timer_semaphore() != 1) V(get_timer_semaphore())] *)
Fixpoint timer_loop (fuel : nat) : KM unit :=
  match fuel with
  | O => no_fuel
  | S f =>
      v <- read_int get_timer_semaphore ;;
      if negb (v =? 1) then V get_timer_semaphore ;; timer_loop f else ret tt
  end.

(** Every process may be waiting, the value goes from 0 to 1 after the last
    one is awake, and the loop tests it once more. *)
Definition timer_fuel : nat := S (S MAX_PROC).

Definition interrupt_timer : KM scheduler_control_t :=
  reset_timer ;; timer_loop timer_fuel ;; preserve.

Definition return_status (p : option nat) (status : Z) : KM scheduler_control_t :=
  a <- gets active_process ;;
  if bool_decide (p = a) then
    when bool_decide (a = None) do
      scheduler_panic "No active process (Interrupt Generic)\n" [] ;;
    upd_active (set_v0 status) ;;
    reschedule
  else
    i <- deref p ;;
    upd_pcb i (set_v0 status) ;;
    preserve.

(** [for (i = first; i < first + n; i++) if (cause & CAUSE_IP(i)) ...] *)
Fixpoint pending_line (n : nat) (i cause : Z) : Z :=
  match n with
  | O => IL_DISK
  | S n' => if negb (Z.land cause (CAUSE_IP i) =? 0) then i else pending_line n' (i + 1) cause
  end.

Definition interrupt_generic (cause : Z) : KM scheduler_control_t :=
  let il := pending_line (Z.to_nat (IL_PRINTER + 1 - IL_DISK)) IL_DISK cause in
  devicenumber <- find_device_number (CDEV_BITMAP_ADDR il) ;;
  sem <- get_semaphore il devicenumber false ;;
  let dtp_reg := DEV_REG_ADDR il devicenumber in
  status <- read_int (dtp_reg + RECV_STATUS) ;;
  when Z.land status TERMSTATMASK =? DEV_STATUS_NOTINSTALLED do
    scheduler_panic "Device is not installed!\n" [] ;;
  p <- V sem ;;
  ctrl <- return_status p status ;;
  write_word (dtp_reg + RECV_COMMAND) DEV_C_ACK ;;
  ret ctrl.

(** What [interrupt_terminal] does with the process that [V] returns. *)
Definition return_terminal_status (p : option nat) (status : Z) : KM scheduler_control_t :=
  a <- gets active_process ;;
  if bool_decide (p = None) || bool_decide (p = a) then
    when bool_decide (a = None) do
      scheduler_panic "No active process (Interrupt Terminal)\n" [] ;;
    upd_active (set_v0 status) ;;
    reschedule
  else
    i <- deref p ;;
    upd_pcb i (set_v0 status) ;;
    preserve.

(** One iteration of the loop of [interrupt_terminal], [next] being the rest. *)
Definition terminal_subdevice (status command sem : Z) (next : KM scheduler_control_t)
    : KM scheduler_control_t :=
  when Z.land status TERMSTATMASK =? DEV_STATUS_NOTINSTALLED do
    scheduler_panic "Device is not installed!\n" [] ;;
  if Z.land status TERMSTATMASK =? DEV_STATUS_TERMINAL_OK then
    p <- V sem ;;
    ctrl <- return_terminal_status p status ;;
    write_word command DEV_C_ACK ;;
    ret ctrl
  else next.

Definition interrupt_terminal : KM scheduler_control_t :=
  devicenumber <- find_device_number (CDEV_BITMAP_ADDR IL_TERMINAL) ;;
  let term_reg := DEV_REG_ADDR IL_TERMINAL devicenumber in
  transm_status <- read_int (term_reg + TRANSM_STATUS) ;;
  recv_status <- read_int (term_reg + RECV_STATUS) ;;
  sem_w <- get_semaphore IL_TERMINAL devicenumber true ;;
  sem_r <- get_semaphore IL_TERMINAL devicenumber false ;;
  terminal_subdevice transm_status (term_reg + TRANSM_COMMAND) sem_w
    (terminal_subdevice recv_status (term_reg + RECV_COMMAND) sem_r
      (scheduler_panic "Unexpected interrupt from terminal device %d\n" [devicenumber] ;;
       ret CONTROL_BLOCK)).

Definition interrupt_handler (cause : Z) : KM scheduler_control_t :=
  if negb (Z.land cause (CAUSE_IP IL_IPI) =? 0) then interrupt_ipi
  else if negb (Z.land cause (CAUSE_IP IL_CPUTIMER) =? 0) then interrupt_local_timer
  else if negb (Z.land cause (CAUSE_IP IL_TIMER) =? 0) then interrupt_timer
  else if negb (Z.land cause (Z.lor (Z.lor (Z.lor (CAUSE_IP IL_DISK) (CAUSE_IP IL_FLASH))
                                           (CAUSE_IP IL_ETHERNET)) (CAUSE_IP IL_PRINTER)) =? 0)
  then interrupt_generic cause
  else if negb (Z.land cause (CAUSE_IP IL_TERMINAL) =? 0) then interrupt_terminal
  else reschedule.

(** [active_process->p_time += now - start_tod], in the arithmetic of [int] *)
Definition account_time : KM unit :=
  now_tod <- store_tod ;;
  start <- gets start_tod ;;
  upd_active (fun c => set_p_time (s32 (p_time c + s32 (now_tod - start))) c).

Definition exception_syscall : KM scheduler_control_t :=
  a <- gets active_process ;;
  when bool_decide (a = None) do
    scheduler_panic "A syscall happened while active_process was NULL\n" [] ;;
  t <- store_tod ;;
  modify (set_start_tod t) ;;
  ctrl <- syscall_handler ;;
  account_time ;;
  upd_active (fun c => set_p_s (set_pc_epc (u32 (pc_epc (p_s c) + WORD_SIZE)) (p_s c)) c) ;;
  upd_active (fun c => set_p_s (set_reg_t9 (u32 (reg_t9 (p_s c) + WORD_SIZE)) (p_s c)) c) ;;
  ret ctrl.

Definition exception_handler : KM unit :=
  a <- gets active_process ;;
  when bool_decide (a <> None) do account_time ;;
  when bool_decide (a <> None) do
    (st <- read_state BIOSDATAPAGE ;; upd_active (set_p_s st)) ;;
  cause <- get_cause ;;
  let code := CAUSE_GET_EXCCODE cause in
  ctrl <- (if code =? 0 then interrupt_handler cause
           else if (code =? 1) || (code =? 2) || (code =? 3) then pass_up_or_die PGFAULTEXCEPT
           else if code =? 8 then exception_syscall
           else
             kprintf "EXCP %d\n" [code + 1] ;;
             pass_up_or_die GENERALEXCEPT) ;;
  schedule (sc_pcb ctrl) (sc_enqueue ctrl).
End operations.

(** ** Which device: the position of the highest bit *)

Section devices.
Context `{UmpsLaws}.
Implicit Types (s : kernel).

Lemma find_device_loop_spec fuel n val s :
  0 <= n -> 0 <= val < 2 ^ (N_DEV_PER_IL - n) -> (Z.to_nat (N_DEV_PER_IL - n) < fuel)%nat ->
  find_device_loop fuel n val s = Ok (n + Z.log2 val) s.
Proof.
  revert n val. induction fuel as [|fuel IH]; intros n val Hn Hval Hf; [lia|]. cbn [find_device_loop].
  destruct (Z.ltb_spec 1 val) as [Hgt|Hle]; cbn [andb].
  - assert (n < N_DEV_PER_IL) as Hlt.
    { destruct (Z.ltb_spec n N_DEV_PER_IL); [done|exfalso].
      assert (2 ^ (N_DEV_PER_IL - n) <= 2 ^ 0) by (destruct (Z.eq_dec n N_DEV_PER_IL) as [->|];
        [by rewrite Z.sub_diag|rewrite Z.pow_neg_r by lia; lia]). lia. }
    rewrite (proj2 (Z.ltb_lt _ _) Hlt). rewrite IH; [|lia| |lia].
    + rewrite Z.log2_shiftr by lia. rewrite Z.max_r; [f_equal; lia|].
      assert (0 < Z.log2 val) by (apply Z.log2_pos; lia). lia.
    + rewrite Z.shiftr_div_pow2 by lia. split; [apply Z.div_pos; lia|].
      apply Z.div_lt_upper_bound; [lia|]. rewrite <- Z.pow_add_r by lia.
      replace (1 + (N_DEV_PER_IL - (n + 1))) with (N_DEV_PER_IL - n) by lia. lia.
  - f_equal. assert (val = 0 ∨ val = 1) as [-> | ->] by lia; simpl; lia.
Qed.

Lemma find_device_number_spec bitmap s :
  word_addr bitmap = true -> 0 <= default 0 (mem s !! bitmap) < 256 ->
  find_device_number bitmap s = Ok (Z.log2 (default 0 (mem s !! bitmap))) s.
Proof.
  intros Hw Hb. unfold find_device_number. step_with (read_word_ok s bitmap Hw).
  rewrite find_device_loop_spec; rewrite ?n_dev_per_il; [done|lia|lia|]. simpl. lia.
Qed.

(** The lines have a bitmap word each. *)
Lemma cdev_bitmap_word line :
  IL_DISK <= line <= IL_TERMINAL -> word_addr (CDEV_BITMAP_ADDR line) = true.
Proof.
  rewrite il_disk, il_terminal, cdev_bitmap. intros Hl. apply addr_ok_word. split; [lia|].
  rewrite Z_mod_plus_full. done.
Qed.

(** [interrupt_generic] serves the pending line with the smallest number. *)
Lemma pending_line_spec n first cause :
  let il := pending_line n first cause in
  (first <= il < first + Z.of_nat n ∧ Z.land cause (CAUSE_IP il) ≠ 0 ∧
   ∀ l, first <= l < il -> Z.land cause (CAUSE_IP l) = 0) ∨
  (il = IL_DISK ∧ ∀ l, first <= l < first + Z.of_nat n -> Z.land cause (CAUSE_IP l) = 0).
Proof.
  cbv zeta. revert first. induction n as [|n IH]; intros first; cbn [pending_line].
  { right. split; [done|]. lia. }
  destruct (Z.eqb_spec (Z.land cause (CAUSE_IP first)) 0) as [Hz|Hnz]; cbn [negb].
  - destruct (IH (first + 1)) as [(Hr & Hl & Hlow)|(Hl & Hall)].
    + left. split_and!; [lia|lia|done|]. intros l Hl'.
      destruct (Z.eq_dec l first) as [->|]; [done|]. apply Hlow. lia.
    + right. split; [done|]. intros l Hl'.
      destruct (Z.eq_dec l first) as [->|]; [done|]. apply Hall. lia.
  - left. split_and!; [lia|lia|done|]. lia.
Qed.

(** Some line from the disks to the printers is pending. *)
Lemma generic_pending cause :
  Z.land cause (Z.lor (Z.lor (Z.lor (CAUSE_IP IL_DISK) (CAUSE_IP IL_FLASH))
                             (CAUSE_IP IL_ETHERNET)) (CAUSE_IP IL_PRINTER)) ≠ 0 ->
  let il := pending_line (Z.to_nat (IL_PRINTER + 1 - IL_DISK)) IL_DISK cause in
  IL_DISK <= il <= IL_PRINTER ∧ Z.land cause (CAUSE_IP il) ≠ 0 ∧
  ∀ l, IL_DISK <= l < il -> Z.land cause (CAUSE_IP l) = 0.
Proof.
  intros Hc. cbv zeta.
  destruct (pending_line_spec (Z.to_nat (IL_PRINTER + 1 - IL_DISK)) IL_DISK cause)
    as [(Hr & Hl & Hlow)|(_ & Hall)].
  - split_and!; [lia| |done|done]. rewrite il_printer, il_disk in *. lia.
  - destruct Hc. rewrite !Z.land_lor_distr_r.
    rewrite il_printer, il_disk, il_flash, il_ethernet in *.
    rewrite !Hall by lia. done.
Qed.
End devices.

(** ** The clock *)

Section clock.
Context `{UmpsLaws}.
Implicit Types (s : kernel) (v : view) (a ws : list nat) (i t : nat).

Abbreviation clk := get_timer_semaphore.

Lemma clock_addr_ok : addr_ok clk.
Proof. apply semaphores_addr_ok. unfold SEMAPHORES_NUM, DEVINTNUM, DEVPERINT. lia. Qed.

(** The priority of a process in the table. *)
Definition prio_of (s : kernel) (i : nat) : bool :=
  match pcb_table s !! i with Some c => is_true (p_prio c) | None => false end.

(** The waiters on the clock become ready, in order, each at the end of the
    queue of its priority. *)
Record ticked (a ws : list nat) (s s' : kernel) (v v' : view) : Prop := {
  tk_inv : Inv a s' v';
  tk_rest : Rest s v -> (∀ i, i ∈ a -> active_process s = Some i) -> Rest s' v';
  tk_mem : mem s' = <[clk := 1]> (mem s);
  tk_active : active_process s' = active_process s;
  tk_yield : yield_process s' = yield_process s;
  tk_blocked : blocked s' v' = delete clk (blocked s v);
  tk_ready : ∀ b, v_ready b v' = v_ready b v ++ filter (fun x => prio_of s x = b) ws;
  tk_free : v_free v' = v_free v;
  tk_pcb : ∀ x c, pcb_table s !! x = Some c ->
    pcb_table s' !! x = Some (if decide (x ∈ ws) then set_p_sem_add 0 c else c);
}.

Lemma Rest_mem s v m : Rest s v -> Rest (set_mem m s) v.
Proof. apply Rest_ext, same_tables_mem. Qed.

Lemma timer_loop_done fuel s : sem_value s clk = 1 -> timer_loop (S fuel) s = Ok tt s.
Proof. intros Hv. cbn [timer_loop]. step_with (read_int_ok clk s clock_addr_ok). by rewrite Hv. Qed.

Lemma timer_loop_step fuel s p s1 :
  sem_value s clk = 0 -> V clk s = Ok p s1 -> timer_loop (S fuel) s = timer_loop fuel s1.
Proof.
  intros Hv HV. cbn [timer_loop]. step_with (read_int_ok clk s clock_addr_ok). rewrite Hv. run_if.
  by step_with HV.
Qed.

(** Nobody waits any more: the semaphore is released. *)
Lemma ticked_none fuel a s v :
  Inv a s v -> sem_value s clk = 0 -> blocked s v !! clk = None ->
  ∃ s', timer_loop (S (S fuel)) s = Ok tt s' ∧ ticked a [] s s' v v.
Proof.
  intros HI Hv Hl. pose proof (V_inc a s v clk HI clock_addr_ok ltac:(lia) Hl) as HV. rewrite Hv in HV.
  eexists. split.
  - rewrite (timer_loop_step _ _ _ _ Hv HV). apply timer_loop_done. rewrite sem_value_write.
    by rewrite decide_True.
  - split; try done.
    + by apply Inv_mem.
    + intros HR _. by apply Rest_mem.
    + etrans; [by apply (Inv_mem a)|]. symmetry. by apply delete_id.
    + intros b. simpl. by rewrite app_nil_r.
Qed.

Lemma woken_prio k t d a s s1 v v1 x : woken k t d a s s1 v v1 -> prio_of s1 x = prio_of s x.
Proof.
  intros (h & v2 & -> & Hd & _). unfold prio_of. simpl.
  destruct (decide (x = t)) as [->|Hx]; [|by rewrite list_lookup_insert_ne].
  by rewrite (table_upd_eq _ _ _ _ Hd), Hd.
Qed.

Lemma leave_first t l (m : gmap Z (list nat)) : NoDup (t :: l) -> m !! clk = Some (t :: l) ->
  leave clk t m = match l with [] => delete clk m | _ => <[clk := l]> m end.
Proof. intros Hnd Hl. unfold leave. rewrite Hl. simpl default. rewrite rem_head by done. by destruct l. Qed.

(** The first waiter is woken up, and then the others. *)
Lemma ticked_cons a s s1 s' v v1 v' t l d :
  Inv a s v -> blocked s v !! clk = Some (t :: l) -> NoDup (t :: l) -> p_sem_add d ≠ 0 ->
  woken clk t d a s s1 v v1 -> ticked a l s1 s' v1 v' -> ticked a (t :: l) s s' v v'.
Proof.
  intros HI Hl Hnd Hne Hw [H1 H2 H3 H4 H5 H6 H7 H8 H9].
  destruct (woken_state _ _ _ _ _ _ _ _ Hw) as (Hm & Ha & Hy & HI1).
  assert (blocked s1 v1 = leave clk t (blocked s v)) as Hb by (by destruct Hw as (? & ? & _ & _ & _ & _ & _ & ?)).
  split.
  - done.
  - intros HR Hact. apply H2; [by eapply woken_rest|]. intros i Hi. rewrite Ha. by apply Hact.
  - by rewrite H3, Hm.
  - by rewrite H4.
  - by rewrite H5.
  - rewrite H6, Hb, (leave_first t l) by done. destruct l; [by rewrite delete_delete_eq|by rewrite delete_insert_eq].
  - intros b. rewrite H7. destruct (woken_ready _ _ _ _ _ _ _ _ b HI Hw Hne) as [-> _].
    assert (prio_of s t = is_true (p_prio d)) as Hpt.
    { unfold prio_of. by destruct Hw as (? & ? & _ & -> & _). }
    rewrite (list_filter_iff _ (fun x => prio_of s x = b)) by (intros x; by rewrite (woken_prio _ _ _ _ _ _ _ _ x Hw)).
    rewrite <- Hpt. destruct (Bool.eqb (prio_of s t) b) eqn:E.
    + apply eqb_prop in E. rewrite filter_cons_True by done. by rewrite <- app_assoc.
    + rewrite filter_cons_False; [done|]. intros E'. rewrite E', Bool.eqb_reflx in E. done.
  - rewrite H8. by destruct (woken_ready _ _ _ _ _ _ _ _ true HI Hw Hne) as (_ & -> & _).
  - intros x c Hx. destruct Hw as (h & v2 & Es1 & Hd & _).
    assert (pcb_table s1 = <[t := set_p_sem_add 0 d]> (pcb_table s)) as ET by (by rewrite Es1).
    apply NoDup_cons in Hnd as [Ht _]. destruct (decide (x = t)) as [->|Hne'].
    + assert (c = d) as -> by congruence.
      rewrite (H9 t (set_p_sem_add 0 d)), decide_False by (done || (rewrite ET; by eapply table_upd_eq)).
      by rewrite decide_True by left.
    + rewrite (H9 x c) by (by rewrite ET, list_lookup_insert_ne). f_equal.
      apply decide_ext. rewrite elem_of_cons. naive_solver.
Qed.

Lemma timer_loop_spec fuel a s v ws :
  Inv a s v -> sem_value s clk = 0 -> default [] (blocked s v !! clk) = ws ->
  (S (length ws) < fuel)%nat ->
  ∃ s' v', timer_loop fuel s = Ok tt s' ∧ ticked a ws s s' v v'.
Proof.
  revert s v ws. induction fuel as [|fuel IH]; intros s v ws HI Hv Hws Hf; [lia|].
  destruct (blocked_cases s v clk (inv_rep _ _ _ HI) (inv_asl _ _ _ HI)) as [Hl|(t & l & Hl)].
  { rewrite Hl in Hws. simpl in Hws. subst ws. destruct fuel as [|fuel]; [simpl in Hf; lia|].
    destruct (ticked_none fuel a s v HI Hv Hl) as (s' & Hrun & HT). by exists s', v. }
  rewrite Hl in Hws. simpl in Hws. subst ws. simpl in Hf.
  destruct (V_wake a s v clk t l HI clock_addr_ok ltac:(lia) Hl) as (d & s1 & v1 & HV & Hw).
  destruct (woken_state _ _ _ _ _ _ _ _ Hw) as (Hm & _ & _ & HI1).
  assert (p_sem_add d ≠ 0) as Hne.
  { eapply waiter_sem; [apply HI|apply HI|apply clock_addr_ok|done|].
    by destruct Hw as (? & ? & _ & ? & _). }
  assert (NoDup (t :: l)) as Hnd.
  { pose proof Hl as Hl'. apply (blocked_lookup _ _ _ (inv_rep _ _ _ HI) (inv_asl _ _ _ HI)) in Hl' as (j & _ & _ & Hq).
    by eapply rep_NoDup_procq, Hq; apply HI. }
  destruct (IH s1 v1 l HI1) as (s' & v' & Hrun & HT); [|  |lia|].
  { unfold sem_value in *. by rewrite Hm. }
  { destruct Hw as (? & ? & _ & _ & _ & _ & _ & ->). rewrite (leave_first t l) by done.
    destruct l; [by rewrite lookup_delete_eq|by rewrite lookup_insert_eq]. }
  exists s', v'. split; [by rewrite (timer_loop_step _ _ _ _ Hv HV)|]. by eapply ticked_cons.
Qed.
End clock.

(** ** Interrupts *)

Section interrupts.
Context `{UmpsLaws}.
Implicit Types (s : kernel) (v : view) (a : list nat) (i t : nat) (c : pcb_t).

(** The number of the device that the bitmap of a line names. *)
Definition due_device (s : kernel) (line : Z) : Z :=
  Z.log2 (default 0 (mem s !! CDEV_BITMAP_ADDR line)).

(** The hardware's side of a device interrupt: the bitmap of the line is a
    byte, and the device does not interrupt more often than it is waited for:
    its semaphore has no unclaimed interrupt yet. *)
Definition device_due (s : kernel) (line : Z) (w : bool) : Prop :=
  0 <= default 0 (mem s !! CDEV_BITMAP_ADDR line) < 256 ∧
  sem_value s (semaphores (sem_index line (due_device s line) w)) ≠ 1.

(** What the nucleus relies on when the cause register has [cause]. *)
Definition interrupts_ok (s : kernel) (cause : Z) : Prop :=
  ∀ line w, IL_DISK <= line <= IL_TERMINAL -> (w = true -> line = IL_TERMINAL) ->
    Z.land cause (CAUSE_IP line) ≠ 0 -> device_due s line w.

Lemma due_device_ok s line :
  IL_DISK <= line <= IL_TERMINAL -> 0 <= default 0 (mem s !! CDEV_BITMAP_ADDR line) < 256 ->
  is_device line (due_device s line) ∧
  find_device_number (CDEV_BITMAP_ADDR line) s = Ok (due_device s line) s.
Proof.
  intros Hl Hb. split; [split; [done|]|].
  - unfold due_device, DEVPERINT. split; [apply Z.log2_nonneg|].
    set (b := default 0 _) in *. destruct (Z.eq_dec b 0) as [->|]; [done|].
    apply Z.log2_lt_pow2; lia.
  - by apply find_device_number_spec; [apply cdev_bitmap_word|].
Qed.

(** [V] on a semaphore that is not full, from an interrupt: the process that
    it returns is the active one, or one that was waiting and now is ready. *)
Lemma V_interrupt k s v :
  Rest s v -> clock_ok s -> addr_ok k -> sem_value s k ≠ 1 ->
  ∃ p s' v', V k s = Ok p s' ∧ Rest s' v' ∧ clock_ok s' ∧ active_process s' = active_process s ∧
    (p = active_process s ∨ ∃ t, p = Some t ∧ (t < MAX_PROC)%nat ∧ active_process s ≠ Some t).
Proof.
  intros HR Hclk Hk Hv. destruct (Rest_inv _ _ HR) as (a & HI & Ha & Hy).
  destruct (blocked_cases s v k (inv_rep _ _ _ HI) (inv_asl _ _ _ HI)) as [Hl|(t & l & Hl)].
  - eexists _, _, v. split; [by eapply V_inc|]. split_and!; [by apply Rest_mem| |done|by left].
    apply clock_ok_write; [done|]. intros ->. destruct Hclk as [Hc0|?]; [|done]. right. lia.
  - destruct (V_wake a s v k t l HI Hk Hv Hl) as (d & s' & v' & Hrun & Hw).
    destruct (woken_state _ _ _ _ _ _ _ _ Hw) as (Hm & Ha' & _).
    assert (pcb_table s !! t = Some d) as Hd by (by destruct Hw as (? & ? & _ & ? & _)).
    assert (p_sem_add d ≠ 0) as Hne by (eapply waiter_sem; [apply HI|apply HI|done|done|done]).
    exists (Some t), s', v'. split_and!; [done|by eapply woken_rest|by eapply clock_ok_mem|done|].
    right. exists t. split_and!; [done| |].
    + rewrite <- (lists_pcbs _ _ (inv_rep _ _ _ HI)). by eapply lookup_lt_Some.
    + intros Hact. destruct HR as [(i & c & HO)|HO]; [|by rewrite (idle_active _ _ HO) in Hact].
      rewrite (on_active _ _ _ _ HO) in Hact. simplify_eq. destruct HO. simplify_eq.
Qed.

Lemma rest_upd s v t f :
  Rest s v -> (t < MAX_PROC)%nat -> (∀ c, same_role c (f c)) ->
  ∃ c, upd_pcb t f s = Ok tt (set_pcb_table (<[t := f c]> (pcb_table s)) s) ∧
    Rest (set_pcb_table (<[t := f c]> (pcb_table s)) s) v.
Proof.
  intros HR Ht Hf. destruct (Rest_inv _ _ HR) as (a & HI & _).
  destruct (rep_pcb _ _ (inv_rep _ _ _ HI) t Ht) as [c Hc]. exists c.
  split; [by apply upd_pcb_ok|]. eapply Rest_ext; [by apply (same_tables_upd s t c)|done].
Qed.

Lemma rest_active s v i : Rest s v -> active_process s = Some i -> (i < MAX_PROC)%nat.
Proof.
  intros [(j & c & HO)|HO] Ha; [|by rewrite (idle_active _ _ HO) in Ha].
  rewrite (on_active _ _ _ _ HO) in Ha. simplify_eq. by eapply on_valid.
Qed.

Definition Rested (ctrl : scheduler_control_t) (s : kernel) : Prop := Ready s ctrl ∧ clock_ok s.

(** The status of the device goes to the process that ran ... *)
Lemma status_to_active s v i f :
  Rest s v -> clock_ok s -> active_process s = Some i -> (∀ c, same_role c (f c)) ->
  wp (upd_active f ;; reschedule) Rested Exits s.
Proof.
  intros HR Hclk Ha Hf. destruct (rest_upd s v i f HR (rest_active _ _ _ HR Ha) Hf) as (c & Hrun & HR').
  unfold wp, upd_active. rewrite bind_assoc. step_with (active_ok _ _ Ha). step_with Hrun.
  split; [|by eapply clock_ok_mem]. apply (Rest_ready _ _ true HR').
Qed.

(** ... or to the one that it woke up. *)
Lemma status_to_waiter s v t f :
  Rest s v -> clock_ok s -> (t < MAX_PROC)%nat -> (∀ c, same_role c (f c)) ->
  wp (upd_pcb t f ;; preserve) Rested Exits s.
Proof.
  intros HR Hclk Ht Hf. destruct (rest_upd s v t f HR Ht Hf) as (c & Hrun & HR').
  unfold wp. step_with Hrun. split; [|by eapply clock_ok_mem]. apply (Rest_ready _ _ false HR').
Qed.

Definition woke (p : option nat) (s : kernel) : Prop :=
  p = active_process s ∨ ∃ t, p = Some t ∧ (t < MAX_PROC)%nat ∧ active_process s ≠ Some t.

Lemma return_status_rest p status s v :
  Rest s v -> clock_ok s -> woke p s -> wp (return_status p status) Rested Exits s.
Proof.
  intros HR Hclk [->|(t & -> & Ht & Hne)]; unfold return_status;
    (eapply wp_step; [done|]); cbn beta.
  - rewrite bool_decide_true by done. destruct (active_process s) as [i|] eqn:Ha; [|done].
    eapply wp_step; [done|]. by eapply status_to_active.
  - rewrite bool_decide_false by congruence. eapply wp_step; [done|]. by eapply status_to_waiter.
Qed.

Lemma return_terminal_status_rest p status s v :
  Rest s v -> clock_ok s -> woke p s -> wp (return_terminal_status p status) Rested Exits s.
Proof.
  intros HR Hclk [->|(t & -> & Ht & Hne)]; unfold return_terminal_status;
    (eapply wp_step; [done|]); cbn beta.
  - rewrite orb_true_intro by (right; by apply bool_decide_true).
    destruct (active_process s) as [i|] eqn:Ha; [|done].
    eapply wp_step; [done|]. by eapply status_to_active.
  - rewrite !bool_decide_false by congruence. eapply wp_step; [done|]. by eapply status_to_waiter.
Qed.

Lemma ready_write ctrl k x s :
  Rested ctrl s -> u32 k < 0x20000000 -> wp (write_word k x ;; ret ctrl) Rested Exits s.
Proof.
  intros [HR Hclk] Hk. destruct (word_addr k) eqn:Hw.
  - unfold wp, write_word. rewrite Hw, bind_modify. unfold ret. split.
    + eapply Ready_ext; [apply same_tables_mem|done].
    + by apply clock_ok_device.
  - unfold wp, write_word. rewrite Hw. done.
Qed.

(** Reading a device register may trap; then control has left the nucleus. *)
Lemma wp_read_int {A} k (f : Z -> KM A) Q s :
  wp (f (sem_value s k)) Q Exits s -> wp (x <- read_int k ;; f x) Q Exits s.
Proof.
  intros Hf. unfold wp, read_int. rewrite bind_assoc. unfold read_word. destruct (word_addr k); [|done].
  rewrite bind_gets. exact Hf.
Qed.

Lemma device_register line dev off :
  is_device line dev -> 0 <= off < 16 -> u32 (DEV_REG_ADDR line dev + off) < 0x20000000.
Proof.
  unfold is_device, DEV_REG_ADDR, DEVPERINT. rewrite il_disk, il_terminal, dev_reg_start, dev_reg_size.
  intros [? ?] ?. rewrite u32_small by lia. lia.
Qed.

(** What happens once the device is known. *)
Lemma serve_device k status command s v (m : option nat -> KM scheduler_control_t) :
  Rest s v -> clock_ok s -> addr_ok k -> sem_value s k ≠ 1 -> u32 command < 0x20000000 ->
  (∀ p s v, Rest s v -> clock_ok s -> woke p s -> wp (m p) Rested Exits s) ->
  wp (p <- V k ;; ctrl <- m p ;; write_word command status ;; ret ctrl) Rested Exits s.
Proof.
  intros HR Hclk Hk Hv Hc Hm.
  destruct (V_interrupt k s v HR Hclk Hk Hv) as (p & s' & v' & Hrun & HR' & Hclk' & Ha & Hp).
  eapply wp_step; [exact Hrun|]. cbn beta. apply wp_bind. eapply wp_mono; [eapply Hm| |done].
  - exact HR'.
  - done.
  - unfold woke. by rewrite Ha.
  - intros ctrl s1 H1. by apply ready_write.
Qed.

Lemma interrupt_generic_rest cause s v :
  Rest s v -> clock_ok s -> interrupts_ok s cause ->
  Z.land cause (Z.lor (Z.lor (Z.lor (CAUSE_IP IL_DISK) (CAUSE_IP IL_FLASH))
                             (CAUSE_IP IL_ETHERNET)) (CAUSE_IP IL_PRINTER)) ≠ 0 ->
  wp (interrupt_generic cause) Rested Exits s.
Proof.
  intros HR Hclk Hok Hc. destruct (generic_pending cause Hc) as (Hl & Hp & _).
  unfold interrupt_generic. set (il := pending_line _ _ _) in *.
  assert (IL_DISK <= il <= IL_TERMINAL) as Hil by (rewrite il_disk, il_terminal, il_printer in *; lia).
  destruct (Hok il false Hil ltac:(done) Hp) as [Hb Hv].
  destruct (due_device_ok s il Hil Hb) as [Hdev Hrun].
  eapply wp_step; [exact Hrun|]. cbn beta.
  eapply wp_step; [by apply get_semaphore_spec|]. cbn beta. apply wp_read_int.
  destruct (Z.land _ _ =? _); [done|]. eapply wp_step; [done|]. cbn beta.
  eapply (serve_device _ _ _ s v (fun p => return_status p _)); try done.
  - apply semaphores_addr_ok. pose proof (sem_index_range il (due_device s il) false Hdev). lia.
  - by apply device_register; [|unfold RECV_COMMAND; lia].
  - intros p s1 v1. apply return_status_rest.
Qed.

(** The first process that waits for the device is given its status. *)
Lemma device_wakes (m : option nat -> Z -> KM scheduler_control_t) a k t l x status command s v :
  (∀ p st s, p ≠ None -> p ≠ active_process s -> m p st s = (i <- deref p ;; upd_pcb i (set_v0 st) ;; preserve) s) ->
  Inv a s v -> (∀ i, i ∈ a -> active_process s = Some i) -> Rest s v -> addr_ok k -> sem_value s k ≠ 1 ->
  blocked s v !! k = Some (t :: l) -> addr_ok command ->
  ∃ d s' v', pcb_table s !! t = Some d ∧
    (p <- V k ;; ctrl <- m p status ;; write_word command x ;; ret ctrl) s =
      Ok (CONTROL_PRESERVE (active_process s)) s' ∧
    Rest s' v' ∧ active_process s' = active_process s ∧ blocked s' v' = leave k t (blocked s v) ∧
    (∀ b, v_ready b v' = if Bool.eqb (is_true (p_prio d)) b then v_ready b v ++ [t] else v_ready b v) ∧
    pcb_table s' = <[t := set_v0 status (set_p_sem_add 0 d)]> (pcb_table s) ∧
    mem s' = <[command := u32 x]> (mem s).
Proof.
  intros Hm0 HI Ha HR Hk Hv Hl Hcmd.
  destruct (V_wake a s v k t l HI Hk Hv Hl) as (d & s1 & v' & Hrun & Hw).
  destruct (woken_state _ _ _ _ _ _ _ _ Hw) as (Hm & Ha1 & _ & HI1).
  assert (pcb_table s !! t = Some d) as Hd by (by destruct Hw as (? & ? & _ & ? & _)).
  pose proof (waiter_sem s v k t l d (inv_rep _ _ _ HI) (inv_asl _ _ _ HI) Hk Hl Hd) as Hne.
  assert (active_process s ≠ Some t) as Hat.
  { intros Hact. destruct HR as [(i & c & HO)|HO]; [|by rewrite (idle_active _ _ HO) in Hact].
    rewrite (on_active _ _ _ _ HO) in Hact. simplify_eq. destruct HO. simplify_eq. }
  pose proof (woken_rest a k t d s s1 v v' HR Ha Hw Hne) as HR1.
  pose proof Hw as (h & v1 & Es1 & _ & _ & _ & _ & Hb).
  assert (pcb_table s1 !! t = Some (set_p_sem_add 0 d)) as Hd1 by (rewrite Es1; by eapply table_upd_eq).
  set (s2 := set_pcb_table (<[t := set_v0 status (set_p_sem_add 0 d)]> (pcb_table s1)) s1).
  assert (same_tables s1 s2) as HS by (by eapply same_tables_upd).
  exists d, (set_mem (<[command := u32 x]> (mem s2)) s2), v'. split_and!.
  - done.
  - step_with Hrun.
    assert (m (Some t) status s1 = Ok (CONTROL_PRESERVE (active_process s)) s2) as Hm1.
    { rewrite Hm0 by congruence. unfold deref. rewrite (bind_ok_or _ _ _ _ _ eq_refl).
      step_with (upd_pcb_ok s1 t _ (set_v0 status) Hd1). fold s2. rewrite preserve_ok. simpl. by rewrite Ha1. }
    step_with Hm1. by step_with (write_word_ok command x s2 Hcmd).
  - by apply Rest_mem, (Rest_ext HS).
  - exact Ha1.
  - etrans; [|exact Hb]. apply blocked_ext; done.
  - intros b. by eapply woken_ready.
  - simpl. rewrite Es1. simpl. by rewrite list_insert_insert_eq.
  - simpl. by rewrite Hm.
Qed.

Lemma return_status_other p st s :
  p ≠ None -> p ≠ active_process s ->
  return_status p st s = (i <- deref p ;; upd_pcb i (set_v0 st) ;; preserve) s.
Proof. intros _ Ha. unfold return_status. rewrite bind_gets. by rewrite bool_decide_false. Qed.

Lemma return_terminal_status_other p st s :
  p ≠ None -> p ≠ active_process s ->
  return_terminal_status p st s = (i <- deref p ;; upd_pcb i (set_v0 st) ;; preserve) s.
Proof. intros Hp Ha. unfold return_terminal_status. rewrite bind_gets.
  by rewrite (bool_decide_false (p = None)), (bool_decide_false (p = active_process s)). Qed.

Lemma device_status_ok line dev :
  is_device line dev -> addr_ok (DEV_REG_ADDR line dev + RECV_STATUS).
Proof.
  intros [Hl Hd]. unfold DEV_REG_ADDR, RECV_STATUS, DEVPERINT in *.
  rewrite il_disk, il_terminal, dev_reg_start, dev_reg_size in *. split; [lia|].
  replace (_ + _) with (0 + (67108885 + ((line - 3) * 8 + dev) * 4) * 4) by lia.
  by rewrite Z_mod_plus_full.
Qed.

Lemma interrupt_generic_wakes s v il t l :
  Rest s v ->
  il = pending_line (Z.to_nat (IL_PRINTER + 1 - IL_DISK)) IL_DISK (cpu_cause s) ->
  IL_DISK <= il <= IL_PRINTER -> device_due s il false ->
  let dev := due_device s il in
  let k := semaphores (sem_index il dev false) in
  let status := sem_value s (DEV_REG_ADDR il dev + RECV_STATUS) in
  Z.land status TERMSTATMASK ≠ DEV_STATUS_NOTINSTALLED -> blocked s v !! k = Some (t :: l) ->
  ∃ d s' v', pcb_table s !! t = Some d ∧
    interrupt_generic (cpu_cause s) s = Ok (CONTROL_PRESERVE (active_process s)) s' ∧
    Rest s' v' ∧ active_process s' = active_process s ∧ blocked s' v' = leave k t (blocked s v) ∧
    (∀ b, v_ready b v' = if Bool.eqb (is_true (p_prio d)) b then v_ready b v ++ [t] else v_ready b v) ∧
    pcb_table s' = <[t := set_v0 status (set_p_sem_add 0 d)]> (pcb_table s) ∧
    mem s' = <[command_addr il dev false := DEV_C_ACK]> (mem s).
Proof.
  intros HR Hil Hr [Hb Hv] dev k status Hst Hl.
  assert (IL_DISK <= il <= IL_TERMINAL) as Hl' by (rewrite il_disk, il_terminal, il_printer in *; lia).
  destruct (due_device_ok s il Hl' Hb) as [Hdev Hrun]. fold dev in Hdev, Hrun.
  assert (addr_ok k) as Hk.
  { apply semaphores_addr_ok. pose proof (sem_index_range il dev false Hdev). lia. }
  assert (addr_ok (command_addr il dev false)) as Hcmd by (by apply command_addr_ok).
  assert (addr_ok (DEV_REG_ADDR il dev + RECV_STATUS)) as Hreg by (by apply device_status_ok).
  destruct (Rest_inv _ _ HR) as (a & HI & Ha & _).
  destruct (device_wakes return_status a k t l DEV_C_ACK status (command_addr il dev false) s v return_status_other HI Ha HR Hk Hv Hl Hcmd)
    as (d & s' & v' & Hd & Hrun' & HR' & Ha' & Hb' & Hr' & Hp' & Hm').
  exists d, s', v'. split_and!; try done.
  unfold interrupt_generic. rewrite <- Hil. step_with Hrun.
  step_with (get_semaphore_spec il dev false s Hdev). step_with (read_int_ok _ s Hreg). fold k status.
  rewrite (proj2 (Z.eqb_neq _ _) Hst). exact Hrun'.
Qed.

Lemma terminal_subdevice_rest status command k next s v :
  Rest s v -> clock_ok s -> addr_ok k -> sem_value s k ≠ 1 -> u32 command < 0x20000000 ->
  wp next Rested Exits s -> wp (terminal_subdevice status command k next) Rested Exits s.
Proof.
  intros HR Hclk Hk Hv Hc Hn. unfold terminal_subdevice.
  destruct (Z.land _ _ =? _); [done|]. eapply wp_step; [done|]. cbn beta.
  destruct (Z.land _ _ =? _); [|done].
  eapply (serve_device k _ _ s v (fun p => return_terminal_status p status)); try done.
  intros p s1 v1. apply return_terminal_status_rest.
Qed.

Lemma interrupt_terminal_rest cause s v :
  Rest s v -> clock_ok s -> interrupts_ok s cause -> Z.land cause (CAUSE_IP IL_TERMINAL) ≠ 0 ->
  wp interrupt_terminal Rested Exits s.
Proof.
  intros HR Hclk Hok Hp.
  assert (IL_DISK <= IL_TERMINAL <= IL_TERMINAL) as Hil by (rewrite il_disk, il_terminal; lia).
  destruct (Hok IL_TERMINAL true Hil ltac:(done) Hp) as [Hb Hvw].
  destruct (Hok IL_TERMINAL false Hil ltac:(done) Hp) as [_ Hvr].
  destruct (due_device_ok s _ Hil Hb) as [Hdev Hrun]. unfold interrupt_terminal.
  eapply wp_step; [exact Hrun|]. cbn beta. do 2 apply wp_read_int.
  do 2 (eapply wp_step; [by apply get_semaphore_spec|]; cbn beta).
  assert (∀ w, addr_ok (semaphores (sem_index IL_TERMINAL (due_device s IL_TERMINAL) w))) as Hk.
  { intros w. apply semaphores_addr_ok. pose proof (sem_index_range _ _ w Hdev). lia. }
  apply (terminal_subdevice_rest _ _ _ _ s v); try done.
  { apply device_register; [done|unfold TRANSM_COMMAND; lia]. }
  apply (terminal_subdevice_rest _ _ _ _ s v); try done.
  apply device_register; [done|unfold RECV_COMMAND; lia].
Qed.

#[export] Instance ipi_interrupt : Interrupt interrupt_ipi.
Proof. intros s v HR Hclk. split; [|done]. apply (Rest_ready s v false HR). Qed.

#[export] Instance local_timer_interrupt : Interrupt interrupt_local_timer.
Proof.
  intros s v HR Hclk. unfold interrupt_local_timer. destruct (reset_local_timer_ok s) as [lt Hrun].
  eapply wp_step; [exact Hrun|]. split; [|by eapply clock_ok_mem].
  eapply (Rest_ready (set_local_timer lt s) v true), Rest_ext; [|exact HR]. by split.
Qed.

(** The clock's interrupt wakes up everybody that waits for it. *)
Lemma interrupt_timer_spec a s v :
  Inv a s v -> sem_value s get_timer_semaphore = 0 ->
  ∃ s' v', interrupt_timer s = Ok (CONTROL_PRESERVE (active_process s)) s' ∧
    ticked a (default [] (blocked s v !! get_timer_semaphore))
      (set_interval_timer (u32 IT_INTERVAL) s) s' v v'.
Proof.
  intros HI Hv. unfold interrupt_timer. set (s1 := set_interval_timer (u32 IT_INTERVAL) s).
  assert (reset_timer s = Ok tt s1) as Hrun1 by done.
  assert (Inv a s1 v ∧ blocked s1 v = blocked s v) as [HI1 Hb1] by (by eapply Inv_ext).
  destruct (timer_loop_spec timer_fuel a s1 v (default [] (blocked s v !! get_timer_semaphore)))
    as (s' & v' & Hrun & HT); [exact HI1|exact Hv|exact (f_equal (fun m => default [] (m !! get_timer_semaphore)) Hb1)| |].
  { unfold timer_fuel. destruct (blocked s v !! _) as [l|] eqn:Hl; [|simpl; lia].
    pose proof (inv_rep _ _ _ HI) as HRep.
    apply (blocked_lookup _ _ _ HRep (inv_asl _ _ _ HI)) in Hl as (j & _ & _ & Hq).
    pose proof (procq_short _ _ HRep _ _ Hq). simpl. lia. }
  exists s', v'. split; [|done]. step_with Hrun1. step_with Hrun.
  by rewrite preserve_ok, (tk_active _ _ _ _ _ _ HT).
Qed.

(** An interrupt that comes before an earlier one of the same device is
    claimed: [V] blocks the running process and returns NULL, which is followed. *)
Lemma unclaimed_faults i c s v il :
  On i c s v ->
  il = pending_line (Z.to_nat (IL_PRINTER + 1 - IL_DISK)) IL_DISK (cpu_cause s) ->
  IL_DISK <= il <= IL_PRINTER -> 0 <= default 0 (mem s !! CDEV_BITMAP_ADDR il) < 256 ->
  let dev := due_device s il in
  sem_value s (semaphores (sem_index il dev false)) = 1 ->
  Z.land (sem_value s (DEV_REG_ADDR il dev + RECV_STATUS)) TERMSTATMASK ≠ DEV_STATUS_NOTINSTALLED ->
  interrupt_generic (cpu_cause s) s = Fault "NULL pcb_t".
Proof.
  intros HO Hil Hr Hb dev Hv Hst.
  assert (IL_DISK <= il <= IL_TERMINAL) as Hl' by (rewrite il_disk, il_terminal, il_printer in *; lia).
  destruct (due_device_ok s il Hl' Hb) as [Hdev Hrun]. fold dev in Hdev, Hrun.
  assert (addr_ok (semaphores (sem_index il dev false))) as Hk.
  { apply semaphores_addr_ok. pose proof (sem_index_range il dev false Hdev). lia. }
  assert (addr_ok (DEV_REG_ADDR il dev + RECV_STATUS)) as Hreg by (by apply device_status_ok).
  destruct HO as [HI Ha Hy Hc Hz Hq].
  destruct (V_block [i] s v _ i c HI Hk Hv Ha Hc Hz Hq) as (h & T & v' & HV & _).
  unfold interrupt_generic. rewrite <- Hil. step_with Hrun.
  step_with (get_semaphore_spec il dev false s Hdev). step_with (read_int_ok _ s Hreg).
  rewrite (proj2 (Z.eqb_neq _ _) Hst). rewrite bind_ret_l. step_with HV.
  unfold return_status. rewrite bind_assoc, bind_gets.
  rewrite bool_decide_false by (simpl; congruence). done.
Qed.

(** With the semaphore at 1 already the tick wakes up nobody. *)
Lemma interrupt_timer_idle s :
  sem_value s get_timer_semaphore = 1 ->
  interrupt_timer s = Ok (CONTROL_PRESERVE (active_process s)) (set_interval_timer (u32 IT_INTERVAL) s).
Proof.
  intros Hv. unfold interrupt_timer, reset_timer, load_interval_timer. rewrite bind_modify.
  unfold timer_fuel. by step_with (timer_loop_done (S MAX_PROC) (set_interval_timer (u32 IT_INTERVAL) s) Hv).
Qed.

#[export] Instance timer_interrupt : Interrupt interrupt_timer.
Proof.
  intros s v HR Hclk. destruct (Rest_inv _ _ HR) as (a & HI & Ha & _).
  assert (Rest (set_interval_timer (u32 IT_INTERVAL) s) v) as HR1.
  { eapply Rest_ext; [|exact HR]. by split. }
  destruct Hclk as [Hv|Hv].
  - destruct (interrupt_timer_spec a s v HI Hv) as (s' & v' & Hrun & HT). eapply wp_ok; [exact Hrun|].
    pose proof (tk_rest _ _ _ _ _ _ HT HR1 Ha) as HR'. split.
    + pose proof (tk_active _ _ _ _ _ _ HT) as Ha'. simpl in Ha'. rewrite <- Ha'.
      apply (Rest_ready _ _ false HR').
    + right. unfold sem_value. rewrite (tk_mem _ _ _ _ _ _ HT), lookup_insert_eq. done.
  - eapply wp_ok; [by apply interrupt_timer_idle|]. split; [apply (Rest_ready _ _ false HR1)|by right].
Qed.

Ltac line_case H := match goal with |- context [Z.eqb ?x 0] => destruct (Z.eqb_spec x 0) as [?|H] end;
  cbn [negb].

Lemma interrupt_handler_rest cause s v :
  Rest s v -> clock_ok s -> interrupts_ok s cause -> wp (interrupt_handler cause) Rested Exits s.
Proof.
  intros HR Hclk Hok. unfold interrupt_handler.
  line_case Hc; [|by apply (ipi_interrupt s v)]. line_case Hc; [|by apply (local_timer_interrupt s v)].
  line_case Hc; [|by apply (timer_interrupt s v)].
  line_case Hc; [|by apply (interrupt_generic_rest cause s v)].
  line_case Hc; [|by apply (interrupt_terminal_rest cause s v)].
  split; [|done]. apply (Rest_ready s v true HR).
Qed.
End interrupts.

(** ** The handler *)

Section handler.
Context `{UmpsLaws}.
Implicit Types (s : kernel) (v : view) (i : nat) (c : pcb_t).

(** The time a process has used, after one more reading of the clock. *)
Definition used_time (s : kernel) (c : pcb_t) : Z :=
  s32 (p_time c + s32 (s32 (tod (tod_reads s)) - start_tod s)).

Lemma account_time_ok i c s :
  active_process s = Some i -> pcb_table s !! i = Some c ->
  account_time s = Ok tt (set_pcb_table (<[i := set_p_time (used_time s c) c]> (pcb_table s))
                           (set_tod_reads (S (tod_reads s)) s)).
Proof.
  intros Ha Hc. unfold account_time. step_with (store_tod_ok s). rewrite bind_gets.
  exact (upd_active_ok i c _ (set_tod_reads (S (tod_reads s)) s) Ha Hc).
Qed.

Lemma interrupts_ok_mem s s' cause : mem s' = mem s -> interrupts_ok s cause -> interrupts_ok s' cause.
Proof. unfold interrupts_ok, device_due, due_device, sem_value. by intros ->. Qed.

Lemma same_tables_account i c s :
  pcb_table s !! i = Some c ->
  same_tables s (set_pcb_table (<[i := set_p_time (used_time s c) c]> (pcb_table s))
                  (set_tod_reads (S (tod_reads s)) s)).
Proof.
  intros Hc. etrans; [|by apply (same_tables_upd (set_tod_reads (S (tod_reads s)) s) i c)]. by split.
Qed.

(** A step on the PCB of the process that is, or was, on. *)
Lemma rested_upd_active i f ctrl s (k : KM scheduler_control_t) :
  Rested ctrl s -> active_process s = Some i -> (i < MAX_PROC)%nat -> (∀ c, same_role c (f c)) ->
  (∀ s', Rested ctrl s' -> active_process s' = Some i -> wp k Rested Exits s') ->
  wp (upd_active f ;; k) Rested Exits s.
Proof.
  intros [HR Hclk] Ha Hi Hf Hk. destruct (Ready_pcb _ _ i HR Hi) as [c Hc].
  eapply wp_step; [by apply (upd_active_ok i c)|]. cbn beta. apply Hk; [|done].
  split; [|by eapply clock_ok_mem]. eapply Ready_ext; [by apply (same_tables_upd s i c)|done].
Qed.

Lemma exception_syscall_rested i c s v :
  On i c s v -> clock_ok s -> wp exception_syscall Rested Exits s.
Proof.
  intros HO Hclk. pose proof (on_valid _ _ _ _ HO) as Hi. unfold exception_syscall.
  eapply wp_step; [done|]. cbn beta. rewrite (on_active _ _ _ _ HO), bool_decide_false by done.
  eapply wp_step; [done|]. cbn beta. eapply wp_step; [done|]. cbn beta. eapply wp_step; [done|]. cbn beta.
  match goal with |- wp _ _ _ ?st => set (s1 := st) end.
  assert (same_tables s s1) as HS by (by split).
  destruct (On_ext HS i c v HO) as (c1 & HO1 & _).
  apply wp_bind. eapply wp_mono; [by eapply (handler_service i c1 s1 v)| |done].
  intros ctrl s2 (HR2 & Ha2 & Hclk2). destruct (Ready_pcb _ _ i HR2 Hi) as [c2 Hc2].
  eapply wp_step; [by eapply account_time_ok|]. cbn beta.
  apply (rested_upd_active i _ ctrl); [|done|done|done|].
  { split; [|by eapply clock_ok_mem]. by eapply Ready_ext; [apply (same_tables_account i c2)|]. }
  intros s3 HR3 Ha3. by apply (rested_upd_active i _ ctrl).
Qed.

(** Serving the exception, once the state of the process is saved. *)
Definition serve_exception : KM scheduler_control_t :=
  cause <- get_cause ;;
  let code := CAUSE_GET_EXCCODE cause in
  if code =? 0 then interrupt_handler cause
  else if (code =? 1) || (code =? 2) || (code =? 3) then pass_up_or_die PGFAULTEXCEPT
  else if code =? 8 then exception_syscall
  else
    kprintf "EXCP %d\n" [code + 1] ;;
    pass_up_or_die GENERALEXCEPT.

Lemma exception_handler_eq s :
  exception_handler s =
  (a <- gets active_process ;;
   when bool_decide (a <> None) do account_time ;;
   when bool_decide (a <> None) do (st <- read_state BIOSDATAPAGE ;; upd_active (set_p_s st)) ;;
   ctrl <- serve_exception ;;
   schedule (sc_pcb ctrl) (sc_enqueue ctrl)) s.
Proof.
  unfold exception_handler. apply bind_ext. intros a s1. apply bind_ext. intros [] s2.
  apply bind_ext. intros [] s3. unfold serve_exception. by rewrite bind_assoc.
Qed.

Lemma pass_up_rested type s v :
  Rest s v -> clock_ok s -> wp (pass_up_or_die type) Rested Exits s.
Proof.
  intros [(i & c & HO)|HO] Hclk.
  - eapply wp_mono; [by eapply pass_up_service| |done]. intros ctrl s' (? & _ & ?). by split.
  - unfold pass_up_or_die, wp. rewrite bind_gets, (idle_active _ _ HO).
    split; [|done]. by eapply Ready_block; apply HO.
Qed.

Lemma serve_exception_rested s v :
  Rest s v -> clock_ok s ->
  (CAUSE_GET_EXCCODE (cpu_cause s) = 0 -> interrupts_ok s (cpu_cause s)) ->
  wp serve_exception Rested Exits s.
Proof.
  intros HR Hclk Hok. unfold serve_exception. eapply wp_step; [done|]. cbn beta zeta.
  destruct (Z.eqb_spec (CAUSE_GET_EXCCODE (cpu_cause s)) 0) as [E|_].
  { by apply (interrupt_handler_rest _ s v); auto. }
  destruct (_ || _); [by apply (pass_up_rested _ s v)|].
  destruct (_ =? 8).
  { destruct HR as [(i & c & HO)|HO]; [by eapply exception_syscall_rested|].
    unfold exception_syscall. eapply wp_step; [done|]. cbn beta. by rewrite (idle_active _ _ HO). }
  eapply wp_step; [done|]. cbn beta. eapply (pass_up_rested _ _ v); [|by eapply clock_ok_mem].
  eapply Rest_ext; [|exact HR]. by split.
Qed.

(** The state in which an exception of the running process is served. *)
Definition saved (i : nat) (c : pcb_t) (st : state_t) (s : kernel) : kernel :=
  set_pcb_table (<[i := set_p_s st (set_p_time (used_time s c) c)]> (pcb_table s))
    (set_tod_reads (S (tod_reads s)) s).

Lemma saved_on i c st s v :
  On i c s v -> On i (set_p_s st (set_p_time (used_time s c) c)) (saved i c st s) v.
Proof.
  intros HO. assert (same_tables s (set_tod_reads (S (tod_reads s)) s)) as HS by (by split).
  destruct (On_ext HS i c v HO) as (c1 & HO1 & _).
  assert (c1 = c) as ->.
  { pose proof (on_pcb _ _ _ _ HO1) as E. simpl in E. rewrite (on_pcb _ _ _ _ HO) in E. by simplify_eq. }
  by apply (On_upd i c _ _ v HO1).
Qed.

Lemma exception_handler_on i c s v :
  On i c s v ->
  exception_handler s =
  match saved_states s !! BIOSDATAPAGE with
  | None => Exit (BadAddress BIOSDATAPAGE)
      (set_pcb_table (<[i := set_p_time (used_time s c) c]> (pcb_table s))
        (set_tod_reads (S (tod_reads s)) s))
  | Some st =>
      (ctrl <- serve_exception ;; schedule (sc_pcb ctrl) (sc_enqueue ctrl)) (saved i c st s)
  end.
Proof.
  intros HO. pose proof (on_pcb _ _ _ _ HO) as Hc. pose proof (on_active _ _ _ _ HO) as Ha.
  rewrite exception_handler_eq, bind_gets, Ha, bool_decide_true by done.
  step_with (account_time_ok i c s Ha Hc). rewrite bind_assoc.
  set (s1 := set_pcb_table _ _). pose proof (read_state_eq BIOSDATAPAGE s1) as Hst.
  change (saved_states s1) with (saved_states s) in Hst.
  destruct (saved_states s !! BIOSDATAPAGE) as [st|]; [|by step_with Hst].
  step_with Hst.
  assert (pcb_table s1 !! i = Some (set_p_time (used_time s c) c)) as Hc1 by (by eapply table_upd_eq).
  step_with (upd_active_ok i _ (set_p_s st) s1 Ha Hc1). unfold saved, s1. simpl.
  by rewrite list_insert_insert_eq.
Qed.

Lemma exception_handler_idle s v :
  Idle s v ->
  exception_handler s = (ctrl <- serve_exception ;; schedule (sc_pcb ctrl) (sc_enqueue ctrl)) s.
Proof.
  intros HO. by rewrite exception_handler_eq, bind_gets, (idle_active _ _ HO).
Qed.

(** The local timer. *)
Lemma time_slice_spec i c s v st :
  On i c s v -> saved_states s !! BIOSDATAPAGE = Some st ->
  CAUSE_GET_EXCCODE (cpu_cause s) = 0 -> Z.land (cpu_cause s) (CAUSE_IP IL_IPI) = 0 ->
  Z.land (cpu_cause s) (CAUSE_IP IL_CPUTIMER) ≠ 0 ->
  let b := is_true (p_prio c) in
  let v1 := set_v_ready b (v_ready b v ++ [i]) v in
  let T := <[i := set_p_s st (set_p_time (used_time s c) c)]> (pcb_table s) in
  ∃ b' j l d s', next_ready v1 = Some (b', j, l) ∧ T !! j = Some d ∧
    exception_handler s = Exit (Running (running_state d)) s' ∧
    On j (set_p_s (running_state d) d) s' (set_v_ready b' l v1) ∧
    pcb_table s' = <[j := set_p_s (running_state d) d]> T ∧
    blocked s' (set_v_ready b' l v1) = blocked s v.
Proof.
  intros HO Hst Hcode Hipi Hplt b v1 T.
  pose proof (saved_on i c st s v HO) as HO1. set (s1 := saved i c st s) in *.
  destruct (reset_local_timer_ok s1) as [lt Hrun1]. set (s2 := set_local_timer lt s1) in *.
  assert (same_tables s1 s2) as HS by (by split).
  destruct (same_tables_Inv HS [i] v (on_inv _ _ _ _ HO1)) as [HI2 Hb2].
  assert (blocked s1 v = blocked s v) as Hb1 by (by apply blocked_ext).
  destruct (enqueue_process_spec [i] s2 v i _ HI2 (on_pcb _ _ _ _ HO1) (on_live _ _ _ _ HO1)
    (on_sem _ _ _ _ HO1)) as (h & Hrun2 & HI3 & Hb3).
  rewrite (v_enqueue_detached _ _ _ (on_queue _ _ _ _ HO1)) in HI3, Hb3.
  change (set_v_ready _ _ v) with v1 in HI3, Hb3. set (s3 := set_links h s2) in *.
  assert (Inv [] s3 v1) as HI4.
  { eapply Inv_placed; [exact HI3|]. intros x ->%list_elem_of_singleton. right.
    apply in_queue_ready_iff. right. left. exists b. unfold v1. rewrite ready_set_ready, Bool.eqb_reflx.
    set_solver. }
  destruct (next_ready v1) as [[[b' j] l]|] eqn:Hn.
  2: { apply next_ready_None in Hn as [E1 E2]. exfalso. assert (v_ready b v1 = []) as E by (by destruct b).
       unfold v1 in E. rewrite ready_set_ready, Bool.eqb_reflx in E. by destruct (v_ready b v). }
  destruct (schedule_ready_spec [] s3 v1 b' j l true HI4 (on_yield _ _ _ _ HO) Hn)
    as (d & s' & Hd & Hrun3 & Hdis & HI' & Hb').
  exists b', j, l, d, s'. split_and!; [done|done| | | |].
  - rewrite (exception_handler_on i c s v HO), Hst. fold s1. unfold serve_exception, get_cause.
    rewrite bind_assoc, bind_gets. change (cpu_cause s1) with (cpu_cause s). rewrite Hcode.
    cbn [Z.eqb]. unfold interrupt_handler. rewrite Hipi. cbn [Z.eqb negb].
    rewrite (proj2 (Z.eqb_neq _ _) Hplt). cbn [negb]. unfold interrupt_local_timer.
    rewrite bind_assoc. step_with Hrun1. fold s2. unfold reschedule. rewrite bind_assoc, bind_gets, bind_ret_l.
    change (active_process s2) with (active_process s). rewrite (on_active _ _ _ _ HO).
    cbn [sc_pcb sc_enqueue CONTROL_RESCHEDULE]. rewrite schedule_enqueue. by step_with Hrun2.
  - apply (dispatched_on j d s3); try done.
    + eapply taken_detached; [apply HI4|by apply (next_ready_Some _ _ _ _ Hn)].
    + eapply ready_unblocked; [exact HI4| |exact Hd].
      rewrite (proj1 (next_ready_Some _ _ _ _ Hn)). left.
  - by destruct Hdis as (h' & lt' & ->).
  - etrans; [exact Hb'|]. etrans; [exact Hb3|]. by etrans.
Qed.

(** An exception in a nucleus at rest leaves it at rest. *)
Lemma exception_handler_rest s v :
  Rest s v -> clock_ok s ->
  (CAUSE_GET_EXCCODE (cpu_cause s) = 0 -> interrupts_ok s (cpu_cause s)) ->
  wp exception_handler (fun _ _ => False) Exits s.
Proof.
  intros HR Hclk Hok.
  assert (∀ s1, Rest s1 v → mem s1 = mem s → cpu_cause s1 = cpu_cause s →
    wp (ctrl <- serve_exception ;; schedule (sc_pcb ctrl) (sc_enqueue ctrl)) (fun _ _ => False) Exits s1) as Hserve.
  { intros s1 HR1 Hm Hcause. apply wp_bind.
    eapply wp_mono; [apply (serve_exception_rested s1 v HR1)| |done].
    - by eapply clock_ok_mem.
    - rewrite Hcause. intros E. eapply interrupts_ok_mem; [exact Hm|by apply Hok].
    - intros ctrl s2 [HR2 Hclk2]. by apply schedule_contract. }
  unfold wp. destruct HR as [(i & c & HO)|HO].
  - rewrite (exception_handler_on i c s v HO). destruct (saved_states s !! _) as [st|]; [|done].
    apply Hserve; [|done|done]. left. eexists i, _. by apply saved_on.
  - rewrite (exception_handler_idle s v HO). apply Hserve; [|done|done]. by right.
Qed.
End handler.
