(* ===== verification/Trap.v ===== *)
(** * System calls from the trap to the return

    A system call is an exception: the BIOS leaves the state of the caller in
    its data page, [exception_handler] copies it, [syscall_handler] serves the
    call, the program counter moves on, and the scheduler chooses who runs.
    This file follows that way: for every end of a call (the caller goes on at
    once, at the end of its ready queue, or not at all) the lemma that says who
    runs next, and with them the queries, the semaphores and YIELD: what the
    caller finds in its registers when it runs again, and what the call did to
    the semaphores. *)

From Stdlib Require Import ZArith Lia String.
From stdpp Require Import base tactics option numbers gmap list vector relations.
From S2P Require Import Prelude ListHead Machine Kernel View Pcb Asl Scheduler Invariant Process Dispatch Semaphores Contract Syscall Exception.

Open Scope string_scope.
Open Scope list_scope.
Open Scope Z_scope.

Section trap.
Context `{UmpsLaws}.
Implicit Types (s : kernel) (v : view) (i j : nat) (c d : pcb_t).

(** Process [i] at the end of its own ready queue. *)
Definition requeued i c v : view :=
  set_v_ready (is_true (p_prio c)) (v_ready (is_true (p_prio c)) v ++ [i]) v.

(** The first ready process of [v] runs: [T], [m] and [B] are the PCBs, the
    memory and the blocked processes that the scheduler is given. *)
Definition next_runs (T : list pcb_t) (m : gmap Z Z) (B : gmap Z (list nat)) v (e : exit_t) s' : Prop :=
  ∃ b j l d, next_ready v = Some (b, j, l) ∧ T !! j = Some d ∧
    e = Running (running_state d) ∧ On j (set_p_s (running_state d) d) s' (set_v_ready b l v) ∧
    pcb_table s' = <[j := set_p_s (running_state d) d]> T ∧
    blocked s' (set_v_ready b l v) = B ∧ mem s' = m.

Lemma reschedule_runs i c s v :
  On i c s v -> ∃ e s', schedule (Some i) true s = Exit e s' ∧
    next_runs (pcb_table s) (mem s) (blocked s v) (requeued i c v) e s'.
Proof.
  intros HO. set (v1 := requeued i c v).
  destruct (enqueue_process_spec [i] s v i c (on_inv _ _ _ _ HO) (on_pcb _ _ _ _ HO)
    (on_live _ _ _ _ HO) (on_sem _ _ _ _ HO)) as (h & Hrun & HI & Hb).
  rewrite (v_enqueue_detached _ _ _ (on_queue _ _ _ _ HO)) in HI, Hb.
  change (set_v_ready _ _ v) with v1 in HI, Hb. set (s1 := set_links h s) in *.
  assert (i ∈ v_ready (is_true (p_prio c)) v1) as Hin.
  { unfold v1, requeued. rewrite ready_set_ready, Bool.eqb_reflx. set_solver. }
  assert (Inv [] s1 v1) as HI1.
  { eapply Inv_placed; [exact HI|]. intros x ->%list_elem_of_singleton. right. by eapply in_ready. }
  destruct (next_ready v1) as [[[b j] l]|] eqn:Hn.
  2: { apply next_ready_None in Hn as [E1 E2]. exfalso.
       destruct (is_true (p_prio c)); simpl in Hin; (rewrite E1 in Hin || rewrite E2 in Hin); set_solver. }
  destruct (schedule_ready_spec [] s1 v1 b j l true HI1 (on_yield _ _ _ _ HO) Hn)
    as (d & s' & Hd & Hrun' & Hdis & HI' & Hb').
  exists (Running (running_state d)), s'. split; [rewrite schedule_enqueue; by step_with Hrun|].
  exists b, j, l, d. split_and!; try done.
  - apply (dispatched_on j d s1); try done.
    + eapply taken_detached; [apply HI1|by apply (next_ready_Some _ _ _ _ Hn)].
    + eapply ready_unblocked; [exact HI1| |exact Hd].
      rewrite (proj1 (next_ready_Some _ _ _ _ Hn)). left.
  - by destruct Hdis as (h' & lt' & ->).
  - etrans; [exact Hb'|exact Hb].
  - by apply (dispatched_mem j d s1).
Qed.

(** ** Into the service and out of it *)

(** The state in which the service of the call runs. *)
Definition entered i c (st : state_t) s : kernel :=
  set_start_tod (s32 (tod (S (tod_reads s)))) (set_tod_reads (S (S (tod_reads s))) (saved i c st s)).

(** The caller's PCB there. *)
Definition caller c (st : state_t) s : pcb_t := set_p_s st (set_p_time (used_time s c) c).

(** Past the SYSCALL instruction. *)
Definition advance (st : state_t) : state_t :=
  set_reg_t9 (u32 (reg_t9 st + WORD_SIZE)) (set_pc_epc (u32 (pc_epc st + WORD_SIZE)) st).

(** The caller's PCB after the service: charged for it, and past the call. *)
Definition returning s c : pcb_t := set_p_s (advance (p_s c)) (set_p_time (used_time s c) c).

(** The state that the scheduler is given. *)
Definition resting i c s : kernel :=
  set_pcb_table (<[i := returning s c]> (pcb_table s)) (set_tod_reads (S (tod_reads s)) s).

Lemma entered_on i c st s v : On i c s v -> On i (caller c st s) (entered i c st s) v.
Proof.
  intros HO. pose proof (saved_on i c st s v HO) as [HI Ha Hy Hc Hz Hq]. split; try done.
  by eapply Inv_ext.
Qed.

Lemma entered_blocked i c st s v : On i c s v -> blocked (entered i c st s) v = blocked s v.
Proof. intros HO. by apply blocked_ext. Qed.

Lemma resting_on i c s v : On i c s v -> On i (returning s c) (resting i c s) v.
Proof.
  intros HO. pose proof (On_upd i c (returning s c) s v HO ltac:(done)) as [HI Ha Hy Hc Hz Hq].
  split; try done. by eapply Inv_ext.
Qed.

(** After the service: the time, the program counter and t9. *)
Lemma exception_syscall_run i c s v st ctrl s3 c3 :
  On i c s v -> syscall_handler (entered i c st s) = Ok ctrl s3 ->
  active_process s3 = Some i -> pcb_table s3 !! i = Some c3 ->
  exception_syscall (saved i c st s) = Ok ctrl (resting i c3 s3).
Proof.
  intros HO Hrun Ha Hc3. unfold exception_syscall. rewrite bind_gets.
  change (active_process (saved i c st s)) with (active_process s).
  rewrite (on_active _ _ _ _ HO), bool_decide_false by done. rewrite bind_ret_l.
  step_with (store_tod_ok (saved i c st s)). rewrite bind_modify. step_with Hrun.
  step_with (account_time_ok i c3 s3 Ha Hc3). set (c4 := set_p_time _ c3).
  set (s4 := set_pcb_table _ _).
  assert (pcb_table s4 !! i = Some c4) as Hc4 by (by eapply table_upd_eq).
  match goal with |- bind (upd_active ?f) _ _ = _ =>
    step_with (upd_active_ok i c4 f s4 Ha Hc4); set (s5 := set_pcb_table _ _); set (c5 := f c4)
  end.
  assert (pcb_table s5 !! i = Some c5) as Hc5 by (by eapply table_upd_eq).
  match goal with |- bind (upd_active ?f) _ _ = _ => step_with (upd_active_ok i c5 f s5 Ha Hc5) end.
  unfold ret, resting, returning. f_equal. simpl. by rewrite !list_insert_insert_eq.
Qed.

Lemma syscall_exception i c s v st ctrl s3 c3 :
  On i c s v -> saved_states s !! BIOSDATAPAGE = Some st -> CAUSE_GET_EXCCODE (cpu_cause s) = 8 ->
  syscall_handler (entered i c st s) = Ok ctrl s3 ->
  active_process s3 = Some i -> pcb_table s3 !! i = Some c3 ->
  exception_handler s = schedule (sc_pcb ctrl) (sc_enqueue ctrl) (resting i c3 s3).
Proof.
  intros HO Hst Hcode Hrun Ha Hc3.
  rewrite (exception_handler_on i c s v HO), Hst. unfold serve_exception, get_cause.
  rewrite bind_assoc, bind_gets. change (cpu_cause (saved i c st s)) with (cpu_cause s). rewrite Hcode.
  change (8 =? 0) with false. change ((8 =? 1) || (8 =? 2) || (8 =? 3)) with false. change (8 =? 8) with true.
  cbv iota. by step_with (exception_syscall_run i c s v st ctrl s3 c3 HO Hrun Ha Hc3).
Qed.

Lemma resting_inv a i c s v : Inv a s v -> pcb_table s !! i = Some c ->
  Inv a (resting i c s) v ∧ blocked (resting i c s) v = blocked s v.
Proof.
  intros HI Hc. destruct (same_tables_Inv (same_tables_upd s i c (returning s c) Hc ltac:(done)) a v HI) as [HI' Hb].
  split; [by eapply Inv_ext|]. rewrite <- Hb. by apply blocked_ext.
Qed.

(** Process [i], with the PCB [c], runs: [T], [m] and [B] as above. *)
Definition runs_on i c (T : list pcb_t) (m : gmap Z Z) (B : gmap Z (list nat)) v (e : exit_t) s' : Prop :=
  let c' := set_p_s (running_state c) c in
  e = Running (running_state c) ∧ On i c' s' v ∧ pcb_table s' = <[i := c']> T ∧
  blocked s' v = B ∧ mem s' = m.

(** A call after which its caller goes on at once. *)
Lemma syscall_preserves i c s v st s3 c3 v3 :
  On i c s v -> saved_states s !! BIOSDATAPAGE = Some st -> CAUSE_GET_EXCCODE (cpu_cause s) = 8 ->
  syscall_handler (entered i c st s) = Ok (CONTROL_PRESERVE (Some i)) s3 -> On i c3 s3 v3 ->
  ∃ e s', exception_handler s = Exit e s' ∧
    runs_on i (returning s3 c3) (pcb_table s3) (mem s3) (blocked s3 v3) v3 e s'.
Proof.
  intros HO Hst Hcode Hrun HO3. pose proof (resting_on i c3 s3 v3 HO3) as HO4.
  destruct (resting_inv [i] i c3 s3 v3 (on_inv _ _ _ _ HO3) (on_pcb _ _ _ _ HO3)) as [_ Hb4].
  rewrite (syscall_exception i c s v st _ s3 c3 HO Hst Hcode Hrun (on_active _ _ _ _ HO3) (on_pcb _ _ _ _ HO3)).
  cbn [sc_pcb sc_enqueue CONTROL_PRESERVE]. set (s4 := resting i c3 s3) in *.
  destruct (schedule_preserve_spec [i] s4 v3 i _ (on_inv _ _ _ _ HO4) (on_pcb _ _ _ _ HO4) (on_yield _ _ _ _ HO4))
    as (s' & Hrun' & Hdis & HI' & Hb').
  exists (Running (running_state (returning s3 c3))), s'. split; [exact Hrun'|].
  split; [done|]. split; [by apply (dispatched_on i _ s4 s' v3 Hdis); [apply HO4|exact HI'|apply HO4..]|].
  split; [|split; [by rewrite Hb'|exact (dispatched_mem _ _ _ _ Hdis)]].
  destruct Hdis as (h & lt & ->). cbn. by rewrite list_insert_insert_eq.
Qed.

(** A call that leaves its caller on: the caller goes to the end of its ready
    queue and the first ready process runs. *)
Lemma syscall_returns i c s v st s3 c3 v3 :
  On i c s v -> saved_states s !! BIOSDATAPAGE = Some st -> CAUSE_GET_EXCCODE (cpu_cause s) = 8 ->
  syscall_handler (entered i c st s) = Ok (CONTROL_RESCHEDULE (Some i)) s3 -> On i c3 s3 v3 ->
  ∃ e s', exception_handler s = Exit e s' ∧
    next_runs (<[i := returning s3 c3]> (pcb_table s3)) (mem s3) (blocked s3 v3) (requeued i c3 v3) e s'.
Proof.
  intros HO Hst Hcode Hrun HO3. pose proof (resting_on i c3 s3 v3 HO3) as HO4.
  rewrite (syscall_exception i c s v st _ s3 c3 HO Hst Hcode Hrun (on_active _ _ _ _ HO3)
    (on_pcb _ _ _ _ HO3)).
  destruct (reschedule_runs i _ _ v3 HO4) as (e & s' & Hrun' & Hnext).
  exists e, s'. split; [exact Hrun'|].
  destruct (resting_inv [i] i c3 s3 v3 (on_inv _ _ _ _ HO3) (on_pcb _ _ _ _ HO3)) as [_ <-]. exact Hnext.
Qed.

(** ** The dispatch for a caller in kernel mode *)

(** The services of the nucleus, by their numbers. *)
Inductive serves : Z -> KM scheduler_control_t -> Prop :=
| serves_create : serves CREATEPROCESS syscall_create_process
| serves_terminate : serves TERMPROCESS syscall_terminate_process
| serves_passeren : serves PASSEREN syscall_passeren
| serves_verhogen : serves VERHOGEN syscall_verhogen
| serves_do_io : serves DOIO syscall_do_io
| serves_time : serves GETTIME syscall_get_cpu_time
| serves_clock : serves CLOCKWAIT syscall_wait_for_clock
| serves_support : serves GETSUPPORTPTR syscall_get_support_data
| serves_pid : serves GETPROCESSID syscall_get_process_id
| serves_yield : serves YIELD syscall_yield.

Lemma kernel_mode_dispatch i c s v m :
  On i c s v -> Z.testbit (status (p_s c)) 3 = false -> serves (s32 (reg_a0 (p_s c))) m ->
  syscall_handler s = m s.
Proof.
  intros HO Hk Hm. unfold syscall_handler. rewrite bind_gets, (on_active _ _ _ _ HO).
  rewrite bool_decide_false by done. rewrite bind_ret_l. step_with (active_pcb_ok _ _ _ _ HO).
  destruct Hm; cbn [Z.leb Z.compare]; cbv iota; step_with (is_user_mode_ok _ _ _ _ HO);
    rewrite user_mode_bit, Hk; reflexivity.
Qed.

(** The same for the call [st] of the process that is interrupted. *)
Lemma entered_dispatch i c s v st m :
  On i c s v -> Z.testbit (status st) 3 = false -> serves (s32 (reg_a0 st)) m ->
  syscall_handler (entered i c st s) = m (entered i c st s).
Proof. intros HO Hk Hm. by apply (kernel_mode_dispatch i (caller c st s) _ v); [apply entered_on|..]. Qed.

(** ** Calls that answer in v0 *)

(** The answer [x] to the call in the registers [st] of process [i]. *)
Inductive asks c (st : state_t) s : Z -> Prop :=
| asks_time : s32 (reg_a0 st) = GETTIME -> asks c st s (used_time s c)
| asks_support : s32 (reg_a0 st) = GETSUPPORTPTR -> asks c st s (p_support c)
| asks_pid : s32 (reg_a0 st) = GETPROCESSID -> reg_a1 st = 0 -> asks c st s (p_pid c)
| asks_parent j d : s32 (reg_a0 st) = GETPROCESSID -> reg_a1 st = 1 -> p_parent c = Some j ->
    pcb_table s !! j = Some d -> asks c st s (p_pid d)
| asks_orphan : s32 (reg_a0 st) = GETPROCESSID -> reg_a1 st = 1 -> p_parent c = None -> asks c st s 0.

(** The time that [c] has used when its call returns: up to the trap, and then
    from the reading of the clock before the service to the one after it. *)
Definition charged s c : Z :=
  let n := tod_reads s in
  let before := s32 (p_time c + s32 (s32 (tod n) - start_tod s)) in
  s32 (before + s32 (s32 (tod (S (S n))) - s32 (tod (S n)))).

(** The caller past the call, with [t] for its time. *)
Definition past_call (st : state_t) (t : Z) c : pcb_t := set_p_s (advance st) (set_p_time t c).

Lemma asks_answered i c s v st x :
  On i c s v -> Z.testbit (status st) 3 = false -> asks c st s x ->
  syscall_handler (entered i c st s) =
  Ok (CONTROL_RESCHEDULE (Some i))
    (set_pcb_table (<[i := set_v0 x (caller c st s)]> (pcb_table (entered i c st s))) (entered i c st s)).
Proof.
  intros HO Hk Hx. pose proof (entered_on i c st s v HO) as HO1.
  destruct (queries_spec _ _ _ _ HO1) as (Qt & Qs & Qp & Qq & _).
  destruct Hx as [Hid|Hid|Hid Ha|j d Hid Ha Hpar Hd|Hid Ha Hpar].
  all: erewrite entered_dispatch by (done || rewrite Hid; constructor).
  - by rewrite Qt.
  - by rewrite Qs.
  - by rewrite (Qp Ha).
  - destruct (Qq Ha) as (x & -> & Hx).
    change (p_parent (caller c st s)) with (p_parent c) in Hx. rewrite Hpar in Hx.
    destruct Hx as (d' & Hd' & <- & _). cbn [pcb_table entered set_start_tod set_tod_reads saved set_pcb_table] in Hd'.
    assert (p_pid d' = p_pid d) as ->; [|done]. destruct (decide (i = j)) as [<-|Hne].
    + rewrite (table_upd_eq _ _ _ _ (on_pcb _ _ _ _ HO)) in Hd'. injection Hd' as <-.
      rewrite (on_pcb _ _ _ _ HO) in Hd. by injection Hd as <-.
    + rewrite list_lookup_insert_ne in Hd' by done. congruence.
  - destruct (Qq Ha) as (x & -> & Hx).
    change (p_parent (caller c st s)) with (p_parent c) in Hx. rewrite Hpar in Hx. by subst.
Qed.

Lemma trap_answers_spec i c s v st x :
  On i c s v -> saved_states s !! BIOSDATAPAGE = Some st -> CAUSE_GET_EXCCODE (cpu_cause s) = 8 ->
  Z.testbit (status st) 3 = false -> asks c st s x ->
  ∃ e s', exception_handler s = Exit e s' ∧
    next_runs (<[i := past_call (set_reg_v0 (u32 x) st) (charged s c) c]> (pcb_table s)) (mem s) (blocked s v)
      (requeued i c v) e s'.
Proof.
  intros HO Hst Hcode Hk Hx. pose proof (entered_on i c st s v HO) as HO1.
  pose proof (On_upd i _ (set_v0 x (caller c st s)) _ v HO1 ltac:(done)) as HO2.
  destruct (syscall_returns i c s v st _ _ v HO Hst Hcode (asks_answered i c s v st x HO Hk Hx) HO2)
    as (e & s' & Hrun & Hnext).
  set (s3 := set_pcb_table _ (entered i c st s)) in *.
  exists e, s'. split; [exact Hrun|].
  assert (blocked s3 v = blocked s v) as Hb.
  { destruct (same_tables_Inv (same_tables_upd (entered i c st s) i _ (set_v0 x (caller c st s))
      (on_pcb _ _ _ _ HO1) ltac:(done)) [i] v (on_inv _ _ _ _ HO1)) as [_ Hb].
    etrans; [exact Hb|by eapply entered_blocked]. }
  rewrite Hb in Hnext.
  assert (∀ y, <[i := y]> (pcb_table s3) = <[i := y]> (pcb_table s)) as HT.
  { intros y. unfold s3, entered, saved. simpl. by rewrite !list_insert_insert_eq. }
  rewrite HT in Hnext. exact Hnext.
Qed.

(** ** PASSEREN and VERHOGEN *)

(** A process is alive, so the pool is not full. *)
Lemma live_room i c s v : On i c s v -> (length (v_free v) < MAX_PROC)%nat.
Proof. intros HO. apply (live_count s v i); apply HO || by eapply on_valid || by eapply on_live. Qed.

Lemma entered_table i c st s y : <[i := y]> (pcb_table (entered i c st s)) = <[i := y]> (pcb_table s).
Proof. unfold entered, saved. simpl. by rewrite list_insert_insert_eq. Qed.

(** The memory changes, and nothing else. *)
Lemma On_mem i c s v m : On i c s v -> On i c (set_mem m s) v ∧ blocked (set_mem m s) v = blocked s v.
Proof.
  intros [HI Ha Hy Hc Hz Hq]. destruct (Inv_mem [i] s v m HI) as [HI' Hb]. split; [by split|done].
Qed.

(** The first ready process runs, or the machine waits for an interrupt. *)
Definition gives_way (T : list pcb_t) (m : gmap Z Z) (B : gmap Z (list nat)) v (e : exit_t) s' : Prop :=
  match next_ready v with
  | Some _ => next_runs T m B v e s'
  | None => e = Waiting ∧ Idle s' v ∧ pcb_table s' = T ∧ blocked s' v = B ∧ mem s' = m
  end.

(** The scheduler is left with nobody to run. *)
Lemma schedule_gives_way s v :
  Inv [] s v -> yield_process s = None -> process_count s ≠ 0 ->
  ∃ e s', schedule None false s = Exit e s' ∧ gives_way (pcb_table s) (mem s) (blocked s v) v e s'.
Proof.
  intros HI Hy Hne. unfold gives_way. destruct (next_ready v) as [[[b j] l]|] eqn:Hn.
  - destruct (schedule_ready_spec [] s v b j l false HI Hy Hn) as (d & s' & Hd & Hrun & Hdis & HI' & Hb').
    exists (Running (running_state d)), s'. split; [exact Hrun|]. exists b, j, l, d. split_and!; try done.
    + apply (dispatched_on j d s); try done.
      * eapply taken_detached; [apply HI|by apply (next_ready_Some _ _ _ _ Hn)].
      * eapply ready_unblocked; [exact HI| |exact Hd]. rewrite (proj1 (next_ready_Some _ _ _ _ Hn)). left.
    + by destruct Hdis as (h' & lt' & ->).
    + exact (dispatched_mem j d s s' Hdis).
  - exists Waiting, (waiting_state s).
    assert (Inv [] (waiting_state s) v ∧ blocked (waiting_state s) v = blocked s v) as [HI' Hb'].
    { by apply (Inv_ext [] s). }
    split; [|by split_and!]. by rewrite (schedule_idle_spec s v false HI Hy Hn), (proj2 (Z.eqb_neq _ _) Hne).
Qed.

(** ... or it stops, when nobody is alive. *)
Definition gives_up (T : list pcb_t) (m : gmap Z Z) (B : gmap Z (list nat)) v (e : exit_t) s' : Prop :=
  if decide (length (v_free v) = MAX_PROC)
  then e = Halted ∧ Inv [] s' v ∧ pcb_table s' = T ∧ mem s' = m
  else gives_way T m B v e s'.

Lemma schedule_gives_up s v :
  Inv [] s v -> yield_process s = None ->
  ∃ e s', schedule None false s = Exit e s' ∧ gives_up (pcb_table s) (mem s) (blocked s v) v e s'.
Proof.
  intros HI Hy. unfold gives_up. pose proof (count_procs _ _ (inv_counts _ _ _ HI)) as Hn.
  pose proof (inv_rep _ _ _ HI) as HRep.
  assert (length (v_free v) <= MAX_PROC)%nat.
  { apply valid_length; [by eapply rep_NoDup_free|]. intros x Hx. eapply in_queue_valid; [done|]. by apply in_free. }
  case_decide as Hf; [|apply schedule_gives_way; [done|done|lia]].
  assert (next_ready v = None) as Hr.
  { destruct (next_ready v) as [[[b j] l]|] eqn:Er; [exfalso|done].
    destruct (next_ready_Some _ _ _ _ Er) as [E _].
    assert (j ∈ v_ready b v) as Hj by (rewrite E; left).
    pose proof (live_count s v j HRep (in_queue_valid _ _ HRep j (in_ready b v j Hj))
      (λ Hjf, free_not_ready s v b j HRep Hjf Hj)). lia. }
  exists Halted, s. split; [|done]. rewrite (schedule_idle_spec s v false HI Hy Hr).
  by rewrite (proj2 (Z.eqb_eq _ _)) by lia.
Qed.

(** A call after which its caller does not go on, dead or waiting: control
    goes to the scheduler. *)
Lemma syscall_leaves i c s v st s3 c3 v3 :
  On i c s v -> saved_states s !! BIOSDATAPAGE = Some st -> CAUSE_GET_EXCCODE (cpu_cause s) = 8 ->
  syscall_handler (entered i c st s) = Ok CONTROL_BLOCK s3 ->
  active_process s3 = Some i -> yield_process s3 = None -> pcb_table s3 !! i = Some c3 ->
  Inv [] s3 v3 ->
  ∃ e s', exception_handler s = Exit e s' ∧
    gives_up (<[i := returning s3 c3]> (pcb_table s3)) (mem s3) (blocked s3 v3) v3 e s'.
Proof.
  intros HO Hst Hcode Hrun Ha3 Hy3 Hc3 HI3.
  rewrite (syscall_exception i c s v st _ s3 c3 HO Hst Hcode Hrun Ha3 Hc3).
  cbn [sc_pcb sc_enqueue CONTROL_BLOCK]. set (s4 := resting i c3 s3) in *.
  destruct (resting_inv [] i c3 s3 v3 HI3 Hc3) as [HI4 <-]. by apply (schedule_gives_up s4 v3 HI4).
Qed.

(** A call that leaves its caller waiting, on a list of the ASL: it waits
    past the call. *)
Lemma syscall_blocks i c s v st s3 c3 v3 :
  On i c s v -> saved_states s !! BIOSDATAPAGE = Some st -> CAUSE_GET_EXCCODE (cpu_cause s) = 8 ->
  syscall_handler (entered i c st s) = Ok CONTROL_BLOCK s3 ->
  active_process s3 = Some i -> yield_process s3 = None -> pcb_table s3 !! i = Some c3 ->
  Inv [] s3 v3 -> same_procs v v3 ->
  ∃ e s', exception_handler s = Exit e s' ∧
    gives_way (<[i := returning s3 c3]> (pcb_table s3)) (mem s3) (blocked s3 v3) v3 e s'.
Proof.
  intros HO Hst Hcode Hrun Ha3 Hy3 Hc3 HI3 Hsame.
  destruct (syscall_leaves i c s v st s3 c3 v3 HO Hst Hcode Hrun Ha3 Hy3 Hc3 HI3) as (e & s' & Hexc & Hg).
  exists e, s'. split; [exact Hexc|]. unfold gives_up in Hg. rewrite decide_False in Hg; [done|].
  destruct Hsame as (-> & _). pose proof (live_room i c s v HO). lia.
Qed.

Section semaphore_calls.
Context (i : nat) (c : pcb_t) (s : kernel) (v : view) (st : state_t) (k : Z).
Context (HO : On i c s v) (Hst : saved_states s !! BIOSDATAPAGE = Some st).
Context (Hcode : CAUSE_GET_EXCCODE (cpu_cause s) = 8) (Hkernel : Z.testbit (status st) 3 = false).
Context (Hk : addr_ok k).
#[local] Set Default Proof Using "Type*".

Let HO1 : On i (caller c st s) (entered i c st s) v := entered_on i c st s v HO.
Let Hb1 : blocked (entered i c st s) v = blocked s v := entered_blocked i c st s v HO.

Lemma passeren_runs : s32 (reg_a0 st) = PASSEREN -> reg_a1 st = k ->
  syscall_handler (entered i c st s) = P k (Some i) (entered i c st s).
Proof.
  intros Hid Ea. erewrite entered_dispatch by (done || rewrite Hid; constructor). unfold syscall_passeren.
  step_with (active_pcb_ok _ _ _ _ HO1). change (reg_a1 (p_s (caller c st s))) with (reg_a1 st). rewrite Ea.
  rewrite (addr_ok_nonzero _ Hk), bind_gets. by rewrite (on_active _ _ _ _ HO1).
Qed.

(** CLOCKWAIT is PASSEREN on the semaphore of the clock. *)
Lemma wait_for_clock_runs : s32 (reg_a0 st) = CLOCKWAIT -> k = get_timer_semaphore ->
  syscall_handler (entered i c st s) = P k (Some i) (entered i c st s).
Proof.
  intros Hid ->. erewrite entered_dispatch by (done || rewrite Hid; constructor).
  unfold syscall_wait_for_clock. by rewrite bind_gets, (on_active _ _ _ _ HO1).
Qed.

Lemma verhogen_runs r s3 : s32 (reg_a0 st) = VERHOGEN -> reg_a1 st = k -> V k (entered i c st s) = Ok (Some r) s3 ->
  syscall_handler (entered i c st s) = Ok (CONTROL_RESCHEDULE (active_process s3)) s3.
Proof.
  intros Hid Ea Hrun. erewrite entered_dispatch by (done || rewrite Hid; constructor).
  unfold syscall_verhogen. step_with (active_pcb_ok _ _ _ _ HO1).
  change (reg_a1 (p_s (caller c st s))) with (reg_a1 st). rewrite Ea. rewrite (addr_ok_nonzero _ Hk). step_with Hrun. done.
Qed.

(** The value changes by one and the caller goes on. *)
Lemma counted x :
  syscall_handler (entered i c st s) =
    Ok (CONTROL_RESCHEDULE (Some i)) (set_mem (<[k := x]> (mem s)) (entered i c st s)) ->
  ∃ e s', exception_handler s = Exit e s' ∧
    next_runs (<[i := past_call st (charged s c) c]> (pcb_table s)) (<[k := x]> (mem s)) (blocked s v)
      (requeued i c v) e s'.
Proof.
  intros Hrun. destruct (On_mem _ _ _ _ (<[k := x]> (mem s)) HO1) as [HO2 Hb2].
  destruct (syscall_returns i c s v st _ _ v HO Hst Hcode Hrun HO2) as (e & s' & Hrun' & Hnext).
  exists e, s'. split; [exact Hrun'|]. rewrite Hb2, Hb1 in Hnext.
  change (pcb_table (set_mem _ ?s0)) with (pcb_table s0) in Hnext.
  rewrite entered_table in Hnext. exact Hnext.
Qed.

(** The caller goes on: with a waiting process woken up, or with [x] for the
    new value of the semaphore. *)
Definition goes_on (x : Z) : Prop :=
  match blocked s v !! k with
  | Some (t :: _) =>
      ∃ d v3, pcb_table s !! t = Some d ∧
        (∀ b, v_ready b v3 = if Bool.eqb (is_true (p_prio d)) b then v_ready b v ++ [t] else v_ready b v) ∧
        ∃ e s', exception_handler s = Exit e s' ∧
          next_runs (<[i := past_call st (charged s c) c]> (<[t := set_p_sem_add 0 d]> (pcb_table s))) (mem s)
            (leave k t (blocked s v)) (requeued i c v3) e s'
  | _ =>
      ∃ e s', exception_handler s = Exit e s' ∧
        next_runs (<[i := past_call st (charged s c) c]> (pcb_table s)) (<[k := x]> (mem s)) (blocked s v)
          (requeued i c v) e s'
  end.

(** A waiting process is woken up and the caller goes on. *)
Lemma woke t l d s3 v3 :
  blocked s v !! k = Some (t :: l) ->
  syscall_handler (entered i c st s) = Ok (CONTROL_RESCHEDULE (Some i)) s3 ->
  woken k t d [i] (entered i c st s) s3 v v3 ->
  pcb_table s !! t = Some d ∧
  (∀ b, v_ready b v3 = if Bool.eqb (is_true (p_prio d)) b then v_ready b v ++ [t] else v_ready b v) ∧
  ∃ e s', exception_handler s = Exit e s' ∧
    next_runs (<[i := past_call st (charged s c) c]> (<[t := set_p_sem_add 0 d]> (pcb_table s))) (mem s)
      (leave k t (blocked s v)) (requeued i c v3) e s'.
Proof.
  intros Hl Hrun Hw. pose proof (addr_ok_nonzero_ne _ Hk) as Hk0.
  pose proof Hw as (h & v1 & Es3 & Hd & HI3 & _ & _ & Hb3).
  assert (p_sem_add d = k) as Hsem.
  { rewrite <- Hb1 in Hl.
    apply (blocked_sem_add _ _ _ (inv_rep _ _ _ (on_inv _ _ _ _ HO1)) (inv_asl _ _ _ (on_inv _ _ _ _ HO1))
      _ _ _ _ Hl ltac:(left) Hd). }
  assert (t ≠ i) as Hti.
  { intros ->. rewrite (on_pcb _ _ _ _ HO1) in Hd. injection Hd as <-. rewrite (on_sem _ _ _ _ HO1) in Hsem. done. }
  assert (On i (caller c st s) s3 v3) as HO3.
  { eapply (woken_on [i] k t d); [exact HO1|exact Hw|done|congruence]. }
  split_and!.
  - unfold entered, saved in Hd. simpl in Hd. by rewrite list_lookup_insert_ne in Hd.
  - intros b. eapply (woken_ready k t d [i] _ _ _ _ b (on_inv _ _ _ _ HO1) Hw). congruence.
  - destruct (syscall_returns i c s v st _ _ v3 HO Hst Hcode Hrun HO3) as (e & s' & Hrun' & Hnext).
    exists e, s'. split; [exact Hrun'|].
    assert (used_time s3 (caller c st s) = charged s c) as Eu by (by rewrite Es3).
    unfold returning in Hnext. rewrite Eu, Hb3, Hb1 in Hnext.
    assert (pcb_table s3 = <[t := set_p_sem_add 0 d]> (pcb_table (entered i c st s))) as ET by (by rewrite Es3).
    assert (mem s3 = mem s) as EM by (by rewrite Es3).
    rewrite ET, EM, list_insert_insert_ne, entered_table, list_insert_insert_ne in Hnext by done. exact Hnext.
Qed.

(** The caller waits on [k], and the first ready process runs, if any. *)
Definition blocks_caller (e : exit_t) (s' : kernel) : Prop :=
  ∃ v', same_procs v v' ∧
    gives_way (<[i := set_p_sem_add k (past_call st (charged s c) c)]> (pcb_table s)) (mem s)
      (<[k := default [] (blocked s v !! k) ++ [i]]> (blocked s v)) v' e s'.

Lemma blocks s3 v3 h T n :
  syscall_handler (entered i c st s) = Ok CONTROL_BLOCK s3 ->
  s3 = set_softblock_count n (set_links h (set_semd_table T
         (set_pcb_table (<[i := set_p_sem_add k (caller c st s)]> (pcb_table (entered i c st s)))
           (entered i c st s)))) ->
  Inv [] s3 v3 -> same_procs v v3 ->
  blocked s3 v3 = <[k := default [] (blocked s v !! k) ++ [i]]> (blocked s v) ->
  ∃ e s', exception_handler s = Exit e s' ∧ blocks_caller e s'.
Proof.
  intros Hrun E3 HI3 Hsame Hb3. set (c3 := set_p_sem_add k (caller c st s)) in *.
  assert (pcb_table s3 = <[i := c3]> (pcb_table (entered i c st s))) as ET by (by rewrite E3).
  assert (pcb_table s3 !! i = Some c3) as Hc3.
  { rewrite ET. eapply table_upd_eq, (on_pcb _ _ _ _ HO1). }
  assert (active_process s3 = Some i) as Ha3 by (rewrite E3; apply HO).
  assert (yield_process s3 = None) as Hy3 by (rewrite E3; apply HO).
  assert (mem s3 = mem s) as EM by (by rewrite E3).
  destruct (syscall_blocks i c s v st s3 c3 v3 HO Hst Hcode Hrun Ha3 Hy3 Hc3 HI3 Hsame) as (e & s' & Hexc & Hw).
  exists e, s'. split; [exact Hexc|]. exists v3. split; [done|].
  assert (used_time s3 c3 = charged s c) as Eu by (by rewrite E3). unfold returning in Hw. rewrite Eu in Hw.
  rewrite ET, list_insert_insert_eq, entered_table, Hb3, EM in Hw. exact Hw.
Qed.

(** A call that is [P]: wait at 0, take over from the first waiter, or count down. *)
Lemma P_trap_spec :
  syscall_handler (entered i c st s) = P k (Some i) (entered i c st s) ->
  if sem_value s k =? 0 then ∃ e s', exception_handler s = Exit e s' ∧ blocks_caller e s'
  else goes_on (u32 (sem_value s k - 1)).
Proof.
  intros Hrun. assert (sem_value (entered i c st s) k = sem_value s k) as Hv by done.
  destruct (Z.eqb_spec (sem_value s k) 0) as [Hz|Hz].
  - destruct (P_block [i] _ v k i _ (on_inv _ _ _ _ HO1) Hk Hz (on_pcb _ _ _ _ HO1) (on_sem _ _ _ _ HO1)
      (on_queue _ _ _ _ HO1)) as (h & T & v3 & HP & HI3 & Hsame & Hb3).
    rewrite HP in Hrun. rewrite Hb1 in Hb3.
    eapply (blocks _ v3 h T); [exact Hrun|done|by apply (Inv_rem_self i)|done|done].
  - destruct (blocked s v !! k) as [[|t l]|] eqn:Hl.
    + rewrite <- Hb1 in Hl.
      destruct (blocked_nonempty _ _ _ (inv_rep _ _ _ (on_inv _ _ _ _ HO1))
        (inv_asl _ _ _ (on_inv _ _ _ _ HO1)) _ _ eq_refl Hl). done.
    + rewrite <- Hb1 in Hl. destruct (P_wake [i] _ v k i t l (on_inv _ _ _ _ HO1) Hk Hz Hl) as (d & s3 & v3 & HP & Hw).
      rewrite HP, (on_active _ _ _ _ HO1) in Hrun. rewrite Hb1 in Hl.
      unfold goes_on. rewrite Hl. exists d, v3. exact (woke t l d s3 v3 Hl Hrun Hw).
    + rewrite <- Hb1 in Hl. rewrite (P_dec [i] _ v k i (on_inv _ _ _ _ HO1) Hk Hz Hl), (on_active _ _ _ _ HO1) in Hrun.
      rewrite Hb1 in Hl. unfold goes_on. rewrite Hl. exact (counted _ Hrun).
Qed.

Lemma passeren_trap_spec :
  s32 (reg_a0 st) = PASSEREN -> reg_a1 st = k ->
  if sem_value s k =? 0 then ∃ e s', exception_handler s = Exit e s' ∧ blocks_caller e s'
  else goes_on (u32 (sem_value s k - 1)).
Proof. intros Hid Ea. by apply P_trap_spec, passeren_runs. Qed.

(** VERHOGEN: wait at 1, let the first waiter through, or count up. *)
Lemma verhogen_trap_spec :
  s32 (reg_a0 st) = VERHOGEN -> reg_a1 st = k ->
  if sem_value s k =? 1 then ∃ e s', exception_handler s = Exit e s' ∧ blocks_caller e s'
  else goes_on (u32 (sem_value s k + 1)).
Proof.
  intros Hid Ea. assert (sem_value (entered i c st s) k = sem_value s k) as Hv by done.
  destruct (Z.eqb_spec (sem_value s k) 1) as [Hz|Hz].
  - destruct (V_block [i] _ v k i _ (on_inv _ _ _ _ HO1) Hk Hz (on_active _ _ _ _ HO1) (on_pcb _ _ _ _ HO1)
      (on_sem _ _ _ _ HO1) (on_queue _ _ _ _ HO1)) as (h & T & v3 & HV & HI3 & Hsame & Hb3).
    rewrite Hb1 in Hb3. eapply (blocks _ v3 h T); [|done|by apply (Inv_rem_self i)|done|done].
    erewrite entered_dispatch by (done || rewrite Hid; constructor).
    unfold syscall_verhogen. step_with (active_pcb_ok _ _ _ _ HO1).
    change (reg_a1 (p_s (caller c st s))) with (reg_a1 st). rewrite Ea. rewrite (addr_ok_nonzero _ Hk). step_with HV. done.
  - destruct (blocked s v !! k) as [[|t l]|] eqn:Hl.
    + rewrite <- Hb1 in Hl.
      destruct (blocked_nonempty _ _ _ (inv_rep _ _ _ (on_inv _ _ _ _ HO1))
        (inv_asl _ _ _ (on_inv _ _ _ _ HO1)) _ _ eq_refl Hl). done.
    + rewrite <- Hb1 in Hl. destruct (V_wake [i] _ v k t l (on_inv _ _ _ _ HO1) Hk Hz Hl) as (d & s3 & v3 & HV & Hw).
      pose proof (verhogen_runs _ _ Hid Ea HV) as Hrun.
      assert (active_process s3 = Some i) as Ha3.
      { destruct Hw as (h & v1 & -> & _). apply HO. }
      rewrite Ha3 in Hrun. rewrite Hb1 in Hl.
      unfold goes_on. rewrite Hl. exists d, v3. exact (woke t l d s3 v3 Hl Hrun Hw).
    + rewrite <- Hb1 in Hl. pose proof (V_inc [i] _ v k (on_inv _ _ _ _ HO1) Hk Hz Hl) as HV.
      rewrite (on_active _ _ _ _ HO1) in HV. pose proof (verhogen_runs _ _ Hid Ea HV) as Hrun.
      rewrite Hb1 in Hl. unfold goes_on. rewrite Hl. apply counted. rewrite Hrun. f_equal.
      cbn [active_process set_mem]. by rewrite (on_active _ _ _ _ HO1).
Qed.
End semaphore_calls.

(** ** YIELD *)

(** The caller gives way to the first ready process, whatever its priority, and
    goes behind those of its own; alone, it goes on. *)
Definition gives_turn i c v (T : list pcb_t) (m : gmap Z Z) (B : gmap Z (list nat)) (e : exit_t) s' : Prop :=
  match next_ready v with
  | Some (b, j, l) =>
      ∃ d, let v1 := set_v_ready b l v in let b' := is_true (p_prio c) in
        let v' := set_v_ready b' (v_ready b' v1 ++ [i]) v1 in
        T !! j = Some d ∧ e = Running (running_state d) ∧ On j (set_p_s (running_state d) d) s' v' ∧
        pcb_table s' = <[j := set_p_s (running_state d) d]> T ∧ blocked s' v' = B ∧ mem s' = m
  | None =>
      ∃ d, T !! i = Some d ∧ e = Running (running_state d) ∧ On i (set_p_s (running_state d) d) s' v ∧
        pcb_table s' = <[i := set_p_s (running_state d) d]> T ∧ blocked s' v = B ∧ mem s' = m
  end.

(** Taking the first ready process leaves the others where they are. *)
Lemma v_enqueue_taken b' i b j l v :
  ¬ in_queue v i -> next_ready v = Some (b, j, l) ->
  v_enqueue b' i (set_v_ready b l v) =
  set_v_ready b' (v_ready b' (set_v_ready b l v) ++ [i]) (set_v_ready b l v).
Proof.
  intros Hi Hn. apply v_enqueue_detached. intros Hq. apply Hi.
  rewrite in_queue_ready_iff in Hq |- *. rewrite v_free_set_ready, v_procq_set_ready in Hq.
  destruct Hq as [|[(b0 & Hb0)|]]; [tauto| |tauto]. right. left. exists b0.
  rewrite ready_set_ready in Hb0. destruct (Bool.eqb b b0) eqn:E; [|done].
  apply eqb_prop in E as <-. destruct (next_ready_Some _ _ _ _ Hn) as [-> _]. by right.
Qed.

Lemma schedule_gives_turn i c s v :
  Inv [i] s v -> yield_process s = Some i -> pcb_table s !! i = Some c -> p_sem_add c = 0 -> ¬ in_queue v i ->
  ∃ e s', schedule None false s = Exit e s' ∧
    gives_turn i c v (pcb_table s) (mem s) (blocked s v) e s'.
Proof.
  intros HI Hy Hc Hz Hq. unfold gives_turn. destruct (next_ready v) as [[[b j] l]|] eqn:Hn.
  - destruct (schedule_yield_spec s v i c b j l false HI Hy Hc Hq Hz Hn) as (d & s' & Hd & Hrun & Hdis & HI' & Hb').
    destruct (next_ready_Some _ _ _ _ Hn) as [E _]. pose proof (inv_rep _ _ _ HI) as HRep.
    assert (j ∈ v_ready b v) as Hj by (rewrite E; left).
    exists (Running (running_state d)), s'. split; [exact Hrun|]. exists d. cbv zeta.
    rewrite <- (v_enqueue_taken (is_true (p_prio c)) i b j l v Hq Hn).
    split; [done|]. split; [done|]. split; [|split; [|split; [exact Hb'|exact (dispatched_mem j d s s' Hdis)]]].
    + apply (dispatched_on j d s); try done; [|exact (ready_unblocked [i] s v b j d HI Hj Hd)].
      rewrite in_queue_enqueue. intros [->|Hin]; [|by eapply taken_detached].
      apply Hq, in_queue_ready_iff. right. left. by exists b.
    + by destruct Hdis as (h' & lt' & ->).
  - destruct (schedule_yield_alone_spec s v i c false HI Hy Hc Hn) as (s' & Hrun & Hdis & HI' & Hb').
    exists (Running (running_state c)), s'. split; [exact Hrun|]. exists c.
    split; [done|]. split; [done|]. split; [by apply (dispatched_on i c s)|]. split; [|split; [exact Hb'|]].
    + by destruct Hdis as (h' & lt' & ->).
    + exact (dispatched_mem i c s s' Hdis).
Qed.

Lemma yield_trap_spec i c s v st :
  On i c s v -> saved_states s !! BIOSDATAPAGE = Some st -> CAUSE_GET_EXCCODE (cpu_cause s) = 8 ->
  Z.testbit (status st) 3 = false -> s32 (reg_a0 st) = YIELD ->
  ∃ e s', exception_handler s = Exit e s' ∧
    gives_turn i c v (<[i := past_call st (charged s c) c]> (pcb_table s)) (mem s) (blocked s v) e s'.
Proof.
  intros HO Hst Hcode Hk Hid. pose proof (entered_on i c st s v HO) as HO1.
  assert (syscall_handler (entered i c st s) = Ok CONTROL_BLOCK (set_yield_process (Some i) (entered i c st s))) as Hrun.
  { erewrite entered_dispatch by (done || rewrite Hid; constructor).
    unfold syscall_yield. by rewrite bind_gets, bind_modify, (on_active _ _ _ _ HO1). }
  set (s3 := set_yield_process _ _) in Hrun.
  rewrite (syscall_exception i c s v st _ s3 _ HO Hst Hcode Hrun (on_active _ _ _ _ HO1) (on_pcb _ _ _ _ HO1)).
  cbn [sc_pcb sc_enqueue CONTROL_BLOCK]. set (c3 := caller c st s). set (s4 := resting i c3 s3).
  assert (pcb_table s4 = <[i := past_call st (charged s c) c]> (pcb_table s)) as ET.
  { unfold s4, resting. cbn [pcb_table set_pcb_table]. change (pcb_table s3) with (pcb_table (entered i c st s)).
    apply entered_table. }
  assert (Inv [i] s4 v ∧ blocked s4 v = blocked s3 v) as [HI4 Hb4].
  { apply resting_inv; [by apply (Inv_ext _ _ _ _ (on_inv _ _ _ _ HO1))|apply (on_pcb _ _ _ _ HO1)]. }
  destruct (schedule_gives_turn i (past_call st (charged s c) c) s4 v HI4 eq_refl) as (e & s' & Hrun' & Hg).
  - rewrite ET. eapply table_upd_eq, HO.
  - apply (on_sem _ _ _ _ HO).
  - apply HO.
  - exists e, s'. split; [exact Hrun'|]. rewrite ET in Hg.
    assert (blocked s4 v = blocked s v) as <-; [|exact Hg].
    rewrite Hb4. etrans; [|by apply (entered_blocked i c st)]. by apply blocked_ext.
Qed.
End trap.
