(* ===== verification/Lifecycle.v ===== *)
(** * The life and death of processes, from the trap to the return

    CREATEPROCESS and TERMPROCESS ([os/src/syscall.c]), the calls that the
    nucleus hands to the support level and the exceptions that are no calls
    ([pass_up_or_die], [os/src/puod.c]), each followed through
    [exception_handler] to the process that runs next: who is born, who dies,
    and what is left of the queues. *)

From Stdlib Require Import ZArith Lia String.
From stdpp Require Import base tactics option numbers gmap list vector relations.
From S2P Require Import Prelude ListHead Machine Kernel View Pcb Asl Scheduler Invariant Process Dispatch Semaphores Contract Syscall Exception Trap.

Open Scope string_scope.
Open Scope list_scope.
Open Scope Z_scope.

Section lifecycle.
Context `{UmpsLaws}.
Implicit Types (s : kernel) (v : view) (i j p x : nat) (c d : pcb_t) (st : state_t) (ds : list nat).

(** ** Birth *)

(** CREATEPROCESS with a free PCB [j], and without one. *)
Lemma create_process_trap i c s v st img :
  On i c s v -> saved_states s !! BIOSDATAPAGE = Some st -> CAUSE_GET_EXCCODE (cpu_cause s) = 8 ->
  Z.testbit (status st) 3 = false -> s32 (reg_a0 st) = CREATEPROCESS ->
  reg_a2 st = 0 ∨ reg_a2 st = 1 -> reg_a1 st ≠ 0 -> saved_states s !! reg_a1 st = Some img ->
  ∃ e s' u, exception_handler s = Exit e s' ∧
    match v_free v with
    | [] => runs_on i (past_call (set_reg_v0 (u32 NULL_PID) st) u c) (pcb_table s) (mem s) (blocked s v) v e s'
    | j :: l =>
        ∃ cs, v_child v !! i = Some cs ∧
          let pid := make_pid (Z.of_nat j) (recycle_count s) in
          runs_on i (past_call (set_reg_v0 (u32 pid) st) u c)
            (<[j := child_pcb i img (reg_a3 st) (reg_a2 st) pid]> (pcb_table s)) (mem s) (blocked s v)
            (set_v_child (<[i := cs ++ [j]]> (<[j := []]> (v_child v)))
               (v_spawn (is_true (reg_a2 st)) j l v)) e s'
    end.
Proof.
  intros HO Hst Hcode Hkm Hid Hp Hne Himg. pose proof (entered_on i c st s v HO) as HO1.
  pose proof (entered_blocked i c st s v HO) as Hb1. set (s1 := entered i c st s) in *.
  assert (syscall_handler s1 = syscall_create_process s1) as Hd.
  { eapply entered_dispatch; [done..|]. rewrite Hid. constructor. }
  destruct (v_free v) as [|j l] eqn:Hf.
  - rewrite (create_process_none i _ s1 v HO1 Hp Hne Hf) in Hd.
    pose proof (On_upd i _ (set_v0 NULL_PID (caller c st s)) s1 v HO1 ltac:(done)) as HO3.
    destruct (syscall_preserves i c s v st _ _ v HO Hst Hcode Hd HO3) as (e & s' & Hrun & He).
    destruct (same_tables_Inv (same_tables_upd s1 i _ (set_v0 NULL_PID (caller c st s))
      (on_pcb _ _ _ _ HO1) ltac:(done)) [i] v (on_inv _ _ _ _ HO1)) as [_ Hb3].
    eexists e, s', _. split; [exact Hrun|]. destruct He as (He & HO' & HT & Hb & Hm).
    split; [exact He|]. split; [exact HO'|]. split; [|split; [by rewrite Hb, Hb3|exact Hm]].
    rewrite HT. cbn [pcb_table set_pcb_table]. rewrite list_insert_insert_eq. apply entered_table.
  - pose proof (create_process_child i _ s1 v j l HO1 Hp Hne Hf) as Hc.
    change (saved_states s1) with (saved_states s) in Hc.
    change (reg_a1 (p_s (caller c st s))) with (reg_a1 st) in Hc. rewrite Himg in Hc.
    destruct Hc as (s3 & cs & Hrun3 & HO3 & Hcs & Hb3 & Hm3 & HT3). rewrite Hrun3 in Hd.
    destruct (syscall_preserves i c s v st _ _ _ HO Hst Hcode Hd HO3) as (e & s' & Hrun & He).
    eexists e, s', _. split; [exact Hrun|]. exists cs. split; [exact Hcs|].
    destruct He as (He & HO' & HT & Hb & Hm).
    split; [exact He|]. split; [exact HO'|]. split; [|split; [etrans; [exact Hb|by rewrite Hb3]|by rewrite Hm, Hm3]].
    assert (i ≠ j) as Hij.
    { intros ->. apply (on_live _ _ _ _ HO). rewrite Hf. left. }
    rewrite HT, HT3, list_insert_insert_eq. unfold s1, entered, saved. cbn [pcb_table set_pcb_table set_start_tod set_tod_reads].
    by rewrite (list_insert_insert_ne _ j i), list_insert_insert_eq by done.
Qed.

(** ** Death *)

(** The processes [ds] are dead, and the others are as they were but for
    process [i]: [T] and [v'] are the PCBs and the queues. *)
Record culled ds i s (T : list pcb_t) v v' : Prop := {
  cu_free : v_free v' = reverse ds ++ v_free v;
  cu_ready : ∀ b, v_ready b v' = rem_all ds (v_ready b v);
  cu_child : ∀ x, x ∉ ds -> v_child v' !! x = rem_all ds <$> v_child v !! x;
  cu_pcb : ∀ x, x ∉ ds -> x ≠ i -> T !! x = pcb_table s !! x;
}.

(** Process [p] dies with its descendants while [i] runs.  If [i] is one of
    them another process runs, or the machine waits, or stops when nobody is
    left; otherwise [i] goes to the end of its queue, past its call. *)
Definition ends i c s v st p (e : exit_t) s' : Prop :=
  ∃ ds T v', (∀ x, x ∈ ds ↔ descends (v_child v) p x) ∧ culled ds i s T v v' ∧
    if decide (i ∈ ds) then gives_up T (mem s) (purge ds (blocked s v)) v' e s'
    else ∃ u, T !! i = Some (past_call st u c) ∧
      next_runs T (mem s) (purge ds (blocked s v)) (requeued i c v') e s'.

(** Before the killing only the PCB of [i], the clock and the log have changed. *)
Record served_for i s s1 v : Prop := {
  sf_active : active_process s1 = Some i;
  sf_yield : yield_process s1 = None;
  sf_pcb : ∀ x, x ≠ i -> pcb_table s1 !! x = pcb_table s !! x;
  sf_mem : mem s1 = mem s;
  sf_blocked : blocked s1 v = blocked s v;
}.

Lemma culled_killed ds i s s1 s3 v v3 d :
  served_for i s s1 v -> killed ds s1 s3 v v3 -> culled ds i s (<[i := d]> (pcb_table s3)) v v3.
Proof.
  intros Hs HK. split; try apply HK. intros x Hx Hne. rewrite list_lookup_insert_ne by done.
  by rewrite (kd_pcb _ _ _ _ _ HK x Hx), (sf_pcb _ _ _ _ Hs).
Qed.

Lemma killed_rest ds i s s1 s3 v v3 :
  served_for i s s1 v -> killed ds s1 s3 v v3 ->
  active_process s3 = Some i ∧ yield_process s3 = None ∧ mem s3 = mem s ∧
  blocked s3 v3 = purge ds (blocked s v).
Proof.
  intros [Ha Hy _ Hm Hb] HK. destruct (frame_fields _ _ (kd_frame _ _ _ _ _ HK)) as (Ea & Ey & Em & _).
  rewrite Ea, Ey, Em, (kd_blocked _ _ _ _ _ HK), Hb. done.
Qed.

Lemma entered_served i c s v st : On i c s v -> served_for i s (entered i c st s) v.
Proof.
  intros HO. split; [apply HO|apply HO| |done|by apply entered_blocked].
  intros x Hx. unfold entered, saved. simpl. by rewrite list_lookup_insert_ne.
Qed.

(** The caller of a system call dies, with all its descendants. *)
Lemma caller_dies i c s v st s1 s3 v3 ds p :
  On i c s v -> saved_states s !! BIOSDATAPAGE = Some st -> CAUSE_GET_EXCCODE (cpu_cause s) = 8 ->
  syscall_handler (entered i c st s) = Ok CONTROL_BLOCK s3 ->
  served_for i s s1 v -> killed ds s1 s3 v v3 -> Inv [] s3 v3 ->
  (∀ x, x ∈ ds ↔ descends (v_child v) p x) -> i ∈ ds ->
  ∃ e s', exception_handler s = Exit e s' ∧ ends i c s v st p e s'.
Proof.
  intros HO Hst Hcode Hrun Hs HK HI3 Hds Hi.
  destruct (killed_rest ds i s s1 s3 v v3 Hs HK) as (Ha3 & Hy3 & Hm3 & Hb3).
  destruct (rep_pcb _ _ (inv_rep _ _ _ HI3) i (on_valid _ _ _ _ HO)) as [c3 Hc3].
  destruct (syscall_leaves i c s v st s3 c3 v3 HO Hst Hcode Hrun Ha3 Hy3 Hc3 HI3) as (e & s' & Hexc & Hg).
  exists e, s'. split; [exact Hexc|]. exists ds, (<[i := returning s3 c3]> (pcb_table s3)), v3.
  split; [exact Hds|]. split; [by apply (culled_killed ds i s s1)|].
  rewrite decide_True by done. by rewrite Hm3, Hb3 in Hg.
Qed.

(** TERMPROCESS with the pid of process [p]. *)
Lemma terminate_process_trap i c s v st p d :
  On i c s v -> saved_states s !! BIOSDATAPAGE = Some st -> CAUSE_GET_EXCCODE (cpu_cause s) = 8 ->
  Z.testbit (status st) 3 = false -> s32 (reg_a0 st) = TERMPROCESS ->
  reg_a1 st ≠ 0 -> pcb_table s !! p = Some d -> p_pid d = reg_a1 st ->
  ∃ e s', exception_handler s = Exit e s' ∧ ends i c s v st p e s'.
Proof.
  intros HO Hst Hcode Hkm Hid Hne Hd Hpid. pose proof (entered_on i c st s v HO) as HO1.
  pose proof (entered_served i c s v st HO) as Hs. set (s1 := entered i c st s) in *.
  assert (syscall_handler s1 = syscall_terminate_process s1) as Hdis.
  { eapply entered_dispatch; [done..|]. rewrite Hid. constructor. }
  assert (∃ d1, pcb_table s1 !! p = Some d1 ∧ p_pid d1 = reg_a1 st) as (d1 & Hd1 & Hp1).
  { destruct (decide (p = i)) as [->|Hpi].
    - exists (caller c st s). split; [apply HO1|]. rewrite (on_pcb _ _ _ _ HO) in Hd. by injection Hd as <-.
    - exists d. by rewrite (sf_pcb _ _ _ _ Hs). }
  destruct (terminate_process_spec i _ s1 v p d1 HO1 Hne Hd1 Hp1) as (s3 & v3 & ds & _ & HK & Hds & Hrun).
  destruct (decide (i ∈ ds)) as [Hi|Hi].
  - destruct Hrun as [Hrun HI3]. rewrite Hrun in Hdis. by eapply caller_dies.
  - destruct Hrun as [Hrun HO3]. rewrite Hrun in Hdis.
    destruct (killed_rest ds i s s1 s3 v v3 Hs HK) as (_ & _ & Hm3 & Hb3).
    destruct (syscall_returns i c s v st s3 _ v3 HO Hst Hcode Hdis HO3) as (e & s' & Hexc & Hn).
    exists e, s'. split; [exact Hexc|].
    exists ds, (<[i := returning s3 (caller c st s)]> (pcb_table s3)), v3.
    split; [exact Hds|]. split; [by apply (culled_killed ds i s s1)|]. rewrite decide_False by done.
    eexists. split; [eapply table_upd_eq, (on_pcb _ _ _ _ HO3)|]. by rewrite Hm3, Hb3 in Hn.
Qed.

(** ** Calls that the nucleus hands to the support level *)

(** The nucleus does not serve the call: the number is of the support level
    (positive), of no service, or the caller is in user mode; or an argument
    is wrong, which includes a device that somebody waits for already. *)
Inductive handed_up s v st : Prop :=
| up_positive : 0 < s32 (reg_a0 st) -> handed_up s v st
| up_user_mode : Z.testbit (status st) 3 = true -> handed_up s v st
| up_unknown : s32 (reg_a0 st) = 0 ∨ s32 (reg_a0 st) < YIELD -> handed_up s v st
| up_create : s32 (reg_a0 st) = CREATEPROCESS ->
    reg_a1 st = 0 ∨ (reg_a2 st ≠ 0 ∧ reg_a2 st ≠ 1) -> handed_up s v st
| up_terminate : s32 (reg_a0 st) = TERMPROCESS ->
    reg_a1 st = 0 ∨ (∀ p d, pcb_table s !! p = Some d -> p_pid d ≠ reg_a1 st) -> handed_up s v st
| up_semaphore : s32 (reg_a0 st) = PASSEREN ∨ s32 (reg_a0 st) = VERHOGEN ->
    reg_a1 st = 0 -> handed_up s v st
| up_device : s32 (reg_a0 st) = DOIO -> reg_a1 st = 0 -> handed_up s v st
| up_busy line dev w : s32 (reg_a0 st) = DOIO -> is_subdevice line dev w ->
    reg_a1 st = command_addr line dev w ->
    is_Some (blocked s v !! semaphores (sem_index line dev w)) -> handed_up s v st
| up_pid : s32 (reg_a0 st) = GETPROCESSID -> reg_a1 st ≠ 0 -> reg_a1 st ≠ 1 -> handed_up s v st.

(** The caller's registers in its PCB: a call of the nucleus from user mode is
    marked as a reserved instruction there. *)
Definition marked st : state_t :=
  if Z.testbit (status st) 3 && (s32 (reg_a0 st) <=? 0)
  then set_cause (cause_reserved_instruction (cause_clean (cause st))) st else st.

(** A number that no service has, in kernel mode or above 0. *)
Lemma unknown_dispatch i c s v :
  On i c s v -> let id := s32 (reg_a0 (p_s c)) in
  0 < id ∨ (Z.testbit (status (p_s c)) 3 = false ∧ (id = 0 ∨ id < YIELD)) ->
  ∃ l, syscall_handler s = pass_up_or_die GENERALEXCEPT (set_klog l s).
Proof.
  intros HO id Hid. unfold syscall_handler. rewrite bind_gets, (on_active _ _ _ _ HO), bool_decide_false by done.
  rewrite bind_ret_l. step_with (active_pcb_ok _ _ _ _ HO). cbv zeta. fold id.
  assert (∃ u, (if id <=? 0 then is_user_mode else ret 0) s = Ok u s ∧ (id <=? 0) && is_true u = false) as (u & Hu & E).
  { destruct (Z.leb_spec id 0) as [Hle|Hgt]; [|by exists 0]. destruct Hid as [Hid|[Hk _]]; [lia|].
    eexists. split; [apply (is_user_mode_ok _ _ _ _ HO)|]. rewrite user_mode_bit, Hk. done. }
  step_with Hu. rewrite E.
  unfold CREATEPROCESS, TERMPROCESS, PASSEREN, VERHOGEN, DOIO, GETTIME, CLOCKWAIT, GETSUPPORTPTR, GETPROCESSID, YIELD in *.
  repeat match goal with |- context [Z.eqb id ?n] => rewrite (proj2 (Z.eqb_neq id n)) by lia end.
  eexists. unfold kprintf. by rewrite bind_modify.
Qed.

(** Wrong arguments. *)
Lemma refused_runs i c s v st m :
  On i c s v -> Z.testbit (status st) 3 = false -> serves (s32 (reg_a0 st)) m ->
  m (entered i c st s) = pass_up_or_die GENERALEXCEPT (entered i c st s) ->
  ∃ l, syscall_handler (entered i c st s) = pass_up_or_die GENERALEXCEPT
    (set_klog l (set_pcb_table (<[i := caller c (marked st) s]> (pcb_table s)) (entered i c st s))).
Proof.
  intros HO Hk Hm Hrun. exists (klog s). rewrite (entered_dispatch i c s v st m HO Hk Hm), Hrun.
  unfold marked. rewrite Hk. cbn [andb]. by destruct s.
Qed.

(** DOIO on a device that somebody waits for. *)
Lemma device_taken i c s v line dev w :
  On i c s v -> is_subdevice line dev w -> reg_a1 (p_s c) = command_addr line dev w ->
  is_Some (blocked s v !! semaphores (sem_index line dev w)) ->
  syscall_do_io s = pass_up_or_die GENERALEXCEPT s.
Proof.
  intros HO Hdev Ha [l Hl]. pose proof (on_inv _ _ _ _ HO) as HI.
  pose proof (sem_index_range line dev w (proj1 Hdev)) as Hn.
  set (k := semaphores (sem_index line dev w)) in *. assert (addr_ok k) as Hk by (apply semaphores_addr_ok; lia).
  assert (addr_ok (command_addr line dev w)) as Hcmd by (by apply command_addr_ok).
  unfold syscall_do_io. step_with (active_pcb_ok _ _ _ _ HO). rewrite Ha, (addr_ok_nonzero _ Hcmd).
  step_with (get_iodev_spec line dev w s Hdev). cbn [semaphore]. fold k. rewrite (addr_ok_nonzero _ Hk).
  step_with (head_blocked_spec s v k (inv_rep _ _ _ HI) (inv_asl _ _ _ HI) Hk). rewrite Hl.
  destruct (blocked_nonempty _ _ _ (inv_rep _ _ _ HI) (inv_asl _ _ _ HI) _ _ eq_refl Hl) as [Hne _].
  by destruct l.
Qed.

(** The arguments are looked at in the PCB, where the trap has put them. *)
Lemma refused_service i c s v st m :
  On i c s v -> handed_up s v st -> s32 (reg_a0 st) <= 0 -> Z.testbit (status st) 3 = false ->
  serves (s32 (reg_a0 st)) m -> m (entered i c st s) = pass_up_or_die GENERALEXCEPT (entered i c st s).
Proof.
  intros HO Hh Hle Hk Hm. pose proof (entered_on i c st s v HO) as HO1.
  pose proof (entered_served i c s v st HO) as Hs. set (s1 := entered i c st s) in *.
  assert (p_s (caller c st s) = st) as Est by done.
  destruct Hh as [Hid|Hid|Hid|Hid Ha|Hid Ha|Hid Ha|Hid Ha|line dev w Hid Hdev Ha Hw|Hid Hne0 Hne1].
  - lia.
  - congruence.
  - exfalso. inversion Hm as [E|E|E|E|E|E|E|E|E|E]; rewrite <- E in Hid;
      unfold CREATEPROCESS, TERMPROCESS, PASSEREN, VERHOGEN, DOIO, GETTIME, CLOCKWAIT, GETSUPPORTPTR, GETPROCESSID, YIELD in Hid; lia.
  - rewrite Hid in Hm. inversion Hm; subst m. unfold syscall_create_process. step_with (active_pcb_ok _ _ _ _ HO1). rewrite Est.
    destruct Ha as [Ha|[H2 H3]]; [by rewrite Ha, orb_true_r|].
    unfold PROCESS_PRIO_LOW, PROCESS_PRIO_HIGH. by rewrite (proj2 (Z.eqb_neq _ _) H2), (proj2 (Z.eqb_neq _ _) H3).
  - rewrite Hid in Hm. inversion Hm; subst m. apply (terminate_process_none i _ s1 v HO1).
    destruct Ha as [Ha|Ha]; [by left|right]. intros p d Hd. destruct (decide (p = i)) as [->|Hpi].
    + rewrite (on_pcb _ _ _ _ HO1) in Hd. injection Hd as <-. exact (Ha i c (on_pcb _ _ _ _ HO)).
    + rewrite (sf_pcb _ _ _ _ Hs) in Hd by done. by apply (Ha p).
  - destruct Hid as [Hid|Hid]; rewrite Hid in Hm; inversion Hm; subst m;
      unfold syscall_passeren, syscall_verhogen; step_with (active_pcb_ok _ _ _ _ HO1); rewrite Est; by rewrite Ha.
  - rewrite Hid in Hm. inversion Hm; subst m. unfold syscall_do_io. step_with (active_pcb_ok _ _ _ _ HO1). rewrite Est. by rewrite Ha.
  - rewrite Hid in Hm. inversion Hm; subst m. by eapply device_taken.
  - rewrite Hid in Hm. inversion Hm; subst m. unfold syscall_get_process_id. step_with (active_pcb_ok _ _ _ _ HO1). rewrite Est.
    by rewrite (proj2 (Z.eqb_neq _ _) Hne0), (proj2 (Z.eqb_neq _ _) Hne1).
Qed.

Lemma serves_known id : YIELD <= id < 0 -> ∃ m, serves id m.
Proof.
  unfold YIELD. intros Hid.
  assert (id = -1 ∨ id = -2 ∨ id = -3 ∨ id = -4 ∨ id = -5 ∨ id = -6 ∨ id = -7 ∨ id = -8 ∨ id = -9 ∨ id = -10)
    as Hc by lia.
  repeat destruct Hc as [->|Hc]; [..|subst id]; eexists; constructor.
Qed.

Lemma handed_up_dispatch i c s v st :
  On i c s v -> handed_up s v st ->
  ∃ l, syscall_handler (entered i c st s) = pass_up_or_die GENERALEXCEPT
    (set_klog l (set_pcb_table (<[i := caller c (marked st) s]> (pcb_table s)) (entered i c st s))).
Proof.
  intros HO Hh. pose proof (entered_on i c st s v HO) as HO1.
  assert (0 < s32 (reg_a0 st) ∨ (Z.testbit (status st) 3 = false ∧ (s32 (reg_a0 st) = 0 ∨ s32 (reg_a0 st) < YIELD)) ->
    ∃ l, syscall_handler (entered i c st s) = pass_up_or_die GENERALEXCEPT
      (set_klog l (set_pcb_table (<[i := caller c (marked st) s]> (pcb_table s)) (entered i c st s)))) as Hunknown.
  { intros Hid. destruct (unknown_dispatch i _ _ v HO1 Hid) as (l & Hrun). exists l. rewrite Hrun.
    unfold marked. replace (Z.testbit _ _ && _) with false; [by destruct s|].
    destruct Hid as [Hid|[Hk _]]; [by rewrite (proj2 (Z.leb_gt _ _) Hid), andb_false_r|by rewrite Hk]. }
  destruct (Z.leb_spec (s32 (reg_a0 st)) 0) as [Hle|Hid]; [|by apply Hunknown; left].
  destruct (Z.testbit (status st) 3) eqn:Hk.
  { exists (klog s). rewrite (user_mode_refused i _ _ v HO1 Hk Hle). unfold marked.
    rewrite Hk, (proj2 (Z.leb_le _ _) Hle). cbn [andb]. unfold entered, saved. simpl.
    rewrite list_insert_insert_eq. by destruct s. }
  destruct (decide (s32 (reg_a0 st) = 0 ∨ s32 (reg_a0 st) < YIELD)) as [Hu|Hu]; [by apply Hunknown; right|].
  destruct (serves_known (s32 (reg_a0 st))) as [m Hm]; [lia|].
  by eapply refused_runs, refused_service.
Qed.

(** ** Up to the support level, or dead *)

(** The state [st] of the trap is in the Support Structure [su] of process [i],
    and the support level runs in its place with the context for exceptions of
    this [type]; the process, with the PCB [c'], is still the running one. *)
Definition taken_up type i c c' st su s v (e : exit_t) s' : Prop :=
  e = InSupport (sup_except_context su !!! type) ∧ On i c' s' v ∧
  pcb_table s' = <[i := c']> (pcb_table s) ∧
  supports s' = <[p_support c := passed_up type st su]> (supports s) ∧
  mem s' = mem s ∧ blocked s' v = blocked s v.

Lemma pass_up_takes type i c c' st su s s1 v :
  On i c' s1 v -> p_support c' = p_support c -> p_support c ≠ 0 -> supports s !! p_support c = Some su ->
  saved_states s !! BIOSDATAPAGE = Some st ->
  pcb_table s1 = <[i := c']> (pcb_table s) -> supports s1 = supports s -> saved_states s1 = saved_states s ->
  mem s1 = mem s -> blocked s1 v = blocked s v ->
  ∃ e s', pass_up_or_die type s1 = Exit e s' ∧ taken_up type i c c' st su s v e s'.
Proof.
  intros HO1 Hsup Hnz Hsu Hst HT Es Est Hm Hb.
  rewrite (pass_up_eq type i c' s1); [|apply HO1..|by rewrite Hsup]. rewrite Hsup, Es, Est, Hsu, Hst.
  eexists _, _. split; [done|]. split; [done|]. split; [|done].
  destruct HO1. split; try done. by eapply Inv_ext.
Qed.

(** A call that is not served, by a process with a support structure. *)
Lemma handed_up_trap i c s v st su :
  On i c s v -> saved_states s !! BIOSDATAPAGE = Some st -> CAUSE_GET_EXCCODE (cpu_cause s) = 8 ->
  handed_up s v st -> p_support c ≠ 0 -> supports s !! p_support c = Some su ->
  ∃ e s', exception_handler s = Exit e s' ∧
    taken_up GENERALEXCEPT i c (caller c (marked st) s) st su s v e s'.
Proof.
  intros HO Hst Hcode Hh Hnz Hsu. pose proof (entered_on i c st s v HO) as HO1.
  destruct (handed_up_dispatch i c s v st HO Hh) as (l & Hrun). set (s1 := set_klog l _) in Hrun.
  assert (On i (caller c (marked st) s) s1 v) as HO2.
  { pose proof (On_upd i _ (caller c (marked st) s) _ v HO1 ltac:(done)) as HO2. rewrite entered_table in HO2.
    destruct HO2. split; try done. by eapply Inv_ext. }
  destruct (pass_up_takes GENERALEXCEPT i c _ st su s s1 v HO2 eq_refl Hnz Hsu Hst) as (e & s' & Hup & Ht);
    try done.
  rewrite Hup in Hrun. exists e, s'. split; [|exact Ht].
  rewrite (exception_handler_on i c s v HO), Hst. apply bind_exit. unfold serve_exception, get_cause.
  rewrite bind_gets. change (cpu_cause (saved i c st s)) with (cpu_cause s). rewrite Hcode.
  change (8 =? 0) with false. change ((8 =? 1) || (8 =? 2) || (8 =? 3)) with false. change (8 =? 8) with true.
  cbv iota. unfold exception_syscall. rewrite bind_gets.
  change (active_process (saved i c st s)) with (active_process s).
  rewrite (on_active _ _ _ _ HO), bool_decide_false by done. rewrite bind_ret_l.
  step_with (store_tod_ok (saved i c st s)). rewrite bind_modify. by apply bind_exit.
Qed.

(** ... and by one without: it dies with its descendants. *)
Lemma handed_up_dies i c s v st :
  On i c s v -> saved_states s !! BIOSDATAPAGE = Some st -> CAUSE_GET_EXCCODE (cpu_cause s) = 8 ->
  handed_up s v st -> p_support c = 0 ->
  ∃ e s', exception_handler s = Exit e s' ∧ ends i c s v st i e s'.
Proof.
  intros HO Hst Hcode Hh Hz. pose proof (entered_on i c st s v HO) as HO1.
  destruct (handed_up_dispatch i c s v st HO Hh) as (l & Hrun). set (s1 := set_klog l _) in Hrun.
  assert (On i (caller c (marked st) s) s1 v) as HO2.
  { pose proof (On_upd i _ (caller c (marked st) s) _ v HO1 ltac:(done)) as HO2. rewrite entered_table in HO2.
    destruct HO2. split; try done. by eapply Inv_ext. }
  destruct (pass_up_dies GENERALEXCEPT i _ s1 v HO2 Hz) as (s3 & v3 & ds & Hup & HI3 & HK & Hds).
  rewrite Hup in Hrun.
  apply (caller_dies i c s v st s1 s3 v3 ds i); try done.
  - split; try apply HO2; try done. intros x Hx. cbn. by rewrite list_lookup_insert_ne.
  - by apply Hds.
Qed.

(** ** Exceptions that are no calls *)

(** The kind of support level exception for an exception code: none for
    interrupts and system calls. *)
Definition fault_kind (code : Z) : option (fin 2) :=
  if (code =? 0) || (code =? 8) then None
  else if (code =? 1) || (code =? 2) || (code =? 3) then Some PGFAULTEXCEPT
  else Some GENERALEXCEPT.

Lemma fault_serve type s :
  fault_kind (CAUSE_GET_EXCCODE (cpu_cause s)) = Some type ->
  ∃ l, serve_exception s = pass_up_or_die type (set_klog l s).
Proof.
  unfold fault_kind, serve_exception, get_cause. rewrite bind_gets. generalize (CAUSE_GET_EXCCODE (cpu_cause s)) as n.
  intros n. destruct (n =? 0); [done|]. destruct (n =? 8); [done|]. cbn [orb].
  destruct ((n =? 1) || (n =? 2) || (n =? 3)); intros [= <-].
  - exists (klog s). by destruct s.
  - eexists. unfold kprintf. by rewrite bind_modify.
Qed.

(** A TLB exception or a program trap of the running process. *)
Lemma fault_trap type i c s v st :
  On i c s v -> saved_states s !! BIOSDATAPAGE = Some st ->
  fault_kind (CAUSE_GET_EXCCODE (cpu_cause s)) = Some type ->
  (∀ su, p_support c ≠ 0 -> supports s !! p_support c = Some su ->
    ∃ e s', exception_handler s = Exit e s' ∧ taken_up type i c (caller c st s) st su s v e s') ∧
  (p_support c = 0 -> ∃ e s', exception_handler s = Exit e s' ∧ ends i c s v st i e s').
Proof.
  intros HO Hst Hk. destruct (fault_serve type (saved i c st s) Hk) as (l & Hserve).
  set (s1 := set_klog l _) in Hserve.
  assert (On i (caller c st s) s1 v) as HO1.
  { destruct (saved_on i c st s v HO). split; try done. by eapply Inv_ext. }
  assert (exception_handler s =
    (ctrl <- serve_exception ;; schedule (sc_pcb ctrl) (sc_enqueue ctrl)) (saved i c st s)) as Hexc.
  { by rewrite (exception_handler_on i c s v HO), Hst. }
  split; [intros su Hnz Hsu|intros Hz].
  - destruct (pass_up_takes type i c _ st su s s1 v HO1 eq_refl Hnz Hsu Hst) as (e & s' & Hup & Ht); try done.
    exists e, s'. split; [|exact Ht]. rewrite Hexc. apply bind_exit. by rewrite Hserve.
  - destruct (pass_up_dies type i _ s1 v HO1 Hz) as (s3 & v3 & ds & Hup & HI3 & HK & Hds).
    assert (served_for i s s1 v) as Hs.
    { split; try apply HO1; try done. intros x Hx. cbn. by rewrite list_lookup_insert_ne. }
    destruct (killed_rest ds i s s1 s3 v v3 Hs HK) as (Ha3 & Hy3 & Hm3 & Hb3).
    destruct (schedule_gives_up s3 v3 HI3 Hy3) as (e & s' & Hrun & Hg).
    exists e, s'. split; [rewrite Hexc; rewrite <- Hserve in Hup; step_with Hup; exact Hrun|].
    destruct (rep_pcb _ _ (inv_rep _ _ _ HI3) i (on_valid _ _ _ _ HO)) as [c3 Hc3].
    exists ds, (pcb_table s3), v3. split; [exact Hds|]. split.
    + rewrite <- (list_insert_id (pcb_table s3) i c3 Hc3). by apply (culled_killed ds i s s1).
    + rewrite decide_True by (by apply Hds). by rewrite Hm3, Hb3 in Hg.
Qed.
End lifecycle.
