(* ===== verification/Init.v ===== *)
(** * Boot: [os/src/init.c] and [phase2/src/main.c]

    The initialisation of the nucleus from zeroed memory establishes the
    invariant, and the boot runs the first process. *)

From Stdlib Require Import ZArith Lia String.
From stdpp Require Import base tactics option numbers gmap list.
From S2P Require Import Prelude ListHead Machine Kernel View Pcb Asl Scheduler Invariant Dispatch Semaphores.

Open Scope string_scope.
Open Scope list_scope.
Open Scope Z_scope.

Section operations.
Context `{Umps}.

(** [RAMTOP] *)
Definition RAMTOP : KM Z :=
  b <- read_int RAMBASEADDR ;; z <- read_int RAMBASESIZE ;; ret (u32 (b + z)).

Definition init_process (init_pc : Z) : KM unit :=
  p <- spawn_process 0 ;;
  i <- deref p ;;
  top <- RAMTOP ;;
  upd_pcb i (fun c => set_p_s (set_reg_sp top (p_s c)) c) ;;
  upd_pcb i (fun c => set_p_s (set_pc_epc init_pc (set_reg_t9 init_pc (p_s c))) c) ;;
  upd_pcb i (fun c => set_p_s (set_status (status_interrupts_on_process (status (p_s c)))
                                 (p_s c)) c) ;;
  upd_pcb i (fun c => set_p_s (set_status (status_kernel_mode_on_nucleus (status (p_s c)))
                                 (p_s c)) c).

Definition init (tlb_refill_handler exception_handler init_pc : Z) : KM unit :=
  init_puv tlb_refill_handler exception_handler ;;
  init_scheduler ;;
  init_semaphores ;;
  init_pcbs ;;
  init_asl ;;
  reset_timer ;;
  reset_local_timer ;;
  init_process init_pc.

Definition main (tlb_refill_handler exception_handler test : Z) : KM Z :=
  init tlb_refill_handler exception_handler test ;;
  schedule None false ;;
  ret 1.
End operations.

(** Zeroed memory, as the loader leaves it. *)
Definition boot_state (s : kernel) : Prop :=
  links s = boot_links ∧ length (pcb_table s) = MAX_PROC ∧ length (semd_table s) = MAX_PROC ∧
  Forall (fun c => p_sem_add c = 0) (pcb_table s).

Definition v_boot : view :=
  View (reverse (seq 0 MAX_PROC)) [] [] ∅ (reverse (seq 0 MAX_PROC)) [] ∅.

Section init_specs.
Context `{UmpsLaws}.
Implicit Types (s : kernel).

(** The semaphores [i], ..., [i + n - 1] set to 0. *)
Fixpoint clear_semaphores (n i : nat) (m : gmap Z Z) : gmap Z Z :=
  match n with
  | O => m
  | S n => clear_semaphores n (S i) (<[semaphores (Z.of_nat i) := 0]> m)
  end.

Lemma clear_semaphores_keep n i m k : m !! k = Some 0 -> clear_semaphores n i m !! k = Some 0.
Proof.
  revert i m. induction n as [|n IH]; intros i m Hk; simpl; [done|]. apply IH.
  destruct (decide (k = semaphores (Z.of_nat i))) as [->|];
    [apply lookup_insert_eq | by rewrite lookup_insert_ne].
Qed.

Lemma clear_semaphores_lookup n i m j :
  (i ≤ j < i + n)%nat -> clear_semaphores n i m !! semaphores (Z.of_nat j) = Some 0.
Proof.
  revert i m. induction n as [|n IH]; intros i m Hj; [lia|]. simpl.
  destruct (decide (j = i)) as [->|]; [apply clear_semaphores_keep, lookup_insert_eq|].
  apply IH. lia.
Qed.

Lemma init_semaphores_loop n i s :
  Z.of_nat (i + n) = SEMAPHORES_NUM ->
  for_ n i (fun i => write_word (semaphores (Z.of_nat i)) 0) s =
  Ok tt (set_mem (clear_semaphores n i (mem s)) s).
Proof.
  revert i s. induction n as [|n IH]; intros i s Hn; [by destruct s|]. simpl for_.
  assert (0 <= Z.of_nat i < SEMAPHORES_NUM) as Hi by lia.
  step_with (write_word_ok _ 0 s (semaphores_addr_ok _ Hi)).
  rewrite IH by lia. done.
Qed.

Lemma clear_semaphores_other n i m k :
  Z.of_nat (i + n) = SEMAPHORES_NUM -> k < 0x20000000 -> clear_semaphores n i m !! k = m !! k.
Proof.
  revert i m. induction n as [|n IH]; intros i m Hn Hk; [done|]. simpl.
  rewrite IH by lia. apply lookup_insert_ne. rewrite semaphores_value by lia.
  pose proof semaphores_in_ram. lia.
Qed.

(** Every device semaphore, and the clock's, starts at 0. *)
Lemma init_semaphores_spec s :
  ∃ m, init_semaphores s = Ok tt (set_mem m s) ∧
    (∀ j, 0 <= j < SEMAPHORES_NUM -> m !! semaphores j = Some 0) ∧
    (∀ k, k < 0x20000000 -> m !! k = mem s !! k).
Proof.
  eexists. split_and!; [by apply init_semaphores_loop| |].
  - intros j Hj. rewrite <- (Z2Nat.id j) by lia. apply clear_semaphores_lookup. lia.
  - intros k Hk. by apply clear_semaphores_other.
Qed.

Lemma init_scheduler_spec s :
  Lists s (fun _ => None) ->
  ∃ h, let s' := set_recycle_count 0 (set_start_tod (s32 (tod (tod_reads s)))
         (set_tod_reads (S (tod_reads s)) (set_yield_process None (set_active_process None
           (set_softblock_count 0 (set_process_count 0 (set_links h s))))))) in
    init_scheduler s = Ok tt s' ∧
    Lists s' (upd (upd (fun _ => None) L_ready_hi []) L_ready_lo []).
Proof.
  intros HL. set (s1 := set_softblock_count 0 (set_process_count 0 s)).
  assert (Lists s1 (fun _ => None)) as HL1 by (by eapply Lists_same).
  destruct (lists_init s1 _ L_ready_hi HL1) as (h2 & Hrun2 & HL2); [done..|].
  destruct (lists_init _ _ L_ready_lo HL2) as (h3 & Hrun3 & HL3); [done| |by rewrite upd_ne|].
  { intros hd l. unfold upd. case_decide; [|done]. subst. intros [= <-].
    by intros [?|?%elem_of_nil]%elem_of_cons. }
  exists h3. cbv zeta. split.
  - unfold init_scheduler. rewrite !bind_modify. simpl mk_empty_proc_q. step_with Hrun2.
    by step_with Hrun3.
  - by eapply Lists_same.
Qed.

Lemma v_boot_flat x :
  upd (upd (upd (upd (upd (fun _ => None) L_ready_hi []) L_ready_lo [])
    L_pcb_free (p_lists (reverse (seq 0 MAX_PROC)))) L_semd_h [])
    L_semd_free (s_links (reverse (seq 0 MAX_PROC))) x = flat v_boot x.
Proof. unfold upd. repeat case_decide; subst; try done. by destruct x. Qed.

Lemma boot_detached (Q : lh → option (list lh)) x hd : detached Q x -> x ≠ hd -> detached (upd Q hd []) x.
Proof. intros HQ Hne. apply detached_upd; [done|done|]. by intros ?%elem_of_nil. Qed.

(** Nothing is alive and nothing waits. *)
Lemma Inv_boot s :
  Rep s v_boot -> (∀ i c, pcb_table s !! i = Some c → p_pid c = NULL_PID ∧ p_sem_add c = 0) ->
  process_count s = 0 -> softblock_count s = 0 -> Inv [] s v_boot.
Proof.
  intros HRep Hp Hpc Hsb.
  assert (∀ i, i ∈ v_free v_boot ↔ (i < MAX_PROC)%nat) as Hfree.
  { intros i. cbn [v_free v_boot]. rewrite elem_of_reverse, elem_of_seq. lia. }
  assert (∀ i c, pcb_table s !! i = Some c → (i < MAX_PROC)%nat) as Hlt.
  { intros i c Hc. rewrite <- (lists_pcbs _ _ HRep). by eapply lookup_lt_Some. }
  split; [done| | | | |].
  - split; simpl; try done.
    + by intros j ?%elem_of_nil.
    + by intros j1 j2 k ?%elem_of_nil.
    + intros j Hj. left. cbn [v_sfree v_boot].
      rewrite elem_of_reverse, elem_of_seq. lia.
    + intros i c Hc Hne. by destruct (Hp _ _ Hc).
  - split.
    + intros i c Hc. destruct (Hp _ _ Hc) as [-> _]. rewrite Hfree. naive_solver.
    + intros i c Hc Hne. by destruct (Hp _ _ Hc).
    + by intros [] i c _ ?%elem_of_nil.
  - split; try done.
    + intros i Hi Hf. by destruct Hf; apply Hfree.
    + intros i c j Hc Hf. destruct Hf. apply Hfree. by eapply Hlt.
    + by exists (fun _ => O).
  - split; [by rewrite Hpc|]. rewrite Hsb, blocked_count_zero; [done|].
    apply Forall_lookup. intros i c Hc. by destruct (Hp _ _ Hc).
  - intros i Hi Hq. destruct Hq. by apply in_free, Hfree.
Qed.

(** The tables after the first part of [init]. *)
Lemma init_tables s tlb exc :
  boot_state s ->
  ∃ s', (init_puv tlb exc ;; init_scheduler ;; init_semaphores ;; init_pcbs ;; init_asl) s = Ok tt s' ∧
    Inv [] s' v_boot ∧ blocked s' v_boot = ∅ ∧ recycle_count s' = 0 ∧
    active_process s' = None ∧ yield_process s' = None ∧
    pass_up_vector s' = [tlb; KERNELSTACK; exc; KERNELSTACK] ∧
    (∀ j, 0 <= j < SEMAPHORES_NUM -> sem_value s' (semaphores j) = 0) ∧
    (∀ k, k < 0x20000000 -> sem_value s' k = sem_value s k).
Proof.
  intros (El & Ep & Es & Hz).
  set (s0 := set_pass_up_vector [tlb; KERNELSTACK; exc; KERNELSTACK] s).
  assert (Lists s0 (fun _ => None)) as HL0 by (by apply boot_lists).
  destruct (init_scheduler_spec s0 HL0) as (h1 & Hrun1 & HL1).
  match type of HL1 with Lists ?st _ => set (s1 := st) in * end.
  destruct (init_semaphores_spec s1) as (m & Hrun2 & Hm & Hm'). set (s2 := set_mem m s1) in *.
  assert (Lists s2 (upd (upd (fun _ => None) L_ready_hi []) L_ready_lo [])) as HL2
    by (by eapply Lists_same).
  assert (∀ x, x ≠ L_ready_hi → x ≠ L_ready_lo →
    detached (upd (upd (fun _ => None) L_ready_hi []) L_ready_lo []) x) as Hdet.
  { intros x H1 H2. by repeat (apply boot_detached; [|done]). }
  destruct (init_pcbs_spec s2 _ HL2) as (h3 & T3 & Hrun3 & HL3 & HT3);
    [done | by intros hd l; apply Hdet | by intros; apply Hdet |].
  match type of HL3 with Lists ?st _ => set (s3 := st) in * end.
  destruct (init_asl_spec s3 _ HL3) as (h4 & Hrun4 & HL4); [done|done| | |].
  { intros hd l. unfold upd at 1. case_decide; [|intros Hq; split; by eapply Hdet].
    intros Hl%(inj Some). subst. split; by intros [?|(y & ? & _)%list_elem_of_fmap]%elem_of_cons. }
  { intros i hd l. unfold upd at 1. case_decide; [|by apply Hdet].
    intros Hl%(inj Some). subst. by intros [?|(y & ? & _)%list_elem_of_fmap]%elem_of_cons. }
  set (s4 := set_links h4 s3) in *.
  assert (Rep s4 v_boot) as HRep4 by (eapply Lists_ext; [apply v_boot_flat|exact HL4]).
  assert (Inv [] s4 v_boot) as HI4.
  { apply Inv_boot; [done| |done|done]. intros i c (d & Hd & ->)%HT3. split; [done|].
    rewrite Forall_lookup in Hz. by apply (Hz i d). }
  exists s4. split_and!; [| |by unfold blocked|..]; try done.
  - unfold init_puv. rewrite bind_modify. step_with Hrun1. step_with Hrun2. step_with Hrun3.
    exact Hrun4.
  - intros j Hj. unfold sem_value. change (mem s4) with m. by rewrite (Hm _ Hj).
  - intros k Hk. unfold sem_value. change (mem s4) with m. by rewrite (Hm' _ Hk).
Qed.

Lemma RAMTOP_ok s : RAMTOP s = Ok (u32 (sem_value s RAMBASEADDR + sem_value s RAMBASESIZE)) s.
Proof.
  unfold RAMTOP.
  assert (addr_ok RAMBASEADDR) as H1 by (by split).
  assert (addr_ok RAMBASESIZE) as H2 by (by split).
  step_with (read_int_ok RAMBASEADDR s H1). by step_with (read_int_ok RAMBASESIZE s H2).
Qed.

(** The first process: its PCB, its stack at the top of RAM, kernel mode,
    interrupts enabled once it runs. *)
Definition ram_top (s : kernel) : Z := u32 (sem_value s RAMBASEADDR + sem_value s RAMBASESIZE).
Definition first_state (top pc : Z) (st : state_t) : state_t :=
  let st := set_pc_epc pc (set_reg_t9 pc (set_reg_sp top (null_state st))) in
  set_status (status_kernel_mode_on_nucleus (status_interrupts_on_process UNINSTALLED)) st.

Lemma upd_pcb_role a s v i c f :
  Inv a s v -> pcb_table s !! i = Some c -> same_role c (f c) ->
  upd_pcb i f s = Ok tt (set_pcb_table (<[i := f c]> (pcb_table s)) s) ∧
  Inv a (set_pcb_table (<[i := f c]> (pcb_table s)) s) v ∧
  blocked (set_pcb_table (<[i := f c]> (pcb_table s)) s) v = blocked s v.
Proof.
  intros HI Hc Hf. split; [by apply upd_pcb_ok|]. eapply Inv_ext; try done.
  by apply (Forall2_upd same_role _ _ _ _ Hc).
Qed.

Lemma init_process_spec s v i l pc :
  Inv [] s v -> v_free v = i :: l ->
  ∃ c d h n m, pcb_table s !! i = Some c ∧
    let s' := set_links h (set_pcb_table (<[i := d]> (pcb_table s))
                (set_recycle_count n (set_process_count m s))) in
    init_process pc s = Ok tt s' ∧ Inv [] s' (v_spawn false i l v) ∧
    blocked s' (v_spawn false i l v) = blocked s v ∧
    p_s d = first_state (ram_top s) pc (p_s c) ∧
    same_role (fresh_pcb i (recycle_count s) 0 c) d.
Proof.
  intros HI Hf.
  destruct (spawn_process_spec [] s v 0 i l HI ltac:(by left) Hf) as (c & h & Hc & Hrun & HI1 & Hb1).
  match type of HI1 with Inv _ ?st _ => set (s1 := st) in * end.
  set (c1 := fresh_pcb i (recycle_count s) 0 c) in *.
  assert (pcb_table s1 !! i = Some c1) as Hc1 by (by eapply table_upd_eq).
  pose (f2 := fun c => set_p_s (set_reg_sp (ram_top s) (p_s c)) c).
  pose (f3 := fun c => set_p_s (set_pc_epc pc (set_reg_t9 pc (p_s c))) c).
  pose (f4 := fun c => set_p_s (set_status (status_interrupts_on_process (status (p_s c))) (p_s c)) c).
  pose (f5 := fun c => set_p_s (set_status (status_kernel_mode_on_nucleus (status (p_s c))) (p_s c)) c).
  assert (∀ f x st, pcb_table st = <[i := x]> (pcb_table s) →
    upd_pcb i f st = Ok tt (set_pcb_table (<[i := f x]> (pcb_table s)) st)) as Hupd.
  { intros f x st E. rewrite (upd_pcb_ok st i x) by (rewrite E; by eapply table_upd_eq).
    by rewrite E, list_insert_insert_eq. }
  set (d := f5 (f4 (f3 (f2 c1)))).
  exists c, d, h, (u32 (recycle_count s + 1)), (u32 (process_count s + 1)).
  assert (Inv [] (set_pcb_table (<[i := d]> (pcb_table s)) s1) (v_spawn false i l v) ∧
    blocked (set_pcb_table (<[i := d]> (pcb_table s)) s1) (v_spawn false i l v) =
    blocked s1 (v_spawn false i l v)) as [HI2 Hb2].
  { eapply Inv_ext; try done. unfold s1. simpl.
    rewrite <- (list_insert_insert_eq (pcb_table s) i d c1).
    by apply (Forall2_upd same_role _ _ c1); [eapply table_upd_eq|]. }
  cbv zeta. split_and!; [done| |exact HI2|by rewrite <- Hb1|done|done].
  unfold init_process. step_with Hrun. unfold deref. rewrite (bind_ok_or _ _ _ _ _ eq_refl).
  step_with (RAMTOP_ok s1). change (u32 (sem_value s1 RAMBASEADDR + sem_value s1 RAMBASESIZE)) with (ram_top s).
  rewrite (bind_ok _ _ _ _ _ (Hupd f2 c1 s1 eq_refl)).
  set (st := fun x => set_pcb_table (<[i := x]> (pcb_table s)) s1).
  rewrite (bind_ok _ _ _ _ _ (Hupd f3 (f2 c1) (st (f2 c1)) eq_refl)).
  rewrite (bind_ok _ _ _ _ _ (Hupd f4 (f3 (f2 c1)) (st (f3 (f2 c1))) eq_refl)).
  exact (Hupd f5 (f4 (f3 (f2 c1))) (st (f4 (f3 (f2 c1)))) eq_refl).
Qed.

Lemma v_boot_free : v_free v_boot = 19%nat :: reverse (seq 0 19).
Proof. done. Qed.

(** The tables once the first process is ready. *)
Definition v_ready_boot : view := v_spawn false 19 (reverse (seq 0 19)) v_boot.

Lemma init_spec s tlb exc pc :
  boot_state s ->
  ∃ s' d, init tlb exc pc s = Ok tt s' ∧ Inv [] s' v_ready_boot ∧ blocked s' v_ready_boot = ∅ ∧
    pcb_table s' !! 19%nat = Some d ∧ yield_process s' = None ∧
    is_true (p_prio d) = false ∧ p_parent d = None ∧ p_pid d = make_pid 19 0 ∧
    (∃ st, p_s d = first_state (ram_top s) pc st) ∧
    pass_up_vector s' = [tlb; KERNELSTACK; exc; KERNELSTACK] ∧
    (∀ j, 0 <= j < SEMAPHORES_NUM -> sem_value s' (semaphores j) = 0).
Proof.
  intros Hboot. destruct (init_tables s tlb exc Hboot)
    as (s1 & Hrun1 & HI1 & Hb1 & Hrc & Hact & Hy & Hpuv & Hsem & Hmem).
  destruct (reset_local_timer_ok (set_interval_timer (u32 IT_INTERVAL) s1)) as [lt Hrun2].
  set (s2 := set_local_timer lt (set_interval_timer (u32 IT_INTERVAL) s1)) in *.
  assert (Inv [] s2 v_boot ∧ blocked s2 v_boot = blocked s1 v_boot) as [HI2 Hb2] by (by eapply Inv_ext).
  destruct (init_process_spec s2 v_boot 19 (reverse (seq 0 19)) pc HI2 v_boot_free)
    as (c & d & h & n & m & Hc & Hrun3 & HI3 & Hb3 & Hps & Hpar & _ & Hprio & Hpid).
  eexists _, d. split_and!; [|exact HI3|etrans; [exact Hb3|by rewrite Hb2]|by eapply table_upd_eq|done| | | | |done|done].
  - unfold init. unfold init_puv in Hrun1 |- *. rewrite bind_modify in Hrun1 |- *.
    match type of Hrun1 with _ ?st = _ => set (s0 := st) in * end.
    transitivity (bind (init_scheduler ;; init_semaphores ;; init_pcbs ;; init_asl)
                    (fun _ => reset_timer ;; reset_local_timer ;; init_process pc) s0).
    + rewrite bind_assoc. apply bind_ext. intros [] ?. rewrite bind_assoc. apply bind_ext.
      intros [] ?. by rewrite bind_assoc.
    + step_with Hrun1. unfold reset_timer, load_interval_timer. rewrite bind_modify.
      by step_with Hrun2.
  - by rewrite Hprio.
  - by rewrite Hpar.
  - rewrite Hpid. simpl. by rewrite Hrc.
  - exists (p_s c). rewrite Hps. f_equal. unfold ram_top. f_equal.
    change (sem_value s2 RAMBASEADDR) with (sem_value s1 RAMBASEADDR).
    change (sem_value s2 RAMBASESIZE) with (sem_value s1 RAMBASESIZE).
    by rewrite !Hmem.
Qed.

(** The boot runs the test process and nothing else is alive. *)
Lemma main_runs s tlb exc pc :
  boot_state s ->
  ∃ s' v' st, main tlb exc pc s = Exit (Running st) s' ∧
    Inv [19%nat] s' v' ∧ blocked s' v' = ∅ ∧ active_process s' = Some 19%nat ∧
    ¬ in_queue v' 19 ∧ process_count s' = 1 ∧ softblock_count s' = 0 ∧
    pc_epc st = pc ∧ reg_t9 st = pc ∧ reg_sp st = ram_top s ∧
    status st = status_interrupts_on_process
      (status_kernel_mode_on_nucleus (status_interrupts_on_process UNINSTALLED)) ∧
    (∀ j, 0 <= j < SEMAPHORES_NUM -> sem_value s' (semaphores j) = 0).
Proof.
  intros Hboot. destruct (init_spec s tlb exc pc Hboot)
    as (s1 & d & Hrun1 & HI1 & Hb1 & Hd & Hy & Hprio & Hpar & Hpid & (st & Hst) & Hpuv & Hsem).
  destruct (schedule_ready_spec [] s1 v_ready_boot false 19 [] false HI1 Hy eq_refl)
    as (c & s2 & Hc & Hrun2 & Hdis & HI2 & Hb2).
  rewrite Hd in Hc. injection Hc as <-.
  destruct (inv_counts _ _ _ HI2) as [C1 C2].
  assert (blocked_count (pcb_table s2) = 0%nat) as Hbc.
  { apply blocked_count_zero, Forall_lookup. intros i c Hc.
    destruct (decide (p_sem_add c = 0)) as [|Hne]; [done|].
    destruct (blocked_where _ _ _ (inv_rep _ _ _ HI2) (inv_asl _ _ _ HI2) _ _ Hc Hne) as (l & Hl & _).
    rewrite Hb2, Hb1 in Hl. by rewrite lookup_empty in Hl. }
  assert (running_state d = set_status (status_interrupts_on_process (status (p_s d))) (p_s d)) as Hrs
    by (unfold running_state; by rewrite Hprio).
  exists s2, (set_v_ready false [] v_ready_boot), (running_state d).
  split_and!; [|done|by rewrite Hb2| | |by rewrite C1|by rewrite C2, Hbc| | | | |].
  - unfold main. step_with Hrun1. by step_with Hrun2.
  - by destruct Hdis as (h & lt & ->).
  - rewrite in_queue_ready_iff. intros [Hq|[([|] & Hq)|(j & l & Hq & _)]]; [|by apply elem_of_nil in Hq..|done].
    cbn in Hq. repeat (apply elem_of_cons in Hq as [?|Hq]; [done|]). by apply elem_of_nil in Hq.
  - by rewrite Hrs, Hst.
  - by rewrite Hrs, Hst.
  - by rewrite Hrs, Hst.
  - by rewrite Hrs, Hst.
  - intros j Hj. rewrite <- (Hsem j Hj). by destruct Hdis as (h & lt & ->).
Qed.
End init_specs.

(** ** A machine to try things on *)

Definition state0 : state_t := State 0 0 0 0 0 0 0 0 0 0 0 0 0 (replicate 22 0).
Definition pcb0 : pcb_t := Pcb None state0 0 0 0 0 0.
Definition boot0 : kernel :=
  {| links := boot_links; pcb_table := replicate MAX_PROC pcb0; semd_table := replicate MAX_PROC (Semd 0);
     process_count := 0; softblock_count := 0; active_process := None; yield_process := None;
     start_tod := 0; recycle_count := 0;
     mem := {[ RAMBASEADDR := 0x20000000; RAMBASESIZE := 0x100000; TIMESCALEADDR := 1 ]};
     saved_states := ∅; supports := ∅; cpu_status := 0; cpu_cause := 0; interval_timer := 0;
     local_timer := 0; tod_reads := 0; pass_up_vector := []; klog := [] |}.

Lemma boot0_ok : boot_state boot0.
Proof. split_and!; try done. by apply Forall_replicate. Qed.

(** The states of [umps3] just before its first dispatch, ... *)
Definition booted : kernel :=
  match @init umps3 0x100 0x200 0x300 boot0 with Ok _ s => s | _ => boot0 end.
(** ... with the test process running, ... *)
Definition booted_running : kernel :=
  match @schedule umps3 None false booted with Exit _ s => s | _ => boot0 end.
(** ... and with a second, low priority process ready. *)
Definition booted_two : kernel :=
  match @spawn_process umps3 0 booted_running with Ok _ s => s | _ => boot0 end.

#[global] Opaque booted booted_running booted_two.

Definition v_running : view := set_v_ready false [] v_ready_boot.
Definition v_two : view := v_spawn false 18 (reverse (seq 0 18)) v_running.

Lemma booted_inv :
  Inv [] booted v_ready_boot ∧ blocked booted v_ready_boot = ∅ ∧ yield_process booted = None ∧
  ∃ d, pcb_table booted !! 19%nat = Some d ∧ p_parent d = None ∧ p_pid d = 20.
Proof.
  destruct (@init_spec umps3 umps3_laws boot0 0x100 0x200 0x300 boot0_ok)
    as (s & d & Hrun & HI & Hb & Hd & Hy & _ & Hpar & Hpid & _).
  Transparent booted. unfold booted. rewrite Hrun. Opaque booted. split_and!; try assumption.
  exists d. split_and!; assumption.
Qed.

(** The first dispatch. *)
Definition runs_first (s : kernel) : Prop :=
  Inv [19%nat] s v_running ∧ blocked s v_running = ∅ ∧
  active_process s = Some 19%nat ∧ yield_process s = None ∧
  ∃ d, pcb_table s !! 19%nat = Some d ∧ p_parent d = None ∧ p_pid d = 20 ∧ p_sem_add d = 0 ∧
    is_true (p_prio d) = false.

Lemma first_dispatch `{Umps} s d :
  Inv [] s v_ready_boot -> blocked s v_ready_boot = ∅ -> yield_process s = None ->
  pcb_table s !! 19%nat = Some d -> p_parent d = None -> p_pid d = 20 ->
  ∃ st s', schedule None false s = Exit (Running st) s' ∧ runs_first s' ∧ mem s' = mem s.
Proof.
  intros HI Hb Hy Hd Hpar Hpid.
  destruct (schedule_ready_spec [] s v_ready_boot false 19 [] false HI Hy eq_refl)
    as (c & s' & Hc & Hrun & Hdis & HI' & Hb').
  exists (running_state c), s'. split; [done|]. rewrite Hd in Hc. injection Hc as <-.
  split; [|by destruct Hdis as (h & lt & ->)].
  split; [exact HI'|]. split; [by etrans; [exact Hb'|]|].
  destruct Hdis as (h & lt & ->). split; [done|]. split; [done|].
  exists (set_p_s (running_state d) d). split; [by eapply table_upd_eq|]. split; [done|]. split; [done|].
  split; [|by apply (pool_ready _ _ (inv_pool _ _ _ HI) false 19 d Hd); left].
  destruct (decide (p_sem_add d = 0)) as [|Hne]; [done|].
  destruct (blocked_where _ _ _ (inv_rep _ _ _ HI) (inv_asl _ _ _ HI) _ _ Hd Hne) as (l & Hl & _).
  rewrite Hb, lookup_empty in Hl. done.
Qed.

Lemma booted_running_inv : runs_first booted_running.
Proof.
  destruct booted_inv as (HI & Hb & Hy & d & Hd & Hpar & Hpid).
  destruct (@first_dispatch umps3 booted d HI Hb Hy Hd Hpar Hpid) as (st & s & Hrun & Hs & _).
  Transparent booted_running. unfold booted_running. rewrite Hrun. exact Hs.
Qed.

(** Memory is as the boot left it. *)
Lemma booted_running_mem : mem booted_running = mem booted.
Proof.
  destruct booted_inv as (HI & Hb & Hy & d & Hd & Hpar & Hpid).
  destruct (@first_dispatch umps3 booted d HI Hb Hy Hd Hpar Hpid) as (st & s & Hrun & _ & Hm).
  unfold booted_running. rewrite Hrun. exact Hm.
Qed.

#[global] Opaque booted_running.

(** A second process. *)
Definition runs_first_of_two (s : kernel) : Prop :=
  Inv [19%nat] s v_two ∧ blocked s v_two = ∅ ∧
  active_process s = Some 19%nat ∧ yield_process s = None ∧
  ∃ d, pcb_table s !! 19%nat = Some d ∧ p_parent d = None ∧ p_sem_add d = 0 ∧
    is_true (p_prio d) = false.

Lemma second_spawn `{Umps} s :
  runs_first s -> ∃ i s', spawn_process 0 s = Ok (Some i) s' ∧ runs_first_of_two s' ∧ mem s' = mem s.
Proof.
  intros (HI & Hb & Hact & Hy & d & Hd & Hpar & _ & Hz & Hlow).
  destruct (spawn_process_spec [19%nat] s v_running 0 18 (reverse (seq 0 18)) HI ltac:(by left) eq_refl)
    as (c & h & Hc & Hrun & HI' & Hb').
  eexists 18%nat, _. split; [exact Hrun|]. split; [|done].
  split; [exact HI'|]. split; [by etrans; [exact Hb'|]|].
  split; [done|]. split; [done|]. exists d. split; [|by split].
  simpl. by rewrite list_lookup_insert_ne.
Qed.

Lemma booted_two_inv : runs_first_of_two booted_two.
Proof.
  destruct (@second_spawn umps3 booted_running booted_running_inv) as (i & s & Hrun & Hs & _).
  Transparent booted_two. unfold booted_two. rewrite Hrun. exact Hs.
Qed.

Lemma booted_two_mem : mem booted_two = mem booted.
Proof.
  destruct (@second_spawn umps3 booted_running booted_running_inv) as (i & s & Hrun & _ & Hm).
  unfold booted_two. rewrite Hrun. etrans; [exact Hm|exact booted_running_mem].
Qed.

#[global] Opaque booted_two.

Lemma booted_sems j :
  0 <= j < SEMAPHORES_NUM -> sem_value booted (@semaphores umps3 j) = 0.
Proof.
  destruct (@init_spec umps3 umps3_laws boot0 0x100 0x200 0x300 boot0_ok)
    as (s & d & Hrun & _ & _ & _ & _ & _ & _ & _ & _ & _ & Hsem).
  Transparent booted. unfold booted. rewrite Hrun. Opaque booted. apply Hsem.
Qed.

Lemma booted_two_sems j :
  0 <= j < SEMAPHORES_NUM -> sem_value booted_two (@semaphores umps3 j) = 0.
Proof. unfold sem_value. rewrite booted_two_mem. apply booted_sems. Qed.

Lemma v_running_detached : ¬ in_queue v_running 19.
Proof. apply (bool_decide_unpack _). vm_compute. exact I. Qed.

Lemma v_two_detached : ¬ in_queue v_two 19.
Proof. apply (bool_decide_unpack _). vm_compute. exact I. Qed.

(** Process 19 running with registers and PCB fields of our choice, and the
    machine around it in a state of our choice. *)
Definition staged (f : pcb_t -> pcb_t) (ss : gmap Z state_t) (su : gmap Z support_t) (m : gmap Z Z)
    (cause : Z) (s : kernel) : kernel :=
  set_cpu_cause cause (set_saved_states ss (set_supports su (set_mem m
    (match pcb_table s !! 19%nat with
     | Some c => set_pcb_table (<[19%nat := f c]> (pcb_table s)) s
     | None => s
     end)))).

Definition trial f ss su m cause : kernel := staged f ss su m cause booted_two.
