(* ===== verification/Run.v ===== *)
(** * Runs of the machine

    A run is the boot followed by any number of exceptions.  Between two
    exceptions the processes (or the support level, or nobody) run outside the
    nucleus and may change the whole machine but the nucleus' own data: its
    tables, its lists, and the semaphore of the clock.  The invariant holds in
    every state that the nucleus leaves, and no exception makes it fault or run
    for ever. *)

From Stdlib Require Import ZArith Lia String.
From stdpp Require Import base tactics option numbers gmap list relations.
From S2P Require Import Prelude ListHead Machine Kernel View Pcb Asl Scheduler Invariant Process Dispatch Semaphores Contract Syscall Exception Init.

Open Scope string_scope.
Open Scope list_scope.
Open Scope Z_scope.

(** An exit after which an exception may come. *)
Definition resumes (e : exit_t) : bool :=
  match e with
  | Running _ | Waiting | InSupport _ => true
  | Halted | Panicked | BadAddress _ => false
  end.

Section runs.
Context `{UmpsLaws}.
Implicit Types (s : kernel) (v : view) (e : exit_t) (x y : exit_t * kernel).

(** What may happen outside the nucleus. *)
Record outside (s s' : kernel) : Prop := {
  out_tables : same_tables s s';
  out_start : start_tod s' = start_tod s;
  out_recycle : recycle_count s' = recycle_count s;
  out_clock : sem_value s' get_timer_semaphore = sem_value s get_timer_semaphore;
}.

(** The machine keeps its side: see [device_due]. *)
Definition well_interrupted (s : kernel) : Prop :=
  CAUSE_GET_EXCCODE (cpu_cause s) = 0 -> interrupts_ok s (cpu_cause s).

(** What [well_interrupted] excludes: an interrupt of an installed device, and
    of nothing before it, that comes before an earlier one has been claimed. *)
Record unclaimed (s : kernel) : Prop := {
  un_code : CAUSE_GET_EXCCODE (cpu_cause s) = 0;
  un_before : Z.land (cpu_cause s) (CAUSE_IP IL_IPI) = 0 ∧ Z.land (cpu_cause s) (CAUSE_IP IL_CPUTIMER) = 0 ∧
    Z.land (cpu_cause s) (CAUSE_IP IL_TIMER) = 0;
  un_device : Z.land (cpu_cause s) (Z.lor (Z.lor (Z.lor (CAUSE_IP IL_DISK) (CAUSE_IP IL_FLASH))
    (CAUSE_IP IL_ETHERNET)) (CAUSE_IP IL_PRINTER)) ≠ 0;
  un_saved : is_Some (saved_states s !! BIOSDATAPAGE);
  un_due : let il := pending_line (Z.to_nat (IL_PRINTER + 1 - IL_DISK)) IL_DISK (cpu_cause s) in
    let dev := due_device s il in
    0 <= default 0 (mem s !! CDEV_BITMAP_ADDR il) < 256 ∧
    sem_value s (semaphores (sem_index il dev false)) = 1 ∧
    Z.land (sem_value s (DEV_REG_ADDR il dev + RECV_STATUS)) TERMSTATMASK ≠ DEV_STATUS_NOTINSTALLED
}.

Lemma unclaimed_trap i c s v : On i c s v -> unclaimed s -> exception_handler s = Fault "NULL pcb_t".
Proof.
  intros HO [Hcode (Hipi & Hplt & Htm) Hdev [st Hst] (Hb & Hv & Hin)].
  rewrite (exception_handler_on i c s v HO), Hst. pose proof (saved_on i c st s v HO) as HO1.
  set (s1 := saved i c st s) in *. change (cpu_cause s) with (cpu_cause s1) in *.
  destruct (generic_pending (cpu_cause s1) Hdev) as (Hr & _).
  pose proof (unclaimed_faults i _ s1 v _ HO1 eq_refl Hr Hb Hv Hin) as Hf.
  unfold serve_exception, get_cause. rewrite bind_assoc, bind_gets, Hcode. cbn [Z.eqb].
  unfold interrupt_handler. rewrite Hipi, Hplt, Htm. cbn [Z.eqb negb].
  rewrite (proj2 (Z.eqb_neq _ _) Hdev). cbn [negb]. unfold bind. by rewrite Hf.
Qed.

(** One exception. *)
Inductive step : exit_t * kernel -> exit_t * kernel -> Prop :=
| step_exception e s s1 e' s2 :
    resumes e = true -> outside s s1 -> well_interrupted s1 ->
    exception_handler s1 = Exit e' s2 -> step (e, s) (e', s2).

(** The boot. *)
Inductive boots : exit_t * kernel -> Prop :=
| boots_main s tlb exc pc e s' :
    boot_state s -> main tlb exc pc s = Exit e s' -> boots (e, s').

Definition reachable x : Prop := ∃ x0, boots x0 ∧ rtc step x0 x.

Lemma main_exits s tlb exc pc :
  boot_state s -> wp (main tlb exc pc) (fun _ _ => False) Exits s.
Proof.
  intros Hb. destruct (init_spec s tlb exc pc Hb)
    as (s1 & d & Hrun & HI & _ & _ & Hy & _ & _ & _ & _ & _ & Hsem).
  unfold main. eapply wp_step; [exact Hrun|]. cbn beta. apply wp_bind.
  eapply wp_mono; [eapply (schedule_block_exits s1 _ false HI Hy)|done|done].
  left. apply Hsem. unfold SEMAPHORES_NUM, DEVINTNUM, DEVPERINT. lia.
Qed.

Lemma boots_exits e s : boots (e, s) -> Exits e s.
Proof.
  intros Hb. inversion Hb as [s0 tlb exc pc e' s' Hb0 Hrun]; subst.
  pose proof (main_exits s0 tlb exc pc Hb0) as Hw. unfold wp in Hw. by rewrite Hrun in Hw.
Qed.

(** At an exit that resumes the nucleus is at rest. *)
Lemma exits_rest e s : resumes e = true -> Exits e s -> clock_ok s ∧ ∃ v, Rest s v.
Proof.
  destruct e as [| | |st|ctx|ad]; try done; intros _ [Hclk Hx]; (split; [done|]).
  - destruct Hx as (v & HO & _). exists v. by right.
  - destruct Hx as (i & c & v & HO & _). exists v. left. by exists i, c.
  - destruct Hx as (i & c & v & su & HO & _). exists v. left. by exists i, c.
Qed.

Lemma outside_rest s s' v : outside s s' -> clock_ok s -> Rest s v -> clock_ok s' ∧ Rest s' v.
Proof.
  intros [HS _ _ Hc] Hclk HR. split; [|by eapply Rest_ext]. unfold clock_ok. by rewrite Hc.
Qed.

Lemma exception_exits e s s1 :
  resumes e = true -> Exits e s -> outside s s1 -> well_interrupted s1 ->
  ∃ e' s2, exception_handler s1 = Exit e' s2 ∧ Exits e' s2.
Proof.
  intros He HE Ho Hw. destruct (exits_rest e s He HE) as (Hclk & v & HR).
  destruct (outside_rest s s1 v Ho Hclk HR) as [Hclk1 HR1].
  pose proof (exception_handler_rest s1 v HR1 Hclk1 Hw) as Hwp. unfold wp in Hwp.
  destruct (exception_handler s1) as [|e' s2| |]; try done. by exists e', s2.
Qed.

Lemma step_exits x y : step x y -> Exits (fst x) (snd x) -> Exits (fst y) (snd y).
Proof.
  intros Hst HE. inversion Hst as [e s s1 e' s2 He Ho Hw Hrun]; subst.
  destruct (exception_exits e s s1 He HE Ho Hw) as (e2 & s3 & Hrun' & HE').
  rewrite Hrun in Hrun'. by simplify_eq.
Qed.

Lemma reachable_exits x : reachable x -> Exits (fst x) (snd x).
Proof.
  intros (x0 & Hb & Hr). assert (Exits (fst x0) (snd x0)) as HE.
  { destruct x0 as [e s]. by apply boots_exits. }
  clear Hb. induction Hr as [|x y z Hst _ IH]; [done|]. apply IH. by eapply step_exits.
Qed.
End runs.

(** ** A concrete state to apply the theorems to *)

Lemma staged_on f ss su m cause s v d :
  (∀ c, same_role c (f c)) -> On 19 d s v ->
  On 19 (f d) (staged f ss su m cause s) v ∧ blocked (staged f ss su m cause s) v = blocked s v.
Proof.
  intros Hf HO. unfold staged. rewrite (on_pcb _ _ _ _ HO).
  pose proof (On_upd 19 d (f d) s v HO (Hf d)) as HO1.
  set (s1 := set_pcb_table _ s) in *. split; [|by apply blocked_ext].
  destruct HO1 as [HI Ha Hy Hc Hz Hq]. split; try done. by eapply Inv_ext.
Qed.

Lemma staged_value f ss su m cause s k :
  sem_value (staged f ss su m cause s) k = s32 (default 0 (m !! k)).
Proof. done. Qed.

Lemma staged_cause f ss su m cause s : cpu_cause (staged f ss su m cause s) = cause.
Proof. done. Qed.
Lemma staged_states f ss su m cause s : saved_states (staged f ss su m cause s) = ss.
Proof. done. Qed.
Lemma staged_supports f ss su m cause s : supports (staged f ss su m cause s) = su.
Proof. done. Qed.
Lemma staged_mem f ss su m cause s : mem (staged f ss su m cause s) = m.
Proof. done. Qed.

Lemma booted_two_on : ∃ d, On 19 d booted_two v_two ∧ p_parent d = None.
Proof.
  destruct booted_two_inv as (HI & _ & Ha & Hy & d & Hd & Hpar & Hz & _). exists d.
  split; [|exact Hpar]. exact (Build_On 19 d booted_two v_two HI Ha Hy Hd Hz v_two_detached).
Qed.

Lemma trial_on f ss su m cause :
  (∀ c, same_role c (f c)) ->
  ∃ d, On 19 (f d) (trial f ss su m cause) v_two ∧ blocked (trial f ss su m cause) v_two = ∅ ∧
    p_parent d = None.
Proof.
  intros Hf. destruct booted_two_on as (d & HO & Hpar). exists d.
  destruct (staged_on f ss su m cause booted_two v_two d Hf HO) as [HO' Hb]. split; [exact HO'|].
  split; [|exact Hpar]. etrans; [exact Hb|]. destruct booted_two_inv as (_ & Hb2 & _). exact Hb2.
Qed.

Lemma trial_clock f ss su cause : @clock_ok umps3 (trial f ss su (mem booted_two) cause).
Proof.
  left. unfold trial. rewrite staged_value.
  apply (booted_two_sems (SEMAPHORES_NUM - 1)). unfold SEMAPHORES_NUM, DEVINTNUM, DEVPERINT. lia.
Qed.

Section trial.
Context (f : pcb_t -> pcb_t) (ss : gmap Z state_t) (su : gmap Z support_t) (m : gmap Z Z) (cause : Z).

Lemma trial_cause : cpu_cause (trial f ss su m cause) = cause.
Proof. exact (staged_cause f ss su m cause booted_two). Qed.
Lemma trial_states : saved_states (trial f ss su m cause) = ss.
Proof. exact (staged_states f ss su m cause booted_two). Qed.
Lemma trial_supports : supports (trial f ss su m cause) = su.
Proof. exact (staged_supports f ss su m cause booted_two). Qed.
Lemma trial_mem : mem (trial f ss su m cause) = m.
Proof. exact (staged_mem f ss su m cause booted_two). Qed.
End trial.

#[global] Opaque trial.
