(* ===== verification/Typed.v ===== *)
(** * The types of the nucleus' data

    Every field of the nucleus has a C type of 32 bits.  [Typed s] says that
    each holds a value of its type: the words of memory, the registers of every
    saved state, the counters and the timers are unsigned words, the times are
    [int]s, a priority is 0 or 1.  Every operation preserves it, from the list
    helpers up to [exception_handler]; [keeps m V] is the judgement, with a rule
    per construct and a hint per operation. *)

From Stdlib Require Import ZArith Lia String.
From stdpp Require Import base tactics option numbers gmap list fin vector.
From S2P Require Import Prelude ListHead Machine Kernel View Pcb Asl Scheduler Semaphores Contract Syscall Exception Init Run.

Open Scope list_scope.
Open Scope Z_scope.

(** ** Types *)

Definition word (z : Z) : Prop := 0 <= z < 2 ^ 32.
Definition int32 (z : Z) : Prop := - 2 ^ 31 <= z < 2 ^ 31.

Record typed_state (st : state_t) : Prop := {
  ty_entry_hi : word (entry_hi st);
  ty_cause : word (cause st);
  ty_status : word (status st);
  ty_pc : word (pc_epc st);
  ty_hi : word (hi st);
  ty_lo : word (lo st);
  ty_v0 : word (reg_v0 st);
  ty_a0 : word (reg_a0 st);
  ty_a1 : word (reg_a1 st);
  ty_a2 : word (reg_a2 st);
  ty_a3 : word (reg_a3 st);
  ty_t9 : word (reg_t9 st);
  ty_sp : word (reg_sp st);
  ty_gpr : Forall word (other_gpr st)
}.

Definition typed_context (c : context_t) : Prop :=
  word (stack_ptr c) ∧ word (c_status c) ∧ word (pc c).

Record typed_support (su : support_t) : Prop := {
  ty_asid : int32 (sup_asid su);
  ty_states : ∀ i, typed_state (sup_except_state su !!! i);
  ty_contexts : ∀ i, typed_context (sup_except_context su !!! i);
  ty_ptes : Forall (fun e => word (pte_entry_hi e) ∧ word (pte_entry_lo e)) (sup_private_page_table su)
}.

Record typed_pcb (c : pcb_t) : Prop := {
  ty_p_s : typed_state (p_s c);
  ty_time : int32 (p_time c);
  ty_sem : word (p_sem_add c);
  ty_support : word (p_support c);
  ty_prio : p_prio c = PROCESS_PRIO_LOW ∨ p_prio c = PROCESS_PRIO_HIGH;
  ty_pid : word (p_pid c)
}.

Record Typed (s : kernel) : Prop := {
  ty_pcbs : Forall typed_pcb (pcb_table s);
  ty_semds : Forall (fun d => word (s_key d)) (semd_table s);
  ty_mem : map_Forall (fun a v => word_addr a = true ∧ word v) (mem s);
  ty_saved : map_Forall (fun _ st => typed_state st) (saved_states s);
  ty_supports : map_Forall (fun _ su => typed_support su) (supports s);
  ty_process_count : word (process_count s);
  ty_softblock_count : word (softblock_count s);
  ty_recycle_count : word (recycle_count s);
  ty_start_tod : int32 (start_tod s);
  ty_cpu_status : word (cpu_status s);
  ty_cpu_cause : word (cpu_cause s);
  ty_interval : word (interval_timer s);
  ty_local : word (local_timer s);
  ty_vector : Forall word (pass_up_vector s)
}.

(** What is handed to the processor. *)
Definition typed_exit (e : exit_t) : Prop :=
  match e with
  | Running st => typed_state st
  | InSupport c => typed_context c
  | Halted | Panicked | Waiting | BadAddress _ => True
  end.

(** The constants of the uMPS3 headers are words. *)
Class UmpsWords `{Umps} : Prop := {
  w_iec : word STATUS_IEc; w_iep : word STATUS_IEp; w_kuc : word STATUS_KUc;
  w_te : word STATUS_TE; w_im_mask : word STATUS_IM_MASK;
  w_im line : 0 <= line <= 7 -> word (STATUS_IM line);
  w_timer : 0 <= IL_TIMER <= 7;
  w_ri : word (Z.shiftl EXC_RI CAUSESHIFT);
  w_uninstalled : word UNINSTALLED
}.

(** A closed range, by evaluation. *)
Ltac closed_word := vm_compute; split; [discriminate | first [reflexivity | discriminate]].

Lemma umps3_words : @UmpsWords umps3.
Proof.
  split; [| | | | |intros line Hl| | | ]; [closed_word..| |closed_word|closed_word|closed_word].
  assert (line = 0 ∨ line = 1 ∨ line = 2 ∨ line = 3 ∨ line = 4 ∨ line = 5 ∨ line = 6 ∨ line = 7) as Hc by lia.
  destruct Hc as [->|[->|[->|[->|[->|[->|[->| ->]]]]]]]; closed_word.
Qed.

(** ** Words *)

Lemma word_bits z : word z <-> 0 <= z ∧ ∀ i, 32 <= i -> Z.testbit z i = false.
Proof.
  unfold word. split.
  - intros Hz. split; [lia|]. intros i Hi. destruct (decide (z = 0)) as [->|]; [apply Z.bits_0|].
    apply Z.bits_above_log2; [lia|]. assert (Z.log2 z < 32) by (apply Z.log2_lt_pow2; lia). lia.
  - intros [Hz Hb]. split; [done|]. destruct (decide (z = 0)) as [->|]; [lia|].
    apply Z.log2_lt_pow2; [lia|]. apply Z.nle_gt. intros Hl.
    specialize (Hb _ Hl). rewrite Z.bit_log2 in Hb by lia. done.
Qed.

Lemma word_lor a b : word a -> word b -> word (Z.lor a b).
Proof.
  rewrite !word_bits. intros [Ha Hab] [Hb Hbb]. split; [by apply Z.lor_nonneg|].
  intros i Hi. by rewrite Z.lor_spec, Hab, Hbb.
Qed.
Lemma word_lxor a b : word a -> word b -> word (Z.lxor a b).
Proof.
  rewrite !word_bits. intros [Ha Hab] [Hb Hbb]. split; [by apply Z.lxor_nonneg|].
  intros i Hi. by rewrite Z.lxor_spec, Hab, Hbb.
Qed.
Lemma word_land a b : word a -> word (Z.land a b).
Proof.
  rewrite !word_bits. intros [Ha Hab]. split; [apply Z.land_nonneg; by left|].
  intros i Hi. by rewrite Z.land_spec, Hab.
Qed.
Lemma word_u32 z : word (u32 z).
Proof. apply u32_range. Qed.
Lemma int32_s32 z : int32 (s32 z).
Proof. apply s32_range. Qed.
Lemma word_0 : word 0.
Proof. unfold word. lia. Qed.
Lemma int32_0 : int32 0.
Proof. unfold int32. lia. Qed.

Create HintDb typed.
#[export] Hint Resolve word_lor word_lxor word_land word_u32 int32_s32 word_0 int32_0 : typed.
#[export] Hint Resolve w_iec w_iep w_kuc w_te w_im_mask w_im w_timer w_ri w_uninstalled : typed.
#[export] Hint Constructors Forall : typed.

(** ** The judgement *)

Section keeps.
Context {U : Umps}.

(** Whatever [m] does from a typed state, the state it leaves is typed, its
    value satisfies [V], and what it hands to the processor is typed. *)
Definition keeps {A} (m : KM A) (V : A -> Prop) : Prop :=
  ∀ s, Typed s ->
    match m s with
    | Ok a s' => V a ∧ Typed s'
    | Exit e s' => typed_exit e ∧ Typed s'
    | Fault _ | NoFuel => True
    end.

Abbreviation any := (fun _ => True).

Lemma keeps_return {A} (a : A) (V : A -> Prop) : V a -> keeps (ret a) V.
Proof. intros HV s HT. done. Qed.

Lemma keeps_seq {A B} (m : KM A) (k : A -> KM B) (V : A -> Prop) (V' : B -> Prop) :
  keeps m V -> (∀ a, V a -> keeps (k a) V') -> keeps (bind m k) V'.
Proof.
  intros Hm Hk s HT. unfold bind. specialize (Hm s HT).
  destruct (m s) as [a s'| | |]; try done. destruct Hm as [HV HT']. by apply (Hk a HV).
Qed.

Lemma keeps_mono {A} (m : KM A) (V V' : A -> Prop) : keeps m V -> (∀ a, V a -> V' a) -> keeps m V'.
Proof. intros Hm HV s HT. specialize (Hm s HT). destruct (m s); naive_solver. Qed.

Lemma keeps_any {A} (m : KM A) (V : A -> Prop) : keeps m V -> keeps m any.
Proof. intros Hm. by eapply keeps_mono. Qed.

Lemma keeps_get : keeps get Typed.
Proof. by intros s HT. Qed.

Lemma keeps_gets {A} (f : kernel -> A) (V : A -> Prop) :
  (∀ s, Typed s -> V (f s)) -> keeps (gets f) V.
Proof. intros HV s HT. split; [by apply HV|done]. Qed.

Lemma keeps_modify f : (∀ s, Typed s -> Typed (f s)) -> keeps (modify f) any.
Proof. intros Hf s HT. split; [done|]. by apply Hf. Qed.

Lemma keeps_exit {A} e (V : A -> Prop) : typed_exit e -> keeps (exit e) V.
Proof. by intros He s HT. Qed.
Lemma keeps_no_fuel {A} (V : A -> Prop) : keeps no_fuel V.
Proof. by intros s HT. Qed.
Lemma keeps_ok_or {A} w (o : option A) (V : A -> Prop) : (∀ a, o = Some a -> V a) -> keeps (ok_or w o) V.
Proof. intros Ho s HT. destruct o as [a|]; [|done]. split; [by apply Ho|done]. Qed.

Lemma keeps_for n a b : (∀ i, keeps (b i) any) -> keeps (for_ n a b) any.
Proof.
  intros Hb. revert a. induction n as [|n IH]; intros a; [by apply keeps_return|].
  cbn [for_]. eapply keeps_seq; [apply Hb|]. auto.
Qed.

(** ** Accesses *)

Lemma Typed_links s h : Typed s -> Typed (set_links h s).
Proof. intros []. by split. Qed.

Lemma keeps_on_links {A} (m : M (gmap lh (list_head lh)) Empty_set A) : keeps (on_links m) any.
Proof.
  intros s HT. unfold on_links, zoom. destruct (m (links s)) as [a h|[]| |]; try done.
  split; [done|]. by apply Typed_links.
Qed.

Lemma keeps_pcb_at i : keeps (pcb_at i) typed_pcb.
Proof.
  eapply keeps_seq; [apply keeps_get|]. intros s HT. apply keeps_ok_or. intros c Hc.
  exact (proj1 (Forall_lookup _ _) (ty_pcbs _ HT) _ _ Hc).
Qed.

Lemma keeps_upd_pcb i f : (∀ c, typed_pcb c -> typed_pcb (f c)) -> keeps (upd_pcb i f) any.
Proof.
  intros Hf. eapply keeps_seq; [apply keeps_pcb_at|]. intros c Hc. apply keeps_modify.
  intros s []. split; try done. simpl. apply Forall_insert; auto.
Qed.

Lemma keeps_set_s_key j k : word k -> keeps (set_s_key j k) any.
Proof.
  intros Hk. eapply keeps_seq.
  - eapply keeps_seq; [apply keeps_get|]. intros s _. by apply (keeps_ok_or _ _ any).
  - intros _ _. apply keeps_modify. intros s []. split; try done. simpl. by apply Forall_insert.
Qed.

Lemma keeps_read_word a : keeps (read_word a) word.
Proof.
  unfold read_word. destruct (word_addr a); [|by apply keeps_exit]. apply keeps_gets. intros s HT.
  destruct (mem s !! a) as [v|] eqn:E; [|apply word_0]. by apply (ty_mem _ HT a v E).
Qed.

Lemma keeps_write_word a v : keeps (write_word a v) any.
Proof.
  unfold write_word. destruct (word_addr a) eqn:Ha; [|by apply keeps_exit].
  apply keeps_modify. intros s []. split; try done. simpl.
  apply map_Forall_insert_2; [split; [done|apply word_u32] | done].
Qed.

Lemma keeps_read_int a : keeps (read_int a) int32.
Proof. eapply keeps_seq; [apply keeps_read_word|]. intros v _. apply keeps_return, int32_s32. Qed.

Lemma keeps_read_state a : keeps (read_state a) typed_state.
Proof.
  eapply keeps_seq; [apply keeps_get|]. intros s HT.
  destruct (saved_states s !! a) as [st|] eqn:E; [|by apply keeps_exit].
  apply keeps_return. exact (ty_saved _ HT a st E).
Qed.

Lemma keeps_read_support a : keeps (read_support a) typed_support.
Proof.
  eapply keeps_seq; [apply keeps_get|]. intros s HT.
  destruct (supports s !! a) as [su|] eqn:E; [|by apply keeps_exit].
  apply keeps_return. exact (ty_supports _ HT a su E).
Qed.

Lemma keeps_write_support a su : typed_support su -> keeps (write_support a su) any.
Proof.
  intros Hsu. eapply keeps_seq; [apply keeps_read_support|]. intros _ _. apply keeps_modify.
  intros s []. split; try done. simpl. by apply map_Forall_insert_2.
Qed.

Lemma keeps_kprintf fmt args : keeps (kprintf fmt args) any.
Proof. apply keeps_modify. intros s []. by split. Qed.

(** The fields whose types matter to their readers. *)
Lemma keeps_start_tod : keeps (gets start_tod) int32.
Proof. apply keeps_gets. apply ty_start_tod. Qed.
Lemma keeps_get_status : keeps get_status word.
Proof. apply keeps_gets. apply ty_cpu_status. Qed.
Lemma keeps_get_cause : keeps get_cause word.
Proof. apply keeps_gets. apply ty_cpu_cause. Qed.
End keeps.

Abbreviation any := (fun _ => True).

#[export] Hint Resolve keeps_return keeps_get keeps_no_fuel keeps_on_links keeps_pcb_at keeps_set_s_key
  keeps_read_word keeps_write_word keeps_read_int keeps_read_state keeps_read_support
  keeps_write_support keeps_kprintf keeps_start_tod keeps_get_status keeps_get_cause : typed.

(** One rule per construct.  [typed_step] leaves the side conditions that
    the hints do not solve. *)
Ltac destruct_typed_pcb := match goal with H : typed_pcb _ |- _ => destruct H end.
Ltac typed_step :=
  match goal with
  | |- keeps (bind _ _) _ => eapply keeps_seq
  | |- keeps (if ?b then _ else _) _ => destruct b
  | |- keeps (match ?x with _ => _ end) _ => destruct x
  | |- keeps (ret ?x) ?V =>
      first [ is_evar V; apply (keeps_return x any I) | apply keeps_return; solve [eauto with typed | exact I] ]
  | |- keeps (modify _) _ => apply keeps_modify; intros ? []; split; simpl; solve [eauto 4 with typed]
  | |- keeps (upd_pcb _ _) _ => apply keeps_upd_pcb; intros ? ?;
      first [solve [eauto with typed] | destruct_typed_pcb; split; simpl; solve [eauto 6 with typed]]
  | |- keeps (gets _) _ => first [solve [eauto with typed] | apply (keeps_gets _ any); intros; exact I]
  | |- keeps (exit _) _ => apply keeps_exit; solve [eauto with typed | exact I]
  | |- keeps (ok_or _ _) _ => apply (keeps_ok_or _ _ any); intros; exact I
  | |- keeps (for_ _ _ _) _ => apply keeps_for; intros ?
  | |- keeps _ _ => solve [eauto with typed]
  | |- forall _, _ -> keeps _ _ => intros ? ?
  end.
Ltac typed_tac := repeat typed_step.

(** ** Every operation *)

Section operations.
Context {U : Umps} {L : UmpsLaws} {W : UmpsWords}.

Lemma typed_status_upd st v : word v -> typed_state st -> typed_state (set_status v st).
Proof. intros Hv []. by split. Qed.
Lemma typed_cause_upd st v : word v -> typed_state st -> typed_state (set_cause v st).
Proof. intros Hv []. by split. Qed.
Lemma typed_pc_upd st v : word v -> typed_state st -> typed_state (set_pc_epc v st).
Proof. intros Hv []. by split. Qed.
Lemma typed_t9_upd st v : word v -> typed_state st -> typed_state (set_reg_t9 v st).
Proof. intros Hv []. by split. Qed.
Lemma typed_v0_upd st v : word v -> typed_state st -> typed_state (set_reg_v0 v st).
Proof. intros Hv []. by split. Qed.
Lemma typed_sp_upd st v : word v -> typed_state st -> typed_state (set_reg_sp v st).
Proof. intros Hv []. by split. Qed.
#[local] Hint Resolve typed_status_upd typed_cause_upd typed_pc_upd typed_t9_upd typed_v0_upd
  typed_sp_upd ty_status ty_cause ty_pc ty_p_s : typed.

(** The status and cause register helpers. *)
Lemma word_interrupts_on_nucleus v : word v -> word (status_interrupts_on_nucleus v).
Proof. unfold status_interrupts_on_nucleus. auto with typed. Qed.
Lemma word_interrupts_on_process v : word v -> word (status_interrupts_on_process v).
Proof. unfold status_interrupts_on_process. auto with typed. Qed.
Lemma word_kernel_mode_on v : word v -> word (status_kernel_mode_on_nucleus v).
Proof. unfold status_kernel_mode_on_nucleus. auto with typed. Qed.
Lemma word_local_timer_on v : word v -> word (status_local_timer_on v).
Proof. unfold status_local_timer_on. auto 6 with typed. Qed.
Lemma word_il_on_all v : word v -> word (status_il_on_all v).
Proof. unfold status_il_on_all. auto with typed. Qed.
Lemma word_il_on v line : 0 <= line <= 7 -> word v -> word (status_il_on v line).
Proof. unfold status_il_on. auto with typed. Qed.
Lemma word_cause_clean v : word v -> word (cause_clean v).
Proof. unfold cause_clean. auto with typed. Qed.
Lemma word_cause_ri v : word v -> word (cause_reserved_instruction v).
Proof. unfold cause_reserved_instruction. auto with typed. Qed.
#[local] Hint Resolve word_interrupts_on_nucleus word_interrupts_on_process word_kernel_mode_on
  word_local_timer_on word_il_on_all word_il_on word_cause_clean word_cause_ri : typed.

(** [pcb.c] and [asl.c] *)
Lemma typed_null_state st : typed_state (null_state st).
Proof.
  split; simpl; try apply word_0; [apply w_uninstalled|]. apply Forall_map, Forall_true.
  intros x. apply word_0.
Qed.
Lemma typed_null_pcb c : typed_pcb (null_pcb_fields c).
Proof. split; simpl; try apply word_0; [apply typed_null_state|apply int32_0|by left]. Qed.
#[local] Hint Resolve typed_null_pcb : typed.

Lemma keeps_init_pcbs : keeps init_pcbs any.
Proof. unfold init_pcbs. typed_tac. Qed.
Lemma keeps_free_pcb p : keeps (free_pcb p) any.
Proof. unfold free_pcb. typed_tac. Qed.
Lemma keeps_alloc_pcb : keeps alloc_pcb any.
Proof.
  unfold alloc_pcb, null_pcb. typed_tac.
Qed.
Lemma keeps_mk_empty_proc_q h : keeps (mk_empty_proc_q h) any.
Proof. unfold mk_empty_proc_q. typed_tac. Qed.
Lemma keeps_insert_proc_q h p : keeps (insert_proc_q h p) any.
Proof. unfold insert_proc_q. typed_tac. Qed.
Lemma keeps_out_proc_q h p : keeps (out_proc_q h p) any.
Proof. unfold out_proc_q. typed_tac. Qed.
#[local] Hint Resolve keeps_out_proc_q : typed.
Lemma keeps_remove_proc_q h : keeps (remove_proc_q h) any.
Proof. unfold remove_proc_q. typed_tac. Qed.
Lemma keeps_insert_child j p : keeps (insert_child j p) any.
Proof. unfold insert_child. typed_tac. Qed.
Lemma keeps_out_child p : keeps (out_child p) any.
Proof. unfold out_child. typed_tac. Qed.
#[local] Hint Resolve keeps_out_child : typed.
Lemma keeps_remove_child p : keeps (remove_child p) any.
Proof. unfold remove_child. typed_tac. Qed.
Lemma keeps_find_semd l a : keeps (find_semd l a) any.
Proof. unfold find_semd. typed_tac. Qed.
Lemma keeps_alloc_semd a : word a -> keeps (alloc_semd a) any.
Proof. intros Ha. unfold alloc_semd. typed_tac. Qed.
Lemma keeps_free_semd j : keeps (free_semd j) any.
Proof. unfold free_semd. typed_tac. Qed.
#[local] Hint Resolve keeps_find_semd keeps_alloc_semd keeps_free_semd : typed.
Lemma keeps_init_asl : keeps init_asl any.
Proof. unfold init_asl. typed_tac. Qed.
Lemma keeps_insert_blocked a p : word a -> keeps (insert_blocked a p) any.
Proof. intros Ha. unfold insert_blocked. typed_tac. Qed.
Lemma keeps_out_blocked p : keeps (out_blocked p) any.
Proof. unfold out_blocked. typed_tac. Qed.
Lemma keeps_head_blocked a : keeps (head_blocked a) any.
Proof. unfold head_blocked. typed_tac. Qed.
#[local] Hint Resolve keeps_head_blocked keeps_out_blocked : typed.
Lemma keeps_remove_blocked a : keeps (remove_blocked a) any.
Proof. unfold remove_blocked. typed_tac. Qed.
#[local] Hint Resolve keeps_init_pcbs keeps_free_pcb keeps_alloc_pcb keeps_mk_empty_proc_q
  keeps_insert_proc_q keeps_remove_proc_q keeps_insert_child keeps_remove_child keeps_init_asl
  keeps_insert_blocked keeps_remove_blocked : typed.

(** [processor.c], [devices.c] and the timers *)
Lemma keeps_store_tod : keeps store_tod int32.
Proof. unfold store_tod. typed_tac. Qed.
Lemma keeps_load_interval_timer t : keeps (load_interval_timer t) any.
Proof. unfold load_interval_timer. typed_tac. Qed.
Lemma keeps_load_local_timer t : keeps (load_local_timer t) any.
Proof. unfold load_local_timer, TRANSLATE_TIME. typed_tac. Qed.
Lemma keeps_load_state st : typed_state st -> keeps (load_state st) any.
Proof. intros Hst. by apply keeps_exit. Qed.
Lemma keeps_load_context c : typed_context c -> keeps (load_context c) any.
Proof. intros Hc. by apply keeps_exit. Qed.
Lemma keeps_set_status v : word v -> keeps (set_status_register v) any.
Proof. intros Hv. unfold set_status_register. typed_tac. Qed.
Lemma keeps_init_puv a b : word a -> word b -> keeps (init_puv a b) any.
Proof.
  intros Ha Hb. unfold init_puv. apply keeps_modify. intros s []. split; try done.
  assert (word KERNELSTACK) by (unfold word, KERNELSTACK; lia). simpl. auto 10 with typed.
Qed.
Lemma keeps_is_user_mode : keeps is_user_mode any.
Proof. unfold is_user_mode, deref. typed_tac. Qed.
#[local] Hint Resolve keeps_store_tod keeps_load_interval_timer keeps_load_local_timer
  keeps_load_state keeps_load_context keeps_set_status keeps_init_puv keeps_is_user_mode : typed.

(** [scheduler.c] *)
Lemma keeps_reset_timer : keeps reset_timer any.
Proof. unfold reset_timer. typed_tac. Qed.
Lemma keeps_reset_local_timer : keeps reset_local_timer any.
Proof. unfold reset_local_timer. typed_tac. Qed.
Lemma keeps_enqueue_process p : keeps (enqueue_process p) any.
Proof. unfold enqueue_process. typed_tac. Qed.
Lemma keeps_dequeue_process p : keeps (dequeue_process p) any.
Proof. unfold dequeue_process. typed_tac. Qed.
Lemma keeps_find_process pid : keeps (find_process pid) any.
Proof. unfold find_process. typed_tac. Qed.
Lemma keeps_scheduler_panic {A} fmt args (k : KM A) V : keeps (scheduler_panic fmt args ;; k) V.
Proof. intros s HT. split; [done|]. destruct HT. by split. Qed.
Lemma keeps_panic fmt args : keeps (scheduler_panic fmt args) any.
Proof. intros s HT. split; [done|]. destruct HT. by split. Qed.
#[local] Hint Resolve keeps_reset_timer keeps_reset_local_timer keeps_enqueue_process
  keeps_dequeue_process keeps_find_process keeps_panic : typed.

Lemma word_make_pid i n : word (make_pid i n).
Proof. apply word_u32. Qed.
#[local] Hint Resolve word_make_pid : typed.

Lemma keeps_spawn_process prio : keeps (spawn_process prio) any.
Proof.
  unfold spawn_process. destruct (Z.eqb_spec prio 1), (Z.eqb_spec prio 0); cbn [negb andb]; typed_tac;
    apply keeps_upd_pcb; intros ? []; split; try done; simpl; subst; by (left + right).
Qed.
Lemma keeps_kill_process p : keeps (kill_process p) any.
Proof. unfold kill_process. typed_tac. Qed.
#[local] Hint Resolve keeps_spawn_process keeps_kill_process : typed.
Lemma keeps_kill_progeny fuel : ∀ p, keeps (kill_progeny fuel p) any.
Proof. induction fuel as [|fuel IH]; intros p; cbn [kill_progeny]; typed_tac. Qed.
Lemma keeps_init_scheduler : keeps init_scheduler any.
Proof. unfold init_scheduler. typed_tac. Qed.
Lemma keeps_scheduler_wait : keeps scheduler_wait any.
Proof. unfold scheduler_wait, wait. typed_tac. Qed.
Lemma keeps_scheduler_takeover : keeps scheduler_takeover any.
Proof. unfold scheduler_takeover, deref. typed_tac. Qed.
#[local] Hint Resolve keeps_kill_progeny keeps_init_scheduler keeps_scheduler_wait
  keeps_scheduler_takeover : typed.
Lemma keeps_wait_or_die : keeps wait_or_die any.
Proof. unfold wait_or_die, halt. typed_tac. Qed.
#[local] Hint Resolve keeps_wait_or_die : typed.
Lemma keeps_schedule p e : keeps (schedule p e) any.
Proof. unfold schedule. typed_tac. Qed.
#[local] Hint Resolve keeps_schedule : typed.

(** [semaphores.c] and [devices.c] *)
Lemma word_semaphores i : word (semaphores i).
Proof. apply word_u32. Qed.
#[local] Hint Resolve word_semaphores : typed.

Lemma keeps_reschedule : keeps reschedule any.
Proof. unfold reschedule. typed_tac. Qed.
Lemma keeps_preserve : keeps preserve any.
Proof. unfold preserve. typed_tac. Qed.
#[local] Hint Resolve keeps_reschedule keeps_preserve : typed.
Lemma keeps_P a p : word a -> keeps (P a p) any.
Proof. intros Ha. unfold P. typed_tac. Qed.
Lemma keeps_V a : word a -> keeps (V a) any.
Proof. intros Ha. unfold V. typed_tac. Qed.
#[local] Hint Resolve keeps_P keeps_V : typed.
Lemma keeps_init_semaphores : keeps init_semaphores any.
Proof. unfold init_semaphores. typed_tac. Qed.

(** A semaphore of a line, or no return. *)
Lemma keeps_get_semaphore line dev w :
  keeps (get_semaphore line dev w) (fun k => word k ∧ IL_DISK <= line <= IL_TERMINAL).
Proof.
  unfold get_semaphore. destruct (Z.ltb_spec IL_TERMINAL line), (Z.ltb_spec line IL_DISK);
    cbn [orb]; try apply keeps_scheduler_panic.
  eapply (keeps_seq _ _ any); [by apply keeps_return|]. intros _ _. apply keeps_return.
  split; [apply word_semaphores|lia].
Qed.
Lemma keeps_get_iodev a :
  keeps (get_iodev a) (fun d => word (semaphore d) ∧ 0 <= interrupt_line d <= 7).
Proof using L.
  unfold get_iodev. eapply keeps_seq; [apply keeps_get_semaphore|]. intros k [Hk Hl].
  apply keeps_return. split; [done|]. cbn [interrupt_line]. pose proof il_disk. pose proof il_terminal. lia.
Qed.

(** [puod.c] and [syscall.c] *)
Lemma keeps_pass_up_or_die type : keeps (pass_up_or_die type) any.
Proof.
  unfold pass_up_or_die. typed_tac.
  - apply keeps_write_support. match goal with H : typed_support _ |- _ => destruct H as [Ha Hs Hc Hp] end.
    split; simpl; [done| |done..]. intros i. destruct (decide (type = i)) as [<-|Hne].
    + by rewrite vlookup_insert.
    + by rewrite vlookup_insert_ne.
  - apply keeps_load_context. by apply ty_contexts.
Qed.
#[local] Hint Resolve keeps_pass_up_or_die : typed.

Lemma typed_set_v0 v c : typed_pcb c -> typed_pcb (set_v0 v c).
Proof. intros []. split; simpl; eauto with typed. Qed.
Lemma typed_set_p_s st c : typed_state st -> typed_pcb c -> typed_pcb (set_p_s st c).
Proof. intros ? []. by split. Qed.
#[local] Hint Resolve typed_set_v0 typed_set_p_s : typed.

Lemma keeps_active : keeps active any.
Proof. unfold active, deref. typed_tac. Qed.
#[local] Hint Resolve keeps_active : typed.
Lemma keeps_active_pcb : keeps active_pcb typed_pcb.
Proof. unfold active_pcb. typed_tac. Qed.
Lemma keeps_upd_active f : (∀ c, typed_pcb c -> typed_pcb (f c)) -> keeps (upd_active f) any.
Proof. intros Hf. unfold upd_active. eapply keeps_seq; [apply keeps_active|]. intros i _. by apply keeps_upd_pcb. Qed.
#[local] Hint Resolve keeps_active_pcb : typed.

Ltac active_tac :=
  repeat first [ typed_step | apply keeps_upd_active; intros; solve [eauto 7 with typed] ].

Lemma keeps_create_process : keeps syscall_create_process any.
Proof.
  unfold syscall_create_process. eapply keeps_seq; [apply keeps_active_pcb|]. intros c Hc.
  pose proof (ty_a3 _ (ty_p_s _ Hc)). active_tac.
Qed.
Lemma keeps_terminate_process : keeps syscall_terminate_process any.
Proof. unfold syscall_terminate_process. active_tac. Qed.
Lemma keeps_passeren : keeps syscall_passeren any.
Proof.
  unfold syscall_passeren. eapply keeps_seq; [apply keeps_active_pcb|]. intros c Hc.
  pose proof (ty_a1 _ (ty_p_s _ Hc)). active_tac.
Qed.
Lemma keeps_verhogen : keeps syscall_verhogen any.
Proof.
  unfold syscall_verhogen. eapply keeps_seq; [apply keeps_active_pcb|]. intros c Hc.
  pose proof (ty_a1 _ (ty_p_s _ Hc)). active_tac.
Qed.
Lemma keeps_do_io : keeps syscall_do_io any.
Proof.
  unfold syscall_do_io. eapply keeps_seq; [apply keeps_active_pcb|]. intros c Hc. cbv zeta.
  destruct (_ =? 0); [active_tac|]. eapply keeps_seq; [apply keeps_get_iodev|]. intros d [Hd Hl].
  active_tac. apply keeps_upd_active. intros c' Hc'. destruct (is_true _); eauto 7 with typed.
Qed.
Lemma keeps_wait_for_clock : keeps syscall_wait_for_clock any.
Proof. unfold syscall_wait_for_clock, get_timer_semaphore. active_tac. Qed.
Lemma keeps_queries :
  keeps syscall_get_cpu_time any ∧ keeps syscall_get_support_data any ∧
  keeps syscall_get_process_id any ∧ keeps syscall_yield any.
Proof.
  unfold syscall_get_cpu_time, syscall_get_support_data, syscall_get_process_id, syscall_yield.
  split_and!; active_tac.
Qed.
#[local] Hint Resolve keeps_create_process keeps_terminate_process keeps_passeren keeps_verhogen
  keeps_do_io keeps_wait_for_clock : typed.

Lemma keeps_syscall_handler : keeps syscall_handler any.
Proof.
  unfold syscall_handler. destruct keeps_queries as (? & ? & ? & ?). active_tac.
Qed.
#[local] Hint Resolve keeps_syscall_handler : typed.

(** [exception.c] *)
Lemma keeps_find_device fuel : ∀ n v, keeps (find_device_loop fuel n v) any.
Proof. induction fuel as [|fuel IH]; intros n v; cbn [find_device_loop]; active_tac. Qed.
Lemma keeps_find_device_number a : keeps (find_device_number a) any.
Proof. unfold find_device_number. pose proof keeps_find_device. active_tac. Qed.
#[local] Hint Resolve keeps_find_device_number : typed.
Lemma keeps_timer_loop fuel : keeps (timer_loop fuel) any.
Proof. unfold get_timer_semaphore. induction fuel as [|fuel IH]; cbn [timer_loop]; active_tac. Qed.
Lemma keeps_return_status p v : keeps (return_status p v) any.
Proof. unfold return_status, deref. active_tac. Qed.
Lemma keeps_return_terminal_status p v : keeps (return_terminal_status p v) any.
Proof. unfold return_terminal_status, deref. active_tac. Qed.
#[local] Hint Resolve keeps_timer_loop keeps_return_status keeps_return_terminal_status : typed.
Lemma keeps_interrupt_generic c : keeps (interrupt_generic c) any.
Proof.
  unfold interrupt_generic. eapply keeps_seq; [apply keeps_find_device_number|]. intros n _.
  eapply keeps_seq; [apply keeps_get_semaphore|]. intros k [Hk _]. active_tac.
Qed.
Lemma keeps_subdevice st cmd k next : word k -> keeps next any -> keeps (terminal_subdevice st cmd k next) any.
Proof. intros Hk Hn. unfold terminal_subdevice. active_tac. Qed.
Lemma keeps_interrupt_terminal : keeps interrupt_terminal any.
Proof.
  unfold interrupt_terminal. eapply keeps_seq; [apply keeps_find_device_number|]. intros n _.
  eapply keeps_seq; [apply keeps_read_int|]. intros ts _.
  eapply keeps_seq; [apply keeps_read_int|]. intros rs _.
  eapply keeps_seq; [apply keeps_get_semaphore|]. intros k [Hk _].
  eapply keeps_seq; [apply keeps_get_semaphore|]. intros k' [Hk' _].
  apply keeps_subdevice; [done|]. apply keeps_subdevice; [done|]. active_tac.
Qed.
#[local] Hint Resolve keeps_interrupt_generic keeps_interrupt_terminal : typed.
Lemma keeps_interrupt_handler c : keeps (interrupt_handler c) any.
Proof.
  unfold interrupt_handler, interrupt_ipi, interrupt_local_timer, interrupt_timer. active_tac.
Qed.
Lemma keeps_account_time : keeps account_time any.
Proof.
  unfold account_time. active_tac. apply keeps_upd_active. intros c []. split; simpl; eauto with typed.
Qed.
#[local] Hint Resolve keeps_interrupt_handler keeps_account_time : typed.
Lemma keeps_exception_syscall : keeps exception_syscall any.
Proof. unfold exception_syscall. active_tac. Qed.
#[local] Hint Resolve keeps_exception_syscall : typed.
Lemma keeps_exception_handler : keeps exception_handler any.
Proof. unfold exception_handler. active_tac. Qed.

(** [init.c] and [main.c] *)
Lemma keeps_RAMTOP : keeps RAMTOP word.
Proof. unfold RAMTOP. active_tac. Qed.
#[local] Hint Resolve keeps_RAMTOP : typed.
Lemma keeps_init_process a : word a -> keeps (init_process a) any.
Proof. intros Ha. unfold init_process, deref. active_tac. Qed.
#[local] Hint Resolve keeps_init_process keeps_init_semaphores : typed.
Lemma keeps_main a b c : word a -> word b -> word c -> keeps (main a b c) any.
Proof. intros Ha Hb Hc. unfold main, init. active_tac. Qed.
End operations.

(** ** Runs *)

Section runs.
Context {U : Umps} {L : UmpsLaws} {W : UmpsWords}.

(** A run whose memory is typed when it starts, and again whenever something
    outside the nucleus has run. *)
Inductive typed_run : exit_t * kernel -> Prop :=
| typed_boot s tlb exc pc e s' :
    boot_state s -> Typed s -> word tlb -> word exc -> word pc ->
    main tlb exc pc s = Exit e s' -> typed_run (e, s')
| typed_exception e s s1 e' s2 :
    typed_run (e, s) -> resumes e = true -> outside s s1 -> Typed s1 -> well_interrupted s1 ->
    exception_handler s1 = Exit e' s2 -> typed_run (e', s2).

Lemma keeps_Exit {A} (m : KM A) V s e s' :
  keeps m V -> Typed s -> m s = Exit e s' -> Typed s' ∧ typed_exit e.
Proof using Type. intros Hm HT Hrun. specialize (Hm s HT). rewrite Hrun in Hm. tauto. Qed.

Lemma typed_run_reachable x : typed_run x -> reachable x.
Proof using Type.
  induction 1 as [s tlb exc pc e s' Hb _ _ _ _ Hrun|e s s1 e' s2 _ IH He Ho _ Hw Hrun].
  - exists (e, s'). split; [by eapply boots_main|apply rtc_refl].
  - destruct IH as (x0 & Hb & Hr). exists x0. split; [done|]. eapply rtc_r; [exact Hr|].
    by eapply step_exception.
Qed.

(** C2: types are preserved and make progress: in a run of the machine every
    word of memory, every register of every saved state, every counter and
    timer of the nucleus holds a 32-bit word, every time an [int], every
    priority 0 or 1, and so does whatever state or context the nucleus hands
    to the processor.  An exception that arrives in a typed state leaves a
    typed state however the nucleus is left, and it is served, neither faulting
    nor running for ever, if no device interrupts while an earlier interrupt
    of it is unclaimed ([well_interrupted], which a run keeps). *)
Theorem nucleus_well_typed e s :
  typed_run (e, s) ->
  Typed s ∧ typed_exit e ∧
  (resumes e = true -> ∀ s1, outside s s1 -> Typed s1 ->
    (∀ e' s2, exception_handler s1 = Exit e' s2 -> Typed s2 ∧ typed_exit e') ∧
    (well_interrupted s1 -> ∃ e' s2, exception_handler s1 = Exit e' s2 ∧ Typed s2 ∧ typed_exit e')).
Proof.
  intros Hr. split_and!.
  1, 2: inversion Hr; subst; (eapply keeps_Exit; [|done|eassumption]);
    [by apply keeps_main|apply keeps_exception_handler].
  intros He s1 Ho HT. split; [intros e' s2; eapply keeps_Exit; [apply keeps_exception_handler|done]|].
  intros Hw. pose proof (reachable_exits _ (typed_run_reachable _ Hr)) as HE.
  destruct (exception_exits e s s1 He HE Ho Hw) as (e' & s2 & Hrun & _).
  exists e', s2. split; [done|]. eapply keeps_Exit; [apply keeps_exception_handler|done..].
Qed.
End runs.

(** ** An instance: the boot and the first time slice *)

#[local] Instance U3 : Umps := umps3.
#[local] Instance L3 : UmpsLaws := umps3_laws.
#[local] Instance W3 : UmpsWords := umps3_words.

Lemma typed_state0 : typed_state state0.
Proof. split; try apply word_0. apply Forall_replicate, word_0. Qed.

Lemma boot0_typed : Typed boot0.
Proof.
  split; try apply word_0; try apply int32_0; [| | |done|done|constructor].
  - apply Forall_replicate. split; try apply word_0; [apply typed_state0|apply int32_0|by left].
  - apply Forall_replicate, word_0.
  - cbn [mem boot0]. repeat (apply map_Forall_insert_2; [split; [done|unfold word; lia]|]). done.
Qed.

(** Between two exceptions: the local timer is about to expire. *)
Definition slice_over (s : kernel) : kernel :=
  set_cpu_cause 0x200 (set_saved_states {[ BIOSDATAPAGE := state0 ]} s).

Lemma slice_over_typed s : Typed s -> Typed (slice_over s).
Proof.
  intros []. split; try done; simpl; first [by apply map_Forall_singleton, typed_state0|unfold word; lia].
Qed.

Lemma slice_over_outside s : outside s (slice_over s).
Proof. split; [split; try done; apply Forall_Forall2_diag, Forall_forall; done|try done..]. Qed.

Lemma slice_over_interrupts s : well_interrupted (slice_over s).
Proof.
  intros _ line w Hl _ Hc. exfalso. apply Hc. simpl in Hl |- *.
  assert (line = 3 ∨ line = 4 ∨ line = 5 ∨ line = 6 ∨ line = 7) as [->|[->|[->|[->| ->]]]] by lia; done.
Qed.

Lemma nucleus_well_typed_witness :
  ∃ st s e' s2, main 0x100 0x200 0x300 boot0 = Exit (Running st) s ∧ typed_state st ∧
    exception_handler (slice_over s) = Exit e' s2 ∧ Typed s2.
Proof.
  destruct (main_runs boot0 0x100 0x200 0x300 boot0_ok) as (s & v & st & Hrun & _).
  assert (typed_run (Running st, s)) as Hr.
  { apply (typed_boot boot0 0x100 0x200 0x300); try (unfold word; lia);
      [exact boot0_ok|exact boot0_typed|exact Hrun]. }
  destruct (nucleus_well_typed (Running st) s Hr) as (HT & Hst & Hnext).
  destruct (Hnext eq_refl (slice_over s) (slice_over_outside s) (slice_over_typed s HT)) as [_ Hserved].
  destruct (Hserved (slice_over_interrupts s)) as (e' & s2 & Hrun2 & HT2 & _).
  exists st, s, e', s2. exact (conj Hrun (conj Hst (conj Hrun2 HT2))).
Defined.
