(* ===== verification/Properties.v ===== *)
(** * What the development shows of the tables and the scheduler

    The main theorems about the process and semaphore tables, the scheduler
    and the boot, each followed by an instance on the machine [umps3] booted
    from zeroed memory. *)

From Stdlib Require Import ZArith Lia String.
From stdpp Require Import base tactics option numbers gmap list relations.
From S2P Require Import Prelude ListHead Machine Kernel View Pcb Asl Scheduler Invariant Process Dispatch Semaphores Init.

Open Scope string_scope.
Open Scope list_scope.
Open Scope Z_scope.

Section theorems.
Context {U : Umps} {L : UmpsLaws}.
Implicit Types (s : kernel) (v : view) (a : list nat) (i p : nat) (k : Z).

(** C3: [kill_progeny] terminates (fuel for one more than the number of PCBs
    is enough), reports success, and kills exactly the descendants of its
    argument, itself included: their PCBs go back to the pool and they leave
    the ready queues, the semaphore queues and the counters, while every
    survivor's PCB and the place of the survivors in the queues are
    unchanged, and the invariant of the tables holds again. *)
Theorem kill_progeny_kills_descendants a s v p :
  Inv a s v -> (p < MAX_PROC)%nat -> p ∉ v_free v ->
  ∃ s' v' dead, kill_progeny kill_fuel (Some p) s = Ok 0 s' ∧ Inv a s' v' ∧
    (∀ x, x ∈ dead ↔ descends (v_child v) p x) ∧
    v_free v' = reverse dead ++ v_free v ∧
    (∀ b, v_ready b v' = rem_all dead (v_ready b v)) ∧
    blocked s' v' = purge dead (blocked s v) ∧
    process_count s' = process_count s - Z.of_nat (length dead) ∧
    (∀ x, x ∉ dead → pcb_table s' !! x = pcb_table s !! x) ∧ frame s s'.
Proof.
  intros HI Hlt Hf.
  destruct (kill_progeny_spec a s v p HI Hlt Hf) as (s' & v' & cs & ds & Hrun & HI' & Hcs & HK & Hpo).
  exists s', v', (ds ++ [p]). split_and!; try done; try (by apply HK).
  - intros x. by apply (killed_set _ _ cs).
  - pose proof (count_procs _ _ (inv_counts _ _ _ HI)) as ->.
    pose proof (count_procs _ _ (inv_counts _ _ _ HI')) as ->.
    rewrite (kd_free _ _ _ _ _ HK), length_app, length_reverse. lia.
Qed.

(** C4: with no process to preserve and none that yielded, [schedule] runs the
    first process of the high priority queue, or if that is empty the first
    one of the low priority queue, and takes it off its queue; its processor
    state is its saved one with interrupts enabled, and with the local timer
    on for high priority (where the comment in scheduler.c has it disabled).
    If no process is ready, the machine halts when no
    process is alive and waits for an interrupt otherwise. *)
Theorem schedule_picks_first_ready s v e :
  Inv [] s v -> yield_process s = None ->
  match next_ready v with
  | Some (b, i, l) =>
      ∃ c s', pcb_table s !! i = Some c ∧ is_true (p_prio c) = b ∧
        schedule None e s = Exit (Running (running_state c)) s' ∧
        active_process s' = Some i ∧ Inv [i] s' (set_v_ready b l v) ∧
        blocked s' (set_v_ready b l v) = blocked s v ∧ mem s' = mem s
  | None =>
      schedule None e s =
      if process_count s =? 0 then Exit Halted s else Exit Waiting (waiting_state s)
  end.
Proof.
  intros HI Hy. destruct (next_ready v) as [[[b i] l]|] eqn:Hn; [|by eapply schedule_idle_spec].
  destruct (schedule_ready_spec [] s v b i l e HI Hy Hn) as (c & s' & Hc & Hrun & Hd & HI' & Hb).
  exists c, s'. split_and!; try done; try (by destruct Hd as (h & lt & ->)).
  apply (pool_ready _ _ (inv_pool _ _ _ HI) _ _ _ Hc).
  destruct (next_ready_Some _ _ _ _ Hn) as [-> _]. left.
Qed.

(** C5: [P] by the running process [i].  On a semaphore at 0 the process goes
    to the end of its queue and the caller has to schedule another one;
    otherwise, if processes are blocked on the semaphore the first one becomes
    ready, at the end of the queue of its priority, and the value stays; and
    if none is, the value goes down by one.  The invariant holds after each. *)
Theorem P_refines s v i c k :
  Inv [i] s v -> addr_ok k -> active_process s = Some i -> pcb_table s !! i = Some c ->
  p_sem_add c = 0 -> ¬ in_queue v i ->
  ∃ r s' v', P k (Some i) s = Ok r s' ∧
    if sem_value s k =? 0 then
      r = CONTROL_BLOCK ∧ Inv [] s' v' ∧ same_procs v v' ∧ mem s' = mem s ∧
      blocked s' v' = <[k := default [] (blocked s v !! k) ++ [i]]> (blocked s v)
    else
      r = CONTROL_RESCHEDULE (Some i) ∧ Inv [i] s' v' ∧
      match blocked s v !! k with
      | Some (t :: _) =>
          mem s' = mem s ∧ blocked s' v' = leave k t (blocked s v) ∧
          ∃ d, pcb_table s !! t = Some d ∧
            ∀ b, v_ready b v' = if Bool.eqb (is_true (p_prio d)) b
                                then v_ready b v ++ [t] else v_ready b v
      | _ => mem s' = <[k := u32 (sem_value s k - 1)]> (mem s) ∧ v' = v ∧
             blocked s' v' = blocked s v
      end.
Proof.
  intros HI Hk Ha Hc Hz Hi. destruct (Z.eqb_spec (sem_value s k) 0) as [Hv|Hv].
  { destruct (P_block [i] s v k i c HI Hk Hv Hc Hz Hi) as (h & T & v' & Hrun & HI' & Hsame & Hb).
    eexists _, _, v'. split; [exact Hrun|]. split_and!; try done.
    eapply Inv_placed; [exact HI'|]. intros x [Hne Hx]%elem_of_rem. set_solver. }
  destruct (blocked s v !! k) as [l|] eqn:Hl.
  - destruct (blocked_nonempty _ _ _ (inv_rep _ _ _ HI) (inv_asl _ _ _ HI) _ _ eq_refl Hl) as [Hne _].
    destruct l as [|t l]; [done|].
    destruct (P_wake [i] s v k i t l HI Hk Hv Hl) as (d & s' & v' & Hrun & Hw).
    exists (CONTROL_RESCHEDULE (active_process s)), s', v'. rewrite Ha in *.
    pose proof Hw as (h & v1 & Es' & Hd & HI' & _ & _ & Hb).
    split_and!; [done|done|done|by rewrite Es'|done|]. exists d. split; [done|]. intros b.
    eapply (woken_ready _ _ _ _ _ _ _ _ b HI Hw).
    rewrite (blocked_sem_add _ _ _ (inv_rep _ _ _ HI) (inv_asl _ _ _ HI) _ _ _ _ Hl ltac:(left) Hd).
    destruct Hk. lia.
  - eexists _, _, v. split; [by apply (P_dec [i] s v)|]. rewrite Ha.
    destruct (Inv_mem [i] s v (<[k := u32 (sem_value s k - 1)]> (mem s)) HI) as [HI' Hb].
    split_and!; done.
Qed.

(** C6: [V] by a running process [i].  On a semaphore at 1 the process that
    runs goes to the end of its queue; otherwise, if processes are blocked on
    the semaphore the first one becomes ready, at the end of the queue of its
    priority, and is returned, the value unchanged; and if none is, the value
    goes up by one and the active process is returned. *)
Theorem V_refines s v i c k :
  Inv [i] s v -> addr_ok k -> active_process s = Some i -> pcb_table s !! i = Some c ->
  p_sem_add c = 0 -> ¬ in_queue v i ->
  ∃ r s' v', V k s = Ok r s' ∧
    if sem_value s k =? 1 then
      r = None ∧ Inv [] s' v' ∧ same_procs v v' ∧ mem s' = mem s ∧
      blocked s' v' = <[k := default [] (blocked s v !! k) ++ [i]]> (blocked s v)
    else
      Inv [i] s' v' ∧
      match blocked s v !! k with
      | Some (t :: _) =>
          r = Some t ∧ mem s' = mem s ∧ blocked s' v' = leave k t (blocked s v) ∧
          ∃ d, pcb_table s !! t = Some d ∧
            ∀ b, v_ready b v' = if Bool.eqb (is_true (p_prio d)) b
                                then v_ready b v ++ [t] else v_ready b v
      | _ => r = Some i ∧ mem s' = <[k := u32 (sem_value s k + 1)]> (mem s) ∧ v' = v ∧
             blocked s' v' = blocked s v
      end.
Proof.
  intros HI Hk Ha Hc Hz Hi. destruct (Z.eqb_spec (sem_value s k) 1) as [Hv|Hv].
  { destruct (V_block [i] s v k i c HI Hk Hv Ha Hc Hz Hi) as (h & T & v' & Hrun & HI' & Hsame & Hb).
    eexists _, _, v'. split; [exact Hrun|]. split_and!; try done.
    eapply Inv_placed; [exact HI'|]. intros x [Hne Hx]%elem_of_rem. set_solver. }
  destruct (blocked s v !! k) as [l|] eqn:Hl.
  - destruct (blocked_nonempty _ _ _ (inv_rep _ _ _ HI) (inv_asl _ _ _ HI) _ _ eq_refl Hl) as [Hne _].
    destruct l as [|t l]; [done|].
    destruct (V_wake [i] s v k t l HI Hk Hv Hl) as (d & s' & v' & Hrun & Hw).
    exists (Some t), s', v'. pose proof Hw as (h & v1 & Es' & Hd & HI' & _ & _ & Hb).
    split_and!; [done|done|done|by rewrite Es'|done|]. exists d. split; [done|]. intros b.
    eapply (woken_ready _ _ _ _ _ _ _ _ b HI Hw).
    rewrite (blocked_sem_add _ _ _ (inv_rep _ _ _ HI) (inv_asl _ _ _ HI) _ _ _ _ Hl ltac:(left) Hd).
    destruct Hk. lia.
  - eexists _, _, v. split; [by apply (V_inc [i] s v)|].
    destruct (Inv_mem [i] s v (<[k := u32 (sem_value s k + 1)]> (mem s)) HI) as [HI' Hb].
    split_and!; done.
Qed.

(** [insert_blocked] implements the abstract map of waiting processes: the
    process goes to the end of the queue of its semaphore, which becomes
    active if it was not.  It never runs out of descriptors (result 4), since
    every active semaphore has a process waiting and there are as many
    descriptors as PCBs. *)
Theorem insert_blocked_refines s v i c k :
  Rep s v -> Asl s v -> addr_ok k -> pcb_table s !! i = Some c -> p_sem_add c = 0 ->
  ¬ in_queue v i ->
  ∃ s' v', insert_blocked k (Some i) s = Ok 0 s' ∧ Rep s' v' ∧ Asl s' v' ∧ same_procs v v' ∧
    pcb_table s' = <[i := set_p_sem_add k c]> (pcb_table s) ∧
    blocked s' v' = <[k := default [] (blocked s v !! k) ++ [i]]> (blocked s v).
Proof.
  intros HRep HA Hk Hc Hz Hi.
  destruct (insert_blocked_spec s v k i c HRep HA Hk Hc Hz Hi)
    as (h & T & v' & Hrun & HRep' & HA' & Hsame & Hb).
  eexists _, v'. split; [exact Hrun|]. by split_and!.
Qed.

(** The counterpart of the insertion: [remove_blocked] implements the abstract map: it returns nothing when
    nobody waits on the semaphore, and otherwise the process that has waited
    longest, which no longer waits; the semaphore stops being active when
    that was the last one. *)
Theorem remove_blocked_refines s v k :
  Rep s v -> Asl s v -> addr_ok k ->
  match blocked s v !! k with
  | Some (i :: l) =>
      ∃ c s' v', pcb_table s !! i = Some c ∧ p_sem_add c = k ∧
        remove_blocked k s = Ok (Some i) s' ∧ Rep s' v' ∧ Asl s' v' ∧ same_procs v v' ∧
        pcb_table s' = <[i := set_p_sem_add 0 c]> (pcb_table s) ∧
        blocked s' v' = match l with [] => delete k (blocked s v) | _ => <[k := l]> (blocked s v) end
  | _ => remove_blocked k s = Ok None s
  end.
Proof.
  intros HRep HA Hk. destruct (blocked s v !! k) as [[|i l]|] eqn:Hl.
  - by destruct (blocked_nonempty _ _ _ HRep HA _ _ eq_refl Hl).
  - destruct (remove_blocked_spec s v k i l HRep HA Hk Hl)
      as (c & h & v' & Hc & Hsem & Hrun & HRep' & HA' & Hsame & Hb).
    eexists c, _, v'. split; [done|]. split; [done|]. split; [exact Hrun|]. by split_and!.
  - by apply (remove_blocked_none s v).
Qed.

(** C7: [spawn_process] refuses any priority but 0 and 1 and fails only when
    no PCB is free; otherwise the new process is the first free PCB, with
    every field blank but its priority and a fresh pid, at the end of the
    ready queue of its priority, and the invariant holds. *)
Theorem spawn_process_spawns a s v prio :
  Inv a s v ->
  ∃ r s', spawn_process prio s = Ok r s' ∧
    match v_free v with
    | i :: l =>
        if (prio =? 0) || (prio =? 1) then
          r = Some i ∧ (∃ c, pcb_table s !! i = Some c ∧
            pcb_table s' = <[i := fresh_pcb i (recycle_count s) prio c]> (pcb_table s)) ∧
          process_count s' = process_count s + 1 ∧
          Inv a s' (v_spawn (is_true prio) i l v) ∧
          blocked s' (v_spawn (is_true prio) i l v) = blocked s v
        else r = None ∧ s' = s
    | [] => r = None ∧ s' = s
    end.
Proof.
  intros HI. destruct (v_free v) as [|i l] eqn:Hf.
  { eexists _, _. split; [by eapply spawn_process_none|done]. }
  destruct (Z.eqb_spec prio 0) as [H0|H0]; [|destruct (Z.eqb_spec prio 1) as [H1|H1]]; cbn [orb].
  1, 2: destruct (spawn_process_spec a s v prio i l HI ltac:(tauto) Hf) as (c & h & Hc & Hrun & HI' & Hb);
    eexists _, _; split; [exact Hrun|]; split_and!; try done; [by exists c|];
    pose proof (count_procs _ _ (inv_counts _ _ _ HI)) as Ec;
    pose proof (count_procs _ _ (inv_counts _ _ _ HI')) as ->;
    rewrite Ec, Hf; unfold v_spawn; rewrite v_free_set_ready; simpl; lia.
  eexists _, _. split; [by apply spawn_process_bad_prio|done].
Qed.

(** C8: [find_process] finds a process by its pid, the only living one that
    has it, and nothing for a pid that no living process has. *)
Theorem find_process_finds a s v pid :
  Inv a s v ->
  ∃ r, find_process pid s = Ok r s ∧
    ∀ i, r = Some i ↔ pid ≠ NULL_PID ∧ ∃ c, pcb_table s !! i = Some c ∧ p_pid c = pid.
Proof. apply find_process_spec. Qed.

(** C9: [get_iodev] maps the command register of a device, or of one of the
    two sub-devices of a terminal, to its interrupt line and to a semaphore
    of its own, which is a valid address and is not the clock's; distinct
    devices have distinct semaphores. *)
Theorem get_iodev_own_semaphore line dev w s :
  is_subdevice line dev w ->
  ∃ k, get_iodev (command_addr line dev w) s = Ok {| semaphore := k; interrupt_line := line |} s ∧
    addr_ok k ∧ k ≠ get_timer_semaphore ∧
    ∀ line' dev' w', is_subdevice line' dev' w' ->
      get_iodev (command_addr line' dev' w') s = Ok {| semaphore := k; interrupt_line := line' |} s ->
      line' = line ∧ dev' = dev ∧ w' = w.
Proof.
  intros Hd. pose proof (sem_index_range line dev w (proj1 Hd)) as Hr.
  exists (semaphores (sem_index line dev w)). split_and!.
  - by apply get_iodev_spec.
  - apply semaphores_addr_ok. lia.
  - unfold get_timer_semaphore. rewrite !semaphores_value by lia. lia.
  - intros line' dev' w' Hd' E. rewrite get_iodev_spec in E by done. injection E as E.
    pose proof (sem_index_range line' dev' w' (proj1 Hd')) as Hr'.
    rewrite !semaphores_value in E by lia. apply sem_index_inj; [done|done|lia].
Qed.

(** C10: booted from zeroed memory, [main] establishes the invariant and gives
    the processor to the only process, the test process, in kernel mode (KUp
    clear) with interrupts enabled (IEp set), its program counter at the entry point and its stack
    at the top of RAM; nobody waits and every device semaphore is 0. *)
Theorem main_boots s tlb exc pc :
  boot_state s ->
  ∃ s' v' st i, main tlb exc pc s = Exit (Running st) s' ∧
    Inv [i] s' v' ∧ blocked s' v' = ∅ ∧ active_process s' = Some i ∧ ¬ in_queue v' i ∧
    process_count s' = 1 ∧ softblock_count s' = 0 ∧
    pc_epc st = pc ∧ reg_t9 st = pc ∧ reg_sp st = ram_top s ∧
    status st = 4 ∧
    (∀ j, 0 <= j < SEMAPHORES_NUM -> sem_value s' (semaphores j) = 0).
Proof.
  intros Hb. destruct (main_runs s tlb exc pc Hb)
    as (s' & v' & st & Hrun & HI & Hbl & Hact & Hq & Hpc & Hsb & H1 & H2 & H3 & H4 & H5).
  exists s', v', st, 19%nat. split_and!; try done. rewrite H4.
  unfold status_interrupts_on_process, status_kernel_mode_on_nucleus.
  by rewrite uninstalled, status_iep, status_kuc.
Qed.
End theorems.

(** ** Instances on the booted machine *)

#[local] Instance U3 : Umps := umps3.
#[local] Instance L3 : UmpsLaws := umps3_laws.

Lemma two_live i : (i = 18 ∨ i = 19)%nat -> (i < MAX_PROC)%nat ∧ i ∉ v_free v_two.
Proof.
  intros Hi. split; [unfold MAX_PROC; lia|].
  destruct Hi as [-> | ->]; apply (bool_decide_unpack _); vm_compute; exact I.
Qed.

(** The second process dies, alone. *)
Lemma kill_progeny_witness :
  ∃ s' v' dead, kill_progeny kill_fuel (Some 18%nat) booted_two = Ok 0 s' ∧
    v_free v' = reverse dead ++ v_free v_two ∧ blocked s' v' = purge dead ∅.
Proof.
  destruct booted_two_inv as (HI & Hb & _).
  destruct (kill_progeny_kills_descendants [19%nat] booted_two v_two 18 HI
    (proj1 (two_live 18 (or_introl eq_refl))) (proj2 (two_live 18 (or_introl eq_refl))))
    as (s' & v' & dead & Hrun & _ & _ & Hf & _ & Hb' & _).
  exists s', v', dead. rewrite Hb in Hb'. exact (conj Hrun (conj Hf Hb')).
Defined.

Lemma schedule_picks_witness :
  ∃ st s', schedule None false booted = Exit (Running st) s' ∧ active_process s' = Some 19%nat.
Proof.
  destruct booted_inv as (HI & _ & Hy & _).
  destruct (schedule_picks_first_ready booted v_ready_boot false HI Hy)
    as (c & s' & _ & _ & Hrun & Hact & _).
  exists (running_state c), s'. exact (conj Hrun Hact).
Defined.

Lemma timer_addr_ok : addr_ok get_timer_semaphore.
Proof. split; vm_compute; intuition congruence. Qed.

Lemma timer_value : sem_value booted_two get_timer_semaphore = 0.
Proof. apply (booted_two_sems (SEMAPHORES_NUM - 1)). split; vm_compute; congruence. Qed.

(** The running process waits for the clock, ... *)
Lemma P_refines_witness :
  ∃ s' v', P get_timer_semaphore (Some 19%nat) booted_two = Ok CONTROL_BLOCK s' ∧
    blocked s' v' = {[ get_timer_semaphore := [19%nat] ]}.
Proof.
  destruct booted_two_inv as (HI & Hb & Ha & _ & d & Hd & _ & Hz & _).
  destruct (P_refines booted_two v_two 19 d get_timer_semaphore HI timer_addr_ok Ha Hd Hz v_two_detached)
    as (r & s' & v' & Hrun & Hr).
  rewrite timer_value in Hr. destruct Hr as (-> & _ & _ & _ & Hb'). rewrite Hb, lookup_empty in Hb'.
  exists s', v'. exact (conj Hrun Hb').
Defined.

(** ... or lets the others go on. *)
Lemma V_refines_witness :
  ∃ s', V get_timer_semaphore booted_two = Ok (Some 19%nat) s' ∧
    mem s' !! get_timer_semaphore = Some 1.
Proof.
  destruct booted_two_inv as (HI & Hb & Ha & _ & d & Hd & _ & Hz & _).
  destruct (V_refines booted_two v_two 19 d get_timer_semaphore HI timer_addr_ok Ha Hd Hz v_two_detached)
    as (r & s' & v' & Hrun & Hr).
  rewrite timer_value, Hb, lookup_empty in Hr. destruct Hr as (_ & -> & Hm & _).
  exists s'. split; [exact Hrun|]. rewrite Hm, lookup_insert_eq. reflexivity.
Defined.

Lemma insert_blocked_witness :
  ∃ s' v', insert_blocked 0x20020000 (Some 19%nat) booted_two = Ok 0 s' ∧
    blocked s' v' = {[ 0x20020000 := [19%nat] ]}.
Proof.
  destruct booted_two_inv as (HI & Hb & _ & _ & d & Hd & _ & Hz & _).
  destruct (insert_blocked_refines booted_two v_two 19 d 0x20020000 (inv_rep _ _ _ HI) (inv_asl _ _ _ HI)
    ltac:(split; vm_compute; intuition congruence) Hd Hz v_two_detached)
    as (s' & v' & Hrun & _ & _ & _ & _ & Hb').
  exists s', v'. rewrite Hb, lookup_empty in Hb'. exact (conj Hrun Hb').
Defined.

Lemma remove_blocked_witness : remove_blocked 0x20020000 booted_two = Ok None booted_two.
Proof.
  destruct booted_two_inv as (HI & Hb & _).
  pose proof (remove_blocked_refines booted_two v_two 0x20020000 (inv_rep _ _ _ HI) (inv_asl _ _ _ HI)
    ltac:(split; vm_compute; intuition congruence)) as Hr.
  rewrite Hb, lookup_empty in Hr. exact Hr.
Defined.

Lemma spawn_process_witness :
  ∃ s', spawn_process 1 booted_two = Ok (Some 17%nat) s' ∧ process_count s' = process_count booted_two + 1.
Proof.
  destruct booted_two_inv as (HI & _).
  destruct (spawn_process_spawns [19%nat] booted_two v_two 1 HI) as (r & s' & Hrun & Hr & _ & Hpc & _).
  exists s'. rewrite Hr in Hrun. exact (conj Hrun Hpc).
Defined.

Lemma find_process_witness : find_process 20 booted = Ok (Some 19%nat) booted.
Proof.
  destruct booted_inv as (HI & _ & _ & d & Hd & _ & Hpid).
  destruct (find_process_finds [] booted v_ready_boot 20 HI) as (r & Hrun & Hr).
  assert (20 ≠ NULL_PID) as Hne by discriminate.
  assert (r = Some 19%nat) as Er.
  { apply Hr. split; [exact Hne|]. exists d. split; [exact Hd|exact Hpid]. }
  subst r. exact Hrun.
Defined.

(** The transmitter of terminal 3. *)
Lemma get_iodev_witness :
  ∃ k, get_iodev (command_addr 7 3 true) boot0 = Ok {| semaphore := k; interrupt_line := 7 |} boot0 ∧ addr_ok k.
Proof.
  destruct (get_iodev_own_semaphore 7 3 true boot0) as (k & Hrun & Hk & _).
  - split; [vm_compute; intuition congruence|reflexivity].
  - exists k. exact (conj Hrun Hk).
Defined.

Lemma main_boots_witness : ∃ st s', main 0x100 0x200 0x300 boot0 = Exit (Running st) s' ∧ pc_epc st = 0x300.
Proof.
  destruct (main_boots boot0 0x100 0x200 0x300 boot0_ok) as (s' & v' & st & i & Hrun & _ & _ & _ & _ & _ & _ & Hpc & _).
  exists st, s'. exact (conj Hrun Hpc).
Defined.
