(* ===== verification/Behaviour.v ===== *)
(** * What the development shows of the system calls, the exceptions and runs

    The main theorems about the services of the nucleus and about whole runs
    of the machine, each followed by an instance: on the machine [umps3], with
    the second process ready and the first one, number 19, running with chosen
    registers. *)

From Stdlib Require Import ZArith Lia String.
From stdpp Require Import base tactics option numbers gmap list fin vector relations.
From S2P Require Import Prelude ListHead Machine Kernel View Pcb Asl Scheduler Invariant Process Dispatch Semaphores Contract Syscall Exception Trap Lifecycle Init Run.

Open Scope string_scope.
Open Scope list_scope.
Open Scope Z_scope.

Section theorems.
Context {U : Umps} {L : UmpsLaws}.
Implicit Types (s : kernel) (v : view) (a : list nat) (i j p t : nat) (c d : pcb_t) (e : exit_t).

(** C1: in every run of the machine, whatever the processes do between the
    exceptions to the memory and the registers outside the nucleus, every
    exception is served, provided that no device interrupts while an earlier
    interrupt of it is unclaimed ([well_interrupted]: its semaphore is not 1):
    the handler neither dereferences a wild or NULL pointer nor runs for ever.
    When the nucleus is left its invariant is intact, either running a process
    that is alive, on no queue and waits for nothing, or in the support code of
    such a process, or waiting with processes alive, or halted with none; the
    other exits, a deliberate panic and an address trap, end the run, and of
    them nothing is said.  The proviso is needed: while a process runs, an
    unclaimed interrupt of a disk, flash, network or printer device makes the
    nucleus follow a NULL pointer. *)
Theorem reachable_safe e s :
  reachable (e, s) ->
  Exits e s ∧
  (resumes e = true -> ∀ s1, outside s s1 ->
    (well_interrupted s1 -> ∃ e' s2, exception_handler s1 = Exit e' s2 ∧ reachable (e', s2)) ∧
    (active_process s1 ≠ None -> unclaimed s1 -> exception_handler s1 = Fault "NULL pcb_t")).
Proof.
  intros Hr. pose proof (reachable_exits _ Hr) as HE. split; [exact HE|].
  intros He s1 Ho. split.
  2: { intros Ha Hun. destruct (exits_rest e s He HE) as (Hclk & v & HR).
       destruct (outside_rest s s1 v Ho Hclk HR) as [_ [(i & c & HO)|HI]]; [by apply (unclaimed_trap i c s1 v)|].
       by destruct (Ha (idle_active _ _ HI)). }
  intros Hw. destruct (exception_exits e s s1 He HE Ho Hw) as (e' & s2 & Hrun & _).
  exists e', s2. split; [done|]. destruct Hr as (x0 & Hb & Hr). exists x0. split; [done|].
  eapply rtc_r; [exact Hr|]. by eapply step_exception.
Qed.

(** C11: when the local timer of the running process expires its state is
    saved, the time it has used is charged to it, it goes to the end of the
    ready queue of its priority, and the first process of the high priority
    queue, or else of the low priority one, runs. *)
Theorem time_slice_ends i c s v st :
  On i c s v -> saved_states s !! BIOSDATAPAGE = Some st ->
  CAUSE_GET_EXCCODE (cpu_cause s) = 0 -> Z.land (cpu_cause s) (CAUSE_IP IL_IPI) = 0 ->
  Z.land (cpu_cause s) (CAUSE_IP IL_CPUTIMER) ≠ 0 ->
  let b := is_true (p_prio c) in
  let v1 := set_v_ready b (v_ready b v ++ [i]) v in
  let T := <[i := set_p_s st (set_p_time (used_time s c) c)]> (pcb_table s) in
  ∃ b' j l d s', next_ready v1 = Some (b', j, l) ∧ T !! j = Some d ∧
    exception_handler s = Exit (Running (running_state d)) s' ∧
    On j (set_p_s (running_state d) d) s' (set_v_ready b' l v1) ∧
    pcb_table s' = <[j := set_p_s (running_state d) d]> T ∧
    blocked s' (set_v_ready b' l v1) = blocked s v.
Proof. apply time_slice_spec. Qed.

(** C15: CREATEPROCESS from the trap to the return, for a process in kernel
    mode, with a state in memory and a valid priority: the caller goes on at
    once, past its call.  If a PCB is free the caller has the new pid in v0; its
    last child is now a process with the given state, priority and support
    structure and no time used, at the end of the ready queue of its priority.
    If no PCB is free it has 0 in v0, and nothing else changes. *)
Theorem create_process_creates i c s v st img :
  On i c s v -> saved_states s !! BIOSDATAPAGE = Some st -> CAUSE_GET_EXCCODE (cpu_cause s) = 8 ->
  Z.testbit (status st) 3 = false -> s32 (reg_a0 st) = CREATEPROCESS ->
  reg_a2 st = 0 ∨ reg_a2 st = 1 -> reg_a1 st ≠ 0 -> saved_states s !! reg_a1 st = Some img ->
  ∃ e s' u, exception_handler s = Exit e s' ∧
    match v_free v with
    | [] => runs_on i (past_call (set_reg_v0 (u32 NULL_PID) st) u c) (pcb_table s) (mem s) (blocked s v) v e s'
    | j :: l =>
        ∃ cs, v_child v !! i = Some cs ∧
          let pid := make_pid (Z.of_nat j) (recycle_count s) in
          runs_on i (past_call (set_reg_v0 (u32 pid) st) u c)
            (<[j := child_pcb i img (reg_a3 st) (reg_a2 st) pid]> (pcb_table s)) (mem s) (blocked s v)
            (set_v_child (<[i := cs ++ [j]]> (<[j := []]> (v_child v)))
               (v_spawn (is_true (reg_a2 st)) j l v)) e s'
    end.
Proof. apply create_process_trap. Qed.

(** C16: TERMPROCESS from the trap to the return, for a process in kernel mode,
    with the pid of a living process: that process dies with all its
    descendants, which leave the queues, the semaphores and the tree for the
    pool of free PCBs; the others keep their places.  If the caller is one of
    the dead the first ready process runs, or the machine waits, or it stops
    because nobody is left; otherwise the caller goes to the end of its queue. *)
Theorem terminate_process_kills i c s v st p d :
  On i c s v -> saved_states s !! BIOSDATAPAGE = Some st -> CAUSE_GET_EXCCODE (cpu_cause s) = 8 ->
  Z.testbit (status st) 3 = false -> s32 (reg_a0 st) = TERMPROCESS ->
  reg_a1 st ≠ 0 -> pcb_table s !! p = Some d -> p_pid d = reg_a1 st ->
  ∃ e s', exception_handler s = Exit e s' ∧ ends i c s v st p e s'.
Proof. apply terminate_process_trap. Qed.

(** C17: "pass up or die" for a TLB exception (codes 1 to 3) and for a program
    trap (any code but these, an interrupt and a system call), from the trap:
    of a process with a support structure the state of the exception is saved
    in it and the support code runs through the context of the exception's
    kind, in the same process; a process without one dies with its
    descendants, and the first ready process runs, if any. *)
Theorem passes_up_or_dies type i c s v st :
  On i c s v -> saved_states s !! BIOSDATAPAGE = Some st ->
  fault_kind (CAUSE_GET_EXCCODE (cpu_cause s)) = Some type ->
  (∀ su, p_support c ≠ 0 -> supports s !! p_support c = Some su ->
    ∃ e s', exception_handler s = Exit e s' ∧ taken_up type i c (caller c st s) st su s v e s') ∧
  (p_support c = 0 -> ∃ e s', exception_handler s = Exit e s' ∧ ends i c s v st i e s').
Proof. apply fault_trap. Qed.


(** C21: PASSEREN and VERHOGEN from the trap to the return, for a process in
    kernel mode.  PASSEREN on a semaphore at 0, and VERHOGEN on one at 1, block
    the caller behind those that wait there already, with its program counter
    past the call, and the first ready process runs, or the machine waits if
    there is none.  Otherwise, if a process waits there the first one becomes
    ready and the value stays, and if none does the value goes down, or up, by
    one; the caller goes to the end of its ready queue, past the call. *)
Theorem semaphore_calls i c s v st :
  On i c s v -> saved_states s !! BIOSDATAPAGE = Some st -> CAUSE_GET_EXCCODE (cpu_cause s) = 8 ->
  Z.testbit (status st) 3 = false -> addr_ok (reg_a1 st) ->
  let value := sem_value s (reg_a1 st) in
  (s32 (reg_a0 st) = PASSEREN ->
    if value =? 0 then ∃ e s', exception_handler s = Exit e s' ∧ blocks_caller i c s v st (reg_a1 st) e s'
    else goes_on i c s v st (reg_a1 st) (u32 (value - 1))) ∧
  (s32 (reg_a0 st) = VERHOGEN ->
    if value =? 1 then ∃ e s', exception_handler s = Exit e s' ∧ blocks_caller i c s v st (reg_a1 st) e s'
    else goes_on i c s v st (reg_a1 st) (u32 (value + 1))).
Proof.
  intros HO Hst Hcode Hkm Hk. split; intros Hid; [by apply passeren_trap_spec|by apply verhogen_trap_spec].
Qed.

(** C13: YIELD from the trap to the return, for a process in kernel mode: the
    first ready process runs, of the high priority if there is one and of the
    low priority otherwise, even if the caller has the high one, and the caller
    goes to the end of its own ready queue, past its call; if no other process
    is ready it goes on at once. *)
Theorem yield_gives_way i c s v st :
  On i c s v -> saved_states s !! BIOSDATAPAGE = Some st -> CAUSE_GET_EXCCODE (cpu_cause s) = 8 ->
  Z.testbit (status st) 3 = false -> s32 (reg_a0 st) = YIELD ->
  ∃ e s', exception_handler s = Exit e s' ∧
    gives_turn i c v (<[i := past_call st (charged s c) c]> (pcb_table s)) (mem s) (blocked s v) e s'.
Proof. apply yield_trap_spec. Qed.

(** C18: a system call that is not the nucleus' to serve, from the trap: a
    positive number or one of no service, any call from user mode, a priority
    that is neither 0 nor 1, a NULL state, semaphore or command register, pid 0
    or one that nobody has, a device that somebody waits for already.  Of a
    process with a support structure the state of the BIOS data page is saved
    there and the context of general exceptions runs; the caller stays the
    running process, is charged, and a call of the nucleus from user mode is
    marked as a reserved instruction in its PCB, though not in the state that
    the support level sees.  A process without one dies with its descendants. *)
Theorem calls_are_handed_up i c s v st :
  On i c s v -> saved_states s !! BIOSDATAPAGE = Some st -> CAUSE_GET_EXCCODE (cpu_cause s) = 8 ->
  handed_up s v st ->
  (∀ su, p_support c ≠ 0 -> supports s !! p_support c = Some su ->
    ∃ e s', exception_handler s = Exit e s' ∧
      taken_up GENERALEXCEPT i c (caller c (marked st) s) st su s v e s') ∧
  (p_support c = 0 -> ∃ e s', exception_handler s = Exit e s' ∧ ends i c s v st i e s').
Proof. intros HO Hst Hcode Hh. split; [intros su Hnz Hsu; by apply handed_up_trap|by apply handed_up_dies]. Qed.

(** An interrupt of a device whose semaphore is still 1 (an interrupt that
    nobody has claimed, for instance because the process that waited for it
    was killed) makes the nucleus follow a NULL pointer while a process runs:
    [V] blocks that process and returns NULL, and [return_status] takes it for
    the process it woke up. *)
Theorem unclaimed_interrupt_faults i c s v il :
  On i c s v ->
  il = pending_line (Z.to_nat (IL_PRINTER + 1 - IL_DISK)) IL_DISK (cpu_cause s) ->
  IL_DISK <= il <= IL_PRINTER -> 0 <= default 0 (mem s !! CDEV_BITMAP_ADDR il) < 256 ->
  let dev := due_device s il in
  sem_value s (semaphores (sem_index il dev false)) = 1 ->
  Z.land (sem_value s (DEV_REG_ADDR il dev + RECV_STATUS)) TERMSTATMASK ≠ DEV_STATUS_NOTINSTALLED ->
  interrupt_generic (cpu_cause s) s = Fault "NULL pcb_t".
Proof. apply unclaimed_faults. Qed.
End theorems.

(** ** Instances *)

#[local] Instance U3 : Umps := umps3.
#[local] Instance L3 : UmpsLaws := umps3_laws.

(** The cause of a local timer interrupt. *)
Definition plt_cause : Z := 0x200.

Lemma plt_interrupts_ok s : interrupts_ok s plt_cause.
Proof.
  intros line w Hl _ Hc. exfalso. apply Hc. simpl in Hl |- *.
  assert (line = 3 ∨ line = 4 ∨ line = 5 ∨ line = 6 ∨ line = 7) as [->|[->|[->|[->| ->]]]] by lia; done.
Qed.

(** Between two exceptions: the local timer is about to expire. *)
Definition expired (s : kernel) : kernel :=
  set_cpu_cause plt_cause (set_saved_states {[ BIOSDATAPAGE := state0 ]} s).

(** The boot, and the first time slice. *)
Lemma reachable_safe_witness :
  ∃ e s e' s2, main 0x100 0x200 0x300 boot0 = Exit e s ∧ Exits e s ∧
    exception_handler (expired s) = Exit e' s2.
Proof.
  destruct (main_runs boot0 0x100 0x200 0x300 boot0_ok) as (s & v & st & Hrun & _).
  assert (reachable (Running st, s)) as Hr.
  { exists (Running st, s). split; [|apply rtc_refl].
    exact (boots_main boot0 0x100 0x200 0x300 (Running st) s boot0_ok Hrun). }
  destruct (reachable_safe (Running st) s Hr) as [HE Hnext].
  destruct (Hnext eq_refl (expired s)) as [Hserved _].
  - split; [split; try done; apply Forall_Forall2_diag, Forall_forall; done|done|done|done].
  - destruct Hserved as (e' & s2 & Hrun2 & _); [intros _; apply plt_interrupts_ok|].
    exists (Running st), s, e', s2. exact (conj Hrun (conj HE Hrun2)).
Defined.

Definition id_pcb (c : pcb_t) : pcb_t := c.
Lemma id_pcb_role c : same_role c (id_pcb c).
Proof. done. Qed.

Lemma time_slice_witness :
  let s := trial id_pcb {[ BIOSDATAPAGE := state0 ]} ∅ ∅ plt_cause in
  ∃ st s' j, exception_handler s = Exit (Running st) s' ∧ active_process s' = Some j.
Proof.
  intros s. destruct (trial_on id_pcb {[ BIOSDATAPAGE := state0 ]} ∅ ∅ plt_cause id_pcb_role)
    as (d & HO & _).
  assert (cpu_cause s = plt_cause) as Ec by (unfold s; apply trial_cause).
  assert (saved_states s !! BIOSDATAPAGE = Some state0) as E0.
  { unfold s. rewrite trial_states. reflexivity. }
  assert (CAUSE_GET_EXCCODE (cpu_cause s) = 0) as E1 by (rewrite Ec; vm_compute; reflexivity).
  assert (Z.land (cpu_cause s) (CAUSE_IP IL_IPI) = 0) as E2 by (rewrite Ec; vm_compute; reflexivity).
  assert (Z.land (cpu_cause s) (CAUSE_IP IL_CPUTIMER) ≠ 0) as E3 by (rewrite Ec; discriminate).
  destruct (time_slice_ends 19 (id_pcb d) s v_two state0 HO E0 E1 E2 E3)
    as (b' & j & l & d' & s' & _ & _ & Hrun & HO' & _).
  exists (running_state d'), s', j. exact (conj Hrun (on_active _ _ _ _ HO')).
Defined.

Definition support0 : support_t :=
  Support 1 [# state0; state0 ] [# Context 0x1000 4 0x100; Context 0x2000 4 0x200 ] [].

Definition supported (c : pcb_t) : pcb_t := set_p_support 0x20040000 c.
Lemma supported_role c : same_role c (supported c).
Proof. done. Qed.

(** A TLB exception on a load: code 2. *)
Lemma pass_up_witness :
  let s := trial supported {[ BIOSDATAPAGE := state0 ]} {[ 0x20040000 := support0 ]} ∅ (Z.shiftl 2 2) in
  ∃ s', exception_handler s = Exit (InSupport (Context 0x1000 4 0x100)) s' ∧
    supports s' = <[0x20040000 := passed_up PGFAULTEXCEPT state0 support0]> {[ 0x20040000 := support0 ]}.
Proof.
  intros s. destruct (trial_on supported {[ BIOSDATAPAGE := state0 ]} {[ 0x20040000 := support0 ]} ∅ (Z.shiftl 2 2)
    supported_role) as (d & HO & _).
  assert (saved_states s !! BIOSDATAPAGE = Some state0) as E0 by (unfold s; rewrite trial_states; reflexivity).
  assert (fault_kind (CAUSE_GET_EXCCODE (cpu_cause s)) = Some PGFAULTEXCEPT) as E1.
  { unfold s. rewrite trial_cause. reflexivity. }
  assert (supports s = {[ 0x20040000 := support0 ]}) as E2 by (unfold s; apply trial_supports).
  assert (supports s !! p_support (supported d) = Some support0) as E3 by (rewrite E2; reflexivity).
  destruct (passes_up_or_dies PGFAULTEXCEPT 19 _ s v_two state0 HO E0 E1) as [Hup _].
  destruct (Hup support0 ltac:(discriminate) E3) as (e & s' & Hrun & He & _ & _ & Hs & _).
  rewrite E2 in Hs. rewrite He in Hrun. exists s'. exact (conj Hrun Hs).
Defined.

(** A system call: exception code 8, and the caller's registers as the BIOS
    saves them. *)
Definition sys_cause : Z := Z.shiftl 8 2.
Definition calling_state (a0 a1 : Z) : state_t := set_reg_a0 a0 (set_reg_a1 a1 state0).


(** A process with a support structure asks for its own end, with pid 0. *)
Lemma calls_are_handed_up_witness :
  let s := trial supported {[ BIOSDATAPAGE := calling_state (u32 TERMPROCESS) 0 ]}
    {[ 0x20040000 := support0 ]} ∅ sys_cause in
  ∃ s', exception_handler s = Exit (InSupport (Context 0x2000 4 0x200)) s' ∧
    supports s' = <[0x20040000 := passed_up GENERALEXCEPT (calling_state (u32 TERMPROCESS) 0) support0]>
      {[ 0x20040000 := support0 ]}.
Proof.
  intros s. destruct (trial_on supported {[ BIOSDATAPAGE := calling_state (u32 TERMPROCESS) 0 ]}
    {[ 0x20040000 := support0 ]} ∅ sys_cause supported_role) as (d & HO & _).
  assert (saved_states s !! BIOSDATAPAGE = Some (calling_state (u32 TERMPROCESS) 0)) as E0.
  { unfold s. rewrite trial_states. reflexivity. }
  assert (CAUSE_GET_EXCCODE (cpu_cause s) = 8) as E1 by (unfold s; rewrite trial_cause; reflexivity).
  assert (supports s = {[ 0x20040000 := support0 ]}) as E2 by (unfold s; apply trial_supports).
  assert (supports s !! p_support (supported d) = Some support0) as E3 by (rewrite E2; reflexivity).
  assert (handed_up s v_two (calling_state (u32 TERMPROCESS) 0)) as Hh by (apply up_terminate; [|left]; reflexivity).
  destruct (calls_are_handed_up 19 (supported d) s v_two _ HO E0 E1 Hh) as [Hup _].
  destruct (Hup support0 ltac:(discriminate) E3) as (e & s' & Hrun & He & _ & _ & Hs & _).
  rewrite E2 in Hs. rewrite He in Hrun. exists s'. exact (conj Hrun Hs).
Defined.

(** The new process is number 17. *)
Definition creating : state_t := set_reg_a2 1 (calling_state (u32 CREATEPROCESS) 0x20030000).

Lemma create_process_witness :
  let s := trial id_pcb {[ BIOSDATAPAGE := creating; 0x20030000 := state0 ]} ∅ ∅ sys_cause in
  ∃ e s' c, exception_handler s = Exit e s' ∧
    pcb_table s' !! 17%nat = Some (child_pcb 19 state0 0 1 (make_pid 17 (recycle_count s))) ∧
    pcb_table s' !! 19%nat = Some c ∧ reg_v0 (p_s c) = u32 (make_pid 17 (recycle_count s)).
Proof.
  intros s. destruct (trial_on id_pcb {[ BIOSDATAPAGE := creating; 0x20030000 := state0 ]} ∅ ∅ sys_cause
    id_pcb_role) as (d & HO & _).
  assert (saved_states s !! BIOSDATAPAGE = Some creating) as E0 by (unfold s; rewrite trial_states; reflexivity).
  assert (saved_states s !! 0x20030000 = Some state0) as E1 by (unfold s; rewrite trial_states; reflexivity).
  assert (CAUSE_GET_EXCCODE (cpu_cause s) = 8) as E2 by (unfold s; rewrite trial_cause; reflexivity).
  destruct (create_process_creates 19 d s v_two creating state0 HO E0 E2 eq_refl eq_refl (or_intror eq_refl)
    ltac:(discriminate) E1) as (e & s' & u & Hrun & cs & _ & _ & HO' & HT & _).
  exists e, s'. eexists. split; [exact Hrun|]. split; [|split; [exact (on_pcb _ _ _ _ HO')|]].
  - rewrite HT. rewrite list_lookup_insert_ne by discriminate. apply list_lookup_insert_eq.
    apply (Nat.lt_le_trans _ MAX_PROC); [unfold MAX_PROC; lia|].
    apply Nat.eq_le_incl, eq_sym, (lists_pcbs _ _ (inv_rep _ _ _ (on_inv _ _ _ _ HO))).
  - unfold running_state. destruct (is_true (p_prio _)); reflexivity.
Defined.

(** The first process asks for its own end, by its pid. *)
Definition ending (pid : Z) : kernel :=
  staged id_pcb {[ BIOSDATAPAGE := calling_state (u32 TERMPROCESS) pid ]} ∅ ∅ sys_cause booted_two.

Lemma terminate_process_witness :
  ∃ pid c e s', exception_handler (ending pid) = Exit e s' ∧
    ends 19 c (ending pid) v_two (calling_state (u32 TERMPROCESS) pid) 19 e s'.
Proof.
  destruct booted_two_on as (d & HO & _). exists (p_pid d), d.
  destruct (staged_on id_pcb {[ BIOSDATAPAGE := calling_state (u32 TERMPROCESS) (p_pid d) ]} ∅ ∅ sys_cause
    booted_two v_two d id_pcb_role HO) as [HO' _].
  assert (p_pid d ≠ 0) as Hne.
  { intros E. apply (on_live _ _ _ _ HO). by apply (pool_pid _ _ (inv_pool _ _ _ (on_inv _ _ _ _ HO)) _ _ (on_pcb _ _ _ _ HO)). }
  exact (terminate_process_kills 19 d (ending (p_pid d)) v_two (calling_state (u32 TERMPROCESS) (p_pid d)) 19 d HO'
    eq_refl eq_refl eq_refl eq_refl Hne (on_pcb _ _ _ _ HO') eq_refl).
Defined.

(** The first process yields to the second. *)
Lemma yield_witness :
  let s := trial id_pcb {[ BIOSDATAPAGE := calling_state (u32 YIELD) 0 ]} ∅ ∅ sys_cause in
  ∃ e s', exception_handler s = Exit e s' ∧ active_process s' = Some 18%nat.
Proof.
  intros s. destruct (trial_on id_pcb {[ BIOSDATAPAGE := calling_state (u32 YIELD) 0 ]} ∅ ∅ sys_cause
    id_pcb_role) as (d & HO & _).
  assert (saved_states s !! BIOSDATAPAGE = Some (calling_state (u32 YIELD) 0)) as E0.
  { unfold s. rewrite trial_states. reflexivity. }
  assert (CAUSE_GET_EXCCODE (cpu_cause s) = 8) as E1 by (unfold s; rewrite trial_cause; reflexivity).
  destruct (yield_gives_way 19 (id_pcb d) s v_two _ HO E0 E1 eq_refl eq_refl) as (e & s' & Hrun & Hg).
  change (next_ready v_two) with (Some (false, 18%nat, @nil nat)) in Hg.
  destruct Hg as (d' & _ & _ & HO' & _). exists e, s'. exact (conj Hrun (on_active _ _ _ _ HO')).
Defined.

(** A semaphore at 1 on which nobody waits. *)
Definition free_sem : Z := 0x20030000.

Lemma free_sem_ok : addr_ok free_sem.
Proof. split; [unfold free_sem; lia|reflexivity]. Qed.

Lemma semaphore_calls_witness :
  let s := trial id_pcb {[ BIOSDATAPAGE := calling_state (u32 PASSEREN) free_sem ]} ∅ {[ free_sem := 1 ]} sys_cause in
  ∃ e s', exception_handler s = Exit e s' ∧ mem s' = <[free_sem := 0]> {[ free_sem := 1 ]}.
Proof.
  intros s. destruct (trial_on id_pcb {[ BIOSDATAPAGE := calling_state (u32 PASSEREN) free_sem ]} ∅
    {[ free_sem := 1 ]} sys_cause id_pcb_role) as (d & HO & Hb & _).
  assert (saved_states s !! BIOSDATAPAGE = Some (calling_state (u32 PASSEREN) free_sem)) as E0.
  { unfold s. rewrite trial_states. reflexivity. }
  assert (CAUSE_GET_EXCCODE (cpu_cause s) = 8) as E1 by (unfold s; rewrite trial_cause; reflexivity).
  assert (mem s = {[ free_sem := 1 ]}) as Em by (unfold s; apply trial_mem).
  assert (sem_value s free_sem = 1) as Ev by (unfold sem_value; rewrite Em; reflexivity).
  destruct (semaphore_calls 19 d s v_two _ HO E0 E1 eq_refl free_sem_ok) as [Hp _].
  specialize (Hp eq_refl). change (reg_a1 _) with free_sem in Hp. rewrite Ev in Hp.
  unfold goes_on in Hp.
  change (1 =? 0) with false in Hp. cbv iota in Hp. fold s in Hb. rewrite Hb in Hp. cbn [lookup] in Hp.
  destruct Hp as (e & s' & Hrun & b & j & l & d' & _ & _ & _ & _ & _ & _ & Hm).
  rewrite Em in Hm. exists e, s'. exact (conj Hrun Hm).
Defined.

(** Flash device 2 has finished what process 19 waits for. *)
Definition flash_cause : Z := 0x1000.
Definition flash_mem : gmap Z Z := {[ CDEV_BITMAP_ADDR 4 := 4; DEV_REG_ADDR 4 2 := 1 ]}.
Definition unclaimed_mem : gmap Z Z := <[semaphores (sem_index 4 2 false) := 1]> flash_mem.

Lemma unclaimed_interrupt_witness :
  let s := trial id_pcb ∅ ∅ unclaimed_mem flash_cause in
  interrupt_generic (cpu_cause s) s = Fault "NULL pcb_t".
Proof.
  intros s. destruct (trial_on id_pcb ∅ ∅ unclaimed_mem flash_cause id_pcb_role) as (d & HO & _).
  assert (cpu_cause s = flash_cause) as Ec by (unfold s; apply trial_cause).
  assert (mem s = unclaimed_mem) as Em by (unfold s; apply trial_mem).
  assert (due_device s 4 = 2) as Ed by (unfold due_device; rewrite Em; reflexivity).
  apply (unclaimed_interrupt_faults 19 _ s v_two 4 HO).
  - rewrite Ec. reflexivity.
  - split; vm_compute; congruence.
  - rewrite Em. split; vm_compute; congruence.
  - rewrite Ed. unfold sem_value. rewrite Em. reflexivity.
  - rewrite Ed. unfold sem_value. rewrite Em. vm_compute. congruence.
Defined.
