(* ===== verification/Rounds.v ===== *)
(** * Rounds of time slices

    The processes of one priority share the processor: at the end of a time
    slice the one that ran goes behind the others ([phase2/src/exception.c],
    [interrupt_local_timer]) and the first of the queue runs
    ([os/src/scheduler.c], [schedule]).  This file follows any number of
    slices, with anything that may happen outside the nucleus between them. *)

From Stdlib Require Import ZArith Lia String.
From stdpp Require Import base tactics option numbers gmap list vector relations.
From S2P Require Import Prelude ListHead Machine Kernel View Pcb Asl Scheduler Invariant Process Dispatch Semaphores Contract Syscall Exception Trap Init Run Behaviour.

Open Scope string_scope.
Open Scope list_scope.
Open Scope Z_scope.

(** Rotating once more: the head goes to the end. *)
Lemma rotate_O {A} (l : list A) : rotate 0 l = l.
Proof. unfold rotate. rewrite Nat.Div0.mod_0_l. apply app_nil_r. Qed.

Lemma rotate_S {A} n (l : list A) x q : rotate n l = x :: q -> rotate (S n) l = q ++ [x].
Proof.
  intros E. assert (length l ≠ 0)%nat as Hl.
  { intros Hl. apply (f_equal length) in E. rewrite length_rotate in E. simpl in E. lia. }
  pose proof (Nat.mod_upper_bound n _ Hl) as Hm. unfold rotate in *.
  assert (S n `mod` length l = S (n `mod` length l) `mod` length l)%nat as ->.
  { symmetry. exact (Nat.Div0.add_mod_idemp_r 1 n (length l)). }
  set (m := (n `mod` length l)%nat) in *.
  destruct (lookup_lt_is_Some_2 l m Hm) as [y Hy].
  rewrite (drop_S _ _ _ Hy) in E. injection E as -> <-.
  rewrite <- app_assoc, <- (take_S_r _ _ _ Hy).
  destruct (decide (S m = length l)) as [Ee|Hne].
  - rewrite <- Ee, Nat.Div0.mod_same. simpl. rewrite app_nil_r.
    by rewrite (drop_ge l (S m)), (take_ge l (S m)) by lia.
  - by rewrite Nat.mod_small by lia.
Qed.

Section rounds.
Context `{UmpsLaws}.
Implicit Types (s : kernel) (v : view) (i j n : nat) (c d : pcb_t) (b : bool).

(** The local timer of the running process expires. *)
Record expires s : Prop := {
  ex_code : CAUSE_GET_EXCCODE (cpu_cause s) = 0;
  ex_ipi : Z.land (cpu_cause s) (CAUSE_IP IL_IPI) = 0;
  ex_plt : Z.land (cpu_cause s) (CAUSE_IP IL_CPUTIMER) ≠ 0;
  ex_saved : is_Some (saved_states s !! BIOSDATAPAGE);
}.

(** What may happen between the slices, the timer being all that interrupts. *)
Definition between (env : nat -> kernel -> kernel) : Prop :=
  ∀ n s, outside s (env n s) ∧ expires (env n s).

(** The state after [n] slices; [None] if a process is not running then. *)
Fixpoint slices (env : nat -> kernel -> kernel) n s : option kernel :=
  match n with
  | O => Some s
  | S n =>
      s1 ← slices env n s;
      match exception_handler (env n s1) with
      | Exit (Running _) s2 => Some s2
      | _ => None
      end
  end.

(** Process [i] of priority [b] runs and no process goes before it. *)
Definition in_turn b i s v : Prop :=
  ∃ c, On i c s v ∧ is_true (p_prio c) = b ∧ (b = false → v_hi v = []).

(** What the rounds leave alone: the other queues, and who is blocked. *)
Definition apart b (s : kernel) v (s' : kernel) v' : Prop :=
  v_ready (negb b) v' = v_ready (negb b) v ∧ v_free v' = v_free v ∧ blocked s' v' = blocked s v.

Lemma v_ready_other b q v : v_ready (negb b) (set_v_ready b q v) = v_ready (negb b) v.
Proof. by destruct b. Qed.

Lemma next_in_turn b v j l :
  (b = false → v_hi v = []) -> v_ready b v = j :: l -> next_ready v = Some (b, j, l).
Proof. unfold next_ready. destruct b; simpl; [by intros _ ->|]. by intros -> ->. Qed.

(** One slice: the queue moves on by one. *)
Lemma slice_spec b i s s1 v :
  in_turn b i s v -> outside s s1 -> expires s1 ->
  ∃ e s2 v2 j, exception_handler s1 = Exit (Running e) s2 ∧ in_turn b j s2 v2 ∧
    j :: v_ready b v2 = v_ready b v ++ [i] ∧ apart b s v s2 v2.
Proof.
  intros (c & HO & Hb & Hhi) [HS _ _ _] [Hcode Hipi Hplt [st Hst]].
  destruct (On_ext HS i c v HO) as (c1 & HO1 & _ & _ & Hp & _).
  destruct (same_tables_Inv HS [i] v (on_inv _ _ _ _ HO)) as [_ Hbl].
  destruct (time_slice_spec i c1 s1 v st HO1 Hst Hcode Hipi Hplt)
    as (b' & j & l & d & s2 & Hn & Hd & Hrun & HO2 & Hp2 & Hb2).
  rewrite Hp, Hb in Hn, HO2, Hb2. set (v1 := set_v_ready b _ v) in *.
  assert (v_ready b v1 = v_ready b v ++ [i]) as E1 by (by destruct b).
  assert (∃ j' l', v_ready b v1 = j' :: l') as (j' & l' & E2) by (rewrite E1; destruct (v_ready b v); eauto).
  rewrite (next_in_turn b v1 j' l') in Hn; [|by destruct b; [|apply Hhi]|done]. injection Hn as <- -> ->.
  exists (running_state d), s2, (set_v_ready b l v1), j. split; [exact Hrun|]. split_and!.
  - exists (set_p_s (running_state d) d). split; [exact HO2|]. split; [|by destruct b; [|apply Hhi]].
    destruct (table_upd _ _ _ _ _ _ (on_pcb _ _ _ _ HO1) Hd) as [[_ ->]|[Hne Hd1]]; [simpl; congruence|].
    apply (pool_ready _ _ (inv_pool _ _ _ (on_inv _ _ _ _ HO1)) b j d Hd1).
    assert (j ∈ v_ready b v ++ [i]) as [|Hj]%elem_of_app by (rewrite <- E1, E2; left); [done|].
    by apply list_elem_of_singleton in Hj.
  - rewrite <- E1, E2. by destruct b.
  - split; [unfold v1; by rewrite !v_ready_other|]. split; [by destruct b|by etrans].
Qed.

(** [n] slices: the processes of the queue, the running one first, have been
    rotated [n] times. *)
Lemma slices_spec env b i s v n :
  between env -> in_turn b i s v ->
  ∃ s' v' j, slices env n s = Some s' ∧ in_turn b j s' v' ∧
    j :: v_ready b v' = rotate n (i :: v_ready b v) ∧ apart b s v s' v'.
Proof.
  intros Henv Hi. induction n as [|n (s1 & v1 & j1 & Hrun & Hj1 & Hrot & (Ho & Hf & Hb))].
  - exists s, v, i. split; [done|]. by rewrite rotate_O.
  - destruct (Henv n s1) as [Hout Hexp].
    destruct (slice_spec b j1 s1 (env n s1) v1 Hj1 Hout Hexp) as (e & s2 & v2 & j & Hstep & Hj & Hq & Ho2 & Hf2 & Hb2).
    exists s2, v2, j. split; [|split; [exact Hj|split]].
    + simpl. rewrite Hrun. simpl. by rewrite Hstep.
    + by rewrite Hq, (rotate_S _ _ _ _ (eq_sym Hrot)).
    + split; [by rewrite Ho2|]. split; [by rewrite Hf2|by rewrite Hb2].
Qed.

(** Every number of slices is in the round that some place is reached in. *)
Lemma next_round k n L :
  (k < L)%nat -> ∃ m, (n <= m)%nat ∧ (m < n + L)%nat ∧ (m `mod` L = k)%nat.
Proof.
  intros Hk. pose proof (Nat.mod_upper_bound n L ltac:(lia)) as Hr.
  pose proof (Nat.div_mod_eq n L) as Hn. set (r := (n `mod` L)%nat) in *.
  destruct (decide (r <= k)%nat) as [Hle|Hgt].
  - exists (k + (n / L) * L)%nat. rewrite Nat.Div0.mod_add, Nat.mod_small by lia. split_and!; lia.
  - exists (k + (S (n / L)) * L)%nat. rewrite Nat.Div0.mod_add, Nat.mod_small by lia. split_and!; lia.
Qed.

Lemma rotate_head {A} n (l : list A) x q :
  rotate n l = x :: q -> l !! (n `mod` length l)%nat = Some x.
Proof.
  intros E. assert (0 < length l)%nat as Hl.
  { apply (f_equal length) in E. rewrite length_rotate in E. simpl in E. lia. }
  pose proof (lookup_rotate_r l n 0 Hl) as Hr. rewrite E in Hr. simpl in Hr.
  unfold rotate_nat_add in Hr. rewrite Hr. f_equal.
  by rewrite Z.add_0_r, <- Nat2Z.inj_mod, Nat2Z.id.
Qed.

(** C12: round robin: whatever happens outside the nucleus between the time
    slices, as long as only the local timer interrupts, every slice ends with
    the next process of the queue running, and the queue, the running process
    first, is the old one rotated once for every slice; the processes of the
    other priority and the blocked ones stay where they are.  So from any
    moment on each process of the queue runs within one round.  (The processes
    are those of high priority, or those of low priority when no process of
    high priority is ready: as long as one is, they do not run.) *)
Theorem round_robin env i c s v :
  between env -> On i c s v -> let b := is_true (p_prio c) in (b = false -> v_hi v = []) ->
  (∀ n, ∃ s' v' j, slices env n s = Some s' ∧ in_turn b j s' v' ∧
    j :: v_ready b v' = rotate n (i :: v_ready b v) ∧ apart b s v s' v') ∧
  ∀ n x, x ∈ i :: v_ready b v ->
    ∃ m s', (n <= m <= n + length (v_ready b v))%nat ∧ slices env m s = Some s' ∧ active_process s' = Some x.
Proof.
  intros Henv HO b Hhi. assert (in_turn b i s v) as Hi by (by exists c).
  split; [intros n; by apply slices_spec|].
  intros n x [k Hk]%list_elem_of_lookup. pose proof (lookup_lt_Some _ _ _ Hk) as Hlt.
  destruct (next_round k n _ Hlt) as (m & H1 & H2 & Hm). simpl in H2.
  destruct (slices_spec env b i s v m Henv Hi) as (s' & v' & j & Hrun & (d & HO' & _) & Hrot & _).
  exists m, s'. split; [lia|]. split; [exact Hrun|]. symmetry in Hrot.
  apply rotate_head in Hrot. rewrite Hm, Hk in Hrot. rewrite (on_active _ _ _ _ HO'). congruence.
Qed.
End rounds.

(** ** An instance: the two processes of [booted_two] *)

#[local] Instance U3 : Umps := umps3.
#[local] Instance L3 : UmpsLaws := umps3_laws.

Definition ticking (n : nat) (s : kernel) : kernel := expired s.

Lemma round_robin_witness :
  ∃ s1 s2, slices ticking 1 booted_two = Some s1 ∧ active_process s1 = Some 18%nat ∧
    slices ticking 2 booted_two = Some s2 ∧ active_process s2 = Some 19%nat.
Proof.
  destruct booted_two_inv as (HI & _ & Ha & Hy & d & Hd & _ & Hz & Hlow).
  pose proof (Build_On 19 d booted_two v_two HI Ha Hy Hd Hz v_two_detached) as HO.
  assert (between ticking) as Henv.
  { intros n s. split; [|split; [reflexivity..|discriminate|by eexists]].
    split; [split; try done; apply Forall_Forall2_diag, Forall_forall; done|done..]. }
  destruct (round_robin ticking 19 d booted_two v_two Henv HO) as [Hrot _]; [reflexivity|].
  rewrite Hlow in Hrot.
  destruct (Hrot 1%nat) as (s1 & v1 & j1 & Hrun1 & (d1 & HO1 & _) & E1 & _).
  destruct (Hrot 2%nat) as (s2 & v2 & j2 & Hrun2 & (d2 & HO2 & _) & E2 & _).
  injection E1 as -> _. injection E2 as -> _.
  exists s1, s2. split; [exact Hrun1|]. split; [apply HO1|]. split; [exact Hrun2|apply HO2].
Defined.
