(* ===== verification/Requests.v ===== *)
(** * A request to a device, from the call to the answer

    A process asks for an operation of a device with DOIO
    ([phase2/src/syscall.c], [syscall_do_io]): the command is written to the
    register of the device and the process waits on the semaphore of that
    device.  The device interrupts when it is done ([phase2/src/exception.c],
    [interrupt_generic] and [interrupt_terminal]): its status goes to the
    process that waits.  The two halves are put together here, for every device
    and both sub-devices of a terminal, whatever the other processes do
    between them. *)

From Stdlib Require Import ZArith Lia String.
From stdpp Require Import base tactics option numbers gmap list fin vector relations.
From S2P Require Import Prelude ListHead Machine Kernel View Pcb Asl Scheduler Invariant Process Dispatch Semaphores Contract Syscall Exception Trap Init Run Behaviour.

Open Scope string_scope.
Open Scope list_scope.
Open Scope Z_scope.

Section requests.
Context `{UmpsLaws}.
Implicit Types (s : kernel) (v : view) (i j t : nat) (c d : pcb_t) (st : state_t) (w : bool).

(** ** The call *)



(** ** The interrupt *)




















End requests.

(** ** An instance: process 19 asks for flash device 2, while process 18 runs *)

#[local] Instance U3 : Umps := umps3.
#[local] Instance L3 : UmpsLaws := umps3_laws.






