(* ===== verification/Locks.v ===== *)
(** * Semaphores as locks

    The system protects its shared data - the Swap Pool table and the devices
    of the support level - with semaphores that start at 1, which a process
    takes with PASSEREN and gives back with VERHOGEN ([os/src/semaphores.c],
    [phase2/src/syscall.c]).  Used like that a semaphore is a lock whose
    waiters are served in order: its abstract state is the list of the
    processes that have asked for it and not given it back, the holder
    first. *)

From Stdlib Require Import ZArith Lia String.
From stdpp Require Import base tactics option numbers gmap list vector relations.
From S2P Require Import Prelude ListHead Machine Kernel View Pcb Asl Scheduler Invariant Process Dispatch Semaphores Contract Syscall Exception Trap Init Run Behaviour.

Open Scope string_scope.
Open Scope list_scope.
Open Scope Z_scope.

(** The abstract lock: who asks comes last, and the holder leaves. *)
Definition lock : Type := list nat.
Definition acquire (i : nat) (l : lock) : lock := l ++ [i].
Definition release (l : lock) : lock := tail l.

(** The processes that wait for it. *)
Definition waiters (l : lock) : option (list nat) :=
  match l with _ :: (w :: ws) => Some (w :: ws) | _ => None end.

Lemma waiters_acquire i h l : waiters (acquire i (h :: l)) = Some (l ++ [i]).
Proof. by destruct l. Qed.

Section locks.
Context `{UmpsLaws}.
Implicit Types (s : kernel) (v : view) (i : nat) (c : pcb_t) (st : state_t) (l : lock) (k : Z).

(** The semaphore [k] represents the lock [l]: it is 1 when nobody holds it,
    and the others wait in its queue. *)
Record represents k l s v : Prop := {
  rp_value : sem_value s k = if decide (l = []) then 1 else 0;
  rp_waiters : blocked s v !! k = waiters l;
}.

Lemma next_runs_at_rest T m B v e s' :
  next_runs T m B v e s' -> ∃ v', Rest s' v' ∧ mem s' = m ∧ blocked s' v' = B.
Proof.
  intros (b & j & l & d & _ & _ & _ & HO & _ & HB & Hm). eexists. split; [|by split]. left. by eexists j, _.
Qed.

Lemma gives_way_at_rest T m B v e s' :
  gives_way T m B v e s' -> ∃ v', Rest s' v' ∧ mem s' = m ∧ blocked s' v' = B.
Proof.
  unfold gives_way. destruct (next_ready v); [by apply next_runs_at_rest|].
  intros (_ & HI & _ & HB & Hm). exists v. split; [by right|by split].
Qed.

Lemma represents_mem k l s v s' v' :
  sem_value s' k = (if decide (l = []) then 1 else 0) -> blocked s' v' !! k = waiters l -> represents k l s' v'.
Proof. by split. Qed.

(** The value in memory. *)
Lemma sem_value_mem s s' k m : mem s' = m -> sem_value s' k = s32 (default 0 (m !! k)).
Proof. by intros <-. Qed.

(** The first waiter leaves the queue. *)
Lemma waiters_leave k h w ws s v a :
  Inv a s v -> blocked s v !! k = Some (w :: ws) ->
  leave k w (blocked s v) !! k = waiters (release (h :: w :: ws)).
Proof.
  intros HI Hl. pose proof Hl as (j & _ & _ & Hq)%(blocked_lookup _ _ _ (inv_rep _ _ _ HI) (inv_asl _ _ _ HI)).
  pose proof (rep_NoDup_procq _ _ (inv_rep _ _ _ HI) j _ Hq) as Hnd.
  unfold leave. rewrite Hl. simpl default. rewrite rem_head by done.
  destruct ws; [by rewrite lookup_delete_eq|by rewrite lookup_insert_eq].
Qed.

Section operations.
Context (i : nat) (c : pcb_t) (s : kernel) (v : view) (st : state_t) (l : lock).
Context (HO : On i c s v) (Hst : saved_states s !! BIOSDATAPAGE = Some st).
Context (Hcode : CAUSE_GET_EXCCODE (cpu_cause s) = 8) (Hkernel : Z.testbit (status st) 3 = false).
Let k : Z := reg_a1 st.
Context (Hk : addr_ok k) (Hrep : represents k l s v).
#[local] Set Default Proof Using "Type*".

(** The caller goes on, past its call, behind the ready processes of [v']. *)
Definition proceeds (T : list pcb_t) v' (e : exit_t) (s' : kernel) : Prop :=
  ∃ u m B, next_runs (<[i := past_call st u c]> T) m B (requeued i c v') e s'.

Lemma acquire_spec : s32 (reg_a0 st) = PASSEREN ->
  ∃ e s' v', exception_handler s = Exit e s' ∧ Rest s' v' ∧ represents k (acquire i l) s' v' ∧
    match l with
    | [] => proceeds (pcb_table s) v e s'
    | _ => blocks_caller i c s v st k e s'
    end.
Proof.
  intros Hid. destruct Hrep as [Hval Hw].
  pose proof (passeren_trap_spec i c s v st k HO Hst Hcode Hkernel Hk Hid eq_refl) as Hp. rewrite Hval in Hp.
  destruct l as [|h ws]; cbn in Hp.
  - unfold goes_on in Hp. rewrite Hw in Hp. destruct Hp as (e & s' & Hrun & Hnext).
    destruct (next_runs_at_rest _ _ _ _ _ _ Hnext) as (v' & HR & Hm & HB).
    exists e, s', v'. split; [exact Hrun|]. split; [exact HR|]. split; [|by eexists _, _, _].
    split; [by rewrite (sem_value_mem s s' k _ Hm), lookup_insert_eq|by rewrite HB].
  - destruct Hp as (e & s' & Hrun & Hbl). pose proof Hbl as (v1 & _ & Hway).
    destruct (gives_way_at_rest _ _ _ _ _ _ Hway) as (v' & HR & Hm & HB).
    exists e, s', v'. split; [exact Hrun|]. split; [exact HR|]. split; [|exact Hbl].
    split; [by rewrite (sem_value_mem s s' k _ Hm)|]. rewrite HB, lookup_insert_eq, Hw.
    by destruct ws.
Qed.

Lemma release_spec ws : s32 (reg_a0 st) = VERHOGEN -> l = i :: ws ->
  ∃ e s' v', exception_handler s = Exit e s' ∧ Rest s' v' ∧ represents k (release l) s' v' ∧
    match ws with
    | [] => proceeds (pcb_table s) v e s'
    | w :: _ => ∃ d v3, pcb_table s !! w = Some d ∧
        (∀ b, v_ready b v3 = if Bool.eqb (is_true (p_prio d)) b then v_ready b v ++ [w] else v_ready b v) ∧
        proceeds (<[w := set_p_sem_add 0 d]> (pcb_table s)) v3 e s'
    end.
Proof.
  intros Hid El. destruct Hrep as [Hval Hw].
  pose proof (verhogen_trap_spec i c s v st k HO Hst Hcode Hkernel Hk Hid eq_refl) as Hv. rewrite Hval, El in Hv.
  cbn in Hv. unfold goes_on in Hv. rewrite Hw, El in Hv. rewrite El in Hval. cbn in Hval.
  destruct ws as [|w ws]; cbn in Hv.
  - destruct Hv as (e & s' & Hrun & Hnext). destruct (next_runs_at_rest _ _ _ _ _ _ Hnext) as (v' & HR & Hm & HB).
    exists e, s', v'. rewrite El. split; [exact Hrun|]. split; [exact HR|]. split; [|by eexists _, _, _].
    split; [by rewrite (sem_value_mem s s' k _ Hm), lookup_insert_eq|]. rewrite HB, Hw, El. done.
  - destruct Hv as (d & v3 & Hd & Hr & e & s' & Hrun & Hnext).
    destruct (next_runs_at_rest _ _ _ _ _ _ Hnext) as (v' & HR & Hm & HB).
    exists e, s', v'. rewrite El. split; [exact Hrun|]. split; [exact HR|].
    split; [|exists d, v3; split; [done|split; [done|by eexists _, _, _]]].
    split; [by rewrite (sem_value_mem s s' k _ Hm)|].
    rewrite HB. eapply waiters_leave; [apply HO|]. by rewrite Hw, El.
Qed.
End operations.

(** C22: a semaphore used as a lock - it is 1 when nobody holds it, a process
    takes it with PASSEREN and only its holder gives it back, with VERHOGEN -
    refines a lock that serves its processes in the order in which they ask:
    from the trap to the next process, PASSEREN puts the caller at the end of
    the list, and it goes on at once if it is the only one and waits otherwise;
    VERHOGEN takes the holder off it, and the one that has waited longest holds
    the lock and is ready again.  In particular nobody but the head of the list
    goes on from its PASSEREN. *)
Theorem fifo_lock i c s v st l :
  On i c s v -> saved_states s !! BIOSDATAPAGE = Some st -> CAUSE_GET_EXCCODE (cpu_cause s) = 8 ->
  Z.testbit (status st) 3 = false -> addr_ok (reg_a1 st) -> represents (reg_a1 st) l s v ->
  (s32 (reg_a0 st) = PASSEREN ->
    ∃ e s' v', exception_handler s = Exit e s' ∧ Rest s' v' ∧ represents (reg_a1 st) (acquire i l) s' v' ∧
      match l with
      | [] => proceeds i c st (pcb_table s) v e s'
      | _ => blocks_caller i c s v st (reg_a1 st) e s'
      end) ∧
  (s32 (reg_a0 st) = VERHOGEN -> ∀ ws, l = i :: ws ->
    ∃ e s' v', exception_handler s = Exit e s' ∧ Rest s' v' ∧ represents (reg_a1 st) (release l) s' v' ∧
      match ws with
      | [] => proceeds i c st (pcb_table s) v e s'
      | w :: _ => ∃ d v3, pcb_table s !! w = Some d ∧
          (∀ b, v_ready b v3 = if Bool.eqb (is_true (p_prio d)) b then v_ready b v ++ [w] else v_ready b v) ∧
          proceeds i c st (<[w := set_p_sem_add 0 d]> (pcb_table s)) v3 e s'
      end).
Proof.
  intros HO Hst Hcode Hkm Hk Hrep. split.
  - by apply (acquire_spec i c s v st l).
  - intros Hid ws. by apply (release_spec i c s v st l).
Qed.
End locks.

(** ** An instance: process 19 takes a free lock, and gives it back *)

#[local] Instance U3 : Umps := umps3.
#[local] Instance L3 : UmpsLaws := umps3_laws.

Lemma fifo_lock_witness :
  let s1 := trial id_pcb {[ BIOSDATAPAGE := calling_state (u32 PASSEREN) free_sem ]} ∅ {[ free_sem := 1 ]} sys_cause in
  let s2 := trial id_pcb {[ BIOSDATAPAGE := calling_state (u32 VERHOGEN) free_sem ]} ∅ {[ free_sem := 0 ]} sys_cause in
  ∃ e1 s1' v1 e2 s2' v2,
    exception_handler s1 = Exit e1 s1' ∧ represents free_sem [19%nat] s1' v1 ∧
    exception_handler s2 = Exit e2 s2' ∧ represents free_sem [] s2' v2.
Proof.
  intros s1 s2.
  assert (∀ a x l, x = (if decide (l = []) then 1 else 0) -> waiters l = None ->
    let s := trial id_pcb {[ BIOSDATAPAGE := calling_state a free_sem ]} ∅ {[ free_sem := x ]} sys_cause in
    ∃ d, On 19 d s v_two ∧ represents free_sem l s v_two ∧
      saved_states s !! BIOSDATAPAGE = Some (calling_state a free_sem) ∧ CAUSE_GET_EXCCODE (cpu_cause s) = 8) as Htrial.
  { intros a x l Hx Hw s. destruct (trial_on id_pcb {[ BIOSDATAPAGE := calling_state a free_sem ]} ∅
      {[ free_sem := x ]} sys_cause id_pcb_role) as (d & HO & Hb & _). fold s in HO, Hb. exists d.
    split; [exact HO|]. split; [split; [|by rewrite Hb, Hw]|].
    - unfold sem_value, s. rewrite trial_mem, lookup_singleton_eq, Hx. by destruct l.
    - split; [unfold s; by rewrite trial_states|unfold s; by rewrite trial_cause]. }
  destruct (Htrial (u32 PASSEREN) 1 [] eq_refl eq_refl) as (d1 & HO1 & Hr1 & E1 & C1).
  destruct (Htrial (u32 VERHOGEN) 0 [19%nat] eq_refl eq_refl) as (d2 & HO2 & Hr2 & E2 & C2).
  destruct (fifo_lock 19 d1 _ v_two _ [] HO1 E1 C1 eq_refl free_sem_ok Hr1) as [Hp _].
  destruct (fifo_lock 19 d2 _ v_two _ [19%nat] HO2 E2 C2 eq_refl free_sem_ok Hr2) as [_ Hv].
  destruct (Hp eq_refl) as (e1 & s1' & v1 & Hrun1 & _ & Hrep1 & _).
  destruct (Hv eq_refl [] eq_refl) as (e2 & s2' & v2 & Hrun2 & _ & Hrep2 & _).
  exists e1, s1', v1, e2, s2', v2. exact (conj Hrun1 (conj Hrep1 (conj Hrun2 Hrep2))).
Defined.
