(* ===== verification/Clock.v ===== *)
(** * Waiting for the clock

    CLOCKWAIT ([phase2/src/syscall.c], [syscall_wait_for_clock]) and the
    interrupt of the interval timer that ends the wait
    ([phase2/src/exception.c], [interrupt_timer]), from the trap to the process
    that runs next. *)

From Stdlib Require Import ZArith Lia String.
From stdpp Require Import base tactics option numbers gmap list vector relations.
From S2P Require Import Prelude ListHead Machine Kernel View Pcb Asl Scheduler Invariant Process Dispatch Semaphores Contract Syscall Exception Trap Init Run Behaviour.

Open Scope string_scope.
Open Scope list_scope.
Open Scope Z_scope.

Section clock.
Context `{UmpsLaws}.
Implicit Types (s : kernel) (v : view) (i j : nat) (c d : pcb_t) (st : state_t) (ws : list nat).

Abbreviation clk := get_timer_semaphore.

(** The interval timer interrupts, and nothing that is served before it. *)
Record ticks s : Prop := {
  ti_code : CAUSE_GET_EXCCODE (cpu_cause s) = 0;
  ti_ipi : Z.land (cpu_cause s) (CAUSE_IP IL_IPI) = 0;
  ti_plt : Z.land (cpu_cause s) (CAUSE_IP IL_CPUTIMER) = 0;
  ti_timer : Z.land (cpu_cause s) (CAUSE_IP IL_TIMER) ≠ 0;
  ti_saved : is_Some (saved_states s !! BIOSDATAPAGE);
}.

Lemma ticks_serve s : ticks s -> serve_exception s = interrupt_timer s.
Proof.
  intros [Hcode Hipi Hplt Htm _]. unfold serve_exception, get_cause. rewrite bind_gets, Hcode. cbn [Z.eqb].
  unfold interrupt_handler. rewrite Hipi, Hplt. cbn [Z.eqb negb]. by rewrite (proj2 (Z.eqb_neq _ _) Htm).
Qed.

(** The processes [ws] wait for nothing any more, and are otherwise as they were. *)
Definition awake ws s (T : list pcb_t) : Prop :=
  ∀ x d, x ∈ ws -> pcb_table s !! x = Some d -> T !! x = Some (set_p_sem_add 0 d).

(** ... and are ready, in order, each at the end of the queue of its priority. *)
Definition lined_up ws s v v' : Prop :=
  ∀ b, v_ready b v' = v_ready b v ++ filter (λ x, prio_of s x = b) ws.

(** After the tick the interrupted process goes on, or the first ready one runs. *)
Definition goes_on_after ws s v e s' v' : Prop :=
  ∃ T, awake ws s T ∧ lined_up ws s v v' ∧
    match active_process s with
    | Some j =>
        ∃ c st u, pcb_table s !! j = Some c ∧ saved_states s !! BIOSDATAPAGE = Some st ∧
          let c' := set_p_s st (set_p_time u c) in
          e = Running (running_state c') ∧ On j (set_p_s (running_state c') c') s' v' ∧
          pcb_table s' = <[j := set_p_s (running_state c') c']> T ∧
          mem s' = <[clk := 1]> (mem s) ∧ blocked s' v' = delete clk (blocked s v)
    | None => gives_way T (<[clk := 1]> (mem s)) (delete clk (blocked s v)) v' e s'
    end.

(** Who waits is not who runs. *)
Lemma waiter_not_on k j c s v x :
  On j c s v -> addr_ok k -> x ∈ default [] (blocked s v !! k) -> x ≠ j.
Proof.
  intros HO Hk Hx ->. destruct (blocked s v !! k) as [l|] eqn:Hl; [|by apply elem_of_nil in Hx].
  pose proof (blocked_sem_add _ _ _ (inv_rep _ _ _ (on_inv _ _ _ _ HO)) (inv_asl _ _ _ (on_inv _ _ _ _ HO))
    _ _ _ _ Hl Hx (on_pcb _ _ _ _ HO)) as E.
  rewrite (on_sem _ _ _ _ HO) in E. by apply (addr_ok_nonzero_ne _ Hk).
Qed.

Lemma prio_of_saved j c st s v x : On j c s v -> prio_of (saved j c st s) x = prio_of s x.
Proof.
  intros HO. unfold prio_of, saved. cbn. destruct (decide (x = j)) as [->|Hne].
  - by rewrite (table_upd_eq _ _ _ _ (on_pcb _ _ _ _ HO)), (on_pcb _ _ _ _ HO).
  - by rewrite list_lookup_insert_ne.
Qed.

Lemma tick_running j c s v :
  On j c s v -> sem_value s clk = 0 -> ticks s ->
  ∃ e s' v', exception_handler s = Exit e s' ∧ goes_on_after (default [] (blocked s v !! clk)) s v e s' v'.
Proof.
  intros HO Hv Htick. destruct (ti_saved _ Htick) as [st Hst]. pose proof (saved_on j c st s v HO) as HO1.
  set (s1 := saved j c st s) in *.
  assert (blocked s1 v = blocked s v) as Hb1 by (by apply blocked_ext).
  destruct (interrupt_timer_spec [j] s1 v (on_inv _ _ _ _ HO1) Hv) as (s2 & v' & Hrun & HT).
  rewrite Hb1 in HT. set (ws := default [] (blocked s v !! clk)) in *.
  assert (∀ x, x ∈ ws -> x ≠ j) as Hws by (intros x; by apply (waiter_not_on clk j c s v x HO clock_addr_ok)).
  set (c1 := set_p_s st (set_p_time (used_time s c) c)) in *.
  assert (On j c1 s2 v') as HO2.
  { assert (Rest s2 v') as [(j' & c' & HO')|HI'].
    - apply (tk_rest _ _ _ _ _ _ HT).
      { eapply (Rest_ext (s := s1)); [by split|]. left. by exists j, c1. }
      intros x ->%list_elem_of_singleton. apply HO.
    - pose proof (on_active _ _ _ _ HO') as Ea. rewrite (tk_active _ _ _ _ _ _ HT) in Ea.
      cbn in Ea. rewrite (on_active _ _ _ _ HO) in Ea. injection Ea as <-.
      pose proof (tk_pcb _ _ _ _ _ _ HT j c1 (on_pcb _ _ _ _ HO1)) as Ec.
      rewrite decide_False in Ec by (intros Hj; by apply (Hws j Hj)).
      rewrite (on_pcb _ _ _ _ HO') in Ec. by injection Ec as ->.
    - exfalso. pose proof (idle_active _ _ HI') as Ea. rewrite (tk_active _ _ _ _ _ _ HT) in Ea.
      cbn in Ea. by rewrite (on_active _ _ _ _ HO) in Ea. }
  destruct (schedule_preserve_spec [j] s2 v' j c1 (on_inv _ _ _ _ HO2) (on_pcb _ _ _ _ HO2) (on_yield _ _ _ _ HO2))
    as (s3 & Hrun3 & Hdis & HI3 & Hb3).
  exists (Running (running_state c1)), s3, v'. split.
  { rewrite (exception_handler_on j c s v HO), Hst. fold s1.
    assert (ticks s1) as Ht1 by (destruct Htick; by split).
    rewrite <- (ticks_serve _ Ht1) in Hrun. step_with Hrun. cbn [sc_pcb sc_enqueue CONTROL_PRESERVE].
    rewrite (on_active _ _ _ _ HO1). exact Hrun3. }
  exists (pcb_table s2). split; [|split].
  - intros x d Hx Hd. assert (pcb_table s1 !! x = Some d) as Hd1.
    { unfold s1, saved. cbn. rewrite list_lookup_insert_ne; [done|]. by apply not_eq_sym, Hws. }
    rewrite (tk_pcb _ _ _ _ _ _ HT x d Hd1). by rewrite decide_True.
  - intros b. rewrite (tk_ready _ _ _ _ _ _ HT b). f_equal. apply list_filter_iff. intros x.
    by rewrite <- (prio_of_saved j c st s v x HO).
  - rewrite (on_active _ _ _ _ HO). exists c, st, (used_time s c).
    split; [apply HO|]. split; [done|]. split; [done|]. split; [|split; [|split]].
    + by apply (dispatched_on j c1 s2 s3 v' Hdis (on_pcb _ _ _ _ HO2) HI3); apply HO2.
    + by destruct Hdis as (h & lt & ->).
    + rewrite (dispatched_mem _ _ _ _ Hdis). exact (tk_mem _ _ _ _ _ _ HT).
    + rewrite Hb3, (tk_blocked _ _ _ _ _ _ HT). by f_equal.
Qed.

Lemma tick_idle s v :
  Idle s v -> sem_value s clk = 0 -> ticks s -> process_count s ≠ 0 ->
  ∃ e s' v', exception_handler s = Exit e s' ∧ goes_on_after (default [] (blocked s v !! clk)) s v e s' v'.
Proof.
  intros HI Hv Htick Hpc.
  destruct (interrupt_timer_spec [] s v (idle_inv _ _ HI) Hv) as (s2 & v' & Hrun & HT).
  set (ws := default [] (blocked s v !! clk)) in *.
  assert (active_process s2 = None) as Ha2 by (rewrite (tk_active _ _ _ _ _ _ HT); apply HI).
  assert (yield_process s2 = None) as Hy2 by (rewrite (tk_yield _ _ _ _ _ _ HT); apply HI).
  pose proof (tk_inv _ _ _ _ _ _ HT) as HI2.
  assert (process_count s2 ≠ 0) as Hpc2.
  { rewrite (count_procs _ _ (inv_counts _ _ _ HI2)), (tk_free _ _ _ _ _ _ HT).
    by rewrite <- (count_procs _ _ (inv_counts _ _ _ (idle_inv _ _ HI))). }
  destruct (schedule_gives_way s2 v' HI2 Hy2 Hpc2) as (e & s3 & Hrun3 & Hway).
  exists e, s3, v'. split.
  { rewrite (exception_handler_idle s v HI). rewrite <- (ticks_serve _ Htick) in Hrun. step_with Hrun.
    cbn [sc_pcb sc_enqueue CONTROL_PRESERVE]. rewrite (idle_active _ _ HI). exact Hrun3. }
  exists (pcb_table s2). split; [|split].
  - intros x d Hx Hd. rewrite (tk_pcb _ _ _ _ _ _ HT x d Hd). by rewrite decide_True.
  - intros b. exact (tk_ready _ _ _ _ _ _ HT b).
  - rewrite (idle_active _ _ HI). rewrite (tk_mem _ _ _ _ _ _ HT), (tk_blocked _ _ _ _ _ _ HT) in Hway.
    assert (blocked (set_interval_timer (u32 IT_INTERVAL) s) v = blocked s v) as Eb by (by apply blocked_ext).
    rewrite Eb in Hway. exact Hway.
Qed.

(** C14: waiting for the clock.  CLOCKWAIT, by a process in kernel mode, makes
    its caller wait, past its call and behind the others, if the clock's
    semaphore is 0.  The interrupt of the interval timer that comes while
    processes wait, whatever happened since, makes all of them ready, in the
    order in which they came, each at the end of the ready queue of its
    priority and otherwise as it was; the interrupted process goes on, or the
    first ready one runs, and the semaphore is left at 1.  So the first
    CLOCKWAIT after a tick does not wait: it takes the semaphore back to 0. *)
Theorem clock_wait_served i c s v st :
  On i c s v -> saved_states s !! BIOSDATAPAGE = Some st -> CAUSE_GET_EXCCODE (cpu_cause s) = 8 ->
  Z.testbit (status st) 3 = false -> s32 (reg_a0 st) = CLOCKWAIT ->
  (sem_value s clk = 0 -> ∃ e s', exception_handler s = Exit e s' ∧ blocks_caller i c s v st clk e s') ∧
  (sem_value s clk = 1 -> blocked s v !! clk = None ->
    ∃ e s', exception_handler s = Exit e s' ∧
      next_runs (<[i := past_call st (charged s c) c]> (pcb_table s)) (<[clk := 0]> (mem s)) (blocked s v) (requeued i c v) e s') ∧
  ∀ s2 v2, Rest s2 v2 -> process_count s2 ≠ 0 -> sem_value s2 clk = 0 -> ticks s2 ->
    ∃ e s' v', exception_handler s2 = Exit e s' ∧
      goes_on_after (default [] (blocked s2 v2 !! clk)) s2 v2 e s' v'.
Proof.
  intros HO Hst Hcode Hkm Hid.
  pose proof (P_trap_spec i c s v st clk HO Hst Hcode Hkm clock_addr_ok
    (wait_for_clock_runs i c s v st clk HO Hst Hcode Hkm clock_addr_ok Hid eq_refl)) as Hp.
  split; [|split].
  - intros Hv. by rewrite Hv in Hp.
  - intros Hv Hl. rewrite Hv in Hp. cbn in Hp. unfold goes_on in Hp. by rewrite Hl in Hp.
  - intros s2 v2 HR Hpc Hv Htick. destruct HR as [(j & cj & HOj)|HI]; [by eapply tick_running|by apply tick_idle].
Qed.
End clock.

(** ** An instance: process 19 waits for the clock, and it ticks while 18 runs *)

#[local] Instance U3 : Umps := umps3.
#[local] Instance L3 : UmpsLaws := umps3_laws.

Definition tick_cause : Z := 0x400.
Definition ticking_clock (s : kernel) : kernel :=
  set_cpu_cause tick_cause (set_saved_states {[ BIOSDATAPAGE := state0 ]} s).

Lemma clock_wait_witness :
  let s := trial id_pcb {[ BIOSDATAPAGE := calling_state (u32 CLOCKWAIT) 0 ]} ∅ (mem booted_two) sys_cause in
  ∃ e s1 e' s3, exception_handler s = Exit e s1 ∧ active_process s1 = Some 18%nat ∧
    p_sem_add <$> pcb_table s1 !! 19%nat = Some (semaphores (SEMAPHORES_NUM - 1)) ∧
    exception_handler (ticking_clock s1) = Exit e' s3 ∧ active_process s3 = Some 18%nat ∧
    p_sem_add <$> pcb_table s3 !! 19%nat = Some 0.
Proof.
  intros s. destruct (trial_on id_pcb {[ BIOSDATAPAGE := calling_state (u32 CLOCKWAIT) 0 ]} ∅ (mem booted_two)
    sys_cause id_pcb_role) as (d & HO & Hb & _).
  assert (saved_states s !! BIOSDATAPAGE = Some (calling_state (u32 CLOCKWAIT) 0)) as E0.
  { unfold s. rewrite trial_states. reflexivity. }
  assert (CAUSE_GET_EXCCODE (cpu_cause s) = 8) as E1 by (unfold s; rewrite trial_cause; reflexivity).
  assert (sem_value s get_timer_semaphore = 0) as Hv.
  { assert (0 <= SEMAPHORES_NUM - 1 < SEMAPHORES_NUM) as Hr by (split; vm_compute; congruence).
    pose proof (booted_two_sems _ Hr) as H0. unfold sem_value in *. unfold s. rewrite trial_mem. exact H0. }
  destruct (clock_wait_served 19 _ s v_two _ HO E0 E1 eq_refl eq_refl) as (Hwait & _ & Hend).
  destruct (Hwait Hv) as (e & s1 & Hrun & v1 & Hsame & Hway).
  pose proof (same_procs_ready _ _ true Hsame) as Q1. pose proof (same_procs_ready _ _ false Hsame) as Q2.
  simpl in Q1, Q2.
  assert (next_ready v1 = Some (false, 18%nat, [])) as Hn by (unfold next_ready; by rewrite Q1, Q2).
  unfold gives_way in Hway. rewrite Hn in Hway.
  destruct Hway as (b & j & l & d1 & Hn1 & _ & _ & HO1 & HT1 & Hb1 & Hm1).
  rewrite Hn in Hn1. injection Hn1 as <- <- <-. set (v2 := set_v_ready false [] v1) in *.
  assert (pcb_table s1 !! 19%nat = Some (set_p_sem_add get_timer_semaphore
    (past_call (calling_state (u32 CLOCKWAIT) 0) (charged s (id_pcb d)) (id_pcb d)))) as Hp1.
  { rewrite HT1, list_lookup_insert_ne by discriminate. eapply table_upd_eq, (on_pcb _ _ _ _ HO). }
  set (s2 := ticking_clock s1) in *.
  assert (same_tables s1 s2) as HS by (split; try done; apply Forall_Forall2_diag, Forall_forall; done).
  destruct (same_tables_Inv HS [18%nat] v2 (on_inv _ _ _ _ HO1)) as [HI2 Hb2].
  assert (Rest s2 v2) as HR2 by (apply (Rest_ext HS); left; by eexists 18%nat, _).
  assert (process_count s2 ≠ 0) as Hpc.
  { rewrite (count_procs _ _ (inv_counts _ _ _ HI2)). unfold v2. rewrite v_free_set_ready.
    destruct Hsame as (-> & _). discriminate. }
  destruct (Hend s2 v2 HR2 Hpc) as (e' & s3 & v3 & Hrun3 & T & Haw & _ & Hres).
  - unfold sem_value. change (mem s2) with (mem s1). rewrite Hm1. exact Hv.
  - split; [reflexivity|reflexivity|reflexivity|discriminate|by eexists].
  - change (active_process s2) with (active_process s1) in Hres. rewrite (on_active _ _ _ _ HO1) in Hres.
    destruct Hres as (c & st & u' & _ & _ & _ & HO3 & HT3 & _).
    exists e, s1, e', s3. split; [exact Hrun|]. split; [apply HO1|]. split; [by rewrite Hp1|].
    split; [exact Hrun3|]. split; [apply HO3|]. rewrite HT3, list_lookup_insert_ne by discriminate.
    rewrite (Haw 19%nat _ ltac:(rewrite Hb2, Hb1, lookup_insert_eq; apply elem_of_app; right; left) Hp1).
    reflexivity.
Defined.
