(* ===== verification/Printf.v ===== *)
(** * Formatted printing

    [os/src/util.c] and [os/include/os/util_impl.h]: integers to text, the
    format interpreter [__pandos_printf] and the three targets it writes to.

    The interpreter is written against a [writer], a C function that takes a
    string and a length and changes its own target; here a writer is a
    computation over the target's state.  A C string is the list of the
    characters in front of its terminator; a memory access outside an array,
    an argument that is missing or of the wrong type, a division by zero and
    a read past the terminator of the format are faults. *)

From Stdlib Require Import ZArith Lia Ascii String.
From stdpp Require Import base tactics option list strings.
From S2P Require Import Prelude Machine.

Open Scope Z_scope.

(** ** Characters and strings *)

Notation cstring := (list ascii).
Definition NUL : ascii := Ascii.zero.

(** The low byte of an integer. *)
Definition chr (z : Z) : ascii := Ascii.ascii_of_N (Z.to_N (z mod 256)).
Definition ord (c : ascii) : Z := Z.of_N (Ascii.N_of_ascii c).

(** The string literals of the sources. *)
Definition lit (s : string) : cstring := String.list_ascii_of_string s.

Definition len_of (s : cstring) : Z := Z.of_nat (length s).

(** No terminator inside. *)
Definition clean (s : cstring) : bool := forallb (fun c => bool_decide (c ≠ NUL)) s.

Definition PM (T A : Type) : Type := M T Empty_set A.

Definition writer_t (T : Type) : Type := cstring -> Z -> PM T Z.

(** ** C arithmetic that can trap *)

Definition idiv {T} (a b : Z) : PM T Z :=
  if b =? 0 then fault "division by zero" else ret (s32 (Z.quot a b)).
Definition udiv {T} (a b : Z) : PM T Z :=
  if u32 b =? 0 then fault "division by zero" else ret (u32 a / u32 b).
Definition umod {T} (a b : Z) : PM T Z :=
  if u32 b =? 0 then fault "division by zero" else ret (u32 a mod u32 b).

(** ** Integers to text *)

(** [pandos_pow] at an exponent other than 0: [exp / 2] and [exp % 2] are the
    binary digits of [exp]. *)
Fixpoint pow_halving (base : Z) (exp : positive) : Z :=
  match exp with
  | xH => let tmp := 1 in s32 (s32 (base * tmp) * tmp)
  | xO half => let tmp := pow_halving base half in s32 (s32 (1 * tmp) * tmp)
  | xI half => let tmp := pow_halving base half in s32 (s32 (base * tmp) * tmp)
  end.

Definition pandos_pow (base : Z) (exp : Z) : Z :=
  match exp with
  | Zpos e => pow_halving base e
  | _ => 1
  end.

Definition SIGNED_BASE : Z := 10.
Definition LEN : nat := 32.

(** More divisions than an [int] has bits. *)
Definition itoa_fuel : nat := 34.

Fixpoint digits_loop {T} (fuel : nat) (base cpy digits : Z) : PM T Z :=
  match fuel with
  | O => no_fuel
  | S fuel' =>
      if cpy =? 0 then ret digits
      else cpy' <- idiv cpy base ;; digits_loop fuel' base cpy' (s32 (digits + 1))
  end.

Definition digit_char (r : Z) : ascii := chr (if 9 <? r then 97 + r - 10 else 48 + r).

Section printf.
Context {T : Type} (writer : writer_t T).

Fixpoint itoa_loop (fuel : nat) (base unsigned_i exp digits wr wrote : Z) : PM T Z :=
  match fuel with
  | O => no_fuel
  | S fuel' =>
      if negb (digits =? 0) && negb (wr =? 0) then
        q <- udiv unsigned_i exp ;;
        n <- writer [digit_char (s32 q)] 1 ;;
        let wr' := s32 n in
        unsigned_i' <- umod unsigned_i exp ;;
        exp' <- idiv exp base ;;
        itoa_loop fuel' base unsigned_i' exp' (s32 (digits - 1)) wr' (s32 (wrote + wr'))
      else ret wrote
  end.

(** [__itoa] once the sign is dealt with. *)
Definition itoa_magnitude (base wrote i : Z) : PM T Z :=
  d <- digits_loop itoa_fuel base i 0 ;;
  let digits := if i =? 0 then s32 (d + 1) else d in
  wrote <- (if negb (i =? 0)
            then itoa_loop itoa_fuel base (u32 i) (pandos_pow base (u32 (digits - 1)))
                   digits 1 wrote
            else n <- writer (lit "0") 1 ;; ret (s32 (wrote + n))) ;;
  n <- writer [] 1 ;;
  ret (u32 (wrote + n)).

Definition __itoa (i base : Z) : PM T Z :=
  if (base =? SIGNED_BASE) && (i <? 0) then
    n <- writer (lit "-") 1 ;;
    itoa_magnitude base (s32 n) (s32 (- i))
  else itoa_magnitude base 0 i.

Definition bin_buffer (i : Z) : cstring :=
  map (fun pos => if Z.testbit i (Z.of_nat (LEN - pos - 1)) then "1"%char else "0"%char)
    (seq 0 LEN).

Definition __bin (i : Z) : PM T Z :=
  _ <- writer (bin_buffer i) (Z.of_nat LEN) ;;
  ret (Z.of_nat LEN).

(** The variadic arguments: words and strings. *)
Inductive va : Type :=
| VInt (z : Z)
| VStr (s : cstring).

Definition va_int (varg : list va) : PM T (Z * list va) :=
  match varg with
  | VInt z :: rest => ret (z, rest)
  | _ => fault "va_arg: no integer there"
  end.

Definition va_str (varg : list va) : PM T (cstring * list va) :=
  match varg with
  | VStr s :: rest => ret (s, rest)
  | _ => fault "va_arg: no string there"
  end.

(** The body of the [switch] on the character [k] after a ['%']. *)
Definition convert (k : ascii) (varg : list va) : PM T (Z * list va) :=
  if decide (k = "s"%char) then
    a <- va_str varg ;;
    n <- writer a.1 0 ;; ret (n, a.2)
  else if decide (k = "c"%char) then
    a <- va_int varg ;;
    n <- writer [chr a.1] 1 ;; ret (n, a.2)
  else if decide (k = "d"%char) then
    a <- va_int varg ;;
    n <- __itoa (s32 a.1) 10 ;; ret (n, a.2)
  else if decide (k = "p"%char) then
    a <- va_int varg ;;
    if negb (u32 a.1 =? 0) then
      n <- writer (lit "0x") 2 ;;
      n' <- __itoa (s32 a.1) 16 ;; ret (u32 (n + n'), a.2)
    else n <- writer (lit "(nil)") 5 ;; ret (n, a.2)
  else if decide (k = "b"%char) then
    a <- va_int varg ;;
    n <- __bin (s32 a.1) ;; ret (n, a.2)
  else if decide (k = "%"%char) then
    n <- writer (lit "%") 1 ;; ret (n, varg)
  else
    n <- writer ["%"%char; k] 2 ;; ret (n, varg).

(** After the loop: [at_end] says that [fmt] points at the terminator. *)
Definition finish (at_end : bool) (wr : Z) : PM T Z :=
  if at_end then ret wr
  else n <- writer [] 1 ;; ret (u32 (wr + n)).

Fixpoint printf_loop (fmt : cstring) (varg : list va) (wr : Z) : PM T Z :=
  match fmt with
  | [] => finish true wr
  | c :: rest =>
      if decide (c = NUL) then finish true wr
      else if decide (c = "%"%char) then
        let k := hd NUL rest in
        r <- convert k varg ;;
        if r.1 =? 0 then finish (bool_decide (k = NUL)) wr
        else match rest with
             | [] => fault "the format is read past its end"
             | _ :: rest' =>
                 if decide (k = NUL) then fault "the format is read past its end"
                 else printf_loop rest' r.2 (u32 (wr + r.1))
             end
      else
        n <- writer [c] 1 ;;
        if n =? 0 then finish false wr
        else printf_loop rest varg (u32 (wr + n))
  end.

Definition __pandos_printf (fmt : cstring) (varg : list va) : PM T Z :=
  printf_loop fmt varg 0.
End printf.

(** ** Writing to a string *)

(** [*(a + i) = c]. *)
Definition poke (i : Z) (c : ascii) (a : list ascii) : option (list ascii) :=
  if (0 <=? i) && (i <? len_of a) then Some (<[Z.to_nat i := c]> a) else None.

Record str_target_t : Type := {
  str : list ascii;
  size : Z;
  wrote : Z
}.

Definition set_str (a : list ascii) (d : str_target_t) : str_target_t :=
  {| str := a; size := size d; wrote := wrote d |}.
Definition set_wrote (n : Z) (d : str_target_t) : str_target_t :=
  {| str := str d; size := size d; wrote := n |}.

Definition put_char (i : Z) (c : ascii) : PM str_target_t unit :=
  d <- get ;;
  a <- ok_or "write outside the buffer" (poke i c (str d)) ;;
  modify (set_str a).

Fixpoint str_loop (check_len : bool) (data : cstring) (len i : Z) : PM str_target_t Z :=
  d <- get ;;
  if u32 (wrote d + i) <? u32 (size d - 1) then
    let c := hd NUL data in
    put_char (u32 (wrote d + i)) c ;;
    if decide (c = NUL) then ret i
    else if negb check_len || negb (len =? 0) then
      match data with
      | [] => ret i
      | _ :: data' =>
          str_loop check_len data' (if check_len then u32 (len - 1) else len) (s32 (i + 1))
      end
    else ret i
  else ret i.

Definition str_writer (data : cstring) (len : Z) : PM str_target_t Z :=
  d <- get ;;
  let check_len := negb (len =? 0) in
  i <- (if decide (hd NUL data = NUL)
        then put_char (if u32 (size d - 1) <=? wrote d then wrote d else u32 (wrote d + 1)) NUL ;;
             ret 0
        else str_loop check_len data len 0) ;;
  modify (fun d => set_wrote (u32 (wrote d + i)) d) ;;
  ret (u32 i).

(** The caller's buffer wrapped in a fresh [str_target_t]. *)
Definition with_str_target {A} (len : Z) (m : PM str_target_t A) : PM (list ascii) A :=
  zoom (fun dest => {| str := dest; size := len; wrote := 0 |}) (fun d _ => str d) m.

Definition nitoa (i base len : Z) : PM (list ascii) Z :=
  with_str_target len (__itoa str_writer i base).

Definition pandos_snprintf (len : Z) (fmt : cstring) (varg : list va) : PM (list ascii) Z :=
  with_str_target len (__pandos_printf str_writer fmt varg).

(** ** Writing to a terminal

    The transmitter of a terminal, seen from the program: reading its status
    is an event of the device, and so is writing its command. *)

Class Terminal (T : Type) := {
  read_transm_status : Z -> T -> Z * T;
  write_transm_command : Z -> Z -> T -> T
}.

Definition ST_READY : Z := 1.
Definition ST_BUSY : Z := 3.
Definition ST_TRANSMITTED : Z := 5.
Definition CMD_ACK : Z := 1.
Definition CMD_TRANSMIT : Z := 2.
Definition CHAR_OFFSET : Z := 8.
Definition TERM_STATUS_MASK : Z := 0xFF.

Section terminal.
Context {T : Type} `{!Terminal T}.

Definition term_status (term : Z) : PM T Z :=
  fun t => let '(stat, t') := read_transm_status term t in
           Ok (Z.land stat TERM_STATUS_MASK) t'.

Fixpoint term_wait (fuel : nat) (term : Z) : PM T Z :=
  match fuel with
  | O => no_fuel
  | S fuel' =>
      stat <- term_status term ;;
      if stat =? ST_BUSY then term_wait fuel' term else ret stat
  end.

(** [char] is signed on the target. *)
Definition schar (c : ascii) : Z := if ord c <? 128 then ord c else ord c - 256.

Definition term_putchar (fuel : nat) (term : Z) (c : ascii) : PM T Z :=
  stat <- term_status term ;;
  if negb (stat =? ST_READY) && negb (stat =? ST_TRANSMITTED) then ret 1
  else
    modify (write_transm_command term (u32 (Z.lor (Z.shiftl (schar c) CHAR_OFFSET) CMD_TRANSMIT))) ;;
    stat <- term_wait fuel term ;;
    modify (write_transm_command term CMD_ACK) ;;
    ret (if stat =? ST_TRANSMITTED then 0 else 2).

Fixpoint serial_loop (fuel : nat) (term : Z) (check_len : bool) (it : cstring) (len n : Z)
    : PM T Z :=
  match it with
  | [] => ret n
  | c :: it' =>
      if decide (c = NUL) then ret n
      else if negb check_len || negb (len =? 0) then
        r <- term_putchar fuel term c ;;
        if negb (r =? 0) then ret n
        else serial_loop fuel term check_len it' (if check_len then u32 (len - 1) else len) (n + 1)
      else ret n
  end.

Definition serial_writer (fuel : nat) (term : Z) (data : cstring) (len : Z) : PM T Z :=
  serial_loop fuel term (negb (len =? 0)) data len 0.

Definition pandos_fprintf `{Umps} (fuel : nat) (fd : Z) (fmt : cstring) (varg : list va)
    : PM T Z :=
  __pandos_printf (serial_writer fuel (DEV_REG_ADDR IL_TERMINAL fd)) fmt varg.
End terminal.

(** ** Writing to memory *)

Definition MEM_WRITER_LINES : nat := 102.
Definition MEM_WRITER_LINE_LENGTH : nat := 40.

Record memory_target_t : Type := {
  buffer : list (list ascii);
  line : Z;
  ch : Z
}.

Definition set_buffer (b : list (list ascii)) (m : memory_target_t) : memory_target_t :=
  {| buffer := b; line := line m; ch := ch m |}.
Definition set_line (n : Z) (m : memory_target_t) : memory_target_t :=
  {| buffer := buffer m; line := n; ch := ch m |}.
Definition set_ch (n : Z) (m : memory_target_t) : memory_target_t :=
  {| buffer := buffer m; line := line m; ch := n |}.

(** [mem->buffer[l][i] = c]. *)
Definition poke_line (l i : Z) (c : ascii) (b : list (list ascii)) : option (list (list ascii)) :=
  if (0 <=? l) && (l <? Z.of_nat (length b)) then
    row ← b !! Z.to_nat l;
    row' ← poke i c row;
    Some (<[Z.to_nat l := row']> b)
  else None.

Definition put_buffer (l i : Z) (c : ascii) : PM memory_target_t unit :=
  m <- get ;;
  b <- ok_or "write outside the buffer" (poke_line l i c (buffer m)) ;;
  modify (set_buffer b).

Definition clean_line (l : Z) (c : ascii) : PM memory_target_t unit :=
  for_ MEM_WRITER_LINE_LENGTH 0 (fun i => put_buffer l (Z.of_nat i) c).

Definition next_line : PM memory_target_t unit :=
  modify (fun m => set_line (u32 (line m + 1) mod Z.of_nat MEM_WRITER_LINES) m) ;;
  modify (set_ch 0) ;;
  m <- get ;;
  clean_line (line m) " "%char ;;
  clean_line (u32 (line m + 1) mod Z.of_nat MEM_WRITER_LINES) "-"%char.

Definition kputchar (c : ascii) : PM memory_target_t unit :=
  if decide (c = "010"%char) then next_line
  else
    m <- get ;;
    put_buffer (line m) (ch m) c ;;
    modify (fun m => set_ch (u32 (ch m + 1)) m) ;;
    m <- get ;;
    when Z.of_nat MEM_WRITER_LINE_LENGTH <=? ch m do next_line.

Fixpoint memory_loop (check_len : bool) (it : cstring) (len n : Z) : PM memory_target_t Z :=
  match it with
  | [] => ret n
  | c :: it' =>
      if decide (c = NUL) then ret n
      else if negb check_len || negb (len =? 0) then
        kputchar c ;;
        memory_loop check_len it' (if check_len then u32 (len - 1) else len) (n + 1)
      else ret n
  end.

Definition memory_writer (data : cstring) (len : Z) : PM memory_target_t Z :=
  m <- get ;;
  when (line m =? 0) && (ch m =? 0) do
    (clean_line (line m) " "%char ;; clean_line (line m + 1) " "%char) ;;
  memory_loop (negb (len =? 0)) data len 0.

(** [kstdout], [kstderr], [kverb] and [kdebug] as the program starts. *)
Definition kstdout : memory_target_t :=
  {| buffer := repeat (repeat NUL MEM_WRITER_LINE_LENGTH) MEM_WRITER_LINES; line := 0; ch := 0 |}.

Definition pandos_kfprintf (fmt : cstring) (varg : list va) : PM memory_target_t Z :=
  __pandos_printf memory_writer fmt varg.

Definition pandos_kclear : PM memory_target_t unit :=
  for_ MEM_WRITER_LINES 0 (fun i =>
    for_ MEM_WRITER_LINE_LENGTH 0 (fun j => put_buffer (Z.of_nat i) (Z.of_nat j) " "%char)) ;;
  modify (set_line 0) ;;
  modify (set_ch 0).
