(* ===== verification/Render.v ===== *)
(** * What the format interpreter prints

    The text a format stands for ([render]), the interface between the
    interpreter of [Printf] and its writers ([Prints], [Guarded]), and the
    two facts every writer inherits from it: the rendered text is emitted, and
    no call leaves the writer's invariant. *)

From Stdlib Require Import ZArith Lia Ascii String.
From stdpp Require Import base tactics option list strings.
From S2P Require Import Prelude Machine Printf.

Open Scope Z_scope.

(** ** 32-bit congruences *)

Lemma s32_mod z : s32 z mod 2 ^ 32 = z mod 2 ^ 32.
Proof.
  unfold s32. destruct (Z.ltb_spec (z mod 2 ^ 32) (2 ^ 31)); [by rewrite Z.mod_mod by lia|].
  replace (z mod 2 ^ 32 - 2 ^ 32) with (z mod 2 ^ 32 + (-1) * 2 ^ 32) by lia.
  by rewrite Z_mod_plus_full, Z.mod_mod by lia.
Qed.

Lemma s32_cong a b : a mod 2 ^ 32 = b mod 2 ^ 32 -> s32 a = s32 b.
Proof. unfold s32. by intros ->. Qed.

Lemma s32_mul_l a b : s32 (s32 a * b) = s32 (a * b).
Proof. apply s32_cong. by rewrite <-Z.mul_mod_idemp_l, s32_mod, Z.mul_mod_idemp_l by lia. Qed.

Lemma s32_mul_r a b : s32 (a * s32 b) = s32 (a * b).
Proof. by rewrite Z.mul_comm, s32_mul_l, Z.mul_comm. Qed.

Lemma u32_s32 z : u32 (s32 z) = u32 z.
Proof. apply s32_mod. Qed.

(** ** Powers *)

Lemma s32_square c x : s32 (s32 (c * s32 x) * s32 x) = s32 (c * x * x).
Proof.
  rewrite s32_mul_r, s32_mul_l. replace (c * s32 x * x) with (c * x * s32 x) by ring.
  apply s32_mul_r.
Qed.

Lemma pow_halving_spec base e : pow_halving base e = s32 (base ^ Zpos e).
Proof.
  induction e as [e IH|e IH|]; simpl pow_halving; rewrite ?IH, ?s32_square.
  - f_equal. rewrite Pos2Z.inj_xI, Z.pow_add_r, (Z.mul_comm 2), Z.pow_mul_r, Z.pow_2_r by lia. ring.
  - f_equal. rewrite Pos2Z.inj_xO, (Z.mul_comm 2), Z.pow_mul_r, Z.pow_2_r by lia. ring.
  - rewrite s32_mul_l. f_equal. lia.
Qed.

Lemma pandos_pow_spec base e : 0 <= e -> pandos_pow base e = s32 (base ^ e).
Proof. destruct e as [|e|e]; intros He; [done | apply pow_halving_spec | lia]. Qed.

(** ** Positional notation *)

Section digits.
Context (base : Z).
Hypothesis base_ok : 2 <= base.

(** The [k] digits of [n], most significant first. *)
Fixpoint to_digits (k : nat) (n : Z) : cstring :=
  match k with
  | O => []
  | S k' => digit_char (n / base ^ Z.of_nat k') :: to_digits k' (n mod base ^ Z.of_nat k')
  end.

(** How many digits [n] has; [fuel] is its bit length or more. *)
Fixpoint num_digits (fuel : nat) (n : Z) : nat :=
  match fuel with
  | O => O
  | S fuel' => if n =? 0 then O else S (num_digits fuel' (n / base))
  end.

Lemma length_to_digits k n : length (to_digits k n) = k.
Proof. revert n. induction k; intros n; simpl; auto. Qed.

Lemma pow_pos k : 0 < base ^ Z.of_nat k.
Proof. apply Z.pow_pos_nonneg; lia. Qed.

Lemma pow_succ k : base ^ Z.of_nat (S k) = base * base ^ Z.of_nat k.
Proof. rewrite Nat2Z.inj_succ, Z.pow_succ_r by lia. done. Qed.

Lemma num_digits_bounds fuel n : 0 <= n < 2 ^ Z.of_nat fuel ->
  n < base ^ Z.of_nat (num_digits fuel n) ∧
  (n ≠ 0 -> (0 < num_digits fuel n)%nat ∧ base ^ Z.of_nat (num_digits fuel n - 1) <= n) ∧
  (num_digits fuel n <= fuel)%nat.
Proof.
  revert n. induction fuel as [|fuel IH]; intros n Hn; simpl.
  { change (2 ^ Z.of_nat 0) with 1 in Hn. split_and!; [simpl; lia | lia | lia]. }
  destruct (Z.eqb_spec n 0) as [->|Hn0]; [split_and!; [simpl; lia | done | lia]|].
  assert (2 ^ Z.of_nat (S fuel) = 2 * 2 ^ Z.of_nat fuel) as Hpow.
  { by rewrite Nat2Z.inj_succ, Z.pow_succ_r by lia. }
  assert (0 <= n / base <= n / 2) as Hdiv.
  { split; [apply Z.div_pos; lia | apply Z.div_le_compat_l; lia]. }
  destruct (IH (n / base)) as (H1 & H2 & H3).
  { split; [lia|]. eapply Z.le_lt_trans; [apply Hdiv|]. apply Z.div_lt_upper_bound; lia. }
  rewrite pow_succ. pose proof (Z.div_mod n base ltac:(lia)) as Hdm.
  pose proof (Z.mod_pos_bound n base ltac:(lia)) as Hmb.
  split_and!; [nia | intros _; split; [lia|] | lia].
  rewrite Nat.sub_succ, Nat.sub_0_r.
  destruct (decide (n / base = 0)) as [Hz|Hz].
  - replace (num_digits fuel (n / base)) with O; [simpl; lia|].
    destruct (num_digits fuel (n / base)) eqn:Hd; [done|]. rewrite Hz in Hd. by destruct fuel.
  - destruct (H2 Hz) as [H4 H5]. destruct (num_digits fuel (n / base)) as [|d]; [lia|].
    rewrite Nat.sub_succ, Nat.sub_0_r in H5. rewrite pow_succ. nia.
Qed.

(** Reading a digit and a string of digits. *)
Definition digit_val (c : ascii) : Z :=
  if ord c <? 58 then ord c - 48 else ord c - 97 + 10.

Definition of_digits (s : cstring) : Z :=
  fold_left (fun acc c => acc * base + digit_val c) s 0.

Hypothesis base_small : base <= 36.

Lemma ord_chr z : 0 <= z < 256 -> ord (chr z) = z.
Proof.
  intros Hz. unfold ord, chr. rewrite Z.mod_small by lia.
  rewrite Ascii.N_ascii_embedding by lia. lia.
Qed.

Lemma digit_val_char r : 0 <= r < base -> digit_val (digit_char r) = r.
Proof.
  intros Hr. unfold digit_val, digit_char. destruct (Z.ltb_spec 9 r); rewrite ord_chr by lia.
  - destruct (Z.ltb_spec (97 + r - 10) 58); lia.
  - destruct (Z.ltb_spec (48 + r) 58); lia.
Qed.

Lemma digit_char_clean r : 0 <= r < base -> digit_char r ≠ NUL.
Proof.
  intros Hr HN. pose proof (f_equal ord HN) as Ho. revert Ho. unfold digit_char.
  change (ord NUL) with 0. destruct (Z.ltb_spec 9 r); rewrite ord_chr by lia; lia.
Qed.

Lemma of_digits_acc k : ∀ n acc, 0 <= n < base ^ Z.of_nat k ->
  fold_left (fun acc c => acc * base + digit_val c) (to_digits k n) acc
  = acc * base ^ Z.of_nat k + n.
Proof.
  induction k as [|k IH]; intros n acc Hn.
  { change (base ^ Z.of_nat 0) with 1 in *. simpl. lia. }
  pose proof (pow_pos k). rewrite pow_succ in *.
  pose proof (Z.mod_pos_bound n (base ^ Z.of_nat k) ltac:(lia)).
  pose proof (Z.div_mod n (base ^ Z.of_nat k) ltac:(lia)).
  simpl. rewrite digit_val_char; [rewrite IH by lia; nia|].
  split; [apply Z.div_pos; lia | apply Z.div_lt_upper_bound; lia].
Qed.

Lemma of_to_digits k n : 0 <= n < base ^ Z.of_nat k -> of_digits (to_digits k n) = n.
Proof. intros Hn. unfold of_digits. rewrite of_digits_acc by done. lia. Qed.

Lemma to_digits_clean k : ∀ n, 0 <= n < base ^ Z.of_nat k -> clean (to_digits k n) = true.
Proof.
  induction k as [|k IH]; intros n Hn; [done|].
  pose proof (pow_pos k). rewrite pow_succ in Hn.
  pose proof (Z.mod_pos_bound n (base ^ Z.of_nat k) ltac:(lia)).
  simpl. apply andb_true_iff. split; [|apply IH; lia].
  apply bool_decide_eq_true, digit_char_clean.
  split; [apply Z.div_pos; lia | apply Z.div_lt_upper_bound; lia].
Qed.
End digits.

(** The digits of a natural number, ["0"] for 0. *)
Definition show_nat (base n : Z) : cstring :=
  to_digits base (Nat.max 1 (num_digits base 33 n)) n.

Definition show_int (base i : Z) : cstring :=
  if i <? 0 then "-"%char :: show_nat base (- i) else show_nat base i.

Definition parse_int (base : Z) (s : cstring) : Z :=
  match s with
  | c :: s' => if decide (c = "-"%char) then - of_digits base s' else of_digits base s
  | [] => 0
  end.

Arguments show_nat : simpl never.
Arguments show_int : simpl never.

Section show.
Context (base : Z).
Hypothesis base_ok : 2 <= base <= 36.

Lemma show_nat_bound n : 0 <= n < 2 ^ 33 -> 0 <= n < base ^ Z.of_nat (Nat.max 1 (num_digits base 33 n)).
Proof.
  intros Hn. split; [lia|]. destruct (num_digits_bounds base ltac:(lia) 33 n) as [H _]; [done|].
  eapply Z.lt_le_trans; [apply H|]. apply Z.pow_le_mono_r; lia.
Qed.

Lemma of_digits_show_nat n : 0 <= n < 2 ^ 33 -> of_digits base (show_nat base n) = n.
Proof. intros Hn. apply of_to_digits; [lia | lia |]. by apply show_nat_bound. Qed.

Lemma show_nat_clean n : 0 <= n < 2 ^ 33 -> clean (show_nat base n) = true.
Proof. intros Hn. apply to_digits_clean; [lia | lia |]. by apply show_nat_bound. Qed.

Lemma show_nat_head n : 0 <= n < 2 ^ 33 -> ∃ r s, show_nat base n = digit_char r :: s ∧ 0 <= r < base.
Proof.
  intros Hn. pose proof (show_nat_bound n Hn) as Hb. unfold show_nat.
  destruct (Nat.max 1 (num_digits base 33 n)) as [|k] eqn:Hk; [lia|].
  simpl. eexists _, _. split; [done|]. pose proof (pow_pos base ltac:(lia) k).
  rewrite pow_succ in Hb. split; [apply Z.div_pos; lia | apply Z.div_lt_upper_bound; lia].
Qed.

Lemma read_show_int i : - 2 ^ 32 <= i < 2 ^ 32 -> parse_int base (show_int base i) = i.
Proof.
  intros Hi. unfold show_int. destruct (Z.ltb_spec i 0).
  { simpl. rewrite of_digits_show_nat by lia. lia. }
  destruct (show_nat_head i ltac:(lia)) as (r & s & Hs & Hr).
  assert (digit_char r ≠ "-"%char) as Hne.
  { intros Hc. pose proof (digit_val_char base ltac:(lia) r Hr) as Hv.
    rewrite Hc in Hv. change (digit_val "-"%char) with (-3) in Hv. lia. }
  rewrite <-(of_digits_show_nat i) at 2 by lia. rewrite Hs. simpl. by rewrite decide_False.
Qed.
End show.

(** ** The loops of [__itoa] *)

Lemma digits_loop_step {T} fuel base cpy digits :
  digits_loop (T := T) (S fuel) base cpy digits
  = if cpy =? 0 then ret digits
    else cpy' <- idiv cpy base ;; digits_loop fuel base cpy' (s32 (digits + 1)).
Proof. done. Qed.

Lemma digits_loop_spec {T} base fuel : 2 <= base < 2 ^ 31 -> ∀ cpy digits (t : T),
  - 2 ^ 31 <= cpy < 2 ^ 31 -> Z.abs cpy < 2 ^ Z.of_nat fuel ->
  0 <= digits -> digits + Z.of_nat fuel < 2 ^ 31 ->
  digits_loop (S fuel) base cpy digits t = Ok (digits + Z.of_nat (num_digits base fuel (Z.abs cpy))) t.
Proof.
  intros Hb. induction fuel as [|fuel IH]; intros cpy digits t Hc Hf Hd Hdf.
  { change (2 ^ Z.of_nat 0) with 1 in Hf. assert (cpy = 0) as -> by lia. rewrite digits_loop_step. simpl. by rewrite Z.add_0_r. }
  rewrite digits_loop_step. cbn [num_digits]. destruct (Z.eqb_spec cpy 0) as [->|Hc0].
  { simpl. by rewrite Z.add_0_r. }
  destruct (Z.eqb_spec (Z.abs cpy) 0) as [Ha|_]; [lia|].
  unfold idiv. destruct (Z.eqb_spec base 0) as [Hz|_]; [lia|]. rewrite bind_ret_l.
  assert (Z.abs (cpy ÷ base) = Z.abs cpy / base) as Habs.
  { rewrite <-Z.quot_abs by lia. rewrite Z.quot_div_nonneg by lia. by rewrite (Z.abs_eq base) by lia. }
  assert (Z.abs cpy / base <= Z.abs cpy / 2) as Hhalf by (apply Z.div_le_compat_l; lia).
  assert (2 ^ Z.of_nat (S fuel) = 2 * 2 ^ Z.of_nat fuel) as Hpow.
  { by rewrite Nat2Z.inj_succ, Z.pow_succ_r by lia. }
  assert (Z.abs cpy / 2 < 2 ^ Z.of_nat fuel) as Hlt by (apply Z.div_lt_upper_bound; lia).
  assert (Z.abs cpy / 2 < 2 ^ 31) as Hlt' by (apply Z.div_lt_upper_bound; lia).
  rewrite !s32_small by lia.
  rewrite IH by lia. f_equal. rewrite Habs. lia.
Qed.

(** ** The interface of a writer *)

Definition never {T} : Empty_set -> T -> Prop := fun _ _ => False.

(** [R s t] says that the target [t] holds the text [s] so far, and [fits s]
    that the target has room for all of [s].  A writer that [Prints] appends
    what it is given and reports its length. *)
Class Prints {T} (w : writer_t T) (fits : cstring -> Prop) (R : cstring -> T -> Prop) : Prop := {
  fits_prefix s1 s2 : fits (s1 ++ s2) -> fits s1;
  fits_length s : fits s -> len_of s < 2 ^ 30;
  prints_text s data len t : R s t -> clean data = true -> data ≠ [] -> fits (s ++ data) ->
    len = 0 \/ len = len_of data -> wp (w data len) (fun n t' => n = len_of data ∧ R (s ++ data) t') never t;
  prints_end s t : R s t -> fits s -> wp (w [] 1) (fun n t' => n = 0 ∧ R s t') never t
}.

(** A writer that keeps [I] whatever it is given. *)
Class Guarded {T} (w : writer_t T) (I : T -> Prop) : Prop := {
  guarded data len t : len_of data < 2 ^ 31 -> I t -> wp (w data len) (fun _ t' => I t') never t
}.

(** ** The text of a format *)

Definition text_of (k : ascii) (varg : list va) : option (cstring * list va) :=
  if decide (k = "s"%char) then
    match varg with
    | VStr s :: rest => if clean s && negb (bool_decide (s = [])) then Some (s, rest) else None
    | _ => None
    end
  else if decide (k = "c"%char) then
    match varg with
    | VInt z :: rest => if decide (chr z = NUL) then None else Some ([chr z], rest)
    | _ => None
    end
  else if decide (k = "d"%char) then
    match varg with
    | VInt z :: rest => Some (show_int 10 (s32 z), rest)
    | _ => None
    end
  else if decide (k = "p"%char) then
    match varg with
    | VInt z :: rest =>
        if u32 z =? 0 then Some (lit "(nil)", rest)
        else if u32 z <=? 0xF0000000 then Some (lit "0x" ++ show_nat 16 (u32 z), rest)
        else None
    | _ => None
    end
  else if decide (k = "b"%char) then
    match varg with
    | VInt z :: rest => Some (bin_buffer (s32 z), rest)
    | _ => None
    end
  else if decide (k = "%"%char) then Some (lit "%", varg)
  else if decide (k = NUL) then None
  else Some (["%"%char; k], varg).

(** [None] where the code has no text: an argument that is missing or of the
    wrong type, an empty string, a terminator inside, a format that ends in
    ['%'], a pointer above [0xF0000000]. *)
Fixpoint render (fmt : cstring) (varg : list va) : option cstring :=
  match fmt with
  | [] => Some []
  | c :: rest =>
      if decide (c = NUL) then None
      else if decide (c = "%"%char) then
        match rest with
        | [] => None
        | k :: rest' =>
            r ← text_of k varg;
            s ← render rest' r.2;
            Some (r.1 ++ s)
        end
      else s ← render rest varg; Some (c :: s)
  end.

(** A call the interpreter survives whatever the target does. *)
Definition arg_ok (k : ascii) (varg : list va) : option (list va) :=
  if decide (k = "s"%char) then
    match varg with
    | VStr s :: rest => if len_of s <? 2 ^ 31 then Some rest else None
    | _ => None
    end
  else if decide (k = "c"%char \/ k = "d"%char \/ k = "p"%char \/ k = "b"%char) then
    match varg with VInt _ :: rest => Some rest | _ => None end
  else if decide (k = NUL) then None
  else Some varg.

Fixpoint format_ok (fmt : cstring) (varg : list va) : bool :=
  match fmt with
  | [] => true
  | c :: rest =>
      if decide (c = NUL) then true
      else if decide (c = "%"%char) then
        match rest with
        | [] => false
        | k :: rest' =>
            match arg_ok k varg with Some varg' => format_ok rest' varg' | None => false end
        end
      else format_ok rest varg
  end.

(** ** Arithmetic of the digit loop *)

Lemma s32_of_u32 z : - 2 ^ 31 <= z < 2 ^ 31 -> s32 (u32 z) = z.
Proof. intros Hz. rewrite (s32_cong (u32 z) z); [by apply s32_small|]. by apply Z.mod_mod. Qed.

Lemma len_of_app a b : len_of (a ++ b) = len_of a + len_of b.
Proof. unfold len_of. rewrite length_app. lia. Qed.

Lemma len_of_nonneg a : 0 <= len_of a.
Proof. unfold len_of. lia. Qed.

(** The bases of the format interpreter: no power on the way overflows. *)
Definition printf_base (base : Z) : Prop := base = 10 \/ base = 16.

Lemma printf_base_range base : printf_base base -> 2 <= base <= 36.
Proof. intros [-> | ->]; lia. Qed.

Lemma num_digits_unique base fuel n k : 2 <= base -> 0 <= n < 2 ^ Z.of_nat fuel ->
  (0 < k)%nat -> base ^ Z.of_nat (k - 1) <= n < base ^ Z.of_nat k -> num_digits base fuel n = k.
Proof.
  intros Hb Hn Hk Hrange. pose proof (pow_pos base Hb (k - 1)).
  destruct (num_digits_bounds base Hb fuel n Hn) as (H1 & H2 & _).
  destruct (H2 ltac:(lia)) as [H3 H4]. set (d := num_digits base fuel n) in *.
  destruct (Nat.lt_trichotomy d k) as [Hlt|[Heq|Hgt]]; [|done|].
  - assert (base ^ Z.of_nat d <= base ^ Z.of_nat (k - 1)) by (apply Z.pow_le_mono_r; lia). lia.
  - assert (base ^ Z.of_nat k <= base ^ Z.of_nat (d - 1)) by (apply Z.pow_le_mono_r; lia). lia.
Qed.

Lemma printf_base_digits base n : printf_base base -> 0 < n <= 2 ^ 31 ->
  let d := num_digits base 33 n in
  (1 <= d <= 10)%nat ∧ 0 < base ^ Z.of_nat (d - 1) < 2 ^ 31 ∧ n < base ^ Z.of_nat d.
Proof.
  intros Hb Hn d. pose proof (printf_base_range base Hb).
  destruct (num_digits_bounds base ltac:(lia) 33 n ltac:(lia)) as (H1 & H2 & _).
  destruct (H2 ltac:(lia)) as [H3 H4]. fold d in H1, H3, H4.
  pose proof (pow_pos base ltac:(lia) (d - 1)).
  destruct Hb as [-> | ->].
  - assert (d <= 10)%nat as Hd.
    { destruct (le_lt_dec d 10) as [|Hgt]; [done|].
      assert (10 ^ Z.of_nat 10 <= 10 ^ Z.of_nat (d - 1)) by (apply Z.pow_le_mono_r; lia). lia. }
    assert (10 ^ Z.of_nat (d - 1) <= 10 ^ Z.of_nat 9) by (apply Z.pow_le_mono_r; lia).
    split_and!; lia.
  - assert (d <= 8)%nat as Hd.
    { destruct (le_lt_dec d 8) as [|Hgt]; [done|].
      assert (16 ^ Z.of_nat 8 <= 16 ^ Z.of_nat (d - 1)) by (apply Z.pow_le_mono_r; lia). lia. }
    assert (16 ^ Z.of_nat (d - 1) <= 16 ^ Z.of_nat 7) by (apply Z.pow_le_mono_r; lia).
    split_and!; lia.
Qed.

(** What [__itoa] finds in front of its digit loop. *)
Lemma itoa_loop_start base i : printf_base base -> - 2 ^ 31 <= i < 2 ^ 31 -> i ≠ 0 ->
  let d := num_digits base 33 (Z.abs i) in
  (1 <= d <= 10)%nat ∧ pandos_pow base (u32 (Z.of_nat d - 1)) = base ^ Z.of_nat (d - 1) ∧
  0 < base ^ Z.of_nat (d - 1) < 2 ^ 31 ∧ Z.abs i < base ^ Z.of_nat d.
Proof.
  intros Hb Hi Hi0 d. destruct (printf_base_digits base (Z.abs i) Hb ltac:(lia)) as (H1 & H2 & H3).
  fold d in H1, H2, H3. split_and!; try lia.
  rewrite u32_small by lia. replace (Z.of_nat d - 1) with (Z.of_nat (d - 1)) by lia.
  rewrite pandos_pow_spec by lia. apply s32_small. lia.
Qed.

Lemma itoa_next_exp {T} base k (t : T) : 2 <= base <= 36 -> 0 < base ^ Z.of_nat (S k) < 2 ^ 31 ->
  idiv (base ^ Z.of_nat (S k)) base t = Ok (base ^ Z.of_nat k) t.
Proof.
  intros Hb Hk. pose proof (pow_pos base ltac:(lia) k).
  rewrite pow_succ in * by lia. unfold idiv. destruct (Z.eqb_spec base 0); [lia|].
  rewrite Z.mul_comm, Z.quot_mul by lia. unfold ret. rewrite s32_small by nia. done.
Qed.

Lemma itoa_last_exp {T} base (t : T) : 2 <= base <= 36 -> ∃ e, idiv 1 base t = Ok e t.
Proof. intros Hb. unfold idiv. destruct (Z.eqb_spec base 0); [lia|]. eauto. Qed.

Lemma udiv_pos {T} a b (t : T) : 0 < b < 2 ^ 32 -> 0 <= a < 2 ^ 32 -> udiv a b t = Ok (a / b) t.
Proof.
  intros Hb Ha. unfold udiv. rewrite !u32_small by lia. by destruct (Z.eqb_spec b 0); [lia|].
Qed.

Lemma umod_pos {T} a b (t : T) : 0 < b < 2 ^ 32 -> 0 <= a < 2 ^ 32 -> umod a b t = Ok (a mod b) t.
Proof.
  intros Hb Ha. unfold umod. rewrite !u32_small by lia. by destruct (Z.eqb_spec b 0); [lia|].
Qed.

(** One turn of the digit loop: the digit is written, and the next turn has
    the rest of the number and the next lower power. *)
Lemma itoa_loop_turn {T} (w : writer_t T) fuel base n k wr wrote t Q :
  2 <= base <= 36 -> 0 <= n < 2 ^ 32 -> 0 < base ^ Z.of_nat k < 2 ^ 31 ->
  Z.of_nat k < 2 ^ 30 -> wr ≠ 0 ->
  wp (w [digit_char (s32 (n / base ^ Z.of_nat k))] 1) (fun r t' => ∀ e,
    (∀ k', k = S k' -> e = base ^ Z.of_nat k') ->
    wp (itoa_loop w fuel base (n mod base ^ Z.of_nat k) e (Z.of_nat k) (s32 r)
      (s32 (wrote + s32 r))) Q never t') never t ->
  wp (itoa_loop w (S fuel) base n (base ^ Z.of_nat k) (Z.of_nat (S k)) wr wrote) Q never t.
Proof.
  intros Hb Hn Hk Hk' Hwr Hw. cbn [itoa_loop].
  destruct (Z.eqb_spec (Z.of_nat (S k)) 0) as [|_]; [lia|].
  destruct (Z.eqb_spec wr 0) as [|_]; [done|]. cbn [negb andb].
  eapply wp_step; [apply udiv_pos; lia|]. apply wp_bind.
  eapply wp_mono; [exact Hw| |done]. intros r t' Hr; simpl in Hr.
  eapply wp_step; [apply umod_pos; lia|].
  replace (s32 (Z.of_nat (S k) - 1)) with (Z.of_nat k) by (rewrite s32_small; lia).
  destruct k as [|k].
  - destruct (itoa_last_exp base t' Hb) as [e He]. eapply wp_step; [exact He|]. by apply Hr.
  - eapply wp_step; [by apply itoa_next_exp|]. apply Hr. by intros k' [= ->].
Qed.

Lemma itoa_loop_done {T} (w : writer_t T) fuel base n e wr wrote t :
  itoa_loop w (S fuel) base n e 0 wr wrote t = Ok wrote t.
Proof. done. Qed.

(** ** A writer that prints *)

Section prints.
Context {T : Type} (w : writer_t T) (fits : cstring -> Prop) (R : cstring -> T -> Prop).
Context {HP : Prints w fits R}.

(** [m] prints [text] after [s]. *)
Definition emits (m : PM T Z) (s text : cstring) (t : T) : Prop :=
  wp m (fun n t' => n = len_of text ∧ R (s ++ text) t') never t.

Lemma emits_writer s data len t : R s t -> clean data = true -> data ≠ [] ->
  fits (s ++ data) -> len = 0 \/ len = len_of data -> emits (w data len) s data t.
Proof. apply prints_text. Qed.

Lemma emits_bind {A} (m : PM T Z) (k : Z -> PM T A) s text t Q : emits m s text t ->
  (∀ t', R (s ++ text) t' -> wp (k (len_of text)) Q never t') -> wp (bind m k) Q never t.
Proof.
  intros Hm Hk. apply wp_bind. eapply wp_mono; [exact Hm| |done].
  intros n t' [-> HR]. by apply Hk.
Qed.

Lemma itoa_loop_prints base k : 2 <= base <= 36 -> ∀ fuel n e s wr wrote t,
  (k < fuel)%nat -> 0 <= n < base ^ Z.of_nat k -> (∀ k', k = S k' -> e = base ^ Z.of_nat k') ->
  base ^ Z.of_nat (k - 1) < 2 ^ 31 -> n < 2 ^ 32 -> R s t -> fits (s ++ to_digits base k n) ->
  wr ≠ 0 -> 0 <= wrote -> wrote + Z.of_nat k < 2 ^ 30 ->
  wp (itoa_loop w fuel base n e (Z.of_nat k) wr wrote)
    (fun r t' => r = wrote + Z.of_nat k ∧ R (s ++ to_digits base k n) t') never t.
Proof.
  intros Hb. induction k as [|k IH]; intros fuel n e s wr wrote t Hf Hn He Hexp Hn32 HR Hfit Hwr Hw0 Hw.
  { destruct fuel as [|fuel]; [lia|]. eapply wp_ok; [apply itoa_loop_done|].
    simpl. by rewrite app_nil_r, Z.add_0_r. }
  destruct fuel as [|fuel]; [lia|]. rewrite (He k eq_refl).
  rewrite Nat.sub_succ, Nat.sub_0_r in Hexp. pose proof (pow_pos base ltac:(lia) k).
  rewrite pow_succ in Hn by lia.
  pose proof (Z.mod_pos_bound n (base ^ Z.of_nat k) ltac:(lia)) as Hm.
  assert (0 <= n / base ^ Z.of_nat k < base) as Hq.
  { split; [apply Z.div_pos; lia | apply Z.div_lt_upper_bound; lia]. }
  cbn [to_digits] in *. rewrite cons_middle, app_assoc in *.
  apply itoa_loop_turn; try done; try lia.
  rewrite (s32_small (n / _)) by lia.
  eapply wp_mono; [apply (emits_writer s _ 1 t); try done; [| |by right]| |done].
  { simpl. by rewrite bool_decide_eq_true_2 by (apply (digit_char_clean base); lia). }
  { by eapply fits_prefix. }
  intros r t' [-> HR'] e' He'. change (len_of [_]) with 1. change (s32 1) with 1.
  rewrite s32_small by lia.
  assert (base ^ Z.of_nat (k - 1) <= base ^ Z.of_nat k) by (apply Z.pow_le_mono_r; lia).
  eapply wp_mono; [apply IH; try done; try lia| |done].
  intros r t'' [-> HR'']. split; [lia|]. done.
Qed.

Lemma prints_fits s data : fits (s ++ data) -> len_of s + len_of data < 2 ^ 30.
Proof. intros Hf. rewrite <-len_of_app. by apply fits_length. Qed.

(** The number, and then the call that ends the string. *)
Lemma itoa_magnitude_then (Q : T -> Prop) base i s wrote t : printf_base base -> - 2 ^ 31 <= i < 2 ^ 31 ->
  num_digits base 33 (Z.abs i) = num_digits base 33 (u32 i) ->
  R s t -> fits (s ++ show_nat base (u32 i)) -> 0 <= wrote <= 1 ->
  (∀ t', R (s ++ show_nat base (u32 i)) t' -> wp (w [] 1) (fun n t'' => n = 0 ∧ Q t'') never t') ->
  wp (itoa_magnitude w base wrote i) (fun r t' =>
    r = wrote + len_of (show_nat base (u32 i)) ∧ Q t') never t.
Proof.
  intros Hb Hi Hd HR Hfit Hw Hlast. pose proof (printf_base_range base Hb) as Hbr.
  unfold itoa_magnitude.
  eapply wp_step; [apply digits_loop_spec; simpl; lia|]. rewrite Z.add_0_l.
  assert (∀ n t', R (s ++ show_nat base (u32 i)) t' ->
    wp (n' <- w [] 1 ;; ret (u32 (n + n'))) (fun r t' => r = u32 n ∧ Q t') never t') as Hend.
  { intros n t' HR'. apply wp_bind. eapply wp_mono; [by apply Hlast| |done].
    intros n' t'' [-> HR'']. apply wp_ret. by rewrite Z.add_0_r. }
  pose proof (prints_fits _ _ Hfit) as Hlen. pose proof (len_of_nonneg s).
  pose proof (u32_range i) as Hu.
  destruct (Z.eqb_spec i 0) as [->|Hi0]; cbn [negb].
  { apply wp_bind, wp_bind. change (show_nat base (u32 0)) with (lit "0") in *.
    eapply wp_mono; [apply emits_writer; try done; by right| |done].
    intros n t' [-> HR']. apply wp_ret. eapply wp_mono; [by apply Hend| |done].
    intros r t'' [-> HR'']. change (len_of (lit "0")) with 1.
    rewrite s32_small, u32_small by lia. done. }
  destruct (itoa_loop_start base i Hb Hi Hi0) as (H1 & -> & H3 & H4).
  assert (u32 i ≠ 0) as Hu0.
  { intros Hu0. apply Hi0. apply s32_zero in Hu0. by rewrite s32_small in Hu0. }
  destruct (num_digits_bounds base ltac:(lia) 33 (u32 i) ltac:(lia)) as (H5 & _ & _).
  unfold show_nat in Hfit, Hlen, Hend |- *. rewrite <-Hd in *. rewrite (Nat.max_r 1) in * by lia.
  set (d := num_digits base 33 (Z.abs i)) in *.
  apply wp_bind. eapply wp_mono.
  - apply (itoa_loop_prints base d Hbr _ _ _ s); try done; try lia; [unfold itoa_fuel; lia|].
    intros k' Hk'. rewrite Hk', Nat.sub_succ, Nat.sub_0_r. done.
  - intros r t' [-> HR']. eapply wp_mono; [by apply Hend| |done].
    intros r t'' [-> HR'']. unfold len_of. rewrite length_to_digits.
    split; [|done]. apply u32_small. lia.
  - done.
Qed.

Lemma itoa_magnitude_prints base i s wrote t : printf_base base -> - 2 ^ 31 <= i < 2 ^ 31 ->
  num_digits base 33 (Z.abs i) = num_digits base 33 (u32 i) ->
  R s t -> fits (s ++ show_nat base (u32 i)) -> 0 <= wrote <= 1 ->
  wp (itoa_magnitude w base wrote i) (fun r t' =>
    r = wrote + len_of (show_nat base (u32 i)) ∧ R (s ++ show_nat base (u32 i)) t') never t.
Proof.
  intros Hb Hi Hd HR Hfit Hw. apply (itoa_magnitude_then (R (s ++ show_nat base (u32 i))) base i s); try done.
  intros t' HR'. by apply prints_end.
Qed.

Lemma itoa_decimal_then (Q : T -> Prop) i s t : - 2 ^ 31 <= i < 2 ^ 31 -> R s t -> fits (s ++ show_int 10 i) ->
  (∀ t', R (s ++ show_int 10 i) t' -> wp (w [] 1) (fun n t'' => n = 0 ∧ Q t'') never t') ->
  wp (__itoa w i 10) (fun n t' => n = len_of (show_int 10 i) ∧ Q t') never t.
Proof.
  intros Hi HR Hfit Hlast. pose proof (prints_fits _ _ Hfit) as Hlen. pose proof (len_of_nonneg s).
  unfold __itoa, show_int in *. cbn [Z.eqb SIGNED_BASE Pos.eqb andb].
  destruct (Z.ltb_spec i 0) as [Hneg|Hpos].
  - rewrite cons_middle, app_assoc in Hfit.
    eapply emits_bind; [apply emits_writer; try done; [by eapply fits_prefix | by right]|].
    intros t' HR'. change (s32 (len_of (lit "-"))) with 1.
    assert (u32 (s32 (- i)) = - i /\ Z.abs (s32 (- i)) = - i) as [Hu Ha].
    { split; [rewrite u32_s32; apply u32_small; lia|].
      destruct (decide (i = - 2 ^ 31)) as [->|]; [done|]. rewrite s32_small; lia. }
    eapply wp_mono; [apply (itoa_magnitude_then Q 10 _ (s ++ lit "-")); try done| |done].
    + by left.
    + apply s32_range.
    + by rewrite Ha, Hu.
    + by rewrite Hu.
    + rewrite Hu, <-app_assoc. exact Hlast.
    + rewrite Hu. intros r t'' [-> HR'']. split; [|done].
      unfold len_of. simpl length. lia.
  - assert (u32 i = i) as Hu by (apply u32_small; lia).
    eapply wp_mono; [apply (itoa_magnitude_then Q 10 _ s); try done| |done].
    + by left.
    + by rewrite Hu, Z.abs_eq by lia.
    + by rewrite Hu.
    + by rewrite Hu.
    + rewrite Hu. intros r t'' [-> HR'']. by rewrite Z.add_0_l.
Qed.

Lemma itoa_decimal i s t : - 2 ^ 31 <= i < 2 ^ 31 -> R s t -> fits (s ++ show_int 10 i) ->
  emits (__itoa w i 10) s (show_int 10 i) t.
Proof.
  intros Hi HR Hfit. apply (itoa_decimal_then (R (s ++ show_int 10 i)) i s); try done. intros t' HR'. by apply prints_end.
Qed.

Lemma itoa_hex i s t : - 2 ^ 31 <= i < 2 ^ 31 -> u32 i <= 0xF0000000 ->
  R s t -> fits (s ++ show_nat 16 (u32 i)) -> emits (__itoa w i 16) s (show_nat 16 (u32 i)) t.
Proof.
  intros Hi Hu HR Hfit. unfold emits, __itoa. change (16 =? SIGNED_BASE) with false. cbn [andb].
  eapply wp_mono; [apply (itoa_magnitude_prints 16 i s); try done| |done].
  - by right.
  - destruct (Z.ltb_spec i 0) as [Hneg|Hpos]; [|by rewrite u32_small, Z.abs_eq by lia].
    assert (u32 i = i + 2 ^ 32) as Hi2.
    { unfold u32. replace i with (i + 2 ^ 32 + (-1) * 2 ^ 32) at 1 by lia.
      rewrite Z_mod_plus_full. apply Z.mod_small. lia. }
    rewrite (num_digits_unique 16 33 (Z.abs i) 8), (num_digits_unique 16 33 (u32 i) 8);
      try change (16 ^ Z.of_nat (8 - 1)) with 268435456; try change (16 ^ Z.of_nat 8) with 4294967296;
      simpl Z.of_nat; lia.
  - intros r t' [-> HR']. by rewrite Z.add_0_l.
Qed.

Lemma bin_buffer_clean i : clean (bin_buffer i) = true.
Proof.
  unfold clean, bin_buffer. rewrite forallb_forall. intros c Hc. apply in_map_iff in Hc as (x & <- & _).
  by destruct (Z.testbit _ _).
Qed.

Lemma prints_direct {B} data len (v : B) s t : clean data = true -> data ≠ [] ->
  len = 0 \/ len = len_of data -> R s t -> fits (s ++ data) ->
  wp (n <- w data len ;; ret (n, v)) (fun r t' => r = (len_of data, v) ∧ R (s ++ data) t') never t.
Proof. intros. eapply emits_bind; [by apply emits_writer|]. intros t' HR'. by apply wp_ret. Qed.

Lemma show_nat_ne base n : show_nat base n ≠ [].
Proof.
  intros Hs. pose proof (f_equal length Hs) as Hl. unfold show_nat in Hl.
  rewrite length_to_digits in Hl. change (length []) with O in Hl. lia.
Qed.

Lemma show_int_ne base i : show_int base i ≠ [].
Proof. unfold show_int. destruct (i <? 0); [done | apply show_nat_ne]. Qed.

Lemma text_of_ne k varg text varg' : text_of k varg = Some (text, varg') -> text ≠ [].
Proof.
  unfold text_of. intros Ht.
  destruct (decide (k = "s"%char)).
  { destruct varg as [|[z|s0] rest]; try done. destruct (clean s0); [|done].
    destruct (bool_decide_reflect (s0 = [])); [done|]. by injection Ht as <- _. }
  destruct (decide (k = "c"%char)).
  { destruct varg as [|[z|s0] rest]; try done. destruct (decide (chr z = NUL)); [done|].
    by injection Ht as <- _. }
  destruct (decide (k = "d"%char)).
  { destruct varg as [|[z|s0] rest]; try done. injection Ht as <- _. apply show_int_ne. }
  destruct (decide (k = "p"%char)).
  { destruct varg as [|[z|s0] rest]; try done. destruct (u32 z =? 0); [by injection Ht as <- _|].
    destruct (u32 z <=? 0xF0000000); [by injection Ht as <- _ | done]. }
  destruct (decide (k = "b"%char)).
  { destruct varg as [|[z|s0] rest]; try done. by injection Ht as <- _. }
  destruct (decide (k = "%"%char)); [by injection Ht as <- _|].
  destruct (decide (k = NUL)); [done|]. by injection Ht as <- _.
Qed.

Lemma convert_pointer z s t (v : list va) : 0 < u32 z <= 0xF0000000 -> R s t ->
  fits (s ++ lit "0x" ++ show_nat 16 (u32 z)) ->
  wp (n <- w (lit "0x") 2 ;; n' <- __itoa w (s32 z) 16 ;; ret (u32 (n + n'), v)) (fun r t' =>
    r = (len_of (lit "0x" ++ show_nat 16 (u32 z)), v) ∧
    R (s ++ lit "0x" ++ show_nat 16 (u32 z)) t') never t.
Proof.
  intros Hz HR Hfit. pose proof (prints_fits _ _ Hfit) as Hlen. pose proof (len_of_nonneg s).
  rewrite app_assoc in Hfit.
  eapply emits_bind; [apply emits_writer; try done; [by eapply fits_prefix | by right]|].
  intros t' HR'. rewrite <-(u32_s32 z) in *.
  eapply emits_bind; [apply (itoa_hex _ (s ++ lit "0x")); try done; [apply s32_range | lia]|].
  intros t'' HR''. apply wp_ret. rewrite app_assoc. split; [|done].
  rewrite <-len_of_app, u32_small; [done|]. pose proof (len_of_nonneg (lit "0x" ++ show_nat 16 (u32 (s32 z)))). lia.
Qed.

Lemma convert_prints k varg s text varg' t : text_of k varg = Some (text, varg') ->
  R s t -> fits (s ++ text) ->
  wp (convert w k varg) (fun r t' => r = (len_of text, varg') ∧ R (s ++ text) t') never t.
Proof.
  unfold text_of, convert. intros Htext HR Hfit.
  destruct (decide (k = "s"%char)).
  { destruct varg as [|[z|s0] rest]; try done. destruct (clean s0) eqn:Hc; [|done].
    destruct (bool_decide_reflect (s0 = [])); [done|]. injection Htext as <- <-.
    cbn [va_str]. eapply wp_step; [done|]. cbn [fst snd]. apply prints_direct; auto. }
  destruct (decide (k = "c"%char)).
  { destruct varg as [|[z|s0] rest]; try done. destruct (decide (chr z = NUL)); [done|].
    injection Htext as <- <-. cbn [va_int]. eapply wp_step; [done|]. cbn [fst snd].
    apply prints_direct; auto. simpl. by rewrite bool_decide_eq_true_2. }
  destruct (decide (k = "d"%char)).
  { destruct varg as [|[z|s0] rest]; try done. injection Htext as <- <-.
    cbn [va_int]. eapply wp_step; [done|]. cbn [fst snd].
    eapply emits_bind; [apply itoa_decimal; try done; apply s32_range|].
    intros t' HR'. by apply wp_ret. }
  destruct (decide (k = "p"%char)).
  { destruct varg as [|[z|s0] rest]; try done. cbn [va_int]. eapply wp_step; [done|].
    cbn [fst snd]. destruct (Z.eqb_spec (u32 z) 0); cbn [negb].
    - injection Htext as <- <-. apply prints_direct; auto.
    - destruct (Z.leb_spec (u32 z) 0xF0000000); [|done]. injection Htext as <- <-.
      pose proof (u32_range z). by apply convert_pointer; [lia| |]. }
  destruct (decide (k = "b"%char)).
  { destruct varg as [|[z|s0] rest]; try done. injection Htext as <- <-.
    cbn [va_int]. eapply wp_step; [done|]. cbn [fst snd]. apply wp_bind, wp_bind.
    eapply wp_mono; [apply emits_writer; try done|by intros n' t' [-> ?]|done].
    - apply bin_buffer_clean.
    - by right. }
  destruct (decide (k = "%"%char)).
  { injection Htext as <- <-. apply prints_direct; auto. }
  destruct (decide (k = NUL)); [done|]. injection Htext as <- <-.
  apply prints_direct; auto. simpl. by rewrite (bool_decide_eq_true_2 (k ≠ NUL)).
Qed.

Lemma printf_loop_prints fmt : ∀ varg text s wr t, render fmt varg = Some text ->
  R s t -> fits (s ++ text) -> 0 <= wr -> wr + len_of text < 2 ^ 31 ->
  wp (printf_loop w fmt varg wr) (fun r t' => r = wr + len_of text ∧ R (s ++ text) t') never t.
Proof.
  induction fmt as [fmt IH] using (induction_ltof1 _ length). unfold ltof in IH.
  intros varg text s wr t Hr HR Hfit Hwr Hlen. destruct fmt as [|c rest]; simplify_eq/=.
  { apply wp_ret. by rewrite app_nil_r, Z.add_0_r. }
  destruct (decide (c = NUL)); [done|]. destruct (decide (c = "%"%char)).
  - destruct rest as [|k rest]; [done|]. cbn [hd].
    destruct (text_of k varg) as [[text1 varg']|] eqn:Ht; simplify_eq/=.
    destruct (render rest varg') as [text2|] eqn:Hr2; simplify_eq/=.
    rewrite app_assoc in *. rewrite len_of_app in *.
    pose proof (len_of_nonneg text1). pose proof (len_of_nonneg text2).
    apply wp_bind. eapply wp_mono; [eapply convert_prints; try done; by eapply fits_prefix| |done].
    intros r t' [-> HR']. cbn [fst snd].
    pose proof (text_of_ne _ _ _ _ Ht) as Hne.
    assert (len_of text1 ≠ 0) by (destruct text1; [done | unfold len_of; simpl length; lia]).
    destruct (Z.eqb_spec (len_of text1) 0); [done|].
    destruct (decide (k = NUL)) as [->|]; [by vm_compute in Ht|].
    rewrite u32_small by lia.
    eapply wp_mono; [eapply (IH rest); try done; simpl; lia| |done].
    intros r t'' [-> HR'']. split; [lia | done].
  - destruct (render rest varg) as [text2|] eqn:Hr2; simplify_eq/=.
    rewrite cons_middle, app_assoc in *. change (c :: text2) with ([c] ++ text2) in *.
    rewrite len_of_app in *. change (len_of [c]) with 1 in *. pose proof (len_of_nonneg text2).
    eapply emits_bind; [apply emits_writer; try done; [| by eapply fits_prefix | by right]|].
    { simpl. by rewrite (bool_decide_eq_true_2 (c ≠ NUL)). }
    intros t' HR'. change (len_of [c] =? 0) with false. cbv iota. change (len_of [c]) with 1.
    rewrite u32_small by lia.
    eapply wp_mono; [eapply (IH rest); try done; simpl; lia| |done].
    intros r t'' [-> HR'']. split; [lia | done].
Qed.
End prints.

(** ** A writer that only keeps its invariant *)

Section guarded.
Context {T : Type} (w : writer_t T) (I : T -> Prop).
Context {HG : Guarded w I}.

Definition keeps {A} (m : PM T A) : Prop := ∀ t, I t -> wp m (fun _ t' => I t') never t.

Lemma keeps_writer data len : len_of data < 2 ^ 31 -> keeps (w data len).
Proof. intros ? t Ht. by apply guarded. Qed.

Lemma keeps_ret {A} (a : A) : keeps (ret a).
Proof. by intros t Ht. Qed.

Lemma keeps_bind {A B} (m : PM T A) (k : A -> PM T B) :
  keeps m -> (∀ a, keeps (k a)) -> keeps (bind m k).
Proof.
  intros Hm Hk t Ht. apply wp_bind. eapply wp_mono; [by apply Hm| |done].
  intros a t' Ht'. by apply Hk.
Qed.

Lemma itoa_loop_guarded base k : 2 <= base <= 36 -> ∀ fuel n e wr wrote,
  (k < fuel)%nat -> (k <= 32)%nat -> 0 <= n < 2 ^ 32 -> (∀ k', k = S k' -> e = base ^ Z.of_nat k') ->
  base ^ Z.of_nat (k - 1) < 2 ^ 31 -> keeps (itoa_loop w fuel base n e (Z.of_nat k) wr wrote).
Proof.
  intros Hb. induction k as [|k IH]; intros fuel n e wr wrote Hf Hk Hn He Hexp t Ht;
    (destruct fuel as [|fuel]; [lia|]); [done|].
  rewrite (He k eq_refl). rewrite Nat.sub_succ, Nat.sub_0_r in Hexp.
  pose proof (pow_pos base ltac:(lia) k).
  destruct (decide (wr = 0)) as [->|Hwr]; [by cbn [itoa_loop Z.eqb negb]; rewrite andb_false_r|].
  apply itoa_loop_turn; try done; try lia.
  eapply wp_mono; [apply keeps_writer; done| |done].
  intros r t' Ht' e' He'. pose proof (Z.mod_pos_bound n (base ^ Z.of_nat k) ltac:(lia)).
  assert (base ^ Z.of_nat (k - 1) <= base ^ Z.of_nat k) by (apply Z.pow_le_mono_r; lia).
  apply IH; try done; lia.
Qed.

Lemma itoa_magnitude_guarded base wrote i : printf_base base -> - 2 ^ 31 <= i < 2 ^ 31 ->
  keeps (itoa_magnitude w base wrote i).
Proof.
  intros Hb Hi t Ht. pose proof (printf_base_range base Hb) as Hbr. unfold itoa_magnitude.
  eapply wp_step; [apply digits_loop_spec; simpl; lia|]. rewrite Z.add_0_l.
  revert t Ht. apply keeps_bind.
  2: { intros n. apply keeps_bind; [by apply keeps_writer | intros; apply keeps_ret]. }
  destruct (Z.eqb_spec i 0) as [->|Hi0]; cbn [negb].
  { apply keeps_bind; [by apply keeps_writer | intros; apply keeps_ret]. }
  destruct (itoa_loop_start base i Hb Hi Hi0) as (H1 & -> & H3 & H4).
  pose proof (u32_range i). apply itoa_loop_guarded; unfold itoa_fuel; try done; try lia.
  intros k' Hk'. rewrite Hk', Nat.sub_succ, Nat.sub_0_r. done.
Qed.

Lemma itoa_guarded i base : printf_base base -> - 2 ^ 31 <= i < 2 ^ 31 -> keeps (__itoa w i base).
Proof.
  intros Hb Hi. unfold __itoa. destruct (_ && _); [|by apply itoa_magnitude_guarded].
  apply keeps_bind; [by apply keeps_writer|]. intros n. apply itoa_magnitude_guarded; [done|].
  apply s32_range.
Qed.

Lemma keeps_conversion (m : PM T Z) (rest : list va) : keeps m ->
  ∀ t, I t -> wp (n <- m ;; ret (n, rest)) (fun r t' => I t' ∧ r.2 = rest) never t.
Proof. intros Hm t Ht. apply wp_bind. eapply wp_mono; [by apply Hm| |done]. intros n t' Ht'. by apply wp_ret. Qed.

Lemma convert_guarded k varg rest t : arg_ok k varg = Some rest -> I t ->
  wp (convert w k varg) (fun r t' => I t' ∧ r.2 = rest) never t.
Proof.
  unfold arg_ok, convert. intros Ha Ht.
  destruct (decide (k = "s"%char)).
  { destruct varg as [|[z|s0] r]; try done. destruct (Z.ltb_spec (len_of s0) (2 ^ 31)); [|done].
    injection Ha as <-. cbn [va_str]. eapply wp_step; [done|]. cbn [fst snd].
    apply keeps_conversion; [by apply keeps_writer | done]. }
  assert (∀ (f : Z -> PM T Z), (∀ z, keeps (f z)) ->
    ∀ (Hk : k = "c"%char \/ k = "d"%char \/ k = "p"%char \/ k = "b"%char),
    wp (a <- va_int varg ;; n <- f a.1 ;; ret (n, a.2)) (fun r t' => I t' ∧ r.2 = rest) never t) as Hint.
  { intros f Hf Hk. rewrite decide_True in Ha by done.
    destruct varg as [|[z|s0] r]; try done. injection Ha as <-. cbn [va_int].
    eapply wp_step; [done|]. cbn [fst snd]. by apply keeps_conversion. }
  destruct (decide (k = "c"%char)).
  { apply (Hint (fun z => w [chr z] 1)); [by intros; apply keeps_writer | auto]. }
  destruct (decide (k = "d"%char)).
  { apply (Hint (fun z => __itoa w (s32 z) 10)); [| auto].
    intros z. apply itoa_guarded; [by left | apply s32_range]. }
  destruct (decide (k = "p"%char)).
  { rewrite decide_True in Ha by auto. destruct varg as [|[z|s0] r]; try done. injection Ha as <-.
    cbn [va_int]. eapply wp_step; [done|]. cbn [fst snd].
    destruct (u32 z =? 0); cbn [negb]; [apply keeps_conversion; [by apply keeps_writer | done]|].
    apply wp_bind. eapply wp_mono; [by apply (keeps_writer (lit "0x") 2)| |done]. intros m t' Ht'.
    apply wp_bind. eapply wp_mono; [apply itoa_guarded; [by right | apply s32_range | done]| |done].
    intros m' t'' Ht''. by apply wp_ret. }
  destruct (decide (k = "b"%char)).
  { apply (Hint (fun z => __bin w (s32 z))); [| auto].
    intros z. apply keeps_bind; [by apply keeps_writer | intros; apply keeps_ret]. }
  rewrite decide_False in Ha by naive_solver.
  destruct (decide (k = NUL)); [done|]. injection Ha as <-.
  destruct (decide (k = "%"%char)); (apply keeps_conversion; [by apply keeps_writer | done]).
Qed.

Lemma finish_guarded b wr : keeps (finish w b wr).
Proof.
  destruct b; [apply keeps_ret|]. apply keeps_bind; [by apply keeps_writer | intros; apply keeps_ret].
Qed.

Lemma printf_loop_guarded fmt : ∀ varg wr t, format_ok fmt varg = true -> I t ->
  wp (printf_loop w fmt varg wr) (fun _ t' => I t') never t.
Proof.
  induction fmt as [fmt IH] using (induction_ltof1 _ length). unfold ltof in IH.
  intros varg wr t Hf Ht. destruct fmt as [|c rest]; cbn [printf_loop format_ok] in *; [done|].
  destruct (decide (c = NUL)); [done|]. destruct (decide (c = "%"%char)).
  - destruct rest as [|k rest]; [done|]. cbn [hd].
    destruct (arg_ok k varg) as [varg'|] eqn:Ha; [|done].
    apply wp_bind. eapply wp_mono; [by eapply convert_guarded| |done].
    intros r t' [Ht' <-]. destruct (r.1 =? 0); [by apply finish_guarded|].
    destruct (decide (k = NUL)) as [->|]; [by vm_compute in Ha|].
    apply IH; [simpl; lia | done | done].
  - apply wp_bind. eapply wp_mono; [by apply (keeps_writer [c] 1)| |done].
    intros r t' Ht'. destruct (r =? 0); [by apply finish_guarded|].
    apply IH; [simpl; lia | done | done].
Qed.
End guarded.
