(* ===== verification/Targets.v ===== *)
(** * The targets of the format interpreter

    Each writer of [Printf] meets the interface of [Render]: [str_writer]
    stays inside its buffer whatever it is given and prints what fits,
    [memory_writer] keeps the last lines of everything ever printed, and
    [serial_writer] sends its text to a terminal that answers. *)

From Stdlib Require Import ZArith Lia Ascii String.
From stdpp Require Import base tactics option list strings.
From S2P Require Import Prelude Machine Printf Render.

Open Scope Z_scope.

Lemma clean_cons c s : clean (c :: s) = true -> c ≠ NUL ∧ clean s = true.
Proof. simpl. intros [H1 H2]%andb_true_iff. split; [by apply bool_decide_eq_true in H1 | done]. Qed.

Lemma len_of_cons c s : len_of (c :: s) = 1 + len_of s.
Proof. unfold len_of. simpl length. lia. Qed.

(** ** A string buffer *)

Lemma poke_inside i c a : 0 <= i < len_of a -> poke i c a = Some (<[Z.to_nat i := c]> a).
Proof.
  intros Hi. unfold poke. by rewrite (proj2 (Z.leb_le 0 i)), (proj2 (Z.ltb_lt i _)) by lia.
Qed.

Lemma len_of_insert (i : nat) c (a : list ascii) : len_of (<[i := c]> a) = len_of a.
Proof. unfold len_of. by rewrite length_insert. Qed.

Lemma put_char_inside i c d : 0 <= i < len_of (str d) ->
  put_char i c d = Ok tt (set_str (<[Z.to_nat i := c]> (str d)) d).
Proof. intros Hi. unfold put_char, bind, get. by rewrite poke_inside. Qed.

Section str_target.
Context (sz cap : Z) (rest : list ascii).
Hypothesis sz_ok : 1 <= sz <= cap.
Hypothesis sz_small : sz <= 2 ^ 30.

(** The buffer has [cap] bytes, [sz] of them may be written, and [rest] is
    what follows those. *)
Record str_inv (d : str_target_t) : Prop := {
  si_size : size d = sz;
  si_cap : len_of (str d) = cap;
  si_wrote : 0 <= wrote d <= sz - 1;
  si_rest : drop (Z.to_nat sz) (str d) = rest
}.

Lemma str_inv_put d i c : str_inv d -> 0 <= i < sz ->
  ∃ d', put_char i c d = Ok tt d' ∧ str_inv d' ∧ wrote d' = wrote d.
Proof.
  intros [H1 H2 H3 H4] Hi. rewrite put_char_inside by lia. eexists. split_and!; [done | | done].
  split; simpl; try done; [by rewrite len_of_insert|].
  rewrite drop_insert_lt by lia. done.
Qed.

Lemma str_loop_step check data len i d : str_inv d -> 0 <= i -> wrote d + i <= sz - 1 ->
  str_loop check data len i d =
  (if wrote d + i <? sz - 1 then
    put_char (wrote d + i) (hd NUL data) ;;
    if decide (hd NUL data = NUL) then ret i
    else if negb check || negb (len =? 0) then
      match data with
      | [] => ret i
      | _ :: data' => str_loop check data' (if check then u32 (len - 1) else len) (s32 (i + 1))
      end
    else ret i
  else ret i) d.
Proof.
  intros [H1 H2 H3 H4] Hi Hw. destruct data; unfold str_loop at 1, bind at 1, get;
    rewrite !u32_small by lia; rewrite H1; done.
Qed.

Lemma str_loop_guarded check data : ∀ len i d, str_inv d -> 0 <= i -> wrote d + i <= sz - 1 ->
  wp (str_loop check data len i) (fun i' d' => str_inv d' ∧ 0 <= i' ∧ wrote d' + i' <= sz - 1) never d.
Proof.
  induction data as [|c data IH]; intros len i d Hd Hi Hw; unfold wp;
    rewrite str_loop_step by done; destruct (Z.ltb_spec (wrote d + i) (sz - 1)); try done.
  - destruct (str_inv_put d (wrote d + i) NUL Hd) as (d' & Hput & Hd' & Hw'); [destruct Hd; lia|].
    cbn [hd]. rewrite (bind_ok _ _ _ _ _ Hput). cbv beta. rewrite decide_True by done.
    simpl. rewrite Hw'. auto with lia.
  - destruct (str_inv_put d (wrote d + i) c Hd) as (d' & Hput & Hd' & Hw'); [destruct Hd; lia|].
    cbn [hd]. rewrite (bind_ok _ _ _ _ _ Hput). cbv beta.
    assert (str_inv d' ∧ 0 <= i ∧ wrote d' + i <= sz - 1) by (rewrite Hw'; auto with lia).
    destruct (decide (c = NUL)); [done|]. destruct (_ || _); [|done].
    destruct Hd. rewrite s32_small by lia. apply IH; [done | lia | lia].
Qed.

#[global] Instance str_writer_guarded : Guarded str_writer str_inv.
Proof.
  constructor. intros data len d _ Hd. pose proof Hd as [H1 H2 H3 H4]. unfold str_writer.
  eapply wp_step; [done|]. apply wp_bind. set (keep := fun (i : Z) d' =>
    str_inv d' ∧ 0 <= i ∧ wrote d' + i <= sz - 1).
  assert (∀ i d', keep i d' -> wp (modify (fun d => set_wrote (u32 (wrote d + i)) d) ;; ret (u32 i))
    (fun _ d' => str_inv d') never d') as Hend.
  { intros i d' ([E1 E2 E3 E4] & Hi & Hw). eapply wp_step; [done|]. apply wp_ret.
    rewrite u32_small by lia. split; simpl; try done; lia. }
  destruct (decide (hd NUL data = NUL)).
  - rewrite H1, (u32_small (sz - 1)) by lia.
    set (pos := if sz - 1 <=? wrote d then wrote d else u32 (wrote d + 1)).
    assert (0 <= pos < sz) as Hpos.
    { unfold pos. destruct (Z.leb_spec (sz - 1) (wrote d)); [lia|]. rewrite u32_small; lia. }
    destruct (str_inv_put d pos NUL Hd Hpos) as (d' & Hput & Hd' & Hw').
    eapply wp_step; [exact Hput|]. apply wp_ret, Hend. split; [done|]. rewrite Hw'. lia.
  - eapply wp_mono; [apply str_loop_guarded; [done | lia | lia] | exact Hend | done].
Qed.

(** The text so far is at the front of the buffer, followed by a terminator
    once something has been printed. *)
Definition str_holds (s : cstring) (d : str_target_t) : Prop :=
  str_inv d ∧ wrote d = len_of s ∧
  ∃ tail, str d = s ++ tail ∧ (s ≠ [] -> hd_error tail = Some NUL).

Definition str_fits (s : cstring) : Prop := len_of s + 1 < sz.

(** The same without the terminator, and room for the text and a terminator. *)
Definition str_shows (s : cstring) (d : str_target_t) : Prop :=
  str_inv d ∧ wrote d = len_of s ∧ ∃ tail, str d = s ++ tail.

Definition str_just_fits (s : cstring) : Prop := len_of s + 1 <= sz.

Lemma holds_shows s d : str_holds s d -> str_shows s d.
Proof. intros (Hd & Hw & tail & Hs & _). split_and!; [done|done|by exists tail]. Qed.

Lemma put_char_app pre x tail c d : str d = pre ++ x :: tail ->
  put_char (len_of pre) c d = Ok tt (set_str (pre ++ c :: tail) d).
Proof.
  intros Hd. pose proof (len_of_nonneg pre). pose proof (len_of_nonneg tail).
  rewrite put_char_inside; rewrite Hd; [|rewrite len_of_app, len_of_cons; lia].
  unfold len_of. rewrite Nat2Z.id, insert_app_r_alt, Nat.sub_diag by done. done.
Qed.

Lemma str_room pre tail d : str_inv d -> str d = pre ++ tail -> len_of pre < sz ->
  ∃ x tail', tail = x :: tail'.
Proof.
  intros [_ H2 _ _] Hstr Hlen. rewrite Hstr, len_of_app in H2. destruct tail as [|x tail]; [|eauto].
  change (len_of []) with 0 in H2. lia.
Qed.

Lemma set_str_set_str a b d : set_str a (set_str b d) = set_str a d.
Proof. done. Qed.

(** The loop of [str_writer] when there is room for the text, and for its
    terminator too unless [full]. *)
Lemma str_loop_text (check : bool) data : ∀ len pre tail d, str_inv d ->
  str d = pre ++ tail -> wrote d <= len_of pre -> clean data = true ->
  len_of pre + len_of data <= sz - 1 -> (check = true -> len = len_of data) ->
  ∃ tail', str_loop check data len (len_of pre - wrote d) d
    = Ok (len_of pre + len_of data - wrote d) (set_str (pre ++ data ++ tail') d) ∧
  (len_of pre + len_of data < sz - 1 -> hd_error tail' = Some NUL) ∧
  (len_of pre + len_of data = sz - 1 -> tail' = drop (length data) tail).
Proof.
  induction data as [|c data IH]; intros len pre tail d Hd Hstr Hw Hc Hfit Hlen;
    pose proof Hd as [H1 H2 H3 H4];
    destruct (str_room pre tail d Hd Hstr) as (x & tail0 & ->);
    try (rewrite ?len_of_cons in Hfit; pose proof (len_of_nonneg data); lia);
    try (change (len_of []) with 0 in Hfit; lia); rename tail0 into tail.
  - change (len_of []) with 0 in *. rewrite str_loop_step by (done || lia).
    replace (wrote d + (len_of pre - wrote d)) with (len_of pre) by lia. cbn [hd app].
    destruct (Z.ltb_spec (len_of pre) (sz - 1)).
    + rewrite (bind_ok _ _ _ _ _ (put_char_app pre x tail NUL d Hstr)). cbv beta.
      rewrite decide_True by done. exists (NUL :: tail). rewrite Z.add_0_r.
      split_and!; [done | done | lia].
    + exists (x :: tail). rewrite Z.add_0_r. split_and!; [|lia|done].
      unfold ret. f_equal. rewrite <-Hstr. by destruct d.
  - apply clean_cons in Hc as [Hc Hdata]. rewrite len_of_cons in *. pose proof (len_of_nonneg data).
    pose proof (len_of_nonneg pre).
    rewrite str_loop_step by (done || lia).
    replace (wrote d + (len_of pre - wrote d)) with (len_of pre) by lia. cbn [hd].
    destruct (Z.ltb_spec (len_of pre) (sz - 1)); [|lia].
    rewrite (bind_ok _ _ _ _ _ (put_char_app pre x tail c d Hstr)). cbv beta.
    rewrite decide_False by done.
    assert (negb check || negb (len =? 0) = true) as ->.
    { destruct check; [|done]. rewrite (Hlen eq_refl). simpl. destruct (Z.eqb_spec (1 + len_of data) 0); [lia | done]. }
    set (d1 := set_str (pre ++ c :: tail) d).
    assert (str_inv d1) as Hd1.
    { destruct (str_inv_put d (len_of pre) c Hd ltac:(lia)) as (d' & Hput & Hd' & _).
      rewrite (put_char_app pre x tail c d Hstr) in Hput. by injection Hput as <-. }
    destruct (IH (if check then u32 (len - 1) else len) (pre ++ [c]) tail d1) as (tail' & Hrun & Hterm & Hfull);
      try done; rewrite ?len_of_app, ?len_of_cons; change (len_of []) with 0; try lia.
    { simpl. by rewrite <-app_assoc. }
    { simpl. lia. }
    { intros ->. rewrite (Hlen eq_refl), u32_small by lia. lia. }
    rewrite len_of_app, len_of_cons in *. change (len_of []) with 0 in *.
    exists tail'. split_and!; [|intros; apply Hterm; lia | intros; cbn [length drop]; apply Hfull; lia].
    rewrite s32_small by lia.
    replace (len_of pre - wrote d + 1) with (len_of pre + (1 + 0) - wrote d1) by (simpl; lia).
    rewrite Hrun. unfold d1. rewrite set_str_set_str. f_equal; [simpl; lia|].
    by rewrite <-!app_assoc.
Qed.

Lemma str_writer_text data len s d : str_shows s d -> clean data = true -> data ≠ [] ->
  len_of s + len_of data <= sz - 1 -> len = 0 \/ len = len_of data ->
  ∃ tail', str_writer data len d
    = Ok (len_of data) {| str := s ++ data ++ tail'; size := sz; wrote := len_of (s ++ data) |} ∧
  (len_of s + len_of data < sz - 1 -> hd_error tail' = Some NUL) ∧
  (len_of s + len_of data = sz - 1 -> tail' = drop (length (s ++ data)) (str d)).
Proof.
  intros (Hd & Hw & tail & Hstr) Hc Hne Hfit Hlen. pose proof Hd as [H1 H2 H3 H4].
  pose proof (len_of_nonneg data). pose proof (len_of_nonneg s).
  unfold str_writer. unfold bind at 1, get.
  destruct data as [|c data]; [done|]. pose proof (clean_cons _ _ Hc) as [Hc' _]. cbn [hd].
  rewrite decide_False by done. set (data' := c :: data) in *.
  destruct (str_loop_text (negb (len =? 0)) data' len s tail d) as (tail' & Hrun & Hterm & Hfull);
    try done; try lia.
  rewrite Hw in Hrun. rewrite Z.sub_diag in Hrun.
  replace (len_of s + len_of data' - len_of s) with (len_of data') in Hrun by lia.
  rewrite (bind_ok _ _ _ _ _ Hrun). cbv beta. rewrite bind_modify. unfold ret.
  exists tail'. split_and!; [| done |].
  - rewrite u32_small by lia. f_equal. unfold set_wrote, set_str. simpl. rewrite H1, Hw, len_of_app.
    rewrite u32_small by lia. done.
  - intros Hf. by rewrite (Hfull Hf), Hstr, length_app, drop_app_add.
Qed.

(** The empty string after a text that leaves more room is written one place
    behind the end of the text. *)
Lemma str_writer_skips s d tail : str_inv d -> wrote d = len_of s -> str d = s ++ tail -> len_of s + 1 < sz ->
  ∃ x y tail', tail = x :: y :: tail' ∧ str_writer [] 1 d = Ok 0 (set_str (s ++ x :: NUL :: tail') d).
Proof.
  intros Hd Hw Hstr Hfit. pose proof Hd as [H1 H2 H3 H4]. pose proof (len_of_nonneg s).
  destruct (str_room s tail d Hd Hstr ltac:(lia)) as (x & tail0 & ->).
  destruct (str_room (s ++ [x]) tail0 d Hd) as (y & tail' & ->).
  { by rewrite <-app_assoc. }
  { rewrite len_of_app, len_of_cons. change (len_of []) with 0. lia. }
  exists x, y, tail'. split; [done|].
  unfold str_writer. unfold bind at 1, get. cbn [hd]. rewrite decide_True by done.
  rewrite H1, Hw, (u32_small (sz - 1)) by lia. destruct (Z.leb_spec (sz - 1) (len_of s)); [lia|].
  rewrite (u32_small (len_of s + 1)) by lia.
  replace (len_of s + 1) with (len_of (s ++ [x])) by (rewrite len_of_app; done).
  assert (str d = (s ++ [x]) ++ y :: tail') as Hstr' by (by rewrite Hstr, <-app_assoc).
  rewrite bind_assoc, (bind_ok _ _ _ _ _ (put_char_app _ _ _ NUL d Hstr')).
  unfold bind, ret, modify, set_wrote, set_str. simpl.
  rewrite Hw, Z.add_0_r, (u32_small (len_of s)), <-app_assoc by lia. done.
Qed.

#[global] Instance str_writer_prints : Prints str_writer str_fits str_holds.
Proof.
  constructor.
  - intros s1 s2. unfold str_fits. rewrite len_of_app. pose proof (len_of_nonneg s2). lia.
  - unfold str_fits. lia.
  - intros s data len d Hs Hc Hne Hfit Hlen. unfold str_fits in Hfit. rewrite len_of_app in Hfit.
    destruct (str_writer_text data len s d (holds_shows s d Hs) Hc Hne ltac:(lia) Hlen) as (tail & Hrun & Hterm & _).
    eapply wp_ok; [exact Hrun|]. split; [done|].
    split_and!; [|done|].
    + pose proof (guarded (w := str_writer) data len d) as Hg.
      destruct Hs as (Hd & _). assert (len_of data < 2 ^ 31) as Hl by (pose proof (len_of_nonneg s); lia).
      specialize (Hg Hl Hd). eapply wp_inv_ok in Hg; [|exact Hrun]. done.
    + exists tail. rewrite app_assoc. split; [done|]. intros _. apply Hterm. lia.
  - intros s d (Hd & Hw & tail & Hstr & Hnul) Hfit. unfold str_fits in Hfit.
    destruct (str_writer_skips s d tail Hd Hw Hstr Hfit) as (x & y & tail' & -> & Hrun).
    eapply wp_ok; [exact Hrun|]. split; [done|]. split_and!; [|done|].
    + pose proof (guarded (w := str_writer) [] 1 d ltac:(done) Hd) as Hg.
      eapply wp_inv_ok in Hg; [|exact Hrun]. done.
    + exists (x :: NUL :: tail'). by split.
Qed.

(** The empty string ends a text that just fits. *)
Lemma str_writer_ends s d : str_shows s d -> len_of s + 1 = sz ->
  ∃ tail, str_writer [] 1 d = Ok 0 (set_str (s ++ NUL :: tail) d) ∧ str_holds s (set_str (s ++ NUL :: tail) d).
Proof.
  intros (Hd & Hw & tail & Hstr) Hfit. pose proof Hd as [H1 H2 H3 H4]. pose proof (len_of_nonneg s).
  destruct (str_room s tail d Hd Hstr ltac:(lia)) as (x & tail0 & ->). exists tail0.
  assert (str_writer [] 1 d = Ok 0 (set_str (s ++ NUL :: tail0) d)) as Hrun.
  { unfold str_writer. unfold bind at 1, get. cbn [hd]. rewrite decide_True by done.
    rewrite H1, Hw, (u32_small (sz - 1)) by lia. destruct (Z.leb_spec (sz - 1) (len_of s)); [|lia].
    rewrite bind_assoc, (bind_ok _ _ _ _ _ (put_char_app _ _ _ NUL d Hstr)).
    unfold bind, ret, modify, set_wrote, set_str. simpl. by rewrite Hw, Z.add_0_r, (u32_small (len_of s)) by lia. }
  split; [exact Hrun|]. split_and!; [|done|by exists (NUL :: tail0)].
  pose proof (guarded (w := str_writer) [] 1 d ltac:(done) Hd) as Hg. eapply wp_inv_ok in Hg; [|exact Hrun]. done.
Qed.

Lemma str_writer_shows : Prints str_writer str_just_fits str_shows.
Proof.
  constructor.
  - intros s1 s2. unfold str_just_fits. rewrite len_of_app. pose proof (len_of_nonneg s2). lia.
  - unfold str_just_fits. lia.
  - intros s data len d Hs Hc Hne Hfit Hlen. unfold str_just_fits in Hfit. rewrite len_of_app in Hfit.
    destruct (str_writer_text data len s d Hs Hc Hne ltac:(lia) Hlen) as (tail & Hrun & _).
    eapply wp_ok; [exact Hrun|]. split; [done|]. split_and!; [|done|exists tail; by rewrite app_assoc].
    pose proof (guarded (w := str_writer) data len d) as Hg.
    destruct Hs as (Hd & _). assert (len_of data < 2 ^ 31) as Hl by (pose proof (len_of_nonneg s); lia).
    specialize (Hg Hl Hd). eapply wp_inv_ok in Hg; [|exact Hrun]. done.
  - intros s d Hs Hfit. unfold str_just_fits in Hfit. destruct (decide (len_of s + 1 = sz)) as [E|Hne].
    { destruct (str_writer_ends s d Hs E) as (tail & Hrun & Hh). eapply wp_ok; [exact Hrun|].
      split; [done|by apply holds_shows]. }
    destruct Hs as (Hd & Hw & tail & Hstr). pose proof (guarded (w := str_writer) [] 1 d ltac:(done) Hd) as Hg.
    destruct (str_writer_skips s d tail Hd Hw Hstr ltac:(lia)) as (x & y & tail' & -> & Hrun).
    eapply wp_inv_ok in Hg; [|exact Hrun]. eapply wp_ok; [exact Hrun|].
    split; [done|]. split_and!; [done|done|by eexists].
Qed.
End str_target.

(** ** The log in memory *)

(** The text as lines: the complete ones, oldest first, and the current one.
    A line is complete at a newline or when it is full. *)
Definition put (l : list cstring * cstring) (c : ascii) : list cstring * cstring :=
  if decide (c = "010"%char) then (l.1 ++ [l.2], [])
  else if decide (length l.2 + 1 < MEM_WRITER_LINE_LENGTH)%nat then (l.1, l.2 ++ [c])
  else (l.1 ++ [l.2 ++ [c]], []).

Definition lines_of (s : cstring) : list cstring * cstring := fold_left put s ([], []).

Definition pad (l : cstring) : cstring := l ++ repeat " "%char (MEM_WRITER_LINE_LENGTH - length l).

Lemma repeat_replicate {A} (x : A) n : repeat x n = replicate n x.
Proof. induction n; simpl; congruence. Qed.

Record shape (m : memory_target_t) : Prop := {
  sh_lines : length (buffer m) = MEM_WRITER_LINES;
  sh_row : ∀ k row, buffer m !! k = Some row -> length row = MEM_WRITER_LINE_LENGTH
}.

(** The last 101 lines are in the buffer, line [k] at [k mod 102]. *)
Record shows (hist : list cstring) (cur : cstring) (m : memory_target_t) : Prop := {
  sw_shape : shape m;
  sw_line : line m = Z.of_nat (length hist mod MEM_WRITER_LINES);
  sw_ch : ch m = Z.of_nat (length cur);
  sw_cur : (length cur <= MEM_WRITER_LINE_LENGTH)%nat;
  sw_text : ∀ k l, (hist ++ [cur]) !! k = Some l -> (length hist < k + 101)%nat ->
    buffer m !! (k mod MEM_WRITER_LINES)%nat = Some (pad l)
}.

Lemma buffer_row m k : shape m -> (k < MEM_WRITER_LINES)%nat ->
  ∃ row, buffer m !! k = Some row ∧ length row = MEM_WRITER_LINE_LENGTH.
Proof.
  intros [H1 H2] Hk. destruct (lookup_lt_is_Some_2 (buffer m) k) as [row Hr]; [lia|]. eauto.
Qed.

Lemma shape_row m k row c : shape m -> length row = MEM_WRITER_LINE_LENGTH ->
  shape (set_buffer (<[k := row]> (buffer m)) m) ∧
  ∀ i : nat, length (<[i := c]> row) = MEM_WRITER_LINE_LENGTH.
Proof.
  intros [H1 H2] Hr. split; [|by intros i; rewrite length_insert].
  split; simpl; [by rewrite length_insert|]. intros k' row' Hk'.
  apply list_lookup_insert_Some in Hk' as [(_ & <- & _)|[_ Hk']]; [done | by eapply H2].
Qed.

Lemma put_buffer_row m l i c row : buffer m !! l = Some row -> (i < length row)%nat ->
  put_buffer (Z.of_nat l) (Z.of_nat i) c m
  = Ok tt (set_buffer (<[l := <[i := c]> row]> (buffer m)) m).
Proof.
  intros Hl Hi. pose proof (lookup_lt_Some _ _ _ Hl).
  unfold put_buffer, bind, get, poke_line.
  rewrite (proj2 (Z.leb_le 0 _)), (proj2 (Z.ltb_lt _ _)) by lia. simpl.
  rewrite Nat2Z.id, Hl. simpl. rewrite poke_inside by (unfold len_of; lia). simpl.
  by rewrite Nat2Z.id.
Qed.

Lemma clean_line_loop l c n : ∀ a m row, buffer m !! l = Some row ->
  (a + n <= length row)%nat ->
  for_ n a (fun i => put_buffer (Z.of_nat l) (Z.of_nat i) c) m
  = Ok tt (set_buffer (<[l := take a row ++ repeat c n ++ drop (a + n) row]> (buffer m)) m).
Proof.
  induction n as [|n IH]; intros a m row Hl Han; simpl for_.
  { rewrite Nat.add_0_r. simpl. rewrite take_drop, list_insert_id by done. by destruct m. }
  rewrite (bind_ok _ _ _ _ _ (put_buffer_row m l a c row Hl ltac:(lia))). cbv beta.
  pose proof (lookup_lt_Some _ _ _ Hl).
  erewrite IH; simpl; [| by rewrite list_lookup_insert_eq | by rewrite length_insert; lia].
  rewrite list_insert_insert_eq. f_equal. unfold set_buffer. simpl. f_equal. f_equal.
  rewrite (insert_take_drop row a c) by lia.
  assert (length (take a row) = a) as Ha by (rewrite length_take; lia).
  assert (take (S a) (take a row ++ c :: drop (S a) row) = take a row ++ [c]) as ->.
  { rewrite cons_middle, app_assoc. apply take_app_length'. rewrite length_app, Ha. simpl. lia. }
  rewrite <-app_assoc. simpl. f_equal. f_equal. f_equal.
  rewrite drop_app_ge, Ha by lia. replace (S (a + n) - a)%nat with (S n) by lia. simpl.
  rewrite drop_drop. f_equal. lia.
Qed.

Lemma clean_line_spec l c m : shape m -> (l < MEM_WRITER_LINES)%nat ->
  let m' := set_buffer (<[l := repeat c MEM_WRITER_LINE_LENGTH]> (buffer m)) m in
  clean_line (Z.of_nat l) c m = Ok tt m' ∧ shape m'.
Proof.
  intros Hm Hl m'. destruct (buffer_row m l Hm Hl) as (row & Hrow & Hlen). split.
  - unfold clean_line. rewrite (clean_line_loop l c _ 0 m row Hrow) by lia.
    rewrite take_0, drop_ge, app_nil_r by lia. done.
  - by apply (shape_row m l (repeat c MEM_WRITER_LINE_LENGTH) c); [|apply repeat_length].
Qed.

Lemma mod_lines_ne a b : (a < b)%nat -> (b < a + MEM_WRITER_LINES)%nat ->
  (a mod MEM_WRITER_LINES ≠ b mod MEM_WRITER_LINES)%nat.
Proof.
  intros Hab Hba Heq. unfold MEM_WRITER_LINES in *.
  pose proof (Nat.div_mod_eq a 102). pose proof (Nat.div_mod_eq b 102). lia.
Qed.

Lemma next_line_spec hist cur m : shows hist cur m ->
  ∃ m', next_line m = Ok tt m' ∧ shows (hist ++ [cur]) [] m'.
Proof.
  intros [Hsh Hline Hch Hcur Htext]. unfold next_line.
  rewrite bind_modify, bind_modify. unfold bind at 1, get.
  assert (line m < 102) as Hlt.
  { rewrite Hline. pose proof (Nat.mod_upper_bound (length hist) MEM_WRITER_LINES). unfold MEM_WRITER_LINES in *. lia. }
  set (a := ((length hist + 1) mod MEM_WRITER_LINES)%nat).
  set (b := ((length hist + 2) mod MEM_WRITER_LINES)%nat).
  assert (∀ x, 0 <= x < 2 ^ 31 -> u32 (x + 1) mod Z.of_nat MEM_WRITER_LINES = (x + 1) mod 102) as Hmod.
  { intros x Hx. by rewrite u32_small by lia. }
  assert (line (set_ch 0 (set_line (u32 (line m + 1) mod Z.of_nat MEM_WRITER_LINES) m)) = Z.of_nat a) as Ha.
  { simpl. rewrite Hmod by lia. rewrite Hline. unfold a, MEM_WRITER_LINES.
    rewrite !Nat2Z.inj_mod, Nat2Z.inj_add. simpl Z.of_nat. rewrite Z.add_mod_idemp_l; lia. }
  set (m1 := set_ch 0 _) in *. assert (shape m1) as Hsh1 by (destruct Hsh; by split).
  assert (a < MEM_WRITER_LINES)%nat as Ha' by (by apply Nat.mod_upper_bound).
  assert (b < MEM_WRITER_LINES)%nat as Hb' by (by apply Nat.mod_upper_bound).
  rewrite Ha. destruct (clean_line_spec a " "%char m1 Hsh1 Ha') as [Hrun1 Hsh2].
  set (m2 := set_buffer _ m1) in *. rewrite (bind_ok _ _ _ _ _ Hrun1). cbv beta.
  rewrite Hmod by (unfold MEM_WRITER_LINES in *; lia).
  assert ((Z.of_nat a + 1) mod 102 = Z.of_nat b) as ->.
  { unfold a, b, MEM_WRITER_LINES. rewrite !Nat2Z.inj_mod, !Nat2Z.inj_add. simpl Z.of_nat.
    rewrite Z.add_mod_idemp_l by lia. f_equal. lia. }
  destruct (clean_line_spec b "-"%char m2 Hsh2 Hb') as [Hrun2 Hsh3].
  eexists. split; [exact Hrun2|]. split; [done | | done | simpl; lia |].
  { rewrite length_app. exact Ha. }
  intros k l Hk Hvis. rewrite length_app in Hvis. simpl in Hvis. simpl buffer.
  pose proof (lookup_lt_Some _ _ _ Hk) as Hkl. rewrite !length_app in Hkl. simpl in Hkl.
  assert (length (buffer m) = MEM_WRITER_LINES) as Hbl by apply Hsh.
  rewrite list_lookup_insert_ne.
  2: { intros Heq. eapply (mod_lines_ne k (length hist + 2)); unfold MEM_WRITER_LINES; [lia | lia | by symmetry]. }
  destruct (decide (k = length hist + 1)%nat) as [->|Hne].
  - rewrite list_lookup_insert_eq by (change (a < length (buffer m))%nat; lia).
    rewrite lookup_app_r in Hk by (rewrite length_app; simpl; lia).
    rewrite length_app in Hk. simpl in Hk. rewrite Nat.sub_diag in Hk. injection Hk as <-. done.
  - rewrite list_lookup_insert_ne.
    2: { intros Heq. eapply (mod_lines_ne k (length hist + 1)); unfold MEM_WRITER_LINES; [lia | lia | by symmetry]. }
    apply Htext; [|lia]. rewrite lookup_app_l in Hk; [done|]. rewrite length_app. simpl. lia.
Qed.

Lemma kputchar_spec hist cur m c : shows hist cur m -> (length cur < MEM_WRITER_LINE_LENGTH)%nat ->
  ∃ m', kputchar c m = Ok tt m' ∧ shows (put (hist, cur) c).1 (put (hist, cur) c).2 m'.
Proof.
  intros Hm Hcur. unfold kputchar, put. cbn [fst snd].
  destruct (decide (c = "010"%char)); [by apply next_line_spec|].
  pose proof Hm as [Hsh Hline Hch _ Htext].
  set (a := (length hist mod MEM_WRITER_LINES)%nat) in *.
  assert (buffer m !! a = Some (pad cur)) as Hrow.
  { apply Htext; [|lia]. by rewrite lookup_app_r, Nat.sub_diag by lia. }
  assert (length (pad cur) = MEM_WRITER_LINE_LENGTH) as Hpad.
  { unfold pad. rewrite length_app, repeat_length. lia. }
  unfold bind at 1, get. rewrite Hline, Hch.
  rewrite (bind_ok _ _ _ _ _ (put_buffer_row m a (length cur) c _ Hrow ltac:(lia))). cbv beta.
  rewrite bind_modify. set (m1 := set_ch _ _).
  assert (<[length cur := c]> (pad cur) = pad (cur ++ [c])) as Hput.
  { unfold pad. rewrite insert_app_r_alt, Nat.sub_diag, length_app, <-app_assoc by lia. simpl length.
    replace (MEM_WRITER_LINE_LENGTH - length cur)%nat
      with (S (MEM_WRITER_LINE_LENGTH - (length cur + 1))) by lia. done. }
  assert (ch m1 = Z.of_nat (length (cur ++ [c]))) as Hch1.
  { unfold m1. simpl. rewrite Hch, length_app. simpl. unfold MEM_WRITER_LINE_LENGTH in *.
    rewrite u32_small by lia. lia. }
  assert (shows hist (cur ++ [c]) m1) as Hm1.
  { split; [ | done | done | rewrite length_app; simpl; lia |].
    - unfold m1. destruct (shape_row m a (<[length cur := c]> (pad cur)) c Hsh) as [[H1 H2] _].
      { by rewrite length_insert. } by split.
    - intros k l Hk Hvis. unfold m1. simpl buffer. rewrite Hput.
      pose proof (lookup_lt_Some _ _ _ Hk) as Hkl. rewrite length_app in Hkl. simpl in Hkl.
      destruct (decide (k = length hist)) as [->|Hne].
      + fold a. rewrite list_lookup_insert_eq by (by eapply lookup_lt_Some).
        rewrite lookup_app_r, Nat.sub_diag in Hk by lia. by injection Hk as <-.
      + rewrite list_lookup_insert_ne.
        2: { intros Heq. eapply (mod_lines_ne k (length hist)); unfold MEM_WRITER_LINES; [lia | lia | by symmetry]. }
        apply Htext; [|done]. rewrite lookup_app_l in Hk |- * by lia. done. }
  unfold bind, get. rewrite Hch1, length_app. change (length [c]) with 1%nat.
  destruct (decide (length cur + 1 < MEM_WRITER_LINE_LENGTH)%nat);
    destruct (Z.leb_spec (Z.of_nat MEM_WRITER_LINE_LENGTH) (Z.of_nat (length cur + 1))); try lia.
  - by eexists.
  - by apply next_line_spec.
Qed.

(** The text [s] printed so far since the log was empty. *)
Definition log_holds (s : cstring) (m : memory_target_t) : Prop :=
  match s with
  | [] => shape m ∧ line m = 0 ∧ ch m = 0
  | _ => shows (lines_of s).1 (lines_of s).2 m ∧ (length (lines_of s).2 < MEM_WRITER_LINE_LENGTH)%nat
  end.

Definition log_fits (s : cstring) : Prop := len_of s < 2 ^ 30.

Lemma put_room l c : (length l.2 < MEM_WRITER_LINE_LENGTH)%nat ->
  (length (put l c).2 < MEM_WRITER_LINE_LENGTH)%nat.
Proof.
  intros Hl. unfold put. destruct (decide _); [unfold MEM_WRITER_LINE_LENGTH; simpl; lia|].
  destruct (decide _) as [Hd|_]; [|unfold MEM_WRITER_LINE_LENGTH; simpl; lia].
  cbn [snd]. rewrite length_app. exact Hd.
Qed.

Lemma lines_of_room s : (length (lines_of s).2 < MEM_WRITER_LINE_LENGTH)%nat.
Proof.
  unfold lines_of. assert (length ([] : cstring) < MEM_WRITER_LINE_LENGTH)%nat as H by (unfold MEM_WRITER_LINE_LENGTH; simpl; lia).
  revert H. generalize (@nil cstring) as h, (@nil ascii) as c.
  induction s as [|x s IH]; intros h c Hc; [done|]. cbn [fold_left].
  pose proof (put_room (h, c) x Hc). destruct (put (h, c) x) as [h' c']. by apply IH.
Qed.

Lemma lines_of_app s1 s2 : lines_of (s1 ++ s2) = fold_left put s2 (lines_of s1).
Proof. apply fold_left_app. Qed.

Lemma memory_loop_spec (check : bool) it : ∀ hist cur len n m, shows hist cur m ->
  (length cur < MEM_WRITER_LINE_LENGTH)%nat -> clean it = true ->
  (check = true -> len_of it <= len < 2 ^ 32) ->
  ∃ m', memory_loop check it len n m = Ok (n + len_of it) m' ∧
    shows (fold_left put it (hist, cur)).1 (fold_left put it (hist, cur)).2 m'.
Proof.
  induction it as [|c it IH]; intros hist cur len n m Hm Hcur Hc Hlen.
  { exists m. by rewrite Z.add_0_r. }
  apply clean_cons in Hc as [Hc Hit]. rewrite len_of_cons in *. pose proof (len_of_nonneg it).
  cbn [memory_loop fold_left]. rewrite decide_False by done.
  assert (negb check || negb (len =? 0) = true) as ->.
  { destruct check; [|done]. specialize (Hlen eq_refl). by destruct (Z.eqb_spec len 0); [lia|]. }
  destruct (kputchar_spec hist cur m c Hm Hcur) as (m1 & Hrun & Hm1).
  rewrite (bind_ok _ _ _ _ _ Hrun). cbv beta. pose proof (put_room (hist, cur) c Hcur) as Hroom.
  destruct (put (hist, cur) c) as [hist1 cur1].
  destruct (IH hist1 cur1 (if check then u32 (len - 1) else len) (n + 1) m1) as (m2 & Hrun2 & Hm2); try done.
  { intros ->. specialize (Hlen eq_refl). rewrite u32_small by lia. lia. }
  exists m2. split; [|done]. rewrite Hrun2. f_equal. lia.
Qed.

(** The blank first line in front of the very first character. *)
Definition open_log (m : memory_target_t) : memory_target_t :=
  set_buffer (<[1%nat := repeat " "%char MEM_WRITER_LINE_LENGTH]>
    (<[0%nat := repeat " "%char MEM_WRITER_LINE_LENGTH]> (buffer m))) m.

Lemma open_log_run m : shape m -> line m = 0 ->
  (clean_line (line m) " "%char ;; clean_line (line m + 1) " "%char) m = Ok tt (open_log m) ∧
  shape (open_log m).
Proof.
  intros Hm ->. destruct (clean_line_spec 0 " "%char m Hm) as [Hr1 Hs1]; [unfold MEM_WRITER_LINES; lia|].
  change (Z.of_nat 0) with 0 in Hr1. rewrite (bind_ok _ _ _ _ _ Hr1). cbv beta.
  destruct (clean_line_spec 1 " "%char _ Hs1) as [Hr2 Hs2]; [unfold MEM_WRITER_LINES; lia|]. by split.
Qed.

Lemma log_start s m : log_holds s m ->
  ∃ m', (when (line m =? 0) && (ch m =? 0) do
      (clean_line (line m) " "%char ;; clean_line (line m + 1) " "%char)) m = Ok tt m' ∧
    shows (lines_of s).1 (lines_of s).2 m' ∧ line m' = line m ∧ ch m' = ch m.
Proof.
  intros Hs. destruct ((line m =? 0) && (ch m =? 0)) eqn:Hzero.
  2: { exists m. split; [done|]. destruct s as [|c s]; [|by destruct Hs].
       destruct Hs as (_ & Hl & Hc). by rewrite Hl, Hc in Hzero. }
  apply andb_true_iff in Hzero as [Hl0%Z.eqb_eq Hc0%Z.eqb_eq].
  assert (shape m) as Hm by (destruct s; [by destruct Hs | by destruct Hs as [[] _]]).
  destruct (open_log_run m Hm Hl0) as [Hrun Hsh]. exists (open_log m). split_and!; [done | | done | done].
  assert (length (buffer m) = MEM_WRITER_LINES) as Hbl by apply Hm.
  assert (buffer (open_log m) !! 0%nat = Some (pad [])) as Hfirst.
  { unfold open_log. cbn [buffer set_buffer]. rewrite list_lookup_insert_ne by done.
    rewrite list_lookup_insert_eq; [done|]. rewrite Hbl. unfold MEM_WRITER_LINES. lia. }
  destruct s as [|c s].
  { split; [done | done | done | unfold MEM_WRITER_LINE_LENGTH; simpl; lia|]. intros k l Hk _.
    destruct k as [|k]; [|by destruct k]. by injection Hk as <-. }
  destruct Hs as [[Hsh0 Hline Hch Hcur Htext] Hroom]. set (ls := lines_of (c :: s)) in *.
  assert (ls.2 = []) as Hnil by (destruct ls.2; [done | rewrite Hc0 in Hch; simpl in Hch; lia]).
  split; [done | done | done | done |]. intros k l Hk Hvis.
  pose proof (lookup_lt_Some _ _ _ Hk) as Hkl. rewrite length_app in Hkl. simpl in Hkl.
  assert (length ls.1 mod MEM_WRITER_LINES = 0)%nat as Hmod by lia.
  destruct (decide (k = length ls.1)) as [->|Hne].
  { rewrite Hmod, Hfirst. rewrite lookup_app_r, Nat.sub_diag, Hnil in Hk by lia. by injection Hk as <-. }
  unfold open_log. cbn [buffer set_buffer].
  assert (k mod MEM_WRITER_LINES ≠ 0)%nat as Hk0.
  { rewrite <-Hmod. apply mod_lines_ne; [lia | unfold MEM_WRITER_LINES; lia]. }
  assert (k mod MEM_WRITER_LINES ≠ 1)%nat as Hk1.
  { assert (1 = (length ls.1 + 1) mod MEM_WRITER_LINES)%nat as Hone.
    { rewrite <-Nat.Div0.add_mod_idemp_l, Hmod. done. }
    rewrite Hone. apply mod_lines_ne; [lia | unfold MEM_WRITER_LINES; lia]. }
  rewrite !list_lookup_insert_ne by done. by apply Htext.
Qed.

#[global] Instance memory_writer_prints : Prints memory_writer log_fits log_holds.
Proof.
  constructor.
  - intros s1 s2. unfold log_fits. rewrite len_of_app. pose proof (len_of_nonneg s2). lia.
  - done.
  - intros s data len m Hs Hc Hne Hfit Hlen. unfold log_fits in Hfit. rewrite len_of_app in Hfit.
    pose proof (len_of_nonneg s). pose proof (len_of_nonneg data).
    destruct (log_start s m Hs) as (m1 & Hrun & Hm1 & _). pose proof (lines_of_room s) as Hroom.
    destruct (lines_of s) as [hist cur] eqn:Hls. cbn [fst snd] in *.
    destruct (memory_loop_spec (negb (len =? 0)) data hist cur len 0 m1) as (m2 & Hrun2 & Hm2); try done.
    { destruct Hlen as [-> | ->]; [done | lia]. }
    eapply (wp_ok _ _ _ _ (len_of data) m2).
    { unfold memory_writer. unfold bind at 1, get. rewrite (bind_ok _ _ _ _ _ Hrun). cbv beta. by rewrite Hrun2. }
    split; [done|]. unfold log_holds. destruct (s ++ data) as [|c rest] eqn:Hsd.
    { by apply app_eq_nil in Hsd as [_ ->]. }
    rewrite <-Hsd, lines_of_app, Hls. split; [done|].
    rewrite <-Hls, <-lines_of_app. apply lines_of_room.
  - intros s m Hs _. destruct (log_start s m Hs) as (m1 & Hrun & Hm1 & Hl & Hch).
    eapply (wp_ok _ _ _ _ 0 m1).
    { unfold memory_writer. unfold bind at 1, get. by rewrite (bind_ok _ _ _ _ _ Hrun). }
    split; [done|]. destruct s as [|c s]; [|by split; [|apply lines_of_room]].
    destruct Hs as (_ & Hl0 & Hc0). split_and!; [apply Hm1 | congruence | congruence].
Qed.

(** ** A terminal *)

Section device.
Context {T : Type} `{!Terminal T}.

Inductive answers (term : Z) : nat -> T -> T -> Prop :=
| answers_now t t' v : read_transm_status term t = (v, t') ->
    Z.land v TERM_STATUS_MASK = ST_TRANSMITTED -> answers term 1 t t'
| answers_busy n t t1 t' v : read_transm_status term t = (v, t1) ->
    Z.land v TERM_STATUS_MASK = ST_BUSY -> answers term n t1 t' -> answers term (S n) t t'.

Definition transmit (term : Z) (c : ascii) : T -> T :=
  write_transm_command term (u32 (Z.lor (Z.shiftl (schar c) CHAR_OFFSET) CMD_TRANSMIT)).
Definition acknowledge (term : Z) : T -> T := write_transm_command term CMD_ACK.

(** [sent s t]: the terminal is idle and has transmitted [s].  A responsive
    terminal accepts a character whenever it is idle and answers the command
    after at most [fuel] readings of its status. *)
Class Responsive (term : Z) (fuel : nat) (sent : cstring -> T -> Prop) : Prop := {
  idle_status s t : sent s t -> ∃ v t', read_transm_status term t = (v, t') ∧
    (Z.land v TERM_STATUS_MASK = ST_READY \/ Z.land v TERM_STATUS_MASK = ST_TRANSMITTED) ∧ sent s t';
  char_sent s c t : sent s t -> ∃ n t', (n <= fuel)%nat ∧
    answers term n (transmit term c t) t' ∧ sent (s ++ [c]) (acknowledge term t')
}.

Lemma term_status_run term t v t' : read_transm_status term t = (v, t') ->
  term_status term t = Ok (Z.land v TERM_STATUS_MASK) t'.
Proof. unfold term_status. by intros ->. Qed.

Lemma term_wait_answers term n t t' : answers term n t t' ->
  ∀ fuel, (n <= fuel)%nat -> term_wait fuel term t = Ok ST_TRANSMITTED t'.
Proof.
  induction 1 as [t t' v Hr Hv|n t t1 t' v Hr Hv _ IH]; intros fuel Hf; (destruct fuel; [lia|]);
    cbn [term_wait]; rewrite (bind_ok _ _ _ _ _ (term_status_run _ _ _ _ Hr)); cbv beta; rewrite Hv.
  - done.
  - change (ST_BUSY =? ST_BUSY) with true. cbv iota. apply IH. lia.
Qed.

Section responsive.
Context (term : Z) (fuel : nat) (sent : cstring -> T -> Prop).
Context {HR : Responsive term fuel sent}.

Lemma term_putchar_sends s c t : sent s t ->
  ∃ t', term_putchar fuel term c t = Ok 0 t' ∧ sent (s ++ [c]) t'.
Proof.
  intros Hs. destruct (idle_status (term := term) (fuel := fuel) s t Hs) as (v & t1 & Hr & Hv & Hs1).
  destruct (char_sent (term := term) (fuel := fuel) s c t1 Hs1) as (n & t2 & Hn & Hans & Hs2).
  exists (acknowledge term t2). split; [|done]. unfold term_putchar.
  rewrite (bind_ok _ _ _ _ _ (term_status_run _ _ _ _ Hr)). cbv beta.
  assert (negb (Z.land v TERM_STATUS_MASK =? ST_READY)
    && negb (Z.land v TERM_STATUS_MASK =? ST_TRANSMITTED) = false) as ->.
  { by destruct Hv as [-> | ->]. }
  rewrite bind_modify. by rewrite (bind_ok _ _ _ _ _ (term_wait_answers _ _ _ _ Hans fuel Hn)).
Qed.

Lemma serial_loop_sends check it : ∀ s len n t, sent s t -> clean it = true ->
  (check = true -> len_of it <= len < 2 ^ 32) ->
  ∃ t', serial_loop fuel term check it len n t = Ok (n + len_of it) t' ∧ sent (s ++ it) t'.
Proof.
  induction it as [|c it IH]; intros s len n t Hs Hc Hlen.
  { exists t. by rewrite Z.add_0_r, app_nil_r. }
  apply clean_cons in Hc as [Hc Hit]. rewrite len_of_cons in *. pose proof (len_of_nonneg it).
  cbn [serial_loop]. rewrite decide_False by done.
  assert (negb check || negb (len =? 0) = true) as ->.
  { destruct check; [|done]. specialize (Hlen eq_refl). by destruct (Z.eqb_spec len 0); [lia|]. }
  destruct (term_putchar_sends s c t Hs) as (t1 & Hrun & Hs1).
  rewrite (bind_ok _ _ _ _ _ Hrun). cbv beta. change (negb (0 =? 0)) with false. cbv iota.
  destruct (IH (s ++ [c]) (if check then u32 (len - 1) else len) (n + 1) t1) as (t2 & Hrun2 & Hs2); try done.
  { intros ->. specialize (Hlen eq_refl). rewrite u32_small by lia. lia. }
  exists t2. rewrite <-app_assoc in Hs2. split; [|done]. rewrite Hrun2. f_equal. lia.
Qed.

#[global] Instance serial_writer_prints : Prints (serial_writer fuel term) log_fits sent.
Proof.
  constructor.
  - intros s1 s2. unfold log_fits. rewrite len_of_app. pose proof (len_of_nonneg s2). lia.
  - done.
  - intros s data len t Hs Hc _ Hfit Hlen. unfold log_fits in Hfit. rewrite len_of_app in Hfit.
    pose proof (len_of_nonneg s). pose proof (len_of_nonneg data).
    destruct (serial_loop_sends (negb (len =? 0)) data s len 0 t Hs Hc) as (t' & Hrun & Hs').
    { destruct Hlen as [-> | ->]; [done | lia]. }
    eapply wp_ok; [exact Hrun|]. by split; [lia|].
  - intros s t Hs _. eapply wp_ok; [done|]. done.
Qed.
End responsive.
End device.

(** A terminal that is busy for three readings after every command. *)
Record sim_terminal : Type := { busy : nat; status : Z; shown : cstring }.

#[global] Instance sim_terminal_device : Terminal sim_terminal := {
  read_transm_status _ t :=
    match busy t with
    | O => (status t, t)
    | S n => (ST_BUSY, {| busy := n; status := status t; shown := shown t |})
    end;
  write_transm_command _ cmd t :=
    if Z.land cmd 0xFF =? CMD_TRANSMIT
    then {| busy := 3; status := ST_TRANSMITTED; shown := shown t ++ [chr (Z.shiftr cmd 8)] |}
    else {| busy := O; status := ST_READY; shown := shown t |}
}.

Definition sim_sent (s : cstring) (t : sim_terminal) : Prop :=
  busy t = O ∧ status t = ST_READY ∧ shown t = s.

#[global] Instance sim_terminal_responsive term : Responsive (T := sim_terminal) term 4 sim_sent.
Proof.
  constructor.
  - intros s t (Hb & Hst & Hs). exists (status t), t. simpl. rewrite Hb, Hst. split_and!; [done | by left | done].
  - intros s c t (Hb & Hst & Hs).
    assert (Z.land (u32 (Z.lor (Z.shiftl (schar c) CHAR_OFFSET) CMD_TRANSMIT)) 0xFF =? CMD_TRANSMIT = true
      ∧ chr (Z.shiftr (u32 (Z.lor (Z.shiftl (schar c) CHAR_OFFSET) CMD_TRANSMIT)) 8) = c) as [Hcmd Hchr].
    { by destruct c as [[] [] [] [] [] [] [] []]. }
    exists 4%nat. eexists. split; [lia|].
    unfold transmit. cbn [write_transm_command sim_terminal_device]. rewrite Hcmd, Hchr. split.
    + do 3 (eapply answers_busy; [done | done|]). by eapply answers_now.
    + by rewrite <-Hs.
Qed.
