(* ===== verification/Printing.v ===== *)
(** * What the development shows of the formatted output

    Theorems about [os/src/util.c], each with an instance on a concrete
    target. *)

From Stdlib Require Import ZArith Lia Ascii String.
From stdpp Require Import base tactics option list strings.
From S2P Require Import Prelude Machine Printf Render Targets.

Open Scope string_scope.
Open Scope list_scope.
Open Scope Z_scope.

(** The C string at the front of a buffer. *)
Fixpoint c_string (a : list ascii) : cstring :=
  match a with
  | [] => []
  | c :: a' => if decide (c = NUL) then [] else c :: c_string a'
  end.

Lemma c_string_app s tail : clean s = true -> hd_error tail = Some NUL -> c_string (s ++ tail) = s.
Proof.
  intros Hs Ht. induction s as [|c s IH].
  - destruct tail as [|x tail]; [done|]. injection Ht as ->. done.
  - apply clean_cons in Hs as [Hc Hs]. simpl. rewrite decide_False by done. by rewrite IH.
Qed.

Lemma c_string_full s : clean s = true -> c_string s = s.
Proof.
  induction s as [|c s IH]; intros Hs; [done|]. apply clean_cons in Hs as [Hc Hs].
  simpl. rewrite decide_False by done. by rewrite IH.
Qed.

Lemma clean_app a b : clean a = true -> clean b = true -> clean (a ++ b) = true.
Proof. intros Ha Hb. unfold clean in *. rewrite forallb_app. by rewrite Ha, Hb. Qed.

Lemma show_int_clean i : - 2 ^ 31 <= i < 2 ^ 31 -> clean (show_int 10 i) = true.
Proof.
  intros Hi. unfold show_int. destruct (Z.ltb_spec i 0); [cbn [clean forallb]|];
    apply show_nat_clean; lia.
Qed.

Lemma show_int_length i : - 2 ^ 31 <= i < 2 ^ 31 -> len_of (show_int 10 i) <= 11.
Proof.
  intros Hi. assert (∀ n, 0 <= n <= 2 ^ 31 -> len_of (show_nat 10 n) <= 10) as Hnat.
  { intros n Hn. unfold len_of, show_nat. rewrite length_to_digits.
    destruct (decide (n = 0)) as [->|]; [by vm_compute|].
    destruct (printf_base_digits 10 n (or_introl eq_refl) ltac:(lia)) as ((_ & H) & _). lia. }
  unfold show_int. destruct (Z.ltb_spec i 0); [rewrite len_of_cons|].
  - specialize (Hnat (- i)). lia.
  - specialize (Hnat i). lia.
Qed.

Lemma text_of_clean k varg text varg' : text_of k varg = Some (text, varg') -> clean text = true.
Proof.
  unfold text_of. intros Ht.
  destruct (decide (k = "s"%char)).
  { destruct varg as [|[z|s0] rest]; try done. destruct (clean s0) eqn:Hc; [|done].
    destruct (negb _); [|done]. by injection Ht as <- _. }
  destruct (decide (k = "c"%char)).
  { destruct varg as [|[z|s0] rest]; try done. destruct (decide (chr z = NUL)); [done|].
    injection Ht as <- _. simpl. by rewrite bool_decide_eq_true_2. }
  destruct (decide (k = "d"%char)).
  { destruct varg as [|[z|s0] rest]; try done. injection Ht as <- _. apply show_int_clean, s32_range. }
  destruct (decide (k = "p"%char)).
  { destruct varg as [|[z|s0] rest]; try done. destruct (u32 z =? 0); [by injection Ht as <- _|].
    destruct (u32 z <=? 0xF0000000); [|done]. injection Ht as <- _.
    apply (clean_app (lit "0x")); [done|]. pose proof (u32_range z). apply show_nat_clean; lia. }
  destruct (decide (k = "b"%char)).
  { destruct varg as [|[z|s0] rest]; try done. injection Ht as <- _. apply bin_buffer_clean. }
  destruct (decide (k = "%"%char)); [by injection Ht as <- _|].
  destruct (decide (k = NUL)); [done|]. injection Ht as <- _.
  simpl. by rewrite (bool_decide_eq_true_2 (k ≠ NUL)).
Qed.

Lemma render_clean fmt : ∀ varg text, render fmt varg = Some text -> clean text = true.
Proof.
  induction fmt as [fmt IH] using (induction_ltof1 _ length). unfold ltof in IH.
  intros varg text Hr. destruct fmt as [|c rest]; cbn [render] in Hr; [by injection Hr as <-|].
  destruct (decide (c = NUL)); [done|]. destruct (decide (c = "%"%char)).
  - destruct rest as [|k rest]; [done|]. destruct (text_of k varg) as [[text1 varg']|] eqn:Ht; [|done].
    cbn in Hr. destruct (render rest varg') as [text2|] eqn:Hr2; [|done]. injection Hr as <-.
    apply clean_app; [by eapply text_of_clean | eapply (IH rest); [simpl; lia | done]].
  - destruct (render rest varg) as [text2|] eqn:Hr2; [|done]. injection Hr as <-.
    simpl. rewrite (bool_decide_eq_true_2 (c ≠ NUL)) by done. simpl. eapply (IH rest); [simpl; lia | done].
Qed.

(** A fresh [str_target_t]. *)
Definition fresh (len : Z) (dest : list ascii) : str_target_t :=
  {| str := dest; size := len; wrote := 0 |}.

Lemma fresh_inv len dest : 1 <= len <= len_of dest -> len <= 2 ^ 30 ->
  str_inv len (len_of dest) (drop (Z.to_nat len) dest) (fresh len dest).
Proof. intros H1 H2. split; simpl; [done | done | lia | done]. Qed.

Lemma fresh_holds len dest : 1 <= len <= len_of dest -> len <= 2 ^ 30 ->
  str_holds len (len_of dest) (drop (Z.to_nat len) dest) [] (fresh len dest).
Proof. intros H1 H2. split; [by apply fresh_inv|]. split; [done|]. by exists dest. Qed.

(** A print to a fresh target, seen from the buffer. *)
Lemma printed_buffer (m : PM str_target_t Z) len dest text : 1 <= len <= len_of dest ->
  wp m (fun n d' => n = len_of text ∧
    str_holds len (len_of dest) (drop (Z.to_nat len) dest) ([] ++ text) d') never (fresh len dest) ->
  clean text = true -> text ≠ [] ->
  ∃ dest', with_str_target len m dest = Ok (len_of text) dest' ∧ c_string dest' = text ∧
    len_of dest' = len_of dest ∧ drop (Z.to_nat len) dest' = drop (Z.to_nat len) dest.
Proof.
  intros Hlen Hm Hc Hne. unfold wp in Hm. destruct (m (fresh len dest)) as [n d'|e d'|w|] eqn:Hrun; try done.
  destruct Hm as [-> ([_ Hcap _ Hrest] & _ & tail & Hstr & Hnul)]. exists (str d').
  split_and!; [|rewrite Hstr; apply c_string_app; [done | by apply Hnul] | done | done].
  unfold with_str_target. by rewrite (zoom_ok _ _ m dest (len_of text) d').
Qed.

(** [pandos_pow] computes the power of its base, modulo [2^32] as an
    [int] does: the halving recursion is the mathematical power. *)
Theorem pandos_pow_is_power base exp : 0 <= exp < 2 ^ 32 ->
  pandos_pow base exp = s32 (base ^ exp).
Proof. intros Hexp. apply pandos_pow_spec. lia. Qed.

Lemma pandos_pow_witness : (0 <= 31 < 2 ^ 32) ∧ pandos_pow 3 31 = s32 (3 ^ 31).
Proof. split; [lia|]. apply (pandos_pow_is_power 3 31). lia. Defined.

(** C23: [nitoa] in base 10 and reading the number back are inverse to each
    other for every [int], the smallest one included, in every buffer that has
    room for the digits and a terminator, even when they fill it: the buffer
    holds a terminated string that reads as the number, the result is its
    length, and nothing behind the [len] bytes given is touched. *)
Theorem nitoa_round_trip i len dest :
  - 2 ^ 31 <= i < 2 ^ 31 -> len_of (show_int 10 i) + 1 <= len <= len_of dest -> len <= 2 ^ 30 ->
  ∃ dest', nitoa i 10 len dest = Ok (len_of (c_string dest')) dest' ∧
    parse_int 10 (c_string dest') = i ∧ len_of (c_string dest') < len ∧
    drop (Z.to_nat len) dest' = drop (Z.to_nat len) dest.
Proof.
  intros Hi Hlen Hbig. pose proof (len_of_nonneg (show_int 10 i)). set (text := show_int 10 i) in *.
  set (rest := drop (Z.to_nat len) dest). assert (1 <= len <= len_of dest) as Hsz by lia.
  assert (wp (__itoa str_writer i 10) (fun n d' => n = len_of text ∧ str_holds len (len_of dest) rest ([] ++ text) d')
    never (fresh len dest)) as Hrun.
  { destruct (decide (len_of text + 1 = len)) as [E|Hne].
    - pose proof (str_writer_shows len (len_of dest) rest Hsz Hbig) as HP.
      apply (itoa_decimal_then (HP := HP) _ _ _ _ i []); [done | by apply holds_shows, fresh_holds | simpl app; unfold str_just_fits; fold text; lia|].
      intros d' Hd'. destruct (str_writer_ends len (len_of dest) rest Hsz Hbig ([] ++ text) d' Hd' E) as (tail & Hrun & Hh).
      by eapply wp_ok; [exact Hrun|].
    - pose proof (str_writer_prints len (len_of dest) rest Hsz Hbig) as HP.
      apply (itoa_decimal (HP := HP) _ _ _ i []); [done | by apply fresh_holds |]. unfold str_fits. simpl app. fold text. lia. }
  destruct (printed_buffer (__itoa str_writer i 10) len dest text Hsz Hrun) as (dest' & Hr & Hs & _ & Hd).
  - by apply show_int_clean.
  - apply show_int_ne.
  - exists dest'. rewrite Hs. split_and!; [done | apply read_show_int; lia | lia | done].
Qed.

Definition blank (n : nat) : list ascii := repeat "x"%char n.

Lemma nitoa_round_trip_witness :
  ∃ dest', nitoa (- 2 ^ 31) 10 12 (blank 20) = Ok (len_of (c_string dest')) dest' ∧
    parse_int 10 (c_string dest') = - 2 ^ 31 ∧ len_of (c_string dest') < 12 ∧
    drop (Z.to_nat 12) dest' = drop (Z.to_nat 12) (blank 20).
Proof. apply (nitoa_round_trip (- 2 ^ 31) 12 (blank 20)); [lia | by vm_compute | lia]. Defined.

(** Only the empty format stands for the empty text. *)
Lemma render_empty fmt varg : render fmt varg = Some [] -> fmt = [].
Proof.
  destruct fmt as [|c rest]; [done|]. cbn [render]. destruct (decide (c = NUL)); [done|].
  destruct (decide (c = "%"%char)).
  - destruct rest as [|k rest]; [done|]. destruct (text_of k varg) as [[text1 varg']|] eqn:Ht; [|done].
    cbn. destruct (render rest varg'); [|done]. intros [= E]. apply app_eq_nil in E as [E _].
    by apply text_of_ne in Ht.
  - by destruct (render rest varg).
Qed.

(** C24: [pandos_snprintf] prints the text that its format and arguments
    stand for, reports its length, and touches nothing behind the [len] bytes
    given, whenever the text leaves room for its terminator and one more
    byte; it is terminated unless it is empty, and an empty text leaves the
    buffer as it was.  [render] says what a format stands for; it stands for
    nothing with an empty string for ["%s"], a pointer above [0xF0000000] for
    ["%p"], a NUL for ["%c"], a format that ends in a lone ["%"], a missing
    argument, or one of the wrong type. *)
Theorem snprintf_renders len fmt varg dest text :
  render fmt varg = Some text -> len_of text + 1 < len <= len_of dest -> len <= 2 ^ 30 ->
  ∃ dest', pandos_snprintf len fmt varg dest = Ok (len_of text) dest' ∧
    (if decide (text = []) then dest' = dest else c_string dest' = text) ∧ len_of dest' = len_of dest ∧
    drop (Z.to_nat len) dest' = drop (Z.to_nat len) dest.
Proof.
  intros Hr Hlen Hbig. pose proof (len_of_nonneg text). case_decide as Hne.
  { subst. apply render_empty in Hr as ->. by exists dest. }
  pose proof (str_writer_prints len (len_of dest) (drop (Z.to_nat len) dest) ltac:(lia) Hbig) as HP.
  apply (printed_buffer (__pandos_printf str_writer fmt varg)); try done; [lia | |by eapply render_clean].
  apply (printf_loop_prints _ _ _ fmt varg text [] 0); [done | by apply fresh_holds; lia | | lia | lia].
  unfold str_fits. simpl app. lia.
Qed.

Definition greeting : cstring := lit "pid %d: %s at %p, %c%%".
Definition greeting_args : list va := [VInt (-7); VStr (lit "run"); VInt 0x20001000; VInt 33].

Lemma snprintf_renders_witness :
  ∃ dest', pandos_snprintf 40 greeting greeting_args (blank 64)
      = Ok (len_of (lit "pid -7: run at 0x20001000, !%")) dest' ∧
    c_string dest' = lit "pid -7: run at 0x20001000, !%" ∧ len_of dest' = len_of (blank 64) ∧
    drop (Z.to_nat 40) dest' = drop (Z.to_nat 40) (blank 64).
Proof.
  apply (snprintf_renders 40 greeting greeting_args (blank 64) (lit "pid -7: run at 0x20001000, !%"));
    [by vm_compute | by vm_compute | lia].
Defined.

(** C25: whatever it is told to print, and whatever does not fit,
    [pandos_snprintf] returns and writes only to the [len] bytes it was
    given, as long as [len] is not 0, the arguments are there and have the
    types the format asks for, and the format does not end in ['%']. *)
Theorem snprintf_stays_in_buffer len fmt varg dest :
  format_ok fmt varg = true -> 1 <= len <= len_of dest -> len <= 2 ^ 30 ->
  ∃ n dest', pandos_snprintf len fmt varg dest = Ok n dest' ∧ len_of dest' = len_of dest ∧
    drop (Z.to_nat len) dest' = drop (Z.to_nat len) dest.
Proof.
  intros Hf Hlen Hbig.
  pose proof (str_writer_guarded len (len_of dest) (drop (Z.to_nat len) dest) ltac:(lia) Hbig) as HG.
  pose proof (printf_loop_guarded _ _ fmt varg 0 _ Hf (fresh_inv len dest Hlen Hbig)) as Hw.
  unfold wp in Hw. destruct (printf_loop str_writer fmt varg 0 (fresh len dest)) as [n d'| | |] eqn:Hrun; try done.
  destruct Hw as [_ Hcap _ Hrest]. exists n, (str d'). split_and!; [|done|done].
  unfold pandos_snprintf, with_str_target. by rewrite (zoom_ok _ _ _ dest n d').
Qed.

Lemma snprintf_stays_witness :
  ∃ n dest', pandos_snprintf 5 greeting greeting_args (blank 8) = Ok n dest' ∧
    len_of dest' = len_of (blank 8) ∧ drop (Z.to_nat 5) dest' = drop (Z.to_nat 5) (blank 8).
Proof. apply (snprintf_stays_in_buffer 5 greeting greeting_args (blank 8)); [by vm_compute | by vm_compute | lia]. Defined.

(** The bound is tight: a string that fills the buffer up to the place of its terminator is
    left without one: printing [s] with ["%s"] into [length s + 1] bytes
    keeps the last byte as it was. *)
Theorem snprintf_exact_fit_unterminated s dest :
  clean s = true -> s ≠ [] -> len_of dest = len_of s + 1 -> len_of dest <= 2 ^ 30 ->
  pandos_snprintf (len_of s + 1) (lit "%s") [VStr s] dest = Ok (len_of s) (s ++ drop (length s) dest).
Proof.
  intros Hc Hne Hlen Hbig. pose proof (len_of_nonneg s).
  assert (1 <= len_of s + 1 <= len_of dest) as H1 by lia. assert (len_of s + 1 <= 2 ^ 30) as H2 by lia.
  destruct (str_writer_text (len_of s + 1) (len_of dest) (drop (Z.to_nat (len_of s + 1)) dest) H1 H2
    s 0 [] (fresh (len_of s + 1) dest) (holds_shows _ _ _ _ _ (fresh_holds _ _ H1 H2)) Hc Hne) as (tail & Hrun & _ & Htail).
  { change (len_of []) with 0. lia. } { by left. }
  change (len_of []) with 0 in Htail. rewrite Htail in Hrun by lia.
  unfold pandos_snprintf, with_str_target, __pandos_printf. rewrite (zoom_ok _ _ _ dest (len_of s)
    {| str := s ++ drop (length s) dest; size := len_of s + 1; wrote := len_of s |}); [done|].
  change (printf_loop str_writer (lit "%s") [VStr s] 0)
    with (r <- (n <- str_writer s 0 ;; ret (n, @nil va)) ;;
          if r.1 =? 0 then finish str_writer false 0
          else printf_loop str_writer [] r.2 (u32 (0 + r.1))).
  rewrite bind_assoc, (bind_ok _ _ _ _ _ Hrun). cbv beta. rewrite bind_ret_l. cbn [fst snd].
  assert (len_of s ≠ 0) by (destruct s; [done | rewrite len_of_cons; pose proof (len_of_nonneg s); lia]).
  destruct (Z.eqb_spec (len_of s) 0); [done|]. rewrite u32_small by lia. done.
Qed.

Lemma snprintf_exact_fit_witness :
  pandos_snprintf (len_of (lit "abc") + 1) (lit "%s") [VStr (lit "abc")] (blank 4)
  = Ok 3 (lit "abc" ++ drop 3 (blank 4)).
Proof. by apply (snprintf_exact_fit_unterminated (lit "abc") (blank 4)). Defined.

(** C26: the log in memory keeps the last 101 lines of everything printed
    since it was empty: [pandos_kfprintf] returns the length of its text, and
    afterwards the buffer shows the text printed before followed by the new
    one, line [k] in row [k mod 102], wrapped at 40 characters and at
    newlines and padded with blanks. *)
Theorem kfprintf_logs fmt varg text s m :
  render fmt varg = Some text -> log_holds s m -> len_of (s ++ text) < 2 ^ 30 ->
  ∃ m', pandos_kfprintf fmt varg m = Ok (len_of text) m' ∧ log_holds (s ++ text) m'.
Proof.
  intros Hr Hs Hlen. rewrite len_of_app in Hlen. pose proof (len_of_nonneg s). pose proof (len_of_nonneg text).
  assert (wp (pandos_kfprintf fmt varg) (fun n m' => n = 0 + len_of text ∧ log_holds (s ++ text) m') never m) as Hw.
  { apply (printf_loop_prints memory_writer log_fits log_holds fmt varg text s 0 m Hr Hs); [|lia|lia].
    unfold log_fits. rewrite len_of_app. lia. }
  unfold wp in Hw. destruct (pandos_kfprintf fmt varg m) as [n m'| | |]; try done.
  destruct Hw as [-> Hs']. by exists m'.
Qed.

Lemma kstdout_empty : log_holds [] kstdout.
Proof.
  split; [|done]. split; [by apply repeat_length|]. intros k row Hk. cbn [buffer kstdout] in Hk.
  rewrite repeat_replicate in Hk. apply lookup_replicate in Hk as [-> _]. apply repeat_length.
Qed.

Lemma kfprintf_logs_witness :
  log_holds [] kstdout ∧
  ∃ m', pandos_kfprintf greeting greeting_args kstdout
      = Ok (len_of (lit "pid -7: run at 0x20001000, !%")) m' ∧
    log_holds ([] ++ lit "pid -7: run at 0x20001000, !%") m'.
Proof.
  split; [apply kstdout_empty|].
  apply (kfprintf_logs greeting greeting_args (lit "pid -7: run at 0x20001000, !%") [] kstdout);
    [by vm_compute | apply kstdout_empty | by vm_compute].
Defined.

(** C27: on a terminal that answers every character command after finitely
    many readings of its status, [pandos_fprintf] returns, and the terminal
    has transmitted exactly the text the format stands for, in order. *)
Theorem fprintf_transmits {T} `{!Terminal T} `{Umps} fuel fd fmt varg text
    (sent : cstring -> T -> Prop) s t :
  Responsive (DEV_REG_ADDR IL_TERMINAL fd) fuel sent ->
  render fmt varg = Some text -> sent s t -> len_of (s ++ text) < 2 ^ 30 ->
  ∃ t', pandos_fprintf fuel fd fmt varg t = Ok (len_of text) t' ∧ sent (s ++ text) t'.
Proof.
  intros HR Hr Hs Hlen. rewrite len_of_app in Hlen. pose proof (len_of_nonneg s). pose proof (len_of_nonneg text).
  assert (wp (pandos_fprintf fuel fd fmt varg)
    (fun n t' => n = 0 + len_of text ∧ sent (s ++ text) t') never t) as Hw.
  { apply (printf_loop_prints (serial_writer fuel (DEV_REG_ADDR IL_TERMINAL fd)) log_fits sent
      fmt varg text s 0 t Hr Hs); [|lia|lia]. unfold log_fits. rewrite len_of_app. lia. }
  unfold wp in Hw. destruct (pandos_fprintf fuel fd fmt varg t) as [n t'| | |]; try done.
  destruct Hw as [-> Hs']. by exists t'.
Qed.

Definition idle_terminal : sim_terminal := {| busy := O; status := ST_READY; shown := [] |}.

Lemma fprintf_transmits_witness :
  ∃ t', pandos_fprintf (H := umps3) 4 0 greeting greeting_args idle_terminal
      = Ok (len_of (lit "pid -7: run at 0x20001000, !%")) t' ∧
    sim_sent ([] ++ lit "pid -7: run at 0x20001000, !%") t'.
Proof.
  apply (fprintf_transmits (H := umps3) 4 0 greeting greeting_args (lit "pid -7: run at 0x20001000, !%")
    sim_sent [] idle_terminal); [apply sim_terminal_responsive | by vm_compute | done | by vm_compute].
Defined.

(** ** What the writers cannot do *)

(** An empty ["%s"] ends the whole print: the writer reports 0 characters. *)
Example empty_string_stops :
  ∃ dest', pandos_snprintf 20 (lit "a%sb") [VStr []] (blank 20) = Ok 1 dest' ∧ c_string dest' = lit "a".
Proof. eexists. split; by vm_compute. Qed.

(** The empty format leaves the buffer without a terminator. *)
Example empty_text_unterminated :
  pandos_snprintf 20 [] [] (blank 20) = Ok 0 (blank 20) ∧ c_string (blank 20) = blank 20.
Proof. split; by vm_compute. Qed.

(** A length of 0 does not stop [pandos_snprintf] from writing. *)
Example size_zero_overruns :
  pandos_snprintf 0 (lit "abc") [] [] = Fault "write outside the buffer".
Proof. by vm_compute. Qed.

(** A format that ends in ['%'] is read past its terminator. *)
Example percent_at_end :
  pandos_snprintf 20 (lit "100%") [] (blank 20) = Fault "the format is read past its end".
Proof. by vm_compute. Qed.

(** Pointers above [0xF0000000] are printed with too few digits. *)
Example high_pointer :
  ∃ dest', pandos_snprintf 20 (lit "%p") [VInt 0xFFFFFFFF] (blank 20) = Ok 3 dest' ∧
    c_string dest' = lit "0x/".
Proof. eexists. split; by vm_compute. Qed.
