(* ===== verification/P1test.v ===== *)
(** * The phase 1 test: [phase1/src/p1test.c]

    The test program of the first phase drives [pcb.c] and [asl.c] through
    their operations and reports its progress on the first terminal and in
    [okbuf].  It is modelled whole, over the operations of [Pcb] and [Asl]:
    [P1run] shows that it succeeds. *)

From Stdlib Require Import ZArith Lia Ascii String.
From stdpp Require Import base tactics option numbers strings gmap list.
From S2P Require Import Prelude ListHead Machine Kernel Pcb Asl Printf.

Open Scope Z_scope.

(** ** Constants *)

Definition MAXPROC : nat := 20.
Definition TRANSMITTED : Z := 5.
Definition PRINTCHR : Z := 2.
Definition CHAROFFSET : Z := 8.
Definition STATUSMASK : Z := 0xFF.
Definition TERM0ADDR : Z := 0x10000254.
Definition OKBUF_SIZE : nat := 2048.
Definition ERRBUF_SIZE : nat := 128.

(** Constants of the uMPS3 headers, and the addresses of [sem] and [onesem]. *)
Class P1Env := {
  DEVREGSIZE : Z; DEVREGLEN : Z; TRANSTATUS : Z; TRANCOMMAND : Z;
  READY : Z; BUSY : Z;
  sem_base : Z; onesem : Z
}.

(** [&sem[i]] *)
Definition sem `{P1Env} (i : nat) : Z := sem_base + 4 * Z.of_nat i.

(** Device registers: a load may change the device, and so does a store. *)
Class Mmio (T : Type) := {
  mmio_load : Z -> T -> Z * T;
  mmio_store : Z -> Z -> T -> T
}.

(** ** State *)

Record p1 (T : Type) : Type := P1 {
  nucleus : kernel;                (* the variables of pcb.c and asl.c *)
  device : T;                      (* the terminals *)
  okbuf : list ascii;
  mp : Z;                          (* mp - okbuf *)
  errbuf : list ascii;
  procp : list (option nat);
  p_ : option nat;                 (* p *)
  q_ : option nat;                 (* q *)
  firstproc : option nat;
  lastproc : option nat;
  midproc : option nat
}.

Arguments P1 {T}.
Arguments nucleus {T} _.
Arguments device {T} _.
Arguments okbuf {T} _.
Arguments mp {T} _.
Arguments errbuf {T} _.
Arguments procp {T} _.
Arguments p_ {T} _.
Arguments q_ {T} _.
Arguments firstproc {T} _.
Arguments lastproc {T} _.
Arguments midproc {T} _.

Section setters.
Context {T : Type}.
Implicit Types (r : p1 T).

Definition set_nucleus (v : kernel) r : p1 T :=
  P1 v (device r) (okbuf r) (mp r) (errbuf r) (procp r) (p_ r) (q_ r) (firstproc r) (lastproc r)
    (midproc r).
Definition set_device (v : T) r : p1 T :=
  P1 (nucleus r) v (okbuf r) (mp r) (errbuf r) (procp r) (p_ r) (q_ r) (firstproc r) (lastproc r)
    (midproc r).
Definition set_okbuf (v : list ascii) r : p1 T :=
  P1 (nucleus r) (device r) v (mp r) (errbuf r) (procp r) (p_ r) (q_ r) (firstproc r) (lastproc r)
    (midproc r).
Definition set_mp (v : Z) r : p1 T :=
  P1 (nucleus r) (device r) (okbuf r) v (errbuf r) (procp r) (p_ r) (q_ r) (firstproc r)
    (lastproc r) (midproc r).
Definition set_errbuf (v : list ascii) r : p1 T :=
  P1 (nucleus r) (device r) (okbuf r) (mp r) v (procp r) (p_ r) (q_ r) (firstproc r) (lastproc r)
    (midproc r).
Definition set_procp (v : list (option nat)) r : p1 T :=
  P1 (nucleus r) (device r) (okbuf r) (mp r) (errbuf r) v (p_ r) (q_ r) (firstproc r) (lastproc r)
    (midproc r).
Definition set_p (v : option nat) r : p1 T :=
  P1 (nucleus r) (device r) (okbuf r) (mp r) (errbuf r) (procp r) v (q_ r) (firstproc r)
    (lastproc r) (midproc r).
Definition set_q (v : option nat) r : p1 T :=
  P1 (nucleus r) (device r) (okbuf r) (mp r) (errbuf r) (procp r) (p_ r) v (firstproc r)
    (lastproc r) (midproc r).
Definition set_firstproc (v : option nat) r : p1 T :=
  P1 (nucleus r) (device r) (okbuf r) (mp r) (errbuf r) (procp r) (p_ r) (q_ r) v (lastproc r)
    (midproc r).
Definition set_lastproc (v : option nat) r : p1 T :=
  P1 (nucleus r) (device r) (okbuf r) (mp r) (errbuf r) (procp r) (p_ r) (q_ r) (firstproc r) v
    (midproc r).
Definition set_midproc (v : option nat) r : p1 T :=
  P1 (nucleus r) (device r) (okbuf r) (mp r) (errbuf r) (procp r) (p_ r) (q_ r) (firstproc r)
    (lastproc r) v.
End setters.

(** The program ends early in [PANIC], or by a trap inside an operation. *)
Inductive p1_exit : Type :=
| Panic
| Trap (e : exit_t).

Section operations.
Context {U : Umps} {Env : P1Env} {T : Type} {Dev : Mmio T} (fuel : nat).

Definition PM1 (A : Type) : Type := M (p1 T) p1_exit A.

(** A call of [pcb.c] or [asl.c]. *)
Definition call {A} (m : KM A) : PM1 A :=
  fun r =>
    match m (nucleus r) with
    | Ok a k => Ok a (set_nucleus k r)
    | Exit e k => Exit (Trap e) (set_nucleus k r)
    | Fault w => Fault w
    | NoFuel => NoFuel
    end.

(** An access to the terminals. *)
Definition on_device {A} (m : M T Empty_set A) : PM1 A := zoom device set_device m.

(** The copy of [processor.c]'s function that this program is linked with. *)
Definition null_state (s : state_t) : state_t :=
  State 0 0 UNINSTALLED 0 0 0 0 0 0 0 0 0 0 (map (fun _ => 0) (other_gpr s)).

(** ** The terminal *)

Definition termstat (stataddr : Z) : M T Empty_set Z :=
  fun t => let '(v, t') := mmio_load stataddr t in Ok (Z.land v STATUSMASK) t'.

(** [stat = termstat(statusp); while (stat == BUSY) stat = termstat(statusp);] *)
Fixpoint busy_wait (n : nat) (statusp : Z) : M T Empty_set Z :=
  match n with
  | O => no_fuel
  | S n' =>
      stat <- termstat statusp ;;
      if stat =? BUSY then busy_wait n' statusp else ret stat
  end.

(** The print cycle, and whether it ended without an error. *)
Fixpoint print_cycle (statusp commandp : Z) (str : cstring) : M T Empty_set bool :=
  match str with
  | [] => ret true
  | c :: str' =>
      if decide (c = NUL) then ret true
      else
        let cmd := u32 (Z.lor (Z.shiftl (schar c) CHAROFFSET) PRINTCHR) in
        modify (mmio_store commandp cmd) ;;
        stat <- busy_wait fuel statusp ;;
        if negb (stat =? TRANSMITTED) then ret false else print_cycle statusp commandp str'
  end.

Definition termprint (str : cstring) (term : Z) : M T Empty_set bool :=
  if term <? DEVPERINT then
    let statusp := u32 (TERM0ADDR + term * DEVREGSIZE + TRANSTATUS * DEVREGLEN) in
    let commandp := u32 (TERM0ADDR + term * DEVREGSIZE + TRANCOMMAND * DEVREGLEN) in
    stat <- termstat statusp ;;
    if (stat =? READY) || (stat =? TRANSMITTED) then print_cycle statusp commandp str
    else ret false
  else ret false.

(** ** Messages *)

(** The loop that copies [strp] and its terminator, from the index [at_] on. *)
Fixpoint copy (buf : list ascii) (at_ : Z) (strp : cstring) : option (list ascii) :=
  match strp with
  | [] => poke at_ NUL buf
  | c :: strp' => buf' ← poke at_ c buf; copy buf' (at_ + 1) strp'
  end.

Definition addokbuf (strp : cstring) : PM1 unit :=
  r <- get ;;
  b <- ok_or "write past okbuf" (copy (okbuf r) (mp r) strp) ;;
  modify (set_okbuf b) ;;
  modify (fun r => set_mp (mp r + len_of strp + 1) r) ;;
  modify (fun r => set_mp (mp r - 1) r) ;;
  _ <- on_device (termprint strp 0) ;;
  ret tt.

Definition adderrbuf (strp : cstring) : PM1 unit :=
  r <- get ;;
  b <- ok_or "write past errbuf" (copy (errbuf r) 0 strp) ;;
  modify (set_errbuf b) ;;
  _ <- on_device (termprint strp 0) ;;
  exit Panic.

(** ** The variables *)

(** Every progress message is a line. *)
Definition okbuf_line (s : string) : PM1 unit := addokbuf (lit s ++ ["010"%char]).

(** [if (b) adderrbuf(msg);] *)
Definition fail_if (b : bool) (msg : string) : PM1 unit := when b do adderrbuf (lit msg).

Definition get_procp (i : nat) : PM1 (option nat) :=
  r <- get ;; ok_or "read past procp" (procp r !! i).
Definition put_procp (i : nat) (v : option nat) : PM1 unit :=
  _ <- get_procp i ;; modify (fun r => set_procp (<[i := v]> (procp r)) r).

Definition is_null (p : option nat) : bool := bool_decide (p = None).
Definition differ (p q : option nat) : bool := bool_decide (p <> q).

(** [q = e;] *)
Definition assign_q (e : KM (option nat)) : PM1 (option nat) :=
  v <- call e ;; modify (set_q v) ;; ret v.
Definition assign_p (e : KM (option nat)) : PM1 (option nat) :=
  v <- call e ;; modify (set_p v) ;; ret v.

(** [LIST_HEAD(qa);] *)
Definition declare_qa : KM unit :=
  modify (fun k => set_links (<[L_qa := Node (Some L_qa) (Some L_qa)]> (links k)) k).

Definition qa : option lh := Some L_qa.

(** ** main *)

(** Check allocProc *)
Definition test_alloc : PM1 unit :=
  call init_pcbs ;;
  okbuf_line "Initialized process control blocks   " ;;
  for_ MAXPROC 0 (fun i =>
    v <- call alloc_pcb ;;
    put_procp i v ;;
    fail_if (is_null v) "alloc_pcb: unexpected NULL   ") ;;
  v <- call alloc_pcb ;;
  fail_if (negb (is_null v)) "alloc_pcb: allocated more than MAXPROC entries   " ;;
  okbuf_line "alloc_pcb ok   " ;;
  for_ 10 10 (fun i => v <- get_procp i ;; call (free_pcb v)) ;;
  okbuf_line "freed 10 entries   ".

(** create a 10-element process queue *)
Definition test_insert_queue : PM1 unit :=
  call declare_qa ;;
  e <- call (empty_proc_q qa) ;;
  fail_if (negb e) "empty_proc_q: unexpected FALSE   " ;;
  okbuf_line "Inserting...   " ;;
  for_ 10 0 (fun i =>
    v <- assign_q alloc_pcb ;;
    fail_if (is_null v) "alloc_pcb: unexpected NULL while insert   " ;;
    match i with
    | 0%nat => modify (set_firstproc v)
    | 5%nat => modify (set_midproc v)
    | 9%nat => modify (set_lastproc v)
    | _ => ret tt
    end ;;
    call (insert_proc_q qa v)) ;;
  okbuf_line "inserted 10 elements   " ;;
  e <- call (empty_proc_q qa) ;;
  fail_if e "empty_proc_q: unexpected TRUE".

(** Check outProc and headProc *)
Definition test_out_queue : PM1 unit :=
  h <- call (head_proc_q qa) ;;
  firstproc <- gets firstproc ;;
  fail_if (differ h firstproc) "head_proc_q failed   " ;;
  q <- assign_q (out_proc_q qa firstproc) ;;
  fail_if (is_null q || differ q firstproc) "out_proc_q failed on first entry   " ;;
  call (free_pcb q) ;;
  midproc <- gets midproc ;;
  q <- assign_q (out_proc_q qa midproc) ;;
  fail_if (is_null q || differ q midproc) "out_proc_q failed on middle entry   " ;;
  call (free_pcb q) ;;
  p0 <- get_procp 0 ;;
  v <- call (out_proc_q qa p0) ;;
  fail_if (negb (is_null v)) "out_proc_q failed on nonexistent entry   " ;;
  okbuf_line "out_proc_q ok   ".

(** Check if removeProc and insertProc remove in the correct order *)
Definition test_remove_queue : PM1 unit :=
  okbuf_line "Removing...   " ;;
  for_ 8 0 (fun _ =>
    q <- assign_q (remove_proc_q qa) ;;
    fail_if (is_null q) "remove_proc_q: unexpected NULL   " ;;
    call (free_pcb q)) ;;
  q <- gets q_ ;;
  lastproc <- gets lastproc ;;
  fail_if (differ q lastproc) "remove_proc_q: failed on last entry   " ;;
  v <- call (remove_proc_q qa) ;;
  fail_if (negb (is_null v)) "remove_proc_q: removes too many entries   " ;;
  e <- call (empty_proc_q qa) ;;
  fail_if (negb e) "empty_proc_q: unexpected FALSE   " ;;
  okbuf_line "insert_proc_q, remove_proc_q and empty_proc_q ok   " ;;
  okbuf_line "process queues module ok      ".

(** checking process trees *)
Definition test_trees : PM1 unit :=
  okbuf_line "checking process trees..." ;;
  p2 <- get_procp 2 ;;
  e <- call (empty_child p2) ;;
  fail_if (negb e) "empty_child: unexpected FALSE   " ;;
  okbuf_line "Inserting...   " ;;
  for_ 9 1 (fun i =>
    p0 <- get_procp 0 ;;
    pi <- get_procp i ;;
    call (insert_child p0 pi)) ;;
  okbuf_line "Inserted 9 children   " ;;
  p0 <- get_procp 0 ;;
  e <- call (empty_child p0) ;;
  fail_if e "empty_child: unexpected TRUE   " ;;
  p1 <- get_procp 1 ;;
  q <- assign_q (out_child p1) ;;
  fail_if (is_null q || differ q p1) "out_child failed on first child   " ;;
  p4 <- get_procp 4 ;;
  q <- assign_q (out_child p4) ;;
  fail_if (is_null q || differ q p4) "out_child failed on middle child   " ;;
  v <- call (out_child p0) ;;
  fail_if (negb (is_null v)) "out_child failed on nonexistent child   " ;;
  okbuf_line "out_child ok   " ;;
  okbuf_line "Removing...   " ;;
  for_ 7 0 (fun _ =>
    p0 <- get_procp 0 ;;
    q <- assign_q (remove_child p0) ;;
    fail_if (is_null q) "remove_child: unexpected NULL   ") ;;
  v <- call (remove_child p0) ;;
  fail_if (negb (is_null v)) "remove_child: removes too many children   " ;;
  e <- call (empty_child p0) ;;
  fail_if (negb e) "empty_child: unexpected FALSE   " ;;
  okbuf_line "insert_child, remove_child and empty_child ok   " ;;
  okbuf_line "process tree module ok      " ;;
  for_ 10 0 (fun i => v <- get_procp i ;; call (free_pcb v)).

(** check remove_blocked and insert_blocked *)
Definition test_insert_blocked : PM1 unit :=
  call init_asl ;;
  okbuf_line "Initialized active semaphore list   " ;;
  okbuf_line "insert_blocked test #1 started  " ;;
  for_ 10 10 (fun i =>
    v <- call alloc_pcb ;;
    put_procp i v ;;
    e <- call (insert_blocked (sem i) v) ;;
    fail_if (negb (e =? 0)) "insert_blocked(1): unexpected TRUE   ") ;;
  okbuf_line "insert_blocked test #2 started  " ;;
  for_ 10 0 (fun i =>
    v <- call alloc_pcb ;;
    put_procp i v ;;
    e <- call (insert_blocked (sem i) v) ;;
    fail_if (negb (e =? 0)) "insert_blocked(2): unexpected TRUE   ") ;;
  p <- assign_p (remove_blocked (sem 11)) ;;
  e <- call (insert_blocked (sem 11) p) ;;
  fail_if (negb (e =? 0)) "remove_blocked: fails to return to free list   " ;;
  p9 <- get_procp 9 ;;
  e <- call (insert_blocked onesem p9) ;;
  fail_if (e =? 0) "insert_blocked: inserted more than MAXPROC   ".

Definition test_remove_blocked : PM1 unit :=
  okbuf_line "remove_blocked test started   " ;;
  for_ 10 10 (fun i =>
    q <- assign_q (remove_blocked (sem i)) ;;
    fail_if (is_null q) "remove_blocked: wouldn't remove   " ;;
    pi <- get_procp i ;;
    fail_if (differ q pi) "remove_blocked: removed wrong element   " ;;
    e <- call (insert_blocked (sem (i - 10)) q) ;;
    fail_if (negb (e =? 0)) "insert_blocked(3): unexpected TRUE   ") ;;
  v <- call (remove_blocked (sem 11)) ;;
  fail_if (negb (is_null v)) "remove_blocked: removed nonexistent blocked proc   " ;;
  okbuf_line "insert_blocked and remove_blocked ok   ".

Definition test_out_blocked : PM1 unit :=
  v <- call (head_blocked (sem 11)) ;;
  fail_if (negb (is_null v)) "head_blocked: nonNULL for a nonexistent queue   " ;;
  q <- assign_q (head_blocked (sem 9)) ;;
  fail_if (is_null q) "head_blocked(1): NULL for an existent queue   " ;;
  p9 <- get_procp 9 ;;
  fail_if (differ q p9) "head_blocked(1): wrong process returned   " ;;
  p <- assign_p (out_blocked q) ;;
  fail_if (differ p q) "outBlocked(1): couldn't remove from valid queue   " ;;
  q <- assign_q (head_blocked (sem 9)) ;;
  fail_if (is_null q) "head_blocked(2): NULL for an existent queue   " ;;
  p19 <- get_procp 19 ;;
  fail_if (differ q p19) "head_blocked(2): wrong process returned   " ;;
  p <- assign_p (out_blocked q) ;;
  fail_if (differ p q) "outBlocked(2): couldn't remove from valid queue   " ;;
  p <- assign_p (out_blocked q) ;;
  fail_if (negb (is_null p)) "outBlocked: removed same process twice." ;;
  v <- call (head_blocked (sem 9)) ;;
  fail_if (negb (is_null v)) "out/head_blocked: unexpected nonempty queue   " ;;
  okbuf_line "head_blocked and outBlocked ok   " ;;
  okbuf_line "ASL module ok   ".

Definition main : PM1 Z :=
  test_alloc ;;
  test_insert_queue ;;
  test_out_queue ;;
  test_remove_queue ;;
  test_trees ;;
  test_insert_blocked ;;
  test_remove_blocked ;;
  test_out_blocked ;;
  okbuf_line "So Long and Thanks for All the Fish" ;;
  ret 0.
End operations.
