(* ===== verification/P1run.v ===== *)
(** * The phase 1 test succeeds

    The test is run once, by computation, on a reference machine: concrete
    addresses for its semaphores and a terminal that is always ready.  A
    relational argument carries that run over to every machine: what the
    operations of [pcb.c] and [asl.c] do depends on the addresses of the
    semaphores only through their equality, and the messages go wherever the
    terminal takes them. *)

From Stdlib Require Import ZArith Lia Ascii String.
From stdpp Require Import base tactics option numbers strings gmap list.
From S2P Require Import Prelude ListHead Machine Kernel View Pcb Asl Init Printf Targets P1test.

Open Scope Z_scope.

(** ** Relating computations

    [sim R V m1 m2]: from related states, if [m2] returns then so does [m1],
    with related values and states. *)

Section sim.
Context {S1 S2 E1 E2 : Type} (R : S1 -> S2 -> Prop).

Definition sim {A1 A2} (V : A1 -> A2 -> Prop) (m1 : M S1 E1 A1) (m2 : M S2 E2 A2) : Prop :=
  ∀ s1 s2, R s1 s2 ->
    match m2 s2 with
    | Ok a2 s2' => ∃ a1 s1', m1 s1 = Ok a1 s1' ∧ V a1 a2 ∧ R s1' s2'
    | _ => True
    end.

Lemma sim_ret {A1 A2} (V : A1 -> A2 -> Prop) a1 a2 : V a1 a2 -> sim V (ret a1) (ret a2).
Proof. intros HV s1 s2 HR. by exists a1, s1. Qed.

Lemma sim_bind {A1 A2 B1 B2} (V : A1 -> A2 -> Prop) (V' : B1 -> B2 -> Prop) m1 m2 k1 k2 :
  sim V m1 m2 -> (∀ a1 a2, V a1 a2 -> sim V' (k1 a1) (k2 a2)) -> sim V' (bind m1 k1) (bind m2 k2).
Proof.
  intros Hm Hk s1 s2 HR. specialize (Hm s1 s2 HR). unfold bind at 1.
  destruct (m2 s2) as [a2 s2'| | |]; try done. destruct Hm as (a1 & s1' & Hrun & HV & HR').
  specialize (Hk a1 a2 HV s1' s2' HR'). destruct (k2 a2 s2'); try done.
  by rewrite (bind_ok _ _ _ _ _ Hrun).
Qed.

Lemma sim_gets {A1 A2} (V : A1 -> A2 -> Prop) f1 f2 :
  (∀ s1 s2, R s1 s2 -> V (f1 s1) (f2 s2)) -> sim V (gets f1) (gets f2).
Proof. intros HV s1 s2 HR. exists (f1 s1), s1. auto. Qed.

Lemma sim_get : sim R get get.
Proof. intros s1 s2 HR. by exists s1, s1. Qed.

Lemma sim_modify f1 f2 : (∀ s1 s2, R s1 s2 -> R (f1 s1) (f2 s2)) -> sim eq (modify f1) (modify f2).
Proof. intros Hf s1 s2 HR. exists tt, (f1 s1). auto. Qed.

Lemma sim_ok_or {A} w (o1 o2 : option A) : o1 = o2 -> sim eq (ok_or w o1) (ok_or w o2).
Proof. intros -> s1 s2 HR. destruct o2 as [a|]; [|done]. by exists a, s1. Qed.

Lemma sim_ok_or_rel {A1 A2} (V : A1 -> A2 -> Prop) w o1 o2 :
  (∀ a2, o2 = Some a2 -> ∃ a1, o1 = Some a1 ∧ V a1 a2) -> sim V (ok_or w o1) (ok_or w o2).
Proof.
  intros Ho s1 s2 HR. destruct o2 as [a2|]; [|done]. destruct (Ho a2 eq_refl) as (a1 & -> & HV).
  by exists a1, s1.
Qed.

Lemma sim_for n a b1 b2 : (∀ i, (a <= i < a + n)%nat -> sim eq (b1 i) (b2 i)) ->
  sim eq (for_ n a b1) (for_ n a b2).
Proof.
  revert a. induction n as [|n IH]; intros a Hb; [by apply sim_ret|].
  cbn [for_]. eapply sim_bind; [apply Hb; lia|]. intros _ _ _. apply IH. intros i Hi. apply Hb. lia.
Qed.

(** The reference ends early: nothing to show. *)
Lemma sim_exit {A1 A2} (V : A1 -> A2 -> Prop) m1 e : sim V m1 (exit e).
Proof. by intros s1 s2 HR. Qed.
Lemma sim_fault {A1 A2} (V : A1 -> A2 -> Prop) m1 w : sim V m1 (fault w).
Proof. by intros s1 s2 HR. Qed.
End sim.

Lemma sim_refl {S E A} (m : M S E A) : sim eq eq m m.
Proof. intros s1 s2 ->. destruct (m s2) as [a s'| | |]; try done. by exists a, s'. Qed.

Create HintDb sim.
#[export] Hint Resolve sim_ret sim_get sim_ok_or sim_for sim_exit sim_fault : sim.

(** One rule per construct; a value that is related by equality is replaced. *)
Ltac sim_step :=
  match goal with
  | |- sim _ _ (bind _ _) (bind _ _) => eapply sim_bind
  | |- sim _ _ (if ?b then _ else _) (if ?b then _ else _) => destruct b
  | |- sim _ _ (match ?x with _ => _ end) (match ?x with _ => _ end) => destruct x
  | |- sim _ _ _ _ => solve [eauto with sim]
  | |- forall _ _, ?V _ _ -> sim _ _ _ _ => intros ? ? ?; try subst
  end.
Ltac sim_tac := repeat sim_step.

(** ** Kernels that differ in the addresses of their semaphores *)

Section renaming.
Context {U1 U2 : Umps} (addr1 addr2 : nat -> Z) (names : nat).

(** What the addresses of the semaphores are: words, no two the same, and
    the first one NULL. *)
Record naming (addr : nat -> Z) : Prop := {
  nm_null : addr O = 0;
  nm_word n : (n < names)%nat -> 0 <= addr n < 2 ^ 32 ∧ addr n mod 4 = 0;
  nm_inj n m : (n < names)%nat -> (m < names)%nat -> addr n = addr m -> n = m
}.
Context (N1 : naming addr1) (N2 : naming addr2).

Definition arel (a1 a2 : Z) : Prop := ∃ n, (n < names)%nat ∧ a1 = addr1 n ∧ a2 = addr2 n.

Lemma arel_eq a1 a2 b1 b2 : arel a1 a2 -> arel b1 b2 -> a1 = b1 <-> a2 = b2.
Proof using N1 N2.
  intros (n & Hn & -> & ->) (m & Hm & -> & ->).
  split; intros E; f_equal; [by apply (nm_inj _ N1) | by apply (nm_inj _ N2)].
Qed.

Lemma arel_null : (0 < names)%nat -> arel 0 0.
Proof using N1 N2. intros Hn. exists O. by rewrite (nm_null _ N1), (nm_null _ N2). Qed.

Lemma arel_zero a1 a2 : arel a1 a2 -> (a1 =? 0) = (a2 =? 0).
Proof using N1 N2.
  intros Ha. assert (arel 0 0) as H0 by (destruct Ha as (n & Hn & _); apply arel_null; lia).
  pose proof (arel_eq _ _ _ _ Ha H0). destruct (Z.eqb_spec a1 0), (Z.eqb_spec a2 0); tauto.
Qed.

Definition prel (c1 c2 : pcb_t) : Prop :=
  p_parent c1 = p_parent c2 ∧ arel (p_sem_add c1) (p_sem_add c2).

Record krel (k1 k2 : kernel) : Prop := {
  kr_links : links k1 = links k2;
  kr_pcbs : Forall2 prel (pcb_table k1) (pcb_table k2);
  kr_semds : Forall2 (fun d1 d2 => arel (s_key d1) (s_key d2)) (semd_table k1) (semd_table k2)
}.

Lemma krel_links h k1 k2 : krel k1 k2 -> krel (set_links h k1) (set_links h k2).
Proof. by intros [? ? ?]. Qed.

Lemma sim_on_links {A} (m1 m2 : M (gmap lh (list_head lh)) Empty_set A) :
  sim eq eq m1 m2 -> sim krel eq (on_links m1) (on_links m2).
Proof.
  intros Hm k1 k2 HR. unfold on_links, zoom. rewrite (kr_links _ _ HR).
  specialize (Hm (links k2) (links k2) eq_refl).
  destruct (m2 (links k2)) as [a h|[]| |]; try done. destruct Hm as (a1 & h1 & -> & -> & ->).
  exists a, (set_links h k1). split_and!; [done..|]. by apply krel_links.
Qed.

Lemma sim_pcb_at i : sim krel prel (pcb_at i) (pcb_at i).
Proof.
  eapply sim_bind; [apply sim_get|]. intros k1 k2 HR. apply sim_ok_or_rel. intros c2 Hc2.
  destruct (Forall2_lookup_r _ _ _ _ _ (kr_pcbs _ _ HR) Hc2) as (c1 & ? & ?). eauto.
Qed.

Lemma sim_upd_pcb i f1 f2 :
  (∀ c1 c2, prel c1 c2 -> prel (f1 c1) (f2 c2)) -> sim krel eq (upd_pcb i f1) (upd_pcb i f2).
Proof.
  intros Hf. eapply sim_bind; [apply sim_pcb_at|]. intros c1 c2 Hc. apply sim_modify.
  intros k1 k2 [? Hp ?]. split; [done| |done]. simpl. apply Forall2_insert; auto.
Qed.

Lemma sim_set_s_key j a1 a2 : arel a1 a2 -> sim krel eq (set_s_key j a1) (set_s_key j a2).
Proof.
  intros Ha. eapply (sim_bind _ (fun _ _ => True)).
  - eapply sim_bind; [apply sim_get|]. intros k1 k2 HR. apply sim_ok_or_rel. intros d2 Hd2.
    destruct (Forall2_lookup_r _ _ _ _ _ (kr_semds _ _ HR) Hd2) as (d1 & ? & ?). eauto.
  - intros _ _ _. apply sim_modify. intros k1 k2 [? ? Hs]. split; [done|done|]. simpl.
    by apply Forall2_insert.
Qed.

(** [list_search] looks at its comparison through its zeros. *)
Lemma sim_list_search fuel e1 e2 (hd : lh) cmp1 cmp2 :
  (∀ x z2, cmp2 e2 x = Some z2 -> ∃ z1, cmp1 e1 x = Some z1 ∧ (z1 =? 0) = (z2 =? 0)) ->
  sim (E1 := Empty_set) (E2 := Empty_set) eq eq (list_search fuel e1 hd cmp1) (list_search fuel e2 hd cmp2).
Proof.
  intros Hc. eapply sim_bind; [apply sim_refl|]. intros n _ <-. generalize (next n). clear n.
  induction fuel as [|fuel IH]; intros it; [by intros s1 s2 _|]. cbn [list_search_loop].
  destruct (decide (it = Some hd)); [by apply sim_ret|].
  eapply sim_bind; [by apply sim_ok_or|]. intros a _ <-.
  eapply sim_bind; [apply (sim_ok_or_rel _ (fun z1 z2 => (z1 =? 0) = (z2 =? 0))); apply Hc|].
  intros z1 z2 ->. destruct (z2 =? 0); [by apply sim_ret|].
  eapply sim_bind; [apply sim_refl|]. by intros m _ <-.
Qed.

Lemma arel_cmp a1 a2 b1 b2 : arel a1 a2 -> arel b1 b2 ->
  (Z.shiftr (s32 (a1 - b1)) 2 =? 0) = (Z.shiftr (s32 (a2 - b2)) 2 =? 0).
Proof using N1 N2.
  intros Ha Hb. pose proof (arel_eq _ _ _ _ Ha Hb) as Hiff.
  destruct Ha as (n & Hn & -> & ->), Hb as (m & Hm & -> & ->).
  pose proof (word_cmp_zero _ _ (nm_word _ N1 n Hn) (nm_word _ N1 m Hm)).
  pose proof (word_cmp_zero _ _ (nm_word _ N2 n Hn) (nm_word _ N2 m Hm)).
  destruct (Z.eqb_spec (Z.shiftr (s32 (addr1 n - addr1 m)) 2) 0),
    (Z.eqb_spec (Z.shiftr (s32 (addr2 n - addr2 m)) 2) 0); tauto.
Qed.

Lemma sim_find_semd l a1 a2 :
  arel a1 a2 -> sim krel eq (find_semd l a1) (find_semd l a2).
Proof using N1 N2.
  intros Ha. unfold find_semd. destruct l as [l|]; [|by apply sim_ret].
  rewrite (arel_zero _ _ Ha). destruct (a2 =? 0); [by apply sim_ret|].
  eapply sim_bind; [apply (sim_gets _ (Forall2 (fun d1 d2 => arel (s_key d1) (s_key d2)))); apply kr_semds|].
  intros t1 t2 Ht. apply (sim_bind _ eq); [|by intros it _ <-; sim_tac].
  apply sim_on_links, sim_list_search. intros x z2.
  unfold key_cmp. cbn [key_of mbind option_bind s_key].
  assert (∀ d1 d2 : Z, arel d1 d2 -> ∀ z, Some (Z.shiftr (s32 (a2 - d2)) 2) = Some z ->
    ∃ z1, Some (Z.shiftr (s32 (a1 - d1)) 2) = Some z1 ∧ (z1 =? 0) = (z =? 0)) as Hcmp.
  { intros d1 d2 Hd z [= <-]. eexists. split; [done|]. by apply arel_cmp. }
  destruct x as [| | | |j| | | | | | |]; try done; [|by apply Hcmp].
  cbn [key_of]. destruct (t2 !! j) as [d2|] eqn:Hd2; [|done].
  destruct (Forall2_lookup_r _ _ _ _ _ Ht Hd2) as (d1 & -> & Hd). by apply Hcmp.
Qed.

#[local] Hint Resolve sim_refl sim_on_links sim_pcb_at sim_find_semd : sim.

Lemma prel_parent c1 c2 v : prel c1 c2 -> prel (set_p_parent v c1) (set_p_parent v c2).
Proof. by intros [? ?]. Qed.
Lemma prel_pid c1 c2 v : prel c1 c2 -> prel (set_p_pid v c1) (set_p_pid v c2).
Proof. by intros [? ?]. Qed.
Lemma prel_sem c1 c2 a1 a2 : arel a1 a2 -> prel c1 c2 -> prel (set_p_sem_add a1 c1) (set_p_sem_add a2 c2).
Proof. by intros ? [? ?]. Qed.
Context (Hnull : (0 < names)%nat).
Lemma prel_null c1 c2 : prel (null_pcb_fields (H := U1) c1) (null_pcb_fields (H := U2) c2).
Proof using N1 N2 Hnull. split; [done|]. by apply arel_null. Qed.
#[local] Hint Resolve prel_parent prel_pid prel_sem prel_null : sim.

Ltac krel_tac := repeat first [ sim_step | apply sim_upd_pcb; intros; solve [eauto with sim] ].

Lemma sim_free_pcb p : sim krel eq (free_pcb p) (free_pcb p).
Proof. unfold free_pcb. krel_tac. Qed.
Lemma sim_null_pcb p : sim krel eq (null_pcb (H := U1) p) (null_pcb (H := U2) p).
Proof using N1 N2 Hnull. unfold null_pcb. krel_tac. Qed.
#[local] Hint Resolve sim_null_pcb : sim.
Lemma sim_alloc_pcb : sim krel eq (alloc_pcb (H := U1)) (alloc_pcb (H := U2)).
Proof using N1 N2 Hnull. unfold alloc_pcb. krel_tac. Qed.
Lemma sim_init_pcbs : sim krel eq init_pcbs init_pcbs.
Proof. unfold init_pcbs. krel_tac. apply sim_for. intros i _. krel_tac. Qed.

(** Queues and the tree read no address. *)
Lemma sim_empty_proc_q h : sim krel eq (empty_proc_q h) (empty_proc_q h).
Proof. unfold empty_proc_q. krel_tac. Qed.
Lemma sim_insert_proc_q h p : sim krel eq (insert_proc_q h p) (insert_proc_q h p).
Proof. unfold insert_proc_q. krel_tac. Qed.
Lemma sim_head_proc_q h : sim krel eq (head_proc_q h) (head_proc_q h).
Proof. unfold head_proc_q. krel_tac. Qed.
Lemma sim_out_proc_q h p : sim krel eq (out_proc_q h p) (out_proc_q h p).
Proof. unfold out_proc_q. krel_tac. Qed.
#[local] Hint Resolve sim_out_proc_q : sim.
Lemma sim_remove_proc_q h : sim krel eq (remove_proc_q h) (remove_proc_q h).
Proof. unfold remove_proc_q. krel_tac. Qed.
Lemma sim_empty_child p : sim krel eq (empty_child p) (empty_child p).
Proof. unfold empty_child. krel_tac. Qed.

(** A step whose continuation looks at the parent of a PCB. *)
Ltac parent_tac :=
  repeat first
    [ match goal with |- prel ?c1 ?c2 -> _ => intros [-> _] end
    | match goal with H : prel ?c1 ?c2 |- sim _ _ (match p_parent ?c1 with _ => _ end) _ =>
        rewrite (proj1 H) end
    | sim_step | apply sim_upd_pcb; intros; solve [eauto with sim] ].

Lemma sim_insert_child j p : sim krel eq (insert_child j p) (insert_child j p).
Proof. unfold insert_child. parent_tac. Qed.
Lemma sim_out_child p : sim krel eq (out_child p) (out_child p).
Proof. unfold out_child. parent_tac. Qed.
#[local] Hint Resolve sim_out_child : sim.
Lemma sim_remove_child p : sim krel eq (remove_child p) (remove_child p).
Proof. unfold remove_child. krel_tac. Qed.

(** The semaphores: related addresses. *)
Lemma sim_init_asl : sim krel eq init_asl init_asl.
Proof. unfold init_asl. krel_tac; apply sim_for; intros i _; krel_tac. Qed.
Lemma sim_alloc_semd a1 a2 : arel a1 a2 -> sim krel eq (alloc_semd a1) (alloc_semd a2).
Proof using N1 N2.
  intros Ha. unfold alloc_semd. rewrite (arel_zero _ _ Ha).
  repeat first [ sim_step | by apply sim_set_s_key ].
Qed.
Lemma sim_free_semd j : sim krel eq (free_semd j) (free_semd j).
Proof. unfold free_semd. krel_tac. Qed.
#[local] Hint Resolve sim_alloc_semd sim_free_semd : sim.

Lemma sim_insert_blocked a1 a2 p : arel a1 a2 -> sim krel eq (insert_blocked a1 p) (insert_blocked a2 p).
Proof using N1 N2.
  intros Ha. unfold insert_blocked. rewrite (arel_zero _ _ Ha).
  destruct (a2 =? 0), p as [i|]; try by apply sim_ret.
  eapply sim_bind; [apply sim_pcb_at|]. intros c1 c2 [_ Hc]. rewrite (arel_zero _ _ Hc).
  destruct (negb (p_sem_add c2 =? 0)); [by apply sim_ret|].
  eapply sim_bind; [by apply sim_find_semd|]. intros f _ <-.
  apply (sim_bind _ eq); krel_tac.
Qed.
Lemma sim_out_blocked p : sim krel eq (out_blocked p) (out_blocked p).
Proof using N1 N2 Hnull.
  unfold out_blocked. destruct p as [i|]; [|by apply sim_ret].
  eapply sim_bind; [apply sim_pcb_at|]. intros c1 c2 [_ Hc]. pose proof (arel_null Hnull). krel_tac.
Qed.
Lemma sim_head_blocked a1 a2 : arel a1 a2 -> sim krel eq (head_blocked a1) (head_blocked a2).
Proof using N1 N2.
  intros Ha. unfold head_blocked. rewrite (arel_zero _ _ Ha). krel_tac.
Qed.
#[local] Hint Resolve sim_out_blocked sim_head_blocked : sim.
Lemma sim_remove_blocked a1 a2 : arel a1 a2 -> sim krel eq (remove_blocked a1) (remove_blocked a2).
Proof using N1 N2 Hnull. intros Ha. unfold remove_blocked. krel_tac. Qed.
End renaming.

(** ** Terminals *)

Section terminals.
Context {Env : P1Env} {T : Type} {Dev : Mmio T}.

(** The addresses that [termprint] computes for the first terminal. *)
Definition status_reg : Z := u32 (TERM0ADDR + 0 * DEVREGSIZE + TRANSTATUS * DEVREGLEN).
Definition command_reg : Z := u32 (TERM0ADDR + 0 * DEVREGSIZE + TRANCOMMAND * DEVREGLEN).
Definition transmit_char (c : ascii) : T -> T :=
  mmio_store command_reg (u32 (Z.lor (Z.shiftl (schar c) CHAROFFSET) PRINTCHR)).

(** The terminal is busy for some readings of its status, and then done. *)
Inductive replies : nat -> T -> T -> Prop :=
| replies_done t t' v : mmio_load status_reg t = (v, t') -> Z.land v STATUSMASK = TRANSMITTED ->
    replies 1 t t'
| replies_busy n t t1 t' v : mmio_load status_reg t = (v, t1) -> Z.land v STATUSMASK = BUSY ->
    replies n t1 t' -> replies (S n) t t'.

(** [sent s t]: the terminal can take a character and has transmitted [s].
    The program does not acknowledge, so the answer to a command leaves the
    terminal able to take the next one. *)
Class Accepting (fuel : nat) (sent : cstring -> T -> Prop) : Prop := {
  accepts s t : sent s t -> ∃ v t', mmio_load status_reg t = (v, t') ∧
    (Z.land v STATUSMASK = READY \/ Z.land v STATUSMASK = TRANSMITTED) ∧ sent s t';
  transmits s c t : sent s t -> ∃ n t', (n <= fuel)%nat ∧
    replies n (transmit_char c t) t' ∧ sent (s ++ [c]) t'
}.

Context (fuel : nat) (sent : cstring -> T -> Prop) {Acc : Accepting fuel sent}.
Context (Hbusy : BUSY ≠ TRANSMITTED).

Lemma termstat_run t v t' : mmio_load status_reg t = (v, t') ->
  termstat status_reg t = Ok (Z.land v STATUSMASK) t'.
Proof. unfold termstat. by intros ->. Qed.

Lemma busy_wait_replies n t t' : replies n t t' -> ∀ fuel, (n <= fuel)%nat ->
  busy_wait fuel status_reg t = Ok TRANSMITTED t'.
Proof using Hbusy.
  induction 1 as [t t' v Hr Hv|n t t1 t' v Hr Hv _ IH]; intros [|f] Hf; try lia;
    cbn [busy_wait]; step_with (termstat_run _ _ _ Hr); rewrite Hv.
  - by destruct (Z.eqb_spec TRANSMITTED BUSY).
  - rewrite Z.eqb_refl. apply IH. lia.
Qed.

Lemma print_cycle_sends str : ∀ s t, sent s t -> clean str = true ->
  ∃ t', print_cycle fuel status_reg command_reg str t = Ok true t' ∧ sent (s ++ str) t'.
Proof using Hbusy Acc.
  induction str as [|c str IH]; intros s t Hs Hc.
  { exists t. by rewrite app_nil_r. }
  apply clean_cons in Hc as [Hc Hstr]. cbn [print_cycle]. rewrite decide_False by done.
  destruct (transmits s c t Hs) as (n & t1 & Hn & Hrep & Hs1).
  rewrite bind_modify. step_with (busy_wait_replies _ _ _ Hrep fuel Hn).
  rewrite Z.eqb_refl. cbn [negb]. destruct (IH (s ++ [c]) t1 Hs1 Hstr) as (t2 & Hrun & Hs2).
  exists t2. by rewrite <-app_assoc in Hs2.
Qed.

(** [termprint] on the first terminal returns TRUE and transmits its string. *)
Lemma termprint_sends str s t : sent s t -> clean str = true ->
  ∃ t', termprint fuel str 0 t = Ok true t' ∧ sent (s ++ str) t'.
Proof using Hbusy Acc.
  intros Hs Hc. unfold termprint. change (0 <? DEVPERINT) with true. cbv iota zeta.
  fold status_reg command_reg.
  destruct (accepts s t Hs) as (v & t1 & Hr & Hv & Hs1). step_with (termstat_run _ _ _ Hr).
  assert ((Z.land v STATUSMASK =? READY) || (Z.land v STATUSMASK =? TRANSMITTED) = true) as ->.
  { apply orb_true_iff. by rewrite !Z.eqb_eq. }
  by apply print_cycle_sends.
Qed.
End terminals.

(** ** The buffers *)

Lemma poke_Some i c buf b : poke i c buf = Some b ->
  0 <= i < len_of buf ∧ b = <[Z.to_nat i := c]> buf.
Proof.
  unfold poke. destruct (Z.leb_spec 0 i), (Z.ltb_spec i (len_of buf)); simpl; try done.
  by intros [= <-].
Qed.

Lemma copy_spec s : ∀ buf i b, 0 <= i -> copy buf i s = Some b ->
  take (Z.to_nat (i + len_of s)) b = take (Z.to_nat i) buf ++ s.
Proof.
  induction s as [|c s IH]; intros buf i b Hi; cbn [copy].
  - intros [_ ->]%poke_Some. unfold len_of. simpl. rewrite Z.add_0_r, app_nil_r.
    by rewrite take_insert_ge by lia.
  - destruct (poke i c buf) as [buf'|] eqn:Hp; [|done]. cbn [mbind option_bind].
    apply poke_Some in Hp as [Hr ->]. intros Hb%IH; [|lia].
    replace (i + len_of (c :: s)) with (i + 1 + len_of s) by (unfold len_of; simpl; lia).
    rewrite Hb. replace (Z.to_nat (i + 1)) with (S (Z.to_nat i)) by lia.
    rewrite (take_S_r _ _ c) by (apply list_lookup_insert_eq; unfold len_of in *; lia).
    by rewrite take_insert_ge, <-app_assoc by lia.
Qed.

(** ** The reference machine *)

Definition ref_env : P1Env :=
  {| DEVREGSIZE := 0x10; DEVREGLEN := 4; TRANSTATUS := 2; TRANCOMMAND := 3; READY := 1; BUSY := 3;
     sem_base := 0x20010000; onesem := 0x20010100 |}.

(** A terminal that has always transmitted. *)
Definition ref_terminal : Mmio unit :=
  {| mmio_load _ t := (TRANSMITTED, t); mmio_store _ _ t := t |}.

(** The program as it starts. *)
Definition start {T} (k : kernel) (t : T) : p1 T :=
  P1 k t (repeat NUL OKBUF_SIZE) 0 (repeat NUL ERRBUF_SIZE) (repeat None MAXPROC) None None None None None.

Definition ref_main : res (p1 unit) p1_exit Z :=
  main (U := umps3) (Env := ref_env) (Dev := ref_terminal) 1 (start boot0 tt).

(** ** The program on another machine *)

(** What the addresses are: [sem] and [onesem] are apart and word aligned. *)
Record env_ok `{P1Env} : Prop := {
  env_sem : 0 < sem_base ∧ sem_base mod 4 = 0 ∧ sem_base + 4 * Z.of_nat MAXPROC <= 2 ^ 32;
  env_onesem : 0 < onesem < 2 ^ 32 ∧ onesem mod 4 = 0 ∧ ∀ i, (i < MAXPROC)%nat -> sem i ≠ onesem;
  env_busy : BUSY ≠ TRANSMITTED
}.

(** NULL, the addresses of [sem], the address of [onesem]. *)
Definition addresses `{P1Env} (n : nat) : Z :=
  match n with
  | O => 0
  | S i => if decide (i < MAXPROC)%nat then sem i else onesem
  end.
Definition n_addresses : nat := 22.

Lemma addresses_naming `{P1Env} : env_ok -> naming n_addresses addresses.
Proof.
  intros [(Hs & Hs4 & Hs32) (Ho & Ho4 & Hne) _]. split; [done| |].
  - intros [|i] Hn; [done|]. cbn [addresses]. unfold sem, MAXPROC, n_addresses in *.
    case_decide; [|lia]. split; [lia|]. rewrite (Z.mul_comm 4), Z.mod_add; lia.
  - unfold n_addresses. intros [|i] [|j] Hi Hj E; cbn [addresses] in E; [done|..];
      repeat case_decide; try (unfold sem, MAXPROC in *; lia).
    + by destruct (Hne i).
    + by destruct (Hne j).
Qed.

Lemma ref_naming : naming n_addresses (addresses (H := ref_env)).
Proof.
  apply addresses_naming. split; [done| |done]. split_and!; [done..|].
  intros i Hi. unfold sem, MAXPROC in *. cbn. lia.
Qed.

Section program.
Context {U : Umps} {Env : P1Env} {T : Type} {Dev : Mmio T}.
Context (fuel : nat) (sent : cstring -> T -> Prop) {Acc : Accepting fuel sent} (Henv : env_ok).

Let N1 := addresses_naming Henv.
Let N2 := ref_naming.
Abbreviation addr_rel := (arel addresses (addresses (H := ref_env)) n_addresses).
Abbreviation kernel_rel := (krel addresses (addresses (H := ref_env)) n_addresses).

Lemma sem_rel i : (i < MAXPROC)%nat -> addr_rel (sem i) (sem (H := ref_env) i).
Proof.
  intros Hi. exists (S i). split; [unfold n_addresses, MAXPROC in *; lia|].
  cbn [addresses]. by destruct (decide (i < MAXPROC)%nat).
Qed.
Lemma onesem_rel : addr_rel onesem (onesem (P1Env := ref_env)).
Proof. exists 21%nat. split; [unfold n_addresses; lia|done]. Qed.

(** What the terminal has transmitted is what [okbuf] holds. *)
Record p1rel (r1 : p1 T) (r2 : p1 unit) : Prop := {
  r_nucleus : kernel_rel (nucleus r1) (nucleus r2);
  r_okbuf : okbuf r1 = okbuf r2;
  r_mp : mp r1 = mp r2;
  r_mp_pos : 0 <= mp r2;
  r_errbuf : errbuf r1 = errbuf r2;
  r_procp : procp r1 = procp r2;
  r_p : p_ r1 = p_ r2;
  r_q : q_ r1 = q_ r2;
  r_first : firstproc r1 = firstproc r2;
  r_last : lastproc r1 = lastproc r2;
  r_mid : midproc r1 = midproc r2;
  r_sent : sent (take (Z.to_nat (mp r1)) (okbuf r1)) (device r1)
}.

Lemma sim_call {A1 A2} (V : A1 -> A2 -> Prop) m1 m2 :
  sim kernel_rel V m1 m2 -> sim p1rel V (call m1) (call m2).
Proof.
  intros Hm r1 r2 HR. unfold call. specialize (Hm _ _ (r_nucleus _ _ HR)).
  destruct (m2 (nucleus r2)) as [a2 k2| | |]; try done.
  destruct Hm as (a1 & k1 & -> & HV & HK). exists a1, (set_nucleus k1 r1).
  split_and!; [done..|]. by destruct HR.
Qed.

Lemma sim_set (f : forall T', p1 T' -> p1 T') :
  (∀ r1 r2, p1rel r1 r2 -> p1rel (f T r1) (f unit r2)) -> sim p1rel eq (E1 := p1_exit) (E2 := p1_exit)
    (modify (f T)) (modify (f unit)).
Proof. apply sim_modify. Qed.

Lemma sim_get_procp i : sim p1rel eq (get_procp i) (get_procp i).
Proof.
  unfold get_procp. eapply sim_bind; [apply sim_get|]. intros r1 r2 HR.
  apply sim_ok_or. by rewrite (r_procp _ _ HR).
Qed.

Lemma sim_put_procp i v : sim p1rel eq (put_procp i v) (put_procp i v).
Proof.
  unfold put_procp. eapply sim_bind; [apply sim_get_procp|]. intros _ _ _. apply sim_modify.
  intros r1 r2 []. split; simpl; congruence.
Qed.

Lemma sim_fail_if b msg : sim p1rel eq (fail_if fuel b msg)
  (fail_if (Env := ref_env) (Dev := ref_terminal) 1 b msg).
Proof.
  unfold fail_if. destruct b; [|by apply sim_ret]. intros r1 r2 _. unfold adderrbuf.
  unfold bind, get, ok_or, modify, fault, ret, exit. destruct (copy (errbuf r2) 0 (lit msg)); [|done].
  by destruct (on_device _ _) as [|e| |].
Qed.

Lemma sim_addokbuf s : clean s = true -> sim p1rel eq (addokbuf fuel s)
  (addokbuf (Env := ref_env) (Dev := ref_terminal) 1 s).
Proof using Henv Acc.
  intros Hc r1 r2 HR. unfold addokbuf. rewrite !(bind_ok get _ _ _ _ eq_refl).
  rewrite (r_okbuf _ _ HR), (r_mp _ _ HR).
  destruct (copy (okbuf r2) (mp r2) s) as [b|] eqn:Hcopy; [|done].
  cbn [ok_or]. rewrite !bind_ret_l, !bind_modify. unfold bind, on_device, zoom.
  destruct HR as [H1 H2 H3 H4 H5 H6 H7 H8 H9 H10 H11 Hs]. cbn [device set_device set_mp set_okbuf].
  destruct (termprint (Env := ref_env) _ _ _ _) as [v t2|[]| |]; [|done..].
  destruct (termprint_sends fuel sent (env_busy Henv) s _ _ Hs Hc) as (t1 & -> & Hs').
  eexists tt, _. split_and!; [done..|]. rewrite H3, H2 in Hs'.
  rewrite <- (copy_spec _ _ _ _ H4 Hcopy) in Hs'.
  split; simpl; try done; [congruence| unfold len_of; lia|].
  by replace (mp r1 + len_of s + 1 - 1) with (mp r2 + len_of s) by lia.
Qed.

Lemma sim_okbuf_line s : clean (lit s ++ ["010"%char]) = true ->
  sim p1rel eq (okbuf_line fuel s) (okbuf_line (Env := ref_env) (Dev := ref_terminal) 1 s).
Proof using Henv Acc. apply sim_addokbuf. Qed.

Lemma sim_assign_q m1 m2 : sim kernel_rel eq m1 m2 -> sim p1rel eq (assign_q m1) (assign_q m2).
Proof.
  intros Hm. unfold assign_q. eapply sim_bind; [by apply sim_call|]. intros v _ <-.
  eapply sim_bind; [apply sim_modify|intros _ _ _; by apply sim_ret].
  intros r1 r2 []. split; done.
Qed.
Lemma sim_assign_p m1 m2 : sim kernel_rel eq m1 m2 -> sim p1rel eq (assign_p m1) (assign_p m2).
Proof.
  intros Hm. unfold assign_p. eapply sim_bind; [by apply sim_call|]. intros v _ <-.
  eapply sim_bind; [apply sim_modify|intros _ _ _; by apply sim_ret].
  intros r1 r2 []. split; done.
Qed.

Lemma sim_declare_qa : sim kernel_rel eq declare_qa declare_qa.
Proof. apply sim_modify. intros k1 k2 [H ? ?]. split; [|done|done]. simpl. by rewrite H. Qed.

Ltac kernel_op :=
  first
    [ apply sim_init_pcbs | eapply sim_alloc_pcb | apply sim_free_pcb | apply sim_declare_qa
    | apply sim_empty_proc_q | apply sim_insert_proc_q | apply sim_head_proc_q | apply sim_out_proc_q
    | apply sim_remove_proc_q | apply sim_empty_child | apply sim_insert_child | apply sim_out_child
    | apply sim_remove_child | apply sim_init_asl | eapply sim_insert_blocked | eapply sim_out_blocked
    | eapply sim_head_blocked | eapply sim_remove_blocked ];
  first [ exact N1 | exact N2 | apply onesem_rel | apply sem_rel; unfold MAXPROC; lia
        | unfold n_addresses; lia ].

Ltac p1_step :=
  first
    [ apply sim_okbuf_line; reflexivity
    | apply sim_call; kernel_op
    | apply sim_assign_q; kernel_op
    | apply sim_assign_p; kernel_op
    | apply sim_get_procp | apply sim_put_procp | apply sim_fail_if
    | apply sim_for; intros ? ?
    | apply sim_gets; intros ? ? []; assumption
    | apply sim_modify; intros ? ? []; split; done
    | apply (sim_bind _ eq)
    | match goal with |- sim _ _ (match ?x with _ => _ end) (match ?x with _ => _ end) => destruct x end
    | by apply sim_ret
    | match goal with |- forall _ _, ?V _ _ -> sim _ _ _ _ => intros ? ? ?; try subst end ].

Lemma sim_test_alloc : sim p1rel eq (test_alloc fuel) (test_alloc (U := umps3) (Env := ref_env) (Dev := ref_terminal) 1).
Proof using Henv Acc. unfold test_alloc. repeat p1_step. Qed.
Lemma sim_test_insert_queue : sim p1rel eq (test_insert_queue fuel)
  (test_insert_queue (U := umps3) (Env := ref_env) (Dev := ref_terminal) 1).
Proof using Henv Acc. unfold test_insert_queue. repeat p1_step. Qed.
Lemma sim_test_out_queue : sim p1rel eq (test_out_queue fuel)
  (test_out_queue (Env := ref_env) (Dev := ref_terminal) 1).
Proof using Henv Acc. unfold test_out_queue. repeat p1_step. Qed.
Lemma sim_test_remove_queue : sim p1rel eq (test_remove_queue fuel)
  (test_remove_queue (Env := ref_env) (Dev := ref_terminal) 1).
Proof using Henv Acc. unfold test_remove_queue. repeat p1_step. Qed.
Lemma sim_test_trees : sim p1rel eq (test_trees fuel) (test_trees (Env := ref_env) (Dev := ref_terminal) 1).
Proof using Henv Acc. unfold test_trees. repeat p1_step. Qed.
Lemma sim_test_insert_blocked : sim p1rel eq (test_insert_blocked fuel)
  (test_insert_blocked (U := umps3) (Env := ref_env) (Dev := ref_terminal) 1).
Proof using Henv Acc. unfold test_insert_blocked. repeat p1_step. Qed.
Lemma sim_test_remove_blocked : sim p1rel eq (test_remove_blocked fuel)
  (test_remove_blocked (Env := ref_env) (Dev := ref_terminal) 1).
Proof using Henv Acc. unfold test_remove_blocked. repeat p1_step. Qed.
Lemma sim_test_out_blocked : sim p1rel eq (test_out_blocked fuel)
  (test_out_blocked (Env := ref_env) (Dev := ref_terminal) 1).
Proof using Henv Acc. unfold test_out_blocked. repeat p1_step. Qed.

Lemma sim_main : sim p1rel eq (main fuel) (main (U := umps3) (Env := ref_env) (Dev := ref_terminal) 1).
Proof using Henv Acc.
  unfold main.
  repeat first
    [ apply sim_test_alloc | apply sim_test_insert_queue | apply sim_test_out_queue
    | apply sim_test_remove_queue | apply sim_test_trees | apply sim_test_insert_blocked
    | apply sim_test_remove_blocked | apply sim_test_out_blocked | p1_step ].
Qed.

(** Memory as the program starts: the variables of [pcb.c] and [asl.c] are 0. *)
Definition zeroed (k : kernel) : Prop :=
  links k = boot_links ∧
  length (pcb_table k) = MAX_PROC ∧ Forall (fun c => p_parent c = None ∧ p_sem_add c = 0) (pcb_table k) ∧
  length (semd_table k) = MAX_PROC ∧ Forall (fun d => s_key d = 0) (semd_table k).

Lemma Forall2_replicate {A B} (P : A -> B -> Prop) (Q : A -> Prop) b l n :
  (∀ a, Q a -> P a b) -> length l = n -> Forall Q l -> Forall2 P l (replicate n b).
Proof using.
  intros HP <- HQ. induction HQ as [|a l Ha _ IH]; [constructor|]. cbn [length replicate]. auto.
Qed.

Lemma start_rel k t : zeroed k -> sent [] t -> p1rel (start k t) (start boot0 tt).
Proof using Henv.
  intros (Hl & Hp & Hps & Hs & Hss) Ht.
  assert (addr_rel 0 0) as H0 by (eapply arel_null; [exact N1|exact N2|unfold n_addresses; lia]).
  split; try done. split; [done| |]; cbn [pcb_table semd_table boot0 nucleus start].
  - eapply Forall2_replicate; [|exact Hp|exact Hps]. intros c [Hc Hz]. split; [done|by rewrite Hz].
  - eapply Forall2_replicate; [|exact Hs|exact Hss]. by intros d ->.
Qed.
End program.

(** ** The progress messages *)

Definition progress : list string :=
  [ "Initialized process control blocks   "; "alloc_pcb ok   "; "freed 10 entries   ";
    "Inserting...   "; "inserted 10 elements   "; "out_proc_q ok   "; "Removing...   ";
    "insert_proc_q, remove_proc_q and empty_proc_q ok   "; "process queues module ok      ";
    "checking process trees..."; "Inserting...   "; "Inserted 9 children   "; "out_child ok   ";
    "Removing...   "; "insert_child, remove_child and empty_child ok   ";
    "process tree module ok      "; "Initialized active semaphore list   ";
    "insert_blocked test #1 started  "; "insert_blocked test #2 started  ";
    "remove_blocked test started   "; "insert_blocked and remove_blocked ok   ";
    "head_blocked and outBlocked ok   "; "ASL module ok   "; "So Long and Thanks for All the Fish" ]%string.

Definition transcript : cstring := mjoin ((fun s => lit s ++ ["010"%char]) <$> progress).

(** The run on the reference machine. *)
Definition succeeded (out : res (p1 unit) p1_exit Z) : bool :=
  match out with
  | Ok v r =>
      bool_decide (v = 0) && bool_decide (mp r = len_of transcript) &&
      bool_decide (take (length transcript) (okbuf r) = transcript) &&
      bool_decide (errbuf r = repeat NUL ERRBUF_SIZE)
  | _ => false
  end.

Lemma ref_run : succeeded ref_main = true.
Proof. vm_compute. reflexivity. Qed.

Section theorems.
Context {U : Umps} {Env : P1Env} {T : Type} {Dev : Mmio T}.

(** C28: the phase 1 test succeeds on every machine: whatever the addresses of
    its semaphores and of the device registers and however long the terminal
    takes to answer, [main] returns 0 without calling [adderrbuf], its progress
    messages are in [okbuf] and the terminal has transmitted exactly them.  So
    the queues, the tree and the list of active semaphores pass every check,
    the writes to [okbuf] stay inside it, and no loop runs for
    ever. *)
Theorem p1test_succeeds fuel sent k t :
  env_ok -> Accepting fuel sent -> zeroed k -> sent [] t ->
  ∃ r, main fuel (start k t) = Ok 0 r ∧
    mp r = len_of transcript ∧ take (length transcript) (okbuf r) = transcript ∧
    errbuf r = repeat NUL ERRBUF_SIZE ∧ sent transcript (device r).
Proof.
  intros Henv Acc Hk Ht.
  pose proof (sim_main fuel sent Henv _ _ (start_rel sent Henv k t Hk Ht)) as Hs.
  pose proof ref_run as Hr. unfold ref_main in Hr. destruct (main 1 _) as [v r2| | |]; try done.
  destruct Hs as (v1 & r1 & Hrun & -> & HR). cbn [succeeded] in Hr.
  rewrite !andb_true_iff, !bool_decide_eq_true in Hr. destruct Hr as [[[-> Hmp] Hok] Herr].
  destruct HR as [_ Ho Hm _ He _ _ _ _ _ _ Hs]. exists r1.
  rewrite Hm, Hmp, Ho in Hs. unfold len_of in Hs. rewrite Nat2Z.id, Hok in Hs.
  split_and!; congruence || done.
Qed.
End theorems.

(** ** An instance *)

#[local] Instance U3 : Umps := umps3.
#[local] Instance env3 : P1Env := ref_env.

(** The terminal of [Targets], busy for three readings after every command. *)
#[local] Instance sim_mmio : Mmio sim_terminal := {
  mmio_load a t := read_transm_status a t;
  mmio_store a v t := write_transm_command a v t
}.

Definition sim_ready (s : cstring) (t : sim_terminal) : Prop :=
  busy t = O ∧ (Targets.status t = ST_READY \/ Targets.status t = ST_TRANSMITTED) ∧ shown t = s.

#[local] Instance sim_accepting : Accepting 4 sim_ready.
Proof.
  constructor.
  - intros s t (Hb & Hst & Hs). exists (Targets.status t), t. simpl. rewrite Hb.
    split_and!; [done | by destruct Hst as [-> | ->]; [left|right] | done].
  - intros s c t (Hb & Hst & Hs).
    assert (Z.land (u32 (Z.lor (Z.shiftl (schar c) CHAROFFSET) PRINTCHR)) 0xFF =? CMD_TRANSMIT = true
      ∧ chr (Z.shiftr (u32 (Z.lor (Z.shiftl (schar c) CHAROFFSET) PRINTCHR)) 8) = c) as [Hcmd Hchr].
    { by destruct c as [[] [] [] [] [] [] [] []]. }
    exists 4%nat. eexists. split; [lia|].
    unfold transmit_char. cbn [mmio_store sim_mmio write_transm_command sim_terminal_device].
    rewrite Hcmd, Hchr. split.
    + do 3 (eapply replies_busy; [done | done|]). by eapply replies_done.
    + split_and!; [done | by right | by rewrite <-Hs].
Qed.

Definition idle_terminal : sim_terminal := {| busy := O; Targets.status := ST_READY; shown := [] |}.

Lemma p1test_succeeds_witness :
  ∃ r, main 4 (start boot0 idle_terminal) = Ok 0 r ∧ shown (device r) = transcript.
Proof.
  destruct (p1test_succeeds 4 sim_ready boot0 idle_terminal) as (r & Hrun & _ & _ & _ & _ & _ & Hs).
  - split; [vm_compute; intuition discriminate| |discriminate].
    split_and!; [done..|]. intros i Hi. unfold sem, MAXPROC in *. cbn. lia.
  - apply sim_accepting.
  - split_and!; try done; by apply Forall_replicate.
  - split_and!; [done | by left | done].
  - exists r. exact (conj Hrun Hs).
Defined.

(** ** What one of the checks does not check

    The message "inserted more than MAXPROC" is about the pool of semaphore
    descriptors, but the process that is inserted, [procp[9]], is already
    blocked on [sem[9]]: [insert_blocked] refuses it for that reason, before it
    looks for a descriptor. *)
Lemma insert_blocked_twice `{Umps} a i c k :
  a ≠ 0 -> pcb_table k !! i = Some c -> p_sem_add c ≠ 0 -> insert_blocked a (Some i) k = Ok 3 k.
Proof.
  intros Ha Hc Hz. unfold insert_blocked. rewrite (proj2 (Z.eqb_neq _ _) Ha).
  step_with (pcb_at_ok _ _ _ Hc). by rewrite (proj2 (Z.eqb_neq _ _) Hz).
Qed.

Definition before_overfull : res (p1 unit) p1_exit (Z * bool) :=
  (test_alloc (Dev := ref_terminal) 1 ;; test_insert_queue (Dev := ref_terminal) 1 ;;
   test_out_queue (Dev := ref_terminal) 1 ;; test_remove_queue (Dev := ref_terminal) 1 ;;
   test_trees (Dev := ref_terminal) 1 ;; test_insert_blocked (Dev := ref_terminal) 1 ;;
   p9 <- get_procp 9 ;;
   n <- call (insert_blocked onesem p9) ;;
   e <- call (on_links (list_empty L_semd_free)) ;;
   ret (n, e)) (start boot0 tt).

Example overfull_is_refused_as_blocked :
  match before_overfull with Ok v _ => v = (3, true) | _ => False end.
Proof. vm_compute. reflexivity. Qed.
