(* ===== verification/SupportLevel.v ===== *)
(** * The support level

    The state that the phase 3 sources share - the static variables of
    [phase3/src/pager.c], [support.c] and [test.c], the Support Structures and
    the processor registers they use - and what they call: the nucleus
    ([SYSCALL]) and the TLB instructions, which are the classes [Nucleus] and
    [Tlb].  The code of a U-proc's support level runs as that U-proc; the
    system calls are the points at which other processes run. *)

From Stdlib Require Import ZArith Lia String.
From stdpp Require Import base tactics option numbers strings gmap list vector.
From S2P Require Import Prelude ListHead Machine Kernel.

Open Scope Z_scope.

(** ** os/include/os/const.h and phase3/include/test/tconst.h *)

Definition KUSEG : Z := 0x80000000.
Definition DIRTYON : Z := 0x400.
Definition VALIDON : Z := 0x200.
Definition GETPAGENO : Z := 0x3FFFF000.
Definition VPNSHIFT : Z := 12.
Definition ASIDSHIFT : Z := 6.
Definition PRESENTFLAG : Z := 0x80000000.
Definition FLASHREAD : Z := 2.
Definition FLASHWRITE : Z := 3.
Definition UPROCSTARTADDR : Z := 0x800000B0.
Definition USERSTACKTOP : Z := 0xC0000000.
Definition MAXPAGES : nat := 32.
Definition UPROCMAX : nat := 8.
Definition POOLSIZE : nat := UPROCMAX * 2.
Definition GET_TOD : Z := 1.
Definition TERMINATE : Z := 2.
Definition WRITEPRINTER : Z := 3.
Definition WRITETERMINAL : Z := 4.
Definition READTERMINAL : Z := 5.

(** A [pte_entry_t *]: the Support Structure whose table it points into, and
    the index there. *)
Definition pte_ptr : Type := nat * nat.

(** [swap_t] *)
Record swap_t : Type := Swap {
  sw_asid : Z;
  sw_page_no : Z;
  sw_pte : option pte_ptr
}.

(** The [list_head] objects of [test.c]. *)
Inductive slh : Type :=
| L_support (i : nat)     (* &support_table[i].p_list *)
| L_support_free.         (* &support_free *)

#[export] Instance slh_eq_dec : EqDecision slh.
Proof. solve_decision. Defined.

#[export] Instance slh_countable : Countable slh.
Proof.
  refine (inj_countable' (fun x => match x with L_support i => S i | L_support_free => O end)
    (fun n => match n with S i => L_support i | O => L_support_free end) _).
  by intros [].
Defined.

(** How the code of the support level ends. *)
Inductive sup_exit : Type :=
| Resumed (s : state_t)      (* LDST *)
| PassedUp (code : Z)        (* the nucleus hands its own call up *)
| Terminated                 (* TERMPROCESS *)
| Stopped.                   (* PANIC *)

Record sup (W : Type) : Type := Sup {
  swap_pool_addr : Z;              (* pager.c *)
  swap_pool_batons : list bool;
  swap_pool_table : list swap_t;
  last_frame : Z;                  (* the static [i] of pick_page *)
  support_table : list support_t;  (* test.c *)
  support_links : gmap slh (list_head slh);
  current : option nat;            (* the Support Structure of the running process *)
  active_p_s : state_t;            (* active_process->p_s *)
  pstate : state_t;                (* [pstate] of [test] *)
  words : gmap Z Z;                (* words of memory, device registers, semaphores *)
  chars : gmap Z Z;                (* bytes of the running process' memory *)
  sup_status : Z;                  (* CP0 STATUS, ENTRYHI, ENTRYLO and INDEX *)
  reg_entry_hi : Z;
  reg_entry_lo : Z;
  reg_index : Z;
  clock_reads : nat;
  calls : list (Z * Z * Z * Z);    (* system calls made, latest first *)
  slog : list (string * list Z);   (* messages, latest first *)
  world : W                        (* the nucleus and the devices *)
}.

Arguments Sup {W}.
Arguments swap_pool_addr {W} _.
Arguments swap_pool_batons {W} _.
Arguments swap_pool_table {W} _.
Arguments last_frame {W} _.
Arguments support_table {W} _.
Arguments support_links {W} _.
Arguments current {W} _.
Arguments active_p_s {W} _.
Arguments pstate {W} _.
Arguments words {W} _.
Arguments chars {W} _.
Arguments sup_status {W} _.
Arguments reg_entry_hi {W} _.
Arguments reg_entry_lo {W} _.
Arguments reg_index {W} _.
Arguments clock_reads {W} _.
Arguments calls {W} _.
Arguments slog {W} _.
Arguments world {W} _.

Section setters.
Context {W : Type}.

Definition set_swap_pool_addr (v : Z) (r : sup W) : sup W :=
  Sup v (swap_pool_batons r) (swap_pool_table r) (last_frame r) (support_table r)
    (support_links r) (current r) (active_p_s r) (pstate r) (words r) (chars r) (sup_status
    r) (reg_entry_hi r) (reg_entry_lo r) (reg_index r) (clock_reads r) (calls r) (slog r)
    (world r).
Definition set_swap_pool_batons (v : list bool) (r : sup W) : sup W :=
  Sup (swap_pool_addr r) v (swap_pool_table r) (last_frame r) (support_table r)
    (support_links r) (current r) (active_p_s r) (pstate r) (words r) (chars r) (sup_status
    r) (reg_entry_hi r) (reg_entry_lo r) (reg_index r) (clock_reads r) (calls r) (slog r)
    (world r).
Definition set_swap_pool_table (v : list swap_t) (r : sup W) : sup W :=
  Sup (swap_pool_addr r) (swap_pool_batons r) v (last_frame r) (support_table r)
    (support_links r) (current r) (active_p_s r) (pstate r) (words r) (chars r) (sup_status
    r) (reg_entry_hi r) (reg_entry_lo r) (reg_index r) (clock_reads r) (calls r) (slog r)
    (world r).
Definition set_last_frame (v : Z) (r : sup W) : sup W :=
  Sup (swap_pool_addr r) (swap_pool_batons r) (swap_pool_table r) v (support_table r)
    (support_links r) (current r) (active_p_s r) (pstate r) (words r) (chars r) (sup_status
    r) (reg_entry_hi r) (reg_entry_lo r) (reg_index r) (clock_reads r) (calls r) (slog r)
    (world r).
Definition set_support_table (v : list support_t) (r : sup W) : sup W :=
  Sup (swap_pool_addr r) (swap_pool_batons r) (swap_pool_table r) (last_frame r) v
    (support_links r) (current r) (active_p_s r) (pstate r) (words r) (chars r) (sup_status
    r) (reg_entry_hi r) (reg_entry_lo r) (reg_index r) (clock_reads r) (calls r) (slog r)
    (world r).
Definition set_support_links (v : gmap slh (list_head slh)) (r : sup W) : sup W :=
  Sup (swap_pool_addr r) (swap_pool_batons r) (swap_pool_table r) (last_frame r)
    (support_table r) v (current r) (active_p_s r) (pstate r) (words r) (chars r)
    (sup_status r) (reg_entry_hi r) (reg_entry_lo r) (reg_index r) (clock_reads r) (calls r)
    (slog r) (world r).
Definition set_current (v : option nat) (r : sup W) : sup W :=
  Sup (swap_pool_addr r) (swap_pool_batons r) (swap_pool_table r) (last_frame r)
    (support_table r) (support_links r) v (active_p_s r) (pstate r) (words r) (chars r)
    (sup_status r) (reg_entry_hi r) (reg_entry_lo r) (reg_index r) (clock_reads r) (calls r)
    (slog r) (world r).
Definition set_active_p_s (v : state_t) (r : sup W) : sup W :=
  Sup (swap_pool_addr r) (swap_pool_batons r) (swap_pool_table r) (last_frame r)
    (support_table r) (support_links r) (current r) v (pstate r) (words r) (chars r)
    (sup_status r) (reg_entry_hi r) (reg_entry_lo r) (reg_index r) (clock_reads r) (calls r)
    (slog r) (world r).
Definition set_pstate (v : state_t) (r : sup W) : sup W :=
  Sup (swap_pool_addr r) (swap_pool_batons r) (swap_pool_table r) (last_frame r)
    (support_table r) (support_links r) (current r) (active_p_s r) v (words r) (chars r)
    (sup_status r) (reg_entry_hi r) (reg_entry_lo r) (reg_index r) (clock_reads r) (calls r)
    (slog r) (world r).
Definition set_words (v : gmap Z Z) (r : sup W) : sup W :=
  Sup (swap_pool_addr r) (swap_pool_batons r) (swap_pool_table r) (last_frame r)
    (support_table r) (support_links r) (current r) (active_p_s r) (pstate r) v (chars r)
    (sup_status r) (reg_entry_hi r) (reg_entry_lo r) (reg_index r) (clock_reads r) (calls r)
    (slog r) (world r).
Definition set_chars (v : gmap Z Z) (r : sup W) : sup W :=
  Sup (swap_pool_addr r) (swap_pool_batons r) (swap_pool_table r) (last_frame r)
    (support_table r) (support_links r) (current r) (active_p_s r) (pstate r) (words r) v
    (sup_status r) (reg_entry_hi r) (reg_entry_lo r) (reg_index r) (clock_reads r) (calls r)
    (slog r) (world r).
Definition set_sup_status (v : Z) (r : sup W) : sup W :=
  Sup (swap_pool_addr r) (swap_pool_batons r) (swap_pool_table r) (last_frame r)
    (support_table r) (support_links r) (current r) (active_p_s r) (pstate r) (words r)
    (chars r) v (reg_entry_hi r) (reg_entry_lo r) (reg_index r) (clock_reads r) (calls r)
    (slog r) (world r).
Definition set_reg_entry_hi (v : Z) (r : sup W) : sup W :=
  Sup (swap_pool_addr r) (swap_pool_batons r) (swap_pool_table r) (last_frame r)
    (support_table r) (support_links r) (current r) (active_p_s r) (pstate r) (words r)
    (chars r) (sup_status r) v (reg_entry_lo r) (reg_index r) (clock_reads r) (calls r)
    (slog r) (world r).
Definition set_reg_entry_lo (v : Z) (r : sup W) : sup W :=
  Sup (swap_pool_addr r) (swap_pool_batons r) (swap_pool_table r) (last_frame r)
    (support_table r) (support_links r) (current r) (active_p_s r) (pstate r) (words r)
    (chars r) (sup_status r) (reg_entry_hi r) v (reg_index r) (clock_reads r) (calls r)
    (slog r) (world r).
Definition set_reg_index (v : Z) (r : sup W) : sup W :=
  Sup (swap_pool_addr r) (swap_pool_batons r) (swap_pool_table r) (last_frame r)
    (support_table r) (support_links r) (current r) (active_p_s r) (pstate r) (words r)
    (chars r) (sup_status r) (reg_entry_hi r) (reg_entry_lo r) v (clock_reads r) (calls r)
    (slog r) (world r).
Definition set_clock_reads (v : nat) (r : sup W) : sup W :=
  Sup (swap_pool_addr r) (swap_pool_batons r) (swap_pool_table r) (last_frame r)
    (support_table r) (support_links r) (current r) (active_p_s r) (pstate r) (words r)
    (chars r) (sup_status r) (reg_entry_hi r) (reg_entry_lo r) (reg_index r) v (calls r)
    (slog r) (world r).
Definition set_calls (v : list (Z * Z * Z * Z)) (r : sup W) : sup W :=
  Sup (swap_pool_addr r) (swap_pool_batons r) (swap_pool_table r) (last_frame r)
    (support_table r) (support_links r) (current r) (active_p_s r) (pstate r) (words r)
    (chars r) (sup_status r) (reg_entry_hi r) (reg_entry_lo r) (reg_index r) (clock_reads r)
    v (slog r) (world r).
Definition set_slog (v : list (string * list Z)) (r : sup W) : sup W :=
  Sup (swap_pool_addr r) (swap_pool_batons r) (swap_pool_table r) (last_frame r)
    (support_table r) (support_links r) (current r) (active_p_s r) (pstate r) (words r)
    (chars r) (sup_status r) (reg_entry_hi r) (reg_entry_lo r) (reg_index r) (clock_reads r)
    (calls r) v (world r).
Definition set_world (v : W) (r : sup W) : sup W :=
  Sup (swap_pool_addr r) (swap_pool_batons r) (swap_pool_table r) (last_frame r)
    (support_table r) (support_links r) (current r) (active_p_s r) (pstate r) (words r)
    (chars r) (sup_status r) (reg_entry_hi r) (reg_entry_lo r) (reg_index r) (clock_reads r)
    (calls r) (slog r) v.
End setters.

(** ** What the support level calls *)

(** Addresses the linker chooses, and the layout of [dtpreg_t] and
    [termreg_t] in the uMPS3 headers. *)
Class Layout := {
  FLASHINT : Z;
  dtp_command : Z; dtp_data0 : Z;
  support_addr : nat -> Z;
  support_of_addr : Z -> option nat;
  sem_swap_pool_table : Z;
  master_semaphore : Z;
  sys3_semaphores : Z; sys4_semaphores : Z; sys5_semaphores : Z;
  header_buffer : Z;                 (* [data] in init_page_table *)
  pstate_addr : Z;                   (* [pstate] in test *)
  support_tlb_addr : Z; support_generic_addr : Z
}.

(** [SYSCALL] as the nucleus serves it. *)
Class Nucleus (W : Type) := {
  nucleus : Z -> Z -> Z -> Z -> M (sup W) sup_exit Z
}.

(** [TLBP] gives the INDEX register, [TLBWI] and [TLBWR] write an entry. *)
Class Tlb (W : Type) := {
  tlb_probe : Z -> W -> Z;
  tlb_write : Z -> Z -> Z -> W -> W;
  tlb_write_random : Z -> Z -> W -> W
}.

Section calls.
Context {U : Umps} {W : Type} {N : Nucleus W} {T : Tlb W}.

Definition SM (A : Type) : Type := M (sup W) sup_exit A.

Definition SYSCALL (a b c d : Z) : SM Z :=
  modify (fun s => set_calls ((a, b, c, d) :: calls s) s) ;;
  nucleus a b c d.

Definition kfprintf (fmt : string) (args : list Z) : SM unit :=
  modify (fun s => set_slog ((fmt, args) :: slog s) s).

Definition stop {A} : SM A := exit Stopped.

Definition setENTRYHI (v : Z) : SM unit := modify (set_reg_entry_hi v).
Definition setENTRYLO (v : Z) : SM unit := modify (set_reg_entry_lo v).
Definition getINDEX : SM Z := gets reg_index.
Definition TLBWR : SM unit :=
  modify (fun s => set_world (tlb_write_random (reg_entry_hi s) (reg_entry_lo s) (world s)) s).
Definition TLBWI : SM unit :=
  modify (fun s => set_world (tlb_write (reg_index s) (reg_entry_hi s) (reg_entry_lo s) (world s)) s).
Definition TLBP : SM unit :=
  modify (fun s => set_reg_index (tlb_probe (reg_entry_hi s) (world s)) s).

Definition read_mem (a : Z) : SM Z := gets (fun s => default 0 (words s !! a)).
Definition write_mem (a v : Z) : SM unit := modify (fun s => set_words (<[a := u32 v]> (words s)) s).

(** [p->field] for a [support_t *p]. *)
Definition support_at (i : nat) : SM support_t :=
  s <- get ;; ok_or "wild support_t" (support_table s !! i).
Definition upd_support (i : nat) (f : support_t -> support_t) : SM unit :=
  c <- support_at i ;;
  modify (fun s => set_support_table (<[i := f c]> (support_table s)) s).

(** [page_table[index]] and an assignment to it. *)
Definition pte_at (p : pte_ptr) : SM pte_entry_t :=
  c <- support_at p.1 ;; ok_or "wild pte_entry_t" (sup_private_page_table c !! p.2).
Definition upd_pte (p : pte_ptr) (f : pte_entry_t -> pte_entry_t) : SM unit :=
  e <- pte_at p ;;
  upd_support p.1 (fun c =>
    set_sup_private_page_table (<[p.2 := f e]> (sup_private_page_table c)) c).

(** A [support_t *] that the nucleus returned. *)
Definition support_ptr `{Layout} (a : Z) : SM nat :=
  ok_or "wild support_t" (support_of_addr a).

(** [LDST] *)
Definition load_saved (st : state_t) : SM unit := exit (Resumed st).
End calls.
