(* ===== verification/Pager.v ===== *)
(** * The pager

    [phase3/src/pager.c] and [phase3/src/storage.c]: page tables, the Swap
    Pool, the TLB handlers and the flash driver. *)

From Stdlib Require Import ZArith Lia String.
From stdpp Require Import base tactics option numbers strings gmap list vector.
From S2P Require Import Prelude ListHead Machine Kernel SupportLevel.

Open Scope Z_scope.

Definition CAUSE_TLB_MOD : Z := 1.
Definition FLASHCMDSHIFT : Z := 8.

(** Page numbers: shifted addresses. *)
Definition page_no (a : Z) : Z := Z.shiftr a VPNSHIFT.

(** The frame holds a page. *)
Definition check_frame_occupied (frame : swap_t) : bool := negb (sw_asid frame =? -1).

Definition is_valid_asid (asid : Z) : bool := (1 <=? asid) && (asid <=? Z.of_nat UPROCMAX).

Section pager.
Context {U : Umps} {Lay : Layout} {W : Type} {N : Nucleus W} {T : Tlb W}.
Implicit Types (i j f : nat).

(** ** storage.c *)

Definition deactive_interrupts : SM (W := W) unit :=
  state <- gets sup_status ;;
  modify (set_sup_status (status_interrupts_off_nucleus state)).

Definition active_interrupts : SM (W := W) unit :=
  state <- gets sup_status ;;
  modify (set_sup_status (status_interrupts_on_nucleus state)).

Definition flash_reg (dev : Z) : Z := DEV_REG_ADDR FLASHINT (dev - 1).

Definition flash_command (op block : Z) : Z := u32 (Z.lor op (Z.shiftl block FLASHCMDSHIFT)).

Definition read_flash (dev block dest : Z) : SM (W := W) Z :=
  deactive_interrupts ;;
  let reg := flash_reg dev in
  let cmd := flash_command FLASHREAD block in
  write_mem (reg + dtp_data0) dest ;;
  res <- SYSCALL DOIO (reg + dtp_command) cmd 0 ;;
  active_interrupts ;;
  ret res.

Definition write_flash (dev block src : Z) : SM (W := W) Z :=
  deactive_interrupts ;;
  let reg := flash_reg dev in
  let cmd := flash_command FLASHWRITE block in
  write_mem (reg + dtp_data0) src ;;
  res <- SYSCALL DOIO (reg + dtp_command) cmd 0 ;;
  active_interrupts ;;
  ret res.

(** [support_trap] of support.c. *)
Definition support_trap : SM (W := W) unit :=
  _ <- SYSCALL TERMINATE 0 0 0 ;; ret tt.

(** ** pager.c *)

Definition SWAP_POOL_ADDR : SM (W := W) Z :=
  text <- read_mem (KERNELSTACK + 0x18) ;;
  data <- read_mem (KERNELSTACK + 0x24) ;;
  ret (u32 (text + data)).

Definition frame_at (f : nat) : SM (W := W) swap_t :=
  s <- get ;; ok_or "wild swap_t" (swap_pool_table s !! f).
Definition upd_frame (f : nat) (g : swap_t -> swap_t) : SM (W := W) unit :=
  w <- frame_at f ;;
  modify (fun s => set_swap_pool_table (<[f := g w]> (swap_pool_table s)) s).

Definition set_sw_asid (v : Z) (w : swap_t) : swap_t := Swap v (sw_page_no w) (sw_pte w).
Definition set_sw_page_no (v : Z) (w : swap_t) : swap_t := Swap (sw_asid w) v (sw_pte w).
Definition set_sw_pte (v : option pte_ptr) (w : swap_t) : swap_t := Swap (sw_asid w) (sw_page_no w) v.

Definition init_swap_pool_table : SM (W := W) unit :=
  for_ POOLSIZE 0 (fun i => upd_frame i (set_sw_asid (-1))).

Definition init_pager : SM (W := W) unit :=
  init_swap_pool_table ;;
  a <- SWAP_POOL_ADDR ;;
  modify (set_swap_pool_addr a).

Definition set_baton (asid : Z) (value : bool) : SM (W := W) unit :=
  s <- get ;;
  _ <- ok_or "wild baton" (swap_pool_batons s !! Z.to_nat (asid - 1)) ;;
  modify (fun s => set_swap_pool_batons (<[Z.to_nat (asid - 1) := value]> (swap_pool_batons s)) s).

(** [page_table] is the table of the [i]-th Support Structure, or NULL. *)
Definition init_page_table (page_table : option nat) (asid : Z) : SM (W := W) bool :=
  match page_table with
  | None => ret false
  | Some i =>
      if (asid <=? 0) || (Z.of_nat UPROCMAX <? asid) then ret false
      else
        let last_page_index := (MAXPAGES - 1)%nat in
        read_status <- read_flash asid 0 header_buffer ;;
        when negb (read_status =? DEV_STATUS_READY) do
          (kfprintf "Failed header read (AISD = %d, status = %d)\n" [asid; read_status] ;;
           support_trap) ;;
        data5 <- read_mem (header_buffer + 5 * 4) ;;
        let text_file_size := u32 data5 / PAGESIZE in
        for_ last_page_index 0 (fun k =>
          upd_pte (i, k) (fun _ =>
            Pte (u32 (KUSEG + Z.shiftl (Z.of_nat k) VPNSHIFT + Z.shiftl asid ASIDSHIFT))
              (if Z.of_nat k <? text_file_size then 0 else DIRTYON))) ;;
        upd_pte (i, last_page_index) (fun _ =>
          Pte (u32 (KUSEG + GETPAGENO + Z.shiftl asid ASIDSHIFT)) DIRTYON) ;;
        set_baton asid false ;;
        ret true
  end.

Definition set_swap_pool_baton (asid : Z) (value : bool) : SM (W := W) unit :=
  when negb (is_valid_asid asid) do
    (kfprintf "memory.c: set_swap_pool_baton: invalid asid\n" [] ;; stop) ;;
  set_baton asid value.

Definition get_swap_pool_baton (asid : Z) : SM (W := W) bool :=
  when negb (is_valid_asid asid) do
    (kfprintf "memory.c: get_swap_pool_baton: invalid asid\n" [] ;; stop) ;;
  s <- get ;;
  ok_or "wild baton" (swap_pool_batons s !! Z.to_nat (asid - 1)).

Definition release_sem_swap_pool_table (asid : Z) : SM (W := W) unit :=
  b <- get_swap_pool_baton asid ;;
  when b do (_ <- SYSCALL VERHOGEN sem_swap_pool_table 0 0 ;; ret tt).

Definition mark_frames_as_unoccupied (asid : Z) : SM (W := W) unit :=
  for_ POOLSIZE 0 (fun f =>
    w <- frame_at f ;;
    when sw_asid w =? asid do upd_frame f (set_sw_asid (-1))).

Definition clean_after_uproc (asid : Z) : SM (W := W) unit :=
  release_sem_swap_pool_table asid ;;
  mark_frames_as_unoccupied asid.

Definition vpn_to_index (vpn : Z) : SM (W := W) nat :=
  when vpn <? page_no KUSEG do
    (kfprintf "pager: vpn_to_index: vpn = %p < %p = KUSEG >> VPNSHIFT\n" [vpn; page_no KUSEG] ;;
     stop) ;;
  if vpn =? page_no (KUSEG + GETPAGENO) then ret (MAXPAGES - 1)%nat
  else
    when page_no KUSEG + Z.of_nat MAXPAGES <=? vpn do
      (kfprintf "pager: vpn_to_index: invalid vpn %p\n" [vpn] ;; stop) ;;
    ret (Z.to_nat (vpn - page_no KUSEG)).

Definition entryhi_to_vpn (entryhi : Z) : SM (W := W) Z :=
  when entryhi <? KUSEG do
    (kfprintf "pager: entryhi_to_vpn: entryhi = %p < %p = KUSEG\n" [entryhi; KUSEG] ;; stop) ;;
  when (KUSEG + (Z.of_nat MAXPAGES - 1) * PAGESIZE <=? entryhi)
       && negb (page_no entryhi =? page_no (KUSEG + GETPAGENO)) do
    (kfprintf "pager: entryhi_to_vpn: %p?\n" [entryhi; KUSEG] ;; stop) ;;
  ret (page_no entryhi).

Definition entryhi_to_index (entryhi : Z) : SM (W := W) nat :=
  vpn <- entryhi_to_vpn entryhi ;; vpn_to_index vpn.

Definition add_random_in_tlb (pte : pte_entry_t) : SM (W := W) unit :=
  setENTRYHI (pte_entry_hi pte) ;;
  setENTRYLO (pte_entry_lo pte) ;;
  TLBWR.

(** [active_process->p_support] is [p_support], the state saved by the BIOS
    [saved_state]. *)
Definition tlb_refill_handler (p_support : nat) (saved_state : state_t) : SM (W := W) unit :=
  index <- entryhi_to_index (entry_hi saved_state) ;;
  pte <- pte_at (p_support, index) ;;
  kfprintf "TLB-Refill on %p\n" [entry_hi saved_state] ;;
  add_random_in_tlb pte ;;
  load_saved saved_state.

Definition check_in_tlb (pte : pte_entry_t) : SM (W := W) bool :=
  setENTRYHI (pte_entry_hi pte) ;;
  TLBP ;;
  index <- getINDEX ;;
  ret (Z.land index PRESENTFLAG =? 0).

Definition update_tlb (pte : pte_entry_t) : SM (W := W) unit :=
  b <- check_in_tlb pte ;;
  when b do
    (setENTRYHI (pte_entry_hi pte) ;;
     setENTRYLO (pte_entry_lo pte) ;;
     TLBWI).

(** The first unoccupied frame of [t], counted from [f]. *)
Fixpoint first_unoccupied (t : list swap_t) (f : nat) : option nat :=
  match t with
  | [] => None
  | w :: t' => if check_frame_occupied w then first_unoccupied t' (S f) else Some f
  end.

Definition pick_page : SM (W := W) nat :=
  s <- get ;;
  match first_unoccupied (take POOLSIZE (swap_pool_table s)) 0 with
  | Some index => ret index
  | None =>
      let i := u32 (last_frame s + 1) mod Z.of_nat POOLSIZE in
      modify (set_last_frame i) ;;
      ret (Z.to_nat i)
  end.

Definition page_addr (i : nat) : SM (W := W) Z :=
  if (POOLSIZE <=? i)%nat then ret 0
  else a <- gets swap_pool_addr ;; ret (u32 (a + Z.of_nat i * PAGESIZE)).

(** [!VALIDON] is 0. *)
Definition mark_page_not_valid (page_table : nat) (index : nat) : SM (W := W) unit :=
  upd_pte (page_table, index) (fun e =>
    set_pte_entry_lo (Z.land (pte_entry_lo e) (if VALIDON =? 0 then 1 else 0)) e).

Definition add_entry_swap_pool_table (frame_no : nat) (asid vpn : Z) (page_table : nat)
    : SM (W := W) unit :=
  upd_frame frame_no (set_sw_asid asid) ;;
  upd_frame frame_no (set_sw_page_no vpn) ;;
  index <- vpn_to_index vpn ;;
  upd_frame frame_no (set_sw_pte (Some (page_table, index))).

Definition update_page_table (page_table index : nat) (frame_addr : Z) : SM (W := W) unit :=
  upd_pte (page_table, index)
    (set_pte_entry_lo (Z.lor (Z.lor frame_addr VALIDON) DIRTYON)).

(** The first atomic block of [support_tlb]. *)
Definition invalidate (support k_index : nat) (p : pte_ptr) : SM (W := W) unit :=
  deactive_interrupts ;;
  mark_page_not_valid support k_index ;;
  e <- pte_at p ;;
  update_tlb e ;;
  active_interrupts.

(** The second atomic block of [support_tlb]. *)
Definition install (victim_frame : nat) (asid p_vpn : Z) (support p_index : nat)
    (victim_frame_addr : Z) : SM (W := W) unit :=
  deactive_interrupts ;;
  add_entry_swap_pool_table victim_frame asid p_vpn support ;;
  update_page_table support p_index victim_frame_addr ;;
  e <- pte_at (support, p_index) ;;
  update_tlb e ;;
  active_interrupts.

(** The frame is occupied: the victim leaves it. *)
Definition evict (support victim_frame : nat) (swap : swap_t) : SM (W := W) unit :=
  p <- ok_or "NULL pte_entry_t" (sw_pte swap) ;;
  e <- pte_at p ;;
  k_vpn <- entryhi_to_vpn (pte_entry_hi e) ;;
  k_index <- vpn_to_index k_vpn ;;
  invalidate support k_index p ;;
  addr <- page_addr victim_frame ;;
  write_status <- write_flash (sw_asid swap) (Z.of_nat k_index) addr ;;
  when negb (write_status =? DEV_STATUS_READY) do
    (kfprintf "Error on flash write (k_index = %d, status = %d)\n" [Z.of_nat k_index; write_status] ;;
     support_trap).

Definition support_tlb : SM (W := W) unit :=
  a <- SYSCALL GETSUPPORTPTR 0 0 0 ;;
  support <- support_ptr a ;;
  c <- support_at support ;;
  let saved_state := sup_except_state c !!! PGFAULTEXCEPT in
  if cause saved_state =? CAUSE_TLB_MOD then support_trap
  else
    _ <- SYSCALL PASSEREN sem_swap_pool_table 0 0 ;;
    c <- support_at support ;;
    set_swap_pool_baton (sup_asid c) true ;;
    victim_frame <- pick_page ;;
    base <- gets swap_pool_addr ;;
    let victim_frame_addr := u32 (base + Z.of_nat victim_frame * PAGESIZE) in
    kfprintf "Victim: %p\n" [victim_frame_addr] ;;
    p_vpn <- entryhi_to_vpn (entry_hi saved_state) ;;
    p_index <- vpn_to_index p_vpn ;;
    swap <- frame_at victim_frame ;;
    when check_frame_occupied swap do evict support victim_frame swap ;;
    read_status <- read_flash (sup_asid c) (Z.of_nat p_index) victim_frame_addr ;;
    when negb (read_status =? DEV_STATUS_READY) do
      (kfprintf "Error on flash read (p_index = %d, status = %d)\n" [Z.of_nat p_index; read_status] ;;
       support_trap) ;;
    install victim_frame (sup_asid c) p_vpn support p_index victim_frame_addr ;;
    _ <- SYSCALL VERHOGEN sem_swap_pool_table 0 0 ;;
    set_swap_pool_baton (sup_asid c) false ;;
    load_saved saved_state.
End pager.
