(* ===== verification/Paging.v ===== *)
(** * The pager's invariant and its steps

    What the pager may assume of the nucleus ([NucleusLaws]), the consistency
    of the Swap Pool table with the page tables ([pool_inv]), and a
    specification of every operation of [Pager]. *)

From Stdlib Require Import ZArith Lia String.
From stdpp Require Import base tactics option numbers strings gmap list vector.
From S2P Require Import Prelude ListHead Machine Kernel SupportLevel Pager.

Open Scope string_scope.
Open Scope list_scope.
Open Scope Z_scope.

(** ** Page numbers and indices *)

(** The ENTRYHI of the [k]-th entry of a page table. *)
Definition table_hi (asid : Z) (k : nat) : Z :=
  (if (k =? 31)%nat then KUSEG + GETPAGENO else KUSEG + Z.of_nat k * PAGESIZE) + asid * 64.

(** The page of an address of a U-proc: 31 pages from [KUSEG], and the stack. *)
Definition page_of (entryhi : Z) : option nat :=
  if (KUSEG <=? entryhi) && (entryhi <? KUSEG + 31 * PAGESIZE)
  then Some (Z.to_nat ((entryhi - KUSEG) / PAGESIZE))
  else if entryhi / PAGESIZE =? 0xBFFFF then Some 31%nat else None.

Lemma page_no_div a : page_no a = a / 4096.
Proof. unfold page_no, VPNSHIFT. by rewrite Z.shiftr_div_pow2 by lia. Qed.

Lemma page_of_bound e k : page_of e = Some k -> (k < MAXPAGES)%nat.
Proof.
  unfold page_of, MAXPAGES, PAGESIZE, KUSEG.
  destruct (Z.leb_spec 0x80000000 e); destruct (Z.ltb_spec e (0x80000000 + 31 * 4096)); cbn [andb].
  1: { intros [= <-]. assert ((e - 0x80000000) / 4096 < 31) by (apply Z.div_lt_upper_bound; lia).
       pose proof (Z.div_pos (e - 0x80000000) 4096). lia. }
  all: destruct (_ =? _); [intros [= <-]; lia | done].
Qed.

Lemma page_of_table_hi asid k : 1 <= asid <= 8 -> (k < MAXPAGES)%nat -> page_of (table_hi asid k) = Some k.
Proof.
  unfold table_hi, page_of, KUSEG, GETPAGENO, PAGESIZE, MAXPAGES. intros Ha Hk.
  destruct (Nat.eqb_spec k 31) as [->|Hne].
  - destruct (Z.ltb_spec (0x80000000 + 0x3FFFF000 + asid * 64) (0x80000000 + 31 * 4096)); [lia|].
    rewrite andb_false_r.
    replace ((0x80000000 + 0x3FFFF000 + asid * 64) / 4096) with 0xBFFFF; [done|].
    apply (Z.div_unique _ _ _ (asid * 64)); lia.
  - destruct (Z.leb_spec 0x80000000 (0x80000000 + Z.of_nat k * 4096 + asid * 64)); [|lia].
    destruct (Z.ltb_spec (0x80000000 + Z.of_nat k * 4096 + asid * 64) (0x80000000 + 31 * 4096)); [|lia].
    cbn [andb]. f_equal.
    replace ((0x80000000 + Z.of_nat k * 4096 + asid * 64 - 0x80000000) / 4096) with (Z.of_nat k); [lia|].
    apply (Z.div_unique _ _ _ (asid * 64)); lia.
Qed.

Lemma table_hi_asid asid k : 1 <= asid <= 8 -> (k < MAXPAGES)%nat ->
  Z.land (Z.shiftr (table_hi asid k) ASIDSHIFT) 63 = asid.
Proof.
  intros Ha Hk. change 63 with (Z.ones 6). rewrite Z.land_ones by lia.
  unfold ASIDSHIFT. rewrite Z.shiftr_div_pow2 by lia.
  unfold table_hi, KUSEG, GETPAGENO, PAGESIZE, MAXPAGES in *.
  assert (∀ m, (0x80000000 + m * 4096 + asid * 64) / 2 ^ 6 mod 2 ^ 6 = asid) as Hm.
  { intros m. replace (0x80000000 + m * 4096 + asid * 64) with (asid * 64 + (524288 + m) * 64 * 64) by lia.
    change (2 ^ 6) with 64.
    rewrite Z.div_add by lia. rewrite Z.div_mul, Z_mod_plus_full by lia. apply Z.mod_small. lia. }
  destruct (k =? 31)%nat; [apply (Hm 0x3FFFF) | apply Hm].
Qed.

Lemma asid_cases asid : is_valid_asid asid = true <-> 1 <= asid <= 8.
Proof. unfold is_valid_asid. change (Z.of_nat UPROCMAX) with 8. rewrite andb_true_iff, !Z.leb_le. done. Qed.

Section paging.
Context {U : Umps} {Lay : Layout} {W : Type} {N : Nucleus W} {T : Tlb W}.
Implicit Types (s : sup W) (i j f k : nat) (c : support_t) (w : swap_t).

Lemma vpn_to_index_ok vpn k s :
  (vpn = 0xBFFFF ∧ k = 31%nat) \/ (vpn = 0x80000 + Z.of_nat k ∧ (k < MAXPAGES)%nat) ->
  vpn_to_index vpn s = Ok k s.
Proof.
  unfold vpn_to_index, MAXPAGES. change (page_no KUSEG) with 0x80000.
  change (page_no (KUSEG + GETPAGENO)) with 0xBFFFF. intros [[-> ->]|[-> Hk]]; [done|].
  destruct (Z.ltb_spec (0x80000 + Z.of_nat k) 0x80000); [lia|].
  rewrite bind_ret_l. destruct (Z.eqb_spec (0x80000 + Z.of_nat k) 0xBFFFF); [lia|].
  destruct (Z.leb_spec (0x80000 + Z.of_nat 32) (0x80000 + Z.of_nat k)); [lia|].
  rewrite bind_ret_l. unfold ret. f_equal. lia.
Qed.

(** The page of an address that has one. *)
Lemma entryhi_ok e k s : 0 <= e < 2 ^ 32 -> page_of e = Some k ->
  entryhi_to_vpn e s = Ok (e / PAGESIZE) s ∧ vpn_to_index (e / PAGESIZE) s = Ok k s.
Proof.
  intros He Hp. unfold entryhi_to_vpn. rewrite !page_no_div.
  change ((KUSEG + GETPAGENO) / 4096) with 0xBFFFF.
  change (KUSEG + (Z.of_nat MAXPAGES - 1) * PAGESIZE) with (KUSEG + 31 * PAGESIZE).
  unfold page_of in Hp. unfold PAGESIZE, KUSEG in *.
  destruct (Z.leb_spec 0x80000000 e); destruct (Z.ltb_spec e (0x80000000 + 31 * 4096)); cbn [andb] in Hp.
  - injection Hp as <-. assert ((e - 0x80000000) / 4096 = e / 4096 - 0x80000) as Hdiv.
    { replace (e - 0x80000000) with (e + (-0x80000) * 4096) by lia. rewrite Z.div_add by lia. done. }
    assert (0x80000 <= e / 4096) by (apply Z.div_le_lower_bound; lia).
    assert (e / 4096 < 0x80000 + 31) by (apply Z.div_lt_upper_bound; lia). split.
    + destruct (Z.ltb_spec e 0x80000000); [lia|]. rewrite bind_ret_l.
      destruct (Z.leb_spec (0x80000000 + 31 * 4096) e); [lia|]. cbn [andb]. by rewrite bind_ret_l.
    + apply vpn_to_index_ok. right. rewrite Hdiv. unfold MAXPAGES. lia.
  - destruct (Z.eqb_spec (e / 4096) 0xBFFFF) as [Hv|]; [|done]. injection Hp as <-. split.
    + destruct (Z.ltb_spec e 0x80000000); [lia|]. rewrite bind_ret_l, Hv. rewrite andb_false_r.
      by rewrite bind_ret_l.
    + apply vpn_to_index_ok. by left.
  - exfalso. destruct (Z.eqb_spec (e / 4096) 0xBFFFF) as [Hv|]; [|done].
    assert (e / 4096 < 0x80000) by (apply Z.div_lt_upper_bound; lia). lia.
  - lia.
Qed.

Lemma entryhi_to_index_ok e k s : 0 <= e < 2 ^ 32 -> page_of e = Some k ->
  entryhi_to_index e s = Ok k s.
Proof.
  intros He Hp. destruct (entryhi_ok e k s He Hp) as [H1 H2]. unfold entryhi_to_index. by step_with H1.
Qed.

(** Any other address stops the machine. *)
Lemma entryhi_wild e s : 0 <= e < 2 ^ 32 -> page_of e = None ->
  ∃ m, entryhi_to_vpn e s = Exit Stopped (set_slog (m :: slog s) s).
Proof.
  intros He Hp. unfold entryhi_to_vpn. rewrite !page_no_div.
  change ((KUSEG + GETPAGENO) / 4096) with 0xBFFFF.
  change (KUSEG + (Z.of_nat MAXPAGES - 1) * PAGESIZE) with (KUSEG + 31 * PAGESIZE).
  unfold page_of in Hp. unfold PAGESIZE, KUSEG in *.
  destruct (Z.ltb_spec e 0x80000000); [by eexists|]. rewrite bind_ret_l.
  destruct (Z.leb_spec 0x80000000 e); [|lia].
  destruct (Z.ltb_spec e (0x80000000 + 31 * 4096)); cbn [andb] in Hp; [done|].
  destruct (Z.leb_spec (0x80000000 + 31 * 4096) e); [|lia].
  destruct (Z.eqb_spec (e / 4096) 0xBFFFF); [done|]. by eexists.
Qed.

(** ** Deterministic steps *)

Lemma support_at_ok s i c : support_table s !! i = Some c -> support_at i s = Ok c s.
Proof. intros Hc. unfold support_at, bind, get. by rewrite Hc. Qed.

Lemma pte_at_ok s i k c e : support_table s !! i = Some c -> sup_private_page_table c !! k = Some e ->
  pte_at (i, k) s = Ok e s.
Proof. intros Hc He. unfold pte_at. cbn [fst snd]. step_with (support_at_ok s i c Hc). by rewrite He. Qed.

(** The state after an assignment to [page_table[k]]. *)
Definition with_pte (i k : nat) (e : pte_entry_t) (c : support_t) (s : sup W) : sup W :=
  set_support_table
    (<[i := set_sup_private_page_table (<[k := e]> (sup_private_page_table c)) c]> (support_table s)) s.

Lemma upd_pte_ok s i k c e g : support_table s !! i = Some c -> sup_private_page_table c !! k = Some e ->
  upd_pte (i, k) g s = Ok tt (with_pte i k (g e) c s).
Proof.
  intros Hc He. unfold upd_pte. step_with (pte_at_ok s i k c e Hc He). cbn [fst snd].
  unfold upd_support. by step_with (support_at_ok s i c Hc).
Qed.

Lemma frame_at_ok s f w : swap_pool_table s !! f = Some w -> frame_at f s = Ok w s.
Proof. intros Hw. unfold frame_at, bind, get. by rewrite Hw. Qed.

Lemma upd_frame_ok s f w g : swap_pool_table s !! f = Some w ->
  upd_frame f g s = Ok tt (set_swap_pool_table (<[f := g w]> (swap_pool_table s)) s).
Proof. intros Hw. unfold upd_frame. by step_with (frame_at_ok s f w Hw). Qed.

Lemma baton_index asid s : 1 <= asid <= 8 -> length (swap_pool_batons s) = UPROCMAX ->
  ∃ b, swap_pool_batons s !! Z.to_nat (asid - 1) = Some b.
Proof.
  intros Ha Hl. destruct (lookup_lt_is_Some_2 (swap_pool_batons s) (Z.to_nat (asid - 1))) as [b Hb]; [|eauto].
  rewrite Hl. unfold UPROCMAX. lia.
Qed.

Lemma set_swap_pool_baton_ok asid v s : 1 <= asid <= 8 -> length (swap_pool_batons s) = UPROCMAX ->
  set_swap_pool_baton asid v s
  = Ok tt (set_swap_pool_batons (<[Z.to_nat (asid - 1) := v]> (swap_pool_batons s)) s).
Proof.
  intros Ha Hl. unfold set_swap_pool_baton. rewrite (proj2 (asid_cases asid) Ha). cbn [negb].
  rewrite bind_ret_l. destruct (baton_index asid s Ha Hl) as [b Hb].
  unfold set_baton, bind, get. by rewrite Hb.
Qed.

Lemma get_swap_pool_baton_ok asid s b : 1 <= asid <= 8 ->
  swap_pool_batons s !! Z.to_nat (asid - 1) = Some b -> get_swap_pool_baton asid s = Ok b s.
Proof.
  intros Ha Hb. unfold get_swap_pool_baton. rewrite (proj2 (asid_cases asid) Ha). cbn [negb].
  rewrite bind_ret_l. unfold bind, get. by rewrite Hb.
Qed.

(** ** Picking a frame *)

Definition occupied (w : swap_t) : Prop := sw_asid w ≠ -1.

Lemma occupied_spec w : check_frame_occupied w = true <-> occupied w.
Proof.
  unfold check_frame_occupied, occupied. destruct (Z.eqb_spec (sw_asid w) (-1)); simpl; split; try done.
Qed.

Lemma first_unoccupied_some t : ∀ n f, first_unoccupied t n = Some f ->
  ∃ w, (n <= f)%nat ∧ t !! (f - n)%nat = Some w ∧ sw_asid w = -1 ∧
  ∀ f' w', (n <= f' < f)%nat -> t !! (f' - n)%nat = Some w' -> occupied w'.
Proof.
  induction t as [|w t IH]; intros n f Hf; simpl in Hf; [done|].
  destruct (check_frame_occupied w) eqn:Hw.
  - destruct (IH _ _ Hf) as (w0 & H1 & H2 & H3 & H4). exists w0.
    replace (f - n)%nat with (S (f - S n)) by lia. split_and!; [lia | done | done |].
    intros f' w' Hf' Hw'. destruct (decide (f' = n)) as [->|].
    + rewrite Nat.sub_diag in Hw'. injection Hw' as <-. by apply occupied_spec.
    + replace (f' - n)%nat with (S (f' - S n)) in Hw' by lia. apply (H4 f'); [lia | done].
  - injection Hf as <-. exists w. rewrite Nat.sub_diag. split_and!; [done | done | | lia].
    unfold check_frame_occupied in Hw. by destruct (Z.eqb_spec (sw_asid w) (-1)).
Qed.

Lemma first_unoccupied_none t n : first_unoccupied t n = None <-> Forall occupied t.
Proof.
  revert n. induction t as [|w t IH]; intros n; simpl; [by split|].
  rewrite Forall_cons, <-occupied_spec. destruct (check_frame_occupied w).
  - rewrite IH. naive_solver.
  - split; [done | by intros [? _]].
Qed.

Lemma pick_page_free s f : length (swap_pool_table s) = POOLSIZE ->
  first_unoccupied (swap_pool_table s) 0 = Some f -> pick_page s = Ok f s.
Proof.
  intros Hl Hf. unfold pick_page, bind, get. rewrite take_ge by lia. by rewrite Hf.
Qed.

Lemma pick_page_full s : length (swap_pool_table s) = POOLSIZE -> Forall occupied (swap_pool_table s) ->
  pick_page s = Ok (Z.to_nat (u32 (last_frame s + 1) mod 16)) (set_last_frame (u32 (last_frame s + 1) mod 16) s).
Proof.
  intros Hl Hf. unfold pick_page, bind, get. rewrite take_ge by lia.
  by rewrite (proj2 (first_unoccupied_none _ _) Hf).
Qed.

Lemma pick_page_range s : length (swap_pool_table s) = POOLSIZE ->
  ∃ f l, pick_page s = Ok f (set_last_frame l s) ∧ (f < POOLSIZE)%nat ∧ (l = last_frame s \/ 0 <= l < 16).
Proof.
  intros Hl. destruct (first_unoccupied (swap_pool_table s) 0) as [f|] eqn:Hf.
  - exists f, (last_frame s). rewrite (pick_page_free s f Hl Hf).
    destruct (first_unoccupied_some _ _ _ Hf) as (w & _ & Hw & _ & _). rewrite Nat.sub_0_r in Hw.
    apply lookup_lt_Some in Hw. split_and!; [by destruct s | lia | by left].
  - exists (Z.to_nat (u32 (last_frame s + 1) mod 16)), (u32 (last_frame s + 1) mod 16).
    pose proof (Z.mod_pos_bound (u32 (last_frame s + 1)) 16 ltac:(lia)).
    rewrite pick_page_full; [|done | by eapply first_unoccupied_none].
    split_and!; [done | unfold POOLSIZE, UPROCMAX; lia | by right].
Qed.

(** Picks in a row. *)
Fixpoint pick_pages (n : nat) : SM (W := W) (list nat) :=
  match n with
  | O => ret []
  | S n' => f <- pick_page ;; l <- pick_pages n' ;; ret (f :: l)
  end.

Lemma u32_mod16 z : u32 z mod 16 = z mod 16.
Proof.
  unfold u32. rewrite <-(Znumtheory.Zmod_div_mod 16 (2 ^ 32) z); [done | lia | lia |].
  by exists (2 ^ 28).
Qed.

Lemma pick_pages_run n : ∀ s, length (swap_pool_table s) = POOLSIZE -> Forall occupied (swap_pool_table s) ->
  ∃ s', pick_pages n s
    = Ok (map (fun d => Z.to_nat ((last_frame s + 1 + Z.of_nat d) mod 16)) (seq 0 n)) s'.
Proof.
  induction n as [|n IH]; intros s Hl Hf; [by eexists|]. cbn [pick_pages].
  step_with (pick_page_full s Hl Hf). destruct (IH (set_last_frame (u32 (last_frame s + 1) mod 16) s)) as [s' Hrun];
    [done | done |].
  step_with Hrun. exists s'. unfold ret. f_equal. cbn [seq map last_frame set_last_frame].
  rewrite Z.add_0_r, u32_mod16. f_equal. rewrite <-seq_shift, map_map. apply map_ext. intros d.
  rewrite <-Z.add_assoc, Zplus_mod_idemp_l. do 2 f_equal. lia.
Qed.

Lemma rotation (x n : nat) : (x <= n)%nat -> Permutation (seq x (n - x) ++ seq 0 x) (seq 0 n).
Proof.
  intros Hx. rewrite Permutation_app_comm. replace n with (x + (n - x))%nat at 2 by lia.
  by rewrite seq_app.
Qed.

Lemma turns (z : Z) : Permutation (map (fun d => Z.to_nat ((z + Z.of_nat d) mod 16)) (seq 0 16)) (seq 0 16).
Proof.
  etransitivity; [|apply (rotation (Z.to_nat (z mod 16)) 16)].
  2: { pose proof (Z.mod_pos_bound z 16 ltac:(lia)). lia. }
  replace (map (fun d => Z.to_nat ((z + Z.of_nat d) mod 16)) (seq 0 16))
    with (map (fun d => Z.to_nat ((z mod 16 + Z.of_nat d) mod 16)) (seq 0 16)).
  2: { apply map_ext. intros d. by rewrite Zplus_mod_idemp_l. }
  pose proof (Z.mod_pos_bound z 16 ltac:(lia)) as Hb. generalize dependent (z mod 16). intros x Hx.
  assert (∃ n, x = Z.of_nat n ∧ (n < 16)%nat) as (n & -> & Hn) by (exists (Z.to_nat x); lia).
  clear Hx. do 16 (destruct n as [|n]; [done|]). lia.
Qed.
End paging.

(** ** A loop over an array

    [body k] rewrites the [k]-th element of an array of the state. *)
Section loops.
Context {S E A : Type} (rd : S -> list A) (wr : list A -> S -> S).
Hypothesis rd_wr : ∀ l s, length l = length (rd s) -> rd (wr l s) = l.
Hypothesis wr_rd : ∀ s, wr (rd s) s = s.
Hypothesis wr_wr : ∀ l l' s, wr l (wr l' s) = wr l s.

Lemma for_imap (body : nat -> M S E unit) (g : nat -> A -> A) :
  (∀ k s x, rd s !! k = Some x -> body k s = Ok tt (wr (<[k := g k x]> (rd s)) s)) ->
  ∀ n a s, (a + n <= length (rd s))%nat ->
  for_ n a body s = Ok tt (wr (imap (fun k x => if decide (a <= k < a + n)%nat then g k x else x) (rd s)) s).
Proof.
  intros Hbody n. induction n as [|n IH]; intros a s Han; cbn [for_].
  { unfold ret. f_equal. rewrite <-(wr_rd s) at 1. f_equal. apply list_eq. intros k.
    rewrite list_lookup_imap. destruct (rd s !! k); [|done]. cbn. by rewrite decide_False by lia. }
  destruct (lookup_lt_is_Some_2 (rd s) a) as [x Hx]; [lia|].
  rewrite (bind_ok _ _ _ _ _ (Hbody a s x Hx)). cbv beta.
  rewrite IH; rewrite !rd_wr by (by rewrite length_insert); [|rewrite length_insert; lia].
  rewrite wr_wr. do 2 f_equal. apply list_eq. intros k. rewrite !list_lookup_imap.
  destruct (decide (k = a)) as [->|Hne].
  - rewrite list_lookup_insert_eq by (by eapply lookup_lt_Some). rewrite Hx. cbn.
    by rewrite decide_False, decide_True by lia.
  - rewrite list_lookup_insert_ne by done. destruct (rd s !! k); [|done]. cbn.
    repeat case_decide; try done; lia.
Qed.
End loops.

(** ** The invariant, and what other processes may do meanwhile *)

Section rely.
Context {U : Umps} {Lay : Layout} {W : Type}.
Implicit Types (s : sup W) (i j f k : nat) (c : support_t) (w : swap_t).

(** The page table of a process is numbered for its ASID. *)
Definition numbered c : Prop :=
  length (sup_private_page_table c) = MAXPAGES ∧
  ∀ k e, sup_private_page_table c !! k = Some e -> pte_entry_hi e = table_hi (sup_asid c) k.

(** An occupied frame belongs to an entry of the page table of its owner, a
    process whose table has been initialised. *)
Record pool_inv s : Prop := {
  pi_frames : length (swap_pool_table s) = POOLSIZE;
  pi_batons : length (swap_pool_batons s) = UPROCMAX;
  pi_used : ∀ f w, swap_pool_table s !! f = Some w -> occupied w ->
    1 <= sw_asid w <= 8 ∧ ∃ j k c, sw_pte w = Some (j, k) ∧ support_table s !! j = Some c ∧
      sup_asid c = sw_asid w ∧ numbered c ∧ (k < MAXPAGES)%nat
}.

Lemma pool_inv_ext s s' : swap_pool_table s' = swap_pool_table s ->
  swap_pool_batons s' = swap_pool_batons s -> support_table s' = support_table s ->
  pool_inv s -> pool_inv s'.
Proof.
  intros H1 H2 H3 [I1 I2 I3]. split; [by rewrite H1 | by rewrite H2|]. rewrite H1, H3. apply I3.
Qed.

Definition baton (a : Z) s : option bool := swap_pool_batons s !! Z.to_nat (a - 1).

(** The [i]-th Support Structure has been given the ASID [a]; its page table
    may hold anything. *)
Definition assigned i (a : Z) s : Prop := 1 <= a <= 8 ∧ ∃ c, support_table s !! i = Some c ∧
  sup_asid c = a ∧ length (sup_private_page_table c) = MAXPAGES.

(** ... and belongs to a process: its page table is initialised. *)
Definition has_asid i (a : Z) s : Prop := 1 <= a <= 8 ∧ ∃ c, support_table s !! i = Some c ∧
  sup_asid c = a ∧ numbered c.

(** The process of the [j]-th Support Structure has a frame. *)
Definition owns j s : Prop := ∃ f w k, swap_pool_table s !! f = Some w ∧ occupied w ∧ sw_pte w = Some (j, k).

(** The other processes run: the caller's own data is not touched, and the
    pool stays consistent. *)
Record yields i (a : Z) s s' : Prop := {
  y_current : current s' = current s;
  y_calls : calls s' = calls s;
  y_pool_addr : swap_pool_addr s' = swap_pool_addr s;
  y_status : sup_status s' = sup_status s;
  y_mine : support_table s' !! i = support_table s !! i;
  y_baton : baton a s' = baton a s;
  y_inv : pool_inv s -> pool_inv s'
}.

(** What may happen while the pool is held by [i]: a frame changes only
    because its owner, another process, has terminated, and a process that
    still has a frame keeps its ASID and its page table.  The rest of its
    Support Structure, with the states of its exceptions, may change. *)
Record locked_step i (a : Z) s s' : Prop := {
  ls_current : current s' = current s;
  ls_pool_addr : swap_pool_addr s' = swap_pool_addr s;
  ls_last : last_frame s' = last_frame s;
  ls_others : ∀ j c, j ≠ i -> owns j s' -> support_table s !! j = Some c ->
    ∃ c', support_table s' !! j = Some c' ∧ sup_asid c' = sup_asid c ∧
      sup_private_page_table c' = sup_private_page_table c;
  ls_mine : ∀ c, support_table s !! i = Some c -> ∃ c', support_table s' !! i = Some c' ∧
    sup_asid c' = sup_asid c ∧ sup_except_state c' !!! PGFAULTEXCEPT = sup_except_state c !!! PGFAULTEXCEPT ∧
    (numbered c -> numbered c');
  ls_frames : ∀ f, swap_pool_table s' !! f = swap_pool_table s !! f \/
    ∃ w, swap_pool_table s !! f = Some w ∧ sw_asid w ≠ a ∧ swap_pool_table s' !! f = Some (set_sw_asid (-1) w);
  ls_baton : baton a s' = baton a s;
  ls_inv : pool_inv s -> pool_inv s'
}.

(** Frames are only given up, so who has one had it before. *)
Lemma frames_owns a s s' j :
  (∀ f, swap_pool_table s' !! f = swap_pool_table s !! f \/
    ∃ w, swap_pool_table s !! f = Some w ∧ sw_asid w ≠ a ∧ swap_pool_table s' !! f = Some (set_sw_asid (-1) w)) ->
  owns j s' -> owns j s.
Proof.
  intros Hf (f & w & k & Hw & Ho & Hp). exists f, w, k. destruct (Hf f) as [E|(w0 & _ & _ & E)].
  - by rewrite <-E.
  - rewrite E in Hw. injection Hw as <-. by destruct Ho.
Qed.

Lemma locked_refl i a s : locked_step i a s s.
Proof. split; eauto 10. Qed.

Lemma locked_trans i a s1 s2 s3 : locked_step i a s1 s2 -> locked_step i a s2 s3 -> locked_step i a s1 s3.
Proof.
  intros [A1 A2 A3 A4 A5 A6 A7 A8] [B1 B2 B3 B4 B5 B6 B7 B8]. split; try congruence; [| | |by auto].
  - intros j c Hj Ho Hc. destruct (A4 j c Hj (frames_owns a s2 s3 j B6 Ho) Hc) as (c1 & H1 & H2 & H3).
    destruct (B4 j c1 Hj Ho H1) as (c2 & H4 & H5 & H6). exists c2. split_and!; congruence.
  - intros c Hc. destruct (A5 c Hc) as (c1 & H1 & H2 & H3 & H4).
    destruct (B5 c1 H1) as (c2 & H5 & H6 & H7 & H8). exists c2. split_and!; try congruence. auto.
  - intros f. destruct (B6 f) as [E2|(w & H1 & H2 & H3)]; destruct (A6 f) as [E1|(w' & H4 & H5 & H6)].
    + left. congruence.
    + right. exists w'. rewrite E2. done.
    + right. exists w. rewrite <-E1. done.
    + right. exists w'. rewrite H1 in H6. injection H6 as ->. rewrite H3. done.
Qed.

(** Registers, messages, device words, the log of calls and the world are
    nobody's business. *)
Lemma locked_same i a s s' : current s' = current s -> swap_pool_addr s' = swap_pool_addr s ->
  last_frame s' = last_frame s -> support_table s' = support_table s ->
  swap_pool_table s' = swap_pool_table s -> swap_pool_batons s' = swap_pool_batons s ->
  locked_step i a s s'.
Proof.
  intros H1 H2 H3 H4 H5 H6. split; try done; rewrite ?H4, ?H5; [by eauto | by eauto 10 | by eauto | |].
  - unfold baton. by rewrite H6.
  - by apply pool_inv_ext.
Qed.

Lemma locked_has_asid i a s s' : locked_step i a s s' -> has_asid i a s -> has_asid i a s'.
Proof.
  intros [_ _ _ _ Hm _ _ _] (Ha & c & Hc & Hca & Hn). split; [done|].
  destruct (Hm c Hc) as (c' & Hc' & Hca' & _ & Hn'). exists c'. split_and!; [done | congruence | auto].
Qed.

(** The nucleus hands the call of the registers [st] to the support level of
    process [i]: they are saved as the state of a general exception. *)
Definition saves_general i (st : state_t) s : sup W :=
  set_support_table
    (alter (fun c => set_sup_except_state (vinsert GENERALEXCEPT st (sup_except_state c)) c) i (support_table s)) s.

Lemma saves_general_lookup i st s j c : support_table s !! j = Some c ->
  ∃ c', support_table (saves_general i st s) !! j = Some c' ∧ sup_asid c' = sup_asid c ∧
    sup_except_state c' !!! PGFAULTEXCEPT = sup_except_state c !!! PGFAULTEXCEPT ∧
    sup_private_page_table c' = sup_private_page_table c.
Proof.
  intros Hc. unfold saves_general. cbn [support_table set_support_table].
  destruct (decide (j = i)) as [->|Hne].
  - rewrite list_lookup_alter_eq, Hc. cbn [fmap option_fmap option_map]. eexists. split_and!; [done..| |done].
    cbn [sup_except_state set_sup_except_state]. by rewrite vlookup_insert_ne.
  - rewrite list_lookup_alter_ne by done. by exists c.
Qed.

Lemma numbered_ext c c' : sup_asid c' = sup_asid c -> sup_private_page_table c' = sup_private_page_table c ->
  numbered c -> numbered c'.
Proof. unfold numbered. by intros -> ->. Qed.

Lemma pool_inv_saves i st s : pool_inv s -> pool_inv (saves_general i st s).
Proof.
  intros [I1 I2 I3]. split; [done | done |].
  intros f w Hw Ho. destruct (I3 f w Hw Ho) as (Hr & j & k & c & Hp & Hc & Ha & Hn & Hk).
  destruct (saves_general_lookup i st s j c Hc) as (d & Hd & Hda & _ & Hdp). split; [done|].
  exists j, k, d. split_and!; [done | done | congruence | by apply (numbered_ext c) | done].
Qed.

Lemma locked_saves i a st s : locked_step i a s (saves_general i st s).
Proof.
  split; try done.
  - intros j c Hj _ Hc. exists c. cbn. by rewrite list_lookup_alter_ne.
  - intros c Hc. destruct (saves_general_lookup i st s i c Hc) as (d & Hd & Hda & Hds & Hdp).
    exists d. split_and!; [done..|]. by apply numbered_ext.
  - eauto.
  - apply pool_inv_saves.
Qed.

(** The nucleus as the pager sees it.  GETSUPPORTPTR lets others run as well,
    since its caller goes to the end of its ready queue; so does VERHOGEN,
    after which the pool may be in other hands.  DOIO is only called on the
    flash devices of the U-procs, by who holds the pool, or by the
    instantiator for a process that does not exist yet.  TERMINATE is handed
    up, or ends the instantiator.  [unborn j]: no process with the [j]-th
    Support Structure exists yet. *)
Class NucleusLaws {N : Nucleus W} (unborn : nat -> W -> Prop) : Prop := {
  law_support_addr i : support_of_addr (support_addr i) = Some i;
  law_getsupportptr s i a : current s = Some i -> has_asid i a s ->
    ∃ s', nucleus GETSUPPORTPTR 0 0 0 s = Ok (support_addr i) s' ∧ yields i a s s';
  law_passeren s i a : current s = Some i -> has_asid i a s ->
    ∃ r s', nucleus PASSEREN sem_swap_pool_table 0 0 s = Ok r s' ∧ yields i a s s';
  law_verhogen s i a : current s = Some i -> has_asid i a s -> baton a s = Some true ->
    ∃ r s', nucleus VERHOGEN sem_swap_pool_table 0 0 s = Ok r s' ∧ yields i a s s';
  law_flash s i a dev cmd : current s = Some i -> has_asid i a s -> baton a s = Some true -> 1 <= dev <= 8 ->
    ∃ r s', nucleus DOIO (flash_reg dev + dtp_command) cmd 0 s = Ok r s' ∧ yields i a s s' ∧ locked_step i a s s';
  law_flash_unborn s i a cmd : current s = None -> unborn i (world s) -> assigned i a s ->
    ∃ r s', nucleus DOIO (flash_reg a + dtp_command) cmd 0 s = Ok r s' ∧ yields i a s s';
  law_terminate s i : current s = Some i ->
    ∃ st, nucleus TERMINATE 0 0 0 s = Exit (PassedUp TERMINATE) (saves_general i st s);
  law_end s : current s = None -> nucleus TERMINATE 0 0 0 s = Exit Terminated s
}.
End rely.

Lemma table_hi_range a k : 1 <= a <= 8 -> (k < MAXPAGES)%nat -> 0 <= table_hi a k < 2 ^ 32.
Proof.
  intros Ha Hk. unfold table_hi, KUSEG, GETPAGENO, PAGESIZE, MAXPAGES in *. destruct (k =? 31)%nat; lia.
Qed.

(** A loop and one more step, then the rest. *)
Lemma wp_seq2 {S E B} (m1 m2 : M S E unit) (k : unit -> M S E B) Q X s s' :
  (m1 ;; m2) s = Ok tt s' -> wp (k tt) Q X s' -> wp (m1 ;; x <- m2 ;; k x) Q X s.
Proof.
  unfold wp, bind. destruct (m1 s) as [[] s1| | |]; try done. destruct (m2 s1) as [[] s2| | |]; try done.
  intros [= ->]. done.
Qed.

Section steps.
Context {U : Umps} {Lay : Layout} {W : Type} {N : Nucleus W} {T : Tlb W}.
Context (unborn : nat -> W -> Prop) {NL : NucleusLaws unborn}.
Implicit Types (s : sup W) (i j f k : nat) (c : support_t) (w : swap_t).

(** ** Steps that only touch registers *)

Lemma interrupts_off_run s : deactive_interrupts s
  = Ok tt (set_sup_status (status_interrupts_off_nucleus (sup_status s)) s).
Proof. done. Qed.

Lemma interrupts_on_run s : active_interrupts s
  = Ok tt (set_sup_status (status_interrupts_on_nucleus (sup_status s)) s).
Proof. done. Qed.

(** [update_tlb] changes registers and the TLB only. *)
Lemma update_tlb_run e s : ∃ s', update_tlb e s = Ok tt s' ∧ calls s' = calls s ∧ sup_status s' = sup_status s ∧
  (∀ i a, locked_step i a s s') ∧ support_table s' = support_table s ∧
  swap_pool_table s' = swap_pool_table s ∧ words s' = words s.
Proof.
  unfold update_tlb, check_in_tlb, setENTRYHI, TLBP, getINDEX.
  rewrite !bind_assoc, bind_modify, bind_assoc, bind_modify, bind_assoc, bind_gets, bind_ret_l.
  destruct (_ =? 0).
  - unfold setENTRYLO, TLBWI. rewrite !bind_modify. eexists.
    split_and!; try done. intros i a. by apply locked_same.
  - eexists. split_and!; try done. intros i a. by apply locked_same.
Qed.

(** [support_trap]: the call TERMINATE is handed up. *)
Record trapped i (a : Z) s (e : sup_exit) s' : Prop := {
  tr_exit : e = PassedUp TERMINATE;
  tr_step : locked_step i a s s';
  tr_calls : calls s' = (TERMINATE, 0, 0, 0) :: calls s
}.

Lemma support_trap_run i a s : current s = Some i ->
  ∃ s', support_trap s = Exit (PassedUp TERMINATE) s' ∧ trapped i a s (PassedUp TERMINATE) s'.
Proof.
  intros Hc. set (s0 := set_calls ((TERMINATE, 0, 0, 0) :: calls s) s).
  destruct (law_terminate (N := N) s0 i Hc) as (st & Hrun). exists (saves_general i st s0). split.
  - unfold support_trap, SYSCALL. rewrite bind_assoc, bind_modify. by step_with Hrun.
  - split; [done| |done]. eapply locked_trans; [|apply locked_saves]. by apply locked_same.
Qed.

Lemma support_trap_ends s : current s = None ->
  support_trap s = Exit Terminated (set_calls ((TERMINATE, 0, 0, 0) :: calls s) s).
Proof.
  intros Hc. unfold support_trap, SYSCALL. rewrite bind_assoc, bind_modify.
  by step_with (law_end (N := N) (set_calls ((TERMINATE, 0, 0, 0) :: calls s) s) Hc).
Qed.

(** ** The flash driver *)

Lemma flash_run (op : Z) dev block addr s (i : nat) (a : Z) : current s = Some i -> has_asid i a s ->
  baton a s = Some true -> 1 <= dev <= 8 ->
  ∃ r s', (deactive_interrupts ;;
    let reg := flash_reg dev in
    let cmd := flash_command op block in
    write_mem (reg + dtp_data0) addr ;;
    res <- SYSCALL DOIO (reg + dtp_command) cmd 0 ;;
    active_interrupts ;;
    ret res) s = Ok r s' ∧ locked_step i a s s' ∧ support_table s' !! i = support_table s !! i ∧
  calls s' = (DOIO, flash_reg dev + dtp_command, flash_command op block, 0) :: calls s.
Proof.
  intros Hc Ha Hb Hd. step_with (interrupts_off_run s).
  set (s1 := set_sup_status _ s). unfold write_mem. cbv zeta. rewrite bind_modify.
  set (s2 := set_words _ s1). unfold SYSCALL. rewrite bind_assoc, bind_modify.
  set (s3 := set_calls _ s2).
  destruct (law_flash (N := N) s3 i a dev (flash_command op block)) as (r & s4 & Hrun & Hy & Hl); [done..|].
  step_with Hrun. step_with (interrupts_on_run s4). eexists r, _. split_and!; [done | | |].
  - apply (locked_trans i a s s3); [by apply locked_same|]. apply (locked_trans i a s3 s4); [done|].
    by apply locked_same.
  - apply (y_mine _ _ _ _ Hy).
  - apply (y_calls _ _ _ _ Hy).
Qed.

(** ** The steps of the page fault handler *)

(** An assignment to the low word of an entry of one's own page table. *)
Lemma with_pte_numbered k e lo c : sup_private_page_table c !! k = Some e -> numbered c ->
  numbered (set_sup_private_page_table (<[k := set_pte_entry_lo lo e]> (sup_private_page_table c)) c).
Proof.
  intros He [Hl Hhi]. split; [cbn; by rewrite length_insert|]. intros n e' Hn. cbn in Hn.
  apply list_lookup_insert_Some in Hn as [(<- & <- & _)|[_ Hn]]; [by apply (Hhi k e)|by apply Hhi].
Qed.

Lemma with_pte_step s i a k c e lo : support_table s !! i = Some c ->
  sup_private_page_table c !! k = Some e ->
  locked_step i a s (with_pte i k (set_pte_entry_lo lo e) c s).
Proof.
  intros Hc He. pose proof (lookup_lt_Some _ _ _ Hc) as Hil. split; try done.
  - intros j c' Hj _ Hc'. exists c'. unfold with_pte. cbn. by rewrite list_lookup_insert_ne.
  - intros c0 Hc0. rewrite Hc in Hc0. injection Hc0 as <-. eexists. unfold with_pte. cbn.
    rewrite list_lookup_insert_eq by done. split_and!; [done | done | done | by apply with_pte_numbered].
  - intros f. by left.
  - intros [I1 I2 I3]. split; [done | done |].
    intros f w Hw Ho. destruct (I3 f w Hw Ho) as (Ha & j & n & c0 & H1 & H2 & H3 & H4 & H5).
    split; [done|]. unfold with_pte. cbn [support_table set_support_table]. exists j, n.
    destruct (decide (j = i)) as [->|Hne].
    + rewrite Hc in H2. injection H2 as <-. eexists. rewrite list_lookup_insert_eq by done.
      split_and!; [done..| |done]. by apply with_pte_numbered.
    + exists c0. by rewrite list_lookup_insert_ne.
Qed.

(** What the handler knows between taking and releasing the pool. *)
Record locked i (a : Z) s : Prop := {
  lk_current : current s = Some i;
  lk_asid : has_asid i a s;
  lk_baton : baton a s = Some true;
  lk_inv : pool_inv s
}.

Lemma locked_after i a s s' : locked i a s -> locked_step i a s s' -> locked i a s'.
Proof.
  intros [H1 H2 H3 H4] Hs. pose proof Hs as [L1 _ _ _ _ _ L7 L8].
  split; [congruence | by eapply locked_has_asid | congruence | by apply L8].
Qed.

(** Entries of the tables of processes exist. *)
Lemma table_entry c k : numbered c -> (k < MAXPAGES)%nat ->
  ∃ e, sup_private_page_table c !! k = Some e ∧ pte_entry_hi e = table_hi (sup_asid c) k.
Proof.
  intros [Hl He] Hk. destruct (lookup_lt_is_Some_2 (sup_private_page_table c) k) as [e Hek]; [lia|]. eauto.
Qed.

Lemma locked_entry i a s k : locked i a s -> (k < MAXPAGES)%nat ->
  ∃ c e, support_table s !! i = Some c ∧ sup_asid c = a ∧ numbered c ∧ sup_private_page_table c !! k = Some e.
Proof.
  intros [_ (Ha & c & Hc & Hca & Hn) _ Hi] Hk. destruct (table_entry c k Hn Hk) as (e & He & _). eauto 8.
Qed.

Lemma used_entry s f w : pool_inv s -> swap_pool_table s !! f = Some w -> occupied w ->
  ∃ j k c e, sw_pte w = Some (j, k) ∧ support_table s !! j = Some c ∧ (k < MAXPAGES)%nat ∧
    sup_private_page_table c !! k = Some e ∧ pte_entry_hi e = table_hi (sw_asid w) k ∧ 1 <= sw_asid w <= 8.
Proof.
  intros Hi Hw Ho. destruct (pi_used s Hi f w Hw Ho) as (Ha & j & k & c & H1 & H2 & H3 & H4 & H5).
  destruct (table_entry c k H4 H5) as (e & He & Hhi). rewrite H3 in Hhi.
  exists j, k, c, e. done.
Qed.

(** Marking a page of one's own and updating the TLB, atomically. *)
Lemma retag_run i a s k (g : Z -> Z) (p : pte_ptr) (c0 : support_t) e0 :
  locked i a s -> (k < MAXPAGES)%nat -> support_table s !! p.1 = Some c0 ->
  sup_private_page_table c0 !! p.2 = Some e0 ->
  ∃ s', (upd_pte (i, k) (fun e => set_pte_entry_lo (g (pte_entry_lo e)) e) ;;
    e <- pte_at p ;; update_tlb e ;; active_interrupts) s = Ok tt s' ∧
  locked_step i a s s' ∧ calls s' = calls s ∧ swap_pool_table s' = swap_pool_table s ∧
  (∀ j, j ≠ i -> support_table s' !! j = support_table s !! j) ∧
  ∃ c e, support_table s !! i = Some c ∧ sup_private_page_table c !! k = Some e ∧
    support_table s' !! i = Some (set_sup_private_page_table
      (<[k := set_pte_entry_lo (g (pte_entry_lo e)) e]> (sup_private_page_table c)) c).
Proof.
  intros Hl Hk Hp He0. destruct (locked_entry i a s k Hl Hk) as (c & e & Hc & Hca & _ & He).
  step_with (upd_pte_ok s i k c e (fun e => set_pte_entry_lo (g (pte_entry_lo e)) e) Hc He).
  pose proof (with_pte_step s i a k c e (g (pte_entry_lo e)) Hc He) as Hstep.
  pose proof (lookup_lt_Some _ _ _ Hc) as Hil. set (s1 := with_pte i k _ c s) in *.
  assert (∃ c1 e1, support_table s1 !! p.1 = Some c1 ∧ sup_private_page_table c1 !! p.2 = Some e1)
    as (c1 & e1 & Hc1 & He1).
  { unfold s1, with_pte. cbn [support_table set_support_table]. destruct (decide (p.1 = i)) as [Hpi|Hne].
    - rewrite Hpi in Hp |- *. rewrite Hc in Hp. injection Hp as <-. eexists. rewrite list_lookup_insert_eq by done.
      destruct (decide (p.2 = k)) as [->|Hne]; eexists; (split; [done|]); cbn.
      + apply list_lookup_insert_eq. by eapply lookup_lt_Some.
      + by rewrite list_lookup_insert_ne.
    - exists c0, e0. by rewrite list_lookup_insert_ne. }
  destruct p as [j n]. step_with (pte_at_ok s1 j n c1 e1 Hc1 He1).
  destruct (update_tlb_run e1 s1) as (s2 & Hrun & Hcalls & _ & Hl2 & Htab & Hfr & _). step_with Hrun.
  rewrite interrupts_on_run. eexists. split_and!; [done | | exact Hcalls | exact Hfr | |].
  - apply (locked_trans i a s s1); [done|]. apply (locked_trans i a s1 s2); [done|].
    by apply locked_same.
  - intros x Hx. cbn. rewrite Htab. cbn. by rewrite list_lookup_insert_ne.
  - exists c, e. split_and!; [done | done |]. cbn. rewrite Htab. cbn. by apply list_lookup_insert_eq.
Qed.

(** Giving up a page: the entry that is cleared is one of one's own table. *)
Lemma invalidate_run i a s k p c0 e0 : locked i a s -> (k < MAXPAGES)%nat ->
  support_table s !! p.1 = Some c0 -> sup_private_page_table c0 !! p.2 = Some e0 ->
  ∃ s', invalidate i k p s = Ok tt s' ∧ locked_step i a s s' ∧ calls s' = calls s ∧
    swap_pool_table s' = swap_pool_table s ∧
    (∀ j, j ≠ i -> support_table s' !! j = support_table s !! j) ∧
    ∃ c e, support_table s' !! i = Some c ∧ sup_private_page_table c !! k = Some e ∧ pte_entry_lo e = 0.
Proof.
  intros Hl Hk Hp He0. unfold invalidate. step_with (interrupts_off_run s).
  set (s1 := set_sup_status _ s). assert (locked_step i a s s1) as Hs1 by (by apply locked_same).
  destruct (retag_run i a s1 k (fun lo => Z.land lo (if VALIDON =? 0 then 1 else 0)) p c0 e0)
    as (s2 & Hrun & Hs2 & Hcalls2 & Hfr2 & Hoth & c & e & Hc & He & Hc2); [by eapply locked_after | done | done | done |].
  exists s2. split_and!; [exact Hrun | by eapply locked_trans | exact Hcalls2 | exact Hfr2 | exact Hoth |].
  eexists _, _. split_and!; [exact Hc2 | cbn; apply list_lookup_insert_eq; by eapply lookup_lt_Some |].
  cbn. apply Z.land_0_r.
Qed.

Definition flash_write_call (asid : Z) (k : nat) : Z * Z * Z * Z :=
  (DOIO, flash_reg asid + dtp_command, flash_command FLASHWRITE (Z.of_nat k), 0).
Definition flash_read_call (asid : Z) (k : nat) : Z * Z * Z * Z :=
  (DOIO, flash_reg asid + dtp_command, flash_command FLASHREAD (Z.of_nat k), 0).

(** The address of frame [f], and the low word of an entry that maps it. *)
Definition frame_address s f : Z := u32 (swap_pool_addr s + Z.of_nat f * PAGESIZE).
Definition frame_entry s f : Z := Z.lor (Z.lor (frame_address s f) VALIDON) DIRTYON.

Lemma frame_address_ext s s' f : swap_pool_addr s' = swap_pool_addr s -> frame_address s' f = frame_address s f.
Proof. unfold frame_address. by intros ->. Qed.

(** The page of frame [f], recorded in [w], is written from the frame to its
    place on its owner's flash device, which answers [r]. *)
Definition written_back i (a : Z) f w (r : Z) s s' : Prop :=
  locked_step i a s s' ∧ ∃ j k s0, sw_pte w = Some (j, k) ∧
    invalidate i k (j, k) s = Ok tt s0 ∧ locked_step i a s s0 ∧
    write_flash (sw_asid w) (Z.of_nat k) (frame_address s f) s0 = Ok r s' ∧
    calls s' = flash_write_call (sw_asid w) k :: calls s.

(** Evicting the page: it goes on exactly if the device succeeds. *)
Lemma evict_run i a s f w : locked i a s -> swap_pool_table s !! f = Some w -> occupied w ->
  wp (evict i f w) (fun _ s' => written_back i a f w DEV_STATUS_READY s s')
    (fun e s' => ∃ r s1, written_back i a f w r s s1 ∧ r ≠ DEV_STATUS_READY ∧ trapped i a s1 e s') s.
Proof.
  intros Hl Hw Ho. pose proof Hl as [Hcur Hasid Hbat Hinv].
  destruct (used_entry s f w Hinv Hw Ho) as (j & k & c0 & e & Hpte & Hc0 & Hk & He & Hhi & Hwa).
  pose proof (table_hi_range (sw_asid w) k Hwa Hk) as Hr.
  unfold evict. rewrite Hpte. eapply wp_step; [done|].
  eapply wp_step; [by apply (pte_at_ok s j k c0 e)|]. rewrite Hhi.
  destruct (entryhi_ok (table_hi (sw_asid w) k) k s Hr) as [Hv Hx]; [by apply page_of_table_hi|].
  eapply wp_step; [exact Hv|]. eapply wp_step; [exact Hx|].
  destruct (invalidate_run i a s k (j, k) c0 e Hl Hk Hc0 He) as (s2 & Hrun & Hs02 & Hcalls2 & _).
  eapply wp_step; [exact Hrun|].
  pose proof (locked_after i a s s2 Hl Hs02) as Hl2.
  assert (f < POOLSIZE)%nat as Hf by (rewrite <-(pi_frames s Hinv); by eapply lookup_lt_Some).
  assert (page_addr f s2 = Ok (frame_address s f) s2) as Haddr.
  { rewrite <-(frame_address_ext s s2 f) by apply Hs02. unfold page_addr. by destruct (Nat.leb_spec POOLSIZE f); [lia|]. }
  eapply wp_step; [exact Haddr|].
  destruct (flash_run FLASHWRITE (sw_asid w) (Z.of_nat k) (frame_address s f) s2 i a)
    as (r & s3 & Hrun3 & Hs3 & _ & Hcalls3); [apply Hl2 | apply Hl2 | apply Hl2 | done |].
  eapply wp_step; [exact Hrun3|].
  assert (written_back i a f w r s s3) as Hout.
  { split; [by eapply locked_trans|]. exists j, k, s2. split_and!; try done. by rewrite Hcalls3, Hcalls2. }
  destruct (Z.eqb_spec r DEV_STATUS_READY) as [->|Hbad]; cbn [negb]; [by apply wp_ret|].
  eapply wp_step; [done|]. unfold wp. set (s4 := set_slog _ s3).
  destruct (support_trap_run i a s4) as (s5 & -> & [_ Hs5 Hcalls5]).
  { exact (eq_trans (ls_current i a s s3 (proj1 Hout)) Hcur). }
  exists r, s3. split_and!; [done | done |]. split; [done | | exact Hcalls5].
  eapply locked_trans; [|exact Hs5]. by apply locked_same.
Qed.

(** ** The page fault handler *)

Lemma add_entry_run f a vpn i k w s : swap_pool_table s !! f = Some w ->
  (∀ s, vpn_to_index vpn s = Ok k s) ->
  add_entry_swap_pool_table f a vpn i s
  = Ok tt (set_swap_pool_table (<[f := Swap a vpn (Some (i, k))]> (swap_pool_table s)) s).
Proof.
  intros Hw Hidx.
  pose proof (lookup_lt_Some _ _ _ Hw) as Hlt.
  unfold add_entry_swap_pool_table. step_with (upd_frame_ok s f w (set_sw_asid a) Hw).
  erewrite bind_ok; [|by apply upd_frame_ok; cbn; apply list_lookup_insert_eq]. cbv beta.
  erewrite bind_ok; [|apply Hidx]. cbv beta.
  erewrite upd_frame_ok; [|cbn; apply list_lookup_insert_eq; by rewrite length_insert].
  cbn. rewrite !list_insert_insert_eq. done.
Qed.

Lemma pool_inv_entry s f a vpn i k c : pool_inv s -> support_table s !! i = Some c -> sup_asid c = a ->
  1 <= a <= 8 -> numbered c -> (k < MAXPAGES)%nat ->
  pool_inv (set_swap_pool_table (<[f := Swap a vpn (Some (i, k))]> (swap_pool_table s)) s).
Proof.
  intros [I1 I2 I3] Hc Hca Ha Hn Hk. split; [cbn; by rewrite length_insert | done |].
  intros f' w' Hw' Ho. cbn in Hw'. apply list_lookup_insert_Some in Hw' as [(<- & <- & _)|[_ Hw']].
  - split; [done|]. exists i, k, c. done.
  - by apply (I3 f' w').
Qed.

(** The pool is taken: what the handler starts its work from. *)
Record taken i (a : Z) s s1 : Prop := {
  tk_locked : locked i a s1;
  tk_calls : calls s1 = (PASSEREN, sem_swap_pool_table, 0, 0) :: calls s;
  tk_addr : swap_pool_addr s1 = swap_pool_addr s;
  tk_mine : support_table s1 !! i = support_table s !! i
}.

Lemma pool_taken i a s : current s = Some i -> has_asid i a s -> pool_inv s ->
  ∃ r s1 s2, SYSCALL PASSEREN sem_swap_pool_table 0 0 s = Ok r s1 ∧
    set_swap_pool_baton a true s1 = Ok tt s2 ∧ taken i a s s2 ∧ support_table s2 = support_table s1.
Proof.
  intros Hcur Hasid Hinv.
  set (s0 := set_calls ((PASSEREN, sem_swap_pool_table, 0, 0) :: calls s) s).
  destruct (law_passeren (N := N) s0 i a) as (r & s1 & Hrun & [Y1 Y2 Y3 Y4 Y5 Y6 Y7]); [done | done|].
  assert (pool_inv s1) as Hinv1 by (apply Y7; by apply (pool_inv_ext s)).
  assert (has_asid i a s1) as Hasid1.
  { destruct Hasid as (Ha & c & Hc & Hca). split; [done|]. exists c. by rewrite Y5. }
  destruct Hasid as [Ha _].
  pose proof (set_swap_pool_baton_ok a true s1 Ha (pi_batons _ Hinv1)) as Hset.
  eexists r, s1, _. split_and!; [unfold SYSCALL; by rewrite bind_modify | exact Hset | | done].
  destruct (baton_index a s1 Ha (pi_batons _ Hinv1)) as [b Hb].
  split; [|exact Y2 | exact Y3 | exact Y5]. split; [by cbn; rewrite Y1 | done | |].
  - unfold baton. cbn. apply list_lookup_insert_eq. by eapply lookup_lt_Some.
  - destruct Hinv1. split; [done | cbn; by rewrite length_insert | done].
Qed.

Lemma install_run i a s f k vpn addr : locked i a s -> (f < POOLSIZE)%nat -> (k < MAXPAGES)%nat ->
  (∀ s, vpn_to_index vpn s = Ok k s) ->
  ∃ s', install f a vpn i k addr s = Ok tt s' ∧ locked i a s' ∧ calls s' = calls s ∧
    (∀ j, j ≠ i -> support_table s' !! j = support_table s !! j) ∧
    swap_pool_table s' !! f = Some (Swap a vpn (Some (i, k))) ∧
    ∃ c e, support_table s' !! i = Some c ∧ sup_private_page_table c !! k = Some e ∧
      e = Pte (table_hi a k) (Z.lor (Z.lor addr VALIDON) DIRTYON).
Proof.
  intros Hl Hf Hk Hv. pose proof Hl as [Hcur Hasid Hbat Hinv].
  destruct (lookup_lt_is_Some_2 (swap_pool_table s) f) as [w Hw]; [by rewrite (pi_frames s Hinv)|].
  unfold install. step_with (interrupts_off_run s). set (s1 := set_sup_status _ s).
  step_with (add_entry_run f a vpn i k w s1 Hw Hv). set (s2 := set_swap_pool_table _ s1).
  destruct Hasid as (Ha & c & Hc & Hca & Hn).
  assert (locked i a s2) as Hl2.
  { split; [done | split; [done | by exists c] | done |].
    apply (pool_inv_entry s1 f a vpn i k c); try done. by apply (pool_inv_ext s). }
  destruct (table_entry c k Hn Hk) as (e & He & Hhi).
  destruct (retag_run i a s2 k (fun _ => Z.lor (Z.lor addr VALIDON) DIRTYON) (i, k) c e Hl2 Hk Hc He)
    as (s3 & Hrun & Hs3 & Hcalls3 & Hfr3 & Hoth & c2 & e2 & Hc2 & He2 & Htab).
  exists s3. split_and!; [exact Hrun | by eapply locked_after | exact Hcalls3 | exact Hoth | | ].
  - rewrite Hfr3. cbn. apply list_lookup_insert_eq. by eapply lookup_lt_Some.
  - eexists _, _. split_and!; [exact Htab | cbn; apply list_lookup_insert_eq; by eapply lookup_lt_Some |].
    assert (c2 = c) as -> by (cbn in Hc2; congruence). assert (e2 = e) as -> by congruence.
    unfold set_pte_entry_lo. by rewrite Hhi, Hca.
Qed.

(** The calls that write the page of the frame [w] back, if it has one. *)
Definition victim_calls w : list (Z * Z * Z * Z) :=
  match sw_pte w with
  | Some (_, k) => if check_frame_occupied w then [flash_write_call (sw_asid w) k] else []
  | None => []
  end.

(** Making room: a free frame is left alone, an occupied one is written back. *)
Definition room i (a : Z) f w s s' : Prop :=
  if check_frame_occupied w then written_back i a f w DEV_STATUS_READY s s' else s' = s.

Lemma victim_written i a f w r s s' : check_frame_occupied w = true -> written_back i a f w r s s' ->
  calls s' = victim_calls w ++ calls s.
Proof. intros Ho (_ & j & k & s0 & Hp & _ & _ & _ & Hc). unfold victim_calls. by rewrite Hp, Ho, Hc. Qed.

Lemma room_calls i a f w s s' : room i a f w s s' -> calls s' = victim_calls w ++ calls s.
Proof.
  unfold room. destruct (check_frame_occupied w) eqn:Ho; [by apply victim_written|].
  intros ->. unfold victim_calls. rewrite Ho. by destruct (sw_pte w) as [[]|].
Qed.

Lemma room_step i a f w s s' : room i a f w s s' -> locked_step i a s s'.
Proof. unfold room. destruct (check_frame_occupied w); [by intros [H _]|intros ->; apply locked_refl]. Qed.

Lemma make_room_run i a s f w : locked i a s -> swap_pool_table s !! f = Some w ->
  wp (when check_frame_occupied w do evict i f w) (fun _ s' => room i a f w s s')
    (fun e s' => check_frame_occupied w = true ∧
      ∃ r s1, written_back i a f w r s s1 ∧ r ≠ DEV_STATUS_READY ∧ trapped i a s1 e s') s.
Proof.
  intros Hl Hw. unfold room. destruct (check_frame_occupied w) eqn:Ho; [|by apply wp_ret].
  eapply wp_mono; [apply (evict_run i a s f w Hl Hw); by apply occupied_spec|done|done].
Qed.

(** How a page fault of process [i] on its page [k] ends, from the state [s1]
    in which the pool is taken.  [f] is the frame that is picked and [w] what
    it held.  The write to the device of the frame's owner fails; or that
    succeeds, or is not needed, and reading the page from the process' own
    device into the frame fails; or both succeed, the frame and the entry are
    recorded, and the pool is released in that state, [s5]. *)
Inductive fault_outcome i (a : Z) k (saved : state_t) s1 : sup_exit -> sup W -> Prop :=
| write_failed f s2 m w r s3 e s' :
    pick_page s1 = Ok f s2 -> swap_pool_table s2 !! f = Some w -> check_frame_occupied w = true ->
    written_back i a f w r (set_slog (m :: slog s2) s2) s3 -> r ≠ DEV_STATUS_READY ->
    trapped i a s3 e s' -> calls s' = (TERMINATE, 0, 0, 0) :: victim_calls w ++ calls s1 ->
    fault_outcome i a k saved s1 e s'
| read_failed f s2 m w s3 r s4 e s' :
    pick_page s1 = Ok f s2 -> swap_pool_table s2 !! f = Some w ->
    room i a f w (set_slog (m :: slog s2) s2) s3 ->
    read_flash a (Z.of_nat k) (frame_address s1 f) s3 = Ok r s4 -> r ≠ DEV_STATUS_READY ->
    trapped i a s4 e s' ->
    calls s' = (TERMINATE, 0, 0, 0) :: flash_read_call a k :: victim_calls w ++ calls s1 ->
    fault_outcome i a k saved s1 e s'
| page_brought_in f s2 m w s3 s4 s5 r s6 c :
    pick_page s1 = Ok f s2 -> swap_pool_table s2 !! f = Some w ->
    room i a f w (set_slog (m :: slog s2) s2) s3 ->
    read_flash a (Z.of_nat k) (frame_address s1 f) s3 = Ok DEV_STATUS_READY s4 ->
    install f a (entry_hi saved / PAGESIZE) i k (frame_address s1 f) s4 = Ok tt s5 ->
    swap_pool_table s5 !! f = Some (Swap a (entry_hi saved / PAGESIZE) (Some (i, k))) ->
    SYSCALL VERHOGEN sem_swap_pool_table 0 0 s5 = Ok r s6 ->
    support_table s6 !! i = Some c ->
    sup_private_page_table c !! k = Some (Pte (table_hi a k) (frame_entry s1 f)) ->
    calls s6 = (VERHOGEN, sem_swap_pool_table, 0, 0) :: flash_read_call a k :: victim_calls w ++ calls s1 ->
    fault_outcome i a k saved s1 (Resumed saved)
      (set_swap_pool_batons (<[Z.to_nat (a - 1) := false]> (swap_pool_batons s6)) s6).

Definition fault_served i (a : Z) k s (saved : state_t) (e : sup_exit) s' : Prop :=
  pool_inv s' ∧ (e = Resumed saved ∧ baton a s' = Some false \/ e = PassedUp TERMINATE ∧ baton a s' = Some true) ∧
  ∃ s0 s1, SYSCALL GETSUPPORTPTR 0 0 0 s = Ok (support_addr i) s0 ∧ taken i a s0 s1 ∧
    calls s0 = (GETSUPPORTPTR, 0, 0, 0) :: calls s ∧ swap_pool_addr s1 = swap_pool_addr s ∧
    fault_outcome i a k saved s1 e s'.

Lemma locked_ext i a s s' : current s' = current s -> support_table s' = support_table s ->
  swap_pool_table s' = swap_pool_table s -> swap_pool_batons s' = swap_pool_batons s ->
  locked i a s -> locked i a s'.
Proof.
  intros H1 H2 H3 H4 [L1 L2 L3 L4]. split; [by rewrite H1 | by unfold has_asid; rewrite H2 |
    by unfold baton; rewrite H4 | by apply (pool_inv_ext s)].
Qed.

(** From the chosen frame to the release of the pool. *)
Definition bring_in i (a : Z) (saved : state_t) (p_vpn : Z) k f (addr : Z) : SM (W := W) unit :=
  swap <- frame_at f ;;
  when check_frame_occupied swap do evict i f swap ;;
  read_status <- read_flash a (Z.of_nat k) addr ;;
  when negb (read_status =? DEV_STATUS_READY) do
    (kfprintf "Error on flash read (p_index = %d, status = %d)\n" [Z.of_nat k; read_status] ;;
     support_trap) ;;
  install f a p_vpn i k addr ;;
  _ <- SYSCALL VERHOGEN sem_swap_pool_table 0 0 ;;
  set_swap_pool_baton a false ;;
  load_saved saved.

(** What holds after the handler besides its outcome. *)
Definition left_behind i (a : Z) (saved : state_t) (e : sup_exit) s' : Prop :=
  pool_inv s' ∧ (e = Resumed saved ∧ baton a s' = Some false \/ e = PassedUp TERMINATE ∧ baton a s' = Some true).

Lemma trapped_left i a saved s s' e : locked i a s -> trapped i a s e s' -> left_behind i a saved e s'.
Proof.
  intros Hl [-> Hs _]. destruct (locked_after i a s s' Hl Hs) as [_ _ Hb Hi]. split; [done|]. by right.
Qed.

Lemma bring_in_run i a s1 s2 m saved k f : locked i a s1 -> pick_page s1 = Ok f s2 ->
  locked i a (set_slog (m :: slog s2) s2) -> calls s2 = calls s1 -> swap_pool_addr s2 = swap_pool_addr s1 ->
  (f < POOLSIZE)%nat -> 0 <= entry_hi saved < 2 ^ 32 -> page_of (entry_hi saved) = Some k ->
  wp (bring_in i a saved (entry_hi saved / PAGESIZE) k f (frame_address s1 f))
    (fun _ _ => False) (fun e s' => left_behind i a saved e s' ∧ fault_outcome i a k saved s1 e s')
    (set_slog (m :: slog s2) s2).
Proof.
  intros Hl0 Hpick Hl Hcalls Haddr Hf He Hp. pose proof (page_of_bound _ _ Hp) as Hk.
  set (s := set_slog (m :: slog s2) s2) in *. assert (calls s = calls s1) as Hcs by done.
  destruct (lookup_lt_is_Some_2 (swap_pool_table s2) f) as [w Hw]; [exact (eq_ind_r (λ n, (f < n)%nat) Hf (pi_frames s (lk_inv i a s Hl)))|].
  unfold bring_in. eapply wp_step; [by apply frame_at_ok|].
  apply wp_bind. eapply wp_mono; [by apply make_room_run| |].
  2: { intros e s' (Ho & r & s3 & Hwb & Hr & Htr). pose proof (locked_after i a s s3 Hl (proj1 Hwb)) as Hl3.
       split; [by eapply trapped_left|]. eapply write_failed; try done.
       by rewrite (tr_calls _ _ _ _ _ Htr), (victim_written _ _ _ _ _ _ _ Ho Hwb), Hcs. }
  intros [] s3 Hroom. pose proof (locked_after i a s s3 Hl (room_step _ _ _ _ _ _ Hroom)) as Hl3.
  destruct (flash_run FLASHREAD a (Z.of_nat k) (frame_address s1 f) s3 i a)
    as (r & s4 & Hrun4 & Hs4 & _ & Hcalls4); [apply Hl3 | apply Hl3 | apply Hl3 | apply (lk_asid _ _ _ Hl3) |].
  eapply wp_step; [exact Hrun4|]. pose proof (locked_after i a s3 s4 Hl3 Hs4) as Hl4.
  rewrite (room_calls _ _ _ _ _ _ Hroom), Hcs in Hcalls4.
  destruct (Z.eqb_spec r DEV_STATUS_READY) as [->|Hbad]; cbn [negb].
  2: { apply wp_bind. eapply wp_step; [done|]. unfold wp. set (s5 := set_slog _ s4).
       destruct (support_trap_run i a s5) as (s6 & -> & [_ Hs6 Hcalls6]); [apply Hl4|].
       assert (trapped i a s4 (PassedUp TERMINATE) s6) as Htr.
       { split; [done| |exact Hcalls6]. eapply locked_trans; [|exact Hs6]. by apply locked_same. }
       split; [by eapply trapped_left|]. eapply read_failed; try done. rewrite Hcalls6. cbn. by rewrite Hcalls4. }
  eapply wp_step; [done|].
  destruct (install_run i a s4 f k (entry_hi saved / PAGESIZE) (frame_address s1 f) Hl4 Hf Hk)
    as (s5 & Hrun5 & Hl5 & Hcalls5 & _ & Hfr & c & e & Hc & Hek & ->).
  { intros s'. by apply (entryhi_ok (entry_hi saved) k s' He Hp). }
  eapply wp_step; [exact Hrun5|].
  set (s5' := set_calls ((VERHOGEN, sem_swap_pool_table, 0, 0) :: calls s5) s5).
  assert (locked i a s5') as Hl5' by (by apply (locked_ext i a s5)).
  destruct (law_verhogen (N := N) s5' i a) as (r' & s6 & Hrun6 & [Y1 Y2 Y3 Y4 Y5 Y6 Y7]); [apply Hl5'..|].
  assert (SYSCALL VERHOGEN sem_swap_pool_table 0 0 s5 = Ok r' s6) as Hv by (unfold SYSCALL; by rewrite bind_modify).
  eapply wp_step; [exact Hv|]. specialize (Y7 (lk_inv _ _ _ Hl5')). pose proof (lk_asid _ _ _ Hl) as (Ha & _).
  eapply wp_step; [apply set_swap_pool_baton_ok; [done | apply Y7]|].
  destruct (baton_index a s6 Ha (pi_batons _ Y7)) as [b Hb]. split.
  - split; [|left; split; [done|]].
    + destruct Y7. split; [done | cbn; by rewrite length_insert | done].
    + unfold baton. cbn. apply list_lookup_insert_eq. by eapply lookup_lt_Some.
  - eapply (page_brought_in i a k saved s1 f s2 m w s3 s4 s5 r' s6 c); try done.
    + by rewrite Y5.
    + rewrite Y2. cbn. by rewrite Hcalls5, Hcalls4.
Qed.

(** A process asks for its Support Structure. *)
Lemma getsupportptr_run i a s c : current s = Some i -> pool_inv s -> support_table s !! i = Some c ->
  has_asid i a s ->
  ∃ s', SYSCALL GETSUPPORTPTR 0 0 0 s = Ok (support_addr i) s' ∧ current s' = Some i ∧ pool_inv s' ∧
    support_table s' !! i = Some c ∧ calls s' = (GETSUPPORTPTR, 0, 0, 0) :: calls s ∧
    swap_pool_addr s' = swap_pool_addr s.
Proof.
  intros Hcur Hinv Hc Ha. set (s0 := set_calls ((GETSUPPORTPTR, 0, 0, 0) :: calls s) s).
  destruct (law_getsupportptr (N := N) s0 i a Hcur Ha) as (s' & Hrun & [Y1 Y2 Y3 Y4 Y5 Y6 Y7]).
  exists s'. split_and!; [unfold SYSCALL; by rewrite bind_modify | by rewrite Y1 | | by rewrite Y5 | done | done].
  apply Y7. by apply (pool_inv_ext s).
Qed.

Lemma support_tlb_run i a s c k : current s = Some i -> pool_inv s -> support_table s !! i = Some c ->
  has_asid i a s ->
  let saved := sup_except_state c !!! PGFAULTEXCEPT in
  cause saved ≠ CAUSE_TLB_MOD -> 0 <= entry_hi saved < 2 ^ 32 -> page_of (entry_hi saved) = Some k ->
  wp support_tlb (fun _ _ => False) (fault_served i a k s saved) s.
Proof.
  intros Hcur Hinv Hc Hasid saved Hcause He Hp. unfold support_tlb.
  assert (sup_asid c = a ∧ numbered c) as [Hca Hn].
  { destruct Hasid as (_ & c' & Hc' & H1 & H2). rewrite Hc in Hc'. by injection Hc' as <-. }
  destruct (getsupportptr_run i a s c Hcur Hinv Hc Hasid)
    as (s0 & Hrun0 & Hcur0 & Hinv0 & Hc0 & Hcalls0 & Haddr0).
  eapply wp_step; [exact Hrun0|].
  eapply wp_step; [unfold support_ptr; by rewrite law_support_addr|].
  eapply wp_step; [by apply (support_at_ok s0 i c)|]. cbv zeta. fold saved.
  destruct (Z.eqb_spec (cause saved) CAUSE_TLB_MOD) as [|_]; [done|].
  assert (has_asid i a s0) as Hasid0 by (split; [apply Hasid | by exists c]).
  destruct (pool_taken i a s0 Hcur0 Hasid0 Hinv0) as (r & s1 & s2 & Hrun1 & Hrun2 & Htk & Htab).
  eapply wp_step; [exact Hrun1|].
  eapply wp_step; [apply (support_at_ok s1 i c); by rewrite <-Htab, (tk_mine _ _ _ _ Htk)|]. rewrite Hca.
  eapply wp_step; [exact Hrun2|]. pose proof (tk_locked _ _ _ _ Htk) as Hl2.
  destruct (pick_page_range s2 (pi_frames s2 (lk_inv _ _ _ Hl2))) as (f & l & Hpick & Hf & _).
  eapply wp_step; [exact Hpick|]. set (s3 := set_last_frame l s2) in *.
  eapply wp_step; [done|]. eapply wp_step; [done|]. set (s4 := set_slog _ s3).
  destruct (entryhi_ok (entry_hi saved) k s4 He Hp) as [Hv Hx].
  eapply wp_step; [exact Hv|]. eapply wp_step; [exact Hx|].
  change (u32 (swap_pool_addr s3 + Z.of_nat f * PAGESIZE)) with (frame_address s2 f).
  eapply wp_mono; [apply (bring_in_run i a s2 s3 _ saved k f); try done|done|].
  - by apply (locked_ext i a s2).
  - intros e s' [[Hi Hb] Hout]. split; [done|]. split; [done|]. exists s0, s2. split_and!; try done.
    by rewrite (tk_addr _ _ _ _ Htk).
Qed.

(** ** Termination of a process *)

Lemma imap_all {A} (g : nat -> A -> A) n (l : list A) : length l = n ->
  imap (fun k x => if decide (0 <= k < 0 + n)%nat then g k x else x) l = imap g l.
Proof.
  intros Hl. apply list_eq. intros k. rewrite !list_lookup_imap. destruct (l !! k) eqn:Hk; [|done].
  cbn. rewrite decide_True; [done|]. apply lookup_lt_Some in Hk. lia.
Qed.

Definition vacate (a : Z) (w : swap_t) : swap_t := if sw_asid w =? a then set_sw_asid (-1) w else w.

Lemma mark_frames_run a s : length (swap_pool_table s) = POOLSIZE ->
  mark_frames_as_unoccupied a s = Ok tt (set_swap_pool_table (vacate a <$> swap_pool_table s) s).
Proof.
  intros Hl. unfold mark_frames_as_unoccupied.
  rewrite (for_imap swap_pool_table set_swap_pool_table) with (g := fun _ => vacate a); try done.
  - rewrite imap_all by done. do 2 f_equal. apply list_eq. intros k. rewrite list_lookup_imap, list_lookup_fmap.
    by destruct (swap_pool_table s !! k).
  - by intros [].
  - intros k s' w Hw. step_with (frame_at_ok s' k w Hw). unfold vacate. destruct (sw_asid w =? a).
    + by apply upd_frame_ok.
    + unfold ret. rewrite list_insert_id by done. by destruct s'.
  - lia.
Qed.

Lemma pool_inv_vacate a s : pool_inv s -> pool_inv (set_swap_pool_table (vacate a <$> swap_pool_table s) s).
Proof.
  intros [I1 I2 I3]. split; [cbn; by rewrite length_fmap | done |].
  intros f w Hw Ho. cbn in Hw.
  rewrite list_lookup_fmap in Hw. destruct (swap_pool_table s !! f) as [w0|] eqn:Hw0; [|done].
  injection Hw as <-. unfold vacate in *. destruct (Z.eqb_spec (sw_asid w0) a).
  - by destruct Ho.
  - by apply (I3 f w0).
Qed.

Lemma clean_after_uproc_run i a s b : current s = Some i -> has_asid i a s -> pool_inv s ->
  baton a s = Some b ->
  ∃ s', clean_after_uproc a s = Ok tt s' ∧ pool_inv s' ∧
    (∀ f w, swap_pool_table s' !! f = Some w -> sw_asid w ≠ a) ∧
    (∀ f w, swap_pool_table s !! f = Some w -> sw_asid w ≠ a -> b = false -> swap_pool_table s' !! f = Some w) ∧
    calls s' = (if b then [(VERHOGEN, sem_swap_pool_table, 0, 0)] else []) ++ calls s.
Proof.
  intros Hcur Hasid Hinv Hb. pose proof Hasid as [Ha _]. unfold clean_after_uproc, release_sem_swap_pool_table.
  assert (∀ s1, pool_inv s1 -> calls s1 = (if b then [(VERHOGEN, sem_swap_pool_table, 0, 0)] else []) ++ calls s ->
    (b = false -> swap_pool_table s1 = swap_pool_table s) ->
    ∃ s', mark_frames_as_unoccupied a s1 = Ok tt s' ∧ pool_inv s' ∧
    (∀ f w, swap_pool_table s' !! f = Some w -> sw_asid w ≠ a) ∧
    (∀ f w, swap_pool_table s !! f = Some w -> sw_asid w ≠ a -> b = false -> swap_pool_table s' !! f = Some w) ∧
    calls s' = (if b then [(VERHOGEN, sem_swap_pool_table, 0, 0)] else []) ++ calls s) as Hmark.
  { intros s1 Hi1 Hcalls Hsame. eexists. split_and!; [apply mark_frames_run, Hi1 | by apply pool_inv_vacate | | | exact Hcalls].
    - intros f w Hw. cbn in Hw.
      rewrite list_lookup_fmap in Hw. destruct (swap_pool_table s1 !! f) as [w0|]; [|done].
      injection Hw as <-. unfold vacate. destruct (Z.eqb_spec (sw_asid w0) a); [cbn; lia | done].
    - intros f w Hw Hne Hbf. cbn. rewrite list_lookup_fmap, Hsame, Hw by done.
      cbn. unfold vacate. by destruct (Z.eqb_spec (sw_asid w) a). }
  rewrite bind_assoc. step_with (get_swap_pool_baton_ok a s b Ha Hb). destruct b.
  - rewrite bind_assoc. unfold SYSCALL. rewrite bind_assoc, bind_modify.
    set (s0 := set_calls _ s).
    destruct (law_verhogen (N := N) s0 i a) as (r & s1 & Hrun & Hy); [done | done | done |].
    step_with Hrun. rewrite bind_ret_l. apply Hmark; [|exact (y_calls _ _ _ _ Hy) | done].
    apply (y_inv _ _ _ _ Hy). by apply (pool_inv_ext s).
  - rewrite bind_ret_l. by apply Hmark.
Qed.

(** ** Initialisation *)

Definition table_of i s : list pte_entry_t :=
  match support_table s !! i with Some c => sup_private_page_table c | None => [] end.
Definition set_table_of i (l : list pte_entry_t) s : sup W :=
  set_support_table (alter (set_sup_private_page_table l) i (support_table s)) s.

Lemma table_of_set i l s : length l = length (table_of i s) -> table_of i (set_table_of i l s) = l.
Proof.
  unfold table_of, set_table_of. cbn. rewrite list_lookup_alter_eq.
  destruct (support_table s !! i); cbn; [done|]. by destruct l.
Qed.

Lemma set_table_of_id i s : set_table_of i (table_of i s) s = s.
Proof.
  unfold table_of, set_table_of. destruct (support_table s !! i) as [c|] eqn:Hc.
  - replace (alter _ i (support_table s)) with (support_table s); [by destruct s|]. symmetry.
    apply list_eq. intros j. destruct (decide (j = i)) as [->|]; [|by rewrite list_lookup_alter_ne].
    rewrite list_lookup_alter_eq, Hc. cbn. by destruct c.
  - replace (alter (set_sup_private_page_table []) i (support_table s)) with (support_table s); [by destruct s|].
    apply list_eq. intros j. destruct (decide (j = i)) as [->|]; [rewrite list_lookup_alter_eq, Hc; done|].
    by rewrite list_lookup_alter_ne.
Qed.

Lemma set_table_of_twice i l l' s : set_table_of i l (set_table_of i l' s) = set_table_of i l s.
Proof.
  unfold set_table_of. cbn. by rewrite list_alter_alter_eq.
Qed.

(** The entry that [init_page_table] writes. *)
Definition fresh_entry (a text : Z) k : pte_entry_t :=
  Pte (table_hi a k) (if Z.of_nat k <? text then 0 else DIRTYON).

Lemma upd_own_pte i k s e (v : pte_entry_t) : table_of i s !! k = Some e ->
  upd_pte (i, k) (fun _ => v) s = Ok tt (set_table_of i (<[k := v]> (table_of i s)) s).
Proof.
  unfold table_of, set_table_of. intros He. destruct (support_table s !! i) as [c|] eqn:Hc; [|done].
  rewrite (upd_pte_ok s i k c e (fun _ => v) Hc He). unfold with_pte. do 2 f_equal.
  apply list_eq. intros j. destruct (decide (j = i)) as [->|].
  - rewrite list_lookup_insert_eq, list_lookup_alter_eq, Hc by (by eapply lookup_lt_Some). done.
  - by rewrite list_lookup_insert_ne, list_lookup_alter_ne.
Qed.

Lemma table_hi_word a k : 1 <= a <= 8 -> (k < 31)%nat ->
  u32 (KUSEG + Z.shiftl (Z.of_nat k) VPNSHIFT + Z.shiftl a ASIDSHIFT) = table_hi a k.
Proof.
  intros Ha Hk. unfold VPNSHIFT, ASIDSHIFT. rewrite !Z.shiftl_mul_pow2 by lia.
  unfold table_hi, KUSEG, PAGESIZE. destruct (Nat.eqb_spec k 31); [lia|]. rewrite u32_small; lia.
Qed.

Lemma table_hi_stack a : 1 <= a <= 8 -> u32 (KUSEG + GETPAGENO + Z.shiftl a ASIDSHIFT) = table_hi a 31.
Proof.
  intros Ha. unfold ASIDSHIFT. rewrite !Z.shiftl_mul_pow2 by lia.
  unfold table_hi, KUSEG, GETPAGENO. rewrite u32_small; simpl; lia.
Qed.

(** The loop of [init_page_table] and its last entry. *)
Lemma fill_table_run i a text s : 1 <= a <= 8 -> length (table_of i s) = MAXPAGES ->
  ∃ s', (for_ (MAXPAGES - 1) 0 (fun k =>
      upd_pte (i, k) (fun _ =>
        Pte (u32 (KUSEG + Z.shiftl (Z.of_nat k) VPNSHIFT + Z.shiftl a ASIDSHIFT))
          (if Z.of_nat k <? text then 0 else DIRTYON))) ;;
    upd_pte (i, (MAXPAGES - 1)%nat) (fun _ => Pte (u32 (KUSEG + GETPAGENO + Z.shiftl a ASIDSHIFT)) DIRTYON)) s
    = Ok tt s' ∧
  s' = set_table_of i (table_of i s') s ∧ length (table_of i s') = MAXPAGES ∧
  (∀ k, (k < 31)%nat -> table_of i s' !! k = Some (fresh_entry a text k)) ∧
  table_of i s' !! 31%nat = Some (Pte (table_hi a 31) DIRTYON).
Proof.
  intros Ha Hl.
  set (v := fun k => Pte (u32 (KUSEG + Z.shiftl (Z.of_nat k) VPNSHIFT + Z.shiftl a ASIDSHIFT))
    (if Z.of_nat k <? text then 0 else DIRTYON)).
  pose proof (for_imap (E := sup_exit) (table_of i) (set_table_of i) (table_of_set i) (set_table_of_id i)
    (set_table_of_twice i) (fun k => upd_pte (i, k) (fun _ => v k)) (fun k _ => v k)) as Hfor.
  specialize (Hfor (fun k s x Hx => upd_own_pte i k s x (v k) Hx) (MAXPAGES - 1)%nat 0%nat s ltac:(lia)).
  set (l := imap _ _) in Hfor. step_with Hfor.
  assert (length l = MAXPAGES) as Hll by (unfold l; by rewrite length_imap).
  assert (table_of i (set_table_of i l s) = l) as Hl1 by (apply table_of_set; lia).
  destruct (lookup_lt_is_Some_2 l 31) as [e He]; [rewrite Hll; unfold MAXPAGES; lia|].
  change (MAXPAGES - 1)%nat with 31%nat.
  rewrite (upd_own_pte i 31 _ e _) by (by rewrite Hl1). rewrite Hl1, set_table_of_twice.
  eexists. split; [done|]. rewrite table_of_set by (by rewrite length_insert; lia).
  split_and!; [done | by rewrite length_insert | |].
  - intros k Hk. rewrite list_lookup_insert_ne by lia. unfold l. rewrite list_lookup_imap.
    destruct (lookup_lt_is_Some_2 (table_of i s) k) as [x Hx]; [rewrite Hl; unfold MAXPAGES; lia|].
    rewrite Hx. cbn. rewrite decide_True by (unfold MAXPAGES; lia). unfold v, fresh_entry.
    by rewrite table_hi_word.
  - rewrite list_lookup_insert_eq by (rewrite Hll; unfold MAXPAGES; lia). by rewrite table_hi_stack.
Qed.

Lemma flash_unborn_run block addr s i a : current s = None -> unborn i (world s) -> assigned i a s ->
  ∃ r s', read_flash a block addr s = Ok r s' ∧ support_table s' !! i = support_table s !! i ∧
    current s' = None ∧ (pool_inv s -> pool_inv s').
Proof.
  intros Hc Hu Ha. unfold read_flash. step_with (interrupts_off_run s).
  set (s1 := set_sup_status _ s). unfold write_mem. cbv zeta. rewrite bind_modify.
  set (s2 := set_words _ s1). unfold SYSCALL. rewrite bind_assoc, bind_modify. set (s3 := set_calls _ s2).
  destruct (law_flash_unborn (N := N) s3 i a (flash_command FLASHREAD block)) as (r & s4 & Hrun & Hy);
    [done | done | done|].
  step_with Hrun. step_with (interrupts_on_run s4). eexists r, _. split_and!; [done | apply (y_mine _ _ _ _ Hy) | cbn; by rewrite (y_current _ _ _ _ Hy) |].
  intros Hi. apply (pool_inv_ext s4); [done | done | done|]. apply (y_inv _ _ _ _ Hy). by apply (pool_inv_ext s).
Qed.

(** The pages of the text of a program, from the header that was read. *)
Definition text_pages s : Z := u32 (default 0 (words s !! (header_buffer + 5 * 4))) / PAGESIZE.

Definition page_table_ready i (a text : Z) s : Prop :=
  length (table_of i s) = MAXPAGES ∧ table_of i s !! 31%nat = Some (Pte (table_hi a 31) DIRTYON) ∧
  ∀ k, (k < 31)%nat -> table_of i s !! k = Some (fresh_entry a text k).

(** [init_page_table] for a Support Structure that no process has yet: it
    depends on whether the header of the program can be read. *)
Lemma init_page_table_run i a s : current s = None -> unborn i (world s) -> assigned i a s -> pool_inv s ->
  ∃ r s1, read_flash a 0 header_buffer s = Ok r s1 ∧
    (r = DEV_STATUS_READY -> ∃ s', init_page_table (Some i) a s = Ok true s' ∧
      baton a s' = Some false ∧ page_table_ready i a (text_pages s1) s') ∧
    (r ≠ DEV_STATUS_READY -> ∃ s', init_page_table (Some i) a s = Exit Terminated s' ∧
      table_of i s' = table_of i s).
Proof.
  intros Hcur Hun Hasid Hinv. pose proof Hasid as (Ha & c & Hc & Hca & Hlen). unfold init_page_table.
  destruct (Z.leb_spec a 0); [lia|]. destruct (Z.ltb_spec (Z.of_nat UPROCMAX) a); [unfold UPROCMAX in *; lia|].
  cbn [orb]. cbv zeta.
  destruct (flash_unborn_run 0 header_buffer s i a Hcur Hun Hasid) as (r & s1 & Hrun1 & Hmine & Hcur1 & Hi1).
  specialize (Hi1 Hinv). exists r, s1. split; [done|]. step_with Hrun1. split.
  - intros ->. cbn [negb]. rewrite Z.eqb_refl. cbn [negb]. rewrite bind_ret_l. unfold read_mem. rewrite bind_gets.
    assert (length (table_of i s1) = MAXPAGES) as Hl1 by (unfold table_of; by rewrite Hmine, Hc).
    destruct (fill_table_run i a (text_pages s1) s1 Ha Hl1) as (s2 & Hrun2 & Hs2 & Hl2 & He2 & Hstack).
    rewrite <-bind_assoc. step_with Hrun2.
    assert (swap_pool_batons s2 = swap_pool_batons s1) as Hb2 by (by rewrite Hs2).
    destruct (baton_index a s2 Ha) as [b Hb]; [rewrite Hb2; apply Hi1|].
    eexists. split; [unfold set_baton, bind, get; by rewrite Hb|]. split; [|done].
    unfold baton. cbn. apply list_lookup_insert_eq. by eapply lookup_lt_Some.
  - intros Hr. destruct (Z.eqb_spec r DEV_STATUS_READY); [done|]. cbn [negb]. unfold kfprintf.
    rewrite bind_assoc, bind_modify. erewrite bind_exit; [|by apply support_trap_ends].
    eexists. split; [done|]. unfold table_of. cbn. by rewrite Hmine.
Qed.
End steps.
