(* ===== verification/Virtual.v ===== *)
(** * What the development shows of virtual memory

    Theorems about the pager, each with an instance: a nucleus that serves
    every call at once, a TLB that is a list of entries, and states with one
    or two U-procs. *)

From Stdlib Require Import ZArith Lia String.
From stdpp Require Import base tactics option numbers strings gmap list vector.
From S2P Require Import Prelude ListHead Machine Kernel SupportLevel Pager Paging.

Open Scope string_scope.
Open Scope list_scope.
Open Scope Z_scope.

(** ** A concrete machine *)

(** The TLB: its entries, the first sixteen of the list. *)
Definition tlb : Type := list (Z * Z).
Definition TLBSIZE : nat := 16.

#[export] Instance list_tlb : Tlb tlb := {
  tlb_probe hi w :=
    match list_find (fun e => e.1 = hi) (take TLBSIZE w) with
    | Some (n, _) => Z.shiftl (Z.of_nat n) 8
    | None => PRESENTFLAG
    end;
  tlb_write index hi lo w := <[Z.to_nat (Z.shiftr index 8) := (hi, lo)]> w;
  tlb_write_random hi lo w := (hi, lo) :: take (TLBSIZE - 1) w
}.

#[export] Instance board : Layout := {
  FLASHINT := 4;
  dtp_command := 4; dtp_data0 := 8;
  support_addr i := 0x20020000 + 0x400 * Z.of_nat i;
  support_of_addr a := Some (Z.to_nat ((a - 0x20020000) / 0x400));
  sem_swap_pool_table := 0x20030000;
  master_semaphore := 0x20030004;
  sys3_semaphores := 0x20030010; sys4_semaphores := 0x20030030; sys5_semaphores := 0x20030050;
  header_buffer := 0x20031000;
  pstate_addr := 0x20032000;
  support_tlb_addr := 0x20001000; support_generic_addr := 0x20001400
}.

Definition blank_state : state_t := null_state (H := umps3) (State 0 0 0 0 0 0 0 0 0 0 0 0 0 []).

(** The registers of the system call [a], as the BIOS saves them. *)
Definition call_state (a : Z) : state_t := set_reg_a0 (u32 a) (set_cause (Z.shiftl 8 2) blank_state).

(** Every call is served at once, devices succeed. *)
#[export] Instance prompt : Nucleus tlb := {
  nucleus a b c d :=
    if a =? GETSUPPORTPTR then
      i <- gets current ;; ret (match i with Some i => support_addr i | None => 0 end)
    else if a =? DOIO then ret DEV_STATUS_READY
    else if a =? TERMPROCESS then exit Terminated
    else if 0 <? a then
      i <- gets current ;;
      match i with
      | Some i => modify (saves_general i (call_state a)) ;; exit (PassedUp a)
      | None => exit Terminated
      end
    else ret 0
}.

Lemma yields_refl i a (s : sup tlb) : yields i a s s.
Proof. by split. Qed.

#[export] Instance prompt_laws : @NucleusLaws umps3 board tlb prompt (fun _ _ => True).
Proof.
  split.
  - intros i. cbn. f_equal. replace (0x20020000 + 0x400 * Z.of_nat i - 0x20020000) with (Z.of_nat i * 0x400) by lia.
    rewrite Z.div_mul by lia. lia.
  - intros s i a Hc _. exists s. split; [cbn; unfold bind, gets; by rewrite Hc|apply yields_refl].
  - intros s i a _ _. exists 0, s. split; [done | apply yields_refl].
  - intros s i a _ _ _. exists 0, s. split; [done | apply yields_refl].
  - intros s i a dev cmd _ _ _ _. exists 1, s. split_and!; [done | apply yields_refl | apply locked_refl].
  - intros s i a cmd _ _ _. exists 1, s. split; [done | apply yields_refl].
  - intros s i Hc. exists (call_state TERMINATE). cbn. unfold bind, gets. by rewrite Hc.
  - intros s Hc. cbn. unfold bind, gets. by rewrite Hc.
Qed.

(** A Support Structure of ASID [a], its page table as [init_page_table]
    leaves it when the first two pages are text. *)
Definition uproc_support (a : Z) (fault general : state_t) : support_t :=
  Support a [# fault; general] [# Context 0 0 0; Context 0 0 0]
    (map (fun k => Pte (table_hi a k) (if (k <? 2)%nat then 0 else DIRTYON)) (seq 0 31)
     ++ [Pte (table_hi a 31) DIRTYON]).

Definition free_frame : swap_t := Swap (-1) 0 None.

Definition machine (cur : option nat) (sups : list support_t) (pool : list swap_t) : sup tlb :=
  Sup 0x20040000 (repeat false 8) pool (2 ^ 32 - 1) sups ∅ cur blank_state blank_state ∅ ∅ 1 0 0 0 0 [] [] [].

(** A fault of the first U-proc at the address [e]. *)
Definition fault_at (e : Z) : state_t := set_entry_hi e (set_cause 8 blank_state).

Section theorems.
Context {U : Umps} {Lay : Layout} {W : Type} {N : Nucleus W} {T : Tlb W}.
Context (unborn : nat -> W -> Prop) {NL : NucleusLaws unborn}.
Implicit Types (s : sup W) (i j f k : nat) (a : Z).

(** C30: as long as every frame is occupied, the frames are victims in turn:
    sixteen picks in a row take every frame exactly once. *)
Theorem pick_page_fair s :
  length (swap_pool_table s) = POOLSIZE -> Forall occupied (swap_pool_table s) ->
  ∃ l s', pick_pages POOLSIZE s = Ok l s' ∧ Permutation l (seq 0 POOLSIZE).
Proof.
  intros Hl Hf. destruct (pick_pages_run POOLSIZE s Hl Hf) as [s' Hrun].
  eexists _, s'. split; [exact Hrun|]. apply turns.
Qed.

(** C31: [entryhi_to_index] is total: it gives the page of an address in the
    31 pages from [KUSEG] or in the stack page, which is an index of the page
    table, and stops the machine at every other address. *)
Theorem entryhi_to_index_total e s : 0 <= e < 2 ^ 32 ->
  match page_of e with
  | Some k => entryhi_to_index e s = Ok k s ∧ (k < MAXPAGES)%nat
  | None => ∃ m, entryhi_to_index e s = Exit Stopped (set_slog (m :: slog s) s)
  end.
Proof.
  intros He. destruct (page_of e) as [k|] eqn:Hp.
  - split; [by apply entryhi_to_index_ok | by eapply page_of_bound].
  - destruct (entryhi_wild e s He Hp) as [m Hm]. exists m. unfold entryhi_to_index. by step_with Hm.
Qed.

(** C32: the instantiator has given a Support Structure its ASID; its page
    table holds anything.  If the header of the program can be read,
    [init_page_table] writes every entry of that table: each translates back to
    its own index and carries the ASID, none is valid yet, and exactly those of
    the text - as long as the header says, but never the stack - are
    read-only.  If it cannot, the instantiator ends and the table stays. *)
Theorem page_table_round_trip i a s :
  current s = None -> unborn i (world s) -> assigned i a s -> pool_inv s ->
  ∃ r s1, read_flash a 0 header_buffer s = Ok r s1 ∧
    (r = DEV_STATUS_READY -> ∃ s', init_page_table (Some i) a s = Ok true s' ∧ baton a s' = Some false ∧
      ∀ k, (k < MAXPAGES)%nat -> ∃ e, table_of i s' !! k = Some e ∧
        entryhi_to_index (pte_entry_hi e) s' = Ok k s' ∧
        Z.land (Z.shiftr (pte_entry_hi e) ASIDSHIFT) 63 = a ∧
        pte_entry_lo e = if (k <? 31)%nat && (Z.of_nat k <? text_pages s1) then 0 else DIRTYON) ∧
    (r ≠ DEV_STATUS_READY -> ∃ s', init_page_table (Some i) a s = Exit Terminated s' ∧
      table_of i s' = table_of i s).
Proof.
  intros Hcur Hun Hasid Hinv.
  destruct (init_page_table_run unborn i a s Hcur Hun Hasid Hinv) as (r & s1 & Hread & Hok & Hbad).
  exists r, s1. split_and!; [done | | done]. intros Hr.
  destruct (Hok Hr) as (s' & Hrun & Hb & Hl & Hstack & Hrest). exists s'. split_and!; [done..|]. intros k Hk.
  set (lo := if (k <? 31)%nat && (Z.of_nat k <? text_pages s1) then 0 else DIRTYON).
  assert (table_of i s' !! k = Some (Pte (table_hi a k) lo)) as Hlo.
  { unfold lo. destruct (Nat.ltb_spec k 31); [by apply Hrest|].
    assert (k = 31%nat) as -> by (unfold MAXPAGES in *; lia). done. }
  destruct Hasid as [Ha _]. eexists. split_and!; [exact Hlo | | by apply table_hi_asid | done].
  apply entryhi_to_index_ok; [by apply table_hi_range | by apply page_of_table_hi].
Qed.

(** C33: when a process ends, [clean_after_uproc] releases the pool if the
    process held it, and only then, and leaves no frame to it; the frames of
    the others stay theirs and the pool stays consistent. *)
Theorem clean_after_uproc_releases i a s b :
  current s = Some i -> has_asid i a s -> pool_inv s -> baton a s = Some b ->
  ∃ s', clean_after_uproc a s = Ok tt s' ∧ pool_inv s' ∧
    (∀ f w, swap_pool_table s' !! f = Some w -> sw_asid w ≠ a) ∧
    (∀ f w, swap_pool_table s !! f = Some w -> sw_asid w ≠ a -> b = false -> swap_pool_table s' !! f = Some w) ∧
    calls s' = (if b then [(VERHOGEN, sem_swap_pool_table, 0, 0)] else []) ++ calls s.
Proof. apply (clean_after_uproc_run unborn). Qed.

(** Frame [f], recorded in [w] as page [k] of process [j], is still that
    page's and still mapped by that process, or the process has ended. *)
Definition still_mapped f w j k (lo : Z) s : Prop :=
  swap_pool_table s !! f = Some w ∧ pte_entry_lo <$> table_of j s !! k = Some lo \/
  swap_pool_table s !! f = Some (set_sw_asid (-1) w).

Lemma mapped_after i a s s' f w j k (c : support_t) pte :
  locked_step i a s s' -> swap_pool_table s !! f = Some w -> occupied w -> sw_pte w = Some (j, k) -> j ≠ i ->
  support_table s !! j = Some c -> sup_private_page_table c !! k = Some pte ->
  still_mapped f w j k (pte_entry_lo pte) s'.
Proof.
  intros Hs Hw Ho Hp Hne Hc Hpte. destruct (ls_frames _ _ _ _ Hs f) as [E|(w' & Hw' & _ & E)].
  - left. rewrite Hw in E. split; [done|].
    destruct (ls_others _ _ _ _ Hs j c Hne) as (c' & Hc' & _ & Ht); [by exists f, w, k | done |].
    unfold table_of. by rewrite Hc', Ht, Hpte.
  - right. rewrite Hw in Hw'. by injection Hw' as <-.
Qed.

(** C35: evicting a page of another process does not take it away.  The handler
    marks an entry of the faulting process' own table, and the owner's Support
    Structure is not written; when the page is on the owner's device the owner,
    unless it has ended meanwhile, still maps the frame; and when the frame is
    then given to the faulting process both tables map it.  Only a write that
    the device refuses ends the process, and then the owner keeps the page as
    well. *)
Theorem evict_keeps_victim_mapped i a s f w j k (c : support_t) pte :
  locked i a s -> swap_pool_table s !! f = Some w -> occupied w -> sw_pte w = Some (j, k) -> j ≠ i ->
  support_table s !! j = Some c -> sup_private_page_table c !! k = Some pte ->
  pte_entry_lo pte = frame_entry s f ->
  (∃ s1, invalidate i k (j, k) s = Ok tt s1 ∧ support_table s1 !! j = Some c ∧
    pte_entry_lo <$> table_of i s1 !! k = Some 0) ∧
  match evict i f w s with
  | Ok _ s' => calls s' = flash_write_call (sw_asid w) k :: calls s ∧
      still_mapped f w j k (frame_entry s f) s' ∧
      ∀ n vpn, (n < MAXPAGES)%nat -> (∀ s : sup W, vpn_to_index vpn s = Ok n s) ->
        ∃ s2, install f a vpn i n (frame_address s f) s' = Ok tt s2 ∧
          pte_entry_lo <$> table_of i s2 !! n = Some (frame_entry s f) ∧ table_of j s2 = table_of j s'
  | Exit e s' => e = PassedUp TERMINATE ∧ still_mapped f w j k (frame_entry s f) s' ∧
      ∃ r s1, written_back i a f w r s s1 ∧ r ≠ DEV_STATUS_READY ∧ calls s' = (TERMINATE, 0, 0, 0) :: calls s1
  | _ => False
  end.
Proof.
  intros Hl Hw Ho Hp Hne Hc Hpte Hlo. rewrite <-Hlo. split.
  - destruct (used_entry s f w (lk_inv _ _ _ Hl) Hw Ho) as (j' & k' & _ & _ & Hp' & _ & Hk & _).
    rewrite Hp in Hp'. injection Hp' as <- <-.
    destruct (invalidate_run i a s k (j, k) c pte Hl Hk Hc Hpte) as (s1 & Hrun & _ & _ & _ & Hoth & ci & ei & Hci & Hei & He0).
    exists s1. split_and!; [done | by rewrite Hoth |]. unfold table_of. by rewrite Hci, Hei, <-He0.
  - pose proof (evict_run unborn i a s f w Hl Hw Ho) as Hrun. unfold wp in Hrun.
    destruct (evict i f w s) as [[] s'|e s'| |]; try done.
    + destruct Hrun as (Hs & j' & k' & s0 & Hp' & _ & _ & _ & Hcalls). rewrite Hp in Hp'. injection Hp' as <- <-.
      split_and!; [done | by eapply mapped_after |]. intros n vpn Hn Hv.
      destruct (install_run i a s' f n vpn (frame_address s f) (locked_after _ _ _ _ Hl Hs))
        as (s2 & Hrun2 & _ & _ & Hoth & _ & ci & ei & Hci & Hei & ->); [|done|done|].
      { rewrite <-(pi_frames s (lk_inv _ _ _ Hl)). by eapply lookup_lt_Some. }
      exists s2. split_and!; [done | by unfold table_of; rewrite Hci, Hei, Hlo | unfold table_of; by rewrite Hoth].
    + destruct Hrun as (r & s1 & Hwb & Hr & [-> Htr Hcalls]). split; [done|]. split; [|by exists r, s1].
      apply (mapped_after i a s s' f w j k c); try done. apply (locked_trans i a s s1); [apply Hwb|done].
Qed.
End theorems.

(** ** Instances *)

#[local] Existing Instance umps3.


Definition one_process : sup tlb :=
  machine (Some 0%nat) [uproc_support 1 (fault_at 0x80003000) blank_state] (replicate 16 free_frame).

Lemma first_inv general fault cur : pool_inv (machine cur [uproc_support 1 fault general] (replicate 16 free_frame)).
Proof.
  split; [done | done |].
  intros f w Hw Ho. change (replicate 16 free_frame !! f = Some w) in Hw.
  apply lookup_replicate in Hw as [-> _]. by destruct Ho.
Qed.

Lemma uproc_numbered a fault general : numbered (uproc_support a fault general).
Proof.
  split; [done|]. intros k e Hk. assert (k < 32)%nat by (by apply lookup_lt_Some in Hk).
  do 32 (destruct k as [|k]; [by injection Hk as <-|]). lia.
Qed.

Lemma first_asid cur fault general pool : has_asid 0 1 (machine cur [uproc_support 1 fault general] pool).
Proof. split; [lia|]. eexists. split_and!; [done | done | apply uproc_numbered]. Qed.

Lemma one_process_inv : pool_inv one_process.
Proof. apply first_inv. Qed.

(** The pool is full of pages of a second process. *)
Definition full_pool : list swap_t := map (fun f => Swap 2 (0x80005 + Z.of_nat f) (Some (1, 5 + f)%nat)) (seq 0 16).

(** The entry of the second process for the page in frame [f]. *)
Definition mapped (f : nat) : pte_entry_t :=
  Pte (table_hi 2 (5 + f)) (Z.lor (Z.lor (0x20040000 + Z.of_nat f * PAGESIZE) VALIDON) DIRTYON).

Definition second_support : support_t :=
  set_sup_private_page_table
    (map (fun k => Pte (table_hi 2 k) DIRTYON) (seq 0 5) ++ map mapped (seq 0 16)
     ++ map (fun k => Pte (table_hi 2 k) DIRTYON) (seq 21 11))
    (uproc_support 2 blank_state blank_state).

Definition two_processes : sup tlb :=
  machine (Some 0%nat) [uproc_support 1 (fault_at 0x80003000) blank_state; second_support] full_pool.

Lemma pick_page_fair_witness :
  Forall occupied (swap_pool_table two_processes) ∧
  ∃ l s', pick_pages (W := tlb) POOLSIZE two_processes = Ok l s' ∧ Permutation l (seq 0 POOLSIZE).
Proof.
  assert (Forall occupied (swap_pool_table two_processes)) as Hf by (repeat constructor; done).
  split; [exact Hf|]. by apply (pick_page_fair two_processes).
Defined.

Lemma entryhi_to_index_witness :
  entryhi_to_index 0x80003000 one_process = Ok 3%nat one_process ∧ (3 < MAXPAGES)%nat.
Proof. apply (entryhi_to_index_total 0x80003000 one_process). done. Defined.

(** The instantiator, before the first process exists: the Support Structure
    has an ASID, its page table is as the memory was. *)
Definition booting : sup tlb :=
  machine None [set_sup_private_page_table (replicate 32 (Pte 0 0)) (uproc_support 1 blank_state blank_state)]
    (replicate 16 free_frame).

Lemma booting_inv : pool_inv booting.
Proof.
  split; [done | done |]. intros f w Hw Ho. change (replicate 16 free_frame !! f = Some w) in Hw.
  apply lookup_replicate in Hw as [-> _]. by destruct Ho.
Qed.

Lemma page_table_round_trip_witness :
  ∃ s1 s', read_flash 1 0 header_buffer booting = Ok DEV_STATUS_READY s1 ∧
    init_page_table (Some 0%nat) 1 booting = Ok true s' ∧ baton 1 s' = Some false ∧
    ∀ k, (k < MAXPAGES)%nat -> ∃ e, table_of 0 s' !! k = Some e ∧
      entryhi_to_index (pte_entry_hi e) s' = Ok k s' ∧
      Z.land (Z.shiftr (pte_entry_hi e) ASIDSHIFT) 63 = 1 ∧
      pte_entry_lo e = if (k <? 31)%nat && (Z.of_nat k <? text_pages s1) then 0 else DIRTYON.
Proof.
  destruct (page_table_round_trip (fun _ _ => True) 0 1 booting) as (r & s1 & Hread & Hok & _);
    [done | done | split; [lia | by eexists] | apply booting_inv |].
  assert (r = DEV_STATUS_READY) as -> by (vm_compute in Hread; by injection Hread as <- _).
  destruct (Hok eq_refl) as (s' & Hrun & Hrest). exists s1, s'. split; [exact Hread|]. split; [exact Hrun|exact Hrest].
Defined.

(** A process that is terminated while it holds the pool and two frames. *)
Definition dying : sup tlb :=
  set_swap_pool_batons (true :: replicate 7 false)
    (machine (Some 0%nat) [uproc_support 1 blank_state blank_state]
      (Swap 1 0x80003 (Some (0, 3)%nat) :: Swap 1 0x80004 (Some (0, 4)%nat) :: replicate 14 free_frame)).

Lemma dying_inv : pool_inv dying.
Proof.
  split; [done | done |].
  intros f w Hw Ho. destruct f as [|[|f]].
  - injection Hw as <-. split; [cbn; lia|]. exists 0%nat, 3%nat. eexists.
    split_and!; [done | done | done | apply uproc_numbered | unfold MAXPAGES; lia].
  - injection Hw as <-. split; [cbn; lia|]. exists 0%nat, 4%nat. eexists.
    split_and!; [done | done | done | apply uproc_numbered | unfold MAXPAGES; lia].
  - change (replicate 14 free_frame !! f = Some w) in Hw. apply lookup_replicate in Hw as [-> _]. by destruct Ho.
Qed.

Lemma clean_after_uproc_witness :
  ∃ s', clean_after_uproc 1 dying = Ok tt s' ∧ pool_inv s' ∧
    (∀ f w, swap_pool_table s' !! f = Some w -> sw_asid w ≠ 1) ∧
    (∀ f w, swap_pool_table dying !! f = Some w -> sw_asid w ≠ 1 -> true = false -> swap_pool_table s' !! f = Some w) ∧
    calls s' = (if true then [(VERHOGEN, sem_swap_pool_table, 0, 0)] else []) ++ calls dying.
Proof.
  apply (clean_after_uproc_releases (fun _ _ => True) 0 1 dying true); [done | | apply dying_inv | done].
  apply first_asid.
Defined.

(** The first process holds the pool, and the victim is in frame 0. *)
Definition evicting : sup tlb := set_swap_pool_batons (true :: replicate 7 false) two_processes.

Lemma second_numbered : numbered second_support.
Proof.
  split; [done|]. intros k e Hk. assert (k < 32)%nat by (by apply lookup_lt_Some in Hk).
  do 32 (destruct k as [|k]; [by injection Hk as <-|]). lia.
Qed.

Lemma evicting_inv : pool_inv evicting.
Proof.
  split; [done | done |].
  intros f w Hw Ho. assert (f < 16)%nat by (by apply lookup_lt_Some in Hw).
  do 16 (destruct f as [|f]; [injection Hw as <-; split; [cbn; lia|];
    eexists 1%nat, _, second_support;
    split_and!; [reflexivity | done | done | apply second_numbered | unfold MAXPAGES; lia]|]). lia.
Qed.

Lemma evicting_locked : locked 0 1 evicting.
Proof.
  split; [done | split; [lia|] | done | apply evicting_inv]. eexists. split_and!; [done | done | apply uproc_numbered].
Qed.

Lemma evict_keeps_victim_witness :
  (∃ s1, invalidate 0 5 (1, 5)%nat evicting = Ok tt s1 ∧ support_table s1 !! 1%nat = Some second_support ∧
    pte_entry_lo <$> table_of 0 s1 !! 5%nat = Some 0) ∧
  match evict 0 0 (Swap 2 0x80005 (Some (1, 5)%nat)) evicting with
  | Ok _ s' => calls s' = flash_write_call 2 5 :: calls evicting ∧
      still_mapped 0 (Swap 2 0x80005 (Some (1, 5)%nat)) 1 5 (frame_entry evicting 0) s' ∧
      ∃ s2, install 0 1 0x80003 0 3 (frame_address evicting 0) s' = Ok tt s2 ∧
        pte_entry_lo <$> table_of 0 s2 !! 3%nat = Some (frame_entry evicting 0) ∧ table_of 1 s2 = table_of 1 s'
  | _ => False
  end.
Proof.
  pose proof (evict_keeps_victim_mapped (fun _ _ => True) 0 1 evicting 0 (Swap 2 0x80005 (Some (1, 5)%nat)) 1 5
    second_support (mapped 0) evicting_locked eq_refl ltac:(discriminate) eq_refl ltac:(discriminate) eq_refl eq_refl
    ltac:(vm_compute; reflexivity)) as [Hinv Hev]. split; [exact Hinv|].
  destruct (evict 0 0 (Swap 2 0x80005 (Some (1, 5)%nat)) evicting) as [[] s'|e s'| |] eqn:E; [| vm_compute in E; discriminate E | done | done].
  destruct Hev as (Hc & Hm & Hin). split; [exact Hc|]. split; [exact Hm|].
  apply (Hin 3%nat 0x80003); [unfold MAXPAGES; lia | reflexivity].
Defined.

(** After a fault of the first process with the pool full of pages of the
    second, both page tables map the same frame. *)
Example two_processes_share_a_frame :
  match support_tlb two_processes with
  | Exit (Resumed _) s' =>
      (pte_entry_lo <$> table_of 0 s' !! 3%nat) = Some (Z.lor (Z.lor 0x20040000 VALIDON) DIRTYON) ∧
      (pte_entry_lo <$> table_of 1 s' !! 5%nat) = Some (Z.lor (Z.lor 0x20040000 VALIDON) DIRTYON)
  | _ => False
  end.
Proof. vm_compute. done. Qed.
