(* ===== verification/Coherence.v ===== *)
(** * The TLB and the page table

    The TLB is a cache of page table entries, which the pager keeps in step
    with the table of the running process ([phase3/src/pager.c],
    [tlb_refill_handler], [update_tlb] and the two atomic blocks of
    [support_tlb]).  The TLB itself is hardware: what the code relies on is the
    class [TlbLaws]. *)

From Stdlib Require Import ZArith Lia String.
From stdpp Require Import base tactics option numbers strings gmap list vector.
From S2P Require Import Prelude ListHead Machine Kernel SupportLevel Pager Paging Virtual.

Open Scope string_scope.
Open Scope list_scope.
Open Scope Z_scope.

(** [tlb_holds hi w]: the EntryLO that the TLB has for EntryHI [hi]. *)
Class TlbLaws {W : Type} (T : Tlb W) (tlb_holds : Z -> W -> option Z) : Prop := {
  probe_law hi w : Z.land (tlb_probe hi w) PRESENTFLAG = 0 ↔ is_Some (tlb_holds hi w);
  write_law hi lo w hi' : is_Some (tlb_holds hi w) ->
    tlb_holds hi' (tlb_write (tlb_probe hi w) hi lo w) = if decide (hi' = hi) then Some lo else tlb_holds hi' w;
  random_law hi lo w : tlb_holds hi w = None -> tlb_holds hi (tlb_write_random hi lo w) = Some lo;
  random_other_law hi lo w hi' lo' : tlb_holds hi w = None -> hi' ≠ hi ->
    tlb_holds hi' (tlb_write_random hi lo w) = Some lo' -> tlb_holds hi' w = Some lo'
}.

(** The page of an entry determines its EntryHI. *)
Lemma table_hi_inj a k k' : 1 <= a <= 8 -> (k < MAXPAGES)%nat -> (k' < MAXPAGES)%nat ->
  table_hi a k = table_hi a k' -> k = k'.
Proof.
  intros Ha Hk Hk' E. pose proof (page_of_table_hi a k Ha Hk) as H1.
  rewrite E, (page_of_table_hi a k' Ha Hk') in H1. by injection H1.
Qed.

Section coherence.
Context {U : Umps} {Lay : Layout} {W : Type} {N : Nucleus W} {T : Tlb W}.
Context (tlb_holds : Z -> W -> option Z) {TL : TlbLaws T tlb_holds}.
Implicit Types (s : sup W) (i j f k : nat) (c : support_t) (e : pte_entry_t).

(** The TLB has no entry for process [i] that its page table does not have. *)
Definition tlb_agrees i s : Prop :=
  ∀ k e lo, table_of i s !! k = Some e -> tlb_holds (pte_entry_hi e) (world s) = Some lo -> lo = pte_entry_lo e.

(** Process [i] runs with ASID [a] and a page table numbered as it should be. *)
Definition paged i (a : Z) s : Prop := pool_inv s ∧ has_asid i a s.

Lemma paged_entry i a s k : paged i a s -> (k < MAXPAGES)%nat ->
  ∃ c e, support_table s !! i = Some c ∧ sup_private_page_table c !! k = Some e ∧ pte_entry_hi e = table_hi a k.
Proof.
  intros [Hi (Ha & c & Hc & Hca & Hn)] Hk. destruct (table_entry c k Hn Hk) as (e & He & Hhi).
  exists c, e. rewrite Hca in Hhi. done.
Qed.

Lemma paged_hi i a s k e : paged i a s -> table_of i s !! k = Some e ->
  (k < MAXPAGES)%nat ∧ pte_entry_hi e = table_hi a k.
Proof.
  intros [Hi (Ha & c & Hc & Hca & Hl & Hhi)] He. unfold table_of in He. rewrite Hc in He. rewrite <- Hl. split; [by eapply lookup_lt_Some|].
  rewrite <- Hca. by apply Hhi.
Qed.

Lemma table_of_some i s c : support_table s !! i = Some c -> table_of i s = sup_private_page_table c.
Proof. unfold table_of. by intros ->. Qed.

(** [update_tlb] replaces the entry of its page if the TLB has it, and no other. *)
Lemma update_tlb_holds e s : ∃ s', update_tlb e s = Ok tt s' ∧ support_table s' = support_table s ∧
  ∀ hi, tlb_holds hi (world s') =
    (λ lo, if decide (hi = pte_entry_hi e) then pte_entry_lo e else lo) <$> tlb_holds hi (world s).
Proof using TL.
  unfold update_tlb, check_in_tlb, setENTRYHI, TLBP, getINDEX.
  rewrite !bind_assoc, bind_modify, bind_assoc, bind_modify, bind_assoc, bind_gets, bind_ret_l.
  cbn [reg_index set_reg_index reg_entry_hi set_reg_entry_hi world].
  pose proof (probe_law (pte_entry_hi e) (world s)) as Hp.
  destruct (Z.eqb_spec (Z.land (tlb_probe (pte_entry_hi e) (world s)) PRESENTFLAG) 0) as [Hin|Hout].
  - unfold setENTRYLO, TLBWI. rewrite !bind_modify. eexists. split; [reflexivity|]. split; [done|].
    intros hi. cbn. rewrite (write_law _ _ _ hi (proj1 Hp Hin)).
    case_decide as Hd; [|by destruct (tlb_holds hi (world s))].
    subst hi. destruct (proj1 Hp Hin) as [lo ->]. done.
  - eexists. split; [reflexivity|]. split; [done|]. intros hi. cbn.
    destruct (tlb_holds hi (world s)) as [lo|] eqn:Hlo; [|done]. cbn. rewrite decide_False; [done|].
    intros ->. apply Hout, Hp. by rewrite Hlo.
Qed.

(** A page table entry of one's own changes and the TLB after it. *)
Lemma retag_coherent i a s k (g : Z -> Z) :
  paged i a s -> (k < MAXPAGES)%nat -> tlb_agrees i s ->
  ∃ s' e, (upd_pte (i, k) (fun e => set_pte_entry_lo (g (pte_entry_lo e)) e) ;;
    e <- pte_at (i, k) ;; update_tlb e ;; active_interrupts) s = Ok tt s' ∧
  tlb_agrees i s' ∧ table_of i s !! k = Some e ∧
  table_of i s' !! k = Some (set_pte_entry_lo (g (pte_entry_lo e)) e).
Proof using TL.
  intros Hpg Hk Hag. destruct (paged_entry i a s k Hpg Hk) as (c & e & Hc & He & Hhi).
  pose proof (lookup_lt_Some _ _ _ Hc) as Hlt. pose proof (lookup_lt_Some _ _ _ He) as Hlk.
  step_with (upd_pte_ok s i k c e (fun e => set_pte_entry_lo (g (pte_entry_lo e)) e) Hc He).
  set (e' := set_pte_entry_lo _ e). set (s1 := with_pte i k e' c s).
  set (c' := set_sup_private_page_table (<[k := e']> (sup_private_page_table c)) c).
  assert (support_table s1 !! i = Some c') as Hc1 by (by apply list_lookup_insert_eq).
  assert (sup_private_page_table c' !! k = Some e') as He1 by (by apply list_lookup_insert_eq).
  step_with (pte_at_ok s1 i k c' e' Hc1 He1).
  destruct (update_tlb_holds e' s1) as (s2 & Hrun & Htab & Hw). step_with Hrun. rewrite interrupts_on_run.
  eexists _, e. split; [reflexivity|]. rewrite (table_of_some i s c Hc).
  assert (table_of i (set_sup_status (status_interrupts_on_nucleus (sup_status s2)) s2) =
    <[k := e']> (sup_private_page_table c)) as Ht.
  { apply (table_of_some i _ c'). cbn [support_table set_sup_status]. by rewrite Htab. }
  split; [|split; [done|rewrite Ht; by apply list_lookup_insert_eq]].
  intros k2 e2 lo He2 Hlo. rewrite Ht in He2. cbn [world set_sup_status] in Hlo. rewrite Hw in Hlo.
  change (world s1) with (world s) in Hlo.
  apply list_lookup_insert_Some in He2 as [(<- & <- & _)|[Hne He2]].
  - destruct (tlb_holds _ _); [|done]. cbn in Hlo. rewrite decide_True in Hlo by done. by injection Hlo.
  - rewrite <- (table_of_some i s c Hc) in He2. destruct (paged_hi i a s k2 e2 Hpg He2) as [Hk2 Hhi2].
    destruct (tlb_holds (pte_entry_hi e2) (world s)) as [lo2|] eqn:Hlo2; [|done]. cbn in Hlo.
    rewrite decide_False in Hlo.
    + injection Hlo as <-. by apply (Hag k2 e2).
    + change (pte_entry_hi e') with (pte_entry_hi e). rewrite Hhi, Hhi2. intros E.
      destruct Hpg as [_ [Ha _]]. by apply Hne, (table_hi_inj a).
Qed.

Lemma tlb_agrees_ext i s s' :
  table_of i s' = table_of i s -> world s' = world s -> tlb_agrees i s -> tlb_agrees i s'.
Proof. intros Et Ew Hag k e lo. rewrite Et, Ew. apply Hag. Qed.

(** A miss: the entry of the page is loaded. *)
Lemma refill_run i s k saved c e :
  support_table s !! i = Some c -> sup_private_page_table c !! k = Some e ->
  0 <= entry_hi saved < 2 ^ 32 -> page_of (entry_hi saved) = Some k ->
  ∃ s', tlb_refill_handler i saved s = Exit (Resumed saved) s' ∧
    world s' = tlb_write_random (pte_entry_hi e) (pte_entry_lo e) (world s) ∧
    support_table s' = support_table s ∧ swap_pool_table s' = swap_pool_table s ∧ calls s' = calls s.
Proof.
  intros Hc He Hr Hp. unfold tlb_refill_handler. step_with (entryhi_to_index_ok _ k s Hr Hp).
  step_with (pte_at_ok s i k c e Hc He). by eexists.
Qed.

Lemma refill_coherent i a s k saved :
  paged i a s -> tlb_agrees i s -> 0 <= entry_hi saved < 2 ^ 32 -> page_of (entry_hi saved) = Some k ->
  tlb_holds (table_hi a k) (world s) = None ->
  ∃ s' e, tlb_refill_handler i saved s = Exit (Resumed saved) s' ∧ support_table s' = support_table s ∧
    calls s' = calls s ∧ tlb_agrees i s' ∧ table_of i s !! k = Some e ∧
    tlb_holds (pte_entry_hi e) (world s') = Some (pte_entry_lo e).
Proof using TL.
  intros Hpg Hag Hr Hp Hmiss.
  destruct (paged_entry i a s k Hpg (page_of_bound _ _ Hp)) as (c & e & Hc & Hek & Hhi).
  destruct (refill_run i s k saved c e Hc Hek Hr Hp) as (s' & Hrun & Hw & Htab & _ & Hcalls).
  assert (table_of i s !! k = Some e) as He by (by rewrite (table_of_some i s c Hc)).
  rewrite <- Hhi in Hmiss. exists s', e. rewrite Hw. split_and!; try done; [|by apply random_law].
  intros k2 e2 lo He2 Hlo. rewrite Hw in Hlo. unfold table_of in He2. rewrite Htab in He2. fold (table_of i s) in He2.
  destruct (decide (k2 = k)) as [->|Hne].
  - rewrite He in He2. injection He2 as <-. rewrite (random_law _ _ _ Hmiss) in Hlo. by injection Hlo.
  - destruct (paged_hi i a s k2 e2 Hpg He2) as [Hk2 Hhi2].
    apply (Hag k2 e2 lo He2). eapply random_other_law; [exact Hmiss| |exact Hlo].
    rewrite Hhi, Hhi2. intros E. destruct Hpg as [_ [Ha _]].
    apply Hne, (table_hi_inj a); [done..|by eapply page_of_bound|done].
Qed.

(** A page of one's own is given up. *)
Lemma invalidate_coherent i a s k :
  paged i a s -> (k < MAXPAGES)%nat -> tlb_agrees i s ->
  ∃ s', invalidate i k (i, k) s = Ok tt s' ∧ tlb_agrees i s' ∧ pte_entry_lo <$> table_of i s' !! k = Some 0.
Proof using TL.
  intros Hpg Hk Hag. unfold invalidate. step_with (interrupts_off_run s). set (s1 := set_sup_status _ s).
  assert (paged i a s1) as Hpg1 by (destruct Hpg as [Hi Ha]; split; [by apply (pool_inv_ext s)|exact Ha]).
  destruct (retag_coherent i a s1 k (fun lo => Z.land lo (if VALIDON =? 0 then 1 else 0)) Hpg1 Hk)
    as (s2 & e & Hrun & Hag2 & _ & He2); [by apply (tlb_agrees_ext i s)|].
  exists s2. split; [exact Hrun|]. split; [exact Hag2|]. rewrite He2. cbn. by rewrite Z.land_0_r.
Qed.

(** A page is brought into frame [f]. *)
Lemma install_coherent i a s f k vpn addr :
  paged i a s -> (f < POOLSIZE)%nat -> (k < MAXPAGES)%nat -> (∀ s : sup W, vpn_to_index vpn s = Ok k s) ->
  tlb_agrees i s ->
  ∃ s', install f a vpn i k addr s = Ok tt s' ∧ tlb_agrees i s' ∧
    pte_entry_lo <$> table_of i s' !! k = Some (Z.lor (Z.lor addr VALIDON) DIRTYON).
Proof using TL.
  intros Hpg Hf Hk Hv Hag. pose proof Hpg as [Hinv Hasid].
  destruct (lookup_lt_is_Some_2 (swap_pool_table s) f) as [w Hw]; [by rewrite (pi_frames s Hinv)|].
  unfold install. step_with (interrupts_off_run s). set (s1 := set_sup_status _ s).
  step_with (add_entry_run f a vpn i k w s1 Hw Hv). set (s2 := set_swap_pool_table _ s1).
  assert (paged i a s2) as Hpg2.
  { destruct Hasid as (Ha & c & Hc & Hca & Hn). split; [|split; [done|by exists c]].
    apply (pool_inv_entry s1 f a vpn i k c); try done. by apply (pool_inv_ext s). }
  destruct (retag_coherent i a s2 k (fun _ => Z.lor (Z.lor addr VALIDON) DIRTYON) Hpg2 Hk)
    as (s3 & e & Hrun & Hag3 & _ & He3); [by apply (tlb_agrees_ext i s)|].
  exists s3. split; [exact Hrun|]. split; [exact Hag3|]. by rewrite He3.
Qed.

(** A page of another process is given up: the entry of the process that runs
    is cleared in its table and stays in the TLB. *)
Lemma foreign_eviction_goes_stale i a s k j n (c : support_t) lo :
  paged i a s -> (k < MAXPAGES)%nat -> j ≠ i -> support_table s !! j = Some c ->
  (∃ e, sup_private_page_table c !! n = Some e ∧ pte_entry_hi e ≠ table_hi a k) ->
  tlb_holds (table_hi a k) (world s) = Some lo -> lo ≠ 0 ->
  ∃ s', invalidate i k (j, n) s = Ok tt s' ∧ ¬ tlb_agrees i s'.
Proof using TL.
  intros Hpg Hk Hj Hc (e & He & Hne) Hlo Hnz. destruct (paged_entry i a s k Hpg Hk) as (ci & ei & Hci & Hei & Hhi).
  unfold invalidate. step_with (interrupts_off_run s). set (s1 := set_sup_status _ s).
  unfold mark_page_not_valid.
  step_with (upd_pte_ok s1 i k ci ei (fun e => set_pte_entry_lo (Z.land (pte_entry_lo e) (if VALIDON =? 0 then 1 else 0)) e) Hci Hei).
  set (e' := set_pte_entry_lo _ ei). set (s2 := with_pte i k e' ci s1).
  assert (support_table s2 !! j = Some c) as Hc2 by (cbn; by rewrite list_lookup_insert_ne).
  step_with (pte_at_ok s2 j n c e Hc2 He).
  destruct (update_tlb_holds e s2) as (s3 & Hrun & Htab & Hw). step_with Hrun. rewrite interrupts_on_run.
  eexists. split; [reflexivity|]. intros Hag.
  specialize (Hag k e' lo). apply Hnz. rewrite Hag.
  - cbn. apply Z.land_0_r.
  - erewrite table_of_some; [|cbn [support_table set_sup_status]; rewrite Htab; apply list_lookup_insert_eq;
      by eapply lookup_lt_Some]. apply list_lookup_insert_eq. by eapply lookup_lt_Some.
  - cbn [world set_sup_status]. rewrite Hw. change (world s2) with (world s).
    change (pte_entry_hi e') with (pte_entry_hi ei). rewrite Hhi, Hlo. cbn. rewrite decide_False; [done|congruence].
Qed.

(** C34: the TLB never has an entry for the running process that its page table
    does not have.  A TLB miss loads the entry of the missing page and resumes
    the process; giving up one of one's own pages clears its entry in the table
    and in the TLB; bringing a page into a frame puts the new entry, valid and
    writable, in the table and, if the TLB had an entry for that page, there
    too; and in all three the other entries stay in step. *)
Theorem tlb_stays_coherent i a s :
  paged i a s -> tlb_agrees i s ->
  (∀ saved k, 0 <= entry_hi saved < 2 ^ 32 -> page_of (entry_hi saved) = Some k ->
    tlb_holds (table_hi a k) (world s) = None ->
    ∃ s' e, tlb_refill_handler i saved s = Exit (Resumed saved) s' ∧ support_table s' = support_table s ∧
      calls s' = calls s ∧ tlb_agrees i s' ∧ table_of i s !! k = Some e ∧
      tlb_holds (pte_entry_hi e) (world s') = Some (pte_entry_lo e)) ∧
  (∀ k, (k < MAXPAGES)%nat ->
    ∃ s', invalidate i k (i, k) s = Ok tt s' ∧ tlb_agrees i s' ∧ pte_entry_lo <$> table_of i s' !! k = Some 0) ∧
  (∀ f k vpn addr, (f < POOLSIZE)%nat -> (k < MAXPAGES)%nat -> (∀ s : sup W, vpn_to_index vpn s = Ok k s) ->
    ∃ s', install f a vpn i k addr s = Ok tt s' ∧ tlb_agrees i s' ∧
      pte_entry_lo <$> table_of i s' !! k = Some (Z.lor (Z.lor addr VALIDON) DIRTYON)).
Proof using TL.
  intros Hpg Hag. split; [|split]; intros.
  - by eapply refill_coherent.
  - by eapply invalidate_coherent.
  - by eapply install_coherent.
Qed.

Section faults.
Context (unborn : nat -> W -> Prop) {NL : NucleusLaws unborn}.

(** A process that is resumed has the entry of the frame that was picked. *)
Lemma resumed_entry i a k saved s1 s' : pool_inv s1 -> fault_outcome i a k saved s1 (Resumed saved) s' ->
  ∃ f c, (f < POOLSIZE)%nat ∧ support_table s' !! i = Some c ∧
    sup_private_page_table c !! k = Some (Pte (table_hi a k) (frame_entry s1 f)).
Proof using.
  intros Hi Hout. inversion Hout as [? ? ? ? ? ? ? ? _ _ _ _ _ Htr|? ? ? ? ? ? ? ? ? _ _ _ _ _ Htr|f s2 m w s3 s4 s5 r s6 c Hpick Hw _ _ _ _ _ Hc He _].
  1-2: by pose proof (tr_exit _ _ _ _ _ Htr).
  exists f, c. split_and!; [|done|done].
  destruct (pick_page_range s1 (pi_frames s1 Hi)) as (f' & l & Hpick' & Hf & _). congruence.
Qed.

(** C29: a page fault of a process on one of its pages is served: the handler
    takes the pool and picks a frame.  If the frame holds a page, that page is
    written from the frame to its block of its owner's flash device, and if the
    frame was free nothing is written; then the missing page is read from the
    process' own device into the frame, the frame and the entry, valid and
    writable, are recorded, and in that state the pool is released and the
    process resumed at the faulting instruction.  The access that faulted then
    finds its page: the TLB miss on it loads the entry of that frame.  The only
    other ends are those of a device that answers anything but READY, at the
    write or at the read: then nothing further is written, read or recorded,
    and the process terminates while the pool is marked as its own. *)
Theorem page_fault_served i a k s (c : support_t) :
  current s = Some i -> pool_inv s -> support_table s !! i = Some c -> has_asid i a s ->
  let saved := sup_except_state c !!! PGFAULTEXCEPT in
  cause saved ≠ CAUSE_TLB_MOD -> 0 <= entry_hi saved < 2 ^ 32 -> page_of (entry_hi saved) = Some k ->
  match support_tlb s with
  | Exit e s' => fault_served i a k s saved e s' ∧
      (e = Resumed saved -> tlb_holds (table_hi a k) (world s') = None ->
        ∃ f s2, (f < POOLSIZE)%nat ∧ table_of i s' !! k = Some (Pte (table_hi a k) (frame_entry s f)) ∧
          tlb_refill_handler i saved s' = Exit (Resumed saved) s2 ∧
          tlb_holds (table_hi a k) (world s2) = Some (frame_entry s f))
  | _ => False
  end.
Proof.
  intros Hcur Hinv Hc Hasid saved Hcause Hr Hp.
  pose proof (support_tlb_run unborn i a s c k Hcur Hinv Hc Hasid Hcause Hr Hp) as Hrun. unfold wp in Hrun.
  fold saved in Hrun. destruct (support_tlb s) as [u s'|e s'| |]; try done. split; [exact Hrun|].
  intros -> Hmiss. destruct Hrun as (_ & _ & s0 & s1 & _ & Htk & _ & Haddr & Hout).
  destruct (resumed_entry i a k saved s1 s' (lk_inv _ _ _ (tk_locked _ _ _ _ Htk)) Hout) as (f & c' & Hf & Hc' & Hpte).
  replace (frame_entry s1 f) with (frame_entry s f) in Hpte.
  2: { unfold frame_entry. by rewrite (frame_address_ext s s1 f Haddr). }
  destruct (refill_run i s' k saved c' _ Hc' Hpte Hr Hp) as (s2 & Hrun2 & Hw2 & _).
  exists f, s2. split_and!; [done | by rewrite (table_of_some i s' c' Hc') | exact Hrun2 |].
  rewrite Hw2. by apply random_law.
Qed.
End faults.
End coherence.

(** ** An instance: sixteen entries *)

#[local] Existing Instance umps3.

(** The first entry of [l] for [hi]. *)
Definition entry_for (hi : Z) (l : tlb) : option Z := (λ p, p.2.2) <$> list_find (λ e, e.1 = hi) l.
Definition tlb_lookup (hi : Z) (w : tlb) : option Z := entry_for hi (take TLBSIZE w).

Lemma entry_for_cons hi x l : entry_for hi (x :: l) = if decide (x.1 = hi) then Some x.2 else entry_for hi l.
Proof. unfold entry_for. cbn. case_decide; [done|]. by destruct (list_find _ l) as [[n y]|]. Qed.

Lemma entry_for_take hi l n lo : entry_for hi (take n l) = Some lo -> entry_for hi l = Some lo.
Proof.
  revert n. induction l as [|x l IH]; intros [|n]; try done. rewrite firstn_cons, !entry_for_cons.
  case_decide; [done|]. apply IH.
Qed.

Lemma entry_for_insert hi lo hi' l n x :
  list_find (λ e, e.1 = hi) l = Some (n, x) ->
  entry_for hi' (<[n := (hi, lo)]> l) = if decide (hi' = hi) then Some lo else entry_for hi' l.
Proof.
  revert n. induction l as [|y l IH]; intros n; [done|]. cbn [list_find]. destruct (decide (y.1 = hi)) as [Hy|Hy].
  - intros [= <- <-]. change (<[0%nat := (hi, lo)]> (y :: l)) with ((hi, lo) :: l). rewrite !entry_for_cons. cbn.
    destruct (decide (hi = hi')) as [->|Hne]; [by rewrite decide_True|].
    rewrite decide_False by congruence. by rewrite decide_False by congruence.
  - destruct (list_find _ l) as [[m z]|] eqn:Hl; [|done]. intros [= <- <-].
    change (<[S m := (hi, lo)]> (y :: l)) with (y :: <[m := (hi, lo)]> l). rewrite !entry_for_cons, (IH m) by done.
    destruct (decide (y.1 = hi')) as [<-|]; [by rewrite decide_False|done].
Qed.

Lemma list_tlb_small n : (n < TLBSIZE)%nat ->
  Z.land (Z.shiftl (Z.of_nat n) 8) PRESENTFLAG = 0 ∧ Z.to_nat (Z.shiftr (Z.shiftl (Z.of_nat n) 8) 8) = n.
Proof. unfold TLBSIZE. intros Hn. do 16 (destruct n as [|n]; [by split|]). lia. Qed.


Lemma lookup_random hi lo w hi' :
  tlb_lookup hi' (tlb_write_random hi lo w) = if decide (hi = hi') then Some lo else entry_for hi' (take 15 w).
Proof.
  etrans; [exact (entry_for_cons hi' (hi, lo) (take 15 (take 15 w)))|]. cbn [fst snd]. by rewrite take_take.
Qed.

#[export] Instance list_tlb_laws : TlbLaws list_tlb tlb_lookup.
Proof.
  split.
  - intros hi w. unfold tlb_lookup, entry_for. cbn [tlb_probe list_tlb].
    destruct (list_find _ _) as [[n x]|] eqn:E; cbn; [|split; [discriminate|by intros [? ?]]].
    apply list_find_Some in E as [E _]. apply lookup_take_Some in E as [_ Hn].
    split; [by eexists|]. intros _. by apply list_tlb_small.
  - intros hi lo w hi' [lo' Hin]. unfold tlb_lookup in *. cbn [tlb_probe tlb_write list_tlb].
    unfold entry_for in Hin. destruct (list_find _ _) as [[n x]|] eqn:E; [|done].
    pose proof E as [En _]%list_find_Some. apply lookup_take_Some in En as [_ Hn].
    destruct (list_tlb_small n Hn) as [_ ->]. etrans; [exact (f_equal (entry_for hi') (take_insert_lt w TLBSIZE n (hi, lo) Hn))|].
    by eapply entry_for_insert.
  - intros hi lo w _. rewrite lookup_random. by rewrite decide_True.
  - intros hi lo w hi' lo' _ Hne. rewrite lookup_random, decide_False by congruence. intros Hl.
    apply (entry_for_take _ _ 15). rewrite take_take. exact Hl.
Qed.

Lemma page_fault_served_witness :
  pool_inv one_process ∧
  match support_tlb one_process with
  | Exit e s' => fault_served 0 1 3 one_process (fault_at 0x80003000) e s'
  | _ => False
  end.
Proof.
  split; [apply one_process_inv|].
  pose proof (page_fault_served tlb_lookup (fun _ _ => True) 0 1 3 one_process
    (uproc_support 1 (fault_at 0x80003000) blank_state) eq_refl one_process_inv eq_refl
    (first_asid _ _ _ _) ltac:(discriminate) ltac:(done) eq_refl) as Hserved.
  destruct (support_tlb one_process) as [u s'|e s'| |]; [exact Hserved|exact (proj1 Hserved)|exact Hserved..].
Defined.

(** The process has the entry of its page 3 in the TLB. *)
Definition caching : sup tlb := set_world [(table_hi 1 3, DIRTYON)] one_process.

Lemma caching_paged : paged 0 1 caching.
Proof. split; [by apply (pool_inv_ext one_process), one_process_inv|apply first_asid]. Qed.

Lemma caching_agrees : tlb_agrees tlb_lookup 0 caching.
Proof.
  intros k e lo Hk. change (table_of 0 caching) with (table_of 0 one_process) in Hk.
  assert (k < 32)%nat by (by apply lookup_lt_Some in Hk).
  do 32 (destruct k as [|k]; [injection Hk as <-; vm_compute; congruence|]). lia.
Qed.

Lemma tlb_stays_coherent_witness :
  ∃ s1 s2, tlb_refill_handler 0 (fault_at 0x80005000) caching = Exit (Resumed (fault_at 0x80005000)) s1 ∧
    tlb_lookup (table_hi 1 5) (world s1) = Some DIRTYON ∧
    install 0 1 0x80003 0 3 0x20040000 caching = Ok tt s2 ∧ tlb_agrees tlb_lookup 0 s2.
Proof.
  destruct (tlb_stays_coherent tlb_lookup 0 1 caching caching_paged caching_agrees) as (Hrefill & _ & Hinstall).
  destruct (Hrefill (fault_at 0x80005000) 5%nat) as (s1 & e & Hrun & _ & _ & _ & He & Hw); [done|done|done|].
  destruct (Hinstall 0%nat 3%nat 0x80003 0x20040000) as (s2 & Hrun2 & Hag & _);
    [unfold POOLSIZE, UPROCMAX; lia|unfold MAXPAGES; lia|reflexivity|].
  exists s1, s2. split; [exact Hrun|]. split; [|exact (conj Hrun2 Hag)].
  injection He as <-. exact Hw.
Defined.
