(* ===== verification/Support.v ===== *)
(** * Support level system calls and the instantiator process

    [phase3/src/support.c]: the services of the support level, its general
    exception handler and the termination of a U-proc; [phase3/src/test.c]:
    the Support Structures and the process that creates the U-procs. *)

From Stdlib Require Import ZArith Lia String.
From stdpp Require Import base tactics option numbers strings gmap list vector.
From S2P Require Import Prelude ListHead Machine Kernel SupportLevel Pager.

Open Scope string_scope.
Open Scope list_scope.
Open Scope Z_scope.

Definition PRINTCHR : Z := 2.
Definition RECVD : Z := 5.
Definition MINLEN : Z := 0.
Definition MAXLEN : Z := 128.
Definition RECEIVE_CHAR : Z := 2.
Definition EOS : Z := 0.
Definition RECEIVE_STATUS (v : Z) : Z := Z.land v 0xF.
Definition RECEIVE_VALUE (v : Z) : Z := Z.land (Z.shiftr v 8) 0xFF.

(** A [char] is signed. *)
Definition char_value (b : Z) : Z := if b mod 256 <? 128 then b mod 256 else b mod 256 - 256.

(** Enough fuel for a list of at most [UPROCMAX] elements. *)
Definition support_fuel : nat := S UPROCMAX.

Section support.
Context {U : Umps} {Lay : Layout} {W : Type} {N : Nucleus W} {T : Tlb W}.

Definition on_support_links {A} (m : M (gmap slh (list_head slh)) Empty_set A) : SM (W := W) A :=
  zoom support_links set_support_links m.

(** ** test.c: the Support Structures *)

Definition support_of_p_list (x : slh) : option nat :=
  match x with L_support i => Some i | L_support_free => None end.

Definition allocate : SM (W := W) nat :=
  lh <- on_support_links (list_next L_support_free) ;;
  when bool_decide (lh = None) do (kfprintf "Out of support_t\n" [] ;; stop) ;;
  lh <- ok_or "NULL list_head" lh ;;
  on_support_links (list_del lh) ;;
  res <- ok_or "container_of" (support_of_p_list lh) ;;
  kfprintf "Alloc support_t #%d...\n" [Z.of_nat res] ;;
  n <- on_support_links (list_size support_fuel L_support_free) ;;
  kfprintf "|support_free| = %d\n" [n] ;;
  ret res.

Definition deallocate (s : option nat) : SM (W := W) unit :=
  when bool_decide (s = None) do (kfprintf "NULL deallocation.\n" [] ;; stop) ;;
  s <- ok_or "NULL support_t" s ;;
  let lh := L_support s in
  b <- on_support_links (list_contains support_fuel lh L_support_free) ;;
  when b do (kfprintf "Double support_t %p deallocation.\n" [support_addr s] ;; stop) ;;
  kfprintf "Deallocating #%d...\n" [Z.of_nat s] ;;
  on_support_links (list_add lh L_support_free) ;;
  n <- on_support_links (list_size support_fuel L_support_free) ;;
  kfprintf "|support_free| = %d\n" [n].

Definition deallocate_support (s : nat) : SM (W := W) unit := deallocate (Some s).

Definition init_supports : SM (W := W) unit :=
  on_support_links (INIT_LIST_HEAD L_support_free) ;;
  for_ UPROCMAX 0 (fun i => deallocate (Some i)).

(** ** support.c *)

Definition init_sys_semaphores : SM (W := W) unit :=
  for_ UPROCMAX 0 (fun i =>
    write_mem (sys5_semaphores + 4 * Z.of_nat i) 1 ;;
    write_mem (sys4_semaphores + 4 * Z.of_nat i) 1 ;;
    write_mem (sys3_semaphores + 4 * Z.of_nat i) 1).

Definition master_semaphore_v : SM (W := W) unit :=
  _ <- SYSCALL VERHOGEN master_semaphore 0 0 ;; ret tt.

Definition master_semaphore_p : SM (W := W) unit :=
  _ <- SYSCALL PASSEREN master_semaphore 0 0 ;; ret tt.

Definition sys_get_tod : SM (W := W) Z :=
  n <- gets clock_reads ;;
  modify (set_clock_reads (S n)) ;;
  ret (u32 (tod n)).

Definition current_support : SM (W := W) nat :=
  a <- SYSCALL GETSUPPORTPTR 0 0 0 ;; support_ptr a.

Definition sys_terminate : SM (W := W) unit :=
  s <- current_support ;;
  c <- support_at s ;;
  clean_after_uproc (sup_asid c) ;;
  deallocate_support s ;;
  master_semaphore_v ;;
  _ <- SYSCALL TERMPROCESS 0 0 0 ;; ret tt.

Definition read_char (a : Z) : SM (W := W) Z := gets (fun s => char_value (default 0 (chars s !! u32 a))).
Definition write_char (a v : Z) : SM (W := W) unit :=
  modify (fun s => set_chars (<[u32 a := v mod 256]> (chars s)) s).

(** The loop of [syscall_writer] from the [i]-th character, [n] to go: the
    result of the early [return], if there is one. *)
Fixpoint write_loop (terminal : bool) (device semaphore str : Z) (n : nat) (i : Z)
    : SM (W := W) (option Z) :=
  match n with
  | O => ret None
  | S n' =>
      ch <- read_char (str + i) ;;
      when negb terminal do write_mem (device + dtp_data0) ch ;;
      let value := Z.lor PRINTCHR (if terminal then u32 (Z.shiftl (u32 ch) 8) else 0) in
      r <- SYSCALL DOIO (if terminal then device + TRANSM_COMMAND else device + dtp_command)
             (s32 value) 0 ;;
      let status := Z.land (u32 r) (if terminal then TERMSTATMASK else u32 (-1)) in
      if negb (status =? (if terminal then RECVD else DEV_STATUS_READY)) then
        _ <- SYSCALL VERHOGEN semaphore 0 0 ;;
        ret (Some (u32 (- status)))
      else write_loop terminal device semaphore str n' (i + 1)
  end.

Definition syscall_writer (il_n : Z) : SM (W := W) Z :=
  support <- current_support ;;
  c <- support_at support ;;
  let id := sup_asid c - 1 in
  let saved := sup_except_state c !!! GENERALEXCEPT in
  let str := u32 (reg_a1 saved) in
  let len := u32 (reg_a2 saved) in
  when (len <? 0) || (MAXLEN <? len) || (str <? KUSEG) do
    (_ <- SYSCALL TERMINATE 0 0 0 ;; ret tt) ;;
  let device := DEV_REG_ADDR il_n id in
  which <- (if il_n =? IL_PRINTER then ret (sys3_semaphores, false)
            else if il_n =? IL_TERMINAL then ret (sys4_semaphores, true)
            else kfprintf "Unimplemented write for class #%d\n" [il_n] ;; stop) ;;
  let semaphore := which.1 + 4 * id in
  _ <- SYSCALL PASSEREN semaphore 0 0 ;;
  early <- write_loop which.2 device semaphore str (Z.to_nat len) 0 ;;
  match early with
  | Some r => ret r
  | None => _ <- SYSCALL VERHOGEN semaphore 0 0 ;; ret len
  end.

Definition sys_write_printer : SM (W := W) Z := syscall_writer IL_PRINTER.
Definition sys_write_terminal : SM (W := W) Z := syscall_writer IL_TERMINAL.

(** The loop of [sys_read_terminal]: the error that is returned, or the
    number of characters read. *)
Fixpoint read_loop (fuel : nat) (base semaphore buf r read : Z) : SM (W := W) (Z + Z) :=
  match fuel with
  | O => no_fuel
  | S fuel' =>
      if r =? 10 then ret (inr read)
      else
        st <- SYSCALL DOIO (base + RECV_COMMAND) RECEIVE_CHAR 0 ;;
        let status := u32 st in
        if negb (RECEIVE_STATUS status =? DEV_STATUS_TERMINAL_OK) then
          _ <- SYSCALL VERHOGEN semaphore 0 0 ;;
          ret (inl (u32 (- RECEIVE_STATUS status)))
        else
          let r := char_value (RECEIVE_VALUE status) in
          write_char (buf + read) r ;;
          read_loop fuel' base semaphore buf r (u32 (read + 1))
  end.

Definition sys_read_terminal (fuel : nat) : SM (W := W) Z :=
  support <- current_support ;;
  c <- support_at support ;;
  let termid := sup_asid c - 1 in
  let base := DEV_REG_ADDR IL_TERMINAL termid in
  let buf := u32 (reg_a1 (sup_except_state c !!! GENERALEXCEPT)) in
  let semaphore := sys5_semaphores + 4 * termid in
  when buf <? KUSEG do (_ <- SYSCALL TERMINATE 0 0 0 ;; ret tt) ;;
  _ <- SYSCALL PASSEREN semaphore 0 0 ;;
  res <- read_loop fuel base semaphore buf EOS 0 ;;
  match res with
  | inl r => ret r
  | inr read =>
      _ <- SYSCALL VERHOGEN semaphore 0 0 ;;
      write_char (buf + read) EOS ;;
      ret read
  end.

Definition upd_general (i : nat) (f : state_t -> state_t) : SM (W := W) unit :=
  upd_support i (fun c => set_sup_except_state
    (vinsert GENERALEXCEPT (f (sup_except_state c !!! GENERALEXCEPT)) (sup_except_state c)) c).

Definition support_syscall (fuel : nat) (current_support : nat) : SM (W := W) unit :=
  modify (fun s => set_active_p_s (set_reg_t9 (u32 (reg_t9 (active_p_s s) + WORD_SIZE)) (active_p_s s)) s) ;;
  modify (fun s => set_active_p_s (set_pc_epc (reg_t9 (active_p_s s)) (active_p_s s)) s) ;;
  c <- support_at current_support ;;
  let id := s32 (reg_a0 (sup_except_state c !!! GENERALEXCEPT)) in
  kfprintf "Syscall #%d\n" [id] ;;
  let finish (result : Z) := upd_general current_support (set_reg_v0 result) in
  if id =? GET_TOD then result <- sys_get_tod ;; finish result
  else if id =? WRITEPRINTER then result <- sys_write_printer ;; finish result
  else if id =? WRITETERMINAL then result <- sys_write_terminal ;; finish result
  else if id =? READTERMINAL then result <- sys_read_terminal fuel ;; finish result
  else sys_terminate.

Definition support_generic (fuel : nat) : SM (W := W) unit :=
  i <- current_support ;;
  c <- support_at i ;;
  let id := s32 (CAUSE_GET_EXCCODE (cause (sup_except_state c !!! GENERALEXCEPT))) in
  (if id =? 8 then support_syscall fuel i else support_trap) ;;
  upd_general i (fun st => set_pc_epc (u32 (pc_epc st + WORD_SIZE)) st) ;;
  upd_general i (fun st => set_reg_t9 (u32 (reg_t9 st + WORD_SIZE)) st) ;;
  c <- support_at i ;;
  load_saved (sup_except_state c !!! GENERALEXCEPT).

(** ** test.c: the instantiator *)

(** The processor states of a U-proc and of its support level, from the
    uninitialised [status] of [pstate]. *)
Definition uproc_status (st : Z) : Z :=
  status_kernel_mode_off_process (status_il_on_all
    (status_interrupts_on_process (status_local_timer_on st))).
Definition support_level_status (st : Z) : Z :=
  status_kernel_mode_on_process (status_il_on_all
    (status_interrupts_on_process (status_local_timer_on st))).

Definition upd_pstate (f : state_t -> state_t) : SM (W := W) unit :=
  modify (fun s => set_pstate (f (pstate s)) s).

Definition set_context (i : nat) (type : fin 2) (v : context_t) : SM (W := W) unit :=
  upd_support i (fun c => set_sup_except_context (vinsert type v (sup_except_context c)) c).

(** The body of the loop that creates the U-procs. *)
Definition create_uproc (ramtop support_status : Z) (i : nat) : SM (W := W) unit :=
  let asid := Z.of_nat i + 1 in
  upd_pstate (set_entry_hi (u32 (Z.shiftl asid ASIDSHIFT))) ;;
  support_structure <- allocate ;;
  upd_support support_structure (set_sup_asid asid) ;;
  ok <- init_page_table (Some support_structure) asid ;;
  when negb ok do
    (kfprintf "Failed to initialize page table (ASID = %d)\n" [asid] ;; stop) ;;
  set_context support_structure PGFAULTEXCEPT
    (Context (u32 (ramtop - 2 * asid * PAGESIZE)) support_status support_tlb_addr) ;;
  set_context support_structure GENERALEXCEPT
    (Context (u32 (ramtop - 2 * asid * PAGESIZE + PAGESIZE)) support_status support_generic_addr) ;;
  _ <- SYSCALL CREATEPROCESS pstate_addr PROCESS_PRIO_LOW (support_addr support_structure) ;;
  ret tt.

(** [garbage] is what the stack holds where [pstate] lies. *)
Definition test (garbage : state_t) : SM (W := W) unit :=
  upd_pstate (fun _ => garbage) ;;
  init_sys_semaphores ;;
  init_pager ;;
  init_supports ;;
  upd_pstate (set_reg_sp USERSTACKTOP) ;;
  upd_pstate (set_reg_t9 UPROCSTARTADDR) ;;
  upd_pstate (set_pc_epc UPROCSTARTADDR) ;;
  upd_pstate (fun st => set_status (uproc_status (status st)) st) ;;
  st <- gets pstate ;;
  let support_status := support_level_status (status st) in
  base <- read_mem RAMBASEADDR ;;
  ram <- read_mem RAMBASESIZE ;;
  let ramtop := u32 (base + ram) in
  for_ UPROCMAX 0 (create_uproc ramtop support_status) ;;
  for_ UPROCMAX 0 (fun _ => master_semaphore_p) ;;
  _ <- SYSCALL TERMPROCESS 0 0 0 ;; ret tt.
End support.
