(* ===== verification/Uprocs.v ===== *)
(** * What the development shows of the U-procs' services

    The free list of Support Structures as a stack, and the writing services on
    a device that answers with given statuses, each with an instance; and a run
    of the instantiator on the machine of [Virtual]. *)

From Stdlib Require Import ZArith Lia String.
From stdpp Require Import base tactics option numbers strings gmap list vector.
From S2P Require Import Prelude ListHead Machine Kernel SupportLevel Pager Paging Support Virtual.

Open Scope string_scope.
Open Scope list_scope.
Open Scope Z_scope.

Section free_list.
Context {U : Umps} {Lay : Layout} {W : Type} {N : Nucleus W} {T : Tlb W}.
Implicit Types (s : sup W) (i : nat) (l : list nat).

(** The free Support Structures, the next one to be allocated first. *)
Record free_list l s : Prop := {
  fl_dll : dll (support_links s) L_support_free (L_support <$> l);
  fl_cells i : (i < UPROCMAX)%nat -> is_Some (support_links s !! L_support i);
  fl_range : Forall (fun i => (i < UPROCMAX)%nat) l
}.

Lemma free_NoDup l s : free_list l s -> NoDup l.
Proof.
  intros [[Hnd _] _ _]. apply NoDup_cons in Hnd as [_ Hnd]. by eapply NoDup_fmap_1.
Qed.

Lemma free_structs_short l s : free_list l s -> (length (L_support <$> l) < support_fuel)%nat.
Proof.
  intros Hf. rewrite length_fmap. unfold support_fuel. apply le_n_S.
  transitivity (length (seq 0 UPROCMAX)); [apply NoDup_incl_length | by rewrite length_seq].
  - apply NoDup_ListNoDup. by eapply free_NoDup.
  - intros i Hi. apply in_seq. pose proof (fl_range l s Hf) as Hr. rewrite Forall_forall in Hr.
    apply list_elem_of_In in Hi. specialize (Hr i Hi). lia.
Qed.

Lemma free_head l s : free_list l s ->
  ∃ n, support_links s !! L_support_free = Some n ∧ next n = Some (List.hd L_support_free (L_support <$> l)).
Proof. intros [Hd _ _]. apply nx_load. by apply dll_nx. Qed.

Lemma support_links_ok {A} (m : M (gmap slh (list_head slh)) Empty_set A) s a h :
  m (support_links s) = Ok a h -> on_support_links m s = Ok a (set_support_links h s).
Proof. apply zoom_ok. Qed.

Lemma support_links_query {A} (m : M (gmap slh (list_head slh)) Empty_set A) s a :
  m (support_links s) = Ok a (support_links s) -> on_support_links m s = Ok a s.
Proof. intros Hm. rewrite (support_links_ok _ _ _ _ Hm). by destruct s. Qed.

Lemma free_size l s : free_list l s ->
  on_support_links (list_size support_fuel L_support_free) s = Ok (Z.of_nat (length l)) s.
Proof.
  intros Hf. apply support_links_query. destruct (free_head l s Hf) as (n & Hn & Hnx).
  pose proof (fl_dll l s Hf) as [Hnd Hs]. unfold list_size. step_with (load_ok _ _ _ Hn).
  rewrite Hnx, <-(seg_first _ _ _ _ Hs), (list_size_loop_spec _ _ _ (L_support <$> l)); [|done|done|by eapply free_structs_short].
  by rewrite length_fmap.
Qed.

Lemma free_contains l s i : free_list l s ->
  on_support_links (list_contains support_fuel (L_support i) L_support_free) s = Ok (bool_decide (i ∈ l)) s.
Proof.
  intros Hf. apply support_links_query. destruct (free_head l s Hf) as (n & Hn & Hnx).
  pose proof (fl_dll l s Hf) as [Hnd Hs]. unfold list_contains, list_search.
  erewrite bind_ok.
  2: { step_with (load_ok _ _ _ Hn). rewrite Hnx, <-(seg_first _ _ _ _ Hs).
       apply (list_search_loop_spec _ _ _ _ (L_support <$> l)); [done | done | by eapply free_structs_short | by eexists]. }
  cbv beta. rewrite search_list_exact. unfold ret. f_equal. apply bool_decide_ext.
  assert (L_support i ∈ L_support <$> l <-> i ∈ l) as Hiff.
  { rewrite list_elem_of_fmap. split; [by intros (j & [= ->] & Hj) | intros Hi; by exists i]. }
  case_decide as Hd; rewrite Hiff in Hd; naive_solver.
Qed.

(** What a step on the free list leaves alone. *)
Definition only_links s s' : Prop := s' = set_slog (slog s') (set_support_links (support_links s') s).

Lemma deallocate_run l s i : free_list l s -> (i < UPROCMAX)%nat -> i ∉ l ->
  ∃ s', deallocate (Some i) s = Ok tt s' ∧ free_list (i :: l) s' ∧ only_links s s'.
Proof.
  intros Hf Hi Hil. unfold deallocate. rewrite bool_decide_eq_false_2 by done.
  rewrite bind_ret_l, (bind_ok_or _ _ _ _ i) by done. cbv zeta. step_with (free_contains l s i Hf).
  rewrite bool_decide_eq_false_2 by done. rewrite bind_ret_l. unfold kfprintf at 1. rewrite bind_modify.
  set (s1 := set_slog _ s). assert (free_list l s1) as Hf1 by (by destruct Hf).
  destruct (free_head l s1 Hf1) as (n & Hn & Hnx).
  assert (L_support i ∉ L_support_free :: (L_support <$> l)) as Hnew.
  { rewrite elem_of_cons, list_elem_of_fmap. intros [|(j & [= <-] & Hj)]; done. }
  pose proof (fl_dll l s1 Hf1) as Hd.
  assert (is_Some (support_links s1 !! List.hd L_support_free (L_support <$> l))) as Hhd.
  { destruct (dll_dom _ _ _ (List.hd L_support_free (L_support <$> l)) Hd (hd_in _ _)) as [[b Hb] _].
    by eapply nx_dom. }
  destruct (__list_add_ok (support_links s1) (L_support i) L_support_free (List.hd L_support_free (L_support <$> l)))
    as (h' & Hrun & Hdom & Hn' & Hp'); [by apply (fl_cells l s1 Hf1) | by eexists | done |].
  assert (list_add (L_support i) L_support_free (support_links s1) = Ok tt h') as Hadd.
  { unfold list_add. step_with (load_ok _ _ _ Hn). by rewrite Hnx. }
  step_with (support_links_ok _ s1 _ _ Hadd). set (s2 := set_support_links h' s1).
  assert (free_list (i :: l) s2) as Hf2.
  { split; [by apply (dll_add (support_links s1)) | | constructor; [done | apply Hf]].
    intros j Hj. apply (same_dom_is_Some _ _ _ Hdom). by apply (fl_cells l s1 Hf1). }
  step_with (free_size (i :: l) s2 Hf2). eexists. split_and!; [reflexivity | by destruct Hf2 | done].
Qed.

Lemma deallocate_twice l s i : free_list l s -> i ∈ l ->
  ∃ m, deallocate (Some i) s = Exit Stopped (set_slog (m :: slog s) s).
Proof.
  intros Hf Hil. unfold deallocate. rewrite bool_decide_eq_false_2 by done.
  rewrite bind_ret_l, (bind_ok_or _ _ _ _ i) by done. cbv zeta. step_with (free_contains l s i Hf).
  rewrite bool_decide_eq_true_2 by done. by eexists.
Qed.

Lemma allocate_run l s i : free_list (i :: l) s ->
  ∃ s', allocate s = Ok i s' ∧ free_list l s' ∧ only_links s s'.
Proof.
  intros Hf. destruct (free_head _ s Hf) as (n & Hn & Hnx). pose proof (fl_dll _ s Hf) as Hd.
  unfold allocate.
  assert (list_next L_support_free (support_links s) = Ok (Some (L_support i)) (support_links s)) as Hnext.
  { change (List.hd _ (L_support <$> i :: l)) with (L_support i) in Hnx.
    assert (list_empty L_support_free (support_links s) = Ok false (support_links s)) as Hempty.
    { unfold list_empty. step_with (load_ok _ _ _ Hn). rewrite Hnx. by rewrite bool_decide_eq_false_2. }
    unfold list_next. step_with Hempty. step_with (load_ok _ _ _ Hn). by rewrite Hnx. }
  step_with (support_links_query _ s _ Hnext). rewrite bool_decide_eq_false_2 by done.
  rewrite bind_ret_l, (bind_ok_or _ _ _ _ (L_support i)) by done.
  destruct (dll_neighbours _ _ [] _ _ Hd) as [Hpv Hnxt]. cbn [List.last] in Hpv.
  destruct (nx_load _ _ _ Hnxt) as (nd & Hx & Hnx'). unfold pv in Hpv. rewrite Hx in Hpv. cbn in Hpv.
  destruct (__list_del_ok (support_links s) L_support_free (List.hd L_support_free (L_support <$> l)))
    as (h' & Hrun & Hdom & Hn' & Hp').
  { by eexists. }
  { destruct (dll_dom _ _ _ (List.hd L_support_free (L_support <$> l)) Hd) as [[b Hb] _]; [|by eapply nx_dom].
    pose proof (hd_in L_support_free (L_support <$> l)). cbn. set_solver. }
  assert (list_del (L_support i) (support_links s) = Ok tt h') as Hdel.
  { unfold list_del. step_with (load_ok _ _ _ Hx). by rewrite Hpv, Hnx'. }
  step_with (support_links_ok _ s _ _ Hdel). rewrite (bind_ok_or _ _ _ _ i) by done.
  unfold kfprintf at 1. rewrite bind_modify. set (s2 := set_slog _ _).
  assert (free_list l s2) as Hf2.
  { split.
    - by apply (dll_del (support_links s) h' L_support_free [] (L_support i)).
    - intros j Hj. apply (same_dom_is_Some _ _ _ Hdom). by apply (fl_cells _ s Hf).
    - pose proof (fl_range _ s Hf) as Hr. by apply Forall_cons in Hr as [_ Hr]. }
  step_with (free_size l s2 Hf2). unfold kfprintf. rewrite bind_modify.
  eexists. split_and!; [reflexivity | by destruct Hf2 | done].
Qed.

Lemma allocate_empty s : free_list [] s -> ∃ m, allocate s = Exit Stopped (set_slog (m :: slog s) s).
Proof.
  intros Hf. destruct (free_head _ s Hf) as (n & Hn & Hnx). unfold allocate.
  assert (list_next L_support_free (support_links s) = Ok None (support_links s)) as Hnext.
  { assert (list_empty L_support_free (support_links s) = Ok true (support_links s)) as Hempty.
    { unfold list_empty. step_with (load_ok _ _ _ Hn). rewrite Hnx. by rewrite bool_decide_eq_true_2. }
    unfold list_next. by step_with Hempty. }
  step_with (support_links_query _ s _ Hnext). rewrite bool_decide_eq_true_2 by done. by eexists.
Qed.

(** C36: the free Support Structures are a stack: [deallocate] pushes one that
    is not free and stops the machine on one that is, [allocate] pops the
    last one pushed and stops the machine when none is left; neither touches
    anything but the links and the log. *)
Theorem supports_are_a_stack l s i :
  free_list l s -> (i < UPROCMAX)%nat ->
  (if decide (i ∈ l)
   then ∃ m, deallocate (Some i) s = Exit Stopped (set_slog (m :: slog s) s)
   else ∃ s', deallocate (Some i) s = Ok tt s' ∧ free_list (i :: l) s' ∧ only_links s s') ∧
  match l with
  | [] => ∃ m, allocate s = Exit Stopped (set_slog (m :: slog s) s)
  | j :: l' => ∃ s', allocate s = Ok j s' ∧ free_list l' s' ∧ only_links s s'
  end.
Proof.
  intros Hf Hi. split.
  - case_decide; [by apply (deallocate_twice l) | by apply deallocate_run].
  - destruct l as [|j l]; [by apply allocate_empty | by apply allocate_run].
Qed.
End free_list.

(** ** The writing services *)

(** A statement about bytes that a computation decides. *)
Lemma every_byte (P : Z -> bool) b :
  forallb (fun n => P (Z.of_nat n)) (seq 0 256) = true -> 0 <= b < 256 -> P b = true.
Proof.
  intros Hall Hb. rewrite forallb_forall in Hall. rewrite <-(Z2Nat.id b) by lia. apply Hall, in_seq. lia.
Qed.

(** The command that prints [ch] on a terminal: its code and its character. *)
Definition print_word (ch : Z) : Z := s32 (Z.lor PRINTCHR (u32 (Z.shiftl (u32 ch) 8))).

Lemma print_word_byte b : 0 <= b < 256 ->
  Z.land (print_word (char_value b)) 0xFF = PRINTCHR ∧ Z.land (Z.shiftr (print_word (char_value b)) 8) 0xFF = b.
Proof.
  intros Hb. apply (every_byte (fun b => (Z.land (print_word (char_value b)) 0xFF =? PRINTCHR) &&
    (Z.land (Z.shiftr (print_word (char_value b)) 8) 0xFF =? b))) in Hb; [|by vm_compute].
  apply andb_true_iff in Hb as [H1%Z.eqb_eq H2%Z.eqb_eq]. done.
Qed.

Lemma char_word_byte b : 0 <= b < 256 -> Z.land (u32 (char_value b)) 0xFF = b.
Proof.
  intros Hb. apply Z.eqb_eq. by apply (every_byte (fun b => Z.land (u32 (char_value b)) 0xFF =? b)) in Hb; [|by vm_compute].
Qed.

Lemma char_value_mod b : char_value (b mod 256) = char_value b.
Proof. unfold char_value. by rewrite Z.mod_mod by lia. Qed.

Section services.
Context {U : Umps} {Lay : Layout} {W : Type} {N : Nucleus W}.
Implicit Types (s : sup W) (i : nat) (c : support_t).

(** A blocking call leaves the caller's own data alone. *)
Record calm i s s' : Prop := {
  cm_current : current s' = current s;
  cm_calls : calls s' = calls s;
  cm_chars : chars s' = chars s;
  cm_mine : support_table s' !! i = support_table s !! i
}.

(** The semaphores of the devices of the process of ASID [a]. *)
Definition own_semaphore (a sem : Z) : Prop :=
  1 <= a <= 8 ∧ (sem = sys3_semaphores + 4 * (a - 1) \/ sem = sys4_semaphores + 4 * (a - 1) \/
    sem = sys5_semaphores + 4 * (a - 1)).

(** The nucleus as the services see it. *)
Class ServiceLaws : Prop := {
  sv_support_addr i : support_of_addr (support_addr i) = Some i;
  sv_getsupportptr s i : current s = Some i ->
    ∃ s', nucleus GETSUPPORTPTR 0 0 0 s = Ok (support_addr i) s' ∧ calm i s s';
  sv_semaphore s i c a sem : current s = Some i -> support_table s !! i = Some c ->
    a = PASSEREN \/ a = VERHOGEN -> own_semaphore (sup_asid c) sem ->
    ∃ r s', nucleus a sem 0 0 s = Ok r s' ∧ calm i s s';
  sv_terminate s i : current s = Some i ->
    ∃ st, nucleus TERMINATE 0 0 0 s = Exit (PassedUp TERMINATE) (saves_general i st s)
}.
Context {SL : ServiceLaws}.

(** A bad argument ends the process before anything else. *)
Lemma refuses i s : current s = Some i -> ∃ s', SYSCALL TERMINATE 0 0 0 s = Exit (PassedUp TERMINATE) s' ∧
  chars s' = chars s ∧ calls s' = (TERMINATE, 0, 0, 0) :: calls s.
Proof.
  intros Hc. set (s0 := set_calls ((TERMINATE, 0, 0, 0) :: calls s) s).
  destruct (sv_terminate s0 i Hc) as (st & Hrun). exists (saves_general i st s0). split; [|done].
  unfold SYSCALL. by rewrite bind_modify.
Qed.

(** Process [i], with [c] for its Support Structure, uses a device: [P] is what
    holds of the device.  [keeps_device P]: none of the other calls changes it. *)
Record serves i c (P : W -> Prop) s : Prop := {
  sr_current : current s = Some i;
  sr_mine : support_table s !! i = Some c;
  sr_asid : 1 <= sup_asid c <= 8;
  sr_device : P (world s)
}.

Definition keeps_device (P : W -> Prop) i : Prop := ∀ s a b r s', current s = Some i ->
  a = PASSEREN \/ a = VERHOGEN \/ a = GETSUPPORTPTR -> P (world s) -> nucleus a b 0 0 s = Ok r s' -> P (world s').

(** The call that finds the Support Structure of the caller. *)
Lemma current_serves i c P s : keeps_device P i -> serves i c P s ->
  ∃ s', current_support s = Ok i s' ∧ serves i c P s' ∧ chars s' = chars s ∧
    calls s' = (GETSUPPORTPTR, 0, 0, 0) :: calls s.
Proof.
  intros HP [R1 R2 R3 R4]. set (s0 := set_calls ((GETSUPPORTPTR, 0, 0, 0) :: calls s) s).
  destruct (sv_getsupportptr s0 i R1) as (s' & Hrun & [C1 C2 C3 C4]). exists s'. split_and!; [| |done..].
  - unfold current_support, SYSCALL. rewrite bind_assoc, bind_modify. step_with Hrun.
    unfold support_ptr. by rewrite sv_support_addr.
  - split; [by rewrite C1 | by rewrite C4 | done|]. apply (HP s0 GETSUPPORTPTR 0 (support_addr i)); auto.
Qed.

Lemma semaphore_serves i c P s a sem : keeps_device P i -> serves i c P s -> a = PASSEREN \/ a = VERHOGEN ->
  own_semaphore (sup_asid c) sem ->
  ∃ r s', SYSCALL a sem 0 0 s = Ok r s' ∧ serves i c P s' ∧ chars s' = chars s ∧
    calls s' = (a, sem, 0, 0) :: calls s.
Proof.
  intros HP [R1 R2 R3 R4] Ha Hsem. set (s0 := set_calls ((a, sem, 0, 0) :: calls s) s).
  destruct (sv_semaphore s0 i c a sem R1 R2 Ha Hsem) as (r & s' & Hrun & [C1 C2 C3 C4]).
  exists r, s'. split_and!; [unfold SYSCALL; by rewrite bind_modify | | done..].
  split; [by rewrite C1 | by rewrite C4 | done|]. apply (HP s0 a sem r); [done | tauto | done..].
Qed.
End services.

Section writer.
Context {U : Umps} {L : UmpsLaws} {Lay : Layout} {W : Type} {N : Nucleus W} {T : Tlb W}.
Context (device : nat -> Z -> list Z -> list Z -> W -> Prop).
Implicit Types (s : sup W) (i n m : nat) (c : support_t) (sent vs : list Z).

(** The register that takes the command, and the character that the device
    [reg] is then given: a terminal finds it in the command, a printer in
    its DATA0 register. *)
Definition command_reg (terminal : bool) (reg : Z) : Z :=
  if terminal then reg + TRANSM_COMMAND else reg + dtp_command.
Definition given (terminal : bool) (reg cmd : Z) s : Z :=
  Z.land (if terminal then Z.shiftr cmd 8 else default 0 (words s !! (reg + dtp_data0))) 0xFF.

(** [device i il sent vs w]: the device of class [il] of process [i] has been
    given the characters [sent], and answers the next commands with the
    statuses [vs].  A command to print gives it a character and takes an
    answer; the other calls do neither. *)
Class PrintingLaws : Prop := {
  pr_services :: ServiceLaws (N := N);
  pr_others i il sent vs : keeps_device (device i il sent vs) i;
  pr_print s i c il cmd sent v vs : il = IL_PRINTER \/ il = IL_TERMINAL ->
    serves i c (device i il sent (v :: vs)) s -> Z.land cmd 0xFF = PRINTCHR ->
    let reg := DEV_REG_ADDR il (sup_asid c - 1) in
    let terminal := il =? IL_TERMINAL in
    ∃ s', nucleus DOIO (command_reg terminal reg) cmd 0 s = Ok v s' ∧ calm i s s' ∧
      device i il (sent ++ [given terminal reg cmd s]) vs (world s')
}.
Context {PL : PrintingLaws}.

(** The byte at [str + j], and the call that prints it. *)
Definition user_byte s (str : Z) (j : nat) : Z := default 0 (chars s !! u32 (str + Z.of_nat j)) mod 256.

Definition print_command (terminal : bool) (b : Z) : Z := if terminal then print_word (char_value b) else PRINTCHR.

Definition print_call (terminal : bool) (reg str : Z) s (j : nat) : Z * Z * Z * Z :=
  (DOIO, command_reg terminal reg, print_command terminal (user_byte s str j), 0).

(** The status in an answer, that of a device that printed the character, and
    an answer that refuses it. *)
Definition status_of (terminal : bool) (v : Z) : Z := Z.land (u32 v) (if terminal then TERMSTATMASK else u32 (-1)).
Definition printed (terminal : bool) : Z := if terminal then RECVD else DEV_STATUS_READY.
Definition refused (terminal : bool) (v : Z) : Prop := status_of terminal v ≠ printed terminal.

#[export] Instance refused_dec terminal v : Decision (refused terminal v).
Proof. unfold refused. apply _. Defined.

(** What becomes of [n] characters when the answers are [vs]: the first one
    that refuses, with its place, and how many characters are given. *)
Definition first_refused (terminal : bool) n vs : option (nat * Z) := list_find (refused terminal) (take n vs).
Definition characters_given (terminal : bool) n vs : nat :=
  match first_refused terminal n vs with Some (x, _) => S x | None => n end.

Lemma first_refused_cons terminal n v vs : first_refused terminal (S n) (v :: vs) =
  if decide (refused terminal v) then Some (0%nat, v) else prod_map S id <$> first_refused terminal n vs.
Proof. done. Qed.

Definition sems (il_n : Z) : Z := if il_n =? IL_PRINTER then sys3_semaphores else sys4_semaphores.

Lemma own_sems a il : 1 <= a <= 8 -> own_semaphore a (sems il + 4 * (a - 1)).
Proof using. intros Ha. split; [done|]. unfold sems. destruct (il =? IL_PRINTER); auto. Qed.

(** One character. *)
Lemma print_run i c il sent v vs s str j : il = IL_PRINTER \/ il = IL_TERMINAL ->
  serves i c (device i il sent (v :: vs)) s ->
  let reg := DEV_REG_ADDR il (sup_asid c - 1) in let terminal := il =? IL_TERMINAL in
  let ch := char_value (default 0 (chars s !! u32 (str + Z.of_nat j))) in
  ∃ s', (when negb terminal do write_mem (reg + dtp_data0) ch ;;
    SYSCALL DOIO (if terminal then reg + TRANSM_COMMAND else reg + dtp_command)
      (s32 (Z.lor PRINTCHR (if terminal then u32 (Z.shiftl (u32 ch) 8) else 0))) 0) s = Ok v s' ∧
    serves i c (device i il (sent ++ [user_byte s str j]) vs) s' ∧ chars s' = chars s ∧
    calls s' = print_call terminal reg str s j :: calls s.
Proof using PL.
  intros Hil [R1 R2 R3 R4] reg terminal ch. set (b := user_byte s str j).
  assert (0 <= b < 256) as Hb by (apply Z.mod_pos_bound; lia).
  assert (ch = char_value b) as Hch by (symmetry; apply char_value_mod).
  assert (s32 (Z.lor PRINTCHR (if terminal then u32 (Z.shiftl (u32 ch) 8) else 0)) = print_command terminal b) as ->.
  { unfold print_command, print_word. rewrite Hch. by destruct terminal. }
  change (if terminal then reg + TRANSM_COMMAND else reg + dtp_command) with (command_reg terminal reg).
  assert (∃ s1, (when negb terminal do write_mem (reg + dtp_data0) ch) s = Ok tt s1 ∧
    serves i c (device i il sent (v :: vs)) s1 ∧ chars s1 = chars s ∧ calls s1 = calls s ∧
    (terminal = false -> words s1 !! (reg + dtp_data0) = Some (u32 ch))) as (s1 & Hrun1 & HR1 & Hch1 & Hc1 & Hw1).
  { destruct terminal; eexists; (split; [reflexivity|]); (split_and!; [by split | done | done|]); [done|].
    intros _. cbn. by rewrite lookup_insert_eq. }
  step_with Hrun1. set (s2 := set_calls (print_call terminal reg str s j :: calls s1) s1).
  assert (serves i c (device i il sent (v :: vs)) s2) as HR2 by (by destruct HR1).
  destruct (pr_print s2 i c il (print_command terminal b) sent v vs Hil HR2) as (s3 & Hrun3 & [C1 C2 C3 C4] & Hd).
  { unfold print_command. destruct terminal; [by apply print_word_byte|done]. }
  exists s3. split_and!; [unfold SYSCALL; rewrite bind_modify; exact Hrun3 | | by rewrite C3 | by rewrite C2; cbn; rewrite Hc1].
  destruct HR2. split; [by rewrite C1 | by rewrite C4 | done|]. fold reg terminal in Hd.
  replace (given terminal reg (print_command terminal b) s2) with b in Hd; [exact Hd|].
  unfold given, print_command. destruct terminal eqn:Ht; [symmetry; by apply print_word_byte|].
  change (words s2) with (words s1). rewrite Hw1, Hch by done. symmetry. by apply char_word_byte.
Qed.

Lemma write_loop_run i c il str s0 n : il = IL_PRINTER \/ il = IL_TERMINAL ->
  let reg := DEV_REG_ADDR il (sup_asid c - 1) in let terminal := il =? IL_TERMINAL in
  let semaphore := sems il + 4 * (sup_asid c - 1) in
  ∀ j sent vs s, serves i c (device i il sent vs) s -> chars s = chars s0 -> (n <= length vs)%nat ->
  let m := characters_given terminal n vs in
  ∃ s', write_loop terminal reg semaphore str n (Z.of_nat j) s =
      Ok (match first_refused terminal n vs with Some (_, v) => Some (u32 (- status_of terminal v)) | None => None end) s' ∧
    serves i c (device i il (sent ++ map (user_byte s0 str) (seq j m)) (drop m vs)) s' ∧
    calls s' = (match first_refused terminal n vs with Some _ => [(VERHOGEN, semaphore, 0, 0)] | None => [] end)
      ++ rev (map (print_call terminal reg str s0) (seq j m)) ++ calls s.
Proof using PL.
  intros Hil reg terminal semaphore. induction n as [|n IH]; intros j sent vs s HR Hch Hn.
  { cbv zeta. unfold characters_given, first_refused. rewrite firstn_O. cbn. exists s.
    rewrite app_nil_r. split_and!; [done | by rewrite drop_0 | done]. }
  destruct vs as [|v vs]; [cbn in Hn; lia|]. cbn [length] in Hn.
  destruct (print_run i c il sent v vs s str j Hil HR) as (s1 & Hrun1 & HR1 & Hch1 & Hc1).
  cbv zeta in Hrun1. fold reg terminal in Hrun1, Hc1.
  assert (user_byte s str j = user_byte s0 str j) as Eb by (unfold user_byte; by rewrite Hch).
  assert (print_call terminal reg str s j = print_call terminal reg str s0 j) as Ec by (unfold print_call; by rewrite Eb).
  rewrite Eb in HR1. rewrite Ec in Hc1.
  cbn [write_loop]. unfold read_char at 1. rewrite bind_gets, <-bind_assoc. step_with Hrun1. cbv zeta.
  fold (status_of terminal v). fold (printed terminal). unfold characters_given. rewrite first_refused_cons.
  destruct (Z.eqb_spec (status_of terminal v) (printed terminal)) as [Hok|Hbad]; cbn [negb].
  - rewrite decide_False by (intros H; by apply H).
    destruct (IH (S j) _ vs s1 HR1 ltac:(by rewrite Hch1) ltac:(lia)) as (s' & Hrun & HR' & Hc').
    cbv zeta in HR'. unfold characters_given in HR', Hc'. replace (Z.of_nat j + 1) with (Z.of_nat (S j)) by lia.
    exists s'. rewrite Hc1 in Hc'. rewrite <-app_assoc in HR'.
    destruct (first_refused terminal n vs) as [[x w]|]; cbn [fmap option_fmap option_map prod_map fst snd id];
      (split_and!; [exact Hrun | exact HR' |]); rewrite Hc'; cbn [seq map rev]; by rewrite <-?app_assoc.
  - rewrite decide_True by done.
    destruct (semaphore_serves i c _ s1 VERHOGEN semaphore (pr_others i il _ vs) HR1 ltac:(auto))
      as (r & s2 & Hrun2 & HR2 & _ & Hc2); [by apply own_sems, HR|].
    step_with Hrun2. exists s2. split_and!; [done | exact HR2 | by rewrite Hc2, Hc1].
Qed.

Lemma devices_differ : (IL_TERMINAL =? IL_PRINTER) = false.
Proof. by rewrite il_terminal, il_printer. Qed.

(** C37: the writing services print the string of the caller.  The device
    answers the commands with the statuses [vs].  Between taking and releasing
    the semaphore of the device the service gives it the bytes of the string,
    in order, one command each, up to and with the first one whose answer is
    not "printed"; it returns the length of the string if there is none, and
    the negated status of that answer otherwise.  A string that is too long or
    lies below [KUSEG] terminates the process before anything is printed. *)
Theorem syscall_writer_prints il_n i s (c : support_t) sent vs :
  il_n = IL_PRINTER \/ il_n = IL_TERMINAL -> serves i c (device i il_n sent vs) s ->
  let str := u32 (reg_a1 (sup_except_state c !!! GENERALEXCEPT)) in
  let len := u32 (reg_a2 (sup_except_state c !!! GENERALEXCEPT)) in
  let terminal := il_n =? IL_TERMINAL in
  let semaphore := sems il_n + 4 * (sup_asid c - 1) in
  let reg := DEV_REG_ADDR il_n (sup_asid c - 1) in
  if (MAXLEN <? len) || (str <? KUSEG)
  then ∃ s', syscall_writer il_n s = Exit (PassedUp TERMINATE) s' ∧ calls s' = (TERMINATE, 0, 0, 0) :: (GETSUPPORTPTR, 0, 0, 0) :: calls s
  else len <= Z.of_nat (length vs) ->
    let n := characters_given terminal (Z.to_nat len) vs in
    ∃ s', syscall_writer il_n s = Ok (match first_refused terminal (Z.to_nat len) vs with
        | None => len
        | Some (_, v) => u32 (- status_of terminal v)
        end) s' ∧
      device i il_n (sent ++ map (user_byte s str) (seq 0 n)) (drop n vs) (world s') ∧
      calls s' = (VERHOGEN, semaphore, 0, 0) :: rev (map (print_call terminal reg str s) (seq 0 n))
        ++ (PASSEREN, semaphore, 0, 0) :: (GETSUPPORTPTR, 0, 0, 0) :: calls s.
Proof.
  intros Hil HR str len terminal semaphore reg. unfold syscall_writer.
  destruct (current_serves i c _ s (pr_others i il_n sent vs) HR) as (s0 & Hcur & HR0 & Hch0 & Hc0).
  step_with Hcur. step_with (support_at_ok s0 i c (sr_mine _ _ _ _ HR0)). cbv zeta.
  fold str len. pose proof (u32_range (reg_a2 (sup_except_state c !!! GENERALEXCEPT))) as Hlen. fold len in Hlen.
  rewrite (proj2 (Z.ltb_ge len 0)) by lia. cbn [orb].
  destruct ((MAXLEN <? len) || (str <? KUSEG)).
  { destruct (refuses i s0 (sr_current _ _ _ _ HR0)) as (s1 & Hrun1 & _ & Hcalls1). exists s1.
    split; [rewrite bind_assoc; by step_with Hrun1 | by rewrite Hcalls1, Hc0]. }
  intros Hvs. rewrite bind_ret_l.
  assert ((if il_n =? IL_PRINTER then ret (sys3_semaphores, false)
    else if il_n =? IL_TERMINAL then ret (sys4_semaphores, true)
    else kfprintf "Unimplemented write for class #%d\n" [il_n];; stop) s0
    = Ok (sems il_n, terminal) s0) as Hwhich.
  { unfold sems, terminal. pose proof devices_differ as Hd. destruct Hil as [-> | ->].
    - rewrite Z.eqb_refl. rewrite Z.eqb_sym in Hd. by rewrite Hd.
    - by rewrite Hd, Z.eqb_refl. }
  step_with Hwhich. cbn [fst snd]. fold semaphore reg.
  pose proof (own_sems (sup_asid c) il_n (sr_asid _ _ _ _ HR)) as Hsem.
  destruct (semaphore_serves i c _ s0 PASSEREN semaphore (pr_others i il_n sent vs) HR0 ltac:(auto) Hsem)
    as (r1 & s1 & Hrun1 & HR1 & Hch1 & Hc1). step_with Hrun1.
  destruct (write_loop_run i c il_n str s (Z.to_nat len) Hil 0 sent vs s1 HR1) as (s2 & Hrun2 & HR2 & Hc2);
    [by rewrite Hch1 | lia|].
  change (Z.of_nat 0) with 0 in Hrun2. fold reg terminal semaphore in Hrun2, Hc2, HR2. step_with Hrun2.
  rewrite Hc1, Hc0 in Hc2. destruct (first_refused terminal (Z.to_nat len) vs) as [[x v]|].
  - exists s2. split_and!; [done | apply HR2 | exact Hc2].
  - destruct (semaphore_serves i c _ s2 VERHOGEN semaphore (pr_others i il_n _ _) HR2 ltac:(auto) Hsem)
      as (r3 & s3 & Hrun3 & HR3 & _ & Hc3).
    step_with Hrun3. exists s3. split_and!; [done | apply HR3 | by rewrite Hc3, Hc2].
Qed.
End writer.

(** ** Instances *)

#[local] Existing Instance umps3.

Definition zero_table : list pte_entry_t := replicate 32 (Pte 0 0).
Definition zero_support : support_t := Support 0 [# blank_state; blank_state] [# Context 0 0 0; Context 0 0 0] zero_table.

(** The [list_head] objects of test.c, zeroed. *)
Definition zero_links : gmap slh (list_head slh) :=
  list_to_map (map (fun x => (x, Node None None)) (L_support_free :: map L_support (seq 0 8))).

(** The machine as [test] starts: 512 KiB of RAM from 0x20000000, a nucleus
    of 0x8000 bytes of text and data. *)
Definition before_test : sup tlb :=
  set_support_links zero_links
    (set_words (list_to_map [(RAMBASEADDR, 0x20000000); (RAMBASESIZE, 0x80000);
        (KERNELSTACK + 0x18, 0x20001000); (KERNELSTACK + 0x24, 0x7000)])
      (machine None (replicate 8 zero_support) (replicate 16 (Swap 0 0 None)))).

(** The calls that create the U-proc of ASID [a], in order. *)
Definition creation (a : nat) : list (Z * Z * Z * Z) :=
  [(DOIO, flash_reg (Z.of_nat a) + dtp_command, flash_command FLASHREAD 0, 0);
   (CREATEPROCESS, pstate_addr, PROCESS_PRIO_LOW, support_addr (8 - a))].

(** What a Support Structure tells the nucleus and the pager. *)
Definition summary (c : support_t) : Z * (Z * Z) * (Z * Z) * list Z :=
  let tlb := sup_except_context c !!! PGFAULTEXCEPT in
  let general := sup_except_context c !!! GENERALEXCEPT in
  (sup_asid c, (pc tlb, stack_ptr tlb), (pc general, stack_ptr general),
   map pte_entry_hi (sup_private_page_table c)).

(** The instantiator run on a nucleus that serves every call at once: the
    eight U-procs are created one after the other, each with its own ASID,
    Support Structure, page table and pair of stack pages below the top of RAM,
    then it waits for eight of them to end and terminates itself; whatever its
    stack holds where [pstate] lies. *)
Theorem test_creates_uprocs (garbage : state_t) :
  match test garbage before_test with
  | Exit Terminated s' =>
      rev (calls s') = flat_map creation (seq 1 8)
        ++ replicate 8 (PASSEREN, master_semaphore, 0, 0) ++ [(TERMPROCESS, 0, 0, 0)] ∧
      map summary (rev (support_table s')) = map (fun a =>
        (Z.of_nat a, (support_tlb_addr, 0x20080000 - 2 * Z.of_nat a * PAGESIZE),
         (support_generic_addr, 0x20080000 - 2 * Z.of_nat a * PAGESIZE + PAGESIZE),
         map (table_hi (Z.of_nat a)) (seq 0 32))) (seq 1 8) ∧
      map sw_asid (swap_pool_table s') = replicate 16 (-1)
  | _ => False
  end.
Proof. vm_compute. done. Qed.

Definition emptied (s : sup tlb) : sup tlb :=
  match on_support_links (INIT_LIST_HEAD L_support_free) s with Ok _ s' => s' | _ => s end.

Definition no_supports : sup tlb := emptied before_test.

Lemma emptied_free : free_list [] no_supports.
Proof.
  split; [|intros i Hi; unfold UPROCMAX in Hi; do 8 (destruct i as [|i]; [by eexists|]); lia | done].
  split; [apply NoDup_singleton | by vm_compute].
Qed.

#[local] Opaque no_supports.

Lemma supports_are_a_stack_witness :
  (if decide (3%nat ∈ [])
   then ∃ m, deallocate (Some 3%nat) no_supports
     = Exit Stopped (set_slog (m :: slog no_supports) no_supports)
   else ∃ s', deallocate (Some 3%nat) no_supports = Ok tt s' ∧ free_list [3%nat] s' ∧
     only_links no_supports s') ∧
  ∃ m, allocate no_supports
    = Exit Stopped (set_slog (m :: slog no_supports) no_supports).
Proof.
  assert (3 < UPROCMAX)%nat as H3 by (unfold UPROCMAX; lia).
  exact (supports_are_a_stack [] no_supports 3 emptied_free H3).
Defined.

(** A printer and a terminal that take the characters down and answer with
    prepared statuses. *)
#[local] Instance typist : Nucleus (list Z * list Z) := {
  nucleus a b c d :=
    if a =? GETSUPPORTPTR then
      i <- gets current ;; ret (match i with Some i => support_addr i | None => 0 end)
    else if a =? DOIO then
      w <- gets world ;; s <- get ;;
      let terminal := DEV_REG_ADDR IL_TERMINAL 0 <=? b in
      let reg := b - (if terminal then TRANSM_COMMAND else dtp_command) in
      match w.2 with
      | [] => ret 0
      | v :: vs => modify (set_world (w.1 ++ [given terminal reg c s], vs)) ;; ret v
      end
    else if 0 <? a then
      i <- gets current ;;
      match i with
      | Some i => modify (saves_general i (call_state a)) ;; exit (PassedUp a)
      | None => exit Terminated
      end
    else ret 0
}.

Definition typist_device (i : nat) (il : Z) (sent vs : list Z) (w : list Z * list Z) : Prop := w = (sent, vs).

Lemma typist_class a il : il = IL_PRINTER \/ il = IL_TERMINAL -> 1 <= a <= 8 ->
  (DEV_REG_ADDR IL_TERMINAL 0 <=? command_reg (il =? IL_TERMINAL) (DEV_REG_ADDR il (a - 1))) = (il =? IL_TERMINAL).
Proof.
  intros Hil Ha. assert (∃ n, a = Z.of_nat n + 1 ∧ (n < 8)%nat) as (n & -> & Hn) by (exists (Z.to_nat (a - 1)); lia).
  destruct Hil as [-> | ->]; do 8 (destruct n as [|n]; [by vm_compute|]); lia.
Qed.

#[local] Instance typist_laws : PrintingLaws typist_device.
Proof.
  split.
  - split.
    + apply (law_support_addr (N := prompt)).
    + intros s i Hc. exists s. split; [cbn; rewrite bind_gets; by rewrite Hc | by split].
    + intros s i c a sem _ _ Ha _. exists 0, s. split; [by destruct Ha as [-> | ->] | by split].
    + intros s i Hc. exists (call_state TERMINATE). cbn. rewrite bind_gets. by rewrite Hc.
  - intros i il sent vs s a b r s' _ Ha Hp Hrun. destruct Ha as [-> | [-> | ->]]; cbn in Hrun; by injection Hrun as <- <-.
  - intros s i c il cmd sent v vs Hil [_ _ Ha Hd] _ reg terminal. unfold typist_device in *.
    exists (set_world (sent ++ [given terminal reg cmd s], vs) s). split_and!; [|by split|done].
    cbn [nucleus typist]. change (DOIO =? GETSUPPORTPTR) with false. change (DOIO =? DOIO) with true. cbv iota.
    rewrite bind_gets, Hd. unfold bind at 1, get. cbv zeta. unfold reg, terminal.
    rewrite (typist_class (sup_asid c) il Hil Ha). cbn [fst snd]. rewrite bind_modify. unfold ret.
    do 4 f_equal. unfold command_reg. destruct (il =? IL_TERMINAL); f_equal; f_equal; lia.
Qed.

(** The first U-proc has a text of two characters to print. *)
Definition printing_support : support_t :=
  uproc_support 1 blank_state (set_reg_a1 0x80001000 (set_reg_a2 2 blank_state)).

Definition printing (vs : list Z) : sup (list Z * list Z) :=
  Sup 0x20040000 (repeat false 8) [] (2 ^ 32 - 1) [printing_support] ∅ (Some 0%nat) blank_state blank_state
    ∅ (list_to_map [(0x80001000, 72); (0x80001001, 105)]) 1 0 0 0 0 [] [] ([], vs).

Lemma printing_serves il vs : serves 0 printing_support (typist_device 0 il [] vs) (printing vs).
Proof. split; [done | done | by cbn | done]. Qed.

(** On a terminal that prints both, and on a printer that refuses the second. *)
Lemma syscall_writer_witness :
  (∃ s', syscall_writer IL_TERMINAL (printing [RECVD; RECVD]) = Ok 2 s' ∧ world s' = ([72; 105], [])) ∧
  (∃ s', syscall_writer IL_PRINTER (printing [DEV_STATUS_READY; 4]) = Ok (u32 (- 4)) s' ∧ world s' = ([72; 105], [])).
Proof.
  assert ((MAXLEN <? u32 (reg_a2 (sup_except_state printing_support !!! GENERALEXCEPT)))
    || (u32 (reg_a1 (sup_except_state printing_support !!! GENERALEXCEPT)) <? KUSEG) = false) as Hargs by reflexivity.
  assert (u32 (reg_a2 (sup_except_state printing_support !!! GENERALEXCEPT)) = 2) as Hlen by reflexivity.
  split.
  - pose proof (syscall_writer_prints (L := umps3_laws) typist_device IL_TERMINAL 0 (printing [RECVD; RECVD]) printing_support
      [] [RECVD; RECVD] (or_intror eq_refl) (printing_serves _ _)) as H.
    cbv zeta in H. rewrite Hargs, Hlen in H. destruct (H ltac:(cbn; lia)) as (s' & Hrun & Hd & _).
    exists s'. split; [exact Hrun|]. exact Hd.
  - pose proof (syscall_writer_prints (L := umps3_laws) typist_device IL_PRINTER 0 (printing [DEV_STATUS_READY; 4]) printing_support
      [] [DEV_STATUS_READY; 4] (or_introl eq_refl) (printing_serves _ _)) as H.
    cbv zeta in H. rewrite Hargs, Hlen in H. destruct (H ltac:(cbn; lia)) as (s' & Hrun & Hd & _).
    exists s'. split; [exact Hrun|]. exact Hd.
Defined.
