(* ===== verification/Instantiator.v ===== *)
(** * The instantiator process

    [test] of [phase3/src/test.c], up to its waiting, on any nucleus that keeps
    the laws of [InstantiatorLaws]: it runs as a process without a Support
    Structure, and the U-procs that it has created run while it calls. *)

From Stdlib Require Import ZArith Lia String.
From stdpp Require Import base tactics option numbers strings gmap list vector.
From S2P Require Import Prelude ListHead Machine Kernel SupportLevel Pager Paging Support Virtual Uprocs.

Open Scope string_scope.
Open Scope list_scope.
Open Scope Z_scope.

(** A process as CREATEPROCESS sees it: its Support Structure, and the state
    and the structure at the time of the call. *)
Record birth : Type := Birth {
  b_support : nat;
  b_state : state_t;
  b_structure : support_t
}.

(** A loop with an invariant on the counter. *)
Lemma wp_for {S E} (I : nat -> S -> Prop) (body : nat -> M S E unit) X n : ∀ a s,
  I a s -> (∀ k s, (a <= k < a + n)%nat -> I k s -> wp (body k) (fun _ s' => I (Datatypes.S k) s') X s) ->
  wp (for_ n a body) (fun _ s' => I (a + n)%nat s') X s.
Proof.
  induction n as [|n IH]; intros a s HI Hbody; cbn [for_].
  - apply wp_ret. by rewrite Nat.add_0_r.
  - apply wp_bind. eapply wp_mono; [apply Hbody; [lia|done] | | done]. intros [] s' HI'.
    replace (a + Datatypes.S n)%nat with (Datatypes.S a + n)%nat by lia. apply IH; [done|].
    intros k s2 Hk. apply Hbody. lia.
Qed.

(** One whose body always returns. *)
Lemma for_total {S E} (I : nat -> S -> Prop) (body : nat -> M S E unit) n s :
  I 0%nat s -> (∀ k s, (k < n)%nat -> I k s -> ∃ s', body k s = Ok tt s' ∧ I (Datatypes.S k) s') ->
  ∃ s', for_ n 0 body s = Ok tt s' ∧ I n s'.
Proof.
  intros HI Hbody. pose proof (wp_for I body (fun _ _ => False) n 0 s HI) as Hw. unfold wp in Hw.
  destruct (for_ n 0 body s) as [[] s'| | |].
  1: { exists s'. split; [done|]. apply Hw. intros k s1 Hk Hs1. destruct (Hbody k s1) as (s2 & -> & ?); [lia|done..]. }
  all: exfalso; apply Hw; intros k s1 Hk Hs1; destruct (Hbody k s1) as (s2 & -> & ?); [lia|done..].
Qed.

(** The page table that [init_page_table] leaves. *)
Definition fresh_table (a : Z) (l : list pte_entry_t) : Prop :=
  length l = MAXPAGES ∧ l !! 31%nat = Some (Pte (table_hi a 31) DIRTYON) ∧
  ∃ text, ∀ k, (k < 31)%nat -> l !! k = Some (fresh_entry a text k).

Section instantiator.
Context {U : Umps} {Lay : Layout} {W : Type} {N : Nucleus W} {T : Tlb W}.
Context (unborn : nat -> W -> Prop) (births : W -> list birth).
Implicit Types (s : sup W) (i j k : nat) (l : list nat) (c : support_t) (b : birth).

(** Other processes run, and none of them comes to its end: the instantiator's
    own data, the list of the free Support Structures and the structures of no
    process (with [P]) stay. *)
Record meanwhile (P : nat -> Prop) s s' : Prop := {
  mw_current : current s' = current s;
  mw_calls : calls s' = calls s;
  mw_pstate : pstate s' = pstate s;
  mw_batons : length (swap_pool_batons s') = length (swap_pool_batons s);
  mw_tables j c : support_table s !! j = Some c -> ∃ c', support_table s' !! j = Some c' ∧
    length (sup_private_page_table c') = length (sup_private_page_table c);
  mw_unborn j : P j -> unborn j (world s) ->
    unborn j (world s') ∧ support_table s' !! j = support_table s !! j;
  mw_free l : free_list l s -> free_list l s'
}.

(** The nucleus as the instantiator sees it.  While it calls, other processes
    run, and one of them may stop the machine: a U-proc that comes to its end
    does ([Ending.uproc_end_stops_machine]).  The instantiator has no Support
    Structure, so TERMINATE is its end. *)
Class InstantiatorLaws : Prop := {
  in_flash s a cmd : current s = None -> 1 <= a <= 8 ->
    wp (nucleus DOIO (flash_reg a + dtp_command) cmd 0)
      (fun _ s' => meanwhile (fun _ => True) s s' ∧ births (world s') = births (world s))
      (fun e s' => e = Stopped ∧ births (world s') = births (world s)) s;
  in_create s j c : current s = None -> unborn j (world s) -> support_table s !! j = Some c ->
    let b := Birth j (pstate s) c in
    wp (nucleus CREATEPROCESS pstate_addr PROCESS_PRIO_LOW (support_addr j))
      (fun _ s' => meanwhile (fun x => x ≠ j) s s' ∧ births (world s') = births (world s) ++ [b])
      (fun e s' => e = Stopped ∧ births (world s') = births (world s) ++ [b]) s;
  in_trap s : current s = None -> nucleus TERMINATE 0 0 0 s = Exit Terminated s
}.
Context {IL : InstantiatorLaws}.

(** Between two creations: [l] are the free Support Structures. *)
Record idle l s : Prop := {
  id_current : current s = None;
  id_batons : length (swap_pool_batons s) = UPROCMAX;
  id_tables j : (j < UPROCMAX)%nat -> ∃ c, support_table s !! j = Some c ∧
    length (sup_private_page_table c) = MAXPAGES;
  id_free : free_list l s;
  id_unborn : Forall (fun j => unborn j (world s)) l
}.

(** While the Support Structure [j], allocated, is filled in. *)
Record prep j c l s : Prop := {
  pr_idle : idle l s;
  pr_mine : support_table s !! j = Some c;
  pr_room : (j < UPROCMAX)%nat;
  pr_unborn : unborn j (world s);
  pr_taken : j ∉ l
}.

Lemma idle_ext l s s' : current s' = current s -> swap_pool_batons s' = swap_pool_batons s ->
  support_table s' = support_table s -> support_links s' = support_links s -> world s' = world s ->
  idle l s -> idle l s'.
Proof using.
  intros H1 H2 H3 H4 H5 [I1 I2 I3 [F1 F2 F3] I5].
  split; [congruence | congruence | by rewrite H3 | by split; rewrite ?H4 | by rewrite H5].
Qed.

Lemma prep_ext j c l s s' : current s' = current s -> swap_pool_batons s' = swap_pool_batons s ->
  support_table s' = support_table s -> support_links s' = support_links s -> world s' = world s ->
  prep j c l s -> prep j c l s'.
Proof using.
  intros H1 H2 H3 H4 H5 [P1 P2 P3 P4 P5]. split; [by apply (idle_ext l s) | congruence | done | congruence | done].
Qed.

(** A field of the structure is assigned. *)
Lemma prep_write j c l s (f : support_t -> support_t) : prep j c l s ->
  length (sup_private_page_table (f c)) = length (sup_private_page_table c) ->
  let s' := set_support_table (<[j := f c]> (support_table s)) s in
  upd_support j f s = Ok tt s' ∧ prep j (f c) l s'.
Proof using.
  intros [[I1 I2 I3 [F1 F2 F3] I5] P2 P3 P4 P5] Hlen s'.
  assert (j < length (support_table s))%nat as Hj by (by eapply lookup_lt_Some).
  split; [unfold upd_support; by step_with (support_at_ok s j c P2)|].
  split; [|by apply list_lookup_insert_eq|done..]. split; try done. intros x Hx.
  destruct (I3 x Hx) as (c' & Hc' & Hl). cbn. destruct (decide (x = j)) as [->|Hne].
  - exists (f c). rewrite list_lookup_insert_eq by done. split; [done|]. congruence.
  - exists c'. by rewrite list_lookup_insert_ne.
Qed.

Lemma allocate_prep j l s : idle (j :: l) s ->
  ∃ c s', allocate s = Ok j s' ∧ prep j c l s' ∧ only_links s s'.
Proof using.
  intros HI. pose proof (id_free _ _ HI) as Hf. destruct (allocate_run l s j Hf) as (s' & Hrun & Hf' & Ho).
  pose proof (fl_range _ _ Hf) as Hr. apply Forall_cons in Hr as [Hj _].
  destruct (id_tables _ _ HI j Hj) as (c & Hc & _). exists c, s'. split_and!; [done | | done].
  pose proof (free_NoDup _ _ Hf) as Hnd. apply NoDup_cons in Hnd as [Hnd _].
  destruct HI as [I1 I2 I3 I4 I5]. apply Forall_cons in I5 as [Hu I5].
  rewrite Ho in Hf' |- *. by split.
Qed.

(** Other processes run while the instantiator is idle. *)
Lemma idle_meanwhile (P : nat -> Prop) l s s' : (∀ x, x ∈ l -> P x) -> idle l s -> meanwhile P s s' -> idle l s'.
Proof using.
  intros HP [I1 I2 I3 I4 I5] [M1 M2 M3 M4 M5 M6 M7]. split.
  - by rewrite M1.
  - by rewrite M4.
  - intros x Hx. destruct (I3 x Hx) as (c1 & Hc1 & Hl1). destruct (M5 x c1 Hc1) as (c2 & Hc2 & Hl2).
    exists c2. split; [done | congruence].
  - by apply M7.
  - rewrite Forall_forall in I5. apply Forall_forall. intros x Hx. apply M6; [by apply HP | by apply I5].
Qed.

Lemma wp_syscall (n x y z : Z) Q X s : wp (nucleus n x y z) Q X (set_calls ((n, x, y, z) :: calls s) s) ->
  wp (SYSCALL n x y z) Q X s.
Proof using. unfold SYSCALL, wp. by rewrite bind_modify. Qed.

(** A system call during which the machine stops. *)
Definition machine_stopped s' : Prop := ∃ n x y z s, nucleus n x y z s = Exit Stopped s'.

(** What the nucleus does while the structure is prepared. *)
Lemma prep_flash j c l s a cmd : prep j c l s -> 1 <= a <= 8 ->
  let call := (DOIO, flash_reg a + dtp_command, cmd, 0) in
  wp (SYSCALL DOIO (flash_reg a + dtp_command) cmd 0)
    (fun _ s' => prep j c l s' ∧ pstate s' = pstate s ∧ births (world s') = births (world s) ∧
      calls s' = call :: calls s)
    (fun e s' => e = Stopped ∧ machine_stopped s' ∧ births (world s') = births (world s)) s.
Proof using IL.
  intros [HI P2 P3 P4 P5] Ha call. set (s0 := set_calls (call :: calls s) s).
  assert (idle l s0) as HI0 by (by apply (idle_ext l s)). apply wp_syscall.
  eapply wp_mono; [apply wp_eq, in_flash; [exact (id_current _ _ HI0) | done] | |].
  2: { intros e s' [[-> Hb] Hrun]. split_and!; [done | by eexists _, _, _, _, _ | done]. }
  intros r s' [[Hm Hb] _].
  pose proof (idle_meanwhile (fun _ => True) l s0 s' (fun _ _ => I) HI0 Hm) as HI'.
  destruct Hm as [_ M2 M3 _ _ M6 _]. destruct (M6 j I P4) as [Hu Hmine].
  split_and!; [|done..]. split; [done | by rewrite Hmine | done..].
Qed.

Lemma prep_create j c l s : prep j c l s ->
  let call := (CREATEPROCESS, pstate_addr, PROCESS_PRIO_LOW, support_addr j) in
  wp (SYSCALL CREATEPROCESS pstate_addr PROCESS_PRIO_LOW (support_addr j))
    (fun _ s' => idle l s' ∧ pstate s' = pstate s ∧
      births (world s') = births (world s) ++ [Birth j (pstate s) c] ∧ calls s' = call :: calls s)
    (fun e s' => e = Stopped ∧ machine_stopped s' ∧
      births (world s') = births (world s) ++ [Birth j (pstate s) c]) s.
Proof using IL.
  intros [HI P2 P3 P4 P5] call. set (s0 := set_calls (call :: calls s) s).
  assert (idle l s0) as HI0 by (by apply (idle_ext l s)). apply wp_syscall.
  eapply wp_mono; [by apply wp_eq, (in_create s0 j c (id_current _ _ HI0)) | |].
  2: { intros e s' [[-> Hb] Hrun]. split_and!; [done | by eexists _, _, _, _, _ | done]. }
  intros r s' [[Hm Hb] _].
  pose proof (idle_meanwhile (fun x => x ≠ j) l s0 s' ltac:(cbn; congruence) HI0 Hm) as HI'.
  destruct Hm as [_ M2 M3 _ _ _ _]. done.
Qed.

(** ** The creation of a process *)

(** The call that reads the header of a program. *)
Definition header_call (a : Z) : Z * Z * Z * Z :=
  (DOIO, flash_reg a + dtp_command, flash_command FLASHREAD 0, 0).

(** The header of a program was read and the device refused; then the
    instantiator asked for its own end. *)
Definition header_refused (a : Z) s' : Prop := ∃ s r s1, read_flash a 0 header_buffer s = Ok r s1 ∧
  r ≠ DEV_STATUS_READY ∧ world s' = world s1 ∧ calls s' = (TERMINATE, 0, 0, 0) :: calls s1.

Lemma prep_header j c l s a : prep j c l s -> 1 <= a <= 8 ->
  wp (read_flash a 0 header_buffer)
    (fun _ s' => prep j c l s' ∧ pstate s' = pstate s ∧ births (world s') = births (world s) ∧
      calls s' = header_call a :: calls s)
    (fun e s' => e = Stopped ∧ machine_stopped s' ∧ births (world s') = births (world s)) s.
Proof using IL.
  intros HP Ha. unfold read_flash. eapply wp_step; [apply interrupts_off_run|].
  cbv zeta. eapply wp_step; [done|]. set (s1 := set_words _ _).
  assert (prep j c l s1) as HP1 by (by apply (prep_ext j c l s)).
  apply wp_bind. eapply wp_mono; [by apply (prep_flash j c l s1 a) | | done].
  intros r s2 (HP2 & Hps2 & Hb2 & Hc2).
  eapply wp_step; [apply interrupts_on_run|]. apply wp_ret.
  split_and!; [by apply (prep_ext j c _ s2) | done..].
Qed.

(** The header of the program is read and the page table written, or the
    instantiator ends because the flash device fails, or the machine stops. *)
Lemma prep_init_table j c l s a : prep j c l s -> 1 <= a <= 8 ->
  wp (init_page_table (Some j) a)
    (fun ok s' => ok = true ∧ ∃ pt, prep j (set_sup_private_page_table pt c) l s' ∧ fresh_table a pt ∧
      pstate s' = pstate s ∧ births (world s') = births (world s) ∧
      calls s' = header_call a :: calls s)
    (fun e s' => births (world s') = births (world s) ∧
      (e = Terminated ∧ header_refused a s' ∧ calls s' = (TERMINATE, 0, 0, 0) :: header_call a :: calls s \/
       e = Stopped ∧ machine_stopped s')) s.
Proof using IL.
  intros HP Ha. unfold init_page_table.
  destruct (Z.leb_spec a 0); [lia|]. destruct (Z.ltb_spec (Z.of_nat UPROCMAX) a); [unfold UPROCMAX in *; lia|].
  cbn [orb]. cbv zeta. apply wp_bind.
  eapply wp_mono; [by apply wp_eq, (prep_header j c l s a) | | by intros e s' [(-> & Hst & Hb) _]; auto].
  intros r s3 [(HP3 & Hps3 & Hb3 & Hc3) Hread].
  destruct (Z.eqb_spec r DEV_STATUS_READY) as [->|Hbad]; cbn [negb].
  2: { apply wp_bind. eapply wp_step; [done|]. unfold wp, support_trap, SYSCALL.
    rewrite bind_assoc, bind_modify.
    erewrite bind_exit; [|apply in_trap; exact (id_current _ _ (pr_idle _ _ _ _ HP3))].
    split; [exact Hb3|]. left. split; [done|]. split; [by exists s, r, s3|]. cbn. by rewrite Hc3. }
  eapply wp_step; [done|]. eapply wp_step; [done|]. set (data5 := default 0 _).
  pose proof (pr_mine _ _ _ _ HP3) as Hmine.
  assert (table_of j s3 = sup_private_page_table c) as Ht by (unfold table_of; by rewrite Hmine).
  assert (length (table_of j s3) = MAXPAGES) as Hl3.
  { rewrite Ht. destruct (id_tables _ _ (pr_idle _ _ _ _ HP3) j (pr_room _ _ _ _ HP3)) as (c' & Hc' & Hl). congruence. }
  destruct (fill_table_run j a (u32 data5 / PAGESIZE) s3 Ha Hl3) as (s4 & Hrun4 & Hs4 & Hl4 & He4 & Hstack).
  eapply wp_seq2; [exact Hrun4|]. set (pt := table_of j s4) in *.
  destruct (prep_write j c l s3 (set_sup_private_page_table pt) HP3) as [_ HP4].
  { cbn. rewrite <-Ht. by rewrite Hl4. }
  assert (s4 = set_support_table (<[j := set_sup_private_page_table pt c]> (support_table s3)) s3) as E4.
  { rewrite Hs4. unfold set_table_of. f_equal. apply list_eq. intros x. destruct (decide (x = j)) as [->|Hne].
    - rewrite list_lookup_alter_eq, Hmine, list_lookup_insert_eq; [done|]. by eapply lookup_lt_Some.
    - by rewrite list_lookup_alter_ne, list_lookup_insert_ne. }
  rewrite <-E4 in HP4.
  destruct (lookup_lt_is_Some_2 (swap_pool_batons s4) (Z.to_nat (a - 1))) as [ba Hb].
  { rewrite (id_batons _ _ (pr_idle _ _ _ _ HP4)). unfold UPROCMAX. lia. }
  eapply wp_step; [unfold set_baton, bind, get; by rewrite Hb|]. apply wp_ret. split; [done|].
  exists pt. split; [|split; [|split_and!]].
  - destruct HP4 as [[I1 I2 I3 [F1 F2 F3] I5] P2 P3 P4 P5]. split; try done. split; try done.
    cbn. by rewrite length_insert.
  - split_and!; [done | done |]. by eexists.
  - by rewrite E4.
  - by rewrite E4.
  - by rewrite E4.
Qed.
(** What a process is created with: [st] is the state that all share but for
    the ASID, [sst] the status of the support level. *)
Record well_born (ramtop sst : Z) (st : state_t) k b : Prop := {
  wb_support : b_support b = (UPROCMAX - 1 - k)%nat;
  wb_state : b_state b = set_entry_hi (Z.shiftl (Z.of_nat k + 1) ASIDSHIFT) st;
  wb_asid : sup_asid (b_structure b) = Z.of_nat k + 1;
  wb_fault : sup_except_context (b_structure b) !!! PGFAULTEXCEPT =
    Context (u32 (ramtop - 2 * (Z.of_nat k + 1) * PAGESIZE)) sst support_tlb_addr;
  wb_general : sup_except_context (b_structure b) !!! GENERALEXCEPT =
    Context (u32 (ramtop - 2 * (Z.of_nat k + 1) * PAGESIZE + PAGESIZE)) sst support_generic_addr;
  wb_table : fresh_table (Z.of_nat k + 1) (sup_private_page_table (b_structure b))
}.

(** The calls that create it. *)
Definition creation_calls k b : list (Z * Z * Z * Z) :=
  [header_call (Z.of_nat k + 1);
   (CREATEPROCESS, pstate_addr, PROCESS_PRIO_LOW, support_addr (b_support b))].

(** Since [s0] the processes [bs] have been created, and with [created] the
    instantiator has made their calls and then [last]. *)
Definition born (ramtop sst : Z) (st : state_t) s0 (bs : list birth) s : Prop :=
  births (world s) = births (world s0) ++ bs ∧ (∀ n b, bs !! n = Some b -> well_born ramtop sst st n b).
Definition created (ramtop sst : Z) (st : state_t) s0 (bs : list birth) (last : list (Z * Z * Z * Z)) s : Prop :=
  born ramtop sst st s0 bs s ∧ calls s = last ++ rev (concat (imap creation_calls bs)) ++ calls s0.

(** The state of the loop, [k] processes created. *)
Definition creating (ramtop sst : Z) (st : state_t) s0 k s : Prop :=
  ∃ bs, idle (rev (seq 0 (UPROCMAX - k))) s ∧ length bs = k ∧
    created ramtop sst st s0 bs [] s ∧ ∃ e, pstate s = set_entry_hi e st.

(** The header of the next program could not be read, or the machine stopped. *)
Definition gave_up (ramtop sst : Z) (st : state_t) s0 (e : sup_exit) s : Prop :=
  ∃ bs, (length bs <= UPROCMAX)%nat ∧ born ramtop sst st s0 bs s ∧
    (e = Terminated ∧ (length bs < UPROCMAX)%nat ∧ header_refused (Z.of_nat (length bs) + 1) s ∧
      created ramtop sst st s0 bs [(TERMINATE, 0, 0, 0); header_call (Z.of_nat (length bs) + 1)] s \/
     e = Stopped ∧ machine_stopped s).

Lemma free_slots k : (k < UPROCMAX)%nat ->
  rev (seq 0 (UPROCMAX - k)) = (UPROCMAX - 1 - k)%nat :: rev (seq 0 (UPROCMAX - S k)).
Proof using.
  intros Hk. replace (UPROCMAX - k)%nat with (S (UPROCMAX - S k)) by lia.
  rewrite seq_S, rev_app_distr. cbn [rev app]. f_equal; lia.
Qed.

Lemma born_snoc ramtop sst st s0 bs s s' b : born ramtop sst st s0 bs s ->
  births (world s') = births (world s) ++ [b] -> well_born ramtop sst st (length bs) b ->
  born ramtop sst st s0 (bs ++ [b]) s'.
Proof using.
  intros [Hb Hwb] Hb' Hw. split; [by rewrite Hb', Hb, app_assoc|].
  intros n b' Hn. apply lookup_snoc_Some in Hn as [[_ Hn]|[-> <-]]; [by apply Hwb | done].
Qed.

Lemma create_uproc_run ramtop sst st s0 k s : (k < UPROCMAX)%nat -> creating ramtop sst st s0 k s ->
  wp (create_uproc ramtop sst k) (fun _ s' => creating ramtop sst st s0 (S k) s') (gave_up ramtop sst st s0) s.
Proof using IL.
  intros Hk (bs & HI & Hbs & (Hborn & Hc) & (e & Hps)). rewrite (free_slots k Hk) in HI.
  set (j := (UPROCMAX - 1 - k)%nat) in *. set (l := rev _) in HI.
  unfold create_uproc. cbv zeta. set (a := Z.of_nat k + 1). assert (1 <= a <= 8) as Ha by (unfold a, UPROCMAX in *; lia).
  eapply wp_step; [done|]. set (s1 := set_pstate _ s).
  assert (idle (j :: l) s1) as HI1 by (by apply (idle_ext _ s)).
  destruct (allocate_prep j l s1 HI1) as (c & s2 & Hrun2 & HP2 & Ho). eapply wp_step; [exact Hrun2|].
  destruct (prep_write j c l s2 (set_sup_asid a) HP2 eq_refl) as [Hrun3 HP3]. eapply wp_step; [exact Hrun3|].
  set (s3 := set_support_table _ s2) in *.
  assert (calls s3 = calls s) as Hc3 by (cbn; by rewrite Ho).
  assert (world s3 = world s) as Hw3 by (cbn; by rewrite Ho).
  assert (pstate s3 = set_entry_hi (Z.shiftl a ASIDSHIFT) st) as Hps3.
  { cbn. rewrite Ho. unfold s1. cbn [pstate set_slog set_support_links set_pstate]. rewrite Hps.
    rewrite u32_small; [done|]. unfold ASIDSHIFT. rewrite Z.shiftl_mul_pow2 by lia. lia. }
  apply wp_bind. eapply wp_mono; [by apply (prep_init_table _ _ _ _ a HP3)| |].
  2: { intros e' s' (Hb' & He'). rewrite Hw3 in Hb'. exists bs. rewrite Hbs. split; [lia|].
       assert (born ramtop sst st s0 bs s') as Hborn' by (split; [by rewrite Hb'; apply Hborn | apply Hborn]).
       split; [done|]. destruct He' as [(-> & Hr & Hc')|]; [left | by right]. split_and!; [done | lia | done|].
       split; [done|]. by rewrite Hc', Hc3, Hc. }
  intros ok s4 [-> (pt & HP4 & Hpt & Hps4 & Hb4 & Hc4)]. cbn [negb]. eapply wp_step; [done|].
  unfold set_context.
  match goal with |- wp (bind (upd_support _ ?f) _) _ _ _ => destruct (prep_write j _ _ s4 f HP4 eq_refl) as [Hrun5 HP5] end.
  eapply wp_step; [exact Hrun5|]. set (s5 := set_support_table _ s4) in *.
  match goal with |- wp (bind (upd_support _ ?f) _) _ _ _ => destruct (prep_write j _ _ s5 f HP5 eq_refl) as [Hrun6 HP6] end.
  eapply wp_step; [exact Hrun6|]. set (s6 := set_support_table _ s5) in *.
  change (world s4) with (world s6) in Hb4. change (calls s4) with (calls s6) in Hc4.
  change (pstate s4) with (pstate s6) in Hps4. rewrite Hw3 in Hb4.
  pose proof (prep_create j _ _ s6 HP6) as Hcreate. cbv zeta in Hcreate.
  match type of Hcreate with context [Birth j ?x ?y] => set (b := Birth j x y) in * end.
  assert (well_born ramtop sst st (length bs) b) as Hwb.
  { rewrite Hbs. unfold b. split; cbn [b_support b_state b_structure].
    - done.
    - by rewrite Hps4, Hps3.
    - done.
    - cbn [sup_except_context set_sup_except_context]. rewrite vlookup_insert_ne by done. by rewrite vlookup_insert.
    - cbn [sup_except_context set_sup_except_context]. by rewrite vlookup_insert.
    - exact Hpt. }
  apply wp_bind. eapply wp_mono; [exact Hcreate | |].
  - intros r s7 (HI7 & Hps7 & Hb7 & Hc7). apply wp_ret. rewrite Hb4 in Hb7.
    exists (bs ++ [b]). split; [done|]. split; [rewrite length_app, Hbs; cbn; lia|].
    split; [|exists (Z.shiftl a ASIDSHIFT); by rewrite Hps7, Hps4, Hps3].
    split; [by apply (born_snoc ramtop sst st s0 bs s s7 b)|].
    rewrite Hc7, Hc4, Hc3, Hc, imap_app, concat_app, rev_app_distr, Hbs. cbn. by rewrite Nat.add_0_r.
  - intros e' s7 (-> & Hst & Hb7). rewrite Hb4 in Hb7. exists (bs ++ [b]). rewrite length_app, Hbs. split; [cbn; lia|].
    split; [by apply (born_snoc ramtop sst st s0 bs s s7 b) | by right].
Qed.

(** Different processes have different Support Structures. *)
Lemma born_distinct ramtop sst st s0 bs s : (length bs <= UPROCMAX)%nat -> born ramtop sst st s0 bs s ->
  NoDup (map b_support bs).
Proof using.
  intros Hl [_ Hwb]. apply NoDup_alt. intros n m x Hn Hm.
  rewrite list_lookup_fmap in Hn, Hm.
  destruct (bs !! n) as [b|] eqn:Eb; [|done]. destruct (bs !! m) as [b'|] eqn:Eb'; [|done].
  apply lookup_lt_Some in Eb as Ln, Eb' as Lm. cbn in Hn, Hm.
  rewrite (wb_support _ _ _ _ _ (Hwb n b Eb)) in Hn. rewrite (wb_support _ _ _ _ _ (Hwb m b' Eb')) in Hm.
  assert (UPROCMAX - 1 - n = UPROCMAX - 1 - m)%nat by congruence. lia.
Qed.

(** ** The whole process *)

(** No process exists yet: the tables of [test.c] and [pager.c] are there. *)
Record power_on s : Prop := {
  po_current : current s = None;
  po_pool : length (swap_pool_table s) = POOLSIZE;
  po_batons : length (swap_pool_batons s) = UPROCMAX;
  po_tables j : (j < UPROCMAX)%nat -> ∃ c, support_table s !! j = Some c ∧
    length (sup_private_page_table c) = MAXPAGES;
  po_head : is_Some (support_links s !! L_support_free);
  po_links j : (j < UPROCMAX)%nat -> is_Some (support_links s !! L_support j);
  po_unborn j : (j < UPROCMAX)%nat -> unborn j (world s)
}.

(** [x] is none of the semaphores of support.c. *)
Definition no_semaphore (x : Z) : Prop :=
  ∀ i : nat, (i < UPROCMAX)%nat ->
    x ≠ sys3_semaphores + 4 * Z.of_nat i ∧ x ≠ sys4_semaphores + 4 * Z.of_nat i ∧
    x ≠ sys5_semaphores + 4 * Z.of_nat i.

Lemma init_sys_semaphores_run s : ∃ w, init_sys_semaphores s = Ok tt (set_words w s) ∧
  ∀ x, no_semaphore x -> w !! x = words s !! x.
Proof using.
  destruct (for_total (fun _ s' => s' = set_words (words s') s ∧ ∀ x, no_semaphore x -> words s' !! x = words s !! x)
    (fun i => write_mem (sys5_semaphores + 4 * Z.of_nat i) 1 ;; write_mem (sys4_semaphores + 4 * Z.of_nat i) 1 ;;
      write_mem (sys3_semaphores + 4 * Z.of_nat i) 1 : SM (W := W) unit) UPROCMAX s) as (s' & Hrun & Es & Hx).
  - by destruct s.
  - intros k s1 Hk [E1 H1]. unfold write_mem. eexists. split; [rewrite !bind_modify; reflexivity|]. cbn.
    split; [rewrite E1; done|].
    intros x Hx. destruct (Hx k Hk) as (N3 & N4 & N5). rewrite !lookup_insert_ne by done. by apply H1.
  - exists (words s'). by rewrite <-Es.
Qed.

Lemma init_pager_run s : length (swap_pool_table s) = POOLSIZE ->
  ∃ pool addr, init_pager s = Ok tt (set_swap_pool_addr addr (set_swap_pool_table pool s)).
Proof using.
  intros Hl. unfold init_pager, init_swap_pool_table.
  rewrite (bind_ok _ _ _ _ _ (for_imap swap_pool_table set_swap_pool_table ltac:(by intros []) ltac:(by intros [])
    ltac:(by intros []) (fun i => upd_frame i (set_sw_asid (-1))) (fun _ => set_sw_asid (-1))
    (fun k s0 x Hx => upd_frame_ok s0 k x _ Hx) POOLSIZE 0 s ltac:(lia))).
  eexists _, _. reflexivity.
Qed.

(** The Support Structures are freed one after the other. *)
Lemma init_supports_run s : is_Some (support_links s !! L_support_free) ->
  (∀ j, (j < UPROCMAX)%nat -> is_Some (support_links s !! L_support j)) ->
  ∃ s', init_supports s = Ok tt s' ∧ free_list (rev (seq 0 UPROCMAX)) s' ∧ only_links s s'.
Proof using.
  intros Hhd Hcells. destruct (INIT_LIST_HEAD_ok (support_links s) L_support_free Hhd) as (h & Hrun & Hdom & Hn & Hp).
  unfold init_supports. step_with (support_links_ok _ s _ _ Hrun). set (s1 := set_support_links h s).
  assert (free_list [] s1) as Hf1.
  { split; [split; [apply NoDup_singleton|] | | done].
    - split; [rewrite Hn | rewrite Hp]; by rewrite decide_True.
    - intros j Hj. apply (same_dom_is_Some _ _ _ Hdom). by apply Hcells. }
  destruct (for_total (fun k s' => free_list (rev (seq 0 k)) s' ∧ only_links s1 s') (fun i => deallocate (Some i))
    UPROCMAX s1) as (s' & Hrun' & Hf & Ho).
  - split; [done|]. unfold only_links. by destruct s.
  - intros k s2 Hk [Hf2 Ho2]. destruct (deallocate_run _ s2 k Hf2 Hk) as (s3 & Hrun3 & Hf3 & Ho3).
    { rewrite list_elem_of_In, <-in_rev, in_seq. lia. }
    exists s3. split_and!; [done | by rewrite seq_S, rev_app_distr | rewrite Ho3, Ho2; done].
  - exists s'. split_and!; [done..|]. rewrite Ho. done.
Qed.
(** [pstate] before the loop. *)
Definition prepared (garbage : state_t) : state_t :=
  let st := set_pc_epc UPROCSTARTADDR (set_reg_t9 UPROCSTARTADDR (set_reg_sp USERSTACKTOP garbage)) in
  set_status (uproc_status (status st)) st.

(** What it does after that: it waits for eight processes to end, and ends. *)
Definition wait_and_end : SM (W := W) unit :=
  for_ UPROCMAX 0 (fun _ => master_semaphore_p) ;; _ <- SYSCALL TERMPROCESS 0 0 0 ;; ret tt.

(** [test] up to the loop: every Support Structure is free. *)
Lemma test_prepares garbage s : power_on s -> no_semaphore RAMBASEADDR -> no_semaphore RAMBASESIZE ->
  let ramtop := u32 (default 0 (words s !! RAMBASEADDR) + default 0 (words s !! RAMBASESIZE)) in
  let st := prepared garbage in let sst := support_level_status (status st) in
  ∃ s', test garbage s = (for_ UPROCMAX 0 (create_uproc ramtop sst) ;; wait_and_end) s' ∧
    creating ramtop sst st s 0 s'.
Proof using.
  intros [P1 P2 P3 P4 P5 P6 P7] Hbase Hsize ramtop st sst. unfold test, upd_pstate at 1. rewrite bind_modify.
  set (s1 := set_pstate garbage s). destruct (init_sys_semaphores_run s1) as (w & Hrun2 & Hw). step_with Hrun2.
  set (s2 := set_words w s1). destruct (init_pager_run s2 P2) as (pool & addr & Hrun3). step_with Hrun3.
  set (s3 := set_swap_pool_addr _ _). destruct (init_supports_run s3 P5 P6) as (s4 & Hrun4 & Hf4 & Ho4).
  step_with Hrun4. unfold upd_pstate, read_mem. rewrite !bind_modify, !bind_gets.
  match goal with |- context [for_ _ _ (create_uproc ?x ?y)] => replace x with ramtop; [replace y with sst|] end.
  - eexists. split; [reflexivity|]. exists []. rewrite Nat.sub_0_r.
    split; [|split; [done|]].
    + apply (idle_ext _ s4); [done..|]. rewrite Ho4 in Hf4 |- *. split; try done.
      apply Forall_forall. intros j Hj. apply P7. apply list_elem_of_In, in_rev, in_seq in Hj. lia.
    + split; [split; [split; [by rewrite Ho4, app_nil_r|done]|by rewrite Ho4]|].
      exists (entry_hi st). rewrite Ho4. cbn. by destruct garbage.
  - rewrite Ho4. done.
  - rewrite Ho4. cbn [words set_pstate set_slog set_support_links].
    change (words s3) with w. by rewrite !Hw.
Qed.
End instantiator.

Section theorems.
Context {U : Umps} {Lay : Layout} {W : Type} {N : Nucleus W} {T : Tlb W}.
Context (unborn : nat -> W -> Prop) (births : W -> list birth) {IL : InstantiatorLaws unborn births}.

(** C40: the instantiator, whatever its stack holds where [pstate] lies, on
    every nucleus that keeps its laws, while no U-proc comes to its end or the
    machine stops if one does.  It creates the eight U-procs, one for each ASID,
    and only then waits: the [n]-th gets the Support Structure [7 - n] - so
    no two share one, and none was a process' before - with its ASID, a fresh
    page table, a pair of stack pages of its own below the top of RAM and the
    two handlers, and starts at the entry point with the stack at the top of
    its address space.  The other ends: the flash device refuses the header of
    the next program, and the instantiator ends; or the machine is stopped
    inside a system call.  Then the processes created so far are as above. *)
Theorem instantiator_creates_all garbage (s : sup W) :
  power_on unborn s -> no_semaphore RAMBASEADDR -> no_semaphore RAMBASESIZE ->
  let ramtop := u32 (default 0 (words s !! RAMBASEADDR) + default 0 (words s !! RAMBASESIZE)) in
  let st := prepared garbage in
  let sst := support_level_status (status st) in
  ∃ bs s', born births ramtop sst st s bs s' ∧ NoDup (map b_support bs) ∧
    ((length bs = UPROCMAX ∧ created births ramtop sst st s bs [] s' ∧ current s' = None ∧
      free_list [] s' ∧ test garbage s = wait_and_end s') \/
     ((length bs < UPROCMAX)%nat ∧ test garbage s = Exit Terminated s' ∧
      header_refused (Z.of_nat (length bs) + 1) s' ∧
      created births ramtop sst st s bs [(TERMINATE, 0, 0, 0); header_call (Z.of_nat (length bs) + 1)] s') \/
     ((length bs <= UPROCMAX)%nat ∧ test garbage s = Exit Stopped s' ∧ machine_stopped s')).
Proof.
  intros Hp Hbase Hsize ramtop st sst.
  destruct (test_prepares unborn births garbage s Hp Hbase Hsize) as (s1 & -> & Hc).
  pose proof (wp_for (creating unborn births ramtop sst st s) (create_uproc ramtop sst)
    (gave_up births ramtop sst st s) UPROCMAX 0 s1 Hc) as Hw.
  specialize (Hw (fun k s2 Hk => create_uproc_run unborn births ramtop sst st s k s2 (proj2 Hk))). unfold wp in Hw.
  destruct (for_ UPROCMAX 0 (create_uproc ramtop sst) s1) as [[] s2|e s2| |] eqn:Hrun; try done.
  - destruct Hw as (bs & HI & Hbs & Hcr & _). exists bs, s2. split; [apply Hcr|].
    split; [apply (born_distinct births ramtop sst st s bs s2); [lia | apply Hcr]|].
    left. split_and!; [done | done | apply HI | | by step_with Hrun]. exact (id_free _ _ _ HI).
  - destruct Hw as (bs & Hlen & Hborn & He). exists bs, s2. split; [done|].
    split; [by apply (born_distinct births ramtop sst st s bs s2)|].
    right. destruct He as [(-> & Hlt & Hr & Hcr)|[-> Hst]]; [left | right]; split_and!; try done;
      by rewrite (bind_exit _ _ _ _ _ Hrun).
Qed.
End theorems.

(** ** An instance: a nucleus that only keeps the register of births *)

#[local] Existing Instance umps3.

#[local] Instance nursery : Nucleus (list birth) := {
  nucleus a b c d :=
    if a =? DOIO then ret DEV_STATUS_READY
    else if a =? CREATEPROCESS then
      s <- get ;;
      j <- ok_or "wild support_t" (support_of_addr d) ;;
      su <- ok_or "wild support_t" (support_table s !! j) ;;
      modify (set_world (world s ++ [Birth j (pstate s) su])) ;; ret 1
    else if (a =? TERMPROCESS) || (a =? TERMINATE) then exit Terminated
    else ret 0
}.

Definition not_registered (j : nat) (w : list birth) : Prop := j ∉ map b_support w.

Lemma meanwhile_refl P (s : sup (list birth)) : meanwhile not_registered P s s.
Proof. split; try done. by eauto. Qed.

#[local] Instance nursery_laws : @InstantiatorLaws umps3 board (list birth) nursery not_registered (fun w => w).
Proof.
  split; try done.
  - intros s a cmd _ _. apply wp_ret. by split; [apply meanwhile_refl|].
  - intros s j c Hc Hu Hj b. unfold wp. cbn [nucleus nursery].
    change (CREATEPROCESS =? DOIO) with false. change (CREATEPROCESS =? CREATEPROCESS) with true.
    cbv iota. rewrite (law_support_addr (N := prompt)). unfold bind at 1, get. cbn [ok_or]. rewrite bind_ret_l, Hj.
    cbn [ok_or]. rewrite bind_ret_l, bind_modify. unfold ret. split; [|done]. split; try done; [by eauto | |].
    + intros x Hx Hux. split; [|done]. unfold not_registered in *. cbn. rewrite map_app.
      rewrite elem_of_not_in_app. split; [done|]. cbn. by rewrite list_elem_of_singleton.
    + intros l [F1 F2 F3]. by split.
Qed.

(** The machine as [test] starts. *)
Definition nursery_start : sup (list birth) :=
  Sup 0 (replicate 8 false) (replicate 16 (Swap 0 0 None)) 0 (replicate 8 zero_support) zero_links None
    blank_state blank_state {[ RAMBASEADDR := 0x20000000; RAMBASESIZE := 0x80000 ]} ∅ 1 0 0 0 0 [] [] [].

Lemma nursery_power_on : power_on not_registered nursery_start.
Proof.
  split; try done.
  - intros j Hj. exists zero_support. split; [|done]. by apply lookup_replicate_2.
  - intros j Hj. unfold UPROCMAX in Hj. do 8 (destruct j as [|j]; [by eexists|]). lia.
  - intros j _. apply not_elem_of_nil.
Qed.

Lemma nursery_no_semaphore x : x < 0x20030010 -> no_semaphore x.
Proof. intros Hx i _. cbn. lia. Qed.

(** All eight are created there. *)
Lemma nursery_runs :
  match test blank_state nursery_start with Exit Terminated s' => length (world s') = 8%nat | _ => False end.
Proof. vm_compute. reflexivity. Qed.

Lemma instantiator_witness :
  ∃ bs s', test blank_state nursery_start = wait_and_end s' ∧ world s' = bs ∧ length bs = UPROCMAX ∧
    NoDup (map b_support bs) ∧ free_list [] s'.
Proof.
  destruct (instantiator_creates_all not_registered (fun w => w) blank_state nursery_start nursery_power_on)
    as (bs & s' & Hborn & Hnd & Hcases).
  - by apply nursery_no_semaphore.
  - by apply nursery_no_semaphore.
  - pose proof nursery_runs as Hruns. destruct Hborn as [Hw _]. change (world s' = bs) in Hw.
    destruct Hcases as [(Hl & _ & _ & Hfree & Hrun)|[(Hl & Hrun & _)|(Hl & Hrun & _)]].
    + exists bs, s'. split; [exact Hrun|]. split; [exact Hw|]. split; [exact Hl|]. split; [exact Hnd|exact Hfree].
    + exfalso. rewrite Hrun in Hruns. rewrite Hw in Hruns. rewrite Hruns in Hl. unfold UPROCMAX in Hl. lia.
    + exfalso. by rewrite Hrun in Hruns.
Defined.
