(* ===== verification/Reading.v ===== *)
(** * Reading a line from a terminal

    READTERMINAL (SYS5, [phase3/src/support.c]) against the terminal it reads
    from: [TypingLaws] says which statuses the receiver answers with, and the
    service stores the line, or stops at the first error. *)

From Stdlib Require Import ZArith Lia String.
From stdpp Require Import base tactics option numbers strings gmap list vector.
From S2P Require Import Prelude ListHead Machine Kernel SupportLevel Pager Paging Support Virtual Uprocs.

Open Scope string_scope.
Open Scope list_scope.
Open Scope Z_scope.

Definition NEWLINE : Z := 10.

(** The status word [v] brings the character [k]. *)
Definition brings (k v : Z) : Prop :=
  RECEIVE_STATUS (u32 v) = DEV_STATUS_TERMINAL_OK ∧ RECEIVE_VALUE (u32 v) = k.

(** The bytes [ks] in memory from the address [a] on. *)
Fixpoint stored (a : Z) (ks : list Z) (m : gmap Z Z) : gmap Z Z :=
  match ks with
  | [] => m
  | k :: ks' => stored (a + 1) ks' (<[u32 a := k]> m)
  end.

Lemma stored_app a ks ks' m :
  stored a (ks ++ ks') m = stored (a + Z.of_nat (length ks)) ks' (stored a ks m).
Proof.
  revert a m. induction ks as [|k ks IH]; intros a m; cbn [app stored length].
  - by rewrite Z.add_0_r.
  - rewrite IH. f_equal. lia.
Qed.

Lemma stored_mod a b ks m : u32 a = u32 b -> stored a ks m = stored b ks m.
Proof.
  revert a b m. induction ks as [|k ks IH]; intros a b m Hab; [done|]. cbn [stored]. rewrite Hab. apply IH.
  unfold u32 in *. rewrite <-(Z.add_mod_idemp_l a), <-(Z.add_mod_idemp_l b) by lia. by rewrite Hab.
Qed.

Lemma received_byte v : 0 <= RECEIVE_VALUE v < 256.
Proof.
  unfold RECEIVE_VALUE. change 0xFF with (Z.ones 8). rewrite Z.land_ones by lia. apply Z.mod_pos_bound. lia.
Qed.

Lemma char_value_byte k : 0 <= k < 256 -> char_value k mod 256 = k.
Proof.
  intros Hk. unfold char_value. rewrite (Z.mod_small k) by lia. destruct (k <? 128).
  - by apply Z.mod_small.
  - rewrite <-(Z.mod_add (k - 256) 1) by lia. rewrite Z.mod_small by lia. lia.
Qed.

Lemma char_value_newline k : 0 <= k < 256 -> (char_value k =? 10) = (k =? NEWLINE).
Proof.
  intros Hk. unfold char_value, NEWLINE. rewrite (Z.mod_small k) by lia.
  destruct (Z.ltb_spec k 128); [done|]. rewrite !(proj2 (Z.eqb_neq _ _)) by lia. done.
Qed.

Section reading.
Context {U : Umps} {Lay : Layout} {W : Type} {N : Nucleus W} {T : Tlb W}.
Context (pending : nat -> list Z -> W -> Prop).
Implicit Types (s : sup W) (i : nat) (c : support_t) (vs : list Z).

(** [pending i vs w]: the receiver of the terminal of process [i] answers the
    next commands with the statuses [vs]; the other calls do not change that. *)
Class TypingLaws : Prop := {
  ty_services :: ServiceLaws (N := N);
  ty_others i vs : keeps_device (pending i vs) i;
  ty_receive s i c v vs : serves i c (pending i (v :: vs)) s ->
    ∃ s', nucleus DOIO (DEV_REG_ADDR IL_TERMINAL (sup_asid c - 1) + RECV_COMMAND) RECEIVE_CHAR 0 s = Ok v s' ∧
      calm i s s' ∧ pending i vs (world s')
}.
Context {TL : TypingLaws}.

(** Process [i], with [c] for its Support Structure and an ASID, and what it
    will read. *)
Definition reads i c vs s : Prop := serves i c (pending i vs) s.

Lemma current_reads i c vs s : reads i c vs s ->
  ∃ s', current_support s = Ok i s' ∧ reads i c vs s' ∧ chars s' = chars s ∧
    calls s' = (GETSUPPORTPTR, 0, 0, 0) :: calls s.
Proof using TL. apply current_serves, ty_others. Qed.

Lemma semaphore_call i c vs s a : reads i c vs s -> a = PASSEREN \/ a = VERHOGEN ->
  let sem := sys5_semaphores + 4 * (sup_asid c - 1) in
  ∃ r s', SYSCALL a sem 0 0 s = Ok r s' ∧ reads i c vs s' ∧ chars s' = chars s ∧
    calls s' = (a, sem, 0, 0) :: calls s.
Proof using TL.
  intros HR Ha sem. apply semaphore_serves; [apply ty_others | done | done |].
  split; [apply HR | by right; right].
Qed.

(** The command that receives a character. *)
Definition receive_call c : Z * Z * Z * Z :=
  (DOIO, DEV_REG_ADDR IL_TERMINAL (sup_asid c - 1) + RECV_COMMAND, RECEIVE_CHAR, 0).

Lemma receive_run i c v vs s : reads i c (v :: vs) s ->
  ∃ s', SYSCALL DOIO (DEV_REG_ADDR IL_TERMINAL (sup_asid c - 1) + RECV_COMMAND) RECEIVE_CHAR 0 s = Ok v s' ∧
    reads i c vs s' ∧ chars s' = chars s ∧ calls s' = receive_call c :: calls s.
Proof using TL.
  intros [R1 R2 R3 R4]. set (s0 := set_calls (receive_call c :: calls s) s).
  destruct (ty_receive s0 i c v vs) as (s' & Hrun & [C1 C2 C3 C4] & Hp); [by split|].
  exists s'. split_and!; [unfold SYSCALL; by rewrite bind_modify | | done..].
  split; [by rewrite C1 | by rewrite C4 | done | done].
Qed.

Lemma replicate_snoc {A} n (x : A) l : replicate n x ++ x :: l = replicate (S n) x ++ l.
Proof. by rewrite replicate_S_end, <-app_assoc. Qed.

(** The loop: [n] characters are in the buffer already. *)
Lemma read_loop_line i c buf line ws v : ∀ s n r fuel,
  reads i c (ws ++ [v]) s -> Forall2 brings line ws -> Forall (fun k => k ≠ NEWLINE) line ->
  (length line < fuel)%nat -> r ≠ 10 -> n + Z.of_nat (length line) + 1 < 2 ^ 32 -> 0 <= n ->
  let received := replicate (S (length line)) (receive_call c) ++ calls s in
  let base := DEV_REG_ADDR IL_TERMINAL (sup_asid c - 1) in
  let sem := sys5_semaphores + 4 * (sup_asid c - 1) in
  (brings NEWLINE v -> (S (length line) < fuel)%nat -> ∃ s',
    read_loop fuel base sem buf r n s = Ok (inr (n + Z.of_nat (length line) + 1)) s' ∧
    reads i c [] s' ∧ calls s' = received ∧ chars s' = stored (buf + n) (line ++ [NEWLINE]) (chars s)) ∧
  (RECEIVE_STATUS (u32 v) ≠ DEV_STATUS_TERMINAL_OK -> ∃ s',
    read_loop fuel base sem buf r n s = Ok (inl (u32 (- RECEIVE_STATUS (u32 v)))) s' ∧
    calls s' = (VERHOGEN, sem, 0, 0) :: received ∧ chars s' = stored (buf + n) line (chars s)).
Proof using TL.
  revert ws. induction line as [|k line IH]; intros ws s n r fuel HR Hl Hnl Hf Hr Hn Hn0.
  - apply Forall2_nil_inv_l in Hl as ->. destruct fuel as [|fuel]; [lia|].
    cbv zeta. cbn [read_loop]. rewrite (proj2 (Z.eqb_neq r 10)) by done.
    destruct (receive_run i c v [] s HR) as (s1 & Hrun1 & HR1 & Hch1 & Hc1). split.
    + intros [Hok Hv] Hf2. destruct fuel as [|fuel]; [cbn in Hf2; lia|]. eexists. split.
      * step_with Hrun1. cbv zeta. rewrite Hok, Z.eqb_refl, Hv. cbn [negb]. unfold write_char. rewrite bind_modify.
        cbn [read_loop]. rewrite u32_small by (cbn in Hn; lia). cbn [length]. by rewrite Z.add_0_r.
      * split_and!; [by destruct HR1 | done | by rewrite Hch1].
    + intros Hbad. destruct (semaphore_call i c [] s1 VERHOGEN HR1 ltac:(auto)) as (r2 & s2 & Hrun2 & HR2 & Hch2 & Hc2).
      exists s2. split; [|by rewrite Hc2, Hc1, Hch2, Hch1].
      step_with Hrun1. cbv zeta. rewrite (proj2 (Z.eqb_neq _ _) Hbad). cbn [negb]. by step_with Hrun2.
  - apply Forall2_cons_inv_l in Hl as (w & ws' & Hk & Hl & ->). destruct fuel as [|fuel]; [lia|].
    apply Forall_cons in Hnl as [Hnk Hnl]. pose proof (received_byte (u32 w)) as Hbyte.
    destruct Hk as [Hok Hv]. rewrite Hv in Hbyte.
    destruct (receive_run i c w (ws' ++ [v]) s HR) as (s1 & Hrun1 & HR1 & Hch1 & Hc1).
    set (s2 := set_chars (<[u32 (buf + n) := k]> (chars s1)) s1).
    assert (reads i c (ws' ++ [v]) s2) as HR2 by (by destruct HR1).
    assert (∀ X, (read_loop (S fuel) (DEV_REG_ADDR IL_TERMINAL (sup_asid c - 1)) (sys5_semaphores + 4 * (sup_asid c - 1)) buf r n s = X) <->
      read_loop fuel (DEV_REG_ADDR IL_TERMINAL (sup_asid c - 1)) (sys5_semaphores + 4 * (sup_asid c - 1)) buf (char_value k) (n + 1) s2 = X) as Hstep.
    { intros X. cbn [read_loop]. rewrite (proj2 (Z.eqb_neq r 10)) by done. step_with Hrun1. cbv zeta.
      rewrite Hok, Z.eqb_refl, Hv. cbn [negb]. unfold write_char. rewrite bind_modify, char_value_byte by done.
      rewrite u32_small by (cbn [length] in Hn; lia). done. }
    cbn [length] in *.
    destruct (IH ws' s2 (n + 1) (char_value k) fuel HR2 Hl Hnl) as [IHa IHb]; [lia | | lia | lia |].
    { apply Z.eqb_neq. rewrite char_value_newline by done. by apply Z.eqb_neq. }
    assert (calls s2 = receive_call c :: calls s) as Hc2 by done. rewrite Hc2 in IHa, IHb.
    rewrite (replicate_snoc (S (length line))) in IHa, IHb. cbv zeta. replace (n + Z.of_nat (S (length line)) + 1) with (n + 1 + Z.of_nat (length line) + 1) by lia.
    assert (chars s2 = <[u32 (buf + n) := k]> (chars s)) as Hch2 by (unfold s2; cbn; by rewrite Hch1).
    rewrite Hch2, Z.add_assoc in IHa, IHb. split.
    + intros Hbr Hf2. destruct (IHa Hbr ltac:(lia)) as (s' & Hrun & Hrest). exists s'. split; [by apply Hstep | exact Hrest].
    + intros Hbad. destruct (IHb Hbad) as (s' & Hrun & Hrest). exists s'. split; [by apply Hstep | exact Hrest].
Qed.
End reading.

Section theorems.
Context {U : Umps} {Lay : Layout} {W : Type} {N : Nucleus W}.
Context (pending : nat -> list Z -> W -> Prop) {TL : TypingLaws pending}.

(** C38: READTERMINAL reads a line, for a process with an ASID from 1 to 8.  Between taking and releasing the semaphore
    of the terminal it receives characters up to the first newline, stores
    them in order in the buffer of the caller, the newline and a terminator
    included, and returns how many there were, however many there are: nothing
    bounds the line.  At a receive error it stops, keeps what it has stored so
    far, releases the semaphore all the same and returns the negated status; a
    buffer below [KUSEG] terminates the process before anything is read. *)
Theorem terminal_line_read i (c : support_t) (s : sup W) line ws v fuel :
  reads pending i c (ws ++ [v]) s ->
  let buf := u32 (reg_a1 (sup_except_state c !!! GENERALEXCEPT)) in
  let semaphore := sys5_semaphores + 4 * (sup_asid c - 1) in
  let exchange := (VERHOGEN, semaphore, 0, 0) :: replicate (S (length line)) (receive_call c)
    ++ (PASSEREN, semaphore, 0, 0) :: (GETSUPPORTPTR, 0, 0, 0) :: calls s in
  (buf < KUSEG -> ∃ s', sys_read_terminal fuel s = Exit (PassedUp TERMINATE) s' ∧ chars s' = chars s) ∧
  (KUSEG <= buf -> Forall2 brings line ws -> Forall (fun k => k ≠ NEWLINE) line ->
   (S (length line) < fuel)%nat -> Z.of_nat (length line) + 1 < 2 ^ 32 ->
    (brings NEWLINE v -> ∃ s', sys_read_terminal fuel s = Ok (Z.of_nat (length line) + 1) s' ∧
      calls s' = exchange ∧ chars s' = stored buf (line ++ [NEWLINE; EOS]) (chars s)) ∧
    (RECEIVE_STATUS (u32 v) ≠ DEV_STATUS_TERMINAL_OK -> ∃ s',
      sys_read_terminal fuel s = Ok (u32 (- RECEIVE_STATUS (u32 v))) s' ∧
      calls s' = exchange ∧ chars s' = stored buf line (chars s))).
Proof.
  intros HR buf semaphore exchange.
  destruct (current_reads pending i c _ s HR) as (s0 & Hcur & HR0 & Hch0 & Hc0).
  assert (∀ X, sys_read_terminal fuel s = X <-> (when buf <? KUSEG do (_ <- SYSCALL TERMINATE 0 0 0 ;; ret tt) ;;
      _ <- SYSCALL PASSEREN semaphore 0 0 ;;
      res <- read_loop fuel (DEV_REG_ADDR IL_TERMINAL (sup_asid c - 1)) semaphore buf EOS 0 ;;
      match res with
      | inl r => ret r
      | inr read => _ <- SYSCALL VERHOGEN semaphore 0 0 ;; write_char (buf + read) EOS ;; ret read
      end) s0 = X) as Hrun.
  { intros X. unfold sys_read_terminal. step_with Hcur. by step_with (support_at_ok s0 i c (sr_mine _ _ _ _ HR0)). }
  split.
  { intros Hlow. rewrite (proj2 (Z.ltb_lt _ _) Hlow) in Hrun. destruct (refuses i s0 (sr_current _ _ _ _ HR0)) as (s1 & Hrun1 & Hch1 & _).
    exists s1. split; [apply Hrun; rewrite bind_assoc; by step_with Hrun1 | by rewrite Hch1]. }
  intros Hhigh Hl Hnl Hf Hlen. rewrite (proj2 (Z.ltb_ge _ _) Hhigh) in Hrun.
  destruct (semaphore_call pending i c _ s0 PASSEREN HR0 ltac:(auto)) as (r1 & s1 & Hrun1 & HR1 & Hch1 & Hc1).
  destruct (read_loop_line pending i c buf line ws v s1 0 EOS fuel HR1 Hl Hnl) as [Hgood Hbad]; [lia|done|lia|lia|].
  assert (chars s1 = chars s) as Hch by (by rewrite Hch1). rewrite Hch, Hc1, Hc0, Z.add_0_r, ?Z.add_0_l in Hgood, Hbad. split.
  - intros Hv. destruct (Hgood Hv Hf) as (s2 & Hrun2 & HR2 & Hc2 & Hch2).
    destruct (semaphore_call pending i c _ s2 VERHOGEN HR2 ltac:(auto)) as (r3 & s3 & Hrun3 & HR3 & Hch3 & Hc3).
    eexists. split; [apply Hrun; rewrite bind_ret_l; step_with Hrun1; step_with Hrun2; step_with Hrun3; reflexivity|].
    split; [by cbn; rewrite Hc3, Hc2|]. cbn [chars set_chars]. rewrite Hch3, Hch2.
    change [NEWLINE; EOS] with ([NEWLINE] ++ [EOS]). rewrite app_assoc, (stored_app _ (line ++ [NEWLINE])), length_app.
    cbn [stored length]. do 3 f_equal. lia.
  - intros Hv. destruct (Hbad Hv) as (s2 & Hrun2 & Hc2 & Hch2).
    exists s2. split; [apply Hrun; rewrite bind_ret_l; step_with Hrun1; by step_with Hrun2|]. by rewrite Hc2.
Qed.
End theorems.

(** ** An instance: a keyboard on which a line has been typed *)

#[local] Existing Instance umps3.

#[local] Instance keyboard : Nucleus (list Z) := {
  nucleus a b c d :=
    if a =? GETSUPPORTPTR then
      i <- gets current ;; ret (match i with Some i => support_addr i | None => 0 end)
    else if a =? DOIO then
      w <- gets world ;;
      match w with [] => ret 0 | v :: w' => modify (set_world w') ;; ret v end
    else if 0 <? a then
      i <- gets current ;;
      match i with
      | Some i => modify (saves_general i (call_state a)) ;; exit (PassedUp a)
      | None => exit Terminated
      end
    else ret 0
}.

Definition typed_ahead (i : nat) (vs w : list Z) : Prop := w = vs.

#[local] Instance keyboard_laws : @TypingLaws umps3 board (list Z) keyboard typed_ahead.
Proof.
  split.
  - split.
    + apply (law_support_addr (N := prompt)).
    + intros s i Hc. exists s. split; [cbn; rewrite bind_gets; by rewrite Hc | by split].
    + intros s i c a sem _ _ Ha _. exists 0, s. split; [by destruct Ha as [-> | ->] | by split].
    + intros s i Hc. exists (call_state TERMINATE). cbn. rewrite bind_gets. by rewrite Hc.
  - intros i vs s a b r s' _ Ha Hp Hrun. destruct Ha as [-> | [-> | ->]]; cbn in Hrun; by injection Hrun as <- <-.
  - intros s i c v vs [_ _ _ Hp]. unfold typed_ahead in *. cbn. rewrite bind_gets, Hp, bind_modify.
    eexists. split; [reflexivity|]. by split.
Qed.

(** The U-proc of ASID 1 reads "hi" and a newline. *)
Definition received (k : Z) : Z := Z.lor (Z.shiftl k 8) DEV_STATUS_TERMINAL_OK.
Definition reading_support : support_t := uproc_support 1 blank_state (set_reg_a1 0x80002000 blank_state).
Definition hi_typed : list Z := [received 104; received 105].

Definition at_keyboard : sup (list Z) :=
  Sup 0x20040000 (repeat false 8) [] (2 ^ 32 - 1) [reading_support] ∅ (Some 0%nat) blank_state blank_state
    ∅ ∅ 1 0 0 0 0 [] [] (hi_typed ++ [received NEWLINE]).

Lemma terminal_line_witness :
  ∃ s', sys_read_terminal 4 at_keyboard = Ok 3 s' ∧
    chars s' = stored 0x80002000 [104; 105; NEWLINE; EOS] ∅.
Proof.
  assert (reads typed_ahead 0 reading_support (hi_typed ++ [received NEWLINE]) at_keyboard) as HR by (by split; [| |cbn|]).
  assert (u32 (reg_a1 (sup_except_state reading_support !!! GENERALEXCEPT)) = 0x80002000) as Hbuf by reflexivity.
  destruct (terminal_line_read typed_ahead 0 reading_support at_keyboard [104; 105] hi_typed (received NEWLINE) 4 HR)
    as [_ Hread].
  rewrite Hbuf in Hread. destruct Hread as [Hread _].
  - discriminate.
  - repeat constructor.
  - repeat constructor; discriminate.
  - apply le_n.
  - reflexivity.
  - destruct (Hread ltac:(by split)) as (s' & Hrun & _ & Hch). exists s'. exact (conj Hrun Hch).
Defined.
