(* ===== verification/Ending.v ===== *)
(** * The end of a U-proc

    The two levels together: the support level's TERMINATE, the nucleus'
    TERMPROCESS, and the way back into the support level when the nucleus
    passes the call up.  [Lifecycle.handed_up_trap] is what the nucleus does
    with a TERMPROCESS of pid 0 by a process that has a Support Structure;
    [EndLaws] states the same of the nucleus under the support level. *)

From Stdlib Require Import ZArith Lia String.
From stdpp Require Import base tactics option numbers strings gmap list vector.
From S2P Require Import Prelude ListHead Machine Kernel Syscall SupportLevel Pager Paging Support Virtual Uprocs.

Open Scope string_scope.
Open Scope list_scope.
Open Scope Z_scope.

Section ending.
Context {U : Umps} {Lay : Layout} {W : Type} {N : Nucleus W} {T : Tlb W}.
Context (unborn : nat -> W -> Prop).
Implicit Types (s : sup W) (i : nat) (a : Z) (l : list nat) (c : support_t).

(** A system call with any number but those of the other services. *)
Definition asks_to_end (st : state_t) : Prop :=
  CAUSE_GET_EXCCODE (cause st) = 8 ∧
  s32 (reg_a0 st) ∉ [GET_TOD; WRITEPRINTER; WRITETERMINAL; READTERMINAL].

(** The nucleus as a process that ends sees it: others may run while it
    calls and take or give back Support Structures of their own, but not this
    one (the instantiator waits, so no structure is filled in anew), and
    TERMPROCESS with pid 0 is handed up with the caller's registers. *)
Class EndLaws : Prop := {
  end_pool :: NucleusLaws (N := N) unborn;
  end_getsupportptr s i a l : current s = Some i -> has_asid i a s -> free_list l s ->
    ∃ s' l', nucleus GETSUPPORTPTR 0 0 0 s = Ok (support_addr i) s' ∧ yields i a s s' ∧ free_list l' s' ∧ (i ∈ l' <-> i ∈ l);
  end_verhogen s i a l sem : current s = Some i -> has_asid i a s -> free_list l s ->
    sem = master_semaphore \/ sem = sem_swap_pool_table ->
    ∃ r s' l', nucleus VERHOGEN sem 0 0 s = Ok r s' ∧ yields i a s s' ∧ free_list l' s' ∧ (i ∈ l' <-> i ∈ l);
  end_termprocess s i : current s = Some i ->
    ∃ st, CAUSE_GET_EXCCODE (cause st) = 8 ∧ s32 (reg_a0 st) = TERMPROCESS ∧
      nucleus TERMPROCESS 0 0 0 s = Exit (PassedUp TERMPROCESS) (saves_general i st s)
}.
Context {EL : EndLaws}.

(** Process [i] of ASID [a] has come to its end: [l] is the list of the free
    Support Structures, [b] whether it holds the Swap Pool. *)
Record ends i a l (b : bool) c s : Prop := {
  en_current : current s = Some i;
  en_mine : support_table s !! i = Some c;
  en_asid : sup_asid c = a ∧ 1 <= a <= 8;
  en_table : numbered c;
  en_inv : pool_inv s;
  en_baton : baton a s = Some b;
  en_free : free_list l s
}.

Lemma ends_has_asid i a l b c s : ends i a l b c s -> has_asid i a s.
Proof using. intros [_ Hc [Ha Hr] Hn _ _ _]. split; [done|]. by exists c. Qed.

(** Registers, words, messages and calls do not matter. *)
Lemma ends_ext i a l b c s s' : current s' = current s -> support_table s' = support_table s ->
  swap_pool_table s' = swap_pool_table s -> swap_pool_batons s' = swap_pool_batons s ->
  support_links s' = support_links s -> ends i a l b c s -> ends i a l b c s'.
Proof using.
  intros H1 H2 H3 H4 H5 [E1 E2 E3 E4 E5 E6 [F1 F2 F3]].
  split; [congruence | congruence | done | done | by apply (pool_inv_ext s) | by unfold baton; rewrite H4|].
  split; [by rewrite H5 | by rewrite H5 | done].
Qed.

(** Others run in between. *)
Lemma ends_yields i a l l' b c s s' : ends i a l b c s -> yields i a s s' -> free_list l' s' -> ends i a l' b c s'.
Proof using.
  intros [E1 E2 E3 E4 E5 E6 E7] [Y1 Y2 Y3 Y4 Y5 Y6 Y7] Hf.
  split; [by rewrite Y1 | by rewrite Y5 | done | done | by apply Y7 | by rewrite Y6 | done].
Qed.

Lemma ends_call i a l b c s x : ends i a l b c s -> ends i a l b c (set_calls (x :: calls s) s).
Proof using. by apply ends_ext. Qed.

Lemma ends_verhogen i a l b c s sem : ends i a l b c s ->
  sem = master_semaphore \/ sem = sem_swap_pool_table ->
  ∃ r s' l', SYSCALL VERHOGEN sem 0 0 s = Ok r s' ∧ ends i a l' b c s' ∧ (i ∈ l' <-> i ∈ l) ∧
    calls s' = (VERHOGEN, sem, 0, 0) :: calls s.
Proof using EL.
  intros He Hsem. apply (ends_call i a l b c s (VERHOGEN, sem, 0, 0)) in He. set (s0 := set_calls _ s) in *.
  destruct (end_verhogen s0 i a l sem (en_current _ _ _ _ _ _ He) (ends_has_asid _ _ _ _ _ _ He) (en_free _ _ _ _ _ _ He) Hsem)
    as (r & s' & l' & Hrun & Hy & Hf & Hl).
  exists r, s', l'. split_and!; [unfold SYSCALL; by rewrite bind_modify | by eapply ends_yields | tauto..|].
  exact (y_calls _ _ _ _ Hy).
Qed.

Lemma ends_clean i a l b c s : ends i a l b c s ->
  ∃ s' l', clean_after_uproc a s = Ok tt s' ∧ ends i a l' b c s' ∧ (i ∈ l' <-> i ∈ l) ∧
    calls s' = (if b then [(VERHOGEN, sem_swap_pool_table, 0, 0)] else []) ++ calls s.
Proof using EL.
  intros He. unfold clean_after_uproc, release_sem_swap_pool_table.
  assert (∃ s1 l1, (bo <- get_swap_pool_baton a ;; when bo do (_ <- SYSCALL VERHOGEN sem_swap_pool_table 0 0 ;; ret tt)) s
    = Ok tt s1 ∧ ends i a l1 b c s1 ∧ (i ∈ l1 <-> i ∈ l) ∧
    calls s1 = (if b then [(VERHOGEN, sem_swap_pool_table, 0, 0)] else []) ++ calls s)
    as (s1 & l1 & Hrun1 & He1 & Hl1 & Hc1).
  { step_with (get_swap_pool_baton_ok a s b (proj2 (en_asid _ _ _ _ _ _ He)) (en_baton _ _ _ _ _ _ He)). destruct b.
    - destruct (ends_verhogen i a l true c s sem_swap_pool_table He (or_intror eq_refl)) as (r & s1 & l1 & Hrun & He1 & Hl & Hc).
      exists s1, l1. split_and!; [by step_with Hrun | done..].
    - by exists s, l. }
  step_with Hrun1. exists (set_swap_pool_table (vacate a <$> swap_pool_table s1) s1), l1.
  destruct He1 as [E1 E2 E3 E4 E5 E6 [F1 F2 F3]].
  split_and!; [apply mark_frames_run, E5 | | tauto..| done].
  split; try done. by apply pool_inv_vacate.
Qed.

Lemma ends_links i a l l' b c s s' : only_links s s' -> free_list l' s' -> ends i a l b c s -> ends i a l' b c s'.
Proof using. intros -> Hf [E1 E2 E3 E4 E5 E6 _]. split; try done. by apply (pool_inv_ext s). Qed.

(** A table in which only a saved state has changed. *)
Lemma ends_saved i a l b c st s : ends i a l b c s ->
  ends i a l b (passed_up GENERALEXCEPT st c) (saves_general i st s).
Proof using.
  intros [E1 E2 E3 E4 E5 E6 [F1 F2 F3]].
  split; try done; [cbn; by rewrite list_lookup_alter_eq, E2|]. by apply pool_inv_saves.
Qed.

(** ** The two passes through the support level *)

Lemma current_support_run i a l b c s : ends i a l b c s ->
  ∃ s' l', current_support s = Ok i s' ∧ ends i a l' b c s' ∧ (i ∈ l' <-> i ∈ l) ∧
    calls s' = (GETSUPPORTPTR, 0, 0, 0) :: calls s.
Proof using EL.
  intros He. apply (ends_call i a l b c s (GETSUPPORTPTR, 0, 0, 0)) in He. set (s0 := set_calls _ s) in *.
  destruct (end_getsupportptr s0 i a l (en_current _ _ _ _ _ _ He) (ends_has_asid _ _ _ _ _ _ He) (en_free _ _ _ _ _ _ He))
    as (s' & l' & Hrun & Hy & Hf & Hl).
  exists s', l'. split_and!; [|by eapply ends_yields | tauto..|exact (y_calls _ _ _ _ Hy)].
  unfold current_support, SYSCALL. rewrite bind_assoc, bind_modify. step_with Hrun.
  unfold support_ptr. by rewrite law_support_addr.
Qed.

(** Any number but those of the other services leads to [sys_terminate]. *)
Lemma support_syscall_ends i a l b c s fuel : ends i a l b c s ->
  s32 (reg_a0 (sup_except_state c !!! GENERALEXCEPT)) ∉ [GET_TOD; WRITEPRINTER; WRITETERMINAL; READTERMINAL] ->
  ∃ s', support_syscall fuel i s = sys_terminate s' ∧ ends i a l b c s' ∧ calls s' = calls s.
Proof using.
  intros He Hid. unfold support_syscall. rewrite !bind_modify.
  match goal with |- context [bind (support_at i) _ ?x] => set (s1 := x) end.
  assert (ends i a l b c s1) as He1 by (by apply (ends_ext _ _ _ _ _ s)).
  step_with (support_at_ok s1 i c (en_mine _ _ _ _ _ _ He1)). cbv zeta. unfold kfprintf. rewrite bind_modify.
  set (id := s32 _) in *. rewrite !not_elem_of_cons in Hid. destruct Hid as (H1 & H2 & H3 & H4 & _).
  rewrite !(proj2 (Z.eqb_neq _ _)) by done.
  eexists. split; [reflexivity|]. split; [by apply (ends_ext _ _ _ _ _ s1) | done].
Qed.

Lemma support_generic_ends i a l b c s fuel : ends i a l b c s -> asks_to_end (sup_except_state c !!! GENERALEXCEPT) ->
  ∃ s' l', (∀ e s2, sys_terminate s' = Exit e s2 -> support_generic fuel s = Exit e s2) ∧
    ends i a l' b c s' ∧ (i ∈ l' <-> i ∈ l) ∧ calls s' = (GETSUPPORTPTR, 0, 0, 0) :: calls s.
Proof using EL.
  intros He [Hcode Hid]. destruct (current_support_run i a l b c s He) as (s0 & l' & Hrun0 & He0 & Hl & Hc0).
  destruct (support_syscall_ends i a l' b c s0 fuel He0 Hid) as (s' & Hrun & He' & Hc').
  exists s', l'. split; [intros e s2 Hend | split_and!; [done | tauto..| by rewrite Hc']]. unfold support_generic.
  step_with Hrun0.
  step_with (support_at_ok s0 i c (en_mine _ _ _ _ _ _ He0)). rewrite Hcode. change (s32 8 =? 8) with true.
  cbv iota zeta. apply bind_exit. by rewrite Hrun.
Qed.

(** [sys_terminate] up to the Support Structure's return. *)
Lemma sys_terminate_cleans i a l b c s : ends i a l b c s ->
  ∃ s' l', sys_terminate s = (deallocate_support i ;; master_semaphore_v ;; _ <- SYSCALL TERMPROCESS 0 0 0 ;; ret tt) s' ∧
    ends i a l' b c s' ∧ (i ∈ l' <-> i ∈ l) ∧
    calls s' = (if b then [(VERHOGEN, sem_swap_pool_table, 0, 0)] else []) ++ (GETSUPPORTPTR, 0, 0, 0) :: calls s.
Proof using EL.
  intros He. unfold sys_terminate. destruct (current_support_run i a l b c s He) as (s0 & l0 & Hrun0 & He0 & Hl0 & Hc0).
  step_with Hrun0. step_with (support_at_ok s0 i c (en_mine _ _ _ _ _ _ He0)). rewrite (proj1 (en_asid _ _ _ _ _ _ He)).
  destruct (ends_clean i a l0 b c s0 He0) as (s1 & l1 & Hrun & He1 & Hl & Hc). step_with Hrun.
  exists s1, l1. split_and!; [done | done | tauto..|]. by rewrite Hc, Hc0.
Qed.

(** The first pass: everything is given back, and TERMPROCESS is handed up. *)
Lemma first_pass i a l b c s : ends i a l b c s -> (i < UPROCMAX)%nat -> i ∉ l ->
  ∃ st s' l', sys_terminate s = Exit (PassedUp TERMPROCESS) s' ∧
    CAUSE_GET_EXCCODE (cause st) = 8 ∧ s32 (reg_a0 st) = TERMPROCESS ∧
    ends i a l' b (passed_up GENERALEXCEPT st c) s' ∧ i ∈ l' ∧
    calls s' = (TERMPROCESS, 0, 0, 0) :: (VERHOGEN, master_semaphore, 0, 0)
      :: (if b then [(VERHOGEN, sem_swap_pool_table, 0, 0)] else []) ++ (GETSUPPORTPTR, 0, 0, 0) :: calls s.
Proof using EL.
  intros He Hi Hil. destruct (sys_terminate_cleans i a l b c s He) as (s1 & l1 & -> & He1 & Hl1 & Hc1).
  destruct (deallocate_run l1 s1 i (en_free _ _ _ _ _ _ He1) Hi ltac:(tauto)) as (s2 & Hrun2 & Hf2 & Ho2).
  unfold deallocate_support. step_with Hrun2. pose proof (ends_links _ _ _ _ _ _ _ _ Ho2 Hf2 He1) as He2.
  destruct (ends_verhogen i a _ b c s2 master_semaphore He2 (or_introl eq_refl)) as (r & s3 & l3 & Hrun3 & He3 & Hl3 & Hc3).
  unfold master_semaphore_v. rewrite bind_assoc. step_with Hrun3. rewrite bind_ret_l.
  unfold SYSCALL. rewrite bind_assoc, bind_modify. set (s4 := set_calls _ s3).
  assert (ends i a l3 b c s4) as He4 by (by apply (ends_ext _ _ _ _ _ s3)).
  destruct (end_termprocess s4 i (en_current _ _ _ _ _ _ He4)) as (st & Hcode & Hid & Hrun4).
  exists st, (saves_general i st s4), l3. split_and!; [by apply bind_exit | done | done | by apply ends_saved | |].
  - apply Hl3. left.
  - cbn. rewrite Hc3. do 2 f_equal. rewrite Ho2. cbn. exact Hc1.
Qed.

(** The second pass stops the machine. *)
Lemma second_pass i a l b c s : ends i a l b c s -> i ∈ l ->
  ∃ s', sys_terminate s = Exit Stopped s' ∧
    hd_error (slog s') = Some ("Double support_t %p deallocation.\n", [support_addr i]).
Proof using EL.
  intros He Hil. destruct (sys_terminate_cleans i a l b c s He) as (s1 & l1 & -> & He1 & Hl1 & Hc1).
  pose proof (proj2 Hl1 Hil) as Hil1.
  exists (set_slog (("Double support_t %p deallocation.\n", [support_addr i]) :: slog s1) s1). split; [|done].
  apply bind_exit. unfold deallocate_support, deallocate. rewrite bool_decide_eq_false_2 by done.
  rewrite bind_ret_l, (bind_ok_or _ _ _ _ i) by done. cbv zeta.
  step_with (free_contains l1 s1 i (en_free _ _ _ _ _ _ He1)). by rewrite bool_decide_eq_true_2.
Qed.
End ending.

Section theorems.
Context {U : Umps} {Lay : Layout} {W : Type} {N : Nucleus W} {T : Tlb W}.
Context (unborn : nat -> W -> Prop) {EL : EndLaws unborn}.

(** C39: a U-proc that asks for its end stops the whole machine.  The first
    pass through the support level does what it should: the Swap Pool is
    released if the process held it, the Support Structure goes back to the
    free list, the instantiator is signalled, and TERMPROCESS is called with
    pid 0; but the nucleus hands that call up to the general exception handler
    of the same process, which ends the process a second time and panics when
    it finds the Support Structure free. *)
Theorem uproc_end_stops_machine i a l b (c : support_t) (s : sup W) fuel :
  ends i a l b c s -> (i < UPROCMAX)%nat -> i ∉ l -> asks_to_end (sup_except_state c !!! GENERALEXCEPT) ->
  ∃ st s1 l1 s2,
    support_generic fuel s = Exit (PassedUp TERMPROCESS) s1 ∧
    support_table s1 !! i = Some (passed_up GENERALEXCEPT st c) ∧ s32 (reg_a0 st) = TERMPROCESS ∧
    free_list l1 s1 ∧ i ∈ l1 ∧
    calls s1 = (TERMPROCESS, 0, 0, 0) :: (VERHOGEN, master_semaphore, 0, 0)
      :: (if b then [(VERHOGEN, sem_swap_pool_table, 0, 0)] else [])
      ++ (GETSUPPORTPTR, 0, 0, 0) :: (GETSUPPORTPTR, 0, 0, 0) :: calls s ∧
    support_generic fuel s1 = Exit Stopped s2 ∧
    hd_error (slog s2) = Some ("Double support_t %p deallocation.\n", [support_addr i]).
Proof.
  intros He Hi Hil Hask.
  destruct (support_generic_ends unborn i a l b c s fuel He Hask) as (s0 & l0 & Hgo & He0 & Hl0 & Hc0).
  destruct (first_pass unborn i a l0 b c s0 He0 Hi ltac:(tauto)) as (st & s1 & l1 & Hrun & Hcode & Hid & He1 & Hl1 & Hc1).
  assert (asks_to_end (sup_except_state (passed_up GENERALEXCEPT st c) !!! GENERALEXCEPT)) as Hask1.
  { unfold passed_up. cbn [sup_except_state set_sup_except_state]. rewrite vlookup_insert. split; [done|].
    rewrite Hid. by vm_compute; set_solver. }
  destruct (support_generic_ends unborn i a l1 b _ s1 fuel He1 Hask1) as (s1' & l1' & Hgo1 & He1' & Hl1' & _).
  destruct (second_pass unborn i a l1' b _ s1' He1' (proj2 Hl1' Hl1)) as (s2 & Hrun2 & Hlog).
  exists st, s1, l1, s2. split_and!; [by apply Hgo | apply He1 | done | apply He1 | done | | by apply Hgo1 | done].
  by rewrite Hc1, Hc0.
Qed.
End theorems.

(** ** An instance *)

#[local] Existing Instance umps3.

(** [prompt], but TERMPROCESS is handed up. *)
#[local] Instance handing : Nucleus tlb := {
  nucleus a b c d :=
    if a =? TERMPROCESS then
      i <- gets current ;; i <- ok_or "no process" i ;;
      modify (saves_general i (call_state TERMPROCESS)) ;; exit (PassedUp TERMPROCESS)
    else nucleus (Nucleus := prompt) a b c d
}.

#[local] Instance handing_pool : @NucleusLaws umps3 board tlb handing (fun _ _ => True).
Proof.
  destruct prompt_laws as [L1 L2 L3 L4 L5 L6 L7 L8].
  split; [exact L1 | exact L2 | exact L3 | exact L4 | exact L5 | exact L6 | exact L7 | exact L8].
Qed.

#[local] Instance handing_laws : @EndLaws umps3 board tlb handing (fun _ _ => True).
Proof.
  split.
  - exact handing_pool.
  - intros s i a l Hc _ Hf. exists s, l. split_and!; [cbn; rewrite bind_gets; by rewrite Hc | apply yields_refl | done | tauto..].
  - intros s i a l sem _ _ Hf _. exists 0, s, l. split_and!; [done | apply yields_refl | done | tauto..].
  - intros s i Hc. exists (call_state TERMPROCESS). split_and!; [done..|].
    cbn [nucleus handing]. change (TERMPROCESS =? TERMPROCESS) with true. cbv iota. rewrite bind_gets, Hc. done.
Qed.

(** The only U-proc has called TERMINATE. *)
Definition last_support : support_t := uproc_support 1 blank_state (call_state TERMINATE).
Definition last_one : sup tlb :=
  set_support_links (support_links no_supports)
    (machine (Some 0%nat) [last_support] (replicate 16 free_frame)).

Lemma last_one_ends : ends 0 1 [] false last_support last_one.
Proof.
  split; [done | done | by split; [|lia] | apply uproc_numbered | | done |].
  - apply (pool_inv_ext (machine (Some 0%nat) [last_support] (replicate 16 free_frame))); [done..|].
    apply first_inv.
  - destruct emptied_free as [F1 F2 F3]. by split.
Qed.

Lemma uproc_end_witness :
  ∃ s1 s2, support_generic 1 last_one = Exit (PassedUp TERMPROCESS) s1 ∧
    support_generic 1 s1 = Exit Stopped s2.
Proof.
  destruct (uproc_end_stops_machine (fun _ _ => True) 0 1 [] false last_support last_one 1 last_one_ends)
    as (st & s1 & l1 & s2 & Hrun1 & _ & _ & _ & _ & _ & Hrun2 & _).
  - unfold UPROCMAX. lia.
  - apply not_elem_of_nil.
  - split; [reflexivity|]. vm_compute. intros H. repeat (apply elem_of_cons in H as [H|H]; [discriminate H|]).
    by apply not_elem_of_nil in H.
  - exists s1, s2. exact (conj Hrun1 Hrun2).
Defined.
